(* ===== verification/_CoqProject ===== *)
-Q . S2P
Prelude.v
Codec.v
IQueue.v
KcpState.v
KcpMemory.v
KcpMemoryInv.v
KcpMemoryThms.v
KcpAck.v
KcpRecv.v
KcpSend.v
KcpInput.v
KcpFlush.v
KcpWire.v
KcpFrames.v
KcpTransfer.v
KcpTransferSteps.v
KcpSystem.v
KcpWf.v
KcpWfSnd.v
KcpFlushSpec.v
KcpSafety.v
KcpTheorems.v
KcpSession.v
KcpDataThms.v
KcpLink.v
KcpTimerThms.v
KcpHeld.v
KcpDuplex.v
KcpResume.v
KcpWireThms.v
ConnectPacket.v
SessionLink.v
StdString.v
Clock.v
TestStr.v
Server.v
ServerThms.v
ServerEvents.v
Client.v
ClientWrap.v
ClientThms.v
EndToEnd.v
StrUtil.v
Diagnostics.v
BinaryStream.v
WideString.v
LogBuffer.v
ThreadQueue.v
Multicast.v
ServerFacade.v
AsioClient.v
McServerApp.v
McClientApp.v
McTestServer.v
UnitTests.v
