(* ===== verification/Prelude.v ===== *)
(** * asio_kcp: a verification library

    asio_kcp is a client and server library for game traffic: the reliable
    protocol KCP over UDP, a text handshake that hands out conversation ids, a
    server that keeps one KCP control block per client, a client with a work
    thread, and a multicast extension.  This library models the program's own
    logic as executable functions and proves what makes it correct; where the code
    does not do what it means to, a theorem says what it does.

    ** The parts and their files

    KCP, src/util/ikcp.c and ikcp.h.  The control block IKCPCB is the record
    [ikcpcb] of [KcpState], with every field of the C structure; segments are the
    record [IKCPSEG].  The queues are lists; [IQueue] models the pointer macros on
    a heap and shows that they implement the list operations.
    - [Codec]: encoders and decoders of both byte orders, integer helpers;
      [KcpWire]: a segment written is read back.
    - [KcpState]: constants, ikcp_create, ikcp_setmtu, ikcp_nodelay, ikcp_interval,
      ikcp_wndsize; [KcpAck]: the array of pending acknowledgements.
    - [KcpMemory]: the blocks a control block owns and the operations on them,
      ikcp_release and ikcp_allocator included; [KcpMemoryInv] and [KcpMemoryThms]:
      who owns which block, and that all are returned.
    - [KcpRecv]: ikcp_peeksize, ikcp_recv, ikcp_parse_data.  [KcpSend]: ikcp_send,
      the round trip estimator, ikcp_parse_ack, ikcp_parse_una.  [KcpInput]:
      ikcp_input.  [KcpFlush]: ikcp_flush, ikcp_update, ikcp_check.
    - [KcpFrames], [KcpWf], [KcpWfSnd], [KcpSafety]: what each step leaves alone,
      the invariant [kcp_wf] of the control block and its preservation.
    - [KcpFlushSpec]: the reference description of a flush.
    - [KcpTransfer], [KcpTransferSteps], [KcpSystem]: two endpoints, a network that
      loses, duplicates, delays and reorders, and the invariant that relates them.
    - [KcpTheorems], [KcpDataThms], [KcpTimerThms], [KcpWireThms]: the theorems.
    - [KcpLink]: two endpoints over a link that loses nothing, round by round.
    - [KcpHeld]: what one endpoint takes in of the segments of the other;
      [KcpDuplex]: the relation of the two under any network, and that nothing is
      discarded; [KcpResume]: that delivery resumes when the network does.

    The interface.  [KcpSession] states, as a class, what client and server use of
    a control block ([KcpSession], the operations; [KcpSafe], the guarantees) and
    discharges it for ikcp.c.  Client and server are proved against the class.

    The handshake, src/util/connect_packet.cpp: [ConnectPacket].  [SessionLink]: the
    calls of the libraries on a control block as steps of one of two endpoints.

    The server, src/server_lib.  [Server]: connection.cpp,
    connection_container.cpp, connection_manager.cpp, one function per method or
    handler; datagrams sent and events reported are returned as effects in the
    order of the calls.  [ServerThms]: handler by handler.  [ServerEvents]: the
    server as a transition system.  [ServerFacade]: server.cpp and the echo program
    of src/server.

    The client, src/client_lib.  [Client]: kcp_client.cpp and its message queue.
    [ClientWrap]: the facade with its blocking connect and work thread.
    [ClientThms]: the theorems, the handshake with the server of [Server] included.
    [Clock]: the client's clock and sleep over gettimeofday and nanosleep, and the
    timer of src/essential.

    Multicast.  [Multicast]: udp_multicast_manager.cpp, multicast_manager.cpp and
    kcp_multicast_client.cpp; boost's deadline_timer is the class [DeadlineTimer]
    with its documented laws, and an instance of it.

    Together.  [EndToEnd]: a client of [Client] and a server of [Server] over ikcp.c,
    with a network between them and applications on both sides, as a transition
    system that starts when the client dials.

    The example programs.  [TestStr]: the test messages with their time stamps.
    [AsioClient]: src/client_with_asio with its two timers and its statistics.
    [McServerApp], [McClientApp]: the multicast server and both multicast clients.
    [McTestServer]: src/multicast_test_server, over the class [GroupServer] of the
    functions it calls that server.hpp does not declare; the member lists of
    multicast_manager.cpp are an instance.  [StdString]: what they use of std::string.
    [UnitTests]: the repository's unit tests, run on the model.

    The utilities of src/essential.  [StrUtil]: strutil.cpp.  [BinaryStream]: the
    buffers and streams; [WideString]: wide strings in them.  [ThreadQueue]:
    threadsafe_queue.hpp with waiting threads.  [Diagnostics]: ikcp_log and the text of
    failed checks.  [LogBuffer]: the buffer of the packet log, src/docker/LogStream.h.

    ** What is proved

    - Delivery: in every interleaving of calls on two endpoints the messages
      received are a prefix of those sent ([reliable_delivery]); as long as a
      fragment has not been handed out, one of the two sides still holds it
      ([nothing_discarded]); ikcp_waitsnd tells when all was read
      ([waitsnd_zero_read]); and from every state the network can bring about,
      once it passes datagrams on, everything arrives in a number of round trips
      linear in what is outstanding ([delivery_resumes]).  Without loss each
      message is delivered in one round trip ([messages_arrive]); fragmentation and
      reassembly are inverse, the reordering buffer sorts, acknowledgements remove
      what they acknowledge.
    - End to end: what either application hears is, in order, what the other one said
      ([said_and_heard]), and once the queues of both sides are empty all of it was
      heard ([all_heard]); from the moment of dialling, whatever other clients do and
      whatever the network does with the datagrams, as long as it forges none of this
      conversation's.
    - Safety: no call fails or leaves the control block ill formed, whatever the
      peer sends ([kcp_calls_safe]); malformed packets change nothing; every block
      allocated is freed, none twice ([memory_returned]).
    - Output: the datagrams of a flush are the reference's, within the MTU; the
      window, the update clock, ikcp_check and the probe timer.
    - Server: no datagram of 24 bytes or more stops it, packets reach exactly the
      connection they name, the application hears nothing of a conversation after
      its eDisconnect, the echo program sends back what it receives.
    - Client: client and server establish the same conversation, a connected client
      survives any datagram, the blocking connect returns, stop() ends the thread,
      sleeping lasts what was asked for ([sleep_is_exact]).
    - Example programs: the life of the asio client ([asio_client_life]), the
      invitation a multicast client understands ([invitation_joins]), the time
      stamps of the test messages ([time_stamp_roundtrip]), who hears what the
      multicast test server sends ([echo_reaches_clients]).
    - Utilities: escaping and packing are lossless, wide strings included
      ([wide_string_roundtrip]); the blocking queue is first-in first-out and no
      wake-up is lost; the log keeps whole texts only ([log_keeps_whole_texts]).
    - The unit tests pass on the model ([unit_tests_pass], [connect_tests_pass],
      [echo_tests_pass]).
    - Defects: [long_message_blocks], [setmtu_overrun],
      [congestion_avoidance_always_grows], [wide_window_looks_closed],
      [allocator_switched], [short_datagram_aborts], [retransmit_storm],
      [multicast_delivery], [group_never_announced], [client_never_connects],
      [report_accounting], [small_message_aborts], [failed_connect_idle],
      [recv_log_divides_by_zero], [file_suffix_dotfile], [unpack_size_truncates],
      [unpack_size_uninitialised], [add_overruns].

    ** Conventions

    A C integer is a [Z], with the conversion of its type written where a value can
    leave it.  A computation that can fail is a [run]: [Ok], [Abort] (assert,
    exception) or [Undef] (undefined behaviour).  Memory allocation is the argument
    [mem] of the protocol model and the class [Malloc] of [KcpMemory]; the clock, the
    answers of the operating system, random numbers and the order of hash maps are
    arguments.  Loops are structural on the data they
    consume; where they are not, the fuel bounds the number of iterations and
    running out of it is [Undef], so that a theorem with result [Ok] excludes it:
    the capacity doubling of ikcp_ack_push, the packet loop of ikcp_input (every
    iteration consumes a header), the receive loop of the client (the backlog of
    the control block falls), the unescaping, hexadecimal dump and file loading
    loops (the rest gets shorter; a dump of width 0 does run out, as the code does
    not end), queue traversal.

    Bounds.  [EndToEnd] and the theorems on two endpoints speak of conversations of
    fewer than 2^31 fragments in each direction, of messages of less than 2^31 bytes,
    of fewer than 2^28 acknowledgements waiting in a control block, and of a server
    whose conversation ids have not wrapped around; these are conditions on the steps
    ([within], [calm]).

    ** Not modelled

    The log macros, which write text, and the number formatting of LogStream, which
    the repository declares and muduo defines.  The stack traces, of which the
    repository has the declarations only.  Sockets, signals and io_service beyond the
    order of handlers; an event callback that calls back into the server in the middle
    of a handler (such calls are later steps).  The capacity of the buffers of the
    binary streams.  The main functions that parse arguments and format the time of
    day.  The googletest helpers and the timer's test, which measures real time.  The
    statistics of the multicast test server, a copy of those in [McServerApp].

    ** Left for later

    The end-to-end theorems for several clients at once; the interleavings of the
    multicast client's threads; sequence numbers beyond 2^31, where a cumulative
    acknowledgement old enough compares as new. *)

From Stdlib Require Export ZArith Lia.
From Stdlib Require Strings.Byte Strings.String.
From stdpp Require Export base list numbers option.

#[global] Open Scope Z_scope.

Declare Scope kcp_scope.
Delimit Scope kcp_scope with kcp.
#[global] Open Scope kcp_scope.

(** The lemmas that close the routine side conditions of the development. *)
Create HintDb kcp discriminated.
#[export] Hint Constants Opaque : kcp.
#[export] Hint Variables Transparent : kcp.

(** ** Machine integers

    A [w]-bit C integer is a [Z]; every operation of the source that can leave
    the range of its type is followed by the conversion of that type. *)

Definition u8 (z : Z) : Z := z mod 256.
Definition u16 (z : Z) : Z := z mod 65536.
Definition u32 (z : Z) : Z := z mod 4294967296.
Definition u64 (z : Z) : Z := z mod 18446744073709551616.
Definition i32 (z : Z) : Z := (z + 2147483648) mod 4294967296 - 2147483648.

#[global] Arguments u8 : simpl never.
#[global] Arguments u16 : simpl never.
#[global] Arguments u32 : simpl never.
#[global] Arguments u64 : simpl never.
#[global] Arguments i32 : simpl never.

(** Linear arithmetic with the wrap-around conversions unfolded. *)
Ltac wrap_lia :=
  unfold u8, u16, u32, u64, i32 in *;
  Z.to_euclidean_division_equations; lia.

Section Wrap.
Implicit Types a b z : Z.

Lemma u32_range z : 0 <= u32 z < 4294967296.
Proof. apply Z.mod_pos_bound; lia. Qed.

Lemma u16_range z : 0 <= u16 z < 65536.
Proof. apply Z.mod_pos_bound; lia. Qed.

Lemma u8_range z : 0 <= u8 z < 256.
Proof. apply Z.mod_pos_bound; lia. Qed.

Lemma i32_range z : -2147483648 <= i32 z < 2147483648.
Proof. unfold i32. pose proof (Z.mod_pos_bound (z + 2147483648) 4294967296). lia. Qed.

Lemma u32_small z : 0 <= z < 4294967296 -> u32 z = z.
Proof. apply Z.mod_small. Qed.

Lemma u16_small z : 0 <= z < 65536 -> u16 z = z.
Proof. apply Z.mod_small. Qed.

Lemma u8_small z : 0 <= z < 256 -> u8 z = z.
Proof. apply Z.mod_small. Qed.

Lemma u64_small z : 0 <= z < 18446744073709551616 -> u64 z = z.
Proof. apply Z.mod_small. Qed.

Lemma i32_small z : -2147483648 <= z < 2147483648 -> i32 z = z.
Proof. intros. unfold i32. rewrite Z.mod_small; lia. Qed.

Lemma u32_u32 z : u32 (u32 z) = u32 z.
Proof. apply u32_small, u32_range. Qed.

Lemma u32_add_l a b : u32 (u32 a + b) = u32 (a + b).
Proof. apply Zplus_mod_idemp_l. Qed.

Lemma u32_add_r a b : u32 (a + u32 b) = u32 (a + b).
Proof. apply Zplus_mod_idemp_r. Qed.

Lemma u32_sub_l a b : u32 (u32 a - b) = u32 (a - b).
Proof. apply Zminus_mod_idemp_l. Qed.

Lemma u32_sub_r a b : u32 (a - u32 b) = u32 (a - b).
Proof. apply Zminus_mod_idemp_r. Qed.

Lemma i32_u32 z : i32 (u32 z) = i32 z.
Proof. unfold i32, u32. by rewrite Zplus_mod_idemp_l. Qed.

Lemma i32_add_l a b : i32 (i32 a + b) = i32 (a + b).
Proof. wrap_lia. Qed.
End Wrap.

#[export] Hint Resolve u32_range u16_range u8_range i32_range : kcp.

(** ** Bytes *)

Abbreviation byte := Byte.byte.

(** The value of an [unsigned char], and the [unsigned char] a wider integer
    is truncated to. *)
Definition byte_val (b : byte) : Z := Z.of_N (Byte.to_N b).
Definition byte_of (z : Z) : byte := default Byte.x00 (Byte.of_N (Z.to_N (u8 z))).

Lemma byte_val_range b : 0 <= byte_val b < 256.
Proof. unfold byte_val. pose proof (Byte.to_N_bounded b). lia. Qed.

Lemma byte_val_of z : byte_val (byte_of z) = u8 z.
Proof.
  unfold byte_of, byte_val. pose proof (u8_range z) as Hr.
  destruct (Byte.of_N (Z.to_N (u8 z))) as [b|] eqn:E; simpl.
  - apply Byte.to_of_N in E. rewrite E. lia.
  - apply Byte.of_N_None_iff in E. lia.
Qed.

Lemma byte_of_val b : byte_of (byte_val b) = b.
Proof.
  unfold byte_of. rewrite u8_small by apply byte_val_range.
  unfold byte_val. rewrite N2Z.id, Byte.of_to_N. reflexivity.
Qed.

#[export] Hint Resolve byte_val_range : kcp.

#[export] Instance byte_eq_decision : EqDecision byte.
Proof. intros x y. apply Byte.byte_eq_dec. Defined.

(** A C string literal as its bytes, without the terminating NUL. *)
Abbreviation cstr := String.list_byte_of_string.

(** ** Outcome of running a piece of C

    [Ok a] returns [a]; [Abort] is a failed [assert], a call of [abort()] or an
    exception; [Undef] is what the C standard leaves undefined and the code must avoid: a
    read outside an object or of an uninitialised cell, a null dereference, a
    division by zero. *)

Inductive run (A : Type) : Type :=
| Ok (a : A)
| Abort
| Undef.
#[global] Arguments Ok {A} a.
#[global] Arguments Abort {A}.
#[global] Arguments Undef {A}.

#[export] Instance run_ret : MRet run := @Ok.
#[export] Instance run_bind : MBind run := fun A B f m =>
  match m with Ok a => f a | Abort => Abort | Undef => Undef end.

(** [assert(c)] of <assert.h>; no Makefile of the repository defines NDEBUG. *)
Definition c_assert (c : bool) : run unit := if c then Ok tt else Abort.

(** What the code relies on: undefined behaviour if the condition fails. *)
Definition c_require (c : bool) : run unit := if c then Ok tt else Undef.

Lemma run_bind_Ok {A B} (f : A -> run B) (m : run A) (b : B) :
  m ≫= f = Ok b -> exists a, m = Ok a /\ f a = Ok b.
Proof. destruct m; try discriminate. eauto. Qed.

Lemma Ok_inj {A} (a b : A) : Ok a = Ok b -> b = a.
Proof. by intros [= ->]. Qed.

(** [inv_run] decomposes every hypothesis that says a sequence of [run] steps
    returned. *)
Ltac inv_run :=
  repeat match goal with
  | H : _ ≫= _ = Ok _ |- _ =>
      let a := fresh "r" in let E := fresh "E" in
      apply run_bind_Ok in H; destruct H as (a & E & H)
  | H : mret _ = Ok _ |- _ => injection H as <-
  | H : Ok _ = Ok _ |- _ => injection H as <-
  | H : c_assert ?c = Ok _ |- _ => destruct c eqn:?; [clear H|discriminate H]
  | H : c_require ?c = Ok _ |- _ => destruct c eqn:?; [clear H|discriminate H]
  | H : Abort = Ok _ |- _ => discriminate H
  | H : Undef = Ok _ |- _ => discriminate H
  end.

(** ** Record update

    [r <| f := v |>] is the record [r] with its field [f] set to [v], the
    model of the assignment [r->f = v]. *)

Class Update {R T : Type} (proj : R -> T) := update : (T -> T) -> R -> R.
#[global] Arguments update {R T} proj {_} f r /.

Notation "r <| p := v |>" := (update p (fun _ => v) r)
  (at level 1, p at level 200, v at level 200, left associativity,
   format "r <| p  :=  v |>") : kcp_scope.

(** [derive_update eta p] builds the update of field [p] from the record's
    eta-expansion. *)
Ltac derive_update eta p :=
  unfold Update;
  let f := fresh "f" in let r := fresh "r" in
  intros f r;
  let body := eval cbv beta in (eta r) in
  let abs := eval pattern (p r) in body in
  lazymatch abs with
  | ?F _ => let t := eval cbv beta in (F (f (p r))) in exact t
  end.

(** ** Boolean tests of the code as propositions *)

Ltac zbool :=
  repeat match goal with
  | H : _ && _ = true |- _ => apply andb_true_iff in H; destruct H
  | H : _ || _ = false |- _ => apply orb_false_iff in H; destruct H
  | H : (_ <? _) = true |- _ => apply Z.ltb_lt in H
  | H : (_ <? _) = false |- _ => apply Z.ltb_ge in H
  | H : (_ <=? _) = true |- _ => apply Z.leb_le in H
  | H : (_ <=? _) = false |- _ => apply Z.leb_gt in H
  | H : (_ >? _) = true |- _ => apply Z.gtb_lt in H
  | H : (_ >? _) = false |- _ => rewrite Z.gtb_ltb in H; apply Z.ltb_ge in H
  | H : (_ >=? _) = true |- _ => rewrite Z.geb_leb in H; apply Z.leb_le in H
  | H : (_ >=? _) = false |- _ => rewrite Z.geb_leb in H; apply Z.leb_gt in H
  | H : (_ =? _) = true |- _ => apply Z.eqb_eq in H
  | H : (_ =? _) = false |- _ => apply Z.eqb_neq in H
  | H : negb _ = true |- _ => apply negb_true_iff in H
  | H : negb _ = false |- _ => apply negb_false_iff in H
  | H : bool_decide _ = true |- _ => apply bool_decide_eq_true in H
  | H : bool_decide _ = false |- _ => apply bool_decide_eq_false in H
  end.

(** Case analysis on the test of an [if] of the goal, with its proposition. *)
Ltac case_if :=
  match goal with
  | |- context [if ?b then _ else _] =>
      lazymatch type of b with bool => destruct b eqn:?; zbool end
  end.
Ltac case_if_in H :=
  match type of H with
  | context [if ?b then _ else _] =>
      lazymatch type of b with bool => destruct b eqn:?; zbool end
  end.

(** ** Lists *)

Lemma Z_length_app {A} (l1 l2 : list A) :
  Z.of_nat (length (l1 ++ l2)) = Z.of_nat (length l1) + Z.of_nat (length l2).
Proof. rewrite length_app. lia. Qed.

Lemma take_Z_length {A} (l : list A) : take (Z.to_nat (Z.of_nat (length l))) l = l.
Proof. rewrite Nat2Z.id. apply firstn_all. Qed.

Lemma filter_Forall {A} (P : A -> Prop) `{forall x, Decision (P x)} (l : list A) :
  Forall P l -> base.filter P l = l.
Proof.
  induction 1 as [|x l Hx Hl IH]; [done|]. rewrite list.filter_cons_True by done. by rewrite IH.
Qed.

Lemma filter_Forall_not {A} (P : A -> Prop) `{forall x, Decision (P x)} (l : list A) :
  Forall (fun x => ~ P x) l -> base.filter P l = [].
Proof.
  induction 1 as [|x l Hx Hl IH]; [done|]. by rewrite list.filter_cons_False.
Qed.

(** [zlen l] is the length of [l] as the code's integers count it. *)
Abbreviation zlen l := (Z.of_nat (length l)).
