(* ===== verification/Codec.v ===== *)
(** * The wire format of KCP

    Models the encode/decode routines and the small integer helpers at the top
    of src/util/ikcp.c.  A [char*] that is written through is the list of bytes
    written so far; a [const char*] that is read through is the list of bytes
    that remain, and a read past its end is [Undef]. *)

From S2P Require Import Prelude.

(** ** Native little-endian loads and stores *)

Fixpoint store_le (n : nat) (z : Z) : list byte :=
  match n with
  | O => []
  | S n => byte_of z :: store_le n (Z.shiftr z 8)
  end.

Fixpoint load_le (l : list byte) : Z :=
  match l with
  | [] => 0
  | b :: l => byte_val b + 256 * load_le l
  end.

(** [fetch n p] reads the [n] bytes at [p]. *)
Definition fetch (n : nat) (p : list byte) : run (list byte * list byte) :=
  if bool_decide (n <= length p)%nat then Ok (take n p, drop n p) else Undef.

(** ** encode / decode *)

Definition ikcp_encode8u (p : list byte) (c : Z) : list byte :=
  p ++ [byte_of c].

Definition ikcp_decode8u (p : list byte) : run (Z * list byte) :=
  '(b, p) ← fetch 1 p; mret (load_le b, p).

(** The branch without IWORDS_BIG_ENDIAN: a native store or load. *)
Definition ikcp_encode16u (p : list byte) (w : Z) : list byte :=
  p ++ store_le 2 w.

Definition ikcp_decode16u (p : list byte) : run (Z * list byte) :=
  '(b, p) ← fetch 2 p; mret (load_le b, p).

Definition ikcp_encode32u (p : list byte) (l : Z) : list byte :=
  p ++ store_le 4 l.

Definition ikcp_decode32u (p : list byte) : run (Z * list byte) :=
  '(b, p) ← fetch 4 p; mret (load_le b, p).

(** The branch with IWORDS_BIG_ENDIAN: one byte at a time. *)
Definition ikcp_encode16u_big (p : list byte) (w : Z) : list byte :=
  p ++ [byte_of (Z.land w 255); byte_of (Z.shiftr w 8)].

Definition ikcp_decode16u_big (p : list byte) : run (Z * list byte) :=
  '(b, p) ← fetch 2 p;
  match b with
  | [b0; b1] =>
      let w := byte_val b1 in
      let w := u16 (byte_val b0 + Z.shiftl w 8) in
      mret (w, p)
  | _ => Undef
  end.

Definition ikcp_encode32u_big (p : list byte) (l : Z) : list byte :=
  p ++ [byte_of (Z.land (Z.shiftr l 0) 255);
        byte_of (Z.land (Z.shiftr l 8) 255);
        byte_of (Z.land (Z.shiftr l 16) 255);
        byte_of (Z.land (Z.shiftr l 24) 255)].

Definition ikcp_decode32u_big (p : list byte) : run (Z * list byte) :=
  '(b, p) ← fetch 4 p;
  match b with
  | [b0; b1; b2; b3] =>
      let l := byte_val b3 in
      let l := u32 (byte_val b2 + u32 (Z.shiftl l 8)) in
      let l := u32 (byte_val b1 + u32 (Z.shiftl l 8)) in
      let l := u32 (byte_val b0 + u32 (Z.shiftl l 8)) in
      mret (l, p)
  | _ => Undef
  end.

(** ** Integer helpers *)

Definition imin (a b : Z) : Z := if a <=? b then a else b.
Definition imax (a b : Z) : Z := if a >=? b then a else b.
Definition ibound (lower middle upper : Z) : Z := imin (imax lower middle) upper.

(** [_itimediff]: the difference of two 32-bit time stamps or sequence numbers,
    read as a signed number. *)
Definition itimediff (later earlier : Z) : Z := i32 (u32 (later - earlier)).

(** ** Properties *)

Lemma load_le_range l : 0 <= load_le l < 256 ^ zlen l.
Proof.
  induction l as [|b l IH]; [simpl; lia|].
  cbn [load_le]. replace (zlen (b :: l)) with (1 + zlen l) by (simpl; lia).
  rewrite Z.pow_add_r, Z.pow_1_r by lia.
  pose proof (byte_val_range b). lia.
Qed.

Lemma length_store_le n z : length (store_le n z) = n.
Proof. revert z. induction n; intros; simpl; auto. Qed.

Lemma load_store_le n z : load_le (store_le n z) = z mod 256 ^ Z.of_nat n.
Proof.
  revert z. induction n as [|n IH]; intros z.
  - cbn [store_le load_le Z.of_nat]. by rewrite Z.pow_0_r, Z.mod_1_r.
  - cbn [store_le load_le]. rewrite IH, byte_val_of, Z.shiftr_div_pow2 by lia.
    replace (Z.of_nat (S n)) with (1 + Z.of_nat n) by lia.
    rewrite Z.pow_add_r, Z.pow_1_r by lia.
    change (2 ^ 8) with 256. unfold u8.
    rewrite Z.rem_mul_r; lia.
Qed.

Lemma store_load_le l : store_le (length l) (load_le l) = l.
Proof.
  induction l as [|b l IH]; [done|].
  cbn [load_le length store_le]. pose proof (byte_val_range b).
  f_equal.
  - rewrite <- (byte_of_val b) at 2. unfold byte_of. do 3 f_equal. wrap_lia.
  - rewrite Z.shiftr_div_pow2 by lia. change (2 ^ 8) with 256.
    replace ((byte_val b + 256 * load_le l) / 256) with (load_le l); [done|].
    Z.to_euclidean_division_equations; lia.
Qed.

Lemma fetch_app n (p q : list byte) : length p = n -> fetch n (p ++ q) = Ok (p, q).
Proof.
  intros <-. unfold fetch. rewrite bool_decide_eq_true_2 by (rewrite length_app; lia).
  by rewrite take_app_length, drop_app_length.
Qed.

Lemma fetch_Ok n (p b q : list byte) :
  fetch n p = Ok (b, q) -> p = b ++ q /\ length b = n.
Proof.
  unfold fetch. intros H. case_if_in H; [|done].
  injection H as <- <-. split; [by rewrite take_drop|]. rewrite length_take. lia.
Qed.

Lemma fetch_total n (p : list byte) :
  (n <= length p)%nat -> fetch n p = Ok (take n p, drop n p).
Proof. intros. unfold fetch. by rewrite bool_decide_eq_true_2. Qed.

Lemma ikcp_decode8u_cons z (p : list byte) :
  ikcp_decode8u (byte_of z :: p) = Ok (u8 z, p).
Proof.
  unfold ikcp_decode8u. change (byte_of z :: p) with ([byte_of z] ++ p).
  rewrite fetch_app by done. simpl.
  by rewrite Z.add_0_r, byte_val_of.
Qed.

Lemma ikcp_decode16u_app z (p : list byte) :
  ikcp_decode16u (store_le 2 z ++ p) = Ok (u16 z, p).
Proof.
  unfold ikcp_decode16u. rewrite fetch_app by apply length_store_le.
  cbn [mbind run_bind mret run_ret]. by rewrite load_store_le.
Qed.

Lemma ikcp_decode32u_app z (p : list byte) :
  ikcp_decode32u (store_le 4 z ++ p) = Ok (u32 z, p).
Proof.
  unfold ikcp_decode32u. rewrite fetch_app by apply length_store_le.
  cbn [mbind run_bind mret run_ret]. by rewrite load_store_le.
Qed.

(** The two byte orders of the source build the same packets. *)
Lemma ikcp_encode32u_big_eq p l : ikcp_encode32u_big p l = ikcp_encode32u p l.
Proof.
  unfold ikcp_encode32u_big, ikcp_encode32u. f_equal. cbn [store_le].
  rewrite !Z.shiftr_shiftr by lia. cbn [Z.add Pos.add Pos.succ Pos.add_carry].
  rewrite Z.shiftr_0_r. unfold byte_of.
  change 255 with (Z.ones 8). rewrite !Z.land_ones by lia.
  unfold u8. change (2 ^ 8) with 256. by rewrite !Z.mod_mod by lia.
Qed.

Lemma ikcp_encode16u_big_eq p w : ikcp_encode16u_big p w = ikcp_encode16u p w.
Proof.
  unfold ikcp_encode16u_big, ikcp_encode16u. f_equal. cbn [store_le].
  unfold byte_of. change 255 with (Z.ones 8). rewrite !Z.land_ones by lia.
  unfold u8. change (2 ^ 8) with 256. by rewrite !Z.mod_mod by lia.
Qed.

Lemma ikcp_decode32u_big_eq p : ikcp_decode32u_big p = ikcp_decode32u p.
Proof.
  unfold ikcp_decode32u_big, ikcp_decode32u.
  destruct (fetch 4 p) as [[b q]| |] eqn:E; [|done|done].
  apply fetch_Ok in E as [_ Hlen].
  destruct b as [|b0 [|b1 [|b2 [|b3 [|? ?]]]]]; try done.
  cbn [mbind run_bind mret run_ret load_le]. do 2 f_equal.
  rewrite !Z.shiftl_mul_pow2 by lia. change (2 ^ 8) with 256.
  pose proof (byte_val_range b0). pose proof (byte_val_range b1).
  pose proof (byte_val_range b2). pose proof (byte_val_range b3).
  rewrite !u32_add_r.
  rewrite (u32_small (byte_val b2 + byte_val b3 * 256)) by lia.
  rewrite (u32_small (byte_val b1 + _)) by lia.
  rewrite u32_small by lia. lia.
Qed.

Lemma ikcp_decode16u_big_eq p : ikcp_decode16u_big p = ikcp_decode16u p.
Proof.
  unfold ikcp_decode16u_big, ikcp_decode16u.
  destruct (fetch 2 p) as [[b q]| |] eqn:E; [|done|done].
  apply fetch_Ok in E as [_ Hlen].
  destruct b as [|b0 [|b1 [|? ?]]]; try done.
  cbn [mbind run_bind mret run_ret load_le]. do 2 f_equal.
  rewrite !Z.shiftl_mul_pow2 by lia. change (2 ^ 8) with 256.
  pose proof (byte_val_range b0). pose proof (byte_val_range b1).
  rewrite u16_small by lia. lia.
Qed.

Lemma imin_spec a b : imin a b = Z.min a b.
Proof. unfold imin. case_if; lia. Qed.

Lemma imax_spec a b : imax a b = Z.max a b.
Proof. unfold imax. case_if; lia. Qed.

(** ** Sequence numbers modulo 2^32 *)

(** [off base z]: how far the 32-bit number [z] lies after [base]. *)
Definition off (base z : Z) : Z := u32 (z - base).

Lemma off_range base z : 0 <= off base z < 4294967296.
Proof. apply u32_range. Qed.

Lemma itimediff_off base a b :
  off base a < 2147483648 -> off base b < 2147483648 ->
  itimediff a b = off base a - off base b.
Proof.
  intros Ha Hb. pose proof (off_range base a). pose proof (off_range base b).
  unfold itimediff. rewrite i32_u32, <- (i32_u32 (a - b)).
  replace (u32 (a - b)) with (u32 (off base a - off base b)).
  - rewrite i32_u32, i32_small; lia.
  - unfold off. rewrite u32_sub_l, u32_sub_r. f_equal. lia.
Qed.

Lemma itimediff_small a b :
  -2147483648 <= a - b < 2147483648 -> itimediff a b = a - b.
Proof. intros. unfold itimediff. by rewrite i32_u32, i32_small. Qed.

(** Comparison survives the wrap-around: [d] steps after [a] is [d] later. *)
Lemma itimediff_add a d :
  -2147483648 <= d < 2147483648 -> itimediff (u32 (a + d)) a = d.
Proof.
  intros. unfold itimediff. rewrite i32_u32, <- (i32_u32 (u32 (a + d) - a)), u32_sub_l.
  replace (a + d - a) with d by lia. by rewrite i32_u32, i32_small.
Qed.

Lemma itimediff_sub a d :
  -2147483648 < d <= 2147483648 -> itimediff a (u32 (a + d)) = - d.
Proof.
  intros. unfold itimediff. rewrite u32_sub_r. replace (a - (a + d)) with (- d) by lia.
  rewrite i32_u32, i32_small; lia.
Qed.

Lemma off_0 base z : off base z = 0 -> 0 <= base < 4294967296 ->
  0 <= z < 4294967296 -> z = base.
Proof. unfold off. wrap_lia. Qed.

Lemma off_add base d : 0 <= d < 4294967296 -> off base (u32 (base + d)) = d.
Proof.
  intros. unfold off. rewrite u32_sub_l.
  replace (base + d - base) with d by lia. by apply u32_small.
Qed.

Lemma off_succ base z : 0 < off base z -> off (u32 (base + 1)) z = off base z - 1.
Proof. unfold off. rewrite u32_sub_r. wrap_lia. Qed.

#[export] Hint Resolve off_range : kcp.
