(* ===== verification/IQueue.v ===== *)
(** * The intrusive queues

    Models the queue macros of src/util/ikcp.h (IQUEUE_INIT to iqueue_splice_init)
    on a heap of nodes with [next] and [prev] pointers, and shows that they
    implement the list operations with which the other files describe the queues
    of the control block: push front, push back, removal of any element, the test
    for emptiness, traversal, and concatenation. *)

From stdpp Require Import gmap.
From S2P Require Import Prelude.

(** ** Nodes and accesses *)

(** struct IQUEUEHEAD; an address is a number, NULL is 0. *)
Record IQUEUEHEAD := mkQ { q_next : Z; q_prev : Z }.

#[export] Hint Extern 1 (Update (R := IQUEUEHEAD) ?p) =>
  derive_update (fun s => mkQ (q_next s) (q_prev s)) p : typeclass_instances.

Abbreviation heap := (gmap Z IQUEUEHEAD).

Definition NULL : Z := 0.

(** Reading or writing a member through an invalid pointer is undefined. *)
Definition get_next (h : heap) (p : Z) : run Z :=
  match h !! p with Some n => Ok (q_next n) | None => Undef end.
Definition get_prev (h : heap) (p : Z) : run Z :=
  match h !! p with Some n => Ok (q_prev n) | None => Undef end.
Definition set_next (h : heap) (p v : Z) : run heap :=
  match h !! p with Some n => Ok (<[p := n <| q_next := v |>]> h) | None => Undef end.
Definition set_prev (h : heap) (p v : Z) : run heap :=
  match h !! p with Some n => Ok (<[p := n <| q_prev := v |>]> h) | None => Undef end.

(** ** The macros *)

Definition IQUEUE_INIT (h : heap) (ptr : Z) : run heap :=
  h ← set_next h ptr ptr; set_prev h ptr ptr.

Definition IQUEUE_ADD (h : heap) (node head : Z) : run heap :=
  h ← set_prev h node head;
  n ← get_next h head; h ← set_next h node n;
  n ← get_next h head; h ← set_prev h n node;
  set_next h head node.

Definition IQUEUE_ADD_TAIL (h : heap) (node head : Z) : run heap :=
  p ← get_prev h head; h ← set_prev h node p;
  h ← set_next h node head;
  p ← get_prev h head; h ← set_next h p node;
  set_prev h head node.

Definition IQUEUE_DEL_BETWEEN (h : heap) (p n : Z) : run heap :=
  h ← set_prev h n p; set_next h p n.

Definition IQUEUE_DEL (h : heap) (entry : Z) : run heap :=
  n ← get_next h entry; p ← get_prev h entry; h ← set_prev h n p;
  p ← get_prev h entry; n ← get_next h entry; h ← set_next h p n;
  h ← set_next h entry NULL; set_prev h entry NULL.

Definition IQUEUE_DEL_INIT (h : heap) (entry : Z) : run heap :=
  h ← IQUEUE_DEL h entry; IQUEUE_INIT h entry.

Definition IQUEUE_IS_EMPTY (h : heap) (entry : Z) : run bool :=
  n ← get_next h entry; Ok (entry =? n).

(** iqueue_foreach_entry: the positions visited; [fuel] bounds the rounds. *)
Fixpoint foreach_from (fuel : nat) (h : heap) (pos head : Z) : run (list Z) :=
  match fuel with
  | O => Undef
  | S fuel =>
      if pos =? head then Ok []
      else n ← get_next h pos; rest ← foreach_from fuel h n head; Ok (pos :: rest)
  end.

Definition iqueue_foreach_entry (fuel : nat) (h : heap) (head : Z) : run (list Z) :=
  pos ← get_next h head; foreach_from fuel h pos head.

Definition iqueue_splice_nonempty (h : heap) (list head : Z) : run heap :=
  first ← get_next h list; last ← get_prev h list;
  at_ ← get_next h head;
  h ← set_prev h first head; h ← set_next h head first;
  h ← set_next h last at_; set_prev h at_ last.

Definition iqueue_splice (h : heap) (list head : Z) : run heap :=
  e ← IQUEUE_IS_EMPTY h list;
  if negb e then iqueue_splice_nonempty h list head else Ok h.

Definition iqueue_splice_init (h : heap) (list head : Z) : run heap :=
  h ← iqueue_splice h list head; IQUEUE_INIT h list.

(** ** Queues as lists *)

Definition nxt (h : heap) (p : Z) : option Z := q_next <$> h !! p.
Definition prv (h : heap) (p : Z) : option Z := q_prev <$> h !! p.

(** Neighbours of the list point at each other. *)
Fixpoint links (h : heap) (l : list Z) : Prop :=
  match l with
  | a :: (b :: _) as t => nxt h a = Some b /\ prv h b = Some a /\ links h t
  | _ => True
  end.

(** The queue with head [hd] holds the nodes [xs], in this order. *)
Definition queue (h : heap) (hd : Z) (xs : list Z) : Prop :=
  NoDup (hd :: xs) /\ (forall p, p ∈ hd :: xs -> is_Some (h !! p)) /\ links h (hd :: xs ++ [hd]).

(** ** Accesses *)

Lemma get_next_Ok h p n : nxt h p = Some n -> get_next h p = Ok n.
Proof. unfold nxt, get_next. intros (q & -> & ->)%fmap_Some. done. Qed.

Lemma get_prev_Ok h p n : prv h p = Some n -> get_prev h p = Ok n.
Proof. unfold prv, get_prev. intros (q & -> & ->)%fmap_Some. done. Qed.

(** A write to one member of [p]: everything else is as before. *)
Lemma set_next_Ok h p v :
  is_Some (h !! p) -> exists h', set_next h p v = Ok h' /\
    (forall q, nxt h' q = if decide (q = p) then Some v else nxt h q) /\
    (forall q, prv h' q = prv h q) /\ (forall q, is_Some (h' !! q) <-> is_Some (h !! q)).
Proof.
  intros [n Hn]. unfold set_next. rewrite Hn. eexists. split; [reflexivity|].
  unfold nxt, prv. split_and!; intros q; destruct (decide (q = p)) as [->|Hne];
    rewrite ?lookup_insert_eq, ?lookup_insert_ne by done; rewrite ?Hn; done.
Qed.

Lemma set_prev_Ok h p v :
  is_Some (h !! p) -> exists h', set_prev h p v = Ok h' /\
    (forall q, prv h' q = if decide (q = p) then Some v else prv h q) /\
    (forall q, nxt h' q = nxt h q) /\ (forall q, is_Some (h' !! q) <-> is_Some (h !! q)).
Proof.
  intros [n Hn]. unfold set_prev. rewrite Hn. eexists. split; [reflexivity|].
  unfold nxt, prv. split_and!; intros q; destruct (decide (q = p)) as [->|Hne];
    rewrite ?lookup_insert_eq, ?lookup_insert_ne by done; rewrite ?Hn; done.
Qed.

(** Runs the next write of a macro. *)
Ltac write_next h p v :=
  let h' := fresh "h'" in let E := fresh "E" in let N := fresh "N" in
  let P := fresh "P" in let D := fresh "D" in
  destruct (set_next_Ok h p v) as (h' & E & N & P & D);
  [|rewrite E; cbn [mbind run_bind]; clear E].
Ltac write_prev h p v :=
  let h' := fresh "h'" in let E := fresh "E" in let N := fresh "N" in
  let P := fresh "P" in let D := fresh "D" in
  destruct (set_prev_Ok h p v) as (h' & E & P & N & D);
  [|rewrite E; cbn [mbind run_bind]; clear E].

(** ** Links *)

Lemma links_cons h a b l :
  links h (a :: b :: l) <-> nxt h a = Some b /\ prv h b = Some a /\ links h (b :: l).
Proof. done. Qed.

Lemma links_ext h h' l :
  links h l -> (forall a, a ∈ removelast l -> nxt h' a = nxt h a) ->
  (forall b, b ∈ tail l -> prv h' b = prv h b) -> links h' l.
Proof.
  induction l as [|a [|b l] IH]; [done..|]. intros (H1 & H2 & H3) Hn Hp.
  cbn [links]. split_and!.
  - rewrite Hn; [done|]. cbn. apply list_elem_of_here.
  - rewrite Hp; [done|]. cbn. apply list_elem_of_here.
  - apply IH; [done| |].
    + intros x Hx. apply Hn. cbn [removelast] in *. by apply list_elem_of_further.
    + intros x Hx. apply Hp. cbn [tail] in *. by apply list_elem_of_further.
Qed.

Lemma links_app h l1 a l2 :
  links h (l1 ++ a :: l2) <-> links h (l1 ++ [a]) /\ links h (a :: l2).
Proof.
  induction l1 as [|x [|y l1] IH].
  - cbn [app]. split; [|by intros [_ ?]]. intros H. split; [done|exact H].
  - cbn [app links]. tauto.
  - cbn [app] in *. cbn [links] in *. rewrite IH. tauto.
Qed.

Lemma elem_of_tail {A} (x : A) l : x ∈ tail l -> x ∈ l.
Proof. destruct l; [done|]. apply list_elem_of_further. Qed.

Lemma removelast_snoc {A} (l : list A) x : removelast (l ++ [x]) = l.
Proof. apply removelast_last. Qed.

(** The first node after the head, and the last before it, are distinct from all
    others of the ring. *)
Lemma ring_first (hd : Z) xs : exists f r, xs ++ [hd] = f :: r.
Proof. destruct xs; cbn; eauto. Qed.

Lemma ring_first_notin (hd : Z) xs f r : NoDup (hd :: xs) -> xs ++ [hd] = f :: r -> f ∉ r.
Proof.
  intros [Hh Hn]%list.NoDup_cons Heq. destruct xs as [|x xs]; cbn in Heq; injection Heq as <- <-.
  - apply not_elem_of_nil.
  - apply list.NoDup_cons in Hn as [Hx _]. rewrite elem_of_app, list_elem_of_singleton.
    intros [?| ->]; [done|]. apply Hh, list_elem_of_here.
Qed.

(** ** iqueue_init, iqueue_is_empty, iqueue_foreach *)

Lemma init_spec h p : is_Some (h !! p) ->
  exists h', IQUEUE_INIT h p = Ok h' /\ queue h' p [] /\
    (forall q, q <> p -> nxt h' q = nxt h q /\ prv h' q = prv h q) /\
    (forall q, is_Some (h' !! q) <-> is_Some (h !! q)).
Proof.
  intros Hp. unfold IQUEUE_INIT. write_next h p p; [done|].
  destruct (set_prev_Ok h' p p) as (h2 & -> & P2 & N2 & D2); [by apply D|].
  exists h2. split; [done|]. split; [|split].
  - split; [apply NoDup_singleton|]. split.
    + intros q ->%list_elem_of_singleton. by apply D2, D.
    + cbn. rewrite N2, N, P2, !decide_True by done. done.
  - intros q Hq. rewrite N2, N, P2, P, !decide_False by done. done.
  - intros q. rewrite D2. apply D.
Qed.

Lemma is_empty_spec h hd xs : queue h hd xs ->
  IQUEUE_IS_EMPTY h hd = Ok (bool_decide (xs = [])).
Proof.
  intros ([Hh _]%list.NoDup_cons & _ & Hl). unfold IQUEUE_IS_EMPTY.
  destruct xs as [|x xs]; cbn in Hl; destruct Hl as [Hn _]; rewrite (get_next_Ok _ _ _ Hn);
    cbn [mbind run_bind].
  - by rewrite Z.eqb_refl.
  - rewrite (proj2 (Z.eqb_neq _ _)); [done|]. intros ->. apply Hh, list_elem_of_here.
Qed.

Lemma foreach_from_spec h hd xs fuel :
  hd ∉ xs -> links h (xs ++ [hd]) -> (length xs < fuel)%nat ->
  exists p, xs ++ [hd] = p :: tail (xs ++ [hd]) /\ foreach_from fuel h p hd = Ok xs.
Proof.
  revert fuel. induction xs as [|x xs IH]; intros fuel Hni Hl Hf.
  - exists hd. split; [done|]. destruct fuel; [cbn in Hf; lia|]. cbn. by rewrite Z.eqb_refl.
  - exists x. split; [done|]. destruct fuel as [|fuel]; [cbn in Hf; lia|]. cbn [foreach_from].
    apply not_elem_of_cons in Hni as [Hne Hni]. rewrite (proj2 (Z.eqb_neq _ _)) by done.
    destruct (ring_first hd xs) as (f & r & Hfr).
    cbn [app] in Hl. rewrite Hfr in Hl. apply links_cons in Hl. destruct Hl as (Hn & _ & Hl).
    rewrite <- Hfr in Hl. destruct (IH fuel Hni Hl) as (p & Hp & Hrun); [cbn in Hf; lia|].
    rewrite Hp in Hfr. injection Hfr as -> _.
    rewrite (get_next_Ok _ _ _ Hn). cbn [mbind run_bind]. by rewrite Hrun.
Qed.

Lemma foreach_spec h hd xs fuel : queue h hd xs -> (length xs < fuel)%nat ->
  iqueue_foreach_entry fuel h hd = Ok xs.
Proof.
  intros ([Hh _]%list.NoDup_cons & _ & Hl) Hf. unfold iqueue_foreach_entry.
  destruct (ring_first hd xs) as (f & r & Hfr). cbn [app] in Hl. rewrite Hfr in Hl.
  apply links_cons in Hl. destruct Hl as (Hn & _ & Hl). rewrite <- Hfr in Hl.
  rewrite (get_next_Ok _ _ _ Hn). cbn [mbind run_bind].
  destruct (foreach_from_spec h hd xs fuel Hh Hl Hf) as (p & Hp & Hrun).
  rewrite Hp in Hfr. by injection Hfr as -> _.
Qed.

(** ** iqueue_add, iqueue_add_tail *)

Lemma ring_last (hd : Z) xs : exists i l, hd :: xs = i ++ [l].
Proof.
  destruct (exists_last (l := hd :: xs)) as (i & l & ->); [done|]. eauto.
Qed.

Lemma in_ring_first (hd : Z) xs f r x : xs ++ [hd] = f :: r -> x ∈ f :: r -> x ∈ hd :: xs.
Proof.
  intros <- [H|H]%elem_of_app; [by apply list_elem_of_further|].
  apply list_elem_of_singleton in H as ->. apply list_elem_of_here.
Qed.

Lemma add_spec h hd xs node :
  queue h hd xs -> node ∉ hd :: xs -> is_Some (h !! node) ->
  exists h', IQUEUE_ADD h node hd = Ok h' /\ queue h' hd (node :: xs) /\
    (forall q, q ∉ node :: hd :: xs -> nxt h' q = nxt h q /\ prv h' q = prv h q).
Proof.
  intros (Hnd & Hv & Hl) Hni Hnode. destruct (ring_first hd xs) as (f & r & Hfr).
  pose proof Hl as Hl0. rewrite Hfr in Hl0. apply links_cons in Hl0 as (Hn & _ & Hl0).
  assert (node <> hd) as Hnh by (intros ->; apply Hni, list_elem_of_here).
  assert (f ∈ hd :: xs) as Hf by (eapply in_ring_first; [exact Hfr|apply list_elem_of_here]).
  assert (node <> f) as Hnf by (intros ->; done).
  unfold IQUEUE_ADD. write_prev h node hd; [done|].
  rewrite (get_next_Ok h' hd f) by (by rewrite N). cbn [mbind run_bind].
  write_next h' node f; [by apply D|].
  rewrite (get_next_Ok h'0 hd f) by (by rewrite N0, decide_False, N). cbn [mbind run_bind].
  write_prev h'0 f node; [apply D0, D, Hv, Hf|].
  destruct (set_next_Ok h'1 hd node) as (h4 & -> & N2 & P2 & D2); [apply D1, D0, D, Hv, list_elem_of_here|].
  exists h4. split; [done|].
  assert (Hnx : forall q, nxt h4 q = if decide (q = hd) then Some node
    else if decide (q = node) then Some f else nxt h q).
  { intros q. by rewrite N2, N1, N0, N. }
  assert (Hpv : forall q, prv h4 q = if decide (q = f) then Some node
    else if decide (q = node) then Some hd else prv h q).
  { intros q. by rewrite P2, P1, P0, P. }
  split; [split; [|split]|].
  - apply list.NoDup_cons in Hnd as [Hh Hnd]. apply not_elem_of_cons in Hni as [? ?].
    apply list.NoDup_cons. rewrite not_elem_of_cons. split; [done|]. by apply list.NoDup_cons.
  - intros q Hq. apply D2, D1, D0, D. rewrite !elem_of_cons in Hq.
    destruct Hq as [->|[->|Hq]]; [apply Hv, list_elem_of_here|done|by apply Hv, list_elem_of_further].
  - cbn [app]. rewrite Hfr. apply links_cons. rewrite Hnx, Hpv, decide_True, decide_False, decide_True by done.
    split; [done|]. split; [done|]. apply links_cons. rewrite Hnx, Hpv, decide_False, !decide_True by done.
    split; [done|]. split; [done|]. apply (links_ext h); [done| |].
    + intros a Ha. rewrite <- Hfr, removelast_snoc in Ha. rewrite Hnx, !decide_False; [done| |].
      * intros ->. apply Hni. by apply list_elem_of_further.
      * intros ->. by apply list.NoDup_cons in Hnd as [? _].
    + intros b Hb. cbn [tail] in Hb. rewrite Hpv, !decide_False; [done| |].
      * intros ->. apply Hni. eapply in_ring_first; [exact Hfr|by apply list_elem_of_further].
      * intros ->. by apply (ring_first_notin hd xs f r).
  - intros q Hq. rewrite !not_elem_of_cons in Hq. destruct Hq as (? & ? & ?).
    rewrite Hnx, Hpv, !decide_False; [done|done| |done..].
    intros ->. apply elem_of_cons in Hf as [?|?]; done.
Qed.

Lemma add_tail_spec h hd xs node :
  queue h hd xs -> node ∉ hd :: xs -> is_Some (h !! node) ->
  exists h', IQUEUE_ADD_TAIL h node hd = Ok h' /\ queue h' hd (xs ++ [node]) /\
    (forall q, q ∉ node :: hd :: xs -> nxt h' q = nxt h q /\ prv h' q = prv h q).
Proof.
  intros (Hnd & Hv & Hl) Hni Hnode. destruct (ring_last hd xs) as (i & l & Hil).
  pose proof Hl as Hl0. rewrite app_comm_cons, Hil, <- app_assoc in Hl0. cbn [app] in Hl0.
  apply links_app in Hl0 as [Hl1 Hl2]. apply links_cons in Hl2 as (_ & Hp & _).
  assert (node <> hd) as Hnh by (intros ->; apply Hni, list_elem_of_here).
  assert (l ∈ hd :: xs) as Hlin by (rewrite Hil; apply elem_of_app; right; apply list_elem_of_here).
  assert (node <> l) as Hnl by (intros ->; done).
  unfold IQUEUE_ADD_TAIL. rewrite (get_prev_Ok h hd l) by done. cbn [mbind run_bind].
  write_prev h node l; [done|]. write_next h' node hd; [by apply D|].
  rewrite (get_prev_Ok h'0 hd l) by (by rewrite P0, P, decide_False). cbn [mbind run_bind].
  write_next h'0 l node; [apply D0, D, Hv, Hlin|].
  destruct (set_prev_Ok h'1 hd node) as (h4 & -> & P2 & N2 & D2); [apply D1, D0, D, Hv, list_elem_of_here|].
  exists h4. split; [done|].
  assert (Hnx : forall q, nxt h4 q = if decide (q = l) then Some node
    else if decide (q = node) then Some hd else nxt h q).
  { intros q. by rewrite N2, N1, N0, N. }
  assert (Hpv : forall q, prv h4 q = if decide (q = hd) then Some node
    else if decide (q = node) then Some l else prv h q).
  { intros q. by rewrite P2, P1, P0, P. }
  split; [split; [|split]|].
  - rewrite app_comm_cons. apply list.NoDup_app. split; [done|]. split; [|apply NoDup_singleton].
    intros x Hx ->%list_elem_of_singleton. done.
  - intros q Hq. apply D2, D1, D0, D. rewrite app_comm_cons in Hq. apply elem_of_app in Hq as [Hq|Hq]; [by apply Hv|].
    by apply list_elem_of_singleton in Hq as ->.
  - rewrite <- app_assoc. cbn [app]. rewrite app_comm_cons, Hil, <- app_assoc. cbn [app].
    apply links_app. split.
    + apply (links_ext h); [done| |].
      * intros a Ha. rewrite removelast_snoc in Ha. rewrite Hnx, !decide_False; [done| |].
        -- intros ->. apply Hni. rewrite Hil. apply elem_of_app. by left.
        -- intros ->. rewrite Hil in Hnd. apply list.NoDup_app in Hnd as (_ & Hnd & _).
           by apply (Hnd l Ha), list_elem_of_here.
      * intros b Hb. rewrite <- Hil in Hb. cbn [tail] in Hb. rewrite Hpv, !decide_False; [done| |].
        -- intros ->. apply Hni. by apply list_elem_of_further.
        -- intros ->. by apply list.NoDup_cons in Hnd as [? _].
    + apply links_cons. rewrite Hnx, Hpv, decide_True, decide_False, decide_True by done. split; [done|]. split; [done|].
      apply links_cons. rewrite Hnx, Hpv, decide_False, !decide_True by done. done.
  - intros q Hq. rewrite !not_elem_of_cons in Hq. destruct Hq as (? & ? & ?).
    rewrite Hnx, Hpv, !decide_False; [done|done|done|done|].
    intros ->. apply elem_of_cons in Hlin as [?|?]; done.
Qed.

(** Two chains joined by one pair of links. *)
Lemma links_bridge h h' i p n r :
  links h (i ++ [p]) -> links h (n :: r) -> nxt h' p = Some n -> prv h' n = Some p ->
  (forall a, a ∈ i ++ removelast (n :: r) -> nxt h' a = nxt h a) ->
  (forall b, b ∈ tail (i ++ [p]) ++ r -> prv h' b = prv h b) -> links h' (i ++ p :: n :: r).
Proof.
  intros H1 H2 Hn Hp Ha Hb. setoid_rewrite elem_of_app in Ha. setoid_rewrite elem_of_app in Hb.
  apply links_app. split; [|apply links_cons; split_and!; [done..|]].
  - apply (links_ext h); [done| |auto]. intros a. rewrite removelast_snoc. auto.
  - apply (links_ext h); [done|auto|auto].
Qed.

(** ** iqueue_del *)

(** The neighbours of a node of a queue. *)
Lemma queue_at h hd xs e ys :
  queue h hd (xs ++ e :: ys) ->
  exists i p n r, hd :: xs = i ++ [p] /\ ys ++ [hd] = n :: r /\ links h (i ++ [p]) /\ links h (n :: r) /\
    nxt h e = Some n /\ prv h e = Some p /\
    NoDup (hd :: xs) /\ NoDup (hd :: ys) /\ (e ∉ hd :: xs) /\ (e ∉ hd :: ys) /\ (forall x, x ∈ xs -> x ∉ ys).
Proof.
  intros (Hnd & _ & Hl). destruct (ring_last hd xs) as (i & p & Hip). destruct (ring_first hd ys) as (n & r & Hnr).
  exists i, p, n, r. rewrite app_comm_cons, app_comm_cons, Hip in Hl. rewrite <- app_assoc in Hl. cbn [app] in Hl.
  rewrite <- app_assoc in Hl. cbn [app] in Hl. rewrite Hnr in Hl.
  apply links_app in Hl as [Hl1 Hl]. apply links_cons in Hl as (_ & He1 & Hl). apply links_cons in Hl as (He2 & _ & Hl3).
  rewrite app_comm_cons in Hnd. apply list.NoDup_app in Hnd as (Hnx & Hdis & Hny). apply list.NoDup_cons in Hny as [Hey Hny].
  pose proof (Hdis hd (list_elem_of_here _ _)) as Hhd. rewrite not_elem_of_cons in Hhd. destruct Hhd as [Hhe Hhy].
  split_and!; try done.
  - by apply list.NoDup_cons.
  - intros Hx. apply (Hdis e Hx), list_elem_of_here.
  - rewrite not_elem_of_cons. done.
  - intros x Hx Hy. apply (Hdis x); by apply list_elem_of_further.
Qed.

Lemma del_writes h e n p :
  nxt h e = Some n -> prv h e = Some p -> n <> e -> p <> e ->
  is_Some (h !! n) -> is_Some (h !! p) -> is_Some (h !! e) ->
  exists h', IQUEUE_DEL h e = Ok h' /\
    (forall q, nxt h' q = if decide (q = e) then Some NULL else if decide (q = p) then Some n else nxt h q) /\
    (forall q, prv h' q = if decide (q = e) then Some NULL else if decide (q = n) then Some p else prv h q) /\
    (forall q, is_Some (h' !! q) <-> is_Some (h !! q)).
Proof.
  intros He2 He1 Hne Hpe Hvn Hvp Hve.
  unfold IQUEUE_DEL. rewrite (get_next_Ok h e n), (get_prev_Ok h e p) by done. cbn [mbind run_bind].
  write_prev h n p; [done|].
  rewrite (get_prev_Ok h' e p) by (by rewrite P, decide_False). cbn [mbind run_bind].
  rewrite (get_next_Ok h' e n) by (by rewrite N). cbn [mbind run_bind].
  write_next h' p n; [by apply D|]. write_next h'0 e NULL; [by apply D0, D|].
  destruct (set_prev_Ok h'1 e NULL) as (h4 & -> & P2 & N2 & D2); [by apply D1, D0, D|].
  exists h4. split; [done|]. split_and!; intros q; [by rewrite N2, N1, N0, N|by rewrite P2, P1, P0, P|].
  rewrite D2, D1, D0. apply D.
Qed.

Lemma del_spec h hd xs e ys :
  queue h hd (xs ++ e :: ys) ->
  exists h', IQUEUE_DEL h e = Ok h' /\ queue h' hd (xs ++ ys) /\
    nxt h' e = Some NULL /\ prv h' e = Some NULL /\
    (forall q, q ∉ hd :: xs ++ e :: ys -> nxt h' q = nxt h q /\ prv h' q = prv h q).
Proof.
  intros Hq. pose proof Hq as (_ & Hv & _).
  destruct (queue_at _ _ _ _ _ Hq) as (i & p & n & r & Hip & Hnr & Hl1 & Hl3 & He2 & He1 & Hnx & Hny & Hex & Hey & Hdis).
  assert (p ∈ hd :: xs) as Hp by (rewrite Hip; apply elem_of_app; right; apply list_elem_of_here).
  assert (n ∈ hd :: ys) as Hn by (eapply in_ring_first; [exact Hnr|apply list_elem_of_here]).
  assert (forall q, q ∈ hd :: xs \/ q ∈ hd :: ys -> is_Some (h !! q)) as Hvv.
  { intros q Hi. apply Hv. rewrite elem_of_cons, elem_of_app, elem_of_cons. rewrite !elem_of_cons in Hi. tauto. }
  assert (n <> e) as Hne by (by intros ->). assert (p <> e) as Hpe by (by intros ->).
  destruct (del_writes h e n p) as (h4 & Hdel & Hnxt & Hprv & D); try done;
    [by apply Hvv; right|by apply Hvv; left| |].
  { apply Hv, list_elem_of_further, elem_of_app. right. apply list_elem_of_here. }
  exists h4. split; [done|]. apply list.NoDup_cons in Hnx as Hx. destruct Hx as [Hhx Hnx'].
  apply list.NoDup_cons in Hny as Hy. destruct Hy as [Hhy Hny']. split; [split; [|split]|split; [|split]].
  - apply list.NoDup_cons. rewrite not_elem_of_app. split; [done|]. by apply list.NoDup_app.
  - intros q Hi. apply D, Hvv. rewrite elem_of_cons, elem_of_app in Hi. rewrite !elem_of_cons. tauto.
  - rewrite app_comm_cons, app_comm_cons, Hip, <- app_assoc, Hnr, <- app_assoc. cbn [app].
    assert (p ∉ i) as Hpi by (rewrite Hip in Hnx; apply list.NoDup_app in Hnx as (_ & Hd & _); intros Hi; by apply (Hd p Hi), list_elem_of_here).
    apply (links_bridge h); [done|done|by rewrite Hnxt, decide_False, decide_True|by rewrite Hprv, decide_False, decide_True| |].
    + intros a. rewrite <- Hnr, removelast_snoc, elem_of_app. intros Ha. rewrite Hnxt, !decide_False; [done| |].
      * intros ->. destruct Ha as [|Ha]; [done|]. apply elem_of_cons in Hp as [->|Hp]; [done|by apply (Hdis p)].
      * intros ->. destruct Ha as [Ha|Ha]; [|by apply Hey, list_elem_of_further].
        apply Hex. rewrite Hip. apply elem_of_app. by left.
    + intros b. rewrite <- Hip, elem_of_app. cbn [tail]. intros Hb. rewrite Hprv, !decide_False; [done| |].
      * intros ->. destruct Hb as [Hb|Hb]; [|by apply (ring_first_notin hd ys n r)].
        apply elem_of_cons in Hn as [->|Hn]; [done|by apply (Hdis n)].
      * intros ->. destruct Hb as [Hb|Hb]; [by apply Hex, list_elem_of_further|].
        by apply Hey, (in_ring_first hd ys n r e Hnr), list_elem_of_further.
  - by rewrite Hnxt, decide_True.
  - by rewrite Hprv, decide_True.
  - intros q Hi. rewrite not_elem_of_cons, not_elem_of_app, not_elem_of_cons in Hi. destruct Hi as (H1 & H2 & H3 & H4).
    rewrite Hnxt, Hprv, !decide_False; try done; intros ->; [by apply elem_of_cons in Hn as [->|?]|by apply elem_of_cons in Hp as [->|?]].
Qed.

(** ** iqueue_splice *)

Lemma splice_writes h l hd f z a :
  nxt h l = Some f -> prv h l = Some z -> nxt h hd = Some a ->
  is_Some (h !! f) -> is_Some (h !! hd) -> is_Some (h !! z) -> is_Some (h !! a) ->
  exists h', iqueue_splice_nonempty h l hd = Ok h' /\
    (forall q, nxt h' q = if decide (q = z) then Some a else if decide (q = hd) then Some f else nxt h q) /\
    (forall q, prv h' q = if decide (q = a) then Some z else if decide (q = f) then Some hd else prv h q) /\
    (forall q, is_Some (h' !! q) <-> is_Some (h !! q)).
Proof.
  intros Hn1 Hp1 Hn2 Hf Hh Hz Ha. unfold iqueue_splice_nonempty.
  rewrite (get_next_Ok h l f), (get_prev_Ok h l z), (get_next_Ok h hd a) by done. cbn [mbind run_bind].
  write_prev h f hd; [done|]. write_next h' hd f; [by apply D|]. write_next h'0 z a; [by apply D0, D|].
  destruct (set_prev_Ok h'1 a z) as (h4 & -> & P2 & N2 & D2); [by apply D1, D0, D|].
  exists h4. split; [done|]. split_and!; intros q; [by rewrite N2, N1, N0, N|by rewrite P2, P1, P0, P|].
  rewrite D2, D1, D0. apply D.
Qed.

(** The ends of a queue that is not empty. *)
Lemma queue_ends h l xs :
  queue h l xs -> xs <> [] ->
  exists f t i z, xs = f :: t /\ xs = i ++ [z] /\ nxt h l = Some f /\ prv h l = Some z /\ links h (i ++ [z]).
Proof.
  intros (_ & _ & Hl) Hne. destruct (exists_last Hne) as (i & z & Hiz). destruct xs as [|f t]; [done|].
  exists f, t, i, z. cbn [app] in Hl. apply links_cons in Hl as (Hn & _ & Hl).
  rewrite app_comm_cons, Hiz, <- app_assoc in Hl. cbn [app] in Hl. apply links_app in Hl as [Hl1 Hl2].
  apply links_cons in Hl2 as (_ & Hp & _). done.
Qed.

Lemma splice_spec h l xs hd ys :
  queue h l xs -> queue h hd ys -> xs <> [] -> (forall x, x ∈ l :: xs -> x ∉ hd :: ys) ->
  exists h', iqueue_splice h l hd = Ok h' /\ queue h' hd (xs ++ ys) /\
    (forall q, is_Some (h' !! q) <-> is_Some (h !! q)).
Proof.
  intros Hqx (Hny & Hvy & Hly) Hne Hdis. unfold iqueue_splice.
  rewrite (is_empty_spec _ _ _ Hqx), bool_decide_eq_false_2 by done. cbn [mbind run_bind negb].
  destruct (queue_ends _ _ _ Hqx Hne) as (f & t & i & z & Hft & Hiz & Hn1 & Hp1 & Hlx). destruct Hqx as (Hnx & Hvx & _).
  destruct (ring_first hd ys) as (a & r & Har). rewrite Har in Hly. apply links_cons in Hly as (Hn2 & _ & Hly).
  assert (z ∈ xs) as Hz by (rewrite Hiz; apply elem_of_app; right; apply list_elem_of_here).
  assert (f ∈ xs) as Hf by (rewrite Hft; apply list_elem_of_here).
  assert (a ∈ hd :: ys) as Ha by (eapply in_ring_first; [exact Har|apply list_elem_of_here]).
  assert (Hx : forall x, x ∈ xs -> x ∉ hd :: ys) by (intros x Hx'; apply Hdis; by apply list_elem_of_further).
  destruct (splice_writes h l hd f z a) as (h4 & Hsp & Hnxt & Hprv & D); try done;
    [by apply Hvx, list_elem_of_further|apply Hvy, list_elem_of_here|by apply Hvx, list_elem_of_further|by apply Hvy|].
  exists h4. split; [done|]. split; [|done]. apply list.NoDup_cons in Hnx as [_ Hnx]. apply list.NoDup_cons in Hny as Hy.
  destruct Hy as [Hhy Hny']. assert (z <> hd) as Hzh by (intros ->; apply (Hx _ Hz), list_elem_of_here).
  assert (f <> a) as Hfa by (intros ->; by apply (Hx a)). split; [|split].
  - apply list.NoDup_cons. rewrite not_elem_of_app. split; [split; [|done]; intros Hh; apply (Hx _ Hh), list_elem_of_here|].
    apply list.NoDup_app. split; [done|]. split; [|done]. intros x H1 H2. apply (Hx x H1). by apply list_elem_of_further.
  - intros q Hq. apply D. rewrite elem_of_cons, elem_of_app in Hq. destruct Hq as [->|[Hq|Hq]];
      [apply Hvy, list_elem_of_here|by apply Hvx, list_elem_of_further|by apply Hvy, list_elem_of_further].
  - rewrite <- app_assoc, Har. change (links h4 (hd :: xs ++ a :: r)). rewrite Hft. cbn [app]. apply links_cons.
    rewrite Hnxt, Hprv, decide_False, decide_True, decide_False, decide_True by done. split_and!; [done..|].
    change (f :: t ++ a :: r) with ((f :: t) ++ a :: r). rewrite <- Hft, Hiz, <- app_assoc. cbn [app].
    apply (links_bridge h); [done|done|by rewrite Hnxt, decide_True|by rewrite Hprv, decide_True| |].
    + intros b. rewrite <- Har, removelast_snoc, elem_of_app. intros Hb. rewrite Hnxt, !decide_False; [done| |].
      * intros ->. destruct Hb as [Hb|]; [|done]. apply (Hx hd); [|apply list_elem_of_here]. rewrite Hiz. apply elem_of_app. by left.
      * intros ->. destruct Hb as [Hb|Hb]; [|by apply (Hx z Hz), list_elem_of_further].
        rewrite Hiz in Hnx. apply list.NoDup_app in Hnx as (_ & Hd & _). by apply (Hd z Hb), list_elem_of_here.
    + intros b. rewrite <- Hiz, Hft, elem_of_app. cbn [tail]. intros Hb. rewrite Hft in Hnx. apply list.NoDup_cons in Hnx as [Hft' _].
      rewrite Hprv, !decide_False; [done| |]; intros ->; destruct Hb as [Hb|Hb]; try done.
      * apply (Hx f Hf). eapply in_ring_first; [exact Har|by apply list_elem_of_further].
      * apply (Hx a); [|done]. rewrite Hft. by apply list_elem_of_further.
      * by apply (ring_first_notin hd ys a r).
Qed.

(** ** The queue macros implement lists *)

(** C36: the queue macros refine list operations.  On a heap where the queue at
    [hd] holds the nodes [xs], and for a valid node outside it: IQUEUE_ADD yields
    the queue [node :: xs], IQUEUE_ADD_TAIL the queue [xs ++ [node]], IQUEUE_DEL of
    any member removes exactly this member and leaves its links NULL,
    IQUEUE_IS_EMPTY tests for the empty list, and iqueue_foreach visits [xs] in
    order and stops.  No macro follows an invalid pointer, and links of other
    nodes are not touched. *)
Theorem iqueue_refines_lists h hd xs node :
  queue h hd xs -> node ∉ hd :: xs -> is_Some (h !! node) ->
  (exists h1, IQUEUE_ADD h node hd = Ok h1 /\ queue h1 hd (node :: xs) /\
     forall q, q ∉ node :: hd :: xs -> nxt h1 q = nxt h q /\ prv h1 q = prv h q) /\
  (exists h2, IQUEUE_ADD_TAIL h node hd = Ok h2 /\ queue h2 hd (xs ++ [node]) /\
     forall q, q ∉ node :: hd :: xs -> nxt h2 q = nxt h q /\ prv h2 q = prv h q) /\
  (forall a e b, xs = a ++ e :: b -> exists h3, IQUEUE_DEL h e = Ok h3 /\ queue h3 hd (a ++ b) /\
     nxt h3 e = Some NULL /\ prv h3 e = Some NULL /\
     forall q, q ∉ hd :: xs -> nxt h3 q = nxt h q /\ prv h3 q = prv h q) /\
  IQUEUE_IS_EMPTY h hd = Ok (bool_decide (xs = [])) /\
  iqueue_foreach_entry (S (length xs)) h hd = Ok xs.
Proof.
  intros Hq Hni Hv. split; [by apply add_spec|]. split; [by apply add_tail_spec|].
  split; [intros a e b ->; by apply del_spec|].
  split; [by apply is_empty_spec|apply foreach_spec; [done|lia]].
Qed.

(** Node 1 heads a queue of 2 and 3; 4 is loose; 5 heads a queue of 6. *)
Definition demo_heap : heap :=
  list_to_map [(1, mkQ 2 3); (2, mkQ 3 1); (3, mkQ 1 2); (4, mkQ 0 0); (5, mkQ 6 6); (6, mkQ 5 5)].

Lemma demo_heap_queue : queue demo_heap 1 [2; 3] /\ queue demo_heap 5 [6].
Proof.
  split; (split; [apply (bool_decide_unpack _); reflexivity|split; [|vm_compute; repeat split]]);
    intros p Hp; rewrite !elem_of_cons, elem_of_nil in Hp; destruct_or! Hp; subst; try done;
    eexists; vm_compute; reflexivity.
Qed.

Lemma iqueue_refines_lists_witness :
  (exists h1, IQUEUE_ADD demo_heap 4 1 = Ok h1 /\ queue h1 1 [4; 2; 3] /\
     forall q, q ∉ [4; 1; 2; 3] -> nxt h1 q = nxt demo_heap q /\ prv h1 q = prv demo_heap q) /\
  (exists h2, IQUEUE_ADD_TAIL demo_heap 4 1 = Ok h2 /\ queue h2 1 [2; 3; 4] /\
     forall q, q ∉ [4; 1; 2; 3] -> nxt h2 q = nxt demo_heap q /\ prv h2 q = prv demo_heap q) /\
  (forall a e b, [2; 3] = a ++ e :: b -> exists h3, IQUEUE_DEL demo_heap e = Ok h3 /\ queue h3 1 (a ++ b) /\
     nxt h3 e = Some NULL /\ prv h3 e = Some NULL /\
     forall q, q ∉ [1; 2; 3] -> nxt h3 q = nxt demo_heap q /\ prv h3 q = prv demo_heap q) /\
  IQUEUE_IS_EMPTY demo_heap 1 = Ok (bool_decide ([2; 3] = [])) /\
  iqueue_foreach_entry 3 demo_heap 1 = Ok [2; 3].
Proof.
  apply (iqueue_refines_lists demo_heap 1 [2; 3] 4).
  - exact (proj1 demo_heap_queue).
  - apply (bool_decide_unpack _). reflexivity.
  - eexists. vm_compute. reflexivity.
Defined.

(** Iqueue_splice_init concatenates.  The nodes of one queue are inserted,
    in order, before those of a disjoint one, and the first queue is left empty;
    splicing an empty queue changes nothing. *)
Theorem iqueue_splice_init_concat h l xs hd ys :
  queue h l xs -> queue h hd ys -> (forall x, x ∈ l :: xs -> x ∉ hd :: ys) ->
  exists h', iqueue_splice_init h l hd = Ok h' /\ queue h' hd (xs ++ ys) /\ queue h' l [].
Proof.
  intros Hx Hy Hd. unfold iqueue_splice_init.
  assert (exists h1, iqueue_splice h l hd = Ok h1 /\ queue h1 hd (xs ++ ys) /\
    (forall q, is_Some (h1 !! q) <-> is_Some (h !! q))) as (h1 & -> & Hq & Hv).
  { destruct (decide (xs = [])) as [->|Hne]; [|by apply splice_spec].
    exists h. unfold iqueue_splice. rewrite (is_empty_spec _ _ _ Hx). done. }
  cbn [mbind run_bind].
  destruct (init_spec h1 l) as (h2 & -> & Hl & Hsame & Hv2); [apply Hv, Hx, list_elem_of_here|].
  exists h2. split; [done|]. split; [|done]. destruct Hq as (Hn & Hvq & Hlk).
  assert (Hni : l ∉ hd :: xs ++ ys).
  { rewrite not_elem_of_cons, not_elem_of_app. pose proof (Hd l (list_elem_of_here _ _)) as Hl'.
    rewrite not_elem_of_cons in Hl'. destruct Hl'. split_and!; try done.
    by destruct Hx as ([? _]%list.NoDup_cons & _). }
  split; [done|]. split; [intros p Hp; by apply Hv2, Hvq|].
  apply (links_ext h1); [done| |].
  - intros a Ha. apply Hsame. intros ->. apply Hni. rewrite app_comm_cons, removelast_snoc in Ha. done.
  - intros b Hb. apply Hsame. intros ->. apply Hni. cbn [tail] in Hb.
    apply elem_of_app in Hb as [Hb|Hb]; [by apply list_elem_of_further|].
    apply list_elem_of_singleton in Hb as ->. apply list_elem_of_here.
Qed.
