(* ===== verification/KcpState.v ===== *)
(** * The KCP control block

    The constants of src/util/ikcp.c, the structures IKCPSEG and IKCPCB of
    src/util/ikcp.h, and the operations that create and configure a control
    block.  The intrusive queues are lists of segments; file [IQueue] shows that
    the pointer macros implement the list operations used here. *)

From S2P Require Import Prelude Codec.

(** ** Constants *)

Definition IKCP_RTO_NDL : Z := 30.
Definition IKCP_RTO_MIN : Z := 100.
Definition IKCP_RTO_DEF : Z := 200.
Definition IKCP_RTO_MAX : Z := 60000.
Definition IKCP_CMD_PUSH : Z := 81.
Definition IKCP_CMD_ACK : Z := 82.
Definition IKCP_CMD_WASK : Z := 83.
Definition IKCP_CMD_WINS : Z := 84.
Definition IKCP_ASK_SEND : Z := 1.
Definition IKCP_ASK_TELL : Z := 2.
Definition IKCP_WND_SND : Z := 32.
Definition IKCP_WND_RCV : Z := 32.
Definition IKCP_MTU_DEF : Z := 1400.
Definition IKCP_INTERVAL : Z := 100.
Definition IKCP_OVERHEAD : Z := 24.
Definition IKCP_DEADLINK : Z := 10.
Definition IKCP_THRESH_INIT : Z := 2.
Definition IKCP_THRESH_MIN : Z := 2.
Definition IKCP_PROBE_INIT : Z := 7000.
Definition IKCP_PROBE_LIMIT : Z := 120000.

(** ** Segments

    struct IKCPSEG without its queue link.  [seg_data] is the block [data]
    points to, of the size the segment was allocated with. *)

Record IKCPSEG := mkSeg {
  seg_conv : Z;
  seg_cmd : Z;
  seg_frg : Z;
  seg_wnd : Z;
  seg_ts : Z;
  seg_sn : Z;
  seg_una : Z;
  seg_len : Z;
  seg_resendts : Z;
  seg_rto : Z;
  seg_fastack : Z;
  seg_xmit : Z;
  seg_data : list byte
}.

#[export] Hint Extern 1 (Update (R := IKCPSEG) ?p) =>
  derive_update (fun s => mkSeg (seg_conv s) (seg_cmd s) (seg_frg s)
    (seg_wnd s) (seg_ts s) (seg_sn s) (seg_una s) (seg_len s)
    (seg_resendts s) (seg_rto s) (seg_fastack s) (seg_xmit s)
    (seg_data s)) p : typeclass_instances.

(** ** The control block

    struct IKCPCB.  [buffer] is the size in bytes of the block the field points
    to; [output] says whether the output callback is installed; [acklist] is
    [None] for NULL and otherwise the array, a cell [None] being uninitialised.
    The log callback and its mask are left out: they change no other field. *)

Record ikcpcb := mkKcp {
  conv : Z; mtu : Z; mss : Z; state : Z;
  snd_una : Z; snd_nxt : Z; rcv_nxt : Z;
  ts_recent : Z; ts_lastack : Z; ssthresh : Z;
  rx_rttval : Z; rx_srtt : Z; rx_rto : Z; rx_minrto : Z;
  snd_wnd : Z; rcv_wnd : Z; rmt_wnd : Z; cwnd : Z; probe : Z;
  current : Z; interval : Z; ts_flush : Z; xmit : Z;
  nrcv_buf : Z; nsnd_buf : Z;
  nrcv_que : Z; nsnd_que : Z;
  nodelay : Z; updated : Z;
  ts_probe : Z; probe_wait : Z;
  dead_link : Z; incr : Z;
  snd_queue : list IKCPSEG;
  rcv_queue : list IKCPSEG;
  snd_buf : list IKCPSEG;
  rcv_buf : list IKCPSEG;
  acklist : option (list (option Z));
  ackcount : Z;
  ackblock : Z;
  user : Z;
  buffer : Z;
  fastresend : Z;
  nocwnd : Z;
  output : bool
}.

#[export] Hint Extern 1 (Update (R := ikcpcb) ?p) =>
  derive_update (fun k => mkKcp (conv k) (mtu k) (mss k) (state k)
    (snd_una k) (snd_nxt k) (rcv_nxt k)
    (ts_recent k) (ts_lastack k) (ssthresh k)
    (rx_rttval k) (rx_srtt k) (rx_rto k) (rx_minrto k)
    (snd_wnd k) (rcv_wnd k) (rmt_wnd k) (cwnd k) (probe k)
    (current k) (interval k) (ts_flush k) (xmit k)
    (nrcv_buf k) (nsnd_buf k) (nrcv_que k) (nsnd_que k)
    (nodelay k) (updated k) (ts_probe k) (probe_wait k)
    (dead_link k) (incr k)
    (snd_queue k) (rcv_queue k) (snd_buf k) (rcv_buf k)
    (acklist k) (ackcount k) (ackblock k) (user k) (buffer k)
    (fastresend k) (nocwnd k) (output k)) p : typeclass_instances.

(** ** Memory

    What [ikcp_malloc] (the hook or malloc) answers: [mem_ok m n] says whether a
    request of [n] bytes succeeds, and [mem_seg m] is the indeterminate content
    a fresh segment has before the code writes its fields. *)

Record mem := mkMem { mem_ok : Z -> bool; mem_seg : IKCPSEG }.

(** sizeof on an LP64 target. *)
Definition sizeof_IKCPCB : Z := 264.
Definition sizeof_IKCPSEG : Z := 72.

Definition ikcp_segment_new (m : mem) (size : Z) : option IKCPSEG :=
  if mem_ok m (sizeof_IKCPSEG + size) then
    Some ((mem_seg m) <| seg_data := resize (Z.to_nat size) Byte.x00 (seg_data (mem_seg m)) |>)
  else None.

(** ** Creation *)

Definition ikcp_create (m : mem) (conv user : Z) : option ikcpcb :=
  if negb (mem_ok m sizeof_IKCPCB) then None
  else
    let mtu := IKCP_MTU_DEF in
    let mss := u32 (mtu - IKCP_OVERHEAD) in
    let buffer := u32 (u32 (mtu + IKCP_OVERHEAD) * 3) in
    if negb (mem_ok m buffer) then None
    else Some {|
      conv := conv; mtu := mtu; mss := mss; state := 0;
      snd_una := 0; snd_nxt := 0; rcv_nxt := 0;
      ts_recent := 0; ts_lastack := 0; ssthresh := IKCP_THRESH_INIT;
      rx_rttval := 0; rx_srtt := 0; rx_rto := IKCP_RTO_DEF;
      rx_minrto := IKCP_RTO_MIN;
      snd_wnd := IKCP_WND_SND; rcv_wnd := IKCP_WND_RCV;
      rmt_wnd := IKCP_WND_RCV; cwnd := 0; probe := 0;
      current := 0; interval := IKCP_INTERVAL; ts_flush := IKCP_INTERVAL;
      xmit := 0;
      nrcv_buf := 0; nsnd_buf := 0; nrcv_que := 0; nsnd_que := 0;
      nodelay := 0; updated := 0; ts_probe := 0; probe_wait := 0;
      dead_link := IKCP_DEADLINK; incr := 0;
      snd_queue := []; rcv_queue := []; snd_buf := []; rcv_buf := [];
      acklist := None; ackcount := 0; ackblock := 0;
      user := user; buffer := buffer;
      fastresend := 0; nocwnd := 0; output := false
    |}.

(** ** Configuration *)

Definition ikcp_setmtu (m : mem) (kcp : ikcpcb) (mtu' : Z) : ikcpcb * Z :=
  if (mtu' <? 50) || (mtu' <? IKCP_OVERHEAD) then (kcp, -1)
  else
    let buffer' := u32 (u32 (mtu' + IKCP_OVERHEAD) * 3) in
    if negb (mem_ok m buffer') then (kcp, -2)
    else
      let kcp := kcp <| mtu := u32 mtu' |> in
      let kcp := kcp <| mss := u32 (mtu kcp - IKCP_OVERHEAD) |> in
      (kcp <| buffer := buffer' |>, 0).

Definition clamp_interval (interval : Z) : Z :=
  if interval >? 5000 then 5000 else if interval <? 2 then 2 else interval.

Definition ikcp_interval (kcp : ikcpcb) (interval' : Z) : ikcpcb * Z :=
  (kcp <| interval := clamp_interval interval' |>, 0).

Definition ikcp_nodelay (kcp : ikcpcb) (nodelay' interval' resend nc : Z)
  : ikcpcb * Z :=
  let kcp :=
    if nodelay' >=? 0 then
      let kcp := kcp <| nodelay := nodelay' |> in
      if negb (nodelay' =? 0) then kcp <| rx_minrto := IKCP_RTO_NDL |>
      else kcp <| rx_minrto := IKCP_RTO_MIN |>
    else kcp in
  let kcp :=
    if interval' >=? 0 then kcp <| interval := clamp_interval interval' |>
    else kcp in
  let kcp := if resend >=? 0 then kcp <| fastresend := resend |> else kcp in
  let kcp := if nc >=? 0 then kcp <| nocwnd := nc |> else kcp in
  (kcp, 0).

Definition ikcp_wndsize (kcp : ikcpcb) (sndwnd rcvwnd : Z) : ikcpcb * Z :=
  let kcp := if sndwnd >? 0 then kcp <| snd_wnd := sndwnd |> else kcp in
  let kcp := if rcvwnd >? 0 then kcp <| rcv_wnd := rcvwnd |> else kcp in
  (kcp, 0).

Definition ikcp_waitsnd (kcp : ikcpcb) : Z :=
  i32 (u32 (nsnd_buf kcp + nsnd_que kcp)).

(** ** Parts of the control block

    The fields grouped by the half of the protocol that writes them, to say
    what an operation leaves alone. *)

Definition snd_part (k : ikcpcb) :=
  (snd_nxt k, snd_queue k, snd_buf k, nsnd_que k, nsnd_buf k).
Definition rcv_part (k : ikcpcb) :=
  (rcv_nxt k, rcv_queue k, rcv_buf k, nrcv_que k, nrcv_buf k).
Definition ack_part (k : ikcpcb) := (acklist k, ackcount k, ackblock k).
Definition cfg_part (k : ikcpcb) :=
  (conv k, mtu k, mss k, buffer k, output k, snd_wnd k, rcv_wnd k, rx_minrto k,
   interval k, fastresend k, nocwnd k, nodelay k, dead_link k).
(** The rest that more than one operation reads. *)
Definition clk_part (k : ikcpcb) :=
  (snd_una k, current k, updated k, ts_flush k, rmt_wnd k, cwnd k, incr k, ssthresh k,
   rx_rto k, state k, xmit k, probe k, probe_wait k, ts_probe k).

Lemma snd_part_eq k k' : snd_part k' = snd_part k ->
  snd_nxt k' = snd_nxt k /\ snd_queue k' = snd_queue k /\ snd_buf k' = snd_buf k.
Proof. unfold snd_part. by intros [= -> -> -> _ _]. Qed.

Lemma ack_part_count k k' : ack_part k' = ack_part k -> ackcount k' = ackcount k.
Proof. unfold ack_part. by intros [= _ -> _]. Qed.

Lemma clk_part_una k k' : clk_part k' = clk_part k -> snd_una k' = snd_una k.
Proof. unfold clk_part. congruence. Qed.

Lemma clk_part_probe k k' : clk_part k' = clk_part k -> probe k' = probe k.
Proof. unfold clk_part. by intros [= ]. Qed.

(** Reads a field of an updated record off an equation between parts. *)
Ltac parts :=
  repeat match goal with
  | H : snd_part _ = snd_part _ |- _ => unfold snd_part in H; cbn in H; injection H as
  | H : rcv_part _ = rcv_part _ |- _ => unfold rcv_part in H; cbn in H; injection H as
  | H : ack_part _ = ack_part _ |- _ => unfold ack_part in H; cbn in H; injection H as
  | H : cfg_part _ = cfg_part _ |- _ => unfold cfg_part in H; cbn in H; injection H as
  | H : clk_part _ = clk_part _ |- _ => unfold clk_part in H; cbn in H; injection H as
  end.
