(* ===== verification/KcpMemoryInv.v ===== *)
(** * The memory of a control block: what it owns

    The invariant behind [KcpMemoryThms]: which blocks belong to a control block,
    how they lie in memory, that the four queues run through disjoint sets of
    nodes, and what allocating, freeing and queue operations do to it. *)

From stdpp Require Import gmap.
From S2P Require Import Prelude KcpState IQueue KcpMemory.

Section Owned.
Context {MA : Malloc} {ML : MallocLaws}.

(** ** What is owned *)

(** The live blocks do not overlap and hold all nodes. *)
Record mem_wf (m : memory) : Prop := {
  mw_pos p b : blocks m !! p = Some b -> 0 < p /\ 0 < b_size b;
  mw_apart p b p' b' : blocks m !! p = Some b -> blocks m !! p' = Some b' -> p <> p' ->
    p + b_size b <= p' \/ p' + b_size b' <= p;
  mw_nodes q : is_Some (nodes m !! q) -> exists p b, blocks m !! p = Some b /\ within p (b_size b) q
}.

Definition owner_of (m : memory) : allocator := by_hook (ikcp_free_hook m).

(** [m] is [m0] with the blocks [S] on top, which the control block owns. *)
Record extends (m0 m : memory) (S : gset Z) : Prop := {
  ex_wf0 : mem_wf m0;
  ex_wf : mem_wf m;
  ex_malloc : ikcp_malloc_hook m = ikcp_malloc_hook m0;
  ex_free : ikcp_free_hook m = ikcp_free_hook m0;
  ex_match : ikcp_malloc_hook m0 = ikcp_free_hook m0;
  ex_own p : p ∈ S -> (exists n, blocks m !! p = Some (mkBlock n (owner_of m0))) /\ blocks m0 !! p = None;
  ex_rest p : p ∉ S -> blocks m !! p = blocks m0 !! p;
  ex_nodes q : (forall p b, p ∈ S -> blocks m !! p = Some b -> ~ within p (b_size b) q) ->
    nodes m !! q = nodes m0 !! q
}.

Lemma extends_refl m : mem_wf m -> ikcp_malloc_hook m = ikcp_free_hook m -> extends m m ∅.
Proof. intros Hm Hh. by constructor; try done; set_solver. Qed.

(** With nothing owned, the memory is the original one. *)
Lemma extends_empty m0 m : extends m0 m ∅ -> m = m0.
Proof.
  intros [_ _ Hm Hf _ _ Hr Hn]. destruct m as [b h mh fh], m0 as [b0 h0 mh0 fh0]. cbn in *. subst.
  f_equal; apply map_eq; intros q; [apply Hr|apply Hn]; set_solver.
Qed.

(** Two live blocks that share an address are the same. *)
Lemma within_same m p b p' b' q :
  mem_wf m -> blocks m !! p = Some b -> blocks m !! p' = Some b' ->
  within p (b_size b) q -> within p' (b_size b') q -> p = p'.
Proof.
  intros Hm Hp Hp' H1 H2. destruct (decide (p = p')) as [|Hne]; [done|].
  pose proof (mw_apart m Hm p b p' b' Hp Hp' Hne). unfold within in *. lia.
Qed.


Lemma malloc_fresh m n : mem_wf m -> 0 < n ->
  exists p, ikcp_malloc m n
    = (mkMemory (<[p := mkBlock n (by_hook (ikcp_malloc_hook m))]> (blocks m)) (nodes m)
         (ikcp_malloc_hook m) (ikcp_free_hook m), p) /\
    p <> NULL /\ blocks m !! p = None /\ fresh_for (blocks m) n p.
Proof.
  intros Hm Hn. unfold ikcp_malloc. pose proof (pick_fresh (blocks m) n Hn) as Hf.
  exists (pick (blocks m) n). pose proof Hf as [Hp Hfr].
  rewrite (proj2 (Z.eqb_neq _ _)) by (unfold NULL; lia). split; [done|]. split; [unfold NULL; lia|].
  split; [|done]. destruct (blocks m !! pick (blocks m) n) as [b|] eqn:E; [|done].
  destruct (mw_pos m Hm _ _ E). specialize (Hfr _ _ E). lia.
Qed.

Lemma insert_wf m p n al h mh fh :
  mem_wf m -> 0 < n -> fresh_for (blocks m) n p ->
  (forall q, is_Some (h !! q) -> within p n q \/ is_Some (nodes m !! q)) ->
  mem_wf (mkMemory (<[p := mkBlock n al]> (blocks m)) h mh fh).
Proof.
  intros Hm Hn [Hp Hfr] Hq.
  assert (blocks m !! p = None) as Hnone.
  { destruct (blocks m !! p) as [b|] eqn:E; [|done]. destruct (mw_pos m Hm _ _ E). specialize (Hfr _ _ E). lia. }
  constructor; cbn [blocks nodes].
  - intros x b [[<- <-]|[? Hx]]%lookup_insert_Some; [done|]. by apply (mw_pos m).
  - intros x b x' b' [[<- <-]|[? Hx]]%lookup_insert_Some [[<- <-]|[? Hx']]%lookup_insert_Some Hne; [done|..].
    + cbn. apply Hfr; [done|]. by apply (mw_pos m Hm x').
    + cbn. destruct (Hfr _ _ Hx); [by apply (mw_pos m Hm x)|lia..].
    + by apply (mw_apart m).
  - intros q [Hin|[y Hy]]%Hq; [exists p; eexists; by rewrite lookup_insert_eq|].
    destruct (mw_nodes m Hm q) as (x & b & Hx & Hin); [eauto|]. exists x, b. split; [|done].
    rewrite lookup_insert_ne; [done|]. congruence.
Qed.

(** The nodes of a fresh block are put where no node was. *)
Lemma extends_malloc m0 m S n h :
  extends m0 m S -> 0 < n ->
  (forall p q, fresh_for (blocks m) n p -> ~ within p n q -> h p !! q = nodes m !! q) ->
  exists p, ikcp_malloc m n = (mkMemory (<[p := mkBlock n (owner_of m0)]> (blocks m)) (nodes m)
      (ikcp_malloc_hook m) (ikcp_free_hook m), p) /\
    p <> NULL /\ blocks m !! p = None /\ p ∉ S /\
    (forall q, within p n q -> nodes m !! q = None) /\
    extends m0 (mkMemory (<[p := mkBlock n (owner_of m0)]> (blocks m)) (h p)
      (ikcp_malloc_hook m) (ikcp_free_hook m)) ({[p]} ∪ S).
Proof.
  intros He Hn Hh. pose proof (ex_wf _ _ _ He) as Hm. destruct (malloc_fresh m n Hm Hn) as (p & Hp & Hnull & Hnone & Hfr).
  exists p. assert (by_hook (ikcp_malloc_hook m) = owner_of m0) as Ho.
  { unfold owner_of. by rewrite (ex_malloc _ _ _ He), (ex_match _ _ _ He). }
  rewrite Ho in Hp. assert (p ∉ S) as HpS.
  { intros [[k Hk] _]%(ex_own _ _ _ He). congruence. }
  assert (forall q, within p n q -> nodes m !! q = None) as Hno.
  { intros q Hq. destruct (nodes m !! q) eqn:E; [|done]. destruct (mw_nodes m Hm q) as (x & b & Hx & Hin); [eauto|].
    destruct Hfr as [_ Hfr]. pose proof (Hfr _ _ Hx). destruct (mw_pos m Hm _ _ Hx). unfold within in *. lia. }
  split_and!; try done. destruct He as [H0 _ Hma Hfe Hma' Hown Hrest Hnod]. constructor; try done.
  - apply insert_wf; [done..|]. intros q Hq. destruct (decide (within p n q)) as [|Hnw]; [by left|right].
    by rewrite <- (Hh p q).
  - cbn. intros x [->%elem_of_singleton|Hx]%elem_of_union.
    + rewrite lookup_insert_eq. split; [eauto|]. rewrite <- Hrest; done.
    + rewrite lookup_insert_ne by set_solver. by apply Hown.
  - cbn. intros x Hx. rewrite lookup_insert_ne by set_solver. apply Hrest. set_solver.
  - cbn. intros q Hq. rewrite (Hh p q); [|done|].
    + apply Hnod. intros x b Hx Hb. apply (Hq x b); [set_solver|]. by rewrite lookup_insert_ne by set_solver.
    + apply (Hq p (mkBlock n (owner_of m0))); [set_solver|]. by rewrite lookup_insert_eq.
Qed.

(** Queue operations change nodes of owned blocks only, and no block. *)
Lemma extends_nodes m0 m S h :
  extends m0 m S -> (forall q, is_Some (h !! q) -> is_Some (nodes m !! q)) ->
  (forall q, h !! q <> nodes m !! q -> exists p b, p ∈ S /\ blocks m !! p = Some b /\ within p (b_size b) q) ->
  extends m0 (with_nodes m h) S.
Proof.
  intros He Hdom Hout. destruct He as [H0 Hm Hma Hfe Hma' Hown Hrest Hnod]. constructor; try done.
  - destruct Hm as [H1 H2 H3]. constructor; cbn; eauto.
  - cbn. intros q Hq. destruct (decide (h !! q = nodes m !! q)) as [->|Hne]; [by apply Hnod|].
    destruct (Hout q Hne) as (p & b & Hp & Hb & Hin). by destruct (Hq p b Hp Hb).
Qed.

Definition freed (m : memory) (p n : Z) : memory :=
  mkMemory (delete p (blocks m)) (base.filter (fun qn => ~ within p n qn.1) (nodes m))
    (ikcp_malloc_hook m) (ikcp_free_hook m).

Lemma freed_node m p n q : ~ within p n q -> nodes (freed m p n) !! q = nodes m !! q.
Proof.
  intros Hq. cbn. destruct (nodes m !! q) as [y|] eqn:E.
  - by apply map_lookup_filter_Some.
  - apply map_lookup_filter_None. by left.
Qed.

Lemma freed_node_Some m p n q y : nodes (freed m p n) !! q = Some y -> nodes m !! q = Some y /\ ~ within p n q.
Proof. cbn. intros [? ?]%map_lookup_filter_Some. done. Qed.

Lemma freed_wf m p b : mem_wf m -> blocks m !! p = Some b -> mem_wf (freed m p (b_size b)).
Proof.
  intros Hm Hb. constructor.
  - cbn. intros x c [_ Hx]%lookup_delete_Some. by apply (mw_pos m).
  - cbn. intros x c x' c' [_ Hx]%lookup_delete_Some [_ Hx']%lookup_delete_Some. by apply (mw_apart m).
  - intros q [y Hy]. apply freed_node_Some in Hy as [Hy Hno].
    destruct (mw_nodes m Hm q) as (x & c & Hx & Hin); [eauto|]. exists x, c. split; [|done].
    cbn. apply lookup_delete_Some. split; [|done]. intros ->. congruence.
Qed.

(** An owned block is freed. *)
Lemma extends_free m0 m S p :
  extends m0 m S -> p ∈ S ->
  exists n, blocks m !! p = Some (mkBlock n (owner_of m0)) /\ ikcp_free m p = Ok (freed m p n) /\
    extends m0 (freed m p n) (S ∖ {[p]}).
Proof.
  intros He Hp. destruct (ex_own _ _ _ He p Hp) as [[n Hb] H0]. exists n. split; [done|]. split.
  { unfold ikcp_free. rewrite Hb. rewrite bool_decide_eq_true_2; [done|]. cbn.
    unfold owner_of. by rewrite (ex_free _ _ _ He). }
  pose proof (ex_wf _ _ _ He) as Hm. destruct He as [Hm0 _ Hma Hfe Hma' Hown Hrest Hnod]. constructor; try done.
  - exact (freed_wf m p _ Hm Hb).
  - cbn. intros x [Hx Hne]%elem_of_difference. rewrite lookup_delete_ne by set_solver. by apply Hown.
  - cbn. intros x Hx. destruct (decide (x = p)) as [->|Hne]; [by rewrite lookup_delete_eq|].
    rewrite lookup_delete_ne by done. apply Hrest. set_solver.
  - intros q Hq. destruct (decide (within p n q)) as [Hin|Hno].
    + assert (nodes (freed m p n) !! q = None) as ->.
      { destruct (nodes (freed m p n) !! q) eqn:E; [|done]. by apply freed_node_Some in E as [_ ?]. }
      destruct (nodes m0 !! q) eqn:E; [|done]. destruct (mw_nodes m0 Hm0 q) as (x & b & Hx & Hxin); [eauto|].
      assert (blocks m !! x = Some b) as Hxm.
      { rewrite Hrest; [done|]. intros [_ Hnone]%Hown. congruence. }
      assert (x = p) as ->; [|congruence]. exact (within_same m x b p _ q Hm Hxm Hb Hxin Hin).
    + rewrite freed_node by done. apply Hnod. intros x b Hx Hbx Hin. destruct (decide (x = p)) as [->|Hne].
      * rewrite Hb in Hbx. injection Hbx as <-. done.
      * apply (Hq x b); [set_solver| |done]. cbn. by rewrite lookup_delete_ne.
Qed.

(** ** The four queues *)

Record queues (m : memory) (al : allocator) (a : Z) (S : gset Z) (f : qid -> list Z) : Prop := {
  qs_in : a ∈ S;
  qs_cb : blocks m !! a = Some (mkBlock sizeof_IKCPCB al);
  qs_seg i x : x ∈ f i -> x ∈ S /\ x <> a /\ exists b, blocks m !! x = Some b;
  qs_queue i : queue (nodes m) (head_of a i) (f i);
  qs_one i j x : x ∈ f i -> x ∈ f j -> i = j
}.

Lemma node_eq (h h' : heap) q : nxt h' q = nxt h q /\ prv h' q = prv h q -> h' !! q = h !! q.
Proof.
  unfold nxt, prv. intros [H1 H2]. destruct (h' !! q) as [[]|], (h !! q) as [[]|]; cbn in *; congruence.
Qed.

(** A queue depends on its own nodes only. *)
Lemma queue_frame (h h' : heap) hd xs :
  queue h hd xs -> (forall q, q ∈ hd :: xs -> h' !! q = h !! q) -> queue h' hd xs.
Proof.
  intros (Hn & Hv & Hl) Hsame. split; [done|]. split; [intros q Hq; rewrite Hsame by done; by apply Hv|].
  eapply links_ext; [exact Hl|..].
  - intros q Hq. unfold nxt. rewrite app_comm_cons, removelast_snoc in Hq. by rewrite Hsame.
  - intros q Hq. unfold prv. cbn [tail] in Hq. rewrite Hsame; [done|].
    apply elem_of_app in Hq as [?| ->%list_elem_of_singleton]; set_solver.
Qed.

Lemma head_within a i : within a sizeof_IKCPCB (head_of a i).
Proof. unfold within, head_of, sizeof_IKCPCB. destruct i; cbn; lia. Qed.

Lemma head_inj a i j : head_of a i = head_of a j -> i = j.
Proof. unfold head_of. destruct i, j; cbn; intros; lia || done. Qed.

(** Every node of a queue lies in a block that is owned. *)
Lemma queue_node_owned m al a S f i q :
  mem_wf m -> queues m al a S f -> q ∈ head_of a i :: f i ->
  exists p b, p ∈ S /\ blocks m !! p = Some b /\ within p (b_size b) q /\ (p = a \/ p = q /\ q ∈ f i).
Proof.
  intros Hm Hq [->|Hin]%elem_of_cons.
  - exists a, (mkBlock sizeof_IKCPCB al). split_and!; [apply Hq|apply Hq|apply head_within|by left].
  - destruct (qs_seg _ _ _ _ _ Hq i q Hin) as (HS & _ & b & Hb). exists q, b. split_and!; try done.
    + pose proof (mw_pos m Hm q b Hb). unfold within. lia.
    + by right.
Qed.

(** The nodes of different queues are different. *)
Lemma queues_apart m al a S f i j q :
  mem_wf m -> queues m al a S f -> i <> j -> q ∈ head_of a i :: f i -> q ∉ head_of a j :: f j.
Proof.
  intros Hm Hq Hij Hi Hj.
  assert (forall i x, x ∈ f i -> ~ within a sizeof_IKCPCB x) as Hout.
  { intros k x Hx Hw. destruct (qs_seg _ _ _ _ _ Hq k x Hx) as (_ & Hne & b & Hb). apply Hne.
    eapply (within_same m x b a _ x Hm Hb (qs_cb _ _ _ _ _ Hq)); [|done].
    pose proof (mw_pos m Hm x b Hb). unfold within. lia. }
  apply elem_of_cons in Hi as [->|Hi]; apply elem_of_cons in Hj as [Hj|Hj].
  - by apply Hij, (head_inj a).
  - exact (Hout j _ Hj (head_within a i)).
  - subst q. exact (Hout i _ Hi (head_within a j)).
  - apply Hij. by eapply qs_one.
Qed.

Definition upd (f : qid -> list Z) (i : qid) (l : list Z) : qid -> list Z :=
  fun j => if decide (j = i) then l else f j.

Lemma upd_eq f i l : upd f i l i = l.
Proof. unfold upd. by rewrite decide_True. Qed.
Lemma upd_ne f i j l : j <> i -> upd f i l j = f j.
Proof. intros. unfold upd. by rewrite decide_False. Qed.

(** The memory [m] is [m0] and the blocks [S] of the control block at [a], whose
    queues hold the segments [f]. *)
Definition live (m0 m : memory) (a : Z) (S : gset Z) (f : qid -> list Z) : Prop :=
  extends m0 m S /\ queues m (owner_of m0) a S f.

Lemma live_block m0 m a S f p : live m0 m a S f -> p ∈ S ->
  exists b, blocks m !! p = Some b /\ within p (b_size b) p.
Proof.
  intros [He _] [[n Hn] _]%(ex_own _ _ _ He). eexists. split; [exact Hn|].
  pose proof (mw_pos m (ex_wf _ _ _ He) _ _ Hn). unfold within. lia.
Qed.

(** No segment lies in the control block. *)
Lemma seg_outside m0 m a S f p : live m0 m a S f -> p ∈ S -> p <> a -> ~ within a sizeof_IKCPCB p.
Proof.
  intros Hl Hp Hne Hin. destruct (live_block _ _ _ _ _ _ Hl Hp) as (b & Hb & Hw). destruct Hl as [He Hq].
  apply Hne. exact (within_same m p b a _ p (ex_wf _ _ _ He) Hb (qs_cb _ _ _ _ _ Hq) Hw Hin).
Qed.

(** A queue operation: queue [i] holds [l] afterwards, nothing else is touched. *)
Lemma live_nodes m0 m a S f i l h :
  live m0 m a S f -> queue h (head_of a i) l ->
  (forall q, q ∉ l -> q ∉ head_of a i :: f i -> h !! q = nodes m !! q) ->
  (forall x, x ∈ l -> is_Some (nodes m !! x) /\ x ∈ S /\ x <> a) ->
  (forall x j, x ∈ l -> j <> i -> x ∉ f j) ->
  live m0 (with_nodes m h) a S (upd f i l).
Proof.
  intros Hlive Hq Hsame Hl Hnew. pose proof Hlive as [He Hqs]. pose proof (ex_wf _ _ _ He) as Hm.
  assert (forall q, q ∈ l \/ q ∈ head_of a i :: f i \/ h !! q = nodes m !! q) as Hcase.
  { intros q. destruct (decide (q ∈ l)); [by left|]. destruct (decide (q ∈ head_of a i :: f i)); [by right; left|].
    right; right. by apply Hsame. }
  split.
  - apply extends_nodes; [done|..].
    + intros q Hs. destruct (Hcase q) as [Hin|[Hin|<-]]; [by apply Hl| |done].
      by apply (qs_queue _ _ _ _ _ Hqs i).
    + intros q Hne. destruct (Hcase q) as [Hin|[Hin|?]]; [| |done].
      * destruct (Hl q Hin) as (_ & HqS & _). destruct (live_block _ _ _ _ _ q Hlive HqS) as (b & Hb & Hw). eauto.
      * destruct (queue_node_owned _ _ _ _ _ _ _ Hm Hqs Hin) as (p & b & ? & ? & ? & _). eauto.
  - constructor; [apply Hqs|apply Hqs|..].
    + intros j x. destruct (decide (j = i)) as [->|Hne]; [rewrite upd_eq|rewrite upd_ne by done].
      * intros Hx. destruct (Hl x Hx) as (_ & HxS & Hxa). destruct (live_block _ _ _ _ _ x Hlive HxS) as (b & Hb & _). eauto.
      * apply (qs_seg _ _ _ _ _ Hqs).
    + intros j. destruct (decide (j = i)) as [->|Hne]; [by rewrite upd_eq|rewrite upd_ne by done].
      eapply queue_frame; [apply (qs_queue _ _ _ _ _ Hqs j)|]. intros q Hqj.
      apply Hsame; [|by apply (queues_apart m (owner_of m0) a S f j i)]. intros Hin.
      apply elem_of_cons in Hqj as [->|Hqj]; [|by apply (Hnew q j)].
      destruct (Hl _ Hin) as (_ & HqS & Hqa). by destruct (seg_outside _ _ _ _ _ _ Hlive HqS Hqa (head_within a j)).
    + intros j k x. unfold upd. destruct (decide (j = i)) as [->|Hj], (decide (k = i)) as [->|Hk]; [done|..].
      * intros Hx Hx'. by destruct (Hnew x k Hx Hk).
      * intros Hx Hx'. by destruct (Hnew x j Hx' Hj).
      * apply (qs_one _ _ _ _ _ Hqs).
Qed.

(** Freeing an owned block that is not the control block nor queued. *)
Lemma live_free m0 m a S f p :
  live m0 m a S f -> p ∈ S -> p <> a -> (forall i, p ∉ f i) ->
  exists m', ikcp_free m p = Ok m' /\ live m0 m' a (S ∖ {[p]}) f.
Proof.
  intros Hlive Hp Hpa Hpf. pose proof Hlive as [He Hq].
  destruct (extends_free _ _ _ _ He Hp) as (n & Hb & Hfree & He'). exists (freed m p n). split; [done|]. split; [done|].
  constructor.
  - pose proof (qs_in _ _ _ _ _ Hq). set_solver.
  - cbn. rewrite lookup_delete_ne by done. apply Hq.
  - intros i x Hx. destruct (qs_seg _ _ _ _ _ Hq i x Hx) as (HxS & Hxa & b & Hbx).
    assert (x <> p) by (intros ->; by apply (Hpf i)). split; [set_solver|]. split; [done|].
    exists b. cbn. by rewrite lookup_delete_ne.
  - intros i. eapply queue_frame; [apply (qs_queue _ _ _ _ _ Hq i)|]. intros q Hqi. apply freed_node. intros Hin.
    destruct (queue_node_owned _ _ _ _ _ _ _ (ex_wf _ _ _ He) Hq Hqi) as (x & b & _ & Hbx & Hw & Hor).
    assert (p = x) as -> by (exact (within_same m p _ x b q (ex_wf _ _ _ He) Hb Hbx Hin Hw)).
    destruct Hor as [|[-> Hqf]]; [done|]. by apply (Hpf i).
  - apply (qs_one _ _ _ _ _ Hq).
Qed.

(** A new block, with its nodes, beside the others. *)
Lemma live_malloc m0 m a S f n h :
  live m0 m a S f -> 0 < n ->
  (forall p q, fresh_for (blocks m) n p -> ~ within p n q -> h p !! q = nodes m !! q) ->
  exists p m', ikcp_malloc m n = (m', p) /\ p <> NULL /\ p ∉ S /\ nodes m' = nodes m /\
    live m0 (with_nodes m' (h p)) a ({[p]} ∪ S) f.
Proof.
  intros [He Hq] Hn Hh. destruct (extends_malloc m0 m S n h He Hn Hh) as (p & Hp & Hnull & Hnone & HpS & Hno & He').
  exists p. eexists. split; [exact Hp|]. split_and!; try done. split; [done|]. constructor.
  - pose proof (qs_in _ _ _ _ _ Hq). set_solver.
  - cbn. rewrite lookup_insert_ne; [apply Hq|]. pose proof (qs_in _ _ _ _ _ Hq). set_solver.
  - intros i x Hx. destruct (qs_seg _ _ _ _ _ Hq i x Hx) as (HxS & Hxa & b & Hbx).
    split; [set_solver|]. split; [done|]. exists b. cbn. rewrite lookup_insert_ne by set_solver. done.
  - intros i. eapply queue_frame; [apply (qs_queue _ _ _ _ _ Hq i)|]. intros q Hqi. cbn. apply Hh.
    + by destruct (malloc_fresh m n (ex_wf _ _ _ He) Hn) as (p' & Hp' & _ & _ & Hf); assert (p' = p) as -> by congruence.
    + intros Hin. pose proof (Hno q Hin) as Hnone'. destruct (qs_queue _ _ _ _ _ Hq i) as (_ & Hv & _).
      destruct (Hv q Hqi) as [y Hy]. congruence.
  - apply (qs_one _ _ _ _ _ Hq).
Qed.
End Owned.
