(* ===== verification/KcpMemoryThms.v ===== *)
(** * The memory of a control block: theorems

    Every operation of [KcpMemory] keeps the books of [KcpMemoryInv], so that a
    control block can be released in every state of its life and leaves nothing
    behind. *)

From stdpp Require Import gmap.
From S2P Require Import Prelude KcpState IQueue KcpMemory KcpMemoryInv.

Section Thms.
Context {MA : Malloc} {ML : MallocLaws}.

(** ** The operations *)

Lemma segment_new_live m0 m a S f size :
  live m0 m a S f -> 0 <= size ->
  exists p m', segment_new m size = (m', p) /\ p <> NULL /\ p ∉ S /\ is_Some (nodes m' !! p) /\
    live m0 m' a ({[p]} ∪ S) f.
Proof.
  intros Hl Hs. unfold segment_new.
  destruct (live_malloc m0 m a S f (sizeof_IKCPSEG + size) (fun p => <[p := junk]> (nodes m)) Hl)
    as (p & m' & -> & Hnull & HpS & Hn & Hlive); [unfold sizeof_IKCPSEG; lia| |].
  { intros p q _ Hq. apply lookup_insert_ne. intros ->. apply Hq. unfold within, sizeof_IKCPSEG. lia. }
  rewrite (proj2 (Z.eqb_neq p _)) by done. exists p. eexists. split; [done|]. rewrite Hn. split_and!; try done.
  cbn. rewrite lookup_insert_eq. eauto.
Qed.

(** A segment fresh from the allocator, initialised, is in no queue. *)
Lemma init_loose m0 m a S f p :
  live m0 m a S f -> p ∈ S -> p <> a -> (forall i, p ∉ f i) -> is_Some (nodes m !! p) ->
  exists h, IQUEUE_INIT (nodes m) p = Ok h /\ is_Some (h !! p) /\ (forall q, q <> p -> h !! q = nodes m !! q) /\
    forall i, queue h (head_of a i) (f i) /\ p ∉ head_of a i :: f i.
Proof.
  intros Hl Hp Hpa Hpf Hv. destruct (init_spec _ _ Hv) as (h & Hi & Hq & Hsame & Hdom). exists h.
  assert (forall q, q <> p -> h !! q = nodes m !! q) as Hs by (intros q Hne; by apply node_eq, Hsame).
  assert (forall i, p ∉ head_of a i :: f i) as Hno.
  { intros i [->|?]%elem_of_cons; [|by apply (Hpf i)]. exact (seg_outside _ _ _ _ _ _ Hl Hp Hpa (head_within a i)). }
  split_and!; [done|by apply Hdom|done|]. intros i. split; [|done]. destruct Hl as [_ Hqs].
  eapply queue_frame; [apply (qs_queue _ _ _ _ _ Hqs i)|]. intros q Hqi. apply Hs. intros ->. by apply (Hno i).
Qed.

Lemma queue_segs m0 m a S f i x : live m0 m a S f -> x ∈ f i ->
  is_Some (nodes m !! x) /\ x ∈ S /\ x <> a.
Proof.
  intros [_ Hq] Hx. destruct (qs_seg _ _ _ _ _ Hq i x Hx) as (? & ? & _). split_and!; try done.
  apply (qs_queue _ _ _ _ _ Hq i). by apply list_elem_of_further.
Qed.

Lemma push_segment_live m0 m a S f c size :
  live m0 m a S f -> cb_addr c = a -> 0 <= size ->
  exists m' p, push_segment m c size = Ok m' /\ p ∉ S /\
    live m0 m' a ({[p]} ∪ S) (upd f Snd_queue (f Snd_queue ++ [p])).
Proof.
  intros Hl Hc Hs. unfold push_segment. destruct (segment_new_live _ _ _ _ _ _ Hl Hs) as (p & m' & -> & Hnull & HpS & Hv & Hl').
  rewrite (proj2 (Z.eqb_neq p _)) by done. rewrite Hc.
  assert (forall i, p ∉ f i) as Hpf.
  { intros i Hi. destruct Hl as [_ Hq]. by destruct (qs_seg _ _ _ _ _ Hq i p Hi). }
  assert (p <> a) as Hpa by (intros ->; destruct Hl as [_ Hq]; by apply HpS, Hq).
  destruct (init_loose _ _ _ _ _ p Hl') as (h & -> & Hhp & Hsame & Hqs); [set_solver|done..|]. cbn [mbind run_bind].
  destruct (Hqs Snd_queue) as [Hq Hpq]. destruct (add_tail_spec h _ _ p Hq Hpq Hhp) as (h' & -> & Hq' & Hfr).
  cbn [mbind run_bind]. exists (with_nodes m' h'), p. split; [done|]. split; [done|].
  apply live_nodes; [done|done|..].
  - intros q H1 H2. rewrite (node_eq h h' q) by (apply Hfr; set_solver). apply Hsame. set_solver.
  - intros x [Hx| ->%list_elem_of_singleton]%elem_of_app; [by eapply queue_segs|]. split_and!; [done|set_solver|done].
  - intros x j [Hx| ->%list_elem_of_singleton]%elem_of_app Hj; [|done]. intros Hxj. apply Hj.
    destruct Hl as [_ Hq0]. by eapply qs_one.
Qed.

(** A ring can be read from any of its nodes. *)
Lemma queue_rotate h hd xs p ys : queue h hd (xs ++ p :: ys) -> queue h p (ys ++ hd :: xs).
Proof.
  intros (Hn & Hv & Hl). assert (hd :: xs ++ p :: ys ≡ₚ p :: ys ++ hd :: xs) as Hp by solve_Permutation.
  split; [by rewrite <- Hp|]. split; [intros q Hq; apply Hv; by rewrite Hp|].
  rewrite <- app_assoc in Hl. cbn [app] in Hl. rewrite app_comm_cons in Hl.
  apply links_app in Hl as [H1 H2]. rewrite <- app_assoc. cbn [app]. rewrite app_comm_cons.
  apply links_app. by split.
Qed.

(** IQUEUE_ADD behind any node of the ring. *)
Lemma add_behind h hd xs node p :
  queue h hd xs -> node ∉ hd :: xs -> is_Some (h !! node) -> p ∈ hd :: xs ->
  exists h' l, IQUEUE_ADD h node p = Ok h' /\ queue h' hd l /\ l ≡ₚ node :: xs /\
    (forall q, q ∉ node :: hd :: xs -> h' !! q = h !! q).
Proof.
  intros Hq Hno Hv Hp. apply elem_of_cons in Hp as [->|Hp].
  - destruct (add_spec h hd xs node Hq Hno Hv) as (h' & -> & Hq' & Hs). exists h', (node :: xs).
    split_and!; try done. intros q Hqq. by apply node_eq, Hs.
  - apply list_elem_of_split in Hp as (l1 & l2 & ->).
    destruct (add_spec h p (l2 ++ hd :: l1) node (queue_rotate _ _ _ _ _ Hq)) as (h' & -> & Hq' & Hs); [set_solver|done|].
    exists h', (l1 ++ p :: node :: l2). split; [done|]. split.
    { apply (queue_rotate h' p (node :: l2) hd l1). exact Hq'. }
    split; [solve_Permutation|]. intros q Hqq. apply node_eq, Hs. set_solver.
Qed.

Lemma insert_segment_live m0 m a S f size at_ :
  live m0 m a S f -> 0 <= size -> (forall p, at_ = Some p -> p ∈ head_of a Rcv_buf :: f Rcv_buf) ->
  exists m' S' f', insert_segment m size at_ = Ok m' /\ live m0 m' a S' f' /\
    (forall i, i <> Rcv_buf -> f' i = f i) /\
    ((at_ = None /\ S' = S /\ f' = f) \/
     exists p, p ∉ S /\ p <> NULL /\ S' = {[p]} ∪ S /\ f' Rcv_buf ≡ₚ p :: f Rcv_buf).
Proof.
  intros Hl Hs Hat. unfold insert_segment.
  destruct (segment_new_live _ _ _ _ _ _ Hl Hs) as (p & m' & -> & Hnull & HpS & Hv & Hl').
  rewrite (proj2 (Z.eqb_neq p _)) by done.
  assert (forall i, p ∉ f i) as Hpf.
  { intros i Hi. destruct Hl as [_ Hq]. by destruct (qs_seg _ _ _ _ _ Hq i p Hi). }
  assert (p <> a) as Hpa by (intros ->; destruct Hl as [_ Hq]; by apply HpS, Hq).
  destruct at_ as [x|].
  - specialize (Hat x eq_refl).
    destruct (init_loose _ _ _ _ _ p Hl') as (h & -> & Hhp & Hsame & Hqs); [set_solver|done..|]. cbn [mbind run_bind].
    destruct (Hqs Rcv_buf) as [Hq Hpq]. destruct (add_behind h _ _ p x Hq Hpq Hhp Hat) as (h' & l & -> & Hq' & Hperm & Hfr).
    cbn [mbind run_bind]. exists (with_nodes m' h'), ({[p]} ∪ S), (upd f Rcv_buf l). split; [done|]. split; [|split].
    + apply live_nodes; [done|done|..].
      * intros q H1 H2. rewrite Hfr by (rewrite Hperm in H1; set_solver). apply Hsame. rewrite Hperm in H1. set_solver.
      * intros y. rewrite Hperm. intros [->|Hy]%elem_of_cons; [split_and!; [done|set_solver|done]|by eapply queue_segs].
      * intros y j. rewrite Hperm. intros [->|Hy]%elem_of_cons Hj; [done|]. intros Hyj. apply Hj.
        destruct Hl as [_ Hq0]. by eapply qs_one.
    + intros i Hi. by rewrite upd_ne.
    + right. exists p. by rewrite upd_eq.
  - destruct (live_free _ _ _ _ _ p Hl') as (m'' & Hf & Hl''); [set_solver|done..|].
    exists m'', S, f. unfold ikcp_segment_delete. split; [done|]. split; [|split; [done|by left]].
    by replace S with (({[p]} ∪ S) ∖ {[p]}) by set_solver.
Qed.

(** A segment leaves its queue; it stays owned until it is freed. *)
Lemma del_live m0 m a S f i xs x ys :
  live m0 m a S f -> f i = xs ++ x :: ys ->
  exists h, IQUEUE_DEL (nodes m) x = Ok h /\ live m0 (with_nodes m h) a S (upd f i (xs ++ ys)) /\
    is_Some (h !! x) /\ forall j, x ∉ upd f i (xs ++ ys) j.
Proof.
  intros Hl Hf. pose proof Hl as [He Hq]. pose proof (qs_queue _ _ _ _ _ Hq i) as Hqi. rewrite Hf in Hqi.
  destruct (del_spec _ _ _ _ _ Hqi) as (h & Hd & Hq' & Hn & _ & Hfr). exists h. split; [done|].
  assert (x ∉ xs ++ ys) as Hx.
  { destruct Hqi as [[_ Hnd]%list.NoDup_cons _]. rewrite <- Permutation_middle in Hnd. by apply list.NoDup_cons in Hnd as [? _]. }
  split; [|split].
  - apply live_nodes; [done|done|..].
    + intros q H1 H2. apply node_eq, Hfr. by rewrite <- Hf.
    + intros y Hy. eapply (queue_segs _ _ _ _ _ i); [done|]. rewrite Hf. set_solver.
    + intros y j Hy Hj Hyj. apply Hj. apply (qs_one _ _ _ _ _ Hq j i y); [done|]. rewrite Hf. set_solver.
  - unfold nxt in Hn. destruct (h !! x); [eauto|done].
  - intros j. unfold upd. destruct (decide (j = i)) as [->|Hj]; [done|]. intros Hxj. apply Hj.
    apply (qs_one _ _ _ _ _ Hq j i x); [done|]. rewrite Hf. set_solver.
Qed.

Lemma delete_segment_live m0 m a S f i xs x ys :
  live m0 m a S f -> f i = xs ++ x :: ys ->
  exists m', delete_segment m x = Ok m' /\ live m0 m' a (S ∖ {[x]}) (upd f i (xs ++ ys)).
Proof.
  intros Hl Hf. destruct (queue_segs _ _ _ _ _ i x Hl) as (_ & HxS & Hxa); [rewrite Hf; set_solver|].
  destruct (del_live _ _ _ _ _ _ _ _ _ Hl Hf) as (h & Hd & Hl' & _ & Hx). unfold delete_segment. rewrite Hd.
  cbn [mbind run_bind]. by apply live_free.
Qed.

Lemma first_of_queue h hd x xs : queue h hd (x :: xs) -> get_next h hd = Ok x.
Proof. intros (_ & _ & Hl). cbn in Hl. destruct Hl as [Hn _]. by apply get_next_Ok. Qed.

Lemma move_segment_live m0 m a S f c from to x xs :
  live m0 m a S f -> cb_addr c = a -> from <> to -> f from = x :: xs ->
  exists m', move_segment m c from to = Ok m' /\ live m0 m' a S (upd (upd f from xs) to (f to ++ [x])).
Proof.
  intros Hl Hc Hne Hf. unfold move_segment. rewrite Hc. pose proof Hl as [_ Hq].
  rewrite (first_of_queue _ _ x xs) by (rewrite <- Hf; apply Hq). cbn [mbind run_bind].
  destruct (queue_segs _ _ _ _ _ from x Hl) as (_ & HxS & Hxa); [rewrite Hf; set_solver|].
  destruct (del_live _ _ _ _ _ from [] x xs Hl Hf) as (h & -> & Hl' & Hv & Hx). cbn [mbind run_bind app] in *.
  pose proof Hl' as [_ Hq']. pose proof (qs_queue _ _ _ _ _ Hq' to) as Hqt. cbn in Hqt. rewrite upd_ne in Hqt by done.
  assert (x ∉ head_of a to :: f to) as Hno.
  { intros [->|Hin]%elem_of_cons; [exact (seg_outside _ _ _ _ _ _ Hl HxS Hxa (head_within a to))|].
    apply (Hx to). by rewrite upd_ne. }
  destruct (add_tail_spec h _ _ x Hqt Hno Hv) as (h' & -> & Hq'' & Hfr). cbn [mbind run_bind].
  exists (with_nodes m h'). split; [done|]. change (with_nodes m h') with (with_nodes (with_nodes m h) h').
  apply live_nodes; [done|done|..].
  - intros q H1 H2. rewrite upd_ne in H2 by done. apply node_eq, Hfr. set_solver.
  - intros y [Hy| ->%list_elem_of_singleton]%elem_of_app; [|done].
    eapply (queue_segs _ _ _ _ _ to); [done|]. by rewrite upd_ne.
  - intros y j [Hy| ->%list_elem_of_singleton]%elem_of_app Hj; [|apply Hx]. intros Hyj. apply Hj.
    apply (qs_one _ _ _ _ _ Hq' j to y); [done|]. by rewrite upd_ne.
Qed.

(** ** Release *)

Lemma with_nodes_same m : with_nodes m (nodes m) = m.
Proof. by destruct m. Qed.

Lemma release_queue_live m0 m a S f i fuel :
  live m0 m a S f -> (length (f i) < fuel)%nat ->
  exists m', release_queue fuel m (head_of a i) = Ok m' /\ live m0 m' a (S ∖ list_to_set (f i)) (upd f i []).
Proof.
  revert m S f. induction fuel as [|fuel IH]; intros m S f Hl Hf; [lia|]. cbn [release_queue].
  pose proof Hl as [_ Hq]. pose proof (qs_queue _ _ _ _ _ Hq i) as Hqi. rewrite (is_empty_spec _ _ _ Hqi).
  cbn [mbind run_bind]. destruct (f i) as [|x xs] eqn:E.
  - rewrite bool_decide_eq_true_2 by done. cbn [negb list_to_set]. exists m. split; [done|].
    replace (S ∖ ∅) with S by set_solver. rewrite <- (with_nodes_same m).
    apply live_nodes; [done|done|done|set_solver|set_solver].
  - rewrite bool_decide_eq_false_2 by done. cbn [negb]. rewrite (first_of_queue _ _ _ _ Hqi). cbn [mbind run_bind].
    destruct (delete_segment_live _ _ _ _ _ i [] x xs Hl E) as (m' & -> & Hl'). cbn [mbind run_bind app] in *.
    destruct (IH m' _ _ Hl') as (m'' & -> & Hl''); [rewrite upd_eq; cbn in Hf; lia|]. rewrite upd_eq in Hl''.
    exists m''. split; [done|]. cbn [list_to_set].
    replace (S ∖ ({[x]} ∪ list_to_set xs)) with (S ∖ {[x]} ∖ list_to_set xs) by set_solver.
    destruct Hl'' as [He Hqs]. split; [done|]. destruct Hqs as [H1 H2 H3 H4 H5].
    assert (forall j, upd (upd f i xs) i [] j = upd f i [] j) as Hu by (intros j; unfold upd; by destruct (decide (j = i))).
    constructor; [done|done|..].
    + intros j y. rewrite <- Hu. apply H3.
    + intros j. rewrite <- Hu. apply H4.
    + intros j k y. rewrite <- !Hu. apply H5.
Qed.

(** A queue is not longer than the heap is large. *)
Lemma queue_length h hd xs : queue h hd xs -> (length xs < size h)%nat.
Proof.
  intros (Hn & Hv & _). assert (list_to_set (hd :: xs) ⊆ dom h) as Hsub.
  { intros q Hq%elem_of_list_to_set. by apply elem_of_dom, Hv. }
  apply subseteq_size in Hsub. rewrite size_list_to_set in Hsub by done. rewrite size_dom in Hsub. cbn in Hsub. lia.
Qed.

(** The blocks of a control block between two calls. *)
Record settled (m0 m : memory) (c : cblock) (f : qid -> list Z) (S : gset Z) : Prop := {
  st_live : live m0 m (cb_addr c) S f;
  st_set p : p ∈ S <-> p = cb_addr c \/ p = cb_buffer c \/ (p = cb_acklist c /\ p <> NULL) \/ exists i, p ∈ f i;
  st_buffer : cb_buffer c <> NULL /\ cb_buffer c <> cb_addr c /\ forall i, cb_buffer c ∉ f i;
  st_acklist : cb_acklist c <> cb_addr c /\ cb_acklist c <> cb_buffer c /\ forall i, cb_acklist c ∉ f i
}.

Lemma live_null m0 m a S f : live m0 m a S f -> NULL ∉ S.
Proof.
  intros [He _] [[n Hn] _]%(ex_own _ _ _ He). pose proof (mw_pos m (ex_wf _ _ _ He) _ _ Hn). unfold NULL in *. lia.
Qed.

(** The four loops of ikcp_release, in its order. *)
Lemma release_queues m0 m a S f fuel :
  live m0 m a S f -> (forall i, (length (f i) < fuel)%nat) ->
  exists m1 m2 m3 m' S', release_queue fuel m (head_of a Snd_buf) = Ok m1 /\
    release_queue fuel m1 (head_of a Rcv_buf) = Ok m2 /\ release_queue fuel m2 (head_of a Snd_queue) = Ok m3 /\
    release_queue fuel m3 (head_of a Rcv_queue) = Ok m' /\ live m0 m' a S' (fun _ => []) /\
    forall p, p ∈ S' <-> p ∈ S /\ forall i, p ∉ f i.
Proof.
  intros Hl Hlen.
  destruct (release_queue_live _ _ _ _ _ Snd_buf fuel Hl) as (m1 & H1 & Hl1); [apply Hlen|].
  destruct (release_queue_live _ _ _ _ _ Rcv_buf fuel Hl1) as (m2 & H2 & Hl2); [apply Hlen|].
  destruct (release_queue_live _ _ _ _ _ Snd_queue fuel Hl2) as (m3 & H3 & Hl3); [apply Hlen|].
  destruct (release_queue_live _ _ _ _ _ Rcv_queue fuel Hl3) as (m4 & H4 & [He Hq]); [apply Hlen|].
  exists m1, m2, m3, m4. eexists. split_and!; [done..| |].
  - split; [exact He|]. destruct Hq as [Hi Hc Hs Hqs Ho]. constructor; [done|done|set_solver| |set_solver].
    intros []; [exact (Hqs Snd_queue)|exact (Hqs Rcv_queue)|exact (Hqs Snd_buf)|exact (Hqs Rcv_buf)].
  - intros p. cbn. rewrite !elem_of_difference, !elem_of_list_to_set. split.
    + intros ((((? & ?) & ?) & ?) & ?). split; [done|]. by intros [].
    + intros [? Hn]. split_and!; [done|apply Hn..].
Qed.

(** The buffer and the array, when there is one. *)
Lemma release_arrays m0 m c S :
  live m0 m (cb_addr c) S (fun _ => []) ->
  (forall p, p ∈ S <-> p = cb_addr c \/ p = cb_buffer c \/ (p = cb_acklist c /\ p <> NULL)) ->
  cb_buffer c <> NULL -> cb_buffer c <> cb_addr c -> cb_acklist c <> cb_addr c -> cb_acklist c <> cb_buffer c ->
  exists m1 m2, ikcp_free m (cb_buffer c) = Ok m1 /\
    (if negb (cb_acklist c =? NULL) then ikcp_free m1 (cb_acklist c) else Ok m1) = Ok m2 /\
    extends m0 m2 {[cb_addr c]}.
Proof.
  intros Hl HS Hb0 Hba Haa Hab.
  destruct (live_free _ _ _ _ _ (cb_buffer c) Hl) as (m1 & -> & Hl1); [apply HS; tauto|done|set_solver|].
  exists m1. destruct (cb_acklist c =? NULL) eqn:E; zbool; cbn [negb].
  - exists m1. split_and!; [done..|]. destruct Hl1 as [He _].
    replace {[cb_addr c]} with (S ∖ {[cb_buffer c]}); [done|].
    apply set_eq. intros p. rewrite elem_of_difference, HS, !elem_of_singleton. naive_solver.
  - destruct (live_free _ _ _ _ _ (cb_acklist c) Hl1) as (m2 & -> & [He _]);
      [rewrite elem_of_difference, HS, elem_of_singleton; tauto|done|set_solver|].
    exists m2. split_and!; [done..|]. replace {[cb_addr c]} with (S ∖ {[cb_buffer c]} ∖ {[cb_acklist c]}); [done|].
    apply set_eq. intros p. rewrite !elem_of_difference, HS, !elem_of_singleton. naive_solver.
Qed.

Lemma release_settled m0 m c f S : settled m0 m c f S -> ikcp_release m c = Ok m0.
Proof.
  intros [Hl HS (Hb0 & Hba & Hbf) (Haa & Hab & Haf)]. unfold ikcp_release. pose proof (live_null _ _ _ _ _ Hl) as Hnull.
  rewrite (proj2 (Z.eqb_neq (cb_addr c) _)) by (intros E; apply Hnull; rewrite <- E; apply HS; tauto).
  cbn [negb c_assert mbind run_bind].
  destruct (release_queues _ _ _ _ _ (Datatypes.S (size (nodes m))) Hl) as (m1 & m2 & m3 & m4 & S4 & -> & H2 & H3 & H4 & Hl4 & HS4).
  { intros i. destruct Hl as [_ Hq]. pose proof (queue_length _ _ _ (qs_queue _ _ _ _ _ Hq i)). lia. }
  cbn [mbind run_bind]. rewrite H2. cbn [mbind run_bind]. rewrite H3. cbn [mbind run_bind]. rewrite H4. cbn [mbind run_bind].
  rewrite (proj2 (Z.eqb_neq (cb_buffer c) _)) by done. cbn [negb].
  destruct (release_arrays m0 m4 c S4 Hl4) as (m5 & m6 & -> & H6 & He6); [|done..|].
  { intros p. rewrite HS4, HS. split; [naive_solver|]. intros H. split; [tauto|]. intros i Hin.
    destruct H as [->|[->|[-> _]]]; [|by apply (Hbf i)|by apply (Haf i)].
    by destruct (queue_segs _ _ _ _ _ _ _ Hl Hin) as (_ & _ & ?). }
  cbn [mbind run_bind]. rewrite H6. cbn [mbind run_bind].
  destruct (extends_free _ _ _ (cb_addr c) He6) as (n & _ & -> & He7); [set_solver|].
  f_equal. apply extends_empty. by replace ∅ with (({[cb_addr c]} : gset Z) ∖ {[cb_addr c]}) by set_solver.
Qed.

(** ** Creation *)

Lemma init_heads (h : heap) a : (forall i, is_Some (h !! head_of a i)) ->
  exists h1 h2 h3 h', IQUEUE_INIT h (head_of a Snd_queue) = Ok h1 /\ IQUEUE_INIT h1 (head_of a Rcv_queue) = Ok h2 /\
    IQUEUE_INIT h2 (head_of a Snd_buf) = Ok h3 /\ IQUEUE_INIT h3 (head_of a Rcv_buf) = Ok h' /\
    (forall i, queue h' (head_of a i) []) /\ (forall q, is_Some (h' !! q) <-> is_Some (h !! q)) /\
    forall q, (forall i, q <> head_of a i) -> h' !! q = h !! q.
Proof.
  intros Hv.
  destruct (init_spec h (head_of a Snd_queue)) as (h1 & H1 & Q1 & F1 & D1); [apply Hv|].
  destruct (init_spec h1 (head_of a Rcv_queue)) as (h2 & H2 & Q2 & F2 & D2); [apply D1, Hv|].
  destruct (init_spec h2 (head_of a Snd_buf)) as (h3 & H3 & Q3 & F3 & D3); [apply D2, D1, Hv|].
  destruct (init_spec h3 (head_of a Rcv_buf)) as (h4 & H4 & Q4 & F4 & D4); [apply D3, D2, D1, Hv|].
  assert (forall i j, i <> j -> head_of a i <> head_of a j) as Hne by (intros i j Hij ?%head_inj; done).
  exists h1, h2, h3, h4. split_and!; [done..| | |].
  - intros []; [| | |done]; (eapply queue_frame; [eassumption|intros q ->%list_elem_of_singleton]);
      repeat (etransitivity; [by apply node_eq; first [apply F4|apply F3|apply F2]; apply Hne|]); done.
  - intros q. by rewrite D4, D3, D2, D1.
  - intros q Hq. rewrite (node_eq h3 h4), (node_eq h2 h3), (node_eq h1 h2), (node_eq h h1); [done|..];
      first [by apply F1|by apply F2|by apply F3|by apply F4].
Qed.

Lemma create_settled m0 :
  mem_wf m0 -> ikcp_malloc_hook m0 = ikcp_free_hook m0 ->
  exists m c S, create_blocks m0 = Ok (m, Some c) /\ settled m0 m c (fun _ => []) S.
Proof.
  intros Hm Hh. unfold create_blocks.
  destruct (extends_malloc m0 m0 ∅ sizeof_IKCPCB (fun a => nodes (place_heads m0 a)) (extends_refl _ Hm Hh))
    as (a & -> & Ha0 & Hnone & _ & _ & He); [done| |].
  { intros a q _ Hq. cbn. rewrite !lookup_insert_ne; [done|..]; intros <-; apply Hq, head_within. }
  rewrite (proj2 (Z.eqb_neq a _)) by done. cbv zeta.
  match goal with |- context [place_heads ?x a] => set (m1 := place_heads x a) in * end.
  assert (extends m0 m1 {[a]}) as He1 by (by replace {[a]} with ({[a]} ∪ (∅ : gset Z)) by set_solver). clear He.
  destruct (extends_malloc m0 m1 {[a]} (u32 (u32 (IKCP_MTU_DEF + IKCP_OVERHEAD) * 3)) (fun _ => nodes m1) He1)
    as (b & -> & Hb0 & Hbn & HbS & Hno & He2); [done|done|].
  rewrite (proj2 (Z.eqb_neq b _)) by done. cbn [nodes].
  destruct (init_heads (nodes m1) a) as (h1 & h2 & h3 & h4 & -> & H2 & H3 & H4 & Hq & Hdom & Hsame).
  { intros []; cbn; [by rewrite lookup_insert_eq; eauto|..]; repeat (rewrite lookup_insert_ne by (unfold head_of; cbn; lia));
      rewrite lookup_insert_eq; eauto. }
  cbn [mbind run_bind]. rewrite H2. cbn [mbind run_bind]. rewrite H3. cbn [mbind run_bind]. rewrite H4. cbn [mbind run_bind].
  eexists _, (mkCb a b NULL), ({[b]} ∪ {[a]}). split; [done|].
  assert (b <> a) as Hba by set_solver.
  constructor; cbn [cb_addr cb_buffer cb_acklist].
  - split; [apply extends_nodes; [exact He2|by intros q; apply Hdom|]|constructor].
    + intros q Hne. exists a, (mkBlock sizeof_IKCPCB (owner_of m0)). split_and!; [set_solver| |].
      * cbn. by rewrite lookup_insert_ne, lookup_insert_eq.
      * destruct (decide (within a sizeof_IKCPCB q)) as [|Hnw]; [done|]. destruct Hne. apply Hsame. intros i ->.
        apply Hnw, head_within.
    + set_solver.
    + cbn. by rewrite lookup_insert_ne, lookup_insert_eq.
    + set_solver.
    + exact Hq.
    + set_solver.
  - intros p. unfold NULL. set_solver.
  - split_and!; [done..|set_solver].
  - split_and!; [congruence..|set_solver].
Qed.

(** ** Every call keeps the books *)

Lemma settled_setmtu m0 m c f S mtu :
  settled m0 m c f S -> mtu < 2147483648 ->
  exists m' c' S', setmtu_blocks m c mtu = Ok (m', c') /\ cb_addr c' = cb_addr c /\ settled m0 m' c' f S'.
Proof.
  intros Hst Hmtu. unfold setmtu_blocks. case_if; [by eauto 10|]. zbool. destruct Hst as [Hl HS (Hb0 & Hba & Hbf) (Haa & Hab & Haf)].
  destruct (live_malloc m0 m (cb_addr c) S f (u32 (u32 (mtu + IKCP_OVERHEAD) * 3)) (fun _ => nodes m) Hl)
    as (b & m1 & -> & Hbn & HbS & Hnod & Hl1); [unfold IKCP_OVERHEAD in *; rewrite (u32_small (mtu + 24)) by lia; wrap_lia|done|].
  rewrite <- Hnod, with_nodes_same in Hl1. rewrite (proj2 (Z.eqb_neq b _)) by done. rewrite !HS in HbS.
  destruct (live_free _ _ _ _ _ (cb_buffer c) Hl1) as (m2 & -> & Hl2); [apply elem_of_union; right; apply HS; tauto|done..|].
  cbn [mbind run_bind]. eexists _, _, _. split; [done|]. split; [done|]. constructor; cbn [cb_addr cb_buffer cb_acklist]; [done|..].
  - intros p. rewrite elem_of_difference, elem_of_union, HS, !elem_of_singleton. naive_solver.
  - split_and!; naive_solver.
  - split_and!; try done. intros <-. apply HbS. tauto.
Qed.

Lemma settled_grow m0 m c f S n :
  settled m0 m c f S -> 0 < n ->
  exists m' c' S', grow_acklist m c n = Ok (m', c') /\ settled m0 m' c' f S'.
Proof.
  intros [Hl HS (Hb0 & Hba & Hbf) (Haa & Hab & Haf)] Hn. unfold grow_acklist.
  destruct (live_malloc m0 m (cb_addr c) S f (n * 4 * 2) (fun _ => nodes m) Hl)
    as (b & m1 & -> & Hbn & HbS & Hnod & Hl1); [lia|done|].
  rewrite <- Hnod, with_nodes_same in Hl1. rewrite (proj2 (Z.eqb_neq b _)) by done. rewrite !HS in HbS.
  destruct (cb_acklist c =? NULL) eqn:E; zbool.
  - cbn [mbind run_bind]. eexists _, _, _. split; [done|]. constructor; cbn [cb_addr cb_buffer cb_acklist]; [done|..].
    + intros p. rewrite elem_of_union, HS, elem_of_singleton. naive_solver.
    + done.
    + split_and!; naive_solver.
  - destruct (live_free _ _ _ _ _ (cb_acklist c) Hl1) as (m2 & -> & Hl2); [apply elem_of_union; right; apply HS; tauto|done..|].
    cbn [mbind run_bind]. eexists _, _, _. split; [done|]. constructor; cbn [cb_addr cb_buffer cb_acklist]; [done|..].
    + intros p. rewrite elem_of_difference, elem_of_union, HS, !elem_of_singleton. naive_solver.
    + done.
    + split_and!; naive_solver.
Qed.

(** When the queues change, the set of owned blocks changes with them. *)
Lemma settled_queues m0 m m' c f f' S S' :
  settled m0 m c f S -> live m0 m' (cb_addr c) S' f' ->
  (forall i x, x ∈ f' i -> x ∉ S \/ exists j, x ∈ f j) ->
  (forall p, p ∈ S' <-> (p ∈ S /\ forall i, p ∉ f i) \/ exists i, p ∈ f' i) ->
  settled m0 m' c f' S'.
Proof.
  intros [Hl HS (Hb0 & Hba & Hbf) (Haa & Hab & Haf)] Hl' Hin HS'.
  assert (forall i, cb_buffer c ∉ f' i) as Hbf'.
  { intros i [Hx|[j Hx]]%Hin; [|by apply (Hbf j)]. apply Hx, HS. tauto. }
  assert (forall i, cb_acklist c ∉ f' i) as Haf'.
  { intros i Hi. pose proof (live_null _ _ _ _ _ Hl') as Hnull. destruct (Hin i _ Hi) as [Hx|[j Hx]]; [|by apply (Haf j)].
    apply Hx, HS. right; right; left. split; [done|]. intros Hz. apply Hnull. rewrite <- Hz. apply HS'. eauto. }
  constructor; try done. intros p. rewrite HS', HS. split; [naive_solver|].
  intros [->|[->|[[-> Hn]|Hi]]]; [left|left|left|by right].
  - split; [tauto|]. intros i Hi. by destruct (queue_segs _ _ _ _ _ _ _ Hl Hi) as (_ & _ & ?).
  - split; [tauto|done].
  - split; [tauto|done].
Qed.

Lemma upd_elem f i l j x : x ∈ upd f i l j <-> (j = i /\ x ∈ l) \/ (j <> i /\ x ∈ f j).
Proof. unfold upd. destruct (decide (j = i)); naive_solver. Qed.

Lemma in_some_queue (f : qid -> list Z) x : (exists i, x ∈ f i) \/ forall i, x ∉ f i.
Proof.
  destruct (decide (x ∈ f Snd_queue)), (decide (x ∈ f Rcv_queue)), (decide (x ∈ f Snd_buf)), (decide (x ∈ f Rcv_buf));
    [left; eauto..|]. right. by intros [].
Qed.

Lemma settled_push m0 m c f S size :
  settled m0 m c f S -> 0 <= size ->
  exists m' f' S', push_segment m c size = Ok m' /\ settled m0 m' c f' S'.
Proof.
  intros Hst Hs. destruct (push_segment_live _ _ _ _ _ c size (st_live _ _ _ _ _ Hst) eq_refl Hs) as (m' & p & -> & Hp & Hl).
  eexists _, _, _. split; [done|]. eapply settled_queues; [done|exact Hl|..].
  - intros i x [[-> Hx]|[_ Hx]]%upd_elem; [|eauto]. apply elem_of_app in Hx as [?| ->%list_elem_of_singleton]; eauto.
  - intros x. rewrite elem_of_union, elem_of_singleton. setoid_rewrite upd_elem. setoid_rewrite elem_of_app.
    setoid_rewrite list_elem_of_singleton. pose proof (st_set _ _ _ _ _ Hst x) as Hx. split.
    + intros [->|HxS]; [right; exists Snd_queue; tauto|].
      destruct (in_some_queue f x) as [[i Hi]|Hno]; [|by left]. right. exists i.
      destruct (decide (i = Snd_queue)) as [->|]; tauto.
    + intros [[? _]|[i [[-> [?| ->]]|[_ ?]]]]; [by right| |by left|]; right; apply Hx; eauto.
Qed.

Lemma settled_insert m0 m c f S size at_ :
  settled m0 m c f S -> 0 <= size ->
  (forall p, at_ = Some p -> p ∈ head_of (cb_addr c) Rcv_buf :: f Rcv_buf) ->
  exists m' f' S', insert_segment m size at_ = Ok m' /\ settled m0 m' c f' S'.
Proof.
  intros Hst Hs Hat.
  destruct (insert_segment_live _ _ _ _ _ size at_ (st_live _ _ _ _ _ Hst) Hs Hat) as (m' & S' & f' & -> & Hl & Hoth & Hor).
  exists m', f', S'. split; [done|]. eapply settled_queues; [done|exact Hl|..].
  - intros i x Hx. destruct (decide (i = Rcv_buf)) as [->|Hi]; [|right; exists i; by rewrite <- Hoth].
    destruct Hor as [(_ & _ & ->)|(p & Hp & _ & _ & Hperm)]; [eauto|]. rewrite Hperm in Hx. apply elem_of_cons in Hx as [->|?]; eauto.
  - intros x. pose proof (st_set _ _ _ _ _ Hst x) as HxS. destruct Hor as [(_ & -> & ->)|(p & Hp & _ & -> & Hperm)].
    + split; [|naive_solver]. intros Hx. destruct (in_some_queue f x); auto.
    + rewrite elem_of_union, elem_of_singleton. split.
      * intros [->|Hx]; [right; exists Rcv_buf; rewrite Hperm; set_solver|].
        destruct (in_some_queue f x) as [[i Hi]|]; [|by left]. right. exists i.
        destruct (decide (i = Rcv_buf)) as [->|]; [rewrite Hperm; set_solver|by rewrite Hoth].
      * intros [[? _]|[i Hi]]; [by right|]. destruct (decide (i = Rcv_buf)) as [->|].
        -- rewrite Hperm in Hi. apply elem_of_cons in Hi as [->|?]; [by left|right; apply HxS; eauto].
        -- rewrite Hoth in Hi by done. right. apply HxS; eauto.
Qed.

Lemma settled_delete m0 m c f S x i :
  settled m0 m c f S -> x ∈ f i -> exists m' f' S', delete_segment m x = Ok m' /\ settled m0 m' c f' S'.
Proof.
  intros Hst Hi. pose proof (st_live _ _ _ _ _ Hst) as Hl. pose proof Hi as (xs & ys & Hf)%list_elem_of_split.
  destruct (delete_segment_live _ _ _ _ _ i xs x ys Hl Hf) as (m' & -> & Hl'). eexists _, _, _. split; [done|].
  assert (x ∉ xs ++ ys) as Hno.
  { destruct Hl as [_ Hq]. destruct (qs_queue _ _ _ _ _ Hq i) as [[_ Hnd]%list.NoDup_cons _]. rewrite Hf in Hnd.
    rewrite <- Permutation_middle in Hnd. by apply list.NoDup_cons in Hnd as [? _]. }
  eapply settled_queues; [done|exact Hl'|..].
  - intros j y [[-> Hy]|[_ Hy]]%upd_elem; [|eauto]. right. exists i. rewrite Hf. set_solver.
  - intros y. rewrite elem_of_difference, elem_of_singleton. setoid_rewrite upd_elem.
    pose proof (st_set _ _ _ _ _ Hst y) as Hy. split.
    + intros [HyS Hne]. destruct (in_some_queue f y) as [[j Hj]|]; [|by left]. right. exists j.
      destruct (decide (j = i)) as [->|]; [left; rewrite Hf in Hj; set_solver|by right].
    + intros [[? Hyf]|[j [[-> Hj]|[Hne Hj]]]].
      * split; [done|]. intros ->. by apply (Hyf i).
      * split; [apply Hy; right; right; right; exists i; rewrite Hf; set_solver|]. by intros ->.
      * split; [apply Hy; eauto|]. intros ->. apply Hne. destruct Hl as [_ Hq]. by eapply qs_one.
Qed.

Lemma settled_move m0 m c f S from to :
  settled m0 m c f S -> from <> to -> f from <> [] ->
  exists m' f' S', move_segment m c from to = Ok m' /\ settled m0 m' c f' S'.
Proof.
  intros Hst Hne Hf. destruct (f from) as [|x xs] eqn:E; [done|].
  destruct (move_segment_live _ _ _ _ _ c from to x xs (st_live _ _ _ _ _ Hst) eq_refl Hne E) as (m' & -> & Hl).
  eexists _, _, _. split; [done|].
  assert (forall i y, y ∈ upd (upd f from xs) to (f to ++ [x]) i -> exists j, y ∈ f j) as Hsub.
  { intros i y. rewrite !upd_elem. rewrite elem_of_app, list_elem_of_singleton.
    intros [[-> [?| ->]]|[_ [[-> ?]|[_ ?]]]]; [eauto| | |eauto]; exists from; rewrite E; set_solver. }
  eapply settled_queues; [done|exact Hl|..]; [by eauto|].
  intros y. pose proof (st_set _ _ _ _ _ Hst y) as Hy. split.
  - intros HyS. destruct (in_some_queue f y) as [[j Hj]|]; [|by left]. right.
    destruct (decide (j = from)) as [->|Hjf].
    + rewrite E in Hj. apply elem_of_cons in Hj as [->|Hj]; [exists to|exists from]; rewrite !upd_elem; set_solver.
    + exists j. rewrite !upd_elem. destruct (decide (j = to)) as [->|]; set_solver.
  - intros [[? _]|[i Hi]]; [done|]. apply Hy. right; right; right. by eapply Hsub.
Qed.

(** ** Life *)

Lemma contents_settled m0 m c f S i : settled m0 m c f S -> contents m c i = f i.
Proof.
  intros Hst. destruct (st_live _ _ _ _ _ Hst) as [_ Hq]. pose proof (qs_queue _ _ _ _ _ Hq i) as Hqi.
  unfold contents. rewrite (foreach_spec _ _ _ _ Hqi); [done|]. pose proof (queue_length _ _ _ Hqi). lia.
Qed.

Lemma kop_settled m0 m c f S o :
  settled m0 m c f S -> may m c o -> exists m' c' f' S', exec_kop m c o = Ok (m', c') /\ settled m0 m' c' f' S'.
Proof.
  intros Hst Hmay. destruct o; cbn [exec_kop may] in *.
  - destruct (settled_setmtu _ _ _ _ _ _ Hst Hmay) as (m' & c' & S' & -> & _ & ?). eauto 8.
  - destruct (settled_grow _ _ _ _ _ _ Hst Hmay) as (m' & c' & S' & -> & ?). eauto 8.
  - destruct (settled_push _ _ _ _ _ _ Hst Hmay) as (m' & f' & S' & -> & ?). cbn. eauto 8.
  - destruct Hmay as [Hs Hat]. destruct (settled_insert _ _ _ _ _ size at_ Hst Hs) as (m' & f' & S' & -> & ?); [|cbn; eauto 8].
    intros p ->. by rewrite <- (contents_settled _ _ _ _ _ _ Hst).
  - rewrite (contents_settled _ _ _ _ _ _ Hst) in Hmay. destruct Hmay as [Hne Hf].
    destruct (settled_move _ _ _ _ _ _ _ Hst Hne Hf) as (m' & f' & S' & -> & ?). cbn. eauto 8.
  - destruct Hmay as [i Hi]. rewrite (contents_settled _ _ _ _ _ _ Hst) in Hi.
    destruct (settled_delete _ _ _ _ _ _ _ Hst Hi) as (m' & f' & S' & -> & ?). cbn. eauto 8.
Qed.

Lemma life_settled m0 m c :
  mem_wf m0 -> ikcp_malloc_hook m0 = ikcp_free_hook m0 -> life m0 m c -> exists f S, settled m0 m c f S.
Proof.
  intros Hm Hh. induction 1 as [m c Hc|m c o m' c' _ (f & S & Hst) Hmay Hex].
  - destruct (create_settled m0 Hm Hh) as (m1 & c1 & S & Hc1 & Hst). rewrite Hc in Hc1. injection Hc1 as <- <-. eauto.
  - destruct (kop_settled _ _ _ _ _ o Hst Hmay) as (m1 & c1 & f' & S' & Hex1 & Hst'). rewrite Hex in Hex1.
    injection Hex1 as <- <-. eauto.
Qed.


(** ** Changing the allocator *)

Lemma release_queue_switched m0 m a S f i fuel nm nf :
  live m0 m a S f -> by_hook nf <> owner_of m0 ->
  release_queue (Datatypes.S fuel) (ikcp_allocator m nm nf) (head_of a i)
    = if bool_decide (f i = []) then Ok (ikcp_allocator m nm nf) else Undef.
Proof.
  intros Hl Hne. pose proof Hl as [He Hq]. cbn [release_queue]. pose proof (qs_queue _ _ _ _ _ Hq i) as Hqi.
  cbn [nodes ikcp_allocator]. rewrite (is_empty_spec _ _ _ Hqi). cbn [mbind run_bind].
  destruct (f i) as [|x xs] eqn:E; [done|]. cbn [negb]. rewrite (first_of_queue _ _ _ _ Hqi). cbn [mbind run_bind negb bool_decide].
  rewrite bool_decide_eq_false_2 by done. cbn [negb].
  destruct (del_live _ _ _ _ _ i [] x xs Hl E) as (h & Hd & _). unfold delete_segment. cbn [nodes ikcp_allocator].
  rewrite Hd. cbn [mbind run_bind]. unfold ikcp_segment_delete, ikcp_free. cbn [blocks with_nodes ikcp_allocator ikcp_free_hook].
  destruct (queue_segs _ _ _ _ _ i x Hl) as (_ & HxS & _); [rewrite E; set_solver|].
  destruct (ex_own _ _ _ He x HxS) as [[n ->] _]. cbn [b_alloc]. by rewrite bool_decide_eq_false_2.
Qed.

(** A control block created before ikcp_allocator installs other functions cannot be
    released any more: its first block goes to a function that did not allocate it. *)
Theorem allocator_switched m0 m c nm nf :
  mem_wf m0 -> ikcp_malloc_hook m0 = ikcp_free_hook m0 -> life m0 m c -> by_hook nf <> owner_of m0 ->
  ikcp_release (ikcp_allocator m nm nf) c = Undef.
Proof.
  intros Hm Hh Hlf Hne. destruct (life_settled m0 m c Hm Hh Hlf) as (f & S & [Hl HS (Hb0 & _) _]).
  unfold ikcp_release. pose proof (live_null _ _ _ _ _ Hl) as Hnull.
  rewrite (proj2 (Z.eqb_neq (cb_addr c) _)) by (intros E; apply Hnull; rewrite <- E; apply HS; tauto).
  cbn [negb c_assert mbind run_bind].
  rewrite (release_queue_switched _ _ _ _ _ Snd_buf _ nm nf Hl Hne). case_bool_decide; [|done]. cbn [mbind run_bind].
  rewrite (release_queue_switched _ _ _ _ _ Rcv_buf _ nm nf Hl Hne). case_bool_decide; [|done]. cbn [mbind run_bind].
  rewrite (release_queue_switched _ _ _ _ _ Snd_queue _ nm nf Hl Hne). case_bool_decide; [|done]. cbn [mbind run_bind].
  rewrite (release_queue_switched _ _ _ _ _ Rcv_queue _ nm nf Hl Hne). case_bool_decide; [|done]. cbn [mbind run_bind].
  rewrite (proj2 (Z.eqb_neq (cb_buffer c) _)) by done. cbn [negb]. unfold ikcp_free. cbn [blocks ikcp_allocator ikcp_free_hook].
  destruct Hl as [He _]. destruct (ex_own _ _ _ He (cb_buffer c)) as [[n ->] _]; [apply HS; tauto|].
  cbn [b_alloc]. by rewrite bool_decide_eq_false_2.
Qed.
End Thms.

Definition demo_memory : memory := mkMemory {[8 := mkBlock 100 Libc]} ∅ None None.

(** A control block with a segment in flight and one received out of order. *)
Lemma demo_life : exists m c, life demo_memory m c /\
  length (contents m c Snd_buf) = 1%nat /\ length (contents m c Rcv_buf) = 1%nat.
Proof.
  eexists _, _. split.
  { eapply (life_call _ _ _ (K_insert 7 (Some 292)));
      [eapply (life_call _ _ _ (K_move Snd_queue Snd_buf));
        [eapply (life_call _ _ _ (K_push 3));
          [eapply (life_call _ _ _ (K_grow 8));
            [apply life_created; vm_compute; reflexivity|done|vm_compute; reflexivity]
          |done|vm_compute; reflexivity]
        |vm_compute; done|vm_compute; reflexivity]
      |split; [done|apply list_elem_of_here]|vm_compute; reflexivity]. }
  split; vm_compute; reflexivity.
Qed.

