(* ===== verification/KcpAck.v ===== *)
(** * The list of pending acknowledgements

    Models ikcp_ack_push and ikcp_ack_get of src/util/ikcp.c: a growable array
    of (sn, ts) pairs stored flat in [acklist], with its capacity in [ackblock]
    and its fill in [ackcount]. *)

From S2P Require Import Prelude Codec KcpState.

(** ** Array accesses *)

Definition arr_get (a : list (option Z)) (i : Z) : run (option Z) :=
  match a !! Z.to_nat i with Some c => Ok c | None => Undef end.

Definition arr_set (a : list (option Z)) (i : Z) (v : option Z)
  : run (list (option Z)) :=
  if bool_decide (Z.to_nat i < length a)%nat then Ok (<[Z.to_nat i := v]> a)
  else Undef.

(** ** ikcp_ack_push *)

(** [for (newblock = 8; newblock < newsize; newblock <<= 1);] *)
Fixpoint grow_block (fuel : nat) (newblock newsize : Z) : Z :=
  match fuel with
  | O => newblock
  | S fuel =>
      if newblock <? newsize
      then grow_block fuel (u64 (Z.shiftl newblock 1)) newsize
      else newblock
  end.

(** The loop that copies [n] pairs from [src], from pair number [x] on. *)
Fixpoint ack_copy (n : nat) (x : Z) (dst src : list (option Z))
  : run (list (option Z)) :=
  match n with
  | O => Ok dst
  | S n =>
      sn ← arr_get src (x * 2 + 0);
      dst ← arr_set dst (x * 2 + 0) sn;
      ts ← arr_get src (x * 2 + 1);
      dst ← arr_set dst (x * 2 + 1) ts;
      ack_copy n (x + 1) dst src
  end.

Definition ikcp_ack_push (m : mem) (kcp : ikcpcb) (sn ts : Z) : run ikcpcb :=
  let newsize := u32 (ackcount kcp + 1) in
  kcp ←
    (if newsize >? ackblock kcp then
       let newblock := grow_block 32 8 newsize in
       if negb (mem_ok m (newblock * 4 * 2)) then Abort
       else
         let fresh := replicate (Z.to_nat (newblock * 2)) None in
         fresh ←
           (match acklist kcp with
            | None => Ok fresh
            | Some old => ack_copy (Z.to_nat (ackcount kcp)) 0 fresh old
            end);
         Ok (kcp <| acklist := Some fresh |> <| ackblock := u32 newblock |>)
     else Ok kcp);
  match acklist kcp with
  | None => Undef
  | Some a =>
      let ptr := u32 (ackcount kcp * 2) in
      a ← arr_set a ptr (Some sn);
      a ← arr_set a (ptr + 1) (Some ts);
      Ok (kcp <| acklist := Some a |> <| ackcount := u32 (ackcount kcp + 1) |>)
  end.

(** ** ikcp_ack_get *)

Definition ikcp_ack_get (kcp : ikcpcb) (p : Z) : run (Z * Z) :=
  match acklist kcp with
  | None => Undef
  | Some a =>
      sn ← arr_get a (p * 2 + 0);
      ts ← arr_get a (p * 2 + 1);
      match sn, ts with
      | Some sn, Some ts => Ok (sn, ts)
      | _, _ => Undef
      end
  end.

(** ** The array as a list of pairs *)

Fixpoint flat (acks : list (Z * Z)) : list (option Z) :=
  match acks with
  | [] => []
  | (sn, ts) :: acks => Some sn :: Some ts :: flat acks
  end.

(** [ack_rep acks kcp]: the array of [kcp] holds exactly [acks], within its
    capacity. *)
Definition ack_rep (acks : list (Z * Z)) (kcp : ikcpcb) : Prop :=
  ackcount kcp = zlen acks /\
  match acklist kcp with
  | None => acks = [] /\ ackblock kcp = 0
  | Some a => exists rest, a = flat acks ++ rest /\ zlen a = ackblock kcp * 2
  end.

Lemma length_flat acks : length (flat acks) = (2 * length acks)%nat.
Proof. induction acks as [|[]]; simpl; lia. Qed.

Lemma flat_app a1 a2 : flat (a1 ++ a2) = flat a1 ++ flat a2.
Proof. induction a1 as [|[] a1 IH]; simpl; by rewrite ?IH. Qed.

Lemma grow_block_spec fuel b n :
  0 < b -> n <= b * 2 ^ Z.of_nat fuel -> n < 4294967296 ->
  n <= grow_block fuel b n /\ (grow_block fuel b n = b \/ grow_block fuel b n < 2 * n).
Proof.
  revert b. induction fuel as [|fuel IH]; intros b Hb Hn Hmax; cbn [grow_block].
  - change (2 ^ Z.of_nat 0) with 1 in Hn. split; [lia|by left].
  - destruct (b <? n) eqn:E; zbool; [|split; [lia|by left]].
    rewrite Z.shiftl_mul_pow2 by lia. change (2 ^ 1) with 2.
    assert (u64 (b * 2) = b * 2) as -> by (apply Z.mod_small; lia).
    rewrite Nat2Z.inj_succ, Z.pow_succ_r in Hn by lia.
    destruct (IH (b * 2)) as [H1 [H2|H2]]; try lia.
Qed.

Lemma arr_get_app (l1 l2 : list (option Z)) c i :
  i = zlen l1 -> arr_get (l1 ++ c :: l2) i = Ok c.
Proof. intros ->. unfold arr_get. by rewrite Nat2Z.id, list_lookup_middle. Qed.

Lemma arr_set_app (l1 l2 : list (option Z)) c v i :
  i = zlen l1 -> arr_set (l1 ++ c :: l2) i v = Ok (l1 ++ v :: l2).
Proof.
  intros ->. unfold arr_set. rewrite Nat2Z.id.
  rewrite bool_decide_eq_true_2 by (rewrite length_app; simpl; lia).
  f_equal. rewrite insert_app_r_alt by lia. by rewrite Nat.sub_diag.
Qed.

Lemma arr_get_app2 (l1 l2 : list (option Z)) c1 c2 i :
  i = zlen l1 + 1 -> arr_get (l1 ++ c1 :: c2 :: l2) i = Ok c2.
Proof.
  intros ->. change (c1 :: c2 :: l2) with ([c1] ++ c2 :: l2). rewrite app_assoc.
  apply arr_get_app. rewrite length_app. simpl. lia.
Qed.

Lemma arr_set_app2 (l1 l2 : list (option Z)) c1 c2 v i :
  i = zlen l1 + 1 -> arr_set (l1 ++ c1 :: c2 :: l2) i v = Ok (l1 ++ c1 :: v :: l2).
Proof.
  intros ->. change (c1 :: c2 :: l2) with ([c1] ++ c2 :: l2). rewrite app_assoc.
  rewrite arr_set_app by (rewrite length_app; simpl; lia). by rewrite <- app_assoc.
Qed.

Lemma ack_copy_spec acks pre dst src x :
  (2 * length acks <= length dst)%nat -> x * 2 = zlen pre ->
  ack_copy (length acks) x (pre ++ dst) (pre ++ flat acks ++ src)
  = Ok (pre ++ flat acks ++ drop (2 * length acks) dst).
Proof.
  revert pre dst x. induction acks as [|[sn ts] acks IH]; intros pre dst x Hd Hx.
  - cbn [length ack_copy flat]. by rewrite Nat.mul_0_r, drop_0.
  - destruct dst as [|c1 [|c2 dst]]; simpl in Hd; try lia.
    cbn [length ack_copy flat app].
    rewrite (arr_get_app _ _ _ (x * 2 + 0)) by lia. cbn [mbind run_bind].
    rewrite (arr_set_app _ _ _ _ (x * 2 + 0)) by lia. cbn [mbind run_bind].
    rewrite (arr_get_app2 _ _ _ _ (x * 2 + 1)) by lia. cbn [mbind run_bind].
    rewrite (arr_set_app2 _ _ _ _ _ (x * 2 + 1)) by lia. cbn [mbind run_bind].
    specialize (IH (pre ++ [Some sn; Some ts]) dst (x + 1)).
    rewrite <- !app_assoc in IH. cbn [app] in IH.
    rewrite IH by (rewrite ?length_app; simpl; lia).
    by replace (2 * S (length acks))%nat with (S (S (2 * length acks))) by lia.
Qed.

(** The fields [ikcp_ack_push] does not touch. *)
Definition same_but_acks (k k' : ikcpcb) : Prop :=
  k' = k <| acklist := acklist k' |> <| ackblock := ackblock k' |>
         <| ackcount := ackcount k' |>.

Lemma ikcp_ack_push_spec m kcp acks sn ts :
  (forall n, mem_ok m n = true) ->
  ack_rep acks kcp -> zlen acks < 2147483647 ->
  exists kcp', ikcp_ack_push m kcp sn ts = Ok kcp' /\
    ack_rep (acks ++ [(sn, ts)]) kcp' /\ same_but_acks kcp kcp'.
Proof.
  intros Hm [Hc Ha] Hmax. unfold ikcp_ack_push.
  rewrite Hc, !(u32_small (zlen acks + 1)) by lia.
  set (grown := if zlen acks + 1 >? ackblock kcp then _ else _).
  assert (exists k a rest, grown = Ok k /\ acklist k = Some a /\
    ackcount k = zlen acks /\ same_but_acks kcp k /\
    a = flat acks ++ rest /\ zlen a = ackblock k * 2 /\ zlen acks < ackblock k)
    as (k & a & rest & -> & Hk & Hkc & Hsame & Ha' & Hlen & Hroom).
  { subst grown. case_if.
    - rewrite Hm. cbn [negb].
      destruct (grow_block_spec 32 8 (zlen acks + 1)) as [Hg1 Hg2]; [lia..|].
      set (nb := grow_block 32 8 (zlen acks + 1)) in *. clearbody nb.
      destruct (acklist kcp) as [old|].
      + destruct Ha as (r & -> & Hl).
        pose proof (ack_copy_spec acks [] (replicate (Z.to_nat (nb * 2)) None) r 0) as Hcp.
        cbn [app] in Hcp. rewrite length_replicate in Hcp.
        rewrite Nat2Z.id, Hcp by (simpl; lia). cbn [mbind run_bind].
        do 3 eexists. split_and!; try reflexivity; cbn.
        * done.
        * rewrite length_app, length_drop, length_flat, length_replicate.
          rewrite (u32_small nb) by lia. lia.
        * rewrite (u32_small nb) by lia. lia.
      + destruct Ha as [-> _]. cbn [mbind run_bind].
        do 3 eexists. split_and!; try reflexivity; cbn.
        * done.
        * rewrite length_replicate, (u32_small nb) by lia. lia.
        * rewrite (u32_small nb) by lia. simpl in Hg1. lia.
    - destruct (acklist kcp) as [a|] eqn:E; [|destruct Ha; lia].
      destruct Ha as (r & ? & ?). exists kcp, a, r. split_and!; auto; try lia.
      unfold same_but_acks. by destruct kcp. }
  cbn [mbind run_bind]. rewrite Hk. subst a.
  rewrite Hkc, (u32_small (zlen acks * 2)) by lia.
  rewrite length_app, length_flat in Hlen.
  destruct rest as [|c1 [|c2 rest]]; simpl in Hlen; try lia.
  rewrite arr_set_app by (rewrite length_flat; lia). cbn [mbind run_bind].
  rewrite arr_set_app2 by (rewrite length_flat; lia).
  cbn [mbind run_bind]. eexists. split; [reflexivity|]. split.
  - split; cbn; [rewrite length_app; simpl; rewrite u32_small; lia|].
    exists rest. rewrite flat_app. split; [by rewrite <- !app_assoc|].
    rewrite !length_app, length_flat. simpl. lia.
  - unfold same_but_acks in *. rewrite Hsame. reflexivity.
Qed.

Lemma ikcp_ack_get_spec kcp acks i sn ts :
  ack_rep acks kcp -> acks !! i = Some (sn, ts) ->
  ikcp_ack_get kcp (Z.of_nat i) = Ok (sn, ts).
Proof.
  intros [Hc Ha] Hi. apply list_elem_of_split_length in Hi as (l1 & l2 & -> & ->).
  unfold ikcp_ack_get. destruct (acklist kcp) as [a|].
  - destruct Ha as (r & -> & _). rewrite flat_app. cbn [flat]. rewrite <- app_assoc. cbn [app].
    rewrite (arr_get_app _ _ _ (_ + 0)) by (rewrite length_flat; lia). cbn [mbind run_bind].
    rewrite arr_get_app2 by (rewrite length_flat; lia). done.
  - destruct Ha as [Ha _]. by destruct l1.
Qed.
