(* ===== verification/KcpRecv.v ===== *)
(** * The receiving half of KCP

    Models ikcp_peeksize, ikcp_recv and ikcp_parse_data of src/util/ikcp.c: the
    reordering buffer [rcv_buf], the queue of in-order segments [rcv_queue] and
    the reassembly of messages. *)

From S2P Require Import Prelude Codec KcpState.

(** ** ikcp_peeksize *)

Fixpoint peek_loop (length : Z) (q : list IKCPSEG) : Z :=
  match q with
  | [] => length
  | seg :: q =>
      let length := i32 (length + seg_len seg) in
      if seg_frg seg =? 0 then length else peek_loop length q
  end.

Definition ikcp_peeksize (kcp : ikcpcb) : Z :=
  match rcv_queue kcp with
  | [] => -1
  | seg :: _ =>
      if seg_frg seg =? 0 then i32 (seg_len seg)
      else if nrcv_que kcp <? u32 (seg_frg seg + 1) then -1
      else peek_loop 0 (rcv_queue kcp)
  end.

(** ** Moving segments from [rcv_buf] to [rcv_queue] *)

Fixpoint move_loop (buf : list IKCPSEG) (kcp : ikcpcb) : ikcpcb :=
  match buf with
  | [] => kcp
  | seg :: buf =>
      if (seg_sn seg =? rcv_nxt kcp) && (nrcv_que kcp <? rcv_wnd kcp) then
        move_loop buf
          (kcp <| rcv_buf := buf |>
               <| nrcv_buf := u32 (nrcv_buf kcp - 1) |>
               <| rcv_queue := rcv_queue kcp ++ [seg] |>
               <| nrcv_que := u32 (nrcv_que kcp + 1) |>
               <| rcv_nxt := u32 (rcv_nxt kcp + 1) |>)
      else kcp
  end.

Definition move_avail (kcp : ikcpcb) : ikcpcb := move_loop (rcv_buf kcp) kcp.

(** ** ikcp_recv *)

(** The loop that merges the fragments of the first message: [copy] says that
    the caller gave a buffer, [out] is what was copied to it so far; returns
    the copied bytes, [len], the queue from the first segment not visited, and
    [nrcv_que]. *)
Fixpoint recv_merge (copy ispeek : bool) (q : list IKCPSEG)
    (out : list byte) (len nrcv : Z) : list byte * Z * list IKCPSEG * Z :=
  match q with
  | [] => (out, len, [], nrcv)
  | seg :: q =>
      let out :=
        if copy then out ++ take (Z.to_nat (seg_len seg)) (seg_data seg) else out in
      let len := i32 (len + seg_len seg) in
      let fragment := i32 (seg_frg seg) in
      let nrcv := if ispeek then nrcv else u32 (nrcv - 1) in
      if fragment =? 0 then (out, len, q, nrcv)
      else recv_merge copy ispeek q out len nrcv
  end.

(** [copy] is [buffer != NULL].  Returns the control block, the bytes written
    to the buffer and the function's result. *)
Definition ikcp_recv (kcp : ikcpcb) (copy : bool) (len : Z)
  : run (ikcpcb * list byte * Z) :=
  let ispeek := len <? 0 in
  match rcv_queue kcp with
  | [] => Ok (kcp, [], -1)
  | _ =>
      let len := if len <? 0 then i32 (- len) else len in
      let peeksize := ikcp_peeksize kcp in
      if peeksize <? 0 then Ok (kcp, [], -2)
      else if peeksize >? len then Ok (kcp, [], -3)
      else
        let recover := nrcv_que kcp >=? rcv_wnd kcp in
        let '(out, len, rest, nrcv) :=
          recv_merge copy ispeek (rcv_queue kcp) [] 0 (nrcv_que kcp) in
        let kcp :=
          if ispeek then kcp
          else kcp <| rcv_queue := rest |> <| nrcv_que := nrcv |> in
        c_assert (len =? peeksize) ≫= fun _ =>
        let kcp := move_avail kcp in
        let kcp :=
          if (nrcv_que kcp <? rcv_wnd kcp) && recover
          then kcp <| probe := Z.lor (probe kcp) IKCP_ASK_TELL |>
          else kcp in
        Ok (kcp, out, len)
  end.

(** ** ikcp_parse_data *)

(** The scan of [rcv_buf] from its tail, on the reversed list: [None] when a
    segment with the same number is present, otherwise the list with [newseg]
    linked after the segment the scan stopped at. *)
Fixpoint insert_rev (newseg : IKCPSEG) (rl : list IKCPSEG) : option (list IKCPSEG) :=
  match rl with
  | [] => Some [newseg]
  | seg :: rl' =>
      if seg_sn seg =? seg_sn newseg then None
      else if itimediff (seg_sn newseg) (seg_sn seg) >? 0
      then Some (newseg :: seg :: rl')
      else match insert_rev newseg rl' with
           | Some l => Some (seg :: l)
           | None => None
           end
  end.

Definition ikcp_parse_data (kcp : ikcpcb) (newseg : IKCPSEG) : ikcpcb :=
  let sn := seg_sn newseg in
  if (itimediff sn (u32 (rcv_nxt kcp + rcv_wnd kcp)) >=? 0)
     || (itimediff sn (rcv_nxt kcp) <? 0)
  then kcp
  else
    let kcp :=
      match insert_rev newseg (rev (rcv_buf kcp)) with
      | Some l => kcp <| rcv_buf := rev l |> <| nrcv_buf := u32 (nrcv_buf kcp + 1) |>
      | None => kcp
      end in
    move_avail kcp.

(** ** What the receiving half leaves alone *)

Lemma move_loop_frame buf k :
  snd_part (move_loop buf k) = snd_part k /\ ack_part (move_loop buf k) = ack_part k /\
  cfg_part (move_loop buf k) = cfg_part k /\ clk_part (move_loop buf k) = clk_part k.
Proof.
  revert k. induction buf as [|s buf IH]; intros k; cbn [move_loop]; [done|].
  case_if; [|done].
  match goal with |- context [move_loop buf ?x] => destruct (IH x) as (-> & -> & -> & ->) end.
  done.
Qed.

(** ** Moving segments: functional behaviour *)

(** Where [move_avail] stops. *)
Definition move_stops (k : ikcpcb) : Prop :=
  match rcv_buf k with
  | [] => True
  | s :: _ => seg_sn s <> rcv_nxt k \/ rcv_wnd k <= nrcv_que k
  end.

(** [move_avail] moves the longest prefix of [rcv_buf] that continues the
    sequence at [rcv_nxt] and fits the receive window. *)
Lemma move_loop_spec buf k :
  rcv_buf k = buf -> u32 (rcv_nxt k) = rcv_nxt k ->
  0 <= nrcv_que k -> rcv_wnd k < 4294967296 ->
  let k' := move_loop buf k in
  exists pre,
    buf = pre ++ rcv_buf k' /\
    rcv_queue k' = rcv_queue k ++ pre /\
    (forall i s, pre !! i = Some s -> seg_sn s = u32 (rcv_nxt k + Z.of_nat i)) /\
    rcv_nxt k' = u32 (rcv_nxt k + zlen pre) /\
    nrcv_que k' = nrcv_que k + zlen pre /\
    nrcv_que k' <= Z.max (nrcv_que k) (rcv_wnd k) /\
    u32 (nrcv_buf k') = u32 (nrcv_buf k - zlen pre) /\
    (nrcv_que k < rcv_wnd k \/ pre = []) /\
    move_stops k'.
Proof.
  revert k. induction buf as [|s buf IH]; intros k Hb Hn Hq Hw; cbv zeta; cbn [move_loop].
  - exists []. rewrite Hb, !app_nil_r, Z.add_0_r, Z.sub_0_r.
    split_and!; auto; try (cbn; lia); [done|].
    unfold move_stops. by rewrite Hb.
  - destruct (_ && _) eqn:E; zbool.
    + match goal with |- context [move_loop buf ?x] => set (k1 := x) end.
      destruct (IH k1 eq_refl (u32_u32 _) (proj1 (u32_range _)) Hw)
        as (pre & H1 & H2 & H3 & H4 & H5 & H6 & H7 & H8 & H9).
      change (rcv_queue k1) with (rcv_queue k ++ [s]) in H2.
      change (rcv_nxt k1) with (u32 (rcv_nxt k + 1)) in H3, H4.
      change (nrcv_que k1) with (u32 (nrcv_que k + 1)) in H5, H6, H8.
      change (rcv_wnd k1) with (rcv_wnd k) in H5, H6, H8.
      change (nrcv_buf k1) with (u32 (nrcv_buf k - 1)) in H7.
      exists (s :: pre).
      split_and!.
      * cbn [app]. by rewrite H1 at 1.
      * by rewrite H2, <- app_assoc.
      * intros [|i] s' Hi; cbn in Hi.
        -- injection Hi as <-. by rewrite Z.add_0_r, Hn.
        -- rewrite (H3 _ _ Hi), u32_add_l. f_equal. lia.
      * rewrite H4, u32_add_l. f_equal. cbn [length]. lia.
      * rewrite H5, u32_small by lia. cbn [length]. lia.
      * rewrite u32_small in H6 by lia. lia.
      * rewrite H7, u32_sub_l. f_equal. cbn [length]. lia.
      * by left.
      * done.
    + exists []. rewrite Hb, !app_nil_r, Z.add_0_r, Z.sub_0_r. split_and!; auto; try (cbn; lia); [done|].
      unfold move_stops. rewrite Hb. apply andb_false_iff in E as [E|E]; zbool; auto.
Qed.

(** ** Reassembly *)

(** A segment as the allocator and the wire deliver it: [len] bytes of data and
    a fragment number of type IUINT32. *)
Definition seg_sized (s : IKCPSEG) : Prop :=
  seg_len s = zlen (seg_data s) /\ seg_len s < 4294967296 /\
  0 <= seg_frg s < 4294967296.

#[export] Instance seg_sized_dec s : Decision (seg_sized s).
Proof. unfold seg_sized. apply _. Defined.

(** The part of a segment that belongs to the message. *)
Abbreviation frag := (Z * list byte)%type.
Definition frag_of (s : IKCPSEG) : frag := (seg_frg s, seg_data s).

(** The fragments of one message: each is numbered by how many follow it. *)
Fixpoint frg_down (fs : list frag) : Prop :=
  match fs with
  | [] => True
  | (f, _) :: fs => f = zlen fs /\ frg_down fs
  end.

Definition frag_bytes (fs : list frag) : list byte := concat (snd <$> fs).

Lemma frag_bytes_cons x fs : frag_bytes (x :: fs) = x.2 ++ frag_bytes fs.
Proof. done. Qed.

Lemma seg_frg_i32 s : seg_sized s -> (i32 (seg_frg s) =? 0) = (seg_frg s =? 0).
Proof.
  intros (_ & _ & Hr). destruct (seg_frg s =? 0) eqn:E; zbool.
  - by rewrite E.
  - apply Z.eqb_neq. wrap_lia.
Qed.

(** The length that [ikcp_recv] copies is the one [ikcp_peeksize] announces. *)
Lemma recv_merge_len copy ispeek q out len n :
  Forall seg_sized q ->
  (recv_merge copy ispeek q out len n).1.1.2 = peek_loop len q.
Proof.
  intros Hq. revert out len n.
  induction Hq as [|s q Hs Hq IH]; intros; cbn [recv_merge peek_loop]; [done|].
  rewrite seg_frg_i32 by done. by destruct (seg_frg s =? 0).
Qed.

(** The first [length g] segments are one message: the loop copies exactly its
    bytes and stops behind it. *)
Lemma recv_merge_group ispeek g rest out len n :
  Forall seg_sized g -> g <> [] -> frg_down (frag_of <$> g) ->
  recv_merge true ispeek (g ++ rest) out len n
  = (out ++ frag_bytes (frag_of <$> g),
     i32 (len + zlen (frag_bytes (frag_of <$> g))), rest,
     if ispeek then n else u32 (n - zlen g)).
Proof.
  intros Hg. revert out len n. induction Hg as [|s g Hs Hg IH]; intros out len n Hne Hd; [done|].
  cbn [app recv_merge fmap list_fmap]. rewrite seg_frg_i32 by done.
  cbn [fmap list_fmap frg_down frag_of] in Hd. destruct Hd as [Hf Hd].
  destruct Hs as (Hl & _). rewrite Hl, take_Z_length, frag_bytes_cons. cbn [frag_of snd].
  destruct g as [|s' g].
  - cbn in Hf. rewrite Hf, Z.eqb_refl. cbn [app fmap list_fmap frag_bytes concat].
    by rewrite app_nil_r.
  - assert ((seg_frg s =? 0) = false) as -> by (apply Z.eqb_neq; cbn in Hf; lia).
    rewrite IH by done. rewrite <- app_assoc, i32_add_l.
    rewrite (Z_length_app (seg_data s)), Z.add_assoc. f_equal.
    destruct ispeek; [done|]. rewrite u32_sub_l. f_equal. cbn [length]. lia.
Qed.

Lemma peek_loop_group g rest len :
  Forall seg_sized g -> g <> [] -> frg_down (frag_of <$> g) ->
  peek_loop len (g ++ rest) = i32 (len + zlen (frag_bytes (frag_of <$> g))).
Proof.
  intros Hg. revert len. induction Hg as [|s g Hs Hg IH]; intros len Hne Hd; [done|].
  cbn [app peek_loop fmap list_fmap].
  cbn [fmap list_fmap frg_down frag_of] in Hd. destruct Hd as [Hf Hd].
  destruct Hs as (Hl & _). rewrite Hl, frag_bytes_cons. cbn [frag_of snd].
  destruct g as [|s' g].
  - cbn in Hf. rewrite Hf, Z.eqb_refl. cbn [app fmap list_fmap frag_bytes concat].
    by rewrite app_nil_r.
  - assert ((seg_frg s =? 0) = false) as -> by (apply Z.eqb_neq; cbn in Hf; lia).
    rewrite IH by done. rewrite i32_add_l, Z_length_app. f_equal. lia.
Qed.

(** The assertion [len == peeksize] of ikcp_recv cannot fail. *)
Lemma ikcp_recv_total k copy len :
  Forall seg_sized (rcv_queue k) ->
  exists k' out r, ikcp_recv k copy len = Ok (k', out, r).
Proof.
  intros Hq. unfold ikcp_recv, ikcp_peeksize.
  destruct (rcv_queue k) as [|s q] eqn:Eq; [eauto|].
  set (pk := if seg_frg s =? 0 then _ else _).
  destruct (pk <? 0) eqn:E1; [eauto|]. destruct (pk >? _) eqn:E2; [eauto|].
  destruct (recv_merge copy (len <? 0) (s :: q) [] 0 (nrcv_que k))
    as [[[out l] rest] n] eqn:Em.
  assert (l = pk) as ->.
  { pose proof (recv_merge_len copy (len <? 0) (s :: q) [] 0 (nrcv_que k) Hq) as Hl.
    rewrite Em in Hl. cbn [fst snd] in Hl. subst l pk.
    cbn [peek_loop]. rewrite Z.add_0_l. zbool. repeat case_if; try done; lia. }
  rewrite Z.eqb_refl. cbn [c_assert mbind run_bind]. eauto.
Qed.

(** ** The reordering buffer *)

Lemma insert_rev_None s rl :
  insert_rev s rl = None -> exists s', s' ∈ rl /\ seg_sn s' = seg_sn s.
Proof.
  induction rl as [|s' rl IH]; cbn [insert_rev]; [done|].
  destruct (seg_sn s' =? seg_sn s) eqn:E; zbool.
  - intros _. exists s'. split; [apply list_elem_of_here|done].
  - case_if; [done|]. destruct (insert_rev s rl); [done|].
    intros H. destruct (IH H) as (t & Ht & ?). exists t. split; [by apply list_elem_of_further|done].
Qed.

Lemma insert_rev_Some s rl l :
  insert_rev s rl = Some l ->
  exists a b, rl = a ++ b /\ l = a ++ s :: b /\
    Forall (fun t => seg_sn t <> seg_sn s /\ itimediff (seg_sn s) (seg_sn t) <= 0) a /\
    match b with
    | [] => True
    | t :: _ => seg_sn t <> seg_sn s /\ 0 < itimediff (seg_sn s) (seg_sn t)
    end.
Proof.
  revert l. induction rl as [|s' rl IH]; intros l; cbn [insert_rev].
  - intros [= <-]. by exists [], [].
  - destruct (seg_sn s' =? seg_sn s) eqn:E; zbool; [done|].
    case_if.
    + intros [= <-]. by exists [], (s' :: rl).
    + destruct (insert_rev s rl) as [l'|]; [|done]. intros [= <-].
      destruct (IH _ eq_refl) as (a & b & -> & -> & Ha & Hb).
      exists (s' :: a), b. split_and!; auto.
Qed.
