(* ===== verification/KcpSend.v ===== *)
(** * The sending half of KCP

    Models ikcp_send, ikcp_update_ack, ikcp_shrink_buf, ikcp_parse_ack and
    ikcp_parse_una of src/util/ikcp.c: the fragmentation of messages, the round
    trip time estimator and the processing of acknowledgements. *)

From S2P Require Import Prelude Codec KcpState.

(** ** ikcp_send *)

(** The fragmentation loop, with [n] rounds left of [count].  [data] is the
    user's buffer from the current position on, [None] for NULL. *)
Fixpoint send_loop (m : mem) (n : nat) (data : option (list byte)) (len : Z)
    (kcp : ikcpcb) : run (ikcpcb * Z) :=
  match n with
  | O => Ok (kcp, 0)
  | S n =>
      let size := if len >? i32 (mss kcp) then i32 (mss kcp) else len in
      match ikcp_segment_new m size with
      | None => Abort
      | Some seg =>
          seg ←
            (match data with
             | Some b =>
                 if len >? 0 then
                   if bool_decide (size <= zlen b)
                   then Ok (seg <| seg_data := take (Z.to_nat size) b |>)
                   else Undef
                 else Ok seg
             | None => Ok seg
             end);
          let seg := seg <| seg_len := u32 size |> <| seg_frg := Z.of_nat n |> in
          let kcp := kcp <| snd_queue := snd_queue kcp ++ [seg] |>
                         <| nsnd_que := u32 (nsnd_que kcp + 1) |> in
          let data := drop (Z.to_nat size) <$> data in
          send_loop m n data (len - size) kcp
      end
  end.

(** The number of fragments: 1, or [len] divided by [mss] and rounded up, in the
    unsigned arithmetic the expression is evaluated in. *)
Definition send_count (len mss : Z) : Z :=
  if len <=? i32 mss then 1
  else i32 (u32 (u32 (len + mss) - 1) / mss).

Definition ikcp_send (m : mem) (kcp : ikcpcb) (data : option (list byte)) (len : Z)
  : run (ikcpcb * Z) :=
  c_assert (mss kcp >? 0) ≫= fun _ =>
  if len <? 0 then Ok (kcp, -1)
  else
    let count := send_count len (mss kcp) in
    if count >? 255 then Ok (kcp, -2)
    else
      let count := if count =? 0 then 1 else count in
      send_loop m (Z.to_nat count) data len kcp.

(** ** Round trip time *)

Definition ikcp_update_ack (kcp : ikcpcb) (rtt : Z) : ikcpcb :=
  let kcp :=
    if rx_srtt kcp =? 0 then
      kcp <| rx_srtt := rtt |> <| rx_rttval := Z.quot rtt 2 |>
    else
      let delta := i32 (rtt - rx_srtt kcp) in
      let delta := if delta <? 0 then - delta else delta in
      let kcp := kcp <| rx_rttval := i32 (Z.quot (i32 (3 * rx_rttval kcp) + delta) 4) |> in
      let kcp := kcp <| rx_srtt := Z.quot (i32 (i32 (7 * rx_srtt kcp) + rtt)) 8 |> in
      if rx_srtt kcp <? 1 then kcp <| rx_srtt := 1 |> else kcp in
  let rto := i32 (u32 (rx_srtt kcp + imax 1 (u32 (i32 (4 * rx_rttval kcp))))) in
  kcp <| rx_rto := i32 (ibound (u32 (rx_minrto kcp)) (u32 rto) IKCP_RTO_MAX) |>.

(** ** Acknowledgements *)

Definition ikcp_shrink_buf (kcp : ikcpcb) : ikcpcb :=
  match snd_buf kcp with
  | seg :: _ => kcp <| snd_una := seg_sn seg |>
  | [] => kcp <| snd_una := snd_nxt kcp |>
  end.

(** The loop of ikcp_parse_ack on [snd_buf]; the flag says that a segment was
    deleted. *)
Fixpoint ack_loop (sn : Z) (buf : list IKCPSEG) : list IKCPSEG * bool :=
  match buf with
  | [] => ([], false)
  | seg :: buf =>
      if sn =? seg_sn seg then (buf, true)
      else
        let '(buf, found) := ack_loop sn buf in
        (seg <| seg_fastack := u32 (seg_fastack seg + 1) |> :: buf, found)
  end.

Definition ikcp_parse_ack (kcp : ikcpcb) (sn : Z) : ikcpcb :=
  if (itimediff sn (snd_una kcp) <? 0) || (itimediff sn (snd_nxt kcp) >=? 0) then kcp
  else
    let '(buf, found) := ack_loop sn (snd_buf kcp) in
    let kcp := kcp <| snd_buf := buf |> in
    if found then kcp <| nsnd_buf := u32 (nsnd_buf kcp - 1) |> else kcp.

Fixpoint una_loop (una : Z) (buf : list IKCPSEG) (kcp : ikcpcb) : ikcpcb :=
  match buf with
  | [] => kcp
  | seg :: buf =>
      if itimediff una (seg_sn seg) >? 0 then
        una_loop una buf
          (kcp <| snd_buf := buf |> <| nsnd_buf := u32 (nsnd_buf kcp - 1) |>)
      else kcp
  end.

Definition ikcp_parse_una (kcp : ikcpcb) (una : Z) : ikcpcb :=
  una_loop una (snd_buf kcp) kcp.

(** ** Fragmentation *)

(** The reference: [n] pieces of [size] bytes, numbered downwards. *)
Fixpoint fragments (n size : nat) (b : list byte) : list (Z * list byte) :=
  match n with
  | O => []
  | S n => (Z.of_nat n, take size b) :: fragments n size (drop size b)
  end.

Lemma length_fragments n size b : length (fragments n size b) = n.
Proof. revert b. induction n; intros; simpl; auto. Qed.

Lemma fragments_bytes n size b :
  (length b <= n * size)%nat -> concat (snd <$> fragments n size b) = b.
Proof.
  revert b. induction n as [|n IH]; intros b Hb; cbn.
  - destruct b; [done|simpl in Hb; lia].
  - rewrite IH by (rewrite length_drop; simpl in Hb; lia). apply take_drop.
Qed.

Lemma fragments_size n size b :
  Forall (fun f => 0 <= f.1 < Z.of_nat n /\ (length f.2 <= size)%nat) (fragments n size b).
Proof.
  revert b. induction n as [|n IH]; intros b; cbn [fragments]; constructor.
  - cbn. split; [lia|]. rewrite length_take. lia.
  - eapply Forall_impl; [|apply IH]. intros f [? ?]. split; [lia|done].
Qed.

Lemma send_count_spec len mss :
  0 <= len < 2147483648 -> 0 < mss < 2147483648 ->
  1 <= send_count len mss /\
  send_count len mss = Z.max 1 ((len + mss - 1) / mss) /\
  len <= send_count len mss * mss.
Proof.
  intros Hl Hm. unfold send_count. rewrite i32_small by lia.
  destruct (len <=? mss) eqn:E; zbool.
  - split; [lia|]. split; [|lia]. symmetry. apply Z.max_l.
    assert ((len + mss - 1) / mss < 2); [|lia]. apply Z.div_lt_upper_bound; lia.
  - rewrite (u32_small (len + mss)), u32_small by lia.
    assert (1 <= (len + mss - 1) / mss) by (apply Z.div_le_lower_bound; lia).
    assert ((len + mss - 1) / mss <= len) by (apply Z.div_le_upper_bound; nia).
    rewrite i32_small by lia. split; [done|]. split; [lia|].
    pose proof (Z.div_mod (len + mss - 1) mss). pose proof (Z.mod_pos_bound (len + mss - 1) mss). lia.
Qed.

(** What a queued segment looks like before the flush numbers it. *)
Definition queued (mss : Z) (s : IKCPSEG) : Prop :=
  seg_len s = zlen (seg_data s) /\ seg_len s <= mss /\ 0 <= seg_frg s < 255.

Lemma send_loop_spec m n b len k :
  (forall z, mem_ok m z = true) -> (n <= 255)%nat ->
  0 < mss k < 2147483648 -> len = zlen b ->
  u32 (nsnd_que k) = nsnd_que k ->
  exists segs,
    send_loop m n (Some b) len k
      = Ok (k <| snd_queue := snd_queue k ++ segs |>
              <| nsnd_que := u32 (nsnd_que k + zlen segs) |>, 0) /\
    (fun s => (seg_frg s, seg_data s)) <$> segs = fragments n (Z.to_nat (mss k)) b /\
    Forall (queued (mss k)) segs.
Proof.
  intros Hm Hn Hmss. revert b len k Hn Hmss.
  induction n as [|n IH]; intros b len k Hn Hmss -> Hq; cbn [send_loop fragments].
  - exists []. rewrite app_nil_r, Z.add_0_r, Hq. split_and!; auto. by destruct k.
  - rewrite i32_small by lia.
    set (size := if zlen b >? mss k then mss k else zlen b).
    assert (size = Z.min (zlen b) (mss k)) as Hsz by (subst size; case_if; lia).
    clearbody size. unfold ikcp_segment_new. rewrite Hm.
    assert (take (Z.to_nat size) b = take (Z.to_nat (mss k)) b) as Htk.
    { destruct (decide (zlen b <= mss k)).
      - rewrite !take_ge by lia. done.
      - by replace size with (mss k) by lia. }
    assert (drop (Z.to_nat size) b = drop (Z.to_nat (mss k)) b) as Hdr.
    { destruct (decide (zlen b <= mss k)).
      - rewrite !drop_ge by lia. done.
      - by replace size with (mss k) by lia. }
    set (filled := if zlen b >? 0 then _ else _).
    assert (exists s, filled = Ok s /\ seg_data s = take (Z.to_nat (mss k)) b) as (s & -> & Hs).
    { subst filled. case_if.
      - rewrite bool_decide_eq_true_2 by lia. rewrite Htk. eexists. split; [reflexivity|done].
      - eexists. split; [reflexivity|]. cbn. replace size with 0 by lia.
        assert (b = []) as -> by (destruct b; [done|simpl in *; lia]).
        cbn. by rewrite resize_0, take_nil. }
    cbn [mbind run_bind]. rewrite (u32_small size) by lia.
    set (seg := s <| seg_len := size |> <| seg_frg := Z.of_nat n |>).
    edestruct (IH (drop (Z.to_nat (mss k)) b) (zlen b - size)
      (k <| snd_queue := snd_queue k ++ [seg] |> <| nsnd_que := u32 (nsnd_que k + 1) |>))
      as (segs & Heq & Hfr & Hall).
    + lia.
    + done.
    + rewrite length_drop. lia.
    + apply u32_u32.
    + cbn [fmap option_fmap option_map]. rewrite Hdr, Heq. exists (seg :: segs). split_and!.
      * cbn. rewrite <- app_assoc, u32_add_l. cbn [app length].
        by replace (nsnd_que k + 1 + zlen segs) with (nsnd_que k + Z.of_nat (S (length segs))) by lia.
      * cbn [fmap list_fmap]. cbn in Hfr |- *. by rewrite Hs, Hfr.
      * constructor; [|done]. unfold queued. cbn. rewrite Hs, length_take. lia.
Qed.

(** ** Acknowledgement processing *)

Definition bump (s : IKCPSEG) : IKCPSEG :=
  s <| seg_fastack := u32 (seg_fastack s + 1) |>.

Lemma ack_loop_spec sn buf buf' found :
  ack_loop sn buf = (buf', found) ->
  if found then
    exists a s b, buf = a ++ s :: b /\ buf' = (bump <$> a) ++ b /\
      seg_sn s = sn /\ Forall (fun t => seg_sn t <> sn) a
  else buf' = bump <$> buf /\ Forall (fun t => seg_sn t <> sn) buf.
Proof.
  revert buf' found. induction buf as [|s buf IH]; intros buf' found; cbn [ack_loop].
  - intros [= <- <-]. by split; [|constructor].
  - destruct (sn =? seg_sn s) eqn:E; zbool.
    + intros [= <- <-]. exists [], s, buf. split_and!; auto.
    + destruct (ack_loop sn buf) as [b' f]. intros [= <- <-].
      specialize (IH _ _ eq_refl). destruct f.
      * destruct IH as (a & t & b & -> & -> & ? & ?).
        exists (s :: a), t, b. split_and!; auto.
      * destruct IH as [-> ?]. split; [done|]. constructor; auto.
Qed.

Lemma una_loop_spec una buf k :
  snd_buf k = buf ->
  exists pre post, buf = pre ++ post /\
    una_loop una buf k = k <| snd_buf := post |>
      <| nsnd_buf := if pre is [] then nsnd_buf k else u32 (nsnd_buf k - zlen pre) |> /\
    Forall (fun s => 0 < itimediff una (seg_sn s)) pre /\
    match post with [] => True | s :: _ => itimediff una (seg_sn s) <= 0 end.
Proof.
  revert k. induction buf as [|s buf IH]; intros k Hb; cbn [una_loop].
  - exists [], []. split_and!; auto. rewrite <- Hb. by destruct k.
  - case_if.
    + edestruct (IH (k <| snd_buf := buf |> <| nsnd_buf := u32 (nsnd_buf k - 1) |>))
        as (pre & post & -> & Heq & Hpre & Hpost); [done|].
      exists (s :: pre), post. rewrite Heq. split_and!; auto.
      cbn. f_equal. destruct pre; [done|]. rewrite u32_sub_l. f_equal. cbn [length]. lia.
    + exists [], (s :: buf). split_and!; auto. rewrite <- Hb. by destruct k.
Qed.

(** The estimator keeps the retransmission time-out between the configured
    minimum and IKCP_RTO_MAX, whatever the measured round trip time. *)
Lemma ikcp_update_ack_bounds k rtt :
  0 <= rx_minrto k <= IKCP_RTO_MAX ->
  rx_minrto k <= rx_rto (ikcp_update_ack k rtt) <= IKCP_RTO_MAX.
Proof.
  intros H. unfold ikcp_update_ack, IKCP_RTO_MAX in *.
  set (k1 := if rx_srtt k =? 0 then _ else _).
  assert (rx_minrto k1 = rx_minrto k) as Hk1.
  { subst k1. destruct (rx_srtt k =? 0); [done|]. cbn zeta.
    match goal with |- rx_minrto (if ?c then _ else _) = _ => by destruct c end. }
  clearbody k1. cbn. rewrite Hk1. unfold ibound, imin, imax.
  rewrite (u32_small (rx_minrto k)) by lia.
  set (rto := i32 (u32 _)). clearbody rto.
  destruct (rx_minrto k >=? u32 rto) eqn:E1; zbool.
  - destruct (rx_minrto k <=? 60000) eqn:E2; zbool; rewrite i32_small; lia.
  - destruct (u32 rto <=? 60000) eqn:E2; zbool; rewrite i32_small; lia.
Qed.
