(* ===== verification/KcpInput.v ===== *)
(** * Input of a lower-level packet

    Models ikcp_get_conv and ikcp_input of src/util/ikcp.c. *)

From S2P Require Import Prelude Codec KcpState KcpAck KcpRecv KcpSend.

(** ** ikcp_get_conv *)

(** The result 0 is [None]; [size] is the length of the packet. *)
Definition ikcp_get_conv (data : option (list byte)) (size : Z) : run (option Z) :=
  match data with
  | None => Ok None
  | Some data =>
      if size <? IKCP_OVERHEAD then Ok None
      else '(c, _) ← ikcp_decode32u data; Ok (Some c)
  end.

(** ** The header of a segment *)

Record header := mkHeader {
  h_conv : Z; h_cmd : Z; h_frg : Z; h_wnd : Z;
  h_ts : Z; h_sn : Z; h_una : Z; h_len : Z
}.

(** The reads of ikcp_input after the [conv] field. *)
Definition decode_tail (c : Z) (data : list byte) : run (header * list byte) :=
  '(cmd, data) ← ikcp_decode8u data;
  '(frg, data) ← ikcp_decode8u data;
  '(wnd, data) ← ikcp_decode16u data;
  '(ts, data) ← ikcp_decode32u data;
  '(sn, data) ← ikcp_decode32u data;
  '(una, data) ← ikcp_decode32u data;
  '(len, data) ← ikcp_decode32u data;
  Ok (mkHeader c cmd frg wnd ts sn una len, data).

(** ** The four commands *)

Definition input_ack (kcp : ikcpcb) (h : header) : ikcpcb :=
  let kcp :=
    if itimediff (current kcp) (h_ts h) >=? 0
    then ikcp_update_ack kcp (itimediff (current kcp) (h_ts h)) else kcp in
  ikcp_shrink_buf (ikcp_parse_ack kcp (h_sn h)).

(** The segment ikcp_input builds from a PUSH. *)
Definition push_seg (raw : IKCPSEG) (h : header) (data : list byte) : IKCPSEG :=
  raw <| seg_conv := h_conv h |> <| seg_cmd := h_cmd h |> <| seg_frg := h_frg h |>
      <| seg_wnd := h_wnd h |> <| seg_ts := h_ts h |> <| seg_sn := h_sn h |>
      <| seg_una := h_una h |> <| seg_len := h_len h |>
      <| seg_data := if h_len h >? 0 then take (Z.to_nat (h_len h)) data
                     else seg_data raw |>.

Definition input_push (m : mem) (kcp : ikcpcb) (h : header) (data : list byte)
  : run ikcpcb :=
  if itimediff (h_sn h) (u32 (rcv_nxt kcp + rcv_wnd kcp)) <? 0 then
    kcp ← ikcp_ack_push m kcp (h_sn h) (h_ts h);
    if itimediff (h_sn h) (rcv_nxt kcp) >=? 0 then
      match ikcp_segment_new m (h_len h) with
      | None => Undef
      | Some raw =>
          c_require (bool_decide (h_len h <= zlen data)) ≫= fun _ =>
          Ok (ikcp_parse_data kcp (push_seg raw h data))
      end
    else Ok kcp
  else Ok kcp.

Definition is_cmd (cmd : Z) : bool :=
  (cmd =? IKCP_CMD_PUSH) || (cmd =? IKCP_CMD_ACK)
  || (cmd =? IKCP_CMD_WASK) || (cmd =? IKCP_CMD_WINS).

(** What follows the header checks, up to [data += len]. *)
Definition input_seg (m : mem) (kcp : ikcpcb) (h : header) (data : list byte)
  : run ikcpcb :=
  let kcp := kcp <| rmt_wnd := h_wnd h |> in
  let kcp := ikcp_shrink_buf (ikcp_parse_una kcp (h_una h)) in
  if h_cmd h =? IKCP_CMD_ACK then Ok (input_ack kcp h)
  else if h_cmd h =? IKCP_CMD_PUSH then input_push m kcp h data
  else if h_cmd h =? IKCP_CMD_WASK then
    Ok (kcp <| probe := Z.lor (probe kcp) IKCP_ASK_TELL |>)
  else Ok kcp.

(** ** The loop

    [None] is the normal exit by [break], [Some ret] an early return.  A round
    consumes at least the 24 bytes of a header, so [length data] rounds are
    enough; running out of [fuel] is reported as [Undef]. *)
Fixpoint input_loop (m : mem) (fuel : nat) (kcp : ikcpcb) (data : list byte) (size : Z)
  : run (ikcpcb * option Z) :=
  match fuel with
  | O => Undef
  | S fuel =>
      if size <? IKCP_OVERHEAD then Ok (kcp, None)
      else
        '(c, data) ← ikcp_decode32u data;
        if negb (c =? conv kcp) then Ok (kcp, Some (-1))
        else
          '(h, data) ← decode_tail c data;
          let size := size - IKCP_OVERHEAD in
          if size <? h_len h then Ok (kcp, Some (-2))
          else if negb (is_cmd (h_cmd h)) then Ok (kcp, Some (-3))
          else
            kcp ← input_seg m kcp h data;
            input_loop m fuel kcp (drop (Z.to_nat (h_len h)) data) (size - h_len h)
  end.

(** The growth of the congestion window after the loop; [una] is the value of
    [snd_una] before it. *)
Definition input_cwnd (kcp : ikcpcb) (una : Z) : run ikcpcb :=
  if itimediff (snd_una kcp) una >? 0 then
    if cwnd kcp <? rmt_wnd kcp then
      let mss := mss kcp in
      kcp ←
        (if cwnd kcp <? ssthresh kcp then
           Ok (kcp <| cwnd := u32 (cwnd kcp + 1) |> <| incr := u32 (incr kcp + mss) |>)
         else
           let kcp := if incr kcp <? mss then kcp <| incr := mss |> else kcp in
           if incr kcp =? 0 then Undef
           else
             let kcp := kcp <| incr :=
               u32 (incr kcp + (u32 (mss * mss) / incr kcp + mss / 16)) |> in
             Ok (if u32 (u32 (cwnd kcp + 1) * mss) >=? incr kcp
                 then kcp <| cwnd := u32 (cwnd kcp + 1) |> else kcp));
      Ok (if cwnd kcp >? rmt_wnd kcp
          then kcp <| cwnd := rmt_wnd kcp |> <| incr := u32 (rmt_wnd kcp * mss) |>
          else kcp)
    else Ok kcp
  else Ok kcp.

(** ** ikcp_input *)

Definition ikcp_input (m : mem) (kcp : ikcpcb) (data : option (list byte)) (size : Z)
  : run (ikcpcb * Z) :=
  let una := snd_una kcp in
  match data with
  | None => Ok (kcp, 0)
  | Some data =>
      if size <? 24 then Ok (kcp, 0)
      else
        '(kcp, ret) ← input_loop m (S (length data)) kcp data size;
        match ret with
        | Some ret => Ok (kcp, ret)
        | None => kcp ← input_cwnd kcp una; Ok (kcp, 0)
        end
  end.
