(* ===== verification/KcpFlush.v ===== *)
(** * Output: flushing and the update clock

    Models ikcp_output, ikcp_encode_seg, ikcp_wnd_unused, ikcp_flush,
    ikcp_update and ikcp_check of src/util/ikcp.c.  The datagrams handed to the
    output callback are returned as a list, in the order of the calls.  [ptr] is
    the part of [kcp->buffer] written since the last output. *)

From S2P Require Import Prelude Codec KcpState KcpAck.

(** ** Output of a datagram *)

(** The calls of the callback [kcp->output]: none for an empty packet. *)
Definition ikcp_output (kcp : ikcpcb) (data : list byte) : run (list (list byte)) :=
  c_assert (output kcp) ≫= fun _ =>
  if zlen data =? 0 then Ok [] else Ok [data].

Definition ikcp_encode_seg (ptr : list byte) (seg : IKCPSEG) : list byte :=
  let ptr := ikcp_encode32u ptr (seg_conv seg) in
  let ptr := ikcp_encode8u ptr (u8 (seg_cmd seg)) in
  let ptr := ikcp_encode8u ptr (u8 (seg_frg seg)) in
  let ptr := ikcp_encode16u ptr (u16 (seg_wnd seg)) in
  let ptr := ikcp_encode32u ptr (seg_ts seg) in
  let ptr := ikcp_encode32u ptr (seg_sn seg) in
  let ptr := ikcp_encode32u ptr (seg_una seg) in
  let ptr := ikcp_encode32u ptr (seg_len seg) in
  ptr.

Definition ikcp_wnd_unused (kcp : ikcpcb) : Z :=
  if nrcv_que kcp <? rcv_wnd kcp then i32 (u32 (rcv_wnd kcp - nrcv_que kcp)) else 0.

(** The test made before an acknowledgement or a probe is encoded, in unsigned
    arithmetic: output what is in the buffer when no header fits any more. *)
Definition flush_header_room (kcp : ikcpcb) (ptr : list byte) (out : list (list byte))
  : run (list byte * list (list byte)) :=
  let size := i32 (zlen ptr) in
  if u32 (size + IKCP_OVERHEAD) >? u32 (i32 (mtu kcp)) then
    o ← ikcp_output kcp ptr; Ok ([], out ++ o)
  else Ok (ptr, out).

(** ** Acknowledgements *)

(** The local [seg] keeps the [sn] and [ts] of the last acknowledgement. *)
Fixpoint flush_acks (kcp : ikcpcb) (n : nat) (i : Z) (seg : IKCPSEG)
    (ptr : list byte) (out : list (list byte))
  : run (IKCPSEG * list byte * list (list byte)) :=
  match n with
  | O => Ok (seg, ptr, out)
  | S n =>
      '(ptr, out) ← flush_header_room kcp ptr out;
      '(sn, ts) ← ikcp_ack_get kcp i;
      let seg := seg <| seg_sn := sn |> <| seg_ts := ts |> in
      flush_acks kcp n (i + 1) seg (ikcp_encode_seg ptr seg) out
  end.

(** ** Window probes *)

Definition flush_probe (kcp : ikcpcb) : ikcpcb :=
  if rmt_wnd kcp =? 0 then
    if probe_wait kcp =? 0 then
      let kcp := kcp <| probe_wait := IKCP_PROBE_INIT |> in
      kcp <| ts_probe := u32 (current kcp + probe_wait kcp) |>
    else if itimediff (current kcp) (ts_probe kcp) >=? 0 then
      let kcp := if probe_wait kcp <? IKCP_PROBE_INIT
                 then kcp <| probe_wait := IKCP_PROBE_INIT |> else kcp in
      let kcp := kcp <| probe_wait := u32 (probe_wait kcp + probe_wait kcp / 2) |> in
      let kcp := if probe_wait kcp >? IKCP_PROBE_LIMIT
                 then kcp <| probe_wait := IKCP_PROBE_LIMIT |> else kcp in
      let kcp := kcp <| ts_probe := u32 (current kcp + probe_wait kcp) |> in
      kcp <| probe := Z.lor (probe kcp) IKCP_ASK_SEND |>
    else kcp
  else kcp <| ts_probe := 0 |> <| probe_wait := 0 |>.

(** One of the two blocks that encode a window probe command. *)
Definition flush_wnd_cmd (kcp : ikcpcb) (bit cmd : Z) (seg : IKCPSEG)
    (ptr : list byte) (out : list (list byte))
  : run (IKCPSEG * list byte * list (list byte)) :=
  if negb (Z.land (probe kcp) bit =? 0) then
    let seg := seg <| seg_cmd := cmd |> in
    '(ptr, out) ← flush_header_room kcp ptr out;
    Ok (seg, ikcp_encode_seg ptr seg, out)
  else Ok (seg, ptr, out).

(** ** From [snd_queue] to [snd_buf] *)

Definition flush_cwnd (kcp : ikcpcb) : Z :=
  let w := imin (snd_wnd kcp) (rmt_wnd kcp) in
  if nocwnd kcp =? 0 then imin (cwnd kcp) w else w.

Fixpoint flush_move (w wnd : Z) (queue : list IKCPSEG) (kcp : ikcpcb) : ikcpcb :=
  match queue with
  | [] => kcp
  | newseg :: queue =>
      if itimediff (snd_nxt kcp) (u32 (snd_una kcp + w)) <? 0 then
        let newseg :=
          newseg <| seg_conv := conv kcp |> <| seg_cmd := IKCP_CMD_PUSH |>
                 <| seg_wnd := wnd |> <| seg_ts := current kcp |>
                 <| seg_sn := snd_nxt kcp |> <| seg_una := rcv_nxt kcp |>
                 <| seg_resendts := current kcp |> <| seg_rto := u32 (rx_rto kcp) |>
                 <| seg_fastack := 0 |> <| seg_xmit := 0 |> in
        flush_move w wnd queue
          (kcp <| snd_queue := queue |> <| snd_buf := snd_buf kcp ++ [newseg] |>
               <| nsnd_que := u32 (nsnd_que kcp - 1) |>
               <| nsnd_buf := u32 (nsnd_buf kcp + 1) |>
               <| snd_nxt := u32 (snd_nxt kcp + 1) |>)
      else kcp
  end.

(** ** Data segments *)

(** What the loop over [snd_buf] carries: the control block, the buffer, the
    datagrams and the two flags. *)
Record fstate := mkF {
  f_kcp : ikcpcb; f_ptr : list byte; f_out : list (list byte);
  f_change : Z; f_lost : bool
}.

#[export] Hint Extern 1 (Update (R := fstate) ?p) =>
  derive_update (fun s => mkF (f_kcp s) (f_ptr s) (f_out s) (f_change s) (f_lost s)) p
  : typeclass_instances.

(** The three reasons to send a segment: first transmission, time-out, fast
    resend.  [None] when there is none. *)
Definition flush_decide (resent rtomin : Z) (segment : IKCPSEG) (s : fstate)
  : option (IKCPSEG * fstate) :=
  let kcp := f_kcp s in
  if seg_xmit segment =? 0 then
    let segment := segment <| seg_xmit := u32 (seg_xmit segment + 1) |>
                           <| seg_rto := u32 (rx_rto kcp) |> in
    Some (segment <| seg_resendts := u32 (current kcp + seg_rto segment + rtomin) |>, s)
  else if itimediff (current kcp) (seg_resendts segment) >=? 0 then
    let segment := segment <| seg_xmit := u32 (seg_xmit segment + 1) |> in
    let kcp := kcp <| xmit := u32 (xmit kcp + 1) |> in
    let segment :=
      if nodelay kcp =? 0
      then segment <| seg_rto := u32 (seg_rto segment + rx_rto kcp) |>
      else segment <| seg_rto := u32 (seg_rto segment + Z.quot (rx_rto kcp) 2) |> in
    Some (segment <| seg_resendts := u32 (current kcp + seg_rto segment) |>,
          s <| f_kcp := kcp |> <| f_lost := true |>)
  else if seg_fastack segment >=? resent then
    let segment := segment <| seg_xmit := u32 (seg_xmit segment + 1) |>
                           <| seg_fastack := 0 |> in
    Some (segment <| seg_resendts := u32 (current kcp + seg_rto segment) |>,
          s <| f_change := i32 (f_change s + 1) |>)
  else None.

(** The block [if (needsend)]. *)
Definition flush_emit (wnd : Z) (segment : IKCPSEG) (s : fstate)
  : run (IKCPSEG * fstate) :=
  let kcp := f_kcp s in
  let segment := segment <| seg_ts := current kcp |> <| seg_wnd := wnd |>
                         <| seg_una := rcv_nxt kcp |> in
  let size := i32 (zlen (f_ptr s)) in
  let need := i32 (u32 (IKCP_OVERHEAD + seg_len segment)) in
  s ←
    (if i32 (size + need) >? i32 (mtu kcp) then
       o ← ikcp_output kcp (f_ptr s);
       Ok (s <| f_out := f_out s ++ o |> <| f_ptr := [] |>)
     else Ok s);
  let ptr := ikcp_encode_seg (f_ptr s) segment in
  ptr ←
    (if seg_len segment >? 0 then
       if bool_decide (seg_len segment <= zlen (seg_data segment))
       then Ok (ptr ++ take (Z.to_nat (seg_len segment)) (seg_data segment))
       else Undef
     else Ok ptr);
  let s := s <| f_ptr := ptr |> in
  Ok (segment,
      if seg_xmit segment >=? dead_link kcp
      then s <| f_kcp := kcp <| state := u32 (-1) |> |> else s).

Fixpoint flush_data (resent rtomin wnd : Z) (buf : list IKCPSEG) (s : fstate)
  : run (list IKCPSEG * fstate) :=
  match buf with
  | [] => Ok ([], s)
  | segment :: buf =>
      '(segment, s) ←
        (match flush_decide resent rtomin segment s with
         | Some (segment, s) => flush_emit wnd segment s
         | None => Ok (segment, s)
         end);
      '(buf, s) ← flush_data resent rtomin wnd buf s;
      Ok (segment :: buf, s)
  end.

(** ** The congestion window after a flush *)

Definition flush_ssthresh (kcp : ikcpcb) (resent cwnd_used change : Z) (lost : bool)
  : ikcpcb :=
  let raise kcp := if ssthresh kcp <? IKCP_THRESH_MIN
                   then kcp <| ssthresh := IKCP_THRESH_MIN |> else kcp in
  let kcp :=
    if negb (change =? 0) then
      let inflight := u32 (snd_nxt kcp - snd_una kcp) in
      let kcp := raise (kcp <| ssthresh := inflight / 2 |>) in
      let kcp := kcp <| cwnd := u32 (ssthresh kcp + resent) |> in
      kcp <| incr := u32 (cwnd kcp * mss kcp) |>
    else kcp in
  let kcp :=
    if lost then
      let kcp := raise (kcp <| ssthresh := cwnd_used / 2 |>) in
      kcp <| cwnd := 1 |> <| incr := mss kcp |>
    else kcp in
  if cwnd kcp <? 1 then kcp <| cwnd := 1 |> <| incr := mss kcp |> else kcp.

(** ** ikcp_flush *)

(** The local [seg] as initialised for acknowledgements; [raw] is its
    indeterminate content before. *)
Definition flush_seg (raw : IKCPSEG) (kcp : ikcpcb) : IKCPSEG :=
  raw <| seg_conv := conv kcp |> <| seg_cmd := IKCP_CMD_ACK |> <| seg_frg := 0 |>
      <| seg_wnd := u32 (ikcp_wnd_unused kcp) |> <| seg_una := rcv_nxt kcp |>
      <| seg_len := 0 |> <| seg_sn := 0 |> <| seg_ts := 0 |>.

Definition flush_resent (kcp : ikcpcb) : Z :=
  if fastresend kcp >? 0 then u32 (fastresend kcp) else 4294967295.

Definition flush_rtomin (kcp : ikcpcb) : Z :=
  if nodelay kcp =? 0 then u32 (Z.shiftr (rx_rto kcp) 3) else 0.

(** The commands: acknowledgements, then the window probes. *)
Definition flush_commands (m : mem) (kcp : ikcpcb)
  : run (ikcpcb * IKCPSEG * list byte * list (list byte)) :=
  let seg := flush_seg (mem_seg m) kcp in
  '(seg, ptr, out) ← flush_acks kcp (Z.to_nat (i32 (ackcount kcp))) 0 seg [] [];
  let kcp := kcp <| ackcount := 0 |> in
  let kcp := flush_probe kcp in
  '(seg, ptr, out) ← flush_wnd_cmd kcp IKCP_ASK_SEND IKCP_CMD_WASK seg ptr out;
  '(seg, ptr, out) ← flush_wnd_cmd kcp IKCP_ASK_TELL IKCP_CMD_WINS seg ptr out;
  Ok (kcp <| probe := 0 |>, seg, ptr, out).

Definition ikcp_flush (m : mem) (kcp : ikcpcb) : run (ikcpcb * list (list byte)) :=
  if updated kcp =? 0 then Ok (kcp, [])
  else
    '(kcp, seg, ptr, out) ← flush_commands m kcp;
    let w := flush_cwnd kcp in
    let kcp := flush_move w (seg_wnd seg) (snd_queue kcp) kcp in
    let resent := flush_resent kcp in
    let rtomin := flush_rtomin kcp in
    '(buf, s) ← flush_data resent rtomin (seg_wnd seg) (snd_buf kcp)
                  (mkF kcp ptr out 0 false);
    let kcp := (f_kcp s) <| snd_buf := buf |> in
    out ←
      (if i32 (zlen (f_ptr s)) >? 0 then
         o ← ikcp_output kcp (f_ptr s); Ok (f_out s ++ o)
       else Ok (f_out s));
    Ok (flush_ssthresh kcp resent w (f_change s) (f_lost s), out).

(** ** ikcp_update *)

Definition ikcp_update (m : mem) (kcp : ikcpcb) (current' : Z)
  : run (ikcpcb * list (list byte)) :=
  let kcp := kcp <| current := current' |> in
  let kcp :=
    if updated kcp =? 0
    then kcp <| updated := 1 |> <| ts_flush := current kcp |> else kcp in
  let slap := itimediff (current kcp) (ts_flush kcp) in
  let '(kcp, slap) :=
    if (slap >=? 10000) || (slap <? -10000)
    then (kcp <| ts_flush := current kcp |>, 0) else (kcp, slap) in
  if slap >=? 0 then
    let kcp := kcp <| ts_flush := u32 (ts_flush kcp + interval kcp) |> in
    let kcp :=
      if itimediff (current kcp) (ts_flush kcp) >=? 0
      then kcp <| ts_flush := u32 (current kcp + interval kcp) |> else kcp in
    ikcp_flush m kcp
  else Ok (kcp, []).

(** ** ikcp_check *)

(** The loop over [snd_buf]: [None] for [return current], otherwise
    [tm_packet]. *)
Fixpoint check_loop (current : Z) (buf : list IKCPSEG) (tm_packet : Z) : option Z :=
  match buf with
  | [] => Some tm_packet
  | seg :: buf =>
      let diff := itimediff (seg_resendts seg) current in
      if diff <=? 0 then None
      else check_loop current buf (if diff <? tm_packet then diff else tm_packet)
  end.

Definition ikcp_check (kcp : ikcpcb) (current : Z) : Z :=
  if updated kcp =? 0 then current
  else
    let ts := ts_flush kcp in
    let ts := if (itimediff current ts >=? 10000) || (itimediff current ts <? -10000)
              then current else ts in
    if itimediff current ts >=? 0 then current
    else
      let tm_flush := itimediff ts current in
      match check_loop current (snd_buf kcp) 2147483647 with
      | None => current
      | Some tm_packet =>
          let minimal := u32 (if tm_packet <? tm_flush then tm_packet else tm_flush) in
          let minimal := if minimal >=? interval kcp then interval kcp else minimal in
          u32 (current + minimal)
      end.
