(* ===== verification/KcpWire.v ===== *)
(** * The wire format: round trip

    A segment written by [ikcp_encode_seg] and its data is read back by the
    header reads of [ikcp_input]. *)

From S2P Require Import Prelude Codec KcpState KcpInput KcpFlush.

(** The bytes a flush appends to a datagram for one segment. *)
Definition wire (s : IKCPSEG) : list byte :=
  ikcp_encode_seg [] s ++ take (Z.to_nat (seg_len s)) (seg_data s).

(** What the receiver reads: each field truncated to its width on the wire. *)
Definition header_of (s : IKCPSEG) : header :=
  mkHeader (u32 (seg_conv s)) (u8 (seg_cmd s)) (u8 (seg_frg s)) (u16 (seg_wnd s))
    (u32 (seg_ts s)) (u32 (seg_sn s)) (u32 (seg_una s)) (u32 (seg_len s)).

Lemma u8_u8 z : u8 (u8 z) = u8 z.
Proof. apply u8_small, u8_range. Qed.

Lemma u16_u16 z : u16 (u16 z) = u16 z.
Proof. apply u16_small, u16_range. Qed.

Lemma encode_seg_app ptr s : ikcp_encode_seg ptr s = ptr ++ ikcp_encode_seg [] s.
Proof.
  unfold ikcp_encode_seg, ikcp_encode32u, ikcp_encode16u, ikcp_encode8u.
  by rewrite <- !app_assoc.
Qed.

Lemma length_encode_seg s : length (ikcp_encode_seg [] s) = 24%nat.
Proof.
  unfold ikcp_encode_seg, ikcp_encode32u, ikcp_encode16u, ikcp_encode8u.
  by rewrite !length_app, !length_store_le.
Qed.

Lemma zlen_wire s : seg_len s = zlen (seg_data s) -> zlen (wire s) = IKCP_OVERHEAD + seg_len s.
Proof.
  intros H. unfold wire. rewrite Z_length_app, length_encode_seg, H, take_Z_length.
  unfold IKCP_OVERHEAD. lia.
Qed.

(** A header survives the wire. *)
Lemma decode_encode_seg s rest :
  exists tail, ikcp_decode32u (ikcp_encode_seg [] s ++ rest) = Ok (u32 (seg_conv s), tail) /\
    length tail = (20 + length rest)%nat /\
    decode_tail (u32 (seg_conv s)) tail = Ok (header_of s, rest).
Proof.
  unfold ikcp_encode_seg, ikcp_encode32u, ikcp_encode16u, ikcp_encode8u.
  rewrite <- !app_assoc. cbn [app].
  eexists. split; [apply ikcp_decode32u_app|].
  split; [cbn [length]; rewrite !length_app, !length_store_le; lia|].
  unfold decode_tail.
  do 2 (rewrite ikcp_decode8u_cons; cbn [mbind run_bind]).
  rewrite ikcp_decode16u_app. cbn [mbind run_bind].
  do 4 (rewrite ikcp_decode32u_app; cbn [mbind run_bind]).
  by rewrite !u8_u8, u16_u16.
Qed.

(** Reading a header never leaves a packet of at least 24 bytes. *)
Lemma decode_header_total data :
  (24 <= length data)%nat ->
  exists c tail h rest, ikcp_decode32u data = Ok (c, tail) /\
    decode_tail c tail = Ok (h, rest) /\ length data = (24 + length rest)%nat /\
    0 <= h_len h < 4294967296 /\ 0 <= h_wnd h < 65536 /\ 0 <= h_frg h < 256 /\
    0 <= h_sn h < 4294967296.
Proof.
  intros Hlen. unfold ikcp_decode32u at 1. rewrite fetch_total by lia.
  cbn [mbind run_bind mret run_ret].
  unfold decode_tail, ikcp_decode8u, ikcp_decode16u, ikcp_decode32u.
  assert (Hr : forall n (p : list byte), (n <= length p)%nat ->
    0 <= load_le (take n p) < 256 ^ Z.of_nat n).
  { intros n p Hp. pose proof (load_le_range (take n p)) as Hl.
    by rewrite length_take_le in Hl by done. }
  do 4 eexists. split; [reflexivity|]. cbv beta.
  repeat (rewrite fetch_total by (rewrite ?length_drop; lia); cbn [mbind run_bind mret run_ret]).
  split; [reflexivity|]. cbn [h_len h_wnd h_frg h_sn].
  split; [rewrite !length_drop; lia|].
  split; [apply (Hr 4%nat); rewrite !length_drop; lia|].
  split; [apply (Hr 2%nat); rewrite !length_drop; lia|].
  split; [apply (Hr 1%nat); rewrite !length_drop; lia|].
  apply (Hr 4%nat); rewrite !length_drop; lia.
Qed.
