(* ===== verification/KcpFrames.v ===== *)
(** * What each step of KCP leaves alone

    The frame lemmas shared by the invariants: for every step of input and
    flush, the parts of the control block it does not write. *)

From S2P Require Import Prelude Codec KcpState KcpAck KcpRecv KcpSend KcpInput KcpFlush.

(** Splits every test a step makes and closes the cases by computation. *)
Ltac frame_cases :=
  repeat first
    [ progress cbn zeta
    | match goal with
      | |- context [if ?b then _ else _] =>
          lazymatch type of b with bool => destruct b end
      end ];
  done.

Lemma update_ack_frame k rtt :
  snd_part (ikcp_update_ack k rtt) = snd_part k /\
  rcv_part (ikcp_update_ack k rtt) = rcv_part k /\
  ack_part (ikcp_update_ack k rtt) = ack_part k /\
  cfg_part (ikcp_update_ack k rtt) = cfg_part k /\
  snd_una (ikcp_update_ack k rtt) = snd_una k /\
  rmt_wnd (ikcp_update_ack k rtt) = rmt_wnd k /\ cwnd (ikcp_update_ack k rtt) = cwnd k.
Proof. unfold ikcp_update_ack. split_and!; frame_cases. Qed.

Lemma shrink_buf_frame k :
  snd_part (ikcp_shrink_buf k) = snd_part k /\
  rcv_part (ikcp_shrink_buf k) = rcv_part k /\
  ack_part (ikcp_shrink_buf k) = ack_part k /\
  cfg_part (ikcp_shrink_buf k) = cfg_part k /\
  rmt_wnd (ikcp_shrink_buf k) = rmt_wnd k /\ rx_rto (ikcp_shrink_buf k) = rx_rto k /\
  cwnd (ikcp_shrink_buf k) = cwnd k.
Proof. unfold ikcp_shrink_buf. destruct (snd_buf k) eqn:E; by rewrite <- ?E. Qed.

Lemma ack_push_same m k sn ts k' :
  ikcp_ack_push m k sn ts = Ok k' -> same_but_acks k k'.
Proof.
  unfold ikcp_ack_push. intros H. apply run_bind_Ok in H as (k1 & Hk1 & H).
  assert (same_but_acks k k1) as Hs.
  { case_if_in Hk1.
    - case_if_in Hk1; [done|]. inv_run. reflexivity.
    - inv_run. unfold same_but_acks. by destruct k. }
  destruct (acklist k1); [|done]. inv_run.
  unfold same_but_acks in *. cbn. rewrite Hs. reflexivity.
Qed.

Lemma same_but_acks_frame k k' :
  same_but_acks k k' ->
  snd_part k' = snd_part k /\ rcv_part k' = rcv_part k /\ cfg_part k' = cfg_part k /\
  clk_part k' = clk_part k.
Proof. unfold same_but_acks. intros ->. done. Qed.

Lemma input_cwnd_frame k una k' :
  input_cwnd k una = Ok k' ->
  snd_part k' = snd_part k /\ rcv_part k' = rcv_part k /\ ack_part k' = ack_part k /\
  cfg_part k' = cfg_part k /\ snd_una k' = snd_una k /\ rmt_wnd k' = rmt_wnd k /\
  rx_rto k' = rx_rto k.
Proof.
  unfold input_cwnd. intros H.
  repeat (first [case_if_in H | progress inv_run]); cbn zeta in *; inv_run;
    repeat match goal with |- context [if ?b then _ else _] => destruct b end; try done.
Qed.

Lemma flush_probe_frame k :
  snd_part (flush_probe k) = snd_part k /\ rcv_part (flush_probe k) = rcv_part k /\
  ack_part (flush_probe k) = ack_part k /\ cfg_part (flush_probe k) = cfg_part k /\
  snd_una (flush_probe k) = snd_una k /\ rmt_wnd (flush_probe k) = rmt_wnd k /\
  rx_rto (flush_probe k) = rx_rto k /\ current (flush_probe k) = current k /\
  updated (flush_probe k) = updated k /\ cwnd (flush_probe k) = cwnd k.
Proof. unfold flush_probe. split_and!; frame_cases. Qed.

Lemma flush_ssthresh_frame k r w c l :
  snd_part (flush_ssthresh k r w c l) = snd_part k /\
  rcv_part (flush_ssthresh k r w c l) = rcv_part k /\
  ack_part (flush_ssthresh k r w c l) = ack_part k /\
  cfg_part (flush_ssthresh k r w c l) = cfg_part k /\
  snd_una (flush_ssthresh k r w c l) = snd_una k /\
  rmt_wnd (flush_ssthresh k r w c l) = rmt_wnd k /\
  rx_rto (flush_ssthresh k r w c l) = rx_rto k /\
  state (flush_ssthresh k r w c l) = state k.
Proof. unfold flush_ssthresh. split_and!; frame_cases. Qed.

Lemma flush_move_frame w wnd q k :
  rcv_part (flush_move w wnd q k) = rcv_part k /\
  ack_part (flush_move w wnd q k) = ack_part k /\
  cfg_part (flush_move w wnd q k) = cfg_part k /\
  clk_part (flush_move w wnd q k) = clk_part k.
Proof.
  revert k. induction q as [|s q IH]; intros k; cbn [flush_move]; [done|].
  case_if; [|done]. cbn zeta.
  match goal with |- context [flush_move w wnd q ?x] => destruct (IH x) as (-> & -> & -> & ->) end.
  done.
Qed.

(** The data loop of a flush writes only [xmit] and [state] of the control
    block. *)
Definition same_but_xmit (k k' : ikcpcb) : Prop :=
  k' = k <| xmit := xmit k' |> <| state := state k' |>.

Lemma same_but_xmit_refl k : same_but_xmit k k.
Proof. by destruct k. Qed.

Lemma same_but_xmit_trans k1 k2 k3 :
  same_but_xmit k1 k2 -> same_but_xmit k2 k3 -> same_but_xmit k1 k3.
Proof. unfold same_but_xmit. intros H1 H2. rewrite H2, H1. reflexivity. Qed.

Lemma same_but_xmit_frame k k' :
  same_but_xmit k k' ->
  snd_part k' = snd_part k /\ rcv_part k' = rcv_part k /\ ack_part k' = ack_part k /\
  cfg_part k' = cfg_part k /\ snd_una k' = snd_una k /\ current k' = current k /\
  rmt_wnd k' = rmt_wnd k /\ rx_rto k' = rx_rto k /\ cwnd k' = cwnd k /\
  updated k' = updated k.
Proof. unfold same_but_xmit. intros ->. done. Qed.

Lemma flush_decide_frame r m seg s seg' s' :
  flush_decide r m seg s = Some (seg', s') ->
  same_but_xmit (f_kcp s) (f_kcp s') /\ f_ptr s' = f_ptr s /\ f_out s' = f_out s /\
  seg_sn seg' = seg_sn seg /\ seg_frg seg' = seg_frg seg /\ seg_len seg' = seg_len seg /\
  seg_data seg' = seg_data seg /\ seg_cmd seg' = seg_cmd seg /\ seg_conv seg' = seg_conv seg.
Proof.
  unfold flush_decide. intros H.
  repeat (case_if_in H; cbn zeta in H); try done;
    injection H as <- <-; cbn; (split; [|done]); unfold same_but_xmit;
    try (by destruct (f_kcp s)); try reflexivity;
    destruct (nodelay _ =? 0); split_and!; reflexivity.
Qed.

Lemma input_ack_frame k h :
  ack_part (input_ack k h) = ack_part k /\ conv (input_ack k h) = conv k.
Proof.
  unfold input_ack. set (k1 := if (_ : bool) then _ else k).
  assert (ack_part k1 = ack_part k /\ conv k1 = conv k) as [<- <-].
  { subst k1. case_if; [|done].
    destruct (update_ack_frame k (itimediff (current k) (h_ts h))) as (_ & _ & ? & Hc & _).
    unfold cfg_part in Hc. by injection Hc. }
  clearbody k1. destruct (shrink_buf_frame (ikcp_parse_ack k1 (h_sn h))) as (_ & _ & -> & Hc & _).
  unfold cfg_part in Hc. injection Hc as -> _.
  unfold ikcp_parse_ack. case_if; [done|]. destruct (ack_loop _ _) as [b f]. by destruct f.
Qed.

Lemma parse_ack_frame k sn :
  rcv_part (ikcp_parse_ack k sn) = rcv_part k /\ cfg_part (ikcp_parse_ack k sn) = cfg_part k.
Proof.
  unfold ikcp_parse_ack. case_if; [done|]. destruct (ack_loop _ _) as [b f]. by destruct f.
Qed.

Lemma parse_una_frame k una :
  rcv_part (ikcp_parse_una k una) = rcv_part k /\ cfg_part (ikcp_parse_una k una) = cfg_part k.
Proof.
  unfold ikcp_parse_una.
  by destruct (una_loop_spec una (snd_buf k) k eq_refl) as (? & ? & _ & -> & _).
Qed.

Lemma parse_data_frame k s :
  snd_part (ikcp_parse_data k s) = snd_part k /\
  ack_part (ikcp_parse_data k s) = ack_part k /\
  cfg_part (ikcp_parse_data k s) = cfg_part k /\
  clk_part (ikcp_parse_data k s) = clk_part k.
Proof.
  unfold ikcp_parse_data. case_if; [done|]. unfold move_avail.
  match goal with |- context [move_loop ?b ?x] =>
    destruct (move_loop_frame b x) as (-> & -> & -> & ->) end.
  by destruct (insert_rev _ _).
Qed.

(** ikcp_input never touches the configuration. *)
Lemma input_seg_cfg m k h data k' : input_seg m k h data = Ok k' -> cfg_part k' = cfg_part k.
Proof.
  intros H. unfold input_seg in H. cbv zeta in H.
  match type of H with context [ikcp_shrink_buf (ikcp_parse_una ?x ?u)] =>
    destruct (shrink_buf_frame (ikcp_parse_una x u)) as (_ & _ & _ & H1 & _);
    destruct (parse_una_frame x u) as [_ H2] end.
  rewrite H2 in H1. clear H2. set (k1 := ikcp_shrink_buf _) in *. clearbody k1.
  change (cfg_part (k <| rmt_wnd := h_wnd h |>)) with (cfg_part k) in H1. rewrite <- H1. clear H1.
  repeat case_if_in H; try (by apply Ok_inj in H as ->).
  - apply Ok_inj in H as ->. unfold input_ack.
    set (k2 := if (_ : bool) then _ else k1).
    destruct (shrink_buf_frame (ikcp_parse_ack k2 (h_sn h))) as (_ & _ & _ & -> & _).
    destruct (parse_ack_frame k2 (h_sn h)) as [_ ->]. subst k2. case_if; [|done].
    by destruct (update_ack_frame k1 (itimediff (current k1) (h_ts h))) as (_ & _ & _ & -> & _).
  - unfold input_push in H. case_if_in H; [|by apply Ok_inj in H as ->].
    apply run_bind_Ok in H as (k2 & Hp & H).
    apply ack_push_same, same_but_acks_frame in Hp as (_ & _ & <- & _).
    case_if_in H; [|by apply Ok_inj in H as ->].
    destruct (ikcp_segment_new m (h_len h)) as [raw|]; [|done].
    apply run_bind_Ok in H as (u & _ & H). apply Ok_inj in H as ->.
    apply parse_data_frame.
Qed.

Lemma input_loop_cfg m fuel k data size k' ret :
  input_loop m fuel k data size = Ok (k', ret) -> cfg_part k' = cfg_part k.
Proof.
  revert k data size. induction fuel as [|fuel IH]; intros k data size Hl; [done|].
  cbn [input_loop] in Hl. case_if_in Hl; [by injection Hl as <- _|].
  apply run_bind_Ok in Hl as ([c t] & _ & Hl). case_if_in Hl; [by injection Hl as <- _|].
  apply run_bind_Ok in Hl as ([h t2] & _ & Hl). case_if_in Hl; [by injection Hl as <- _|].
  case_if_in Hl; [by injection Hl as <- _|].
  apply run_bind_Ok in Hl as (k2 & Hs & Hl). rewrite (IH _ _ _ Hl). by eapply input_seg_cfg.
Qed.

Lemma input_cfg m k data size k' r :
  ikcp_input m k data size = Ok (k', r) -> cfg_part k' = cfg_part k.
Proof.
  intros H. unfold ikcp_input in H. destruct data as [data|]; [|by injection H as <- _].
  case_if_in H; [by injection H as <- _|].
  apply run_bind_Ok in H as ([k1 ret] & Hl & H).
  apply input_loop_cfg in Hl.
  destruct ret; [by injection H as <- _|].
  apply run_bind_Ok in H as (k2 & Hc & H). injection H as <- _.
  apply input_cwnd_frame in Hc as (_ & _ & _ & -> & _). done.
Qed.

Lemma flush_probe_ts k : ts_flush (flush_probe k) = ts_flush k.
Proof. unfold flush_probe. frame_cases. Qed.

Lemma flush_ssthresh_clock k r w c l :
  current (flush_ssthresh k r w c l) = current k /\ updated (flush_ssthresh k r w c l) = updated k /\
  ts_flush (flush_ssthresh k r w c l) = ts_flush k.
Proof. unfold flush_ssthresh. split_and!; frame_cases. Qed.

(** The fields of the update clock. *)
Definition clock (k : ikcpcb) := (current k, updated k, ts_flush k, interval k).

Lemma clk_part_clock k k' : clk_part k' = clk_part k -> cfg_part k' = cfg_part k -> clock k' = clock k.
Proof.
  unfold clk_part, cfg_part, clock. intros [= _ -> -> -> _ _ _ _ _ _ _ _ _ _] [= _ _ _ _ _ _ _ _ -> _ _ _ _]. done.
Qed.

Lemma cfg_part_conv k k' : cfg_part k' = cfg_part k -> conv k' = conv k.
Proof. unfold cfg_part. by intros [= -> _ _ _ _ _ _ _ _ _ _ _ _]. Qed.

Lemma cfg_part_interval k k' : cfg_part k' = cfg_part k -> interval k' = interval k.
Proof. unfold cfg_part. by intros [= _ _ _ _ _ _ _ _ -> _ _ _ _]. Qed.

Lemma send_ackcount m k data len k' r :
  ikcp_send m k data len = Ok (k', r) -> ackcount k' = ackcount k.
Proof.
  unfold ikcp_send. intros H. apply run_bind_Ok in H as (u & _ & H).
  case_if_in H; [by injection H as <- _|]. case_if_in H; [by injection H as <- _|].
  clear Heqb Heqb0. revert H. generalize (Z.to_nat (if send_count len (mss k) =? 0 then 1 else send_count len (mss k))) as n.
  intros n. revert k data len. induction n as [|n IH]; intros k data len H; cbn [send_loop] in H.
  - by injection H as <- _.
  - destruct (ikcp_segment_new _ _); [|done]. apply run_bind_Ok in H as (s & _ & H).
    by apply IH in H.
Qed.
