(* ===== verification/KcpTransfer.v ===== *)
(** * Reliable, ordered delivery

    Two control blocks connected by a network that may lose, duplicate, delay
    and reorder datagrams, but not forge them.  The messages an endpoint's
    [ikcp_recv] hands out are a prefix of the messages its peer passed to
    [ikcp_send]: no message is lost in between, duplicated, reordered or
    altered.  The proof tracks the log of all fragments ever queued by the
    sender; segments, datagrams and the receiver's queues only carry entries of
    that log under their own number. *)

From S2P Require Import Prelude Codec KcpState KcpAck KcpRecv KcpSend KcpInput KcpFlush KcpWire KcpFrames.

(** ** The log of fragments *)

(** [s] carries the log entry its sequence number names. *)
Definition carries (log : list frag) (s : IKCPSEG) : Prop :=
  0 <= seg_sn s /\ log !! Z.to_nat (seg_sn s) = Some (frag_of s) /\
  seg_len s = zlen (seg_data s).

Definition log_ok (log : list frag) : Prop :=
  zlen log < 4294967296 /\
  Forall (fun f => 0 <= f.1 < 255 /\ zlen f.2 < 2147483648) log.

(** The sender: [snd_nxt] entries of the log were numbered, the rest is still
    in [snd_queue]. *)
Record snd_inv (log : list frag) (k : ikcpcb) : Prop := {
  si_nxt : 0 <= snd_nxt k <= zlen log;
  si_queue : frag_of <$> snd_queue k = drop (Z.to_nat (snd_nxt k)) log;
  si_sized : Forall (fun s => seg_len s = zlen (seg_data s)) (snd_queue k);
  si_buf : Forall (fun s => carries log s /\ seg_cmd s = IKCP_CMD_PUSH) (snd_buf k);
  si_nque : u32 (nsnd_que k) = nsnd_que k
}.

(** The receiver: [d] entries were handed out, those up to [rcv_nxt] are in
    [rcv_queue]. *)
Record rcv_inv (log : list frag) (d : nat) (k : ikcpcb) : Prop := {
  ri_nxt : Z.of_nat d <= rcv_nxt k <= zlen log;
  ri_queue : frag_of <$> rcv_queue k = take (Z.to_nat (rcv_nxt k) - d) (drop d log);
  ri_sized : Forall seg_sized (rcv_queue k);
  ri_buf : Forall (carries log) (rcv_buf k);
  ri_nque : nrcv_que k = zlen (rcv_queue k)
}.

Definition cfg_inv (k : ikcpcb) : Prop :=
  0 < mss k < 2147483648 /\ 0 <= rcv_wnd k < 2147483648.

Lemma snd_inv_ext log k k' : snd_part k' = snd_part k -> snd_inv log k -> snd_inv log k'.
Proof.
  unfold snd_part. intros [= H1 H2 H3 H4 _] [? ? ? ? ?].
  constructor; congruence.
Qed.

Lemma rcv_inv_ext log d k k' :
  rcv_part k' = rcv_part k -> rcv_inv log d k -> rcv_inv log d k'.
Proof.
  unfold rcv_part. intros [= H1 H2 H3 H4 _] [? ? ? ? ?].
  constructor; congruence.
Qed.

Lemma cfg_inv_ext k k' : cfg_part k' = cfg_part k -> cfg_inv k -> cfg_inv k'.
Proof. unfold cfg_part, cfg_inv. intros [= ]. intros. split; congruence || lia. Qed.

Lemma carries_mono log log' s : carries log s -> carries (log ++ log') s.
Proof.
  intros (H1 & H2 & H3). split_and!; auto. by apply lookup_app_l_Some.
Qed.

Lemma carries_lt log s : carries log s -> 0 <= seg_sn s < zlen log.
Proof. intros (H1 & H2 & H3). apply lookup_lt_Some in H2. lia. Qed.

Lemma carries_frag log s : log_ok log -> carries log s ->
  0 <= seg_frg s < 255 /\ zlen (seg_data s) < 2147483648.
Proof.
  intros [_ Hl] (_ & H & _). rewrite Forall_lookup in Hl.
  specialize (Hl _ _ H). done.
Qed.

Lemma carries_sized log s : log_ok log -> carries log s -> seg_sized s.
Proof.
  intros Hl Hc. pose proof (carries_frag _ _ Hl Hc). destruct Hc as (_ & _ & Hc).
  split_and!; auto; lia.
Qed.

(** ** Datagrams *)

Definition wire_ok (log : list frag) (s : IKCPSEG) : Prop :=
  (seg_cmd s = IKCP_CMD_PUSH /\ carries log s) \/
  ((seg_cmd s = IKCP_CMD_ACK \/ seg_cmd s = IKCP_CMD_WASK \/ seg_cmd s = IKCP_CMD_WINS)
   /\ seg_len s = 0).

(** A datagram of the sender of [log]: encoded segments back to back. *)
Definition packet_ok (log : list frag) (p : list byte) : Prop :=
  exists segs, Forall (wire_ok log) segs /\ p = concat (wire <$> segs).

Lemma packet_ok_nil log : packet_ok log [].
Proof. by exists []. Qed.

Lemma packet_ok_snoc log p s : packet_ok log p -> wire_ok log s -> packet_ok log (p ++ wire s).
Proof.
  intros (segs & Hs & ->) Hw. exists (segs ++ [s]). split.
  - apply Forall_app; auto.
  - rewrite fmap_app, concat_app. cbn. by rewrite app_nil_r.
Qed.

Lemma packet_ok_mono log log' p : packet_ok log p -> packet_ok (log ++ log') p.
Proof.
  intros (segs & Hs & ->). exists segs. split; [|done].
  eapply Forall_impl; [|exact Hs]. intros s [[? ?]|?]; [left|by right].
  split; [done|by apply carries_mono].
Qed.

Lemma ikcp_output_ok k p o P :
  ikcp_output k p = Ok o -> P p -> Forall P o.
Proof.
  unfold ikcp_output. intros H Hp. inv_run. case_if_in H; inv_run; auto.
Qed.

(** ** The receiver *)

(** Consecutive carried segments are consecutive log entries. *)
Lemma carried_run log pre n :
  zlen log < 4294967296 -> 0 <= n <= zlen log -> Forall (carries log) pre ->
  (forall i s, pre !! i = Some s -> seg_sn s = u32 (n + Z.of_nat i)) ->
  n + zlen pre <= zlen log /\ frag_of <$> pre = take (length pre) (drop (Z.to_nat n) log).
Proof.
  intros Hlog. revert n. induction pre as [|s pre IH]; intros n Hn Hc Hi.
  - cbn. split; [lia|done].
  - apply Forall_cons_1 in Hc as [Hs Hc].
    pose proof (Hi 0%nat s eq_refl) as Hsn. rewrite Z.add_0_r, u32_small in Hsn by lia.
    pose proof (carries_lt _ _ Hs) as Hlt.
    destruct (IH (n + 1)) as [H1 H2]; [lia|done| |].
    { intros i t Ht. rewrite (Hi (S i) t Ht). f_equal. lia. }
    rewrite fmap_cons. cbn [length]. split; [lia|].
    destruct Hs as (_ & Hlk & _). rewrite Hsn in Hlk.
    erewrite drop_S by exact Hlk. cbn [take]. f_equal.
    rewrite H2. by replace (Z.to_nat (n + 1)) with (S (Z.to_nat n)) by lia.
Qed.

Lemma move_avail_inv log d k :
  log_ok log -> cfg_inv k -> rcv_inv log d k -> rcv_inv log d (move_avail k).
Proof.
  intros Hl [Hmss Hw] [Hn Hq Hs Hb Hnq]. destruct Hl as [Hlen Hfr] eqn:El. clear El.
  unfold move_avail.
  destruct (move_loop_spec (rcv_buf k) k) as (pre & H1 & H2 & H3 & H4 & H5 & _);
    [done|apply u32_small; lia|lia|lia|].
  assert (Forall (carries log) pre) as Hpre.
  { rewrite H1 in Hb. apply Forall_app in Hb as [? ?]. done. }
  destruct (carried_run log pre (rcv_nxt k)) as [Hle Hpf]; [done|lia|done..|].
  rewrite (u32_small (rcv_nxt k + zlen pre)) in H4 by lia.
  constructor.
  - rewrite H4. lia.
  - rewrite H2, H4, fmap_app, Hq, Hpf.
    replace (Z.to_nat (rcv_nxt k + zlen pre) - d)%nat
      with ((Z.to_nat (rcv_nxt k) - d) + length pre)%nat by lia.
    rewrite <- take_take_drop, drop_drop. do 3 f_equal. lia.
  - rewrite H2. apply Forall_app. split; [done|].
    eapply Forall_impl; [|exact Hpre]. intros s. by apply carries_sized.
  - rewrite H1 in Hb. apply Forall_app in Hb as [? ?]. done.
  - rewrite H5, H2, Z_length_app. lia.
Qed.

Lemma parse_data_inv log d k s :
  log_ok log -> cfg_inv k -> carries log s ->
  rcv_inv log d k -> rcv_inv log d (ikcp_parse_data k s).
Proof.
  intros Hl Hc Hs Hi. unfold ikcp_parse_data. case_if; [done|].
  apply move_avail_inv; [done| |].
  - by destruct (insert_rev _ _).
  - destruct (insert_rev s (rev (rcv_buf k))) as [l|] eqn:E; [|done].
    destruct Hi as [? ? ? Hb ?]. constructor; auto. cbn.
    apply insert_rev_Some in E as (a & b & Hab & -> & _).
    apply Forall_rev. rewrite <- (rev_involutive (rcv_buf k)), Hab in Hb.
    apply Forall_rev in Hb. rewrite rev_involutive in Hb.
    apply Forall_app in Hb as [? ?]. apply Forall_app. auto.
Qed.

(** ** Messages in the log *)

(** [fs] are the fragments of message [msg]. *)
Definition is_group (msg : list byte) (fs : list frag) : Prop :=
  fs <> [] /\ (length fs <= 255)%nat /\ frg_down fs /\ frag_bytes fs = msg /\
  zlen msg < 2147483648.

(** The receiver has handed out the first [j] messages. *)
Definition handed (gs : list (list frag)) (j : nat) : nat := length (concat (take j gs)).

Lemma handed_S gs j g : gs !! j = Some g -> handed gs (S j) = (handed gs j + length g)%nat.
Proof.
  intros H. unfold handed. rewrite (take_S_r _ _ _ H), concat_app, length_app. cbn.
  by rewrite app_nil_r.
Qed.

Lemma drop_handed gs j : drop (handed gs j) (concat gs) = concat (drop j gs).
Proof.
  unfold handed. rewrite <- (take_drop j gs) at 2. rewrite concat_app.
  apply drop_app_length.
Qed.

(** A non-empty [rcv_queue] for which [ikcp_peeksize] announces a message
    starts with all its fragments. *)
Lemma queue_starts_with_group gs msgs j k g :
  Forall2 is_group msgs gs -> gs !! j = Some g ->
  rcv_inv (concat gs) (handed gs j) k ->
  rcv_queue k <> [] -> 0 <= ikcp_peeksize k ->
  exists q rest, rcv_queue k = q ++ rest /\ frag_of <$> q = g.
Proof.
  intros Hgs Hg [Hn Hq Hs Hb Hnq] Hne Hpk.
  destruct (Forall2_lookup_r _ _ _ _ _ Hgs Hg) as (msg & _ & Hgne & Hg255 & Hdown & _ & _).
  rewrite drop_handed in Hq. erewrite drop_S in Hq by exact Hg. cbn [concat] in Hq.
  set (n := (Z.to_nat (rcv_nxt k) - handed gs j)%nat) in *.
  assert (length g <= length (rcv_queue k))%nat as Hlen.
  { unfold ikcp_peeksize in Hpk.
    destruct (rcv_queue k) as [|s q] eqn:Eq; [done|]. destruct g as [|[f b] g]; [done|].
    cbn [frg_down] in Hdown. destruct Hdown as [Hf _].
    destruct n as [|n]; [done|]. cbn [app take fmap list_fmap] in Hq.
    injection Hq as Hf' Hd' Hq. rewrite Hf', Hf in Hpk.
    apply Forall_cons_1 in Hs as [(_ & _ & Hr) _].
    case_if_in Hpk; [cbn; lia|]. case_if_in Hpk; [lia|].
    cbn [length] in Hg255.
    match goal with H : context [u32 _] |- _ => rewrite u32_small in H by lia; rewrite Hnq in H end.
    cbn [length] in *. lia. }
  assert (length g <= n)%nat as Hgn.
  { apply (f_equal length) in Hq. rewrite length_fmap, length_take in Hq. lia. }
  exists (take (length g) (rcv_queue k)), (drop (length g) (rcv_queue k)).
  split; [by rewrite take_drop|].
  rewrite fmap_take, Hq, take_take, Nat.min_l by done. apply take_app_length.
Qed.

Lemma peeksize_nonneg k s q :
  rcv_queue k = s :: q -> seg_sized s -> 0 <= ikcp_peeksize k ->
  ikcp_peeksize k = peek_loop 0 (s :: q).
Proof.
  intros Hq Hs. unfold ikcp_peeksize. rewrite Hq. cbn [peek_loop]. rewrite Z.add_0_l.
  case_if; [done|]. case_if; [lia|done].
Qed.

(** Dropping the fragments of message [j] from the queue. *)
Lemma take_group_inv gs j k g q rest n :
  rcv_inv (concat gs) (handed gs j) k -> gs !! j = Some g ->
  rcv_queue k = q ++ rest -> frag_of <$> q = g -> n = zlen rest ->
  rcv_inv (concat gs) (handed gs (S j)) (k <| rcv_queue := rest |> <| nrcv_que := n |>).
Proof.
  intros [Hn Hq Hs Hb Hnq] Hg Hsp Hfr ->. pose proof (handed_S _ _ _ Hg) as HS.
  rewrite Hsp in Hq, Hs. rewrite fmap_app, Hfr in Hq.
  assert (length g <= Z.to_nat (rcv_nxt k) - handed gs j)%nat as Hle.
  { apply (f_equal length) in Hq. rewrite length_app, length_take in Hq. lia. }
  constructor; cbn.
  - lia.
  - rewrite HS. replace (Z.to_nat (rcv_nxt k) - (handed gs j + length g))%nat
      with ((Z.to_nat (rcv_nxt k) - handed gs j) - length g)%nat by lia.
    rewrite <- drop_drop, <- skipn_firstn_comm, <- Hq.
    by rewrite drop_app_length.
  - by apply Forall_app in Hs as [_ ?].
  - done.
  - done.
Qed.

Lemma recv_spec gs msgs j k len k' out r :
  Forall2 is_group msgs gs -> log_ok (concat gs) -> cfg_inv k ->
  rcv_inv (concat gs) (handed gs j) k ->
  ikcp_recv k true len = Ok (k', out, r) ->
  (k' = k /\ r < 0) \/
  (exists msg, msgs !! j = Some msg /\ out = msg /\ r = zlen msg /\
    rcv_inv (concat gs) (handed gs (if len <? 0 then j else S j)) k').
Proof.
  intros Hgs Hlog Hcfg Hinv. unfold ikcp_recv.
  destruct (rcv_queue k) as [|s0 q0] eqn:Eq; [intros [= <- <- <-]; left; split; [done|lia]|].
  set (pk := ikcp_peeksize k).
  destruct (pk <? 0) eqn:Hpk; zbool; [intros [= <- <- <-]; left; split; [done|lia]|].
  destruct (pk >? _) eqn:Hlen; [intros [= <- <- <-]; left; split; [done|lia]|].
  intros H. right.
  assert (exists g, gs !! j = Some g) as [g Hg].
  { destruct Hinv as [_ Hq _ _ _]. rewrite Eq, drop_handed in Hq.
    destruct (gs !! j) eqn:E; [eauto|]. apply lookup_ge_None in E.
    rewrite drop_ge in Hq by done. cbn [concat] in Hq. by rewrite take_nil in Hq. }
  destruct (Forall2_lookup_r _ _ _ _ _ Hgs Hg) as (msg & Hmsg & Hgne & _ & Hdown & Hby & Hml).
  destruct (queue_starts_with_group gs msgs j k g) as (q & rest & Hsp & Hfr);
    [done..|by rewrite Eq|done|].
  assert (Forall seg_sized q) as Hsz.
  { destruct Hinv as [_ _ Hs _ _]. rewrite Hsp in Hs. apply Forall_app in Hs as [? ?]. done. }
  assert (q <> []) as Hqne by (intros ->; by rewrite <- Hfr in Hgne).
  assert (seg_sized s0) as Hs0.
  { destruct Hinv as [_ _ Hs _ _]. rewrite Eq in Hs. by apply Forall_cons_1 in Hs as [? _]. }
  assert (pk = zlen msg) as Hpkv.
  { subst pk. rewrite (peeksize_nonneg k s0 q0) by done.
    rewrite <- Eq, Hsp, peek_loop_group by (rewrite ?Hfr; done).
    rewrite Hfr, Hby, Z.add_0_l, i32_small; lia. }
  rewrite <- Eq, Hsp, recv_merge_group in H by (rewrite ?Hfr; done).
  rewrite Hfr, Hby, Z.add_0_l, (i32_small (zlen msg)) in H by lia.
  rewrite Hpkv, Z.eqb_refl in H. cbn [c_assert mbind run_bind app] in H.
  exists msg. split; [done|].
  set (k1 := if len <? 0 then k else _) in H.
  assert (rcv_inv (concat gs) (handed gs (if len <? 0 then j else S j)) k1 /\ cfg_inv k1) as [Hk1 Hc1].
  { subst k1. destruct (len <? 0); [done|]. split; [|done].
    eapply take_group_inv; eauto.
    destruct Hinv as [Hrn Hq _ _ Hnq]. destruct Hlog as [Hll _].
    rewrite Hnq, Hsp, Z_length_app.
    apply (f_equal length) in Hq. rewrite Hsp, length_fmap, length_app, length_take in Hq.
    rewrite u32_small; lia. }
  clearbody k1. case_if_in H; inv_run; (split_and!; [done|done|]).
  - eapply rcv_inv_ext; [|by apply move_avail_inv]. done.
  - by apply move_avail_inv.
Qed.

(** The sending half and the configuration are not touched by ikcp_recv. *)
Lemma recv_frame k copy len k' out r :
  ikcp_recv k copy len = Ok (k', out, r) ->
  snd_part k' = snd_part k /\ cfg_part k' = cfg_part k.
Proof.
  unfold ikcp_recv. intros H. destruct (rcv_queue k) as [|s0 q0]; [by injection H as <- _ _|].
  case_if_in H; [by injection H as <- _ _|]. case_if_in H; [by injection H as <- _ _|].
  destruct (recv_merge _ _ _ _ _ _) as [[[o l] rest] n].
  apply run_bind_Ok in H as (u & _ & H). injection H as <- _ _.
  match goal with |- context [move_avail ?x] =>
    destruct (move_loop_frame (rcv_buf x) x) as (H1 & _ & H2 & _); fold (move_avail x) in H1, H2;
    set (k1 := move_avail x) in *; assert (snd_part x = snd_part k /\ cfg_part x = cfg_part k) as [H3 H4]
      by (by destruct (len <? 0)) end.
  rewrite <- H3, <- H4, <- H1, <- H2. clearbody k1. by case_if.
Qed.

Lemma recv_clk k copy len k' out r :
  ikcp_recv k copy len = Ok (k', out, r) ->
  ack_part k' = ack_part k /\ snd_una k' = snd_una k /\ rmt_wnd k' = rmt_wnd k /\
  rx_rto k' = rx_rto k /\ cwnd k' = cwnd k.
Proof.
  unfold ikcp_recv. intros H. destruct (rcv_queue k) as [|s0 q0]; [by injection H as <- _ _|].
  case_if_in H; [by injection H as <- _ _|]. case_if_in H; [by injection H as <- _ _|].
  destruct (recv_merge _ _ _ _ _ _) as [[[o l] rest] n].
  apply run_bind_Ok in H as (u & _ & H). injection H as <- _ _.
  match goal with |- context [move_avail ?x] =>
    destruct (move_loop_frame (rcv_buf x) x) as (_ & H1 & _ & H2); fold (move_avail x) in H1, H2;
    set (k1 := move_avail x) in *; assert (ack_part x = ack_part k /\ clk_part x = clk_part k) as [H3 H4]
      by (by destruct (len <? 0)) end.
  rewrite H3 in H1. rewrite H4 in H2. clearbody k1. unfold clk_part in H2.
  injection H2 as ? _ _ _ ? ? _ _ ? _ _ _ _ _. by case_if.
Qed.

(** A negative result of ikcp_recv comes without any effect. *)
Lemma recv_negative k len k' out r :
  ikcp_recv k true len = Ok (k', out, r) -> r < 0 -> k' = k.
Proof.
  unfold ikcp_recv. intros H Hr. destruct (rcv_queue k) as [|s0 q0]; [by injection H as <- _ _|].
  destruct (ikcp_peeksize k <? 0) eqn:E; [by injection H as <- _ _|]. zbool.
  case_if_in H; [by injection H as <- _ _|].
  destruct (recv_merge _ _ _ _ _ _) as [[[o l] rest] n].
  apply run_bind_Ok in H as (u & Hu & H). unfold c_assert in Hu.
  destruct (l =? ikcp_peeksize k) eqn:El; [|done]. zbool. injection H as _ _ <-. lia.
Qed.
