(* ===== verification/KcpTransferSteps.v ===== *)
(** * Reliable delivery: every operation keeps the log invariants

    For each entry point of src/util/ikcp.c that touches the queues, the lemma
    that it preserves [snd_inv], [rcv_inv] and [cfg_inv], and that the datagrams
    it outputs are well formed with respect to the sender's own log. *)

From S2P Require Import Prelude Codec KcpState KcpAck KcpRecv KcpSend KcpInput KcpFlush KcpWire KcpFrames KcpTransfer.

(** ** ikcp_send *)

Lemma fragments_frg_down n size b : frg_down (fragments n size b).
Proof.
  revert b. induction n as [|n IH]; intros b; cbn [fragments frg_down]; [done|].
  by rewrite length_fragments.
Qed.

Lemma fragments_log_ok n size b :
  (n <= 255)%nat -> zlen b < 2147483648 ->
  Forall (fun f => 0 <= f.1 < 255 /\ zlen f.2 < 2147483648) (fragments n size b).
Proof.
  revert b. induction n as [|n IH]; intros b Hn Hb; cbn [fragments]; constructor.
  - cbn. rewrite length_take. lia.
  - apply IH; [lia|]. rewrite length_drop. lia.
Qed.

(** The fragments of a message. *)
Definition group (mss : Z) (msg : list byte) : list frag :=
  fragments (Z.to_nat (send_count (zlen msg) mss)) (Z.to_nat mss) msg.

(** A message that is accepted is appended to the log as one group. *)
Lemma send_inv m k log b k' r :
  (forall z, mem_ok m z = true) -> cfg_inv k -> snd_inv log k -> zlen b < 2147483648 ->
  ikcp_send m k (Some b) (zlen b) = Ok (k', r) ->
  (k' = k /\ r < 0) \/
  (r = 0 /\ let g := group (mss k) b in is_group b g /\
     Forall (fun f => 0 <= f.1 < 255 /\ zlen f.2 < 2147483648) g /\
     snd_inv (log ++ g) k' /\ rcv_part k' = rcv_part k /\ cfg_part k' = cfg_part k).
Proof.
  intros Hm [Hmss Hw] [Hn Hq Hs Hb Hnq] Hlb H. unfold ikcp_send in H. inv_run.
  case_if_in H; [lia|]. case_if_in H; [inv_run; left; split; [done|lia]|]. right.
  destruct (send_count_spec (zlen b) (mss k)) as (H1 & _ & H2); [lia..|].
  cbv zeta. unfold group. set (c := send_count (zlen b) (mss k)) in *. clearbody c.
  assert ((c =? 0) = false) as Hc0 by (apply Z.eqb_neq; lia). rewrite Hc0 in H.
  destruct (send_loop_spec m (Z.to_nat c) b (zlen b) k) as (segs & Hsl & Hfr & Hall);
    [done|lia|done|done|done|].
  change (fun s => _) with frag_of in Hfr.
  rewrite Hsl in H. inv_run. split; [done|]. split_and!; try done.
  - pose proof (length_fragments (Z.to_nat c) (Z.to_nat (mss k)) b) as Hlf.
    split_and!; [|lia|apply fragments_frg_down|apply fragments_bytes; nia|done].
    intros He. rewrite He in Hlf. cbn in Hlf. lia.
  - apply fragments_log_ok; lia.
  - constructor; cbn.
    + rewrite Z_length_app. lia.
    + rewrite fmap_app, Hq, Hfr, drop_app_le by lia. done.
    + apply Forall_app. split; [done|]. eapply Forall_impl; [|exact Hall].
      intros s Hqd. apply Hqd.
    + eapply Forall_impl; [|exact Hb]. intros s [? ?]. split; [by apply carries_mono|done].
    + apply u32_u32.
Qed.

(** ** The invariant of one endpoint

    [log] is the endpoint's own log, [plog] its peer's, of which [d] entries
    were handed out. *)
Record end_inv (log plog : list frag) (d : nat) (k : ikcpcb) : Prop := {
  ei_snd : snd_inv log k;
  ei_rcv : rcv_inv plog d k;
  ei_cfg : cfg_inv k
}.

Lemma end_inv_ext log plog d k k' :
  snd_part k' = snd_part k -> rcv_part k' = rcv_part k -> cfg_part k' = cfg_part k ->
  end_inv log plog d k -> end_inv log plog d k'.
Proof.
  intros H1 H2 H3 [? ? ?]. constructor;
    eauto using snd_inv_ext, rcv_inv_ext, cfg_inv_ext.
Qed.

(** Only the transmission buffer of the sender changes. *)
Lemma end_inv_snd_buf log plog d k buf n :
  end_inv log plog d k ->
  Forall (fun s => carries log s /\ seg_cmd s = IKCP_CMD_PUSH) buf ->
  end_inv log plog d (k <| snd_buf := buf |> <| nsnd_buf := n |>).
Proof. intros [[] [] ?] Hb. by split; [constructor|constructor|]. Qed.

(** ** ikcp_input *)

Lemma parse_una_inv log plog d k una :
  end_inv log plog d k -> end_inv log plog d (ikcp_parse_una k una).
Proof.
  intros Hi. unfold ikcp_parse_una.
  destruct (una_loop_spec una (snd_buf k) k eq_refl) as (pre & post & Hb & -> & _).
  apply end_inv_snd_buf; [done|]. destruct Hi as [[_ _ _ Hbuf _] _ _].
  rewrite Hb in Hbuf. by apply Forall_app in Hbuf as [_ ?].
Qed.

Lemma bump_all log buf :
  Forall (fun s => carries log s /\ seg_cmd s = IKCP_CMD_PUSH) buf ->
  Forall (fun s => carries log s /\ seg_cmd s = IKCP_CMD_PUSH) (bump <$> buf).
Proof. intros H. apply Forall_fmap. eapply Forall_impl; [|exact H]. done. Qed.

Lemma parse_ack_inv log plog d k sn :
  end_inv log plog d k -> end_inv log plog d (ikcp_parse_ack k sn).
Proof.
  intros Hi. unfold ikcp_parse_ack. case_if; [done|].
  destruct (ack_loop sn (snd_buf k)) as [buf found] eqn:E.
  apply ack_loop_spec in E. pose proof (si_buf _ _ (ei_snd _ _ _ _ Hi)) as Hb.
  destruct found.
  - destruct E as (a & s & b & Hs & -> & _). apply end_inv_snd_buf; [done|].
    rewrite Hs in Hb. apply Forall_app in Hb as [Ha Hb]. apply Forall_cons_1 in Hb as [_ Hb].
    apply Forall_app. auto using bump_all.
  - destruct E as [-> _]. destruct Hi as [[] [] ?].
    split; [constructor|constructor|]; cbn; auto using bump_all.
Qed.

Lemma shrink_buf_inv log plog d k :
  end_inv log plog d k -> end_inv log plog d (ikcp_shrink_buf k).
Proof.
  intros Hi. destruct (shrink_buf_frame k) as (? & ? & _ & ? & _). by eapply end_inv_ext.
Qed.

Lemma input_ack_inv log plog d k h :
  end_inv log plog d k -> end_inv log plog d (input_ack k h).
Proof.
  intros Hi. apply shrink_buf_inv, parse_ack_inv. case_if; [|done].
  destruct (update_ack_frame k (itimediff (current k) (h_ts h))) as (? & ? & _ & ? & _).
  by eapply end_inv_ext.
Qed.

(** The segment rebuilt from a PUSH of the peer carries the same log entry. *)
Lemma push_seg_carries log s raw rest :
  log_ok log -> carries log s -> seg_data raw = resize (Z.to_nat (seg_len s)) Byte.x00 (seg_data raw) ->
  carries log (push_seg raw (header_of s) (take (Z.to_nat (seg_len s)) (seg_data s) ++ rest)).
Proof.
  intros Hl Hc Hraw. pose proof (carries_lt _ _ Hc) as Hsn.
  pose proof (carries_frag _ _ Hl Hc) as [Hf Hd]. destruct Hl as [Hl _].
  destruct Hc as (H0 & Hlk & Hlen).
  unfold carries, push_seg, header_of, frag_of. cbn.
  rewrite (u32_small (seg_sn s)), (u32_small (seg_len s)), u8_small by lia.
  assert ((if seg_len s >? 0 then take (Z.to_nat (seg_len s))
             (take (Z.to_nat (seg_len s)) (seg_data s) ++ rest) else seg_data raw) = seg_data s) as ->.
  { case_if.
    - rewrite Hlen, take_Z_length, Nat2Z.id. apply take_app_length.
    - destruct (seg_data s); [|simpl in *; lia]. rewrite Hraw.
      replace (Z.to_nat (seg_len s)) with 0%nat by lia. apply resize_0. }
  done.
Qed.

Lemma input_push_inv m log plog d k s rest k' :
  log_ok plog -> wire_ok plog s -> seg_cmd s = IKCP_CMD_PUSH -> end_inv log plog d k ->
  input_push m k (header_of s) (take (Z.to_nat (seg_len s)) (seg_data s) ++ rest) = Ok k' ->
  end_inv log plog d k'.
Proof.
  intros Hl [[_ Hc]|[Hbad _]] Hcmd Hi H;
    [|rewrite Hcmd in Hbad; by destruct Hbad as [|[|]]].
  unfold input_push in H. case_if_in H; [|by inv_run]. inv_run.
  pose proof (ack_push_same _ _ _ _ _ E) as Hsame.
  apply same_but_acks_frame in Hsame as (? & ? & ? & _).
  assert (end_inv log plog d r) as Hr by (by eapply end_inv_ext).
  case_if_in H; [|by inv_run].
  unfold ikcp_segment_new in H. destruct (mem_ok m _); [|done].
  apply run_bind_Ok in H as (u & Hu & H). injection H as <-.
  destruct (parse_data_frame r (push_seg (mem_seg m) <| seg_data :=
     resize (Z.to_nat (h_len (header_of s))) Byte.x00 (seg_data (mem_seg m)) |> (header_of s)
     (take (Z.to_nat (seg_len s)) (seg_data s) ++ rest))) as (Hf1 & _ & Hf3 & _).
  destruct Hr as [Hrs Hrr Hrc]. constructor.
  - eapply snd_inv_ext; [|exact Hrs]. exact Hf1.
  - apply parse_data_inv; [done..| |done]. apply push_seg_carries; [done..|].
    cbn. pose proof (carries_frag _ _ Hl Hc) as [_ Hd]. destruct Hc as (_ & _ & Hlen).
    rewrite u32_small by lia. by rewrite resize_idemp.
  - eapply cfg_inv_ext; [|exact Hrc]. exact Hf3.
Qed.

Lemma wire_ok_cmd log s : wire_ok log s -> u8 (seg_cmd s) = seg_cmd s /\ is_cmd (seg_cmd s) = true.
Proof. by intros [[-> _]|[[->|[->| ->]] _]]. Qed.

Lemma wire_ok_len log s : log_ok log -> wire_ok log s ->
  u32 (seg_len s) = seg_len s /\ zlen (take (Z.to_nat (seg_len s)) (seg_data s)) = seg_len s.
Proof.
  intros Hl [[_ Hc]|[_ ->]]; [|by rewrite take_0].
  pose proof (carries_frag _ _ Hl Hc) as [_ Hd]. destruct Hc as (_ & _ & Hlen).
  rewrite u32_small by lia. by rewrite Hlen, take_Z_length.
Qed.

Lemma input_seg_inv m log plog d k s rest k' :
  log_ok plog -> wire_ok plog s -> end_inv log plog d k ->
  input_seg m k (header_of s) (take (Z.to_nat (seg_len s)) (seg_data s) ++ rest) = Ok k' ->
  end_inv log plog d k'.
Proof.
  intros Hl Hw Hi H. unfold input_seg in H. cbv zeta in H.
  set (k1 := ikcp_shrink_buf _) in H.
  assert (end_inv log plog d k1) as Hk1.
  { apply shrink_buf_inv, parse_una_inv. by apply (end_inv_ext _ _ _ k). }
  clearbody k1. destruct (wire_ok_cmd _ _ Hw) as [Hcmd _].
  change (h_cmd (header_of s)) with (u8 (seg_cmd s)) in H. rewrite Hcmd in H.
  repeat case_if_in H.
  - inv_run. by apply input_ack_inv.
  - by eapply input_push_inv.
  - inv_run. by apply (end_inv_ext _ _ _ k1).
  - by inv_run.
Qed.

Lemma input_loop_inv m log plog d fuel segs k k' ret :
  log_ok plog -> Forall (wire_ok plog) segs -> end_inv log plog d k ->
  input_loop m fuel k (concat (wire <$> segs)) (zlen (concat (wire <$> segs))) = Ok (k', ret) ->
  end_inv log plog d k'.
Proof.
  intros Hl. revert segs k. induction fuel as [|fuel IH]; intros segs k Hw Hi H; [done|].
  cbn [input_loop] in H. case_if_in H; [by inv_run|].
  destruct segs as [|s segs]; [simpl in *; unfold IKCP_OVERHEAD in *; lia|].
  apply Forall_cons_1 in Hw as [Hs Hw]. rewrite fmap_cons in H. cbn [concat] in H.
  change (wire s) with (ikcp_encode_seg [] s ++ take (Z.to_nat (seg_len s)) (seg_data s)) in H.
  rewrite <- !app_assoc in H.
  edestruct (decode_encode_seg s) as (tail & Hd & _ & Ht). rewrite Hd in H.
  cbn [mbind run_bind] in H. case_if_in H; [by inv_run|].
  rewrite Ht in H. cbn [mbind run_bind] in H.
  destruct (wire_ok_len _ _ Hl Hs) as [Hlen Htk].
  change (h_len (header_of s)) with (u32 (seg_len s)) in H. rewrite Hlen in H.
  case_if_in H; [by inv_run|].
  change (h_cmd (header_of s)) with (u8 (seg_cmd s)) in H.
  destruct (wire_ok_cmd _ _ Hs) as [-> ->] in H. cbn [negb] in H. inv_run.
  apply input_seg_inv with (log := log) (plog := plog) (d := d) in E; [|done..].
  rewrite drop_app_length' in H by lia. rewrite !Z_length_app, length_encode_seg, Htk in H.
  unfold IKCP_OVERHEAD in H.
  replace (Z.of_nat 24 + (seg_len s + zlen (concat (wire <$> segs))) - 24 - seg_len s)
    with (zlen (concat (wire <$> segs))) in H by lia.
  by eapply IH.
Qed.

(** A datagram of the peer, delivered in any order and any number of times. *)
Lemma input_inv m log plog d k p k' r :
  log_ok plog -> packet_ok plog p -> end_inv log plog d k ->
  ikcp_input m k (Some p) (zlen p) = Ok (k', r) -> end_inv log plog d k'.
Proof.
  intros Hl (segs & Hs & ->) Hi H. unfold ikcp_input in H. case_if_in H; [by inv_run|].
  inv_run. destruct r0 as [k1 ret]. apply input_loop_inv with (log := log) (plog := plog) (d := d) in E; [|done..].
  destruct ret; inv_run; [done|].
  apply input_cwnd_frame in E0 as (? & ? & _ & ? & _). by eapply end_inv_ext.
Qed.

(** ** ikcp_flush *)

(** The buffer and the datagrams output so far are well formed. *)
Definition out_ok (log : list frag) (ptr : list byte) (out : list (list byte)) : Prop :=
  packet_ok log ptr /\ Forall (packet_ok log) out.

Lemma output_out_ok log k ptr out o :
  out_ok log ptr out -> ikcp_output k ptr = Ok o -> out_ok log [] (out ++ o).
Proof.
  intros [Hp Ho] H. split; [apply packet_ok_nil|]. apply Forall_app. split; [done|].
  by eapply ikcp_output_ok.
Qed.

Lemma header_room_ok log k ptr out ptr' out' :
  flush_header_room k ptr out = Ok (ptr', out') -> out_ok log ptr out -> out_ok log ptr' out'.
Proof.
  unfold flush_header_room. intros H Ho. case_if_in H.
  - apply run_bind_Ok in H as (o & E & H). injection H as <- <-. by eapply output_out_ok.
  - by injection H as <- <-.
Qed.

(** A command segment: no data. *)
Definition cmd_seg (s : IKCPSEG) : Prop :=
  (seg_cmd s = IKCP_CMD_ACK \/ seg_cmd s = IKCP_CMD_WASK \/ seg_cmd s = IKCP_CMD_WINS)
  /\ seg_len s = 0.

Lemma encode_cmd_ok log ptr out s :
  cmd_seg s -> out_ok log ptr out -> out_ok log (ikcp_encode_seg ptr s) out.
Proof.
  intros Hs [Hp Ho]. split; [|done]. rewrite encode_seg_app.
  replace (ikcp_encode_seg [] s) with (wire s).
  - apply packet_ok_snoc; [done|]. right. exact Hs.
  - unfold wire. destruct Hs as [_ ->]. by rewrite take_0, app_nil_r.
Qed.

Lemma flush_acks_ok log k n i seg ptr out seg' ptr' out' :
  flush_acks k n i seg ptr out = Ok (seg', ptr', out') ->
  cmd_seg seg -> out_ok log ptr out -> cmd_seg seg' /\ out_ok log ptr' out'.
Proof.
  revert i seg ptr out. induction n as [|n IH]; intros i seg ptr out H Hs Ho; cbn [flush_acks] in H.
  - by injection H as <- <- <-.
  - inv_run. destruct r as [p o]. inv_run. destruct r as [sn ts].
    eapply IH; [exact H|done|]. apply encode_cmd_ok; [done|]. by eapply header_room_ok.
Qed.

Lemma flush_wnd_cmd_ok log k bit cmd seg ptr out seg' ptr' out' :
  flush_wnd_cmd k bit cmd seg ptr out = Ok (seg', ptr', out') ->
  cmd = IKCP_CMD_WASK \/ cmd = IKCP_CMD_WINS ->
  cmd_seg seg -> out_ok log ptr out -> cmd_seg seg' /\ out_ok log ptr' out'.
Proof.
  unfold flush_wnd_cmd. intros H Hc Hs Ho. case_if_in H; [|by injection H as <- <- <-].
  inv_run. destruct r as [p o]. injection H as <- <- <-.
  assert (cmd_seg (seg <| seg_cmd := cmd |>)) as Hs'.
  { destruct Hs as [_ ?]. split; [cbn; tauto|done]. }
  split; [done|]. apply encode_cmd_ok; [done|]. by eapply header_room_ok.
Qed.

Lemma flush_commands_ok m log k k' seg ptr out :
  flush_commands m k = Ok (k', seg, ptr, out) ->
  out_ok log ptr out /\
  snd_part k' = snd_part k /\ rcv_part k' = rcv_part k /\ cfg_part k' = cfg_part k.
Proof.
  unfold flush_commands. intros H. inv_run. destruct r as [[seg1 p1] o1]. inv_run.
  destruct r as [[seg2 p2] o2]. inv_run. destruct r as [[seg3 p3] o3].
  injection H as <- <- <- <-.
  apply flush_acks_ok with (log := log) in E as [Hs1 Ho1];
    [|split; [by left|done]|by split; [apply packet_ok_nil|]].
  eapply flush_wnd_cmd_ok in E0 as [Hs2 Ho2]; [|by left|exact Hs1|exact Ho1].
  eapply flush_wnd_cmd_ok in E1 as [Hs3 Ho3]; [|by right|exact Hs2|exact Ho2].
  split; [done|].
  by destruct (flush_probe_frame (k <| ackcount := 0 |>)) as (? & ? & _ & ? & _).
Qed.

(** Numbering the queued segments: the entry at [snd_nxt] gets number [snd_nxt]. *)
Lemma flush_move_inv log plog d w wnd q k :
  log_ok log -> snd_queue k = q ->
  end_inv log plog d k -> end_inv log plog d (flush_move w wnd q k).
Proof.
  intros Hl. revert k. induction q as [|s q IH]; intros k Hq Hi; cbn [flush_move]; [done|].
  case_if; [|done]. apply IH; [done|].
  destruct Hl as [Hl _]. destruct Hi as [[Hn Hqu Hs Hb Hnq] Hr Hc]. rewrite Hq in Hqu, Hs.
  apply Forall_cons_1 in Hs as [Hs1 Hs].
  rewrite fmap_cons in Hqu.
  assert (log !! Z.to_nat (snd_nxt k) = Some (frag_of s)) as Hlk.
  { by rewrite <- (Nat.add_0_r (Z.to_nat _)), <- lookup_drop, <- Hqu. }
  pose proof (lookup_lt_Some _ _ _ Hlk) as Hlt.
  rewrite (drop_S _ _ _ Hlk) in Hqu. injection Hqu as Hqu.
  split; [|destruct Hr; by constructor|done].
  constructor; cbn.
  - rewrite u32_small; lia.
  - rewrite u32_small by lia. by replace (Z.to_nat (snd_nxt k + 1)) with (S (Z.to_nat (snd_nxt k))) by lia.
  - done.
  - apply Forall_app. split; [done|]. constructor; [|done]. split; [|done].
    split_and!; [cbn; lia|exact Hlk|exact Hs1].
  - apply u32_u32.
Qed.

Lemma flush_emit_ok log wnd seg s seg' s' :
  flush_emit wnd seg s = Ok (seg', s') ->
  carries log seg /\ seg_cmd seg = IKCP_CMD_PUSH -> out_ok log (f_ptr s) (f_out s) ->
  (carries log seg' /\ seg_cmd seg' = IKCP_CMD_PUSH) /\ out_ok log (f_ptr s') (f_out s') /\
  same_but_xmit (f_kcp s) (f_kcp s').
Proof.
  unfold flush_emit. cbv zeta. intros H [Hc Hcmd] Ho.
  apply run_bind_Ok in H as (s1 & Hs1 & H).
  assert (out_ok log (f_ptr s1) (f_out s1) /\ f_kcp s1 = f_kcp s) as [Ho1 Hk1].
  { case_if_in Hs1; [|by injection Hs1 as <-].
    apply run_bind_Ok in Hs1 as (o & Eo & Hs1). injection Hs1 as <-. cbn.
    split; [by eapply output_out_ok|done]. }
  apply run_bind_Ok in H as (ptr & Hptr & H).
  set (seg1 := seg <| seg_ts := _ |> <| seg_wnd := _ |> <| seg_una := _ |>) in *.
  assert (carries log seg1 /\ seg_cmd seg1 = IKCP_CMD_PUSH) as [Hc1 Hcmd1] by done.
  assert (ptr = f_ptr s1 ++ wire seg1) as ->.
  { unfold wire. rewrite encode_seg_app in Hptr. case_if_in Hptr.
    - case_if_in Hptr; [|done]. injection Hptr as <-. by rewrite <- app_assoc.
    - injection Hptr as <-. replace (Z.to_nat (seg_len seg1)) with 0%nat by lia.
      by rewrite take_0, app_nil_r. }
  clearbody seg1. injection H as <- <-. split; [done|].
  assert (out_ok log (f_ptr s1 ++ wire seg1) (f_out s1)) as Ho2.
  { destruct Ho1. split; [|done]. apply packet_ok_snoc; [done|by left]. }
  case_if; cbn; (split; [done|]).
  - unfold same_but_xmit. by destruct (f_kcp s).
  - rewrite Hk1. apply same_but_xmit_refl.
Qed.

Lemma flush_data_ok log resent rtomin wnd buf s buf' s' :
  flush_data resent rtomin wnd buf s = Ok (buf', s') ->
  Forall (fun t => carries log t /\ seg_cmd t = IKCP_CMD_PUSH) buf ->
  out_ok log (f_ptr s) (f_out s) ->
  Forall (fun t => carries log t /\ seg_cmd t = IKCP_CMD_PUSH) buf' /\
  out_ok log (f_ptr s') (f_out s') /\ same_but_xmit (f_kcp s) (f_kcp s').
Proof.
  revert s buf'. induction buf as [|t buf IH]; intros s buf' H Hb Ho; cbn [flush_data] in H.
  - injection H as <- <-. auto using same_but_xmit_refl.
  - apply Forall_cons_1 in Hb as [Ht Hb].
    apply run_bind_Ok in H as ([t' s1] & Hs1 & H).
    assert ((carries log t' /\ seg_cmd t' = IKCP_CMD_PUSH) /\ out_ok log (f_ptr s1) (f_out s1) /\
      same_but_xmit (f_kcp s) (f_kcp s1)) as (Ht' & Ho1 & Hx1).
    { destruct (flush_decide resent rtomin t s) as [[t1 s0]|] eqn:Ed.
      - apply flush_decide_frame in Ed as (Hx & Hp & Hout & Hsn & Hfrg & Hlen & Hdat & Hcmd & _).
        destruct Ht as [(H0 & Hlk & Hl) Hc].
        eapply flush_emit_ok in Hs1 as (? & ? & Hx2); [|split; [split_and!|]|by rewrite Hp, Hout].
        + eauto using same_but_xmit_trans.
        + by rewrite Hsn.
        + rewrite Hsn, Hlk. unfold frag_of. by rewrite Hfrg, Hdat.
        + by rewrite Hlen, Hdat.
        + by rewrite Hcmd.
      - injection Hs1 as <- <-. auto using same_but_xmit_refl. }
    apply run_bind_Ok in H as ([b' s2] & Hs2 & H). injection H as <- <-.
    destruct (IH _ _ Hs2 Hb Ho1) as (Hb' & Ho2 & Hx2).
    eauto 6 using same_but_xmit_trans, Forall_cons_2.
Qed.

Lemma flush_inv m log plog d k k' out :
  log_ok log -> end_inv log plog d k -> ikcp_flush m k = Ok (k', out) ->
  end_inv log plog d k' /\ Forall (packet_ok log) out.
Proof.
  intros Hl Hi H. unfold ikcp_flush in H. case_if_in H; [by injection H as <- <-|].
  apply run_bind_Ok in H as ([[[k1 seg] ptr] o1] & Hc & H).
  destruct (flush_commands_ok _ log _ _ _ _ _ Hc) as (Ho1 & ? & ? & ?).
  assert (end_inv log plog d k1) as Hi1 by (by eapply end_inv_ext).
  apply (flush_move_inv log plog d (flush_cwnd k1) (seg_wnd seg) (snd_queue k1)) in Hi1; [|done..].
  set (k2 := flush_move _ _ _ _) in *. clearbody k2.
  apply run_bind_Ok in H as ([buf s] & Hd & H).
  apply flush_data_ok with (log := log) in Hd as (Hb & Ho & Hx);
    [|apply Hi1|done].
  apply run_bind_Ok in H as (o2 & Ho2 & H). injection H as <- <-.
  cbn [f_kcp] in Hx. apply same_but_xmit_frame in Hx as (Hx1 & Hx2 & _ & Hx3 & _).
  split.
  - match goal with |- end_inv _ _ _ (flush_ssthresh ?x ?a ?b ?c ?e) =>
      destruct (flush_ssthresh_frame x a b c e) as (? & ? & _ & ? & _);
      apply (end_inv_ext _ _ _ x); [done..|] end.
    assert (end_inv log plog d (f_kcp s)) as Hf by (by eapply end_inv_ext).
    eapply end_inv_ext; [..|apply (end_inv_snd_buf log plog d (f_kcp s) buf (nsnd_buf (f_kcp s))); done];
      done.
  - destruct Ho as [Hp Ho]. case_if_in Ho2.
    + apply run_bind_Ok in Ho2 as (o & Eo & Ho2). injection Ho2 as <-.
      apply Forall_app. split; [done|]. by eapply ikcp_output_ok.
    + by injection Ho2 as <-.
Qed.

Lemma update_inv m log plog d k now k' out :
  log_ok log -> end_inv log plog d k -> ikcp_update m k now = Ok (k', out) ->
  end_inv log plog d k' /\ Forall (packet_ok log) out.
Proof.
  intros Hl Hi H. unfold ikcp_update in H. cbv zeta in H.
  set (k1 := if updated _ =? 0 then _ else _) in H.
  assert (end_inv log plog d k1) as Hi1.
  { apply (end_inv_ext _ _ _ k); [..|done]; subst k1; by case_if. }
  clearbody k1.
  set (ks := if _ || _ then _ else _) in H.
  assert (end_inv log plog d ks.1) as Hks.
  { apply (end_inv_ext _ _ _ k1); [..|done]; subst ks; by case_if. }
  destruct ks as [k2 slap]. cbn [fst] in Hks.
  case_if_in H; [|by injection H as <- <-].
  eapply flush_inv; [done| |exact H].
  apply (end_inv_ext _ _ _ k2); [..|done]; by case_if.
Qed.
