(* ===== verification/KcpSystem.v ===== *)
(** * Two endpoints and a network

    Two control blocks of src/util/ikcp.c driven by their applications through
    the public interface.  Every datagram an endpoint ever output stays
    available to its peer, which may take any of them at any time, once, many
    times or never: the network loses, duplicates, delays and reorders, but it
    does not forge.  The messages handed out by ikcp_recv on one side are a
    prefix of those accepted by ikcp_send on the other. *)

From stdpp Require Import relations.
From S2P Require Import Prelude Codec KcpState KcpAck KcpRecv KcpSend KcpInput KcpFlush.
From S2P Require Import KcpWire KcpFrames KcpTransfer KcpTransferSteps.

(** ** Endpoints *)

(** [ep_sent] and [ep_got] are the messages accepted and handed out so far,
    [ep_out] the datagrams passed to the output callback. *)
Record endpoint := mkEnd {
  ep_kcp : ikcpcb;
  ep_sent : list (list byte);
  ep_got : list (list byte);
  ep_out : list (list byte)
}.

(** The calls an application makes.  [Op_input i] is the arrival of the [i]-th
    datagram the peer output; [Op_output] installs the callback. *)
Inductive op :=
| Op_output
| Op_send (msg : list byte)
| Op_recv (len : Z)
| Op_input (i : nat)
| Op_update (now : Z)
| Op_flush
| Op_setmtu (mtu' : Z)
| Op_interval (interval' : Z)
| Op_nodelay (nodelay' interval' resend nc : Z)
| Op_wndsize (sndwnd rcvwnd : Z).

(** One call; [inbox] are the datagrams of the peer.  Arguments are converted to
    the parameter types; a message is shorter than 2^31 bytes, the range of the
    length parameter. *)
Definition exec (m : mem) (inbox : list (list byte)) (o : op) (e : endpoint)
  : run endpoint :=
  let '(mkEnd k sent got out) := e in
  match o with
  | Op_output => Ok (mkEnd (k <| output := true |>) sent got out)
  | Op_send msg =>
      c_require (zlen msg <? 2147483648) ≫= fun _ =>
      '(k, r) ← ikcp_send m k (Some msg) (zlen msg);
      Ok (mkEnd k (if r <? 0 then sent else sent ++ [msg]) got out)
  | Op_recv len =>
      let len := i32 len in
      '(k, msg, r) ← ikcp_recv k true len;
      Ok (mkEnd k sent (if (r <? 0) || (len <? 0) then got else got ++ [msg]) out)
  | Op_input i =>
      match inbox !! i with
      | None => Ok e
      | Some p => '(k, _) ← ikcp_input m k (Some p) (zlen p); Ok (mkEnd k sent got out)
      end
  | Op_update now => '(k, o) ← ikcp_update m k (u32 now); Ok (mkEnd k sent got (out ++ o))
  | Op_flush => '(k, o) ← ikcp_flush m k; Ok (mkEnd k sent got (out ++ o))
  | Op_setmtu mtu' => Ok (mkEnd (ikcp_setmtu m k (i32 mtu')).1 sent got out)
  | Op_interval i => Ok (mkEnd (ikcp_interval k (i32 i)).1 sent got out)
  | Op_nodelay a b c d =>
      Ok (mkEnd (ikcp_nodelay k (i32 a) (i32 b) (i32 c) (i32 d)).1 sent got out)
  | Op_wndsize s r => Ok (mkEnd (ikcp_wndsize k (i32 s) (i32 r)).1 sent got out)
  end.

(** The sequence numbers of the connection are not used up: fewer than 2^32
    fragments were queued.  (Beyond, an old datagram of the network could carry
    a number in use again.) *)
Definition numbered (e : endpoint) : bool :=
  snd_nxt (ep_kcp e) + zlen (snd_queue (ep_kcp e)) <? 4294967296.

Section System.
Context (m : mem).

(** The side that acts is [true] for the first endpoint. *)
Definition sys_exec (side : bool) (o : op) (s : endpoint * endpoint)
  : run (endpoint * endpoint) :=
  let '(a, b) := s in
  if side then a ← exec m (ep_out b) o a; Ok (a, b)
  else b ← exec m (ep_out a) o b; Ok (a, b).

Inductive sys_step (s : endpoint * endpoint) : endpoint * endpoint -> Prop :=
| sys_act side o s' :
    sys_exec side o s = Ok s' -> numbered s'.1 = true -> numbered s'.2 = true ->
    sys_step s s'.

(** A schedule, executed. *)
Fixpoint sys_run (trace : list (bool * op)) (s : endpoint * endpoint)
  : run (endpoint * endpoint) :=
  match trace with
  | [] => Ok s
  | (side, o) :: trace =>
      s ← sys_exec side o s;
      if numbered s.1 && numbered s.2 then sys_run trace s else Undef
  end.

Lemma sys_run_steps trace s s' : sys_run trace s = Ok s' -> rtc sys_step s s'.
Proof.
  revert s. induction trace as [|[side o] trace IH]; intros s H; cbn [sys_run] in H.
  - injection H as <-. reflexivity.
  - apply run_bind_Ok in H as (s1 & H1 & H). case_if_in H; [|done].
    eapply rtc_l; [by econstructor|by apply IH].
Qed.

Definition fresh (k : ikcpcb) : endpoint := mkEnd k [] [] [].
End System.

(** ** The invariant *)

(** [gs] are the fragment groups of the messages [a] sent, [ps] those of its
    peer, whose messages are [psent]. *)
Record side_inv (gs ps : list (list frag)) (psent : list (list byte)) (a : endpoint) : Prop := {
  sd_groups : Forall2 is_group (ep_sent a) gs;
  sd_log : log_ok (concat gs);
  sd_got : ep_got a = take (length (ep_got a)) psent;
  sd_count : (length (ep_got a) <= length psent)%nat;
  sd_end : end_inv (concat gs) (concat ps) (handed ps (length (ep_got a))) (ep_kcp a);
  sd_out : Forall (packet_ok (concat gs)) (ep_out a)
}.

Definition sys_inv (s : endpoint * endpoint) : Prop :=
  exists ga gb, side_inv ga gb (ep_sent s.2) s.1 /\ side_inv gb ga (ep_sent s.1) s.2.

Lemma rcv_inv_mono log log' d k : rcv_inv log d k -> rcv_inv (log ++ log') d k.
Proof.
  intros [Hn Hq Hs Hb Hnq]. constructor; auto.
  - rewrite Z_length_app. lia.
  - rewrite Hq, drop_app_le by lia. rewrite take_app_le; [done|]. rewrite length_drop. lia.
  - eapply Forall_impl; [|exact Hb]. intros s. apply carries_mono.
Qed.

Lemma handed_snoc gs g j : (j <= length gs)%nat -> handed (gs ++ [g]) j = handed gs j.
Proof. intros H. unfold handed. by rewrite take_app_le. Qed.

(** The peer's invariant survives a message appended to our log. *)
Lemma side_inv_peer_send gs ps g psent msg b :
  length psent = length ps ->
  side_inv gs ps psent b -> side_inv gs (ps ++ [g]) (psent ++ [msg]) b.
Proof.
  intros Hl [H1 H2 H3 H4 [Hs Hr Hc] H6].
  constructor; auto.
  - by rewrite take_app_le.
  - rewrite length_app. lia.
  - split; [done| |done]. rewrite handed_snoc by lia. rewrite concat_app.
    by apply rcv_inv_mono.
Qed.

Lemma log_length log k : snd_inv log k -> zlen log = snd_nxt k + zlen (snd_queue k).
Proof.
  intros [Hn Hq _ _ _]. apply (f_equal length) in Hq. rewrite length_fmap, length_drop in Hq. lia.
Qed.

(** Calls that neither send, receive nor output. *)
Lemma side_inv_kcp gs ps psent a k :
  end_inv (concat gs) (concat ps) (handed ps (length (ep_got a))) k ->
  side_inv gs ps psent a -> side_inv gs ps psent (mkEnd k (ep_sent a) (ep_got a) (ep_out a)).
Proof. intros Hk []. by constructor. Qed.

Lemma side_inv_out gs ps psent a k o :
  end_inv (concat gs) (concat ps) (handed ps (length (ep_got a))) k ->
  Forall (packet_ok (concat gs)) o ->
  side_inv gs ps psent a -> side_inv gs ps psent (mkEnd k (ep_sent a) (ep_got a) (ep_out a ++ o)).
Proof. intros Hk Ho []. constructor; try done. by apply Forall_app. Qed.

Lemma end_inv_cfg log plog d k k' :
  snd_part k' = snd_part k -> rcv_part k' = rcv_part k -> cfg_inv k' ->
  end_inv log plog d k -> end_inv log plog d k'.
Proof. intros H1 H2 H3 [? ? ?]. constructor; eauto using snd_inv_ext, rcv_inv_ext. Qed.

(** ** Every call preserves it *)

Lemma setmtu_inv m k mtu' :
  let k' := (ikcp_setmtu m k (i32 mtu')).1 in
  cfg_inv k -> snd_part k' = snd_part k /\ rcv_part k' = rcv_part k /\ cfg_inv k'.
Proof.
  cbv zeta. unfold ikcp_setmtu, cfg_inv, IKCP_OVERHEAD. intros [Hm Hw]. case_if; [done|].
  case_if; [done|]. pose proof (i32_range mtu') as Hr. set (mt := i32 mtu') in *. clearbody mt.
  cbn. rewrite (u32_small mt) by lia. rewrite u32_small by lia. split_and!; done || lia.
Qed.

Lemma wndsize_inv k s r :
  let k' := (ikcp_wndsize k (i32 s) (i32 r)).1 in
  cfg_inv k -> snd_part k' = snd_part k /\ rcv_part k' = rcv_part k /\ cfg_inv k'.
Proof.
  cbv zeta. unfold ikcp_wndsize, cfg_inv. intros [Hm Hw]. pose proof (i32_range r).
  destruct (i32 s >? 0); (destruct (i32 r >? 0) eqn:E; zbool; cbn; split_and!; try done; lia).
Qed.

Lemma nodelay_frame k a b c d :
  let k' := (ikcp_nodelay k a b c d).1 in
  snd_part k' = snd_part k /\ rcv_part k' = rcv_part k /\
  mss k' = mss k /\ rcv_wnd k' = rcv_wnd k /\ mtu k' = mtu k /\ buffer k' = buffer k.
Proof. cbv zeta. unfold ikcp_nodelay. cbn [fst]. split_and!; frame_cases. Qed.

Section Preserve.
Context (m : mem) (Hm : forall z, mem_ok m z = true).

(** ikcp_send: the only call that extends the log. *)
Lemma exec_send_inv ga gb a b msg a' :
  side_inv ga gb (ep_sent b) a -> side_inv gb ga (ep_sent a) b ->
  exec m (ep_out b) (Op_send msg) a = Ok a' -> numbered a' = true ->
  exists new, side_inv (ga ++ (group (mss (ep_kcp a)) <$> new)) gb (ep_sent b) a' /\
    side_inv gb (ga ++ (group (mss (ep_kcp a)) <$> new)) (ep_sent a') b /\ ep_sent a' = ep_sent a ++ new.
Proof.
  intros Ha Hb H Hnum. destruct a as [k sent got out]. cbn [exec] in H.
  apply run_bind_Ok in H as (u & Hl & H). apply run_bind_Ok in H as ([k' r] & Hs & H).
  injection H as <-. unfold c_require in Hl. case_if_in Hl; [|done]. clear Hl u.
  destruct (sd_end _ _ _ _ Ha) as [Hi1 Hi2 Hi3]. cbn in Hi1, Hi2, Hi3.
  destruct (send_inv m k (concat ga) msg k' r) as [[-> Hr]|(-> & Hg & Hgl & Hsn & Hrp & Hcp)];
    [done..| |].
  - exists []. rewrite (proj2 (Z.ltb_lt r 0) Hr). cbn [fmap list_fmap ep_sent]. by rewrite !app_nil_r.
  - exists [msg]. cbn [Z.ltb Z.compare fmap list_fmap ep_kcp ep_sent]. set (g := group (mss k) msg) in *. clearbody g.
    assert (concat (ga ++ [g]) = concat ga ++ g) as Hcc.
    { rewrite concat_app. cbn. by rewrite app_nil_r. }
    split; [|split; [|done]].
    + destruct Ha as [H1 [H2l H2] H3 H4 _ H6]. cbn in *. constructor; cbn; auto.
      * apply Forall2_app; auto.
      * rewrite Hcc. split; [|by apply Forall_app].
        rewrite (log_length _ _ Hsn). unfold numbered in Hnum. cbn in Hnum. by zbool.
      * rewrite Hcc. split; [done| |]; eauto using rcv_inv_ext, cfg_inv_ext.
      * eapply Forall_impl; [|exact H6]. intros p Hp. rewrite Hcc. by apply packet_ok_mono.
    + apply side_inv_peer_send; [|done]. exact (Forall2_length (sd_groups _ _ _ _ Ha)).
Qed.

Lemma exec_recv_inv ga gb a b len a' :
  side_inv ga gb (ep_sent b) a -> side_inv gb ga (ep_sent a) b ->
  exec m (ep_out b) (Op_recv len) a = Ok a' ->
  side_inv ga gb (ep_sent b) a' /\ ep_sent a' = ep_sent a.
Proof.
  intros Ha Hb H. destruct a as [k sent got out]. cbn [exec] in H.
  set (n := i32 len) in *. clearbody n.
  apply run_bind_Ok in H as ([[k' msg] r] & Hr & H). injection H as <-.
  split; [|done]. destruct Ha as [H1 H2 H3 H4 [Hs Hv Hc] H6]. cbn in *.
  pose proof (recv_frame _ _ _ _ _ _ Hr) as [Hsp Hcp].
  destruct (recv_spec gb (ep_sent b) (length got) k n k' msg r)
    as [[-> Hneg]|(msg' & Hmsg & -> & -> & Hv')]; [apply Hb|apply Hb|done..| |].
  - assert ((r <? 0) = true) as -> by (by apply Z.ltb_lt). cbn [orb]. by constructor.
  - assert ((zlen msg' <? 0) = false) as -> by (apply Z.ltb_ge; lia). cbn [orb].
    assert (end_inv (concat ga) (concat gb) (handed gb (if n <? 0 then length got else S (length got))) k').
    { split; eauto using snd_inv_ext, cfg_inv_ext. }
    destruct (n <? 0); constructor; cbn; auto.
    + rewrite length_app, Nat.add_1_r. rewrite (take_S_r _ _ _ Hmsg). by rewrite <- H3.
    + rewrite length_app. cbn. apply lookup_lt_Some in Hmsg. lia.
    + by rewrite length_app, Nat.add_1_r.
Qed.

(** The other calls leave both logs and the messages alone. *)
Lemma exec_other_inv ga gb a b o a' :
  side_inv ga gb (ep_sent b) a -> side_inv gb ga (ep_sent a) b ->
  match o with Op_send _ | Op_recv _ => False | _ => True end ->
  exec m (ep_out b) o a = Ok a' ->
  side_inv ga gb (ep_sent b) a' /\ ep_sent a' = ep_sent a.
Proof.
  intros Ha Hb Ho H. pose proof (sd_end _ _ _ _ Ha) as Hi.
  pose proof (sd_log _ _ _ _ Ha) as Hl.
  destruct a as [k sent got out]. cbn in Hi.
  destruct o; try done; cbn [exec] in H.
  - injection H as <-. split; [|done]. apply (side_inv_kcp _ _ _ _ _) with (2 := Ha).
    by apply (end_inv_cfg _ _ _ k); [..|apply Hi|].
  - destruct (ep_out b !! i) as [p|] eqn:Ep; [|by injection H as <-].
    apply run_bind_Ok in H as ([k' r] & Hin & H). injection H as <-. split; [|done].
    apply (side_inv_kcp _ _ _ _ _) with (2 := Ha).
    eapply input_inv; [apply Hb| |exact Hi|exact Hin].
    eapply Forall_lookup_1; [apply Hb|exact Ep].
  - apply run_bind_Ok in H as ([k' o] & Hu & H). injection H as <-. split; [|done].
    destruct (update_inv _ _ _ _ _ _ _ _ Hl Hi Hu). by apply (side_inv_out _ _ _ _ _ _) with (3 := Ha).
  - apply run_bind_Ok in H as ([k' o] & Hu & H). injection H as <-. split; [|done].
    destruct (flush_inv _ _ _ _ _ _ _ Hl Hi Hu). by apply (side_inv_out _ _ _ _ _ _) with (3 := Ha).
  - apply Ok_inj in H as ->. split; [|done]. apply (side_inv_kcp _ _ _ _ _) with (2 := Ha).
    destruct (setmtu_inv m k mtu' (ei_cfg _ _ _ _ Hi)) as (? & ? & ?).
    by apply (end_inv_cfg _ _ _ k).
  - apply Ok_inj in H as ->. split; [|done]. apply (side_inv_kcp _ _ _ _ _) with (2 := Ha).
    by apply (end_inv_cfg _ _ _ k); [..|apply Hi|].
  - apply Ok_inj in H as ->. split; [|done]. apply (side_inv_kcp _ _ _ _ _) with (2 := Ha).
    destruct (nodelay_frame k (i32 nodelay') (i32 interval') (i32 resend) (i32 nc))
      as (? & ? & Hms & Hrw & _).
    apply (end_inv_cfg _ _ _ k); [done..| |done]. unfold cfg_inv. rewrite Hms, Hrw. apply Hi.
  - apply Ok_inj in H as ->. split; [|done]. apply (side_inv_kcp _ _ _ _ _) with (2 := Ha).
    destruct (wndsize_inv k sndwnd rcvwnd (ei_cfg _ _ _ _ Hi)) as (? & ? & ?).
    by apply (end_inv_cfg _ _ _ k).
Qed.
End Preserve.

Lemma fresh_inv m c u k : ikcp_create m c u = Some k -> side_inv [] [] [] (fresh k).
Proof.
  unfold ikcp_create. destruct (mem_ok m sizeof_IKCPCB); [|done]. cbn [negb].
  case_if; [done|]. intros [= <-]. constructor; cbn; auto.
  - split; cbn; [lia|constructor].
  - split; [constructor|constructor|]; cbn; auto; try lia.
    by split; split; vm_compute.
Qed.

Lemma sys_step_inv m s s' :
  (forall z, mem_ok m z = true) -> sys_step m s s' -> sys_inv s -> sys_inv s'.
Proof.
  intros Hm [side o s1 He H1 H2] (ga & gb & Ha & Hb). destruct s as [a b].
  assert (Hcase : forall ga gb a b a',
    side_inv ga gb (ep_sent b) a -> side_inv gb ga (ep_sent a) b ->
    exec m (ep_out b) o a = Ok a' -> numbered a' = true ->
    exists ga', side_inv ga' gb (ep_sent b) a' /\ side_inv gb ga' (ep_sent a') b).
  { clear -Hm. intros ga gb a b a' Ha Hb He Hn.
    destruct o.
    2: destruct (exec_send_inv m Hm ga gb a b msg a') as (new & ? & ? & _); eauto.
    2: destruct (exec_recv_inv m ga gb a b len a') as [? ->]; eauto.
    all: edestruct (exec_other_inv m ga gb a b) as [? Heq]; [done|done| |exact He|]; [done|];
      rewrite Heq; eauto. }
  unfold sys_exec in He. destruct side; inv_run; cbn in *.
  - destruct (Hcase ga gb a b r) as (ga' & ? & ?); [done..|]. by exists ga', gb.
  - destruct (Hcase gb ga b a r) as (gb' & ? & ?); [done..|]. by exists ga, gb'.
Qed.

Lemma sys_inv_prefix s : sys_inv s ->
  ep_got s.2 `prefix_of` ep_sent s.1 /\ ep_got s.1 `prefix_of` ep_sent s.2.
Proof.
  intros (ga & gb & [_ _ Ha _ _ _] & [_ _ Hb _ _ _]).
  rewrite Ha, Hb. split; apply prefix_take.
Qed.

(** C1: reliable ordered delivery.  Start two fresh control blocks and let the
    two applications make any calls (send, receive, input of any datagram the
    peer ever output, update, flush, reconfiguration) in any interleaving; as
    long as fewer than 2^32 fragments are queued on a side, the messages handed
    out by ikcp_recv on each side are a prefix of the messages accepted by
    ikcp_send on the other: none is lost in between, duplicated, reordered,
    split, merged or altered. *)
Theorem reliable_delivery m ca ua cb ub ka kb s :
  (forall z, mem_ok m z = true) ->
  ikcp_create m ca ua = Some ka -> ikcp_create m cb ub = Some kb ->
  rtc (sys_step m) (fresh ka, fresh kb) s ->
  ep_got s.2 `prefix_of` ep_sent s.1 /\ ep_got s.1 `prefix_of` ep_sent s.2.
Proof.
  intros Hm Ha Hb Hs. apply sys_inv_prefix.
  apply (rtc_ind_r sys_inv (fresh ka, fresh kb)) with (z := s) in Hs; [done| |].
  - exists [], []. eauto using fresh_inv.
  - intros. by eapply sys_step_inv.
Qed.

(** ** A run

    Two messages, of three fragments and of one; the datagrams arrive in
    reverse order, one of them twice, and one is lost and sent again. *)
Definition demo_mem : mem := mkMem (fun _ => true) (mkSeg 0 0 0 0 0 0 0 0 0 0 0 0 []).
Definition demo_msg (n : nat) : list byte := (fun i => byte_of (Z.of_nat i)) <$> seq 0 n.
Definition demo_kcp : ikcpcb := default (mkKcp 0 0 0 0 0 0 0 0 0 0 0 0 0 0 0 0 0 0 0 0 0 0 0 0 0 0 0
  0 0 0 0 0 0 [] [] [] [] None 0 0 0 0 0 0 false) (ikcp_create demo_mem 7 0).
Definition demo_trace : list (bool * op) :=
  [(true, Op_output); (false, Op_output);
   (true, Op_setmtu 50); (true, Op_nodelay 1 10 2 1); (false, Op_nodelay 1 10 2 1);
   (true, Op_send (demo_msg 60)); (true, Op_send (demo_msg 5)); (true, Op_update 100);
   (false, Op_input 3); (false, Op_input 1); (false, Op_input 1); (false, Op_recv 1000);
   (false, Op_update 105); (true, Op_input 0); (true, Op_update 800);
   (false, Op_input 2); (false, Op_input 4); (false, Op_recv (-1000)); (false, Op_recv 1000);
   (false, Op_recv 1000)].

Definition demo_end : endpoint * endpoint :=
  match sys_run demo_mem demo_trace (fresh demo_kcp, fresh demo_kcp) with
  | Ok s => s
  | _ => (fresh demo_kcp, fresh demo_kcp)
  end.

Lemma reliable_delivery_witness :
  ep_got demo_end.2 = [demo_msg 60; demo_msg 5] /\
  ep_got demo_end.2 `prefix_of` ep_sent demo_end.1.
Proof.
  split; [vm_compute; reflexivity|].
  apply (reliable_delivery demo_mem 7 0 7 0 demo_kcp demo_kcp demo_end).
  - reflexivity.
  - vm_compute; reflexivity.
  - vm_compute; reflexivity.
  - apply (sys_run_steps demo_mem demo_trace). vm_compute. reflexivity.
Defined.
