(* ===== verification/KcpWf.v ===== *)
(** * Well-formed control blocks

    The data-structure invariant of IKCPCB, part by part: counters agree with
    the queues, the reordering and transmission buffers are strictly sorted in
    the wrap-around order of sequence numbers, the window of numbers in flight
    is bounded.  Nothing is assumed about the peer: the receiver's part survives
    any bytes from the network. *)

From stdpp Require Import sorting sets.
From S2P Require Import Prelude Codec KcpState KcpAck KcpRecv KcpSend KcpInput KcpFlush KcpWire KcpFrames.

(** ** Sequence numbers in order *)

(** Strictly increasing distance from [base], all in the half of the number
    space that [itimediff] regards as later. *)
Definition sn_before (base : Z) (a b : IKCPSEG) : Prop :=
  off base (seg_sn a) < off base (seg_sn b).
Definition sn_near (base : Z) (s : IKCPSEG) : Prop :=
  0 <= seg_sn s < 4294967296 /\ off base (seg_sn s) < 2147483648.

Record sn_sorted (base : Z) (l : list IKCPSEG) : Prop := {
  ss_sorted : StronglySorted (sn_before base) l;
  ss_near : Forall (sn_near base) l
}.

Lemma sn_sorted_nil base : sn_sorted base [].
Proof. by split; constructor. Qed.

Lemma sn_sorted_app base l1 l2 : sn_sorted base (l1 ++ l2) -> sn_sorted base l1 /\ sn_sorted base l2.
Proof.
  intros [Hs Hn]. apply StronglySorted_app in Hs as (_ & ? & ?). apply Forall_app in Hn as [? ?].
  by split.
Qed.

(** Rebasing at a number no later than any of the list. *)
Lemma off_rebase base base' z :
  off base base' <= off base z -> off base' z = off base z - off base base'.
Proof. unfold off. wrap_lia. Qed.

Lemma sn_sorted_rebase base base' l :
  sn_sorted base l -> Forall (fun s => off base base' <= off base (seg_sn s)) l ->
  sn_sorted base' l.
Proof.
  intros [Hs Hn] Hle. pose proof (off_range base base') as Hr.
  split.
  - induction Hs as [|s l Hs IH Hall]; [constructor|].
    apply Forall_cons_1 in Hle as [Hle1 Hle]. apply Forall_cons_1 in Hn as [_ Hn].
    constructor; [by apply IH|]. rewrite list.Forall_forall in Hall, Hle |- *.
    intros t Ht. specialize (Hall t Ht). specialize (Hle t Ht). unfold sn_before in *.
    rewrite !(off_rebase base base') by done. lia.
  - rewrite list.Forall_forall in Hn, Hle |- *. intros t Ht. destruct (Hn t Ht) as [? ?].
    split; [done|]. rewrite (off_rebase base base') by auto. lia.
Qed.

(** Taking the head when it is the base moves the base up by one. *)
Lemma sn_sorted_pop base s l :
  sn_sorted base (s :: l) -> seg_sn s = base -> sn_sorted (u32 (base + 1)) l.
Proof.
  intros [Hs Hn] Hb. apply StronglySorted_cons in Hs as [Hall Hs].
  apply Forall_cons_1 in Hn as [Hn1 Hn].
  apply (sn_sorted_rebase base); [by split|]. rewrite off_add by lia.
  eapply Forall_impl; [|exact Hall]. intros t Ht. unfold sn_before in Ht.
  pose proof (off_range base (seg_sn s)). lia.
Qed.

(** No number occurs twice. *)
Lemma sn_sorted_NoDup base l : sn_sorted base l -> NoDup (seg_sn <$> l).
Proof.
  intros [Hs _]. induction Hs as [|s l Hs IH Hall]; [constructor|].
  rewrite fmap_cons. constructor; [|done].
  intros Hin. apply list_elem_of_fmap in Hin as (t & Ht & Hin).
  rewrite list.Forall_forall in Hall. specialize (Hall t Hin). unfold sn_before in Hall.
  rewrite Ht in Hall. lia.
Qed.

(** Inserting behind the last smaller element. *)
Lemma sn_sorted_insert base l1 s l2 :
  sn_sorted base (l1 ++ l2) -> sn_near base s ->
  Forall (fun t => sn_before base t s) l1 -> Forall (sn_before base s) l2 ->
  sn_sorted base (l1 ++ s :: l2).
Proof.
  intros [Hs Hn] Hnear H1 H2. apply StronglySorted_app in Hs as (Hc & Hs1 & Hs2).
  apply Forall_app in Hn as [Hn1 Hn2]. split.
  - apply StronglySorted_app. split_and!; [|done|by constructor].
    rewrite list.Forall_forall in H1. intros x y Hx Hy. apply elem_of_cons in Hy as [->|Hy]; auto.
  - apply Forall_app. auto.
Qed.

Lemma sn_sorted_remove base l1 s l2 :
  sn_sorted base (l1 ++ s :: l2) -> sn_sorted base (l1 ++ l2).
Proof.
  intros [Hs Hn]. apply StronglySorted_app in Hs as (Hc & Hs1 & Hs2).
  apply StronglySorted_cons in Hs2 as [_ Hs2].
  apply Forall_app in Hn as [Hn1 Hn2]. apply Forall_cons_1 in Hn2 as [_ Hn2]. split.
  - apply StronglySorted_app. split_and!; [|done|done].
    intros x y Hx Hy. apply Hc; [done|]. by apply list_elem_of_further.
  - by apply Forall_app.
Qed.

(** Only the numbers matter. *)
Lemma sn_sorted_keys base l l' :
  seg_sn <$> l' = seg_sn <$> l -> sn_sorted base l -> sn_sorted base l'.
Proof.
  intros Heq [Hs Hn]. revert l' Heq. induction Hs as [|s l Hs IH Hall]; intros [|s' l'] Heq; try done;
    [apply sn_sorted_nil|].
  rewrite !fmap_cons in Heq. injection Heq as Hsn Heq. apply Forall_cons_1 in Hn as [Hn1 Hn].
  destruct (IH Hn l' Heq) as [Hs' Hn']. split.
  - constructor; [done|]. apply list.Forall_forall. intros t Ht.
    assert (seg_sn t ∈ seg_sn <$> l) as Hin by (rewrite <- Heq; by apply list_elem_of_fmap_2).
    apply list_elem_of_fmap in Hin as (u & Hu & Hin). rewrite list.Forall_forall in Hall.
    specialize (Hall u Hin). unfold sn_before in *. by rewrite Hsn, Hu.
  - constructor; [|done]. unfold sn_near in *. by rewrite Hsn.
Qed.

(** ** The receiver *)

Record rcv_wf (k : ikcpcb) : Prop := {
  rw_nxt : 0 <= rcv_nxt k < 4294967296;
  rw_wnd : 0 <= rcv_wnd k < 2147483648;
  rw_nque : nrcv_que k = zlen (rcv_queue k);
  rw_qlen : nrcv_que k < 2147483648;
  rw_nbuf : nrcv_buf k = u32 (zlen (rcv_buf k));
  rw_que_sized : Forall seg_sized (rcv_queue k);
  rw_buf_sized : Forall seg_sized (rcv_buf k);
  rw_sorted : sn_sorted (rcv_nxt k) (rcv_buf k)
}.

Lemma rcv_wf_ext k k' :
  rcv_part k' = rcv_part k -> rcv_wnd k' = rcv_wnd k -> rcv_wf k -> rcv_wf k'.
Proof. unfold rcv_part. intros [= H1 H2 H3 H4 H5] Hw []. constructor; congruence. Qed.

Lemma move_loop_wf buf k : rcv_buf k = buf -> rcv_wf k -> rcv_wf (move_loop buf k).
Proof.
  revert k. induction buf as [|s buf IH]; intros k Hb Hk; cbn [move_loop]; [done|].
  case_if; [|done]. apply IH; [done|]. destruct Hk as [H1 H2 H3 Hl H4 H5 H6 H7].
  rewrite Hb in H4, H6, H7. apply Forall_cons_1 in H6 as [Hs H6]. constructor; cbn.
  - apply u32_range.
  - done.
  - rewrite Z_length_app. cbn. rewrite u32_small; lia.
  - rewrite u32_small; lia.
  - rewrite H4, u32_sub_l. f_equal. cbn [length]. lia.
  - apply Forall_app. auto.
  - done.
  - by eapply sn_sorted_pop.
Qed.

(** The window test of ikcp_parse_data, as distances. *)
Lemma window_near k sn :
  rcv_wf k -> 0 <= sn < 4294967296 ->
  itimediff sn (u32 (rcv_nxt k + rcv_wnd k)) < 0 -> 0 <= itimediff sn (rcv_nxt k) ->
  off (rcv_nxt k) sn < rcv_wnd k.
Proof.
  intros [H1 H2 _ _ _ _ _ _] Hsn. unfold itimediff, off. wrap_lia.
Qed.

(** What the scan from the tail finds, in terms of distances. *)
Lemma insert_rev_sorted base s buf :
  sn_sorted base buf -> sn_near base s ->
  match insert_rev s (rev buf) with
  | None => exists t, t ∈ buf /\ seg_sn t = seg_sn s
  | Some l => sn_sorted base (rev l) /\ rev l ≡ₚ s :: buf /\ seg_sn s ∉ (seg_sn <$> buf)
  end.
Proof.
  intros Hb Hs. destruct (insert_rev s (rev buf)) as [l|] eqn:E.
  - apply insert_rev_Some in E as (a & b & Hab & -> & Ha & Hbh).
    assert (buf = rev b ++ rev a) as ->.
    { by rewrite <- (rev_involutive buf), Hab, rev_app_distr. }
    rewrite rev_app_distr. cbn [rev]. rewrite <- app_assoc. cbn [app].
    assert (Hcmp : forall t, t ∈ rev b ++ rev a -> itimediff (seg_sn s) (seg_sn t)
      = off base (seg_sn s) - off base (seg_sn t)).
    { intros t Ht. apply itimediff_off; [apply Hs|].
      destruct Hb as [_ Hn]. rewrite list.Forall_forall in Hn. by apply Hn. }
    assert (Forall (sn_before base s) (rev a)) as Hra.
    { apply Forall_rev. rewrite list.Forall_forall in Ha |- *. intros t Ht. destruct (Ha t Ht) as [Hne Hle].
      assert (Htb : t ∈ rev b ++ rev a).
      { apply elem_of_app. right. by apply list_elem_of_In, (in_rev a), list_elem_of_In. }
      rewrite Hcmp in Hle by done. unfold sn_before.
      assert (off base (seg_sn s) <> off base (seg_sn t)); [|lia].
      destruct Hb as [_ Hn]. rewrite list.Forall_forall in Hn. destruct (Hn t Htb) as [? _]. destruct Hs as [? _].
      intros Heq. apply Hne. unfold off in Heq. revert Heq. wrap_lia. }
    assert (Forall (fun t => sn_before base t s) (rev b)) as Hrb.
    { destruct b as [|h b]; [constructor|]. destruct Hbh as [_ Hlt].
      rewrite Hcmp in Hlt by (cbn; set_solver).
      destruct Hb as [Hss _]. cbn [rev] in Hss |- *. rewrite <- app_assoc in Hss.
      apply StronglySorted_app in Hss as (Hc & _ & _).
      apply Forall_app. split; [|constructor; [unfold sn_before; lia|constructor]].
      apply list.Forall_forall. intros t Ht. specialize (Hc t h Ht).
      unfold sn_before in *. cbn [app] in Hc. ospecialize (Hc _); [set_solver|]. lia. }
    split_and!.
    + by apply sn_sorted_insert.
    + by rewrite <- Permutation_middle.
    + intros Hin. apply list_elem_of_fmap in Hin as (t & Ht & Hin).
      apply elem_of_app in Hin as [Hin|Hin].
      * rewrite list.Forall_forall in Hrb. specialize (Hrb t Hin). unfold sn_before in Hrb. rewrite Ht in Hrb. lia.
      * rewrite list.Forall_forall in Hra. specialize (Hra t Hin). unfold sn_before in Hra. rewrite Ht in Hra. lia.
  - apply insert_rev_None in E as (t & Ht & ?). exists t. split; [|done].
    apply list_elem_of_In. apply list_elem_of_In in Ht. by apply in_rev.
Qed.

Lemma move_avail_wf k : rcv_wf k -> rcv_wf (move_avail k).
Proof. by apply move_loop_wf. Qed.

(** [move_avail] only moves segments from the buffer to the queue, and as far
    as it can. *)
Lemma move_avail_moves k : rcv_wf k ->
  rcv_queue (move_avail k) ++ rcv_buf (move_avail k) = rcv_queue k ++ rcv_buf k /\
  nrcv_que (move_avail k) <= Z.max (nrcv_que k) (rcv_wnd k) /\ move_stops (move_avail k).
Proof.
  intros Hk. destruct (move_loop_spec (rcv_buf k) k) as (pre & H1 & H2 & _ & _ & _ & H6 & _ & _ & H9);
    [done|apply u32_small, Hk|rewrite (rw_nque _ Hk); lia|pose proof (rw_wnd _ Hk); lia|].
  unfold move_avail. split_and!; [|done|done].
  rewrite H2, <- app_assoc. by rewrite <- H1.
Qed.

(** What ikcp_parse_data does with a segment. *)
Lemma parse_data_cases k s :
  rcv_wf k -> seg_sized s -> 0 <= seg_sn s < 4294967296 ->
  (ikcp_parse_data k s = k /\
     ~ off (rcv_nxt k) (seg_sn s) < rcv_wnd k) \/
  (off (rcv_nxt k) (seg_sn s) < rcv_wnd k /\ exists k1,
     ikcp_parse_data k s = move_avail k1 /\ rcv_wf k1 /\ rcv_queue k1 = rcv_queue k /\
     nrcv_que k1 = nrcv_que k /\ rcv_wnd k1 = rcv_wnd k /\ rcv_nxt k1 = rcv_nxt k /\
     (rcv_buf k1 ≡ₚ s :: rcv_buf k /\ seg_sn s ∉ (seg_sn <$> rcv_buf k) \/
      k1 = k /\ seg_sn s ∈ (seg_sn <$> rcv_buf k))).
Proof.
  intros Hk Hs Hsn. unfold ikcp_parse_data. case_if.
  - left. split; [done|]. intros Hlt. apply orb_true_iff in Heqb.
    pose proof (rw_wnd _ Hk). pose proof (rw_nxt _ Hk).
    unfold itimediff, off in *. destruct Heqb; zbool; wrap_lia.
  - right. zbool. pose proof (rw_wnd _ Hk).
    assert (off (rcv_nxt k) (seg_sn s) < rcv_wnd k) as Hoff by (apply window_near; lia || done).
    split; [done|].
    pose proof (insert_rev_sorted (rcv_nxt k) s (rcv_buf k) (rw_sorted _ Hk)) as Hins.
    ospecialize (Hins _); [split; lia|].
    destruct (insert_rev s (rev (rcv_buf k))) as [l|].
    + destruct Hins as (Hsl & Hpm & Hni). eexists. split; [reflexivity|].
      split; [|split_and!; auto].
      destruct Hk. constructor; cbn; auto.
      * rewrite rw_nbuf0, u32_add_l, Hpm. f_equal. cbn [length]. lia.
      * rewrite Hpm. by constructor.
    + destruct Hins as (t & Ht & Heq). exists k. split_and!; auto. right. split; [done|].
      apply list_elem_of_fmap. eauto.
Qed.

Lemma parse_data_wf k s :
  rcv_wf k -> seg_sized s -> 0 <= seg_sn s < 4294967296 -> rcv_wf (ikcp_parse_data k s).
Proof.
  intros Hk Hs Hsn. destruct (parse_data_cases k s Hk Hs Hsn) as [[-> _]|(_ & k1 & -> & Hk1 & _)];
    [done|by apply move_avail_wf].
Qed.

(** The segments consumed by the merge loop are a prefix of the queue. *)
Lemma recv_merge_rest copy q out len n :
  n = zlen q -> n < 4294967296 ->
  match recv_merge copy false q out len n with
  | (_, _, rest, n') => n' = zlen rest /\ exists pre, q = pre ++ rest
  end.
Proof.
  revert out len n. induction q as [|s q IH]; intros out len n Hn Hlt; cbn [recv_merge].
  - split; [done|by exists []].
  - cbn [length] in Hn. rewrite u32_small by lia. case_if.
    + split; [lia|by exists [s]].
    + specialize (IH (if copy then out ++ take (Z.to_nat (seg_len s)) (seg_data s) else out)
        (i32 (len + seg_len s)) (n - 1)).
      destruct (recv_merge _ _ _ _ _ _) as [[[? ?] rest] n'].
      destruct IH as (-> & pre & ->); [lia..|]. split; [done|by exists (s :: pre)].
Qed.

(** ikcp_recv takes a message from the queue and fills the queue up. *)
Lemma recv_shape k copy len k' out r :
  rcv_wf k -> ikcp_recv k copy len = Ok (k', out, r) ->
  k' = k \/ exists k1, rcv_wf k1 /\ rcv_nxt k1 = rcv_nxt k /\ rcv_buf k1 = rcv_buf k /\ rcv_wnd k1 = rcv_wnd k /\
    rcv_part k' = rcv_part (move_avail k1) /\ rcv_wnd k' = rcv_wnd (move_avail k1).
Proof.
  intros Hk H. unfold ikcp_recv in H. destruct (rcv_queue k) as [|s0 q0] eqn:Eq;
    [injection H as <- _ _; by left|]. rewrite <- Eq in H.
  case_if_in H; [injection H as <- _ _; by left|]. case_if_in H; [injection H as <- _ _; by left|].
  destruct (recv_merge _ _ _ _ _ _) as [[[o l] rest] n] eqn:Em.
  apply run_bind_Ok in H as (u & _ & H). injection H as <- _ _. right.
  match goal with |- context [move_avail ?x] => exists x; set (k1 := x) end.
  split; [|subst k1; split_and!; [by destruct (len <? 0)..| |]; by case_if].
  subst k1. destruct (len <? 0); [done|].
  pose proof (recv_merge_rest copy (rcv_queue k) [] 0 (nrcv_que k) (rw_nque _ Hk)) as Hrest.
  rewrite Em in Hrest. destruct Hk as [H1 H2 H3 H4 H5 H6 H7 H8].
  destruct Hrest as (-> & pre & Hpre); [lia..|].
  rewrite Hpre in H3, H6. rewrite Z_length_app in H3. apply Forall_app in H6 as [_ H6].
  constructor; cbn; auto; lia.
Qed.

Lemma recv_wf k copy len k' out r :
  rcv_wf k -> ikcp_recv k copy len = Ok (k', out, r) -> rcv_wf k'.
Proof.
  intros Hk H. destruct (recv_shape _ _ _ _ _ _ Hk H) as [->|(k1 & Hk1 & _ & _ & _ & Hr & Hw)]; [done|].
  apply (rcv_wf_ext (move_avail k1)); [done..|]. by apply move_avail_wf.
Qed.
