(* ===== verification/KcpWfSnd.v ===== *)
(** * Well-formed control blocks: the sender

    [snd_una] is the oldest unacknowledged number, the transmission buffer holds
    numbers of the window from [snd_una] up to [snd_nxt] in order, and at most
    65535 numbers are in flight: the remote window is a 16-bit field.  Forged
    acknowledgements cannot break this. *)

From stdpp Require Import sorting.
From S2P Require Import Prelude Codec KcpState KcpAck KcpRecv KcpSend KcpInput KcpFlush.
From S2P Require Import KcpWire KcpFrames KcpWf.

(** A segment to send: [len] bytes of data that fit an [int] with the header. *)
Definition snd_sized (s : IKCPSEG) : Prop :=
  seg_len s = zlen (seg_data s) /\ seg_len s + IKCP_OVERHEAD < 2147483648.

(** All but the value of [snd_una], which is briefly stale while
    acknowledgements are processed. *)
Record snd_loose (k : ikcpcb) : Prop := {
  sl_una : 0 <= snd_una k < 4294967296;
  sl_nxt : 0 <= snd_nxt k < 4294967296;
  sl_flight : off (snd_una k) (snd_nxt k) <= 65535;
  sl_sorted : sn_sorted (snd_una k) (snd_buf k);
  sl_below : Forall (fun s => off (snd_una k) (seg_sn s) < off (snd_una k) (snd_nxt k)) (snd_buf k);
  sl_buf_sized : Forall snd_sized (snd_buf k);
  sl_que_sized : Forall snd_sized (snd_queue k);
  sl_nbuf : nsnd_buf k = u32 (zlen (snd_buf k));
  sl_nque : nsnd_que k = u32 (zlen (snd_queue k));
  sl_rmt : 0 <= rmt_wnd k < 65536
}.

Definition una_exact (k : ikcpcb) : Prop :=
  snd_una k = match snd_buf k with [] => snd_nxt k | s :: _ => seg_sn s end.

Definition snd_wf (k : ikcpcb) : Prop := snd_loose k /\ una_exact k.

Lemma snd_loose_ext k k' :
  snd_part k' = snd_part k -> snd_una k' = snd_una k -> 0 <= rmt_wnd k' < 65536 ->
  snd_loose k -> snd_loose k'.
Proof.
  unfold snd_part. intros [= H1 H2 H3 H4 H5] Hu Hr [].
  constructor; rewrite ?H1, ?H2, ?H3, ?H4, ?H5, ?Hu; done.
Qed.

Lemma snd_wf_ext k k' :
  snd_part k' = snd_part k -> snd_una k' = snd_una k -> rmt_wnd k' = rmt_wnd k ->
  snd_wf k -> snd_wf k'.
Proof.
  intros H1 Hu Hr [H Hx]. split.
  - apply (snd_loose_ext k); auto. rewrite Hr. apply H.
  - unfold snd_part in H1. injection H1 as H1 _ H3 _ _. unfold una_exact in *. by rewrite Hu, H1, H3.
Qed.

(** ** ikcp_shrink_buf makes [snd_una] exact again *)

Lemma shrink_buf_wf k : snd_loose k -> snd_wf (ikcp_shrink_buf k).
Proof.
  intros Hk. unfold ikcp_shrink_buf. destruct (snd_buf k) as [|s l] eqn:Eb.
  - split; [|unfold una_exact; cbn; by rewrite Eb].
    destruct Hk. constructor; cbn; rewrite ?Eb; auto.
    + unfold off. rewrite Z.sub_diag. done.
    + apply sn_sorted_nil.
    + by rewrite sl_nbuf0, Eb.
  - split; [|unfold una_exact; cbn; by rewrite Eb].
    destruct Hk as [H1 H2 H3 H4 H5 H6 H7 H8 H9 H10]. rewrite Eb in H4, H5, H6, H8.
    assert (Forall (fun t => off (snd_una k) (seg_sn s) <= off (snd_una k) (seg_sn t)) (s :: l)) as Hle.
    { constructor; [lia|]. destruct H4 as [Hs _]. apply StronglySorted_cons in Hs as [Hs _].
      eapply Forall_impl; [|exact Hs]. unfold sn_before. intros; lia. }
    pose proof (Forall_cons_1 _ _ _ H5) as [Hlt _].
    pose proof (off_range (snd_una k) (seg_sn s)).
    assert (off (seg_sn s) (snd_nxt k) = off (snd_una k) (snd_nxt k) - off (snd_una k) (seg_sn s)) as Hnx
      by (apply off_rebase; lia).
    constructor; cbn; rewrite ?Eb; auto.
    + destruct H4 as [_ Hn]. apply Forall_cons_1 in Hn as [[? _] _]. done.
    + lia.
    + by apply (sn_sorted_rebase (snd_una k)).
    + rewrite list.Forall_forall in H5, Hle |- *. intros t Ht.
      rewrite Hnx, (off_rebase (snd_una k)) by auto. specialize (H5 t Ht). lia.
Qed.

(** ** Acknowledgements *)

(** What matters of a segment here does not change when it is bumped. *)
Definition snd_key (s : IKCPSEG) := (seg_sn s, seg_len s, seg_data s).

(** Replacing the buffer by part of it, up to fields that do not matter. *)
Lemma snd_loose_part k buf buf' n :
  snd_loose k -> snd_key <$> buf' = snd_key <$> buf ->
  sn_sorted (snd_una k) buf -> (forall s, s ∈ buf -> s ∈ snd_buf k) -> n = u32 (zlen buf') ->
  snd_loose (k <| snd_buf := buf' |> <| nsnd_buf := n |>).
Proof.
  intros Hk Hkey Hss Hin ->.
  assert (Hback : forall s', s' ∈ buf' -> exists s, s ∈ snd_buf k /\ snd_key s' = snd_key s).
  { intros s' Hs'. assert (snd_key s' ∈ snd_key <$> buf) as Hm.
    { rewrite <- Hkey. by apply list_elem_of_fmap_2. }
    apply list_elem_of_fmap in Hm as (s & ? & ?). eauto. }
  destruct Hk as [H1 H2 H3 H4 H5 H6 H7 H8 H9 H10].
  rewrite list.Forall_forall in H5, H6. constructor; cbn; auto.
  - eapply sn_sorted_keys; [|exact Hss].
    apply (f_equal (fmap (fun x => x.1.1))) in Hkey. by rewrite <- !list_fmap_compose in Hkey.
  - apply list.Forall_forall. intros s' Hs'. destruct (Hback s' Hs') as (s & Hs & [= -> _ _]). auto.
  - apply list.Forall_forall. intros s' Hs'. destruct (Hback s' Hs') as (s & Hs & [= _ Hl Hd]).
    specialize (H6 s Hs). unfold snd_sized in *. by rewrite Hl, Hd.
Qed.

Lemma parse_una_wf k una : snd_loose k -> snd_loose (ikcp_parse_una k una).
Proof.
  intros Hk. unfold ikcp_parse_una.
  destruct (una_loop_spec una (snd_buf k) k eq_refl) as (pre & post & Hb & -> & _).
  pose proof (sl_sorted _ Hk) as Hs. rewrite Hb in Hs. apply sn_sorted_app in Hs as [_ Hs].
  apply (snd_loose_part k post post); auto.
  - intros s Hin. rewrite Hb. apply elem_of_app. auto.
  - rewrite (sl_nbuf _ Hk), Hb. destruct pre; [done|]. rewrite u32_sub_l, Z_length_app. f_equal. lia.
Qed.

Lemma bump_keys (l : list IKCPSEG) : snd_key <$> (bump <$> l) = snd_key <$> l.
Proof. by rewrite <- list_fmap_compose. Qed.

Lemma parse_ack_wf k sn : snd_loose k -> snd_loose (ikcp_parse_ack k sn).
Proof.
  intros Hk. unfold ikcp_parse_ack. case_if; [done|].
  destruct (ack_loop sn (snd_buf k)) as [buf found] eqn:E. apply ack_loop_spec in E.
  pose proof (sl_sorted _ Hk) as Hs. destruct found.
  - destruct E as (a & s & b & Hb & -> & _). rewrite Hb in Hs.
    apply (snd_loose_part k (a ++ b)); auto.
    + by rewrite !fmap_app, bump_keys.
    + by eapply sn_sorted_remove.
    + intros t. rewrite Hb, !elem_of_app, elem_of_cons. tauto.
    + cbn. rewrite (sl_nbuf _ Hk), Hb, u32_sub_l, !Z_length_app, length_fmap. f_equal. cbn. lia.
  - destruct E as [-> _].
    pose proof (snd_loose_part k (snd_buf k) (bump <$> snd_buf k) (nsnd_buf k) Hk (bump_keys _) Hs) as Hp.
    ospecialize (Hp _ _); [done| |]; [by rewrite (sl_nbuf _ Hk), length_fmap|].
    destruct Hp. by constructor.
Qed.

(** ** ikcp_send *)

Lemma send_wf m k b k' r :
  (forall z, mem_ok m z = true) -> 0 < mss k -> mss k + IKCP_OVERHEAD < 2147483648 ->
  zlen b < 2147483648 -> snd_wf k ->
  ikcp_send m k (Some b) (zlen b) = Ok (k', r) -> snd_wf k'.
Proof.
  intros Hm Hmss Hmtu Hb [Hk Hx] H. unfold ikcp_send in H. inv_run. unfold IKCP_OVERHEAD in *.
  case_if_in H; [lia|]. case_if_in H; [by injection H as <- _|].
  set (c := if _ =? 0 then _ else _) in H.
  destruct (send_loop_spec m (Z.to_nat c) b (zlen b) k) as (segs & Hsl & Hfr & Hall);
    [done|subst c; case_if; lia|lia|done|rewrite (sl_nque _ Hk); apply u32_u32|].
  rewrite Hsl in H. injection H as <- _. split; [|exact Hx].
  destruct Hk. constructor; cbn; auto.
  - apply Forall_app. split; [done|]. eapply Forall_impl; [|exact Hall].
    intros s (? & ? & _). unfold snd_sized, IKCP_OVERHEAD. lia.
  - rewrite sl_nque0, u32_add_l, Z_length_app. done.
Qed.

(** ** Flushing: segments enter the window *)

(** The window ikcp_flush uses is at most the peer's. *)
Lemma flush_cwnd_le k : flush_cwnd k <= rmt_wnd k.
Proof.
  unfold flush_cwnd. pose proof (imin_spec (snd_wnd k) (rmt_wnd k)).
  pose proof (imin_spec (cwnd k) (imin (snd_wnd k) (rmt_wnd k))). case_if; lia.
Qed.

(** The window test, as a distance. *)
Lemma in_window_off una nxt w :
  off una nxt <= 65535 -> 0 <= w <= 65535 ->
  itimediff nxt (u32 (una + w)) = off una nxt - w.
Proof.
  intros Hf Hw. pose proof (off_range una nxt).
  rewrite (itimediff_off una) by (rewrite ?off_add by lia; lia). by rewrite off_add by lia.
Qed.

Lemma off_next una nxt :
  off una nxt <= 65535 -> off una (u32 (nxt + 1)) = off una nxt + 1.
Proof. unfold off. wrap_lia. Qed.

Lemma flush_move_step_wf w wnd s q k :
  0 <= w <= 65535 -> snd_queue k = s :: q -> snd_wf k ->
  itimediff (snd_nxt k) (u32 (snd_una k + w)) < 0 ->
  snd_wf (k <| snd_queue := q |>
            <| snd_buf := snd_buf k ++
                 [s <| seg_conv := conv k |> <| seg_cmd := IKCP_CMD_PUSH |>
                    <| seg_wnd := wnd |> <| seg_ts := current k |>
                    <| seg_sn := snd_nxt k |> <| seg_una := rcv_nxt k |>
                    <| seg_resendts := current k |> <| seg_rto := u32 (rx_rto k) |>
                    <| seg_fastack := 0 |> <| seg_xmit := 0 |>] |>
            <| nsnd_que := u32 (nsnd_que k - 1) |> <| nsnd_buf := u32 (nsnd_buf k + 1) |>
            <| snd_nxt := u32 (snd_nxt k + 1) |>).
Proof.
  intros Hw Hq [[H1 H2 H3 H4 H5 H6 H7 H8 H9 H10] Hx] Hin.
  rewrite in_window_off in Hin by done. pose proof (off_next _ _ H3) as Hn.
  rewrite Hq in H7, H9. apply Forall_cons_1 in H7 as [Hs H7]. split.
  - constructor; cbn; auto.
    + apply u32_range.
    + lia.
    + apply sn_sorted_insert; rewrite ?app_nil_r; auto.
      split; cbn; [done|lia].
    + rewrite Hn. apply Forall_app. split.
      * eapply Forall_impl; [|exact H5]. cbn. intros; lia.
      * constructor; [cbn; lia|done].
    + apply Forall_app. auto.
    + rewrite H8, u32_add_l, Z_length_app. done.
    + rewrite H9, u32_sub_l. f_equal. cbn [length]. lia.
  - unfold una_exact in *. cbn. destruct (snd_buf k); done.
Qed.

Lemma flush_move_wf w wnd q k :
  0 <= w <= 65535 -> snd_queue k = q -> snd_wf k -> snd_wf (flush_move w wnd q k).
Proof.
  intros Hw. revert k. induction q as [|s q IH]; intros k Hq Hk; cbn [flush_move]; [done|].
  case_if; [|done]. apply IH; [done|]. by apply (flush_move_step_wf w).
Qed.

(** The data loop keeps number, length and data of every segment. *)
Lemma flush_emit_key wnd seg s seg' s' :
  flush_emit wnd seg s = Ok (seg', s') ->
  snd_key seg' = snd_key seg /\ same_but_xmit (f_kcp s) (f_kcp s').
Proof.
  unfold flush_emit. cbv zeta. intros H. apply run_bind_Ok in H as (s1 & Hs1 & H).
  assert (f_kcp s1 = f_kcp s) as Hk1.
  { case_if_in Hs1; [|by injection Hs1 as <-].
    apply run_bind_Ok in Hs1 as (o & _ & Hs1). by injection Hs1 as <-. }
  apply run_bind_Ok in H as (ptr & _ & H). injection H as <- <-. split; [done|].
  case_if; cbn.
  - unfold same_but_xmit. by destruct (f_kcp s).
  - rewrite Hk1. apply same_but_xmit_refl.
Qed.

Lemma flush_data_keys resent rtomin wnd buf s buf' s' :
  flush_data resent rtomin wnd buf s = Ok (buf', s') ->
  snd_key <$> buf' = snd_key <$> buf /\ same_but_xmit (f_kcp s) (f_kcp s').
Proof.
  revert s buf'. induction buf as [|t buf IH]; intros s buf' H; cbn [flush_data] in H.
  - injection H as <- <-. auto using same_but_xmit_refl.
  - apply run_bind_Ok in H as ([t' s1] & Hs1 & H).
    assert (snd_key t' = snd_key t /\ same_but_xmit (f_kcp s) (f_kcp s1)) as [Ht Hx].
    { destruct (flush_decide resent rtomin t s) as [[t1 s0]|] eqn:Ed.
      - apply flush_decide_frame in Ed as (Hx & _ & _ & Hsn & _ & Hlen & Hdat & _).
        apply flush_emit_key in Hs1 as [-> ?]. split; [|by eapply same_but_xmit_trans].
        unfold snd_key. by rewrite Hsn, Hlen, Hdat.
      - injection Hs1 as <- <-. auto using same_but_xmit_refl. }
    apply run_bind_Ok in H as ([b' s2] & Hs2 & H). injection H as <- <-.
    destruct (IH _ _ Hs2) as [Hb Hx2]. rewrite !fmap_cons, Ht, Hb.
    eauto using same_but_xmit_trans.
Qed.
