(* ===== verification/KcpFlushSpec.v ===== *)
(** * What a flush outputs

    A reference for ikcp_flush: the datagrams, concatenated, are the encodings
    of one acknowledgement per pending entry of [acklist], of the window probes
    asked for, and of the segments of [snd_buf] that are due, in this order.
    Datagrams are never empty, and never longer than the MTU if the queued
    segments fit it. *)

From S2P Require Import Prelude Codec KcpState KcpAck KcpRecv KcpSend KcpInput KcpFlush.
From S2P Require Import KcpWire KcpFrames KcpWf KcpWfSnd.

(** ** The output stream *)

(** Segments back to back. *)
Definition stream (segs : list IKCPSEG) : list byte := concat (wire <$> segs).

(** The datagrams [out] and the buffer [ptr] hold [segs], each segment whole. *)
Definition packed (segs : list IKCPSEG) (ptr : list byte) (out : list (list byte)) : Prop :=
  exists parts rest, out = stream <$> parts /\ ptr = stream rest /\ segs = concat parts ++ rest /\
    Forall (fun p => p <> []) parts.

(** [grows M ptr out segs ptr' out']: from buffer [ptr] and datagrams [out] to
    [ptr'] and [out'], the encodings of [segs] were appended, none of them cut; if
    the datagrams were at most [M] bytes long, they still are.  (From 2^30 on, the sum of two
    sizes would leave the range of [int].) *)
Record grows (M : Z) (ptr : list byte) (out : list (list byte)) (segs : list IKCPSEG)
    (ptr' : list byte) (out' : list (list byte)) : Prop := {
  gr_stream : concat out' ++ ptr' = concat out ++ ptr ++ concat (wire <$> segs);
  gr_bound : M < 1073741824 ->
    Forall (fun s => IKCP_OVERHEAD + seg_len s <= M) segs -> zlen ptr <= M ->
    Forall (fun p => 0 < zlen p <= M) out -> zlen ptr' <= M /\ Forall (fun p => 0 < zlen p <= M) out';
  gr_packed : forall segs0, packed segs0 ptr out -> packed (segs0 ++ segs) ptr' out'
}.

Lemma grows_refl M ptr out : grows M ptr out [] ptr out.
Proof.
  split; [cbn; by rewrite app_nil_r|done|]. intros segs0. by rewrite app_nil_r.
Qed.

Lemma grows_trans M p1 o1 s1 p2 o2 s2 p3 o3 :
  grows M p1 o1 s1 p2 o2 -> grows M p2 o2 s2 p3 o3 -> grows M p1 o1 (s1 ++ s2) p3 o3.
Proof.
  intros [H1 B1 P1] [H2 B2 P2]. split.
  - rewrite H2, fmap_app, concat_app, (app_assoc (concat o2)), H1. by rewrite <- !app_assoc.
  - intros HM [Hs1 Hs2]%Forall_app Hp Ho. destruct (B1 HM Hs1 Hp Ho). auto.
  - intros segs0 Hp. rewrite app_assoc. auto.
Qed.

Lemma stream_empty segs : zlen (stream segs) = 0 -> segs = [].
Proof.
  destruct segs as [|s segs]; [done|]. unfold stream. rewrite fmap_cons. cbn [concat]. unfold wire.
  rewrite !Z_length_app, length_encode_seg. lia.
Qed.

Lemma ikcp_output_Ok k ptr :
  output k = true -> ikcp_output k ptr = Ok (if zlen ptr =? 0 then [] else [ptr]).
Proof. unfold ikcp_output. intros ->. cbn. by case_if. Qed.

Lemma output_concat ptr (out : list (list byte)) :
  concat (out ++ (if zlen ptr =? 0 then [] else [ptr])) = concat out ++ ptr.
Proof.
  rewrite concat_app. case_if; cbn; [|by rewrite app_nil_r].
  destruct ptr; [done|simpl in *; lia].
Qed.

Lemma output_bound M ptr (out : list (list byte)) :
  zlen ptr <= M -> Forall (fun p => 0 < zlen p <= M) out ->
  Forall (fun p => 0 < zlen p <= M) (out ++ (if zlen ptr =? 0 then [] else [ptr])).
Proof.
  intros Hp Ho. apply Forall_app. split; [done|]. case_if; [constructor|].
  constructor; [lia|constructor].
Qed.

(** The pattern of every emission: output the buffer if [full], then append the
    encoding of [seg]. *)
Definition make_room (full : bool) (ptr : list byte) (out : list (list byte)) :=
  if full then ([], out ++ (if zlen ptr =? 0 then [] else [ptr])) else (ptr, out).

Lemma emit_grows M (full : bool) ptr out seg :
  (M < 1073741824 -> full = false -> IKCP_OVERHEAD + seg_len seg <= M -> zlen ptr <= M ->
     zlen ptr + IKCP_OVERHEAD + seg_len seg <= M) ->
  zlen (wire seg) = IKCP_OVERHEAD + seg_len seg ->
  grows M ptr out [seg] ((make_room full ptr out).1 ++ wire seg) (make_room full ptr out).2.
Proof.
  intros Hfull Hlen. unfold make_room. split.
  - destruct full; cbn; rewrite ?output_concat, ?app_nil_r; by rewrite <- ?app_assoc.
  - intros HM Hs Hp Ho. apply Forall_cons_1 in Hs as [Hs _]. destruct full; cbn [fst snd app].
    + split; [lia|by apply output_bound].
    + rewrite Z_length_app, Hlen. split; [|done]. specialize (Hfull HM eq_refl Hs Hp). lia.
  - intros segs0 (parts & rest & -> & -> & -> & Hne). destruct full; cbn [fst snd app].
    + exists (parts ++ (if zlen (stream rest) =? 0 then [] else [rest])), [seg].
      assert (stream [seg] = wire seg) as -> by (unfold stream; cbn; by rewrite app_nil_r).
      case_if; cbn [app]; rewrite ?app_nil_r.
      * rewrite (stream_empty rest) by done. by rewrite app_nil_r.
      * rewrite fmap_app, concat_app. cbn. rewrite !app_nil_r. split_and!; try done.
        apply Forall_app. split; [done|]. constructor; [|constructor]. by intros ->.
    + exists parts, (rest ++ [seg]). rewrite <- app_assoc. split_and!; try done.
      unfold stream. rewrite fmap_app, concat_app. cbn. by rewrite app_nil_r.
Qed.

Lemma wire_cmd seg : seg_len seg = 0 ->
  wire seg = ikcp_encode_seg [] seg /\ zlen (wire seg) = IKCP_OVERHEAD + seg_len seg.
Proof.
  intros H. unfold wire. rewrite H, take_0, app_nil_r, length_encode_seg. done.
Qed.

(** ** Acknowledgements and probes *)

Section Commands.
Context (k : ikcpcb) (Hout : output k = true) (Hmtu : 0 <= mtu k < 2147483648).

Lemma header_room_spec ptr out :
  exists full, flush_header_room k ptr out = Ok (make_room full ptr out) /\
    (full = false -> zlen ptr <= mtu k -> zlen ptr + IKCP_OVERHEAD <= mtu k).
Proof.
  unfold flush_header_room, IKCP_OVERHEAD.
  eexists (u32 (i32 (zlen ptr) + 24) >? u32 (i32 (mtu k))). split.
  - unfold make_room. case_if; [|done]. rewrite ikcp_output_Ok by done. done.
  - intros Hf Hp. rewrite !i32_small, !u32_small in Hf; zbool; try lia.
    all: rewrite ?i32_small in *; lia.
Qed.

Lemma emit_cmd_spec ptr out seg :
  seg_len seg = 0 ->
  exists ptr1 out', flush_header_room k ptr out = Ok (ptr1, out') /\
    grows (mtu k) ptr out [seg] (ikcp_encode_seg ptr1 seg) out'.
Proof.
  intros Hs. destruct (header_room_spec ptr out) as (full & Heq & Hroom).
  destruct (wire_cmd seg Hs) as [Hw Hl].
  exists (make_room full ptr out).1, (make_room full ptr out).2.
  split; [by destruct (make_room full ptr out)|].
  rewrite encode_seg_app, <- Hw. apply emit_grows; [|done].
  rewrite Hs. intros _ Hf _ Hp. specialize (Hroom Hf Hp). lia.
Qed.

Definition ack_seg (seg : IKCPSEG) (a : Z * Z) : IKCPSEG :=
  seg <| seg_sn := a.1 |> <| seg_ts := a.2 |>.

Lemma flush_acks_spec acks done_ todo seg ptr out :
  ack_rep acks k -> acks = done_ ++ todo -> seg_len seg = 0 ->
  exists seg' ptr' out',
    flush_acks k (length todo) (zlen done_) seg ptr out = Ok (seg', ptr', out') /\
    grows (mtu k) ptr out (ack_seg seg <$> todo) ptr' out' /\
    seg' = match list.last todo with None => seg | Some a => ack_seg seg a end.
Proof.
  intros Hrep. revert done_ seg ptr out.
  induction todo as [|[sn ts] todo IH]; intros done_ seg ptr out Hacks Hs; cbn [length flush_acks].
  - do 3 eexists. split; [reflexivity|]. split; [apply grows_refl|done].
  - destruct (emit_cmd_spec ptr out (ack_seg seg (sn, ts)) Hs) as (ptr1 & out1 & -> & Hg1).
    cbn [mbind run_bind].
    rewrite (ikcp_ack_get_spec k acks (length done_) sn ts Hrep)
      by (rewrite Hacks; by apply list_lookup_middle).
    cbn [mbind run_bind]. change (seg <| seg_sn := sn |> <| seg_ts := ts |>) with (ack_seg seg (sn, ts)).
    destruct (IH (done_ ++ [(sn, ts)]) (ack_seg seg (sn, ts))
      (ikcp_encode_seg ptr1 (ack_seg seg (sn, ts))) out1) as (seg' & ptr' & out' & He & Hg2 & ->);
      [rewrite Hacks; by rewrite <- app_assoc|done|].
    rewrite Z_length_app in He. change (zlen [(sn, ts)]) with 1 in He. rewrite He.
    do 3 eexists. split; [reflexivity|]. split.
    + exact (grows_trans _ _ _ _ _ _ _ _ _ Hg1 Hg2).
    + rewrite last_cons. by destruct (list.last todo).
Qed.

Lemma flush_wnd_cmd_spec bit cmd seg ptr out :
  seg_len seg = 0 ->
  let asked := negb (Z.land (probe k) bit =? 0) in
  let seg1 := if asked then seg <| seg_cmd := cmd |> else seg in
  exists ptr' out', flush_wnd_cmd k bit cmd seg ptr out = Ok (seg1, ptr', out') /\
    grows (mtu k) ptr out (if asked then [seg1] else []) ptr' out'.
Proof.
  intros Hs. unfold flush_wnd_cmd. cbv zeta. case_if.
  - destruct (emit_cmd_spec ptr out (seg <| seg_cmd := cmd |>)) as (p1 & o1 & -> & Hg); [done|].
    do 2 eexists. split; [reflexivity|exact Hg].
  - do 2 eexists. split; [reflexivity|apply grows_refl].
Qed.
End Commands.

(** ** Data segments *)

(** A segment as it is put on the wire. *)
Definition stamped (wnd : Z) (k : ikcpcb) (seg : IKCPSEG) : IKCPSEG :=
  seg <| seg_ts := current k |> <| seg_wnd := wnd |> <| seg_una := rcv_nxt k |>.

(** The transmission a flush makes for one segment of [snd_buf], if it is due. *)
Definition due (resent rtomin wnd : Z) (k : ikcpcb) (seg : IKCPSEG) : option IKCPSEG :=
  match flush_decide resent rtomin seg (mkF k [] [] 0 false) with
  | Some (seg, _) => Some (stamped wnd k seg)
  | None => None
  end.

Lemma decide_due resent rtomin wnd seg s :
  match flush_decide resent rtomin seg s with
  | Some (seg', s') => due resent rtomin wnd (f_kcp s) seg = Some (stamped wnd (f_kcp s') seg') /\
      same_but_xmit (f_kcp s) (f_kcp s') /\ f_ptr s' = f_ptr s /\ f_out s' = f_out s /\
      snd_key seg' = snd_key seg
  | None => due resent rtomin wnd (f_kcp s) seg = None
  end.
Proof.
  destruct (flush_decide resent rtomin seg s) as [[seg' s']|] eqn:E.
  - pose proof (flush_decide_frame _ _ _ _ _ _ E) as (Hx & Hp & Ho & Hsn & _ & Hl & Hd & _).
    split; [|split_and!; auto; unfold snd_key; by rewrite Hsn, Hl, Hd].
    unfold due, flush_decide in *. cbv zeta in *. cbn [f_kcp].
    repeat match type of E with context [if ?b then _ else _] => destruct b end;
      try discriminate E; injection E as <- <-; reflexivity.
  - unfold due, flush_decide in *. cbv zeta in *. cbn [f_kcp].
    repeat match type of E with context [if ?b then _ else _] => destruct b end; done.
Qed.

Lemma due_same resent rtomin wnd k k' seg :
  same_but_xmit k k' -> due resent rtomin wnd k' seg = due resent rtomin wnd k seg.
Proof.
  unfold same_but_xmit. intros ->. unfold due, flush_decide. cbv zeta.
  destruct (seg_xmit seg =? 0); [reflexivity|]. cbn.
  repeat (case_if; try reflexivity).
Qed.

Lemma due_list_same resent rtomin wnd k k' (buf : list IKCPSEG) :
  same_but_xmit k k' ->
  (fun t => default t (due resent rtomin wnd k' t)) <$> buf
    = (fun t => default t (due resent rtomin wnd k t)) <$> buf /\
  omap (due resent rtomin wnd k') buf = omap (due resent rtomin wnd k) buf.
Proof.
  intros Hx. induction buf as [|t buf [IH1 IH2]]; [done|].
  rewrite !fmap_cons. cbn [omap list_omap]. by rewrite IH1, IH2, (due_same _ _ _ _ _ _ Hx).
Qed.

Lemma emit_full_room a len M :
  0 <= a -> 0 <= len -> M < 1073741824 ->
  (i32 (i32 a + i32 (u32 (24 + len))) >? i32 M) = false ->
  24 + len <= M -> a <= M -> a + 24 + len <= M.
Proof.
  intros Ha Hl HM Hf H1 H2.
  rewrite (i32_small a), (u32_small (24 + len)), (i32_small (24 + len)), (i32_small M),
    i32_small in Hf by lia. zbool. lia.
Qed.

Lemma flush_emit_spec wnd seg s :
  output (f_kcp s) = true -> snd_sized seg ->
  exists s', flush_emit wnd seg s = Ok (stamped wnd (f_kcp s) seg, s') /\
    grows (mtu (f_kcp s)) (f_ptr s) (f_out s) [stamped wnd (f_kcp s) seg] (f_ptr s') (f_out s') /\
    same_but_xmit (f_kcp s) (f_kcp s').
Proof.
  intros Hout [Hlen Hr]. unfold flush_emit. cbv zeta. fold (stamped wnd (f_kcp s) seg).
  set (seg1 := stamped wnd (f_kcp s) seg).
  assert (seg_len seg1 = zlen (seg_data seg1)) as Hl1 by done.
  assert (0 <= seg_len seg1) as Hl0 by lia.
  pose proof (zlen_wire seg1 Hl1) as Hw.
  set (full := i32 (i32 (zlen (f_ptr s)) + _) >? _).
  pose proof (emit_grows (mtu (f_kcp s)) full (f_ptr s) (f_out s) seg1) as Hg.
  ospecialize (Hg _ Hw).
  { intros HM Hf H1 H2. subst full. unfold IKCP_OVERHEAD in *. eapply emit_full_room; eauto. lia. }
  clearbody full.
  set (s1 := s <| f_ptr := (make_room full (f_ptr s) (f_out s)).1 |>
               <| f_out := (make_room full (f_ptr s) (f_out s)).2 |>).
  match goal with |- context [(if full then ?x else ?y) ≫= _] =>
    assert ((if full then x else y) = Ok s1) as -> end.
  { subst s1. destruct full; cbn [make_room fst snd].
    - rewrite ikcp_output_Ok by done. reflexivity.
    - by destruct s. }
  cbn [mbind run_bind].
  match goal with |- context [(if ?c then ?x else ?y) ≫= _] =>
    assert ((if c then x else y) = Ok (f_ptr s1 ++ wire seg1)) as -> end.
  { unfold wire. rewrite encode_seg_app. case_if.
    - rewrite bool_decide_eq_true_2 by lia. by rewrite <- app_assoc.
    - replace (Z.to_nat (seg_len seg1)) with 0%nat by lia. by rewrite take_0, app_nil_r. }
  cbn [mbind run_bind]. eexists. split; [reflexivity|]. split.
  - case_if; exact Hg.
  - case_if; [unfold same_but_xmit; by destruct (f_kcp s)|apply same_but_xmit_refl].
Qed.

Lemma stamped_same wnd k k' seg : same_but_xmit k k' -> stamped wnd k' seg = stamped wnd k seg.
Proof. unfold same_but_xmit. by intros ->. Qed.

Lemma flush_data_spec resent rtomin wnd buf s :
  output (f_kcp s) = true -> Forall snd_sized buf ->
  exists s',
    flush_data resent rtomin wnd buf s
      = Ok ((fun t => default t (due resent rtomin wnd (f_kcp s) t)) <$> buf, s') /\
    grows (mtu (f_kcp s)) (f_ptr s) (f_out s) (omap (due resent rtomin wnd (f_kcp s)) buf)
      (f_ptr s') (f_out s') /\
    same_but_xmit (f_kcp s) (f_kcp s').
Proof.
  intros Hout Hb. revert s Hout. induction Hb as [|t buf Ht Hb IH]; intros s Hout; cbn [flush_data].
  - exists s. split_and!; [done|apply grows_refl|apply same_but_xmit_refl].
  - pose proof (decide_due resent rtomin wnd t s) as Hd.
    destruct (flush_decide resent rtomin t s) as [[t1 s1]|].
    + destruct Hd as (Hdue & Hx & Hp & Ho & Hkey).
      pose proof (same_but_xmit_frame _ _ Hx) as (_ & _ & _ & Hc & _). unfold cfg_part in Hc.
      injection Hc as _ Hmtu _ _ Ho1 _ _ _ _ _ _ _ _.
      destruct (flush_emit_spec wnd t1 s1) as (s2 & -> & Hg & Hx2); [by rewrite Ho1| |].
      { unfold snd_key in Hkey. injection Hkey as _ Hl Hdat. unfold snd_sized. by rewrite Hl, Hdat. }
      pose proof (same_but_xmit_trans _ _ _ Hx Hx2) as Hx3.
      pose proof (same_but_xmit_frame _ _ Hx3) as (_ & _ & _ & Hc & _). unfold cfg_part in Hc.
      injection Hc as _ Hmtu2 _ _ Ho2 _ _ _ _ _ _ _ _.
      cbn [mbind run_bind]. destruct (IH s2) as (s3 & -> & Hg2 & Hx4); [by rewrite Ho2|].
      cbn [mbind run_bind]. exists s3. rewrite fmap_cons, Hdue. cbn [default option_fmap].
      rewrite Hmtu2 in Hg2. rewrite Hmtu, Hp, Ho in Hg.
      destruct (due_list_same resent rtomin wnd _ _ buf Hx3) as [-> Heq]. rewrite Heq in Hg2.
      split_and!; [done| |by eapply same_but_xmit_trans].
      cbn [omap list_omap]. rewrite Hdue.
      exact (grows_trans _ _ _ [_] _ _ _ _ _ Hg Hg2).
    + cbn [mbind run_bind]. destruct (IH s Hout) as (s3 & -> & Hg2 & Hx4).
      cbn [mbind run_bind]. exists s3. cbn [omap list_omap]. rewrite fmap_cons, Hd. done.
Qed.

(** ** The commands of a flush *)

(** The segments written before the data: acknowledgements, then the probes
    asked for. *)
Definition command_segs (m : mem) (k : ikcpcb) (acks : list (Z * Z)) : list IKCPSEG :=
  let seg := flush_seg (mem_seg m) k in
  let last_seg := match list.last acks with None => seg | Some a => ack_seg seg a end in
  let p := probe (flush_probe (k <| ackcount := 0 |>)) in
  (ack_seg seg <$> acks) ++
  (if Z.land p IKCP_ASK_SEND =? 0 then [] else [last_seg <| seg_cmd := IKCP_CMD_WASK |>]) ++
  (if Z.land p IKCP_ASK_TELL =? 0 then [] else [last_seg <| seg_cmd := IKCP_CMD_WINS |>]).

Lemma flush_commands_spec m k acks :
  output k = true -> 0 <= mtu k < 2147483648 -> ack_rep acks k -> zlen acks < 2147483648 ->
  exists seg ptr out,
    flush_commands m k
      = Ok ((flush_probe (k <| ackcount := 0 |>)) <| probe := 0 |>, seg, ptr, out) /\
    grows (mtu k) [] [] (command_segs m k acks) ptr out /\
    seg_wnd seg = u32 (ikcp_wnd_unused k).
Proof.
  intros Hout Hmtu Hrep Hn. unfold flush_commands.
  set (seg0 := flush_seg (mem_seg m) k).
  destruct (flush_acks_spec k Hout Hmtu acks [] acks seg0 [] []) as (seg1 & p1 & o1 & Ha & Hg1 & Hs1);
    [done..|].
  destruct Hrep as [Hc _]. rewrite Hc, i32_small, Nat2Z.id by lia.
  cbn [length] in Ha. change (Z.of_nat 0) with 0 in Ha. rewrite Ha. cbn [mbind run_bind].
  set (k1 := flush_probe (k <| ackcount := 0 |>)).
  destruct (flush_probe_frame (k <| ackcount := 0 |>)) as (_ & _ & _ & Hcfg & _). fold k1 in Hcfg.
  unfold cfg_part in Hcfg. injection Hcfg as _ Hm _ _ Ho _ _ _ _ _ _ _ _. cbn in Hm, Ho.
  assert (seg_len seg1 = 0 /\ seg_wnd seg1 = u32 (ikcp_wnd_unused k)) as [Hl1 Hw1]
    by (rewrite Hs1; by destruct (list.last acks)).
  destruct (flush_wnd_cmd_spec k1 (eq_trans Ho Hout) ltac:(by rewrite Hm)
    IKCP_ASK_SEND IKCP_CMD_WASK seg1 p1 o1 Hl1) as (p2 & o2 & -> & Hg2).
  set (asked1 := negb _) in *. cbn [mbind run_bind].
  set (seg2 := if asked1 then _ else seg1) in *.
  assert (seg_len seg2 = 0 /\ seg_wnd seg2 = u32 (ikcp_wnd_unused k)) as [Hl2 Hw2]
    by (subst seg2; by destruct asked1).
  destruct (flush_wnd_cmd_spec k1 (eq_trans Ho Hout) ltac:(by rewrite Hm)
    IKCP_ASK_TELL IKCP_CMD_WINS seg2 p2 o2 Hl2) as (p3 & o3 & -> & Hg3).
  set (asked2 := negb (Z.land _ IKCP_ASK_TELL =? 0)) in *. cbn [mbind run_bind].
  rewrite Hm in Hg2, Hg3. do 3 eexists. split; [|split].
  - reflexivity.
  - pose proof (grows_trans _ _ _ _ _ _ _ _ _ Hg1 (grows_trans _ _ _ _ _ _ _ _ _ Hg2 Hg3)) as Hg.
    unfold command_segs. fold seg0 k1. rewrite <- Hs1.
    subst seg2 asked1 asked2. clear -Hg.
    destruct (Z.land (probe k1) IKCP_ASK_SEND =? 0), (Z.land (probe k1) IKCP_ASK_TELL =? 0); exact Hg.
  - by destruct asked2.
Qed.

(** ** The whole flush *)

(** The control block after the commands, and after the window was filled. *)
Definition after_commands (k : ikcpcb) : ikcpcb :=
  (flush_probe (k <| ackcount := 0 |>)) <| probe := 0 |>.
Definition after_move (k : ikcpcb) : ikcpcb :=
  flush_move (flush_cwnd (after_commands k)) (u32 (ikcp_wnd_unused k)) (snd_queue k) (after_commands k).
(** The decision for a segment of [snd_buf]. *)
Definition due_now (k : ikcpcb) : IKCPSEG -> option IKCPSEG :=
  due (flush_resent (after_move k)) (flush_rtomin (after_move k)) (u32 (ikcp_wnd_unused k)) (after_move k).
(** All segments a flush writes. *)
Definition flush_segs (m : mem) (k : ikcpcb) (acks : list (Z * Z)) : list IKCPSEG :=
  command_segs m k acks ++ omap (due_now k) (snd_buf (after_move k)).

Lemma after_commands_frame k :
  snd_part (after_commands k) = snd_part k /\ rcv_part (after_commands k) = rcv_part k /\
  cfg_part (after_commands k) = cfg_part k /\ snd_una (after_commands k) = snd_una k /\
  rmt_wnd (after_commands k) = rmt_wnd k /\ rx_rto (after_commands k) = rx_rto k /\
  acklist (after_commands k) = acklist k /\ ackblock (after_commands k) = ackblock k /\
  ackcount (after_commands k) = 0 /\ current (after_commands k) = current k /\
  cwnd (after_commands k) = cwnd k.
Proof.
  unfold after_commands.
  destruct (flush_probe_frame (k <| ackcount := 0 |>)) as (? & ? & Ha & ? & ? & ? & ? & ? & _ & ?).
  unfold ack_part in Ha. injection Ha as ? ? ?. split_and!; assumption.
Qed.

Lemma flush_run m k acks :
  output k = true -> 0 <= mtu k < 2147483648 -> ack_rep acks k -> zlen acks < 2147483648 ->
  updated k <> 0 -> Forall snd_sized (snd_buf (after_move k)) ->
  exists ks c l ptr o,
    same_but_xmit (after_move k) ks /\
    grows (mtu k) [] [] (flush_segs m k acks) ptr o /\
    ikcp_flush m k = Ok
      (flush_ssthresh
         (ks <| snd_buf := (fun t => default t (due_now k t)) <$> snd_buf (after_move k) |>)
         (flush_resent (after_move k)) (flush_cwnd (after_commands k)) c l,
       if i32 (zlen ptr) >? 0 then o ++ [ptr] else o).
Proof.
  intros Hout Hmtu Hrep Hn Hup Hsz. unfold ikcp_flush. rewrite (proj2 (Z.eqb_neq _ _) Hup).
  destruct (flush_commands_spec m k acks Hout Hmtu Hrep Hn) as (seg & ptr & out & -> & Hg & Hw).
  cbn [mbind run_bind]. fold (after_commands k). rewrite Hw.
  destruct (after_commands_frame k) as (Hsp & _ & Hcf & _).
  assert (snd_queue (after_commands k) = snd_queue k) as ->.
  { unfold snd_part in Hsp. by injection Hsp. }
  fold (after_move k).
  destruct (flush_move_frame (flush_cwnd (after_commands k)) (u32 (ikcp_wnd_unused k)) (snd_queue k)
    (after_commands k)) as (_ & _ & Hcf2 & _). fold (after_move k) in Hcf2. rewrite Hcf in Hcf2.
  unfold cfg_part in Hcf2. injection Hcf2 as _ Hm _ _ Ho _ _ _ _ _ _ _ _.
  destruct (flush_data_spec (flush_resent (after_move k)) (flush_rtomin (after_move k))
    (u32 (ikcp_wnd_unused k)) (snd_buf (after_move k)) (mkF (after_move k) ptr out 0 false))
    as (s & -> & Hg2 & Hx); [cbn; by rewrite Ho|done|].
  cbn [mbind run_bind f_kcp f_ptr f_out] in *. rewrite Hm in Hg2.
  exists (f_kcp s), (f_change s), (f_lost s), (f_ptr s), (f_out s).
  split; [done|]. split; [exact (grows_trans _ _ _ _ _ _ _ _ _ Hg Hg2)|].
  fold (due_now k).
  set (k3 := (f_kcp s) <| snd_buf := _ |>).
  assert (output k3 = true) as Ho3.
  { subst k3. cbn. apply same_but_xmit_frame in Hx as (_ & _ & _ & Hc & _). unfold cfg_part in Hc.
    injection Hc as _ _ _ _ Hc _ _ _ _ _ _ _ _. by rewrite Hc, Ho. }
  case_if; [|reflexivity]. rewrite (ikcp_output_Ok k3) by done.
  rewrite (proj2 (Z.eqb_neq (zlen (f_ptr s)) 0)); [reflexivity|].
  intros Hz. rewrite Hz in *. by vm_compute in Heqb.
Qed.

(** ** Filling the window *)

(** The [i]-th segment taken from [snd_queue], as it enters [snd_buf]. *)
Definition number (wnd : Z) (k : ikcpcb) (i : nat) (s : IKCPSEG) : IKCPSEG :=
  s <| seg_conv := conv k |> <| seg_cmd := IKCP_CMD_PUSH |>
    <| seg_wnd := wnd |> <| seg_ts := current k |>
    <| seg_sn := u32 (snd_nxt k + Z.of_nat i) |> <| seg_una := rcv_nxt k |>
    <| seg_resendts := current k |> <| seg_rto := u32 (rx_rto k) |>
    <| seg_fastack := 0 |> <| seg_xmit := 0 |>.

Lemma flush_move_spec w wnd q k :
  0 <= w <= 65535 -> snd_queue k = q -> snd_wf k ->
  let k' := flush_move w wnd q k in
  exists pre, q = pre ++ snd_queue k' /\
    snd_buf k' = snd_buf k ++ imap (number wnd k) pre /\
    off (snd_una k) (snd_nxt k') = off (snd_una k) (snd_nxt k) + zlen pre /\
    (snd_queue k' = [] \/ w <= off (snd_una k) (snd_nxt k')).
Proof.
  intros Hw. cbv zeta. revert k. induction q as [|s q IH]; intros k Hq Hk; cbn [flush_move].
  - exists []. cbn. rewrite Hq, app_nil_r, Z.add_0_r. split_and!; auto.
  - destruct (itimediff _ _ <? 0) eqn:E; zbool.
    + cbn zeta. match goal with |- context [flush_move w wnd q ?x] => set (k1 := x) end.
      assert (snd_wf k1) as Hk1 by (by apply (flush_move_step_wf w wnd s q k)).
      destruct (IH k1 eq_refl Hk1) as (pre & H1 & H2 & H3 & H4).
      exists (s :: pre). pose proof (sl_nxt _ (proj1 Hk)) as Hn.
      change (snd_una k1) with (snd_una k) in H3, H4.
      change (snd_nxt k1) with (u32 (snd_nxt k + 1)) in H3.
      rewrite (off_next _ _ (sl_flight _ (proj1 Hk))) in H3. split_and!.
      * cbn [app]. by rewrite <- H1.
      * rewrite H2. change (snd_buf k1) with (snd_buf k ++ [(number wnd k 0 s) <| seg_sn := snd_nxt k |>]).
        rewrite imap_cons, <- app_assoc. cbn [app]. apply (f_equal (app (snd_buf k))), (f_equal2 cons).
        -- unfold number. cbn. by rewrite Z.add_0_r, (u32_small (snd_nxt k)).
        -- apply imap_ext. intros i t _. unfold number. cbn. rewrite u32_add_l.
           by replace (snd_nxt k + 1 + Z.of_nat i) with (snd_nxt k + Z.of_nat (S i)) by lia.
      * rewrite H3. cbn [length]. lia.
      * done.
    + exists []. cbn. rewrite Hq, app_nil_r, Z.add_0_r. split_and!; auto.
      right. rewrite in_window_off in E by (done || apply Hk). lia.
Qed.

Lemma flush_move_bound w wnd q k :
  0 <= w <= 65535 -> snd_queue k = q -> snd_wf k ->
  off (snd_una k) (snd_nxt (flush_move w wnd q k)) <= Z.max w (off (snd_una k) (snd_nxt k)).
Proof.
  intros Hw. revert k. induction q as [|s q IH]; intros k Hq Hk; cbn [flush_move]; [lia|].
  case_if; [|lia]. cbn zeta.
  match goal with |- context [flush_move w wnd q ?x] => set (k1 := x) end.
  assert (snd_wf k1) as Hk1 by (by apply (flush_move_step_wf w wnd s q k)).
  specialize (IH k1 eq_refl Hk1). change (snd_una k1) with (snd_una k) in IH.
  change (snd_nxt k1) with (u32 (snd_nxt k + 1)) in IH.
  rewrite (off_next _ _ (sl_flight _ (proj1 Hk))) in IH.
  rewrite in_window_off in * by (done || apply Hk). lia.
Qed.
