(* ===== verification/KcpSafety.v ===== *)
(** * Memory safety and the invariant of the control block

    [kcp_wf] is the invariant of IKCPCB.  Every public operation, fed with any
    bytes from the network, returns (no failed assertion, no read outside a
    packet or of an uninitialised acknowledgement, no division by zero) and
    preserves it, as long as memory is available. *)

From S2P Require Import Prelude Codec KcpState KcpAck KcpRecv KcpSend KcpInput KcpFlush.
From S2P Require Import KcpWire KcpFrames KcpTransfer KcpSystem KcpWf KcpWfSnd KcpFlushSpec.

Record cfg_wf (k : ikcpcb) : Prop := {
  cw_mtu : 50 <= mtu k < 2147483648;
  cw_mss : mss k = mtu k - IKCP_OVERHEAD;
  cw_buffer : buffer k = u32 (u32 (mtu k + IKCP_OVERHEAD) * 3);
  cw_sndwnd : 0 <= snd_wnd k < 2147483648;
  cw_interval : 2 <= interval k <= 5000;
  cw_minrto : 30 <= rx_minrto k <= 100
}.

(** The retransmission time-out and the congestion window. *)
Definition clk_wf (k : ikcpcb) : Prop := 30 <= rx_rto k <= IKCP_RTO_MAX /\ 0 <= cwnd k.

Lemma clk_wf_ext k k' : rx_rto k' = rx_rto k -> cwnd k' = cwnd k -> clk_wf k -> clk_wf k'.
Proof. unfold clk_wf. by intros -> ->. Qed.

Record kcp_wf (k : ikcpcb) : Prop := {
  kw_rcv : rcv_wf k;
  kw_snd : snd_wf k;
  kw_ack : exists acks, ack_rep acks k /\ zlen acks < 2147483648;
  kw_cfg : cfg_wf k;
  kw_clk : clk_wf k
}.

Lemma cfg_wf_ext k k' : cfg_part k' = cfg_part k -> cfg_wf k -> cfg_wf k'.
Proof.
  unfold cfg_part. intros [= ? ? ? ? ? ? ? ? ? ? ? ? ?] []. constructor; congruence.
Qed.

Lemma ack_rep_ext acks k k' : ack_part k' = ack_part k -> ack_rep acks k -> ack_rep acks k'.
Proof. unfold ack_part, ack_rep. intros [= -> -> ->]. done. Qed.

Lemma cfg_part_wnd k k' : cfg_part k' = cfg_part k -> rcv_wnd k' = rcv_wnd k.
Proof. unfold cfg_part. by intros [= ]. Qed.

(** Steps that leave the parts alone preserve the invariant. *)
Lemma kcp_wf_ext k k' :
  snd_part k' = snd_part k -> rcv_part k' = rcv_part k -> ack_part k' = ack_part k ->
  cfg_part k' = cfg_part k -> snd_una k' = snd_una k -> rmt_wnd k' = rmt_wnd k ->
  clk_wf k' -> kcp_wf k -> kcp_wf k'.
Proof.
  intros Hs Hr Ha Hc Hu Hw Ht [H1 H2 (acks & H3 & H4) H5 _]. constructor.
  - eapply rcv_wf_ext; eauto using cfg_part_wnd.
  - by eapply snd_wf_ext.
  - exists acks. eauto using ack_rep_ext.
  - by eapply cfg_wf_ext.
  - done.
Qed.

(** ** Creation and configuration *)

Lemma create_wf m c u k : ikcp_create m c u = Some k -> kcp_wf k.
Proof.
  unfold ikcp_create. destruct (mem_ok m sizeof_IKCPCB); [|done]. cbn [negb].
  case_if; [done|]. intros [= <-]. constructor.
  - constructor; cbn; try done; try lia. apply sn_sorted_nil.
  - split; [|done]. constructor; cbn; try done; try lia. apply sn_sorted_nil.
  - exists []. done.
  - by constructor; vm_compute.
  - by vm_compute.
Qed.

Lemma setmtu_wf m k mtu' : kcp_wf k -> kcp_wf (ikcp_setmtu m k (i32 mtu')).1.
Proof.
  intros Hk. unfold ikcp_setmtu. case_if; [done|]. case_if; [done|].
  pose proof (i32_range mtu'). set (mt := i32 mtu') in *. clearbody mt.
  destruct Hk as [[] [[] ?] ? [] ?]. constructor; [by constructor| |done| |done].
  - split; [by constructor|done].
  - cbn. unfold IKCP_OVERHEAD in *. constructor; cbn; rewrite ?(u32_small mt) by lia; try done; try lia.
    unfold IKCP_OVERHEAD. rewrite u32_small by lia. lia.
Qed.

Lemma output_wf k : kcp_wf k -> kcp_wf (k <| output := true |>).
Proof.
  intros [[] [[] ?] ? [] ?]. by constructor; [constructor|split; [constructor|]|..|constructor|].
Qed.

Lemma clamp_interval_range i : 2 <= clamp_interval i <= 5000.
Proof. unfold clamp_interval. repeat case_if; lia. Qed.

Lemma interval_wf k i : kcp_wf k -> kcp_wf (ikcp_interval k i).1.
Proof.
  intros [[] [[] ?] ? [] ?]. pose proof (clamp_interval_range i).
  constructor; [by constructor|by split; [constructor|]|done|by constructor|done].
Qed.

Lemma nodelay_wf k a b c d : kcp_wf k -> kcp_wf (ikcp_nodelay k a b c d).1.
Proof.
  intros Hk. unfold ikcp_nodelay. pose proof (clamp_interval_range b) as Hi.
  set (ci := clamp_interval b) in *. clearbody ci. cbn [fst].
  assert (Hgen : forall k', snd_part k' = snd_part k -> rcv_part k' = rcv_part k ->
    ack_part k' = ack_part k -> snd_una k' = snd_una k -> rmt_wnd k' = rmt_wnd k ->
    rcv_wnd k' = rcv_wnd k -> rx_rto k' = rx_rto k -> cwnd k' = cwnd k -> cfg_wf k' -> kcp_wf k').
  { destruct Hk as [H1 H2 (acks & H3 & H4) H5 H6]. intros k' ? ? ? ? ? ? Hr Hcw ?. constructor.
    - by eapply rcv_wf_ext.
    - by eapply snd_wf_ext.
    - exists acks. eauto using ack_rep_ext.
    - done.
    - by apply (clk_wf_ext k). }
  destruct Hk as [_ _ _ [] _].
  apply Hgen; by frame_cases.
Qed.

Lemma wndsize_wf k s r : kcp_wf k -> kcp_wf (ikcp_wndsize k (i32 s) (i32 r)).1.
Proof.
  intros [[] [[] ?] ? [] ?]. unfold ikcp_wndsize. pose proof (i32_range r). pose proof (i32_range s).
  set (r' := i32 r) in *. set (s' := i32 s) in *. clearbody r' s'. cbn [fst].
  destruct (s' >? 0) eqn:E', (r' >? 0) eqn:E; zbool;
    (constructor; [constructor; cbn; done || lia|by split; [constructor|]|done
                  |constructor; cbn; done || lia|done]).
Qed.

(** ** ikcp_input on arbitrary bytes *)

Lemma input_ack_wf k h : kcp_wf k -> kcp_wf (input_ack k h).
Proof.
  intros Hk. unfold input_ack.
  set (k1 := if (_ : bool) then _ else k).
  assert (kcp_wf k1) as Hk1.
  { subst k1. case_if; [|done].
    set (rtt := itimediff _ _). destruct (update_ack_frame k rtt) as (? & ? & ? & ? & ? & ? & Hcw).
    apply (kcp_wf_ext k); [done..| |done]. pose proof (cw_minrto _ (kw_cfg _ Hk)).
    pose proof (ikcp_update_ack_bounds k rtt). destruct (kw_clk _ Hk).
    unfold clk_wf. rewrite Hcw. unfold IKCP_RTO_MAX in *. lia. }
  clearbody k1. pose proof (kw_snd _ Hk1) as [Hl _]. pose proof (parse_ack_wf k1 (h_sn h) Hl) as Hp.
  apply shrink_buf_wf in Hp.
  assert (rcv_part (ikcp_parse_ack k1 (h_sn h)) = rcv_part k1 /\
    ack_part (ikcp_parse_ack k1 (h_sn h)) = ack_part k1 /\
    cfg_part (ikcp_parse_ack k1 (h_sn h)) = cfg_part k1 /\
    rx_rto (ikcp_parse_ack k1 (h_sn h)) = rx_rto k1 /\ cwnd (ikcp_parse_ack k1 (h_sn h)) = cwnd k1)
    as (F1 & F2 & F3 & F4 & F5).
  { unfold ikcp_parse_ack. case_if; [done|]. destruct (ack_loop _ _) as [b f]. by destruct f. }
  destruct (shrink_buf_frame (ikcp_parse_ack k1 (h_sn h))) as (_ & S1 & S2 & S3 & _ & S4 & S5).
  destruct Hk1 as [H1 H2 (acks & H3 & H4) H5 H6]. constructor.
  - eapply rcv_wf_ext; [by rewrite S1|by apply cfg_part_wnd; rewrite S3|done].
  - done.
  - exists acks. split; [|done]. eapply ack_rep_ext; [by rewrite S2|done].
  - eapply cfg_wf_ext; [by rewrite S3|done].
  - by apply (clk_wf_ext k1); [rewrite S4|rewrite S5|].
Qed.

(** The part common to all commands: the remote window and [una]. *)
Lemma input_una_wf k wnd una :
  0 <= wnd < 65536 -> kcp_wf k ->
  let k' := ikcp_shrink_buf (ikcp_parse_una (k <| rmt_wnd := wnd |>) una) in
  kcp_wf k' /\ ack_part k' = ack_part k /\ conv k' = conv k.
Proof.
  intros Hw Hk. cbv zeta. set (k0 := k <| rmt_wnd := wnd |>).
  assert (snd_loose k0) as Hl by (apply (snd_loose_ext k); [done..|apply Hk]).
  apply (parse_una_wf k0 una) in Hl. apply shrink_buf_wf in Hl.
  assert (rcv_part (ikcp_parse_una k0 una) = rcv_part k /\ ack_part (ikcp_parse_una k0 una) = ack_part k /\
    cfg_part (ikcp_parse_una k0 una) = cfg_part k /\ rx_rto (ikcp_parse_una k0 una) = rx_rto k /\
    cwnd (ikcp_parse_una k0 una) = cwnd k) as (F1 & F2 & F3 & F4 & F5).
  { unfold ikcp_parse_una. destruct (una_loop_spec una (snd_buf k0) k0 eq_refl) as (? & ? & _ & -> & _). done. }
  destruct (shrink_buf_frame (ikcp_parse_una k0 una)) as (_ & S1 & S2 & S3 & _ & S4 & S5).
  rewrite F1 in S1. rewrite F2 in S2. rewrite F3 in S3. split; [|split; [done|]].
  - destruct Hk as [H1 H2 (acks & H3 & H4) H5 H6]. constructor.
    + eapply rcv_wf_ext; eauto using cfg_part_wnd.
    + done.
    + exists acks. eauto using ack_rep_ext.
    + by eapply cfg_wf_ext.
    + by apply (clk_wf_ext k); [rewrite S4|rewrite S5|].
  - unfold cfg_part in S3. by injection S3.
Qed.

(** A segment decoded from the wire. *)
Definition header_ok (h : header) : Prop :=
  0 <= h_len h < 4294967296 /\ 0 <= h_wnd h < 65536 /\ 0 <= h_frg h < 256 /\
  0 <= h_sn h < 4294967296.

Section Input.
Context (m : mem) (Hm : forall z, mem_ok m z = true).

Lemma push_seg_sized h data :
  header_ok h -> h_len h <= zlen data ->
  exists raw, ikcp_segment_new m (h_len h) = Some raw /\
    seg_sized (push_seg raw h data) /\ seg_sn (push_seg raw h data) = h_sn h.
Proof.
  intros (Hl & _ & Hf & _) Hle. unfold ikcp_segment_new. rewrite Hm.
  eexists. split; [reflexivity|]. split; [|done]. unfold seg_sized. cbn.
  split_and!; try lia. case_if.
  - rewrite length_take. lia.
  - replace (Z.to_nat (h_len h)) with 0%nat by lia. rewrite resize_0. cbn. lia.
Qed.

Lemma input_push_wf k h data :
  kcp_wf k -> header_ok h -> h_len h <= zlen data -> ackcount k < 2147483647 ->
  exists k', input_push m k h data = Ok k' /\ kcp_wf k' /\ conv k' = conv k /\
    ackcount k <= ackcount k' <= ackcount k + 1.
Proof.
  intros Hk Hh Hle Hac. unfold input_push. case_if; [|exists k; split_and!; done || lia].
  pose proof (kw_ack _ Hk) as (acks & Hrep & Hn). pose proof Hrep as [Hc _].
  destruct (ikcp_ack_push_spec m k acks (h_sn h) (h_ts h) Hm Hrep) as (k1 & -> & Hrep1 & Hsame); [lia|].
  cbn [mbind run_bind]. apply same_but_acks_frame in Hsame as (F1 & F2 & F3 & F4).
  pose proof Hrep1 as [Hc1 _]. rewrite Z_length_app in Hc1. cbn in Hc1.
  assert (kcp_wf k1) as Hk1.
  { destruct Hk as [H1 H2 _ H5 H6]. unfold clk_part in F4.
    injection F4 as ? _ _ _ ? Hcw _ _ Ht _ _ _ _ _. constructor.
    - eapply rcv_wf_ext; eauto using cfg_part_wnd.
    - by eapply snd_wf_ext.
    - eexists. split; [exact Hrep1|]. rewrite Z_length_app. cbn. lia.
    - by eapply cfg_wf_ext.
    - by apply (clk_wf_ext k). }
  assert (conv k1 = conv k) as Hcv by (unfold cfg_part in F3; by injection F3).
  case_if; [|exists k1; split_and!; done || lia].
  destruct (push_seg_sized h data Hh Hle) as (raw & -> & Hsz & Hsn).
  rewrite bool_decide_eq_true_2 by done. cbn [c_require mbind run_bind].
  eexists. split; [reflexivity|].
  destruct (parse_data_frame k1 (push_seg raw h data)) as (G1 & G2 & G3 & G4).
  split; [|split].
  - unfold clk_part in G4. injection G4 as ? _ _ _ ? Hcw _ _ Ht _ _ _ _ _.
    destruct Hk1 as [H1 H2 (acks1 & H3 & H4) H5 H6]. constructor.
    + apply parse_data_wf; [done..|]. rewrite Hsn. apply Hh.
    + by eapply snd_wf_ext.
    + exists acks1. eauto using ack_rep_ext.
    + by eapply cfg_wf_ext.
    + by apply (clk_wf_ext k1).
  - unfold cfg_part in G3. injection G3 as -> . done.
  - unfold ack_part in G2. injection G2 as _ -> _. lia.
Qed.

Lemma input_seg_wf k h data :
  kcp_wf k -> header_ok h -> h_len h <= zlen data -> ackcount k < 2147483647 ->
  exists k', input_seg m k h data = Ok k' /\ kcp_wf k' /\ conv k' = conv k /\
    ackcount k <= ackcount k' <= ackcount k + 1.
Proof.
  intros Hk Hh Hle Hac. unfold input_seg. cbv zeta.
  destruct (input_una_wf k (h_wnd h) (h_una h)) as (Hk1 & Ha & Hcv); [apply Hh|done|].
  set (k1 := ikcp_shrink_buf _) in *. clearbody k1.
  assert (ackcount k1 = ackcount k) as Hac1 by (unfold ack_part in Ha; by injection Ha).
  repeat case_if.
  - exists (input_ack k1 h). split; [done|]. split; [by apply input_ack_wf|].
    assert (ack_part (input_ack k1 h) = ack_part k1 /\ conv (input_ack k1 h) = conv k1) as [E1 E2]
      by apply input_ack_frame.
    unfold ack_part in E1. injection E1 as _ -> _. rewrite E2. split; [done|lia].
  - destruct (input_push_wf k1 h data) as (k2 & ? & ? & ? & ?); [done..|lia|].
    exists k2. split_and!; auto; congruence || lia.
  - eexists. split; [reflexivity|]. split; [by apply (kcp_wf_ext k1); [..|apply Hk1|]|].
    split; [done|cbn; lia].
  - exists k1. split_and!; done || lia.
Qed.

Lemma input_loop_wf fuel k data :
  kcp_wf k -> (length data < fuel)%nat -> ackcount k + zlen data < 2147483648 ->
  exists k' ret, input_loop m fuel k data (zlen data) = Ok (k', ret) /\ kcp_wf k' /\
    (ret = None \/ ret = Some (-1) \/ ret = Some (-2) \/ ret = Some (-3)) /\
    ackcount k <= ackcount k' <= ackcount k + zlen data.
Proof.
  revert k data. induction fuel as [|fuel IH]; intros k data Hk Hf Hac; [lia|].
  cbn [input_loop]. unfold IKCP_OVERHEAD. case_if.
  { exists k, None. split_and!; auto; lia. }
  destruct (decode_header_total data) as (c & tail & h & rest & Hd1 & Hd2 & Hlen & Hh); [lia|].
  rewrite Hd1. cbn [mbind run_bind]. case_if.
  { exists k, (Some (-1)). split_and!; auto; lia. }
  rewrite Hd2. cbn [mbind run_bind]. case_if.
  { exists k, (Some (-2)). split_and!; auto; lia. }
  case_if.
  { exists k, (Some (-3)). split_and!; auto; lia. }
  destruct (input_seg_wf k h rest) as (k1 & -> & Hk1 & _ & Hac1); [done..|lia|lia|].
  cbn [mbind run_bind].
  replace (zlen data - 24 - h_len h) with (zlen (drop (Z.to_nat (h_len h)) rest))
    by (rewrite length_drop; destruct Hh; lia).
  destruct (IH k1 (drop (Z.to_nat (h_len h)) rest)) as (k2 & ret & -> & Hk2 & Hr & Hac2);
    rewrite ?length_drop in *; [done|lia..|].
  exists k2, ret. split_and!; auto; lia.
Qed.

Lemma input_cwnd_cwnd k una k' :
  0 <= rmt_wnd k -> input_cwnd k una = Ok k' -> cwnd k' = cwnd k \/ 0 <= cwnd k'.
Proof.
  intros Hr H. unfold input_cwnd in H. case_if_in H; [|injection H as <-; by left].
  case_if_in H; [|injection H as <-; by left]. cbv zeta in H.
  apply run_bind_Ok in H as (k1 & Hk1 & H). injection H as <-.
  assert ((cwnd k1 = cwnd k \/ 0 <= cwnd k1) /\ rmt_wnd k1 = rmt_wnd k) as [Hc Hrk].
  { pose proof (u32_range (cwnd k + 1)) as Hu. case_if_in Hk1.
    - injection Hk1 as <-. cbn. split; [lia|done].
    - case_if_in Hk1; [done|]. injection Hk1 as <-.
      destruct (incr k <? mss k); cbn; case_if; cbn; split; auto; lia. }
  case_if; cbn; [right; lia|done].
Qed.

Lemma input_cwnd_Ok k una : 0 < mss k -> exists k', input_cwnd k una = Ok k'.
Proof.
  intros Hmss. unfold input_cwnd. case_if; [|eauto]. case_if; [|eauto]. cbv zeta.
  case_if; [cbn [mbind run_bind]; eauto|].
  set (k1 := if incr k <? mss k then _ else k).
  assert ((incr k1 =? 0) = false) as ->; [|cbn [mbind run_bind]; eauto].
  apply Z.eqb_neq. subst k1. destruct (incr k <? mss k) eqn:E; zbool; cbn; lia.
Qed.
End Input.

Lemma input_cwnd_wf k una k' : kcp_wf k -> input_cwnd k una = Ok k' -> kcp_wf k'.
Proof.
  intros Hk Hc. pose proof (input_cwnd_cwnd _ _ _ (proj1 (sl_rmt _ (proj1 (kw_snd _ Hk)))) Hc) as Hcw.
  apply input_cwnd_frame in Hc as (? & ? & ? & ? & ? & ? & Ht). apply (kcp_wf_ext k); try done.
  destruct (kw_clk _ Hk). split; [by rewrite Ht|lia].
Qed.

Lemma kcp_wf_mss k : kcp_wf k -> 0 < mss k.
Proof.
  intros Hk. pose proof (cw_mss _ (kw_cfg _ Hk)). pose proof (cw_mtu _ (kw_cfg _ Hk)). unfold IKCP_OVERHEAD in *. lia.
Qed.

Lemma input_wf m k data :
  (forall z, mem_ok m z = true) -> kcp_wf k -> ackcount k + zlen data < 2147483648 ->
  exists k' r, ikcp_input m k (Some data) (zlen data) = Ok (k', r) /\ kcp_wf k' /\
    (r = 0 \/ r = -1 \/ r = -2 \/ r = -3) /\
    ackcount k <= ackcount k' <= ackcount k + zlen data.
Proof.
  intros Hm Hk Hac. unfold ikcp_input. case_if; [exists k, 0; split_and!; auto; lia|].
  destruct (input_loop_wf m Hm (S (length data)) k data Hk) as (k1 & ret & -> & Hk1 & Hr & Hac1); [lia..|].
  cbn [mbind run_bind].
  destruct ret as [ret|].
  - exists k1, ret. split_and!; auto; [|lia..].
    destruct Hr as [Hr|[Hr|[Hr|Hr]]]; [done|injection Hr as ->; auto..].
  - destruct (input_cwnd_Ok k1 (snd_una k)) as (k2 & Hc); [by apply kcp_wf_mss|].
    rewrite Hc. cbn [mbind run_bind]. exists k2, 0. split; [done|]. split; [by eapply input_cwnd_wf|].
    apply input_cwnd_frame in Hc as (_ & _ & Ha & _). apply ack_part_count in Ha. split; [auto|lia].
Qed.

(** ** ikcp_flush *)

Lemma after_commands_wf k : kcp_wf k -> kcp_wf (after_commands k).
Proof.
  intros [H1 H2 (acks & H3 & H4) H5 H6].
  destruct (after_commands_frame k) as (? & ? & ? & ? & ? & Ht & Hal & Hab & Hac & _ & Hcw).
  constructor.
  - eapply rcv_wf_ext; eauto using cfg_part_wnd.
  - by eapply snd_wf_ext.
  - exists []. split; [|done]. split; [done|]. rewrite Hal, Hab. destruct H3 as [_ H3].
    destruct (acklist k) as [a|]; [|by destruct H3].
    destruct H3 as (rest & -> & Hlen). exists (flat acks ++ rest). done.
  - by eapply cfg_wf_ext.
  - by apply (clk_wf_ext k).
Qed.

Lemma flush_cwnd_range k : kcp_wf k -> 0 <= flush_cwnd k <= 65535.
Proof.
  intros Hk. destruct (kw_clk _ Hk) as [_ H1]. pose proof (cw_sndwnd _ (kw_cfg _ Hk)) as H2. pose proof (sl_rmt _ (proj1 (kw_snd _ Hk))) as Hr. unfold flush_cwnd.
  pose proof (imin_spec (snd_wnd k) (rmt_wnd k)).
  pose proof (imin_spec (cwnd k) (imin (snd_wnd k) (rmt_wnd k))). case_if; lia.
Qed.

Lemma after_move_wf k : kcp_wf k -> kcp_wf (after_move k).
Proof.
  intros Hk. pose proof (after_commands_wf k Hk) as Hc. unfold after_move.
  pose proof (flush_cwnd_range _ Hc) as Hw.
  assert (snd_queue (after_commands k) = snd_queue k) as Hq.
  { destruct (after_commands_frame k) as (Hsp & _). unfold snd_part in Hsp. by injection Hsp. }
  pose proof (flush_move_wf _ (u32 (ikcp_wnd_unused k)) (snd_queue k) _ Hw Hq (kw_snd _ Hc)) as Hs.
  destruct (flush_move_frame (flush_cwnd (after_commands k)) (u32 (ikcp_wnd_unused k)) (snd_queue k)
    (after_commands k)) as (F1 & F2 & F3 & F4).
  unfold clk_part in F4. injection F4 as _ _ _ _ _ Hcw _ _ Ht _ _ _ _ _.
  destruct Hc as [H1 H2 (acks & H3 & H4) H5 H6]. constructor.
  - eapply rcv_wf_ext; eauto using cfg_part_wnd.
  - done.
  - exists acks. eauto using ack_rep_ext.
  - by eapply cfg_wf_ext.
  - by eapply clk_wf_ext.
Qed.

Lemma flush_ssthresh_cwnd k r w c l : 0 <= cwnd k -> 1 <= cwnd (flush_ssthresh k r w c l).
Proof.
  intros H. unfold flush_ssthresh. cbv zeta.
  match goal with |- _ <= cwnd (if cwnd ?x <? 1 then _ else _) => set (k1 := x) end.
  clearbody k1. case_if; [cbn; lia|lia].
Qed.

Lemma due_keys resent rtomin wnd k (buf : list IKCPSEG) :
  snd_key <$> ((fun t => default t (due resent rtomin wnd k t)) <$> buf) = snd_key <$> buf.
Proof.
  rewrite <- list_fmap_compose. apply list_fmap_ext. intros i t _. cbn.
  pose proof (decide_due resent rtomin wnd t (mkF k [] [] 0 false)) as Hd. cbn [f_kcp] in Hd.
  destruct (flush_decide _ _ _ _) as [[t' s']|]; [|by rewrite Hd].
  destruct Hd as (-> & _ & _ & _ & Hkey). exact Hkey.
Qed.

Lemma flush_wf m k :
  kcp_wf k -> output k = true ->
  exists k' out, ikcp_flush m k = Ok (k', out) /\ kcp_wf k' /\ output k' = true.
Proof.
  intros Hk Hout. destruct (Z.eq_dec (updated k) 0) as [Hu|Hu].
  { exists k, []. unfold ikcp_flush. by rewrite Hu. }
  pose proof (after_move_wf k Hk) as Hmv.
  destruct (kw_ack _ Hk) as (acks & Hrep & Hn).
  destruct (flush_run m k acks) as (ks & c & l & ptr & o & Hx & _ & ->);
    [done|pose proof (cw_mtu _ (kw_cfg _ Hk)); lia|done..|apply (kw_snd _ Hmv)|].
  do 2 eexists. split; [reflexivity|].
  match goal with |- kcp_wf (flush_ssthresh ?x ?a ?b ?d ?e) /\ _ => set (k3 := x);
    destruct (flush_ssthresh_frame k3 a b d e) as (F1 & F2 & F3 & F4 & F5 & F6 & F7 & _);
    pose proof (flush_ssthresh_cwnd k3 a b d e) as Hcw end.
  apply same_but_xmit_frame in Hx as (G1 & G2 & G3 & G4 & G5 & _ & G6 & G7 & G8 & _).
  assert (kcp_wf ks) as Hks.
  { apply (kcp_wf_ext (after_move k)); [done..| |done]. eapply clk_wf_ext; [..|apply Hmv]; done. }
  assert (snd_wf k3) as Hs3.
  { destruct (kw_snd _ Hks) as [Hl Hx].
    assert (snd_buf ks = snd_buf (after_move k)) as Hb by (unfold snd_part in G1; by injection G1).
    pose proof (due_keys (flush_resent (after_move k)) (flush_rtomin (after_move k))
      (u32 (ikcp_wnd_unused k)) (after_move k) (snd_buf (after_move k))) as Hkeys.
    fold (due_now k) in Hkeys. split.
    - pose proof (snd_loose_part ks (snd_buf ks)
        ((fun t => default t (due_now k t)) <$> snd_buf (after_move k)) (nsnd_buf ks) Hl) as Hp.
      rewrite <- Hb in Hp, Hkeys.
      ospecialize (Hp Hkeys (sl_sorted _ Hl) _ _); [done|by rewrite (sl_nbuf _ Hl), length_fmap|].
      destruct Hp. subst k3. rewrite <- Hb. by constructor.
    - unfold una_exact in *. subst k3. cbn. rewrite Hb in Hx.
      destruct (snd_buf (after_move k)) as [|t b]; [done|]. rewrite !fmap_cons in Hkeys |- *.
      injection Hkeys as Hsn _ _ _. by rewrite Hsn. }
  assert (kcp_wf k3) as Hk3.
  { destruct Hks. constructor; [by apply (rcv_wf_ext ks)|done|done|by apply (cfg_wf_ext ks)|done]. }
  split.
  - apply (kcp_wf_ext k3); [done..| |done]. destruct (kw_clk _ Hk3) as [? ?].
    split; [by rewrite F7|]. ospecialize (Hcw _); [done|lia].
  - unfold cfg_part in F4. injection F4 as _ _ _ _ -> _ _ _ _ _ _ _ _.
    unfold cfg_part in G4. injection G4 as _ _ _ _ Ho _ _ _ _ _ _ _ _.
    change (output k3) with (output ks). rewrite Ho.
    destruct (flush_move_frame (flush_cwnd (after_commands k)) (u32 (ikcp_wnd_unused k)) (snd_queue k)
      (after_commands k)) as (_ & _ & Hc & _). fold (after_move k) in Hc.
    destruct (after_commands_frame k) as (_ & _ & Hc2 & _). rewrite Hc2 in Hc.
    unfold cfg_part in Hc. injection Hc as _ _ _ _ -> _ _ _ _ _ _ _ _. done.
Qed.

Lemma update_wf m k now :
  kcp_wf k -> output k = true ->
  exists k' out, ikcp_update m k now = Ok (k', out) /\ kcp_wf k' /\ output k' = true.
Proof.
  intros Hk Hout. unfold ikcp_update. cbv zeta.
  set (k1 := if updated _ =? 0 then _ else _).
  assert (kcp_wf k1 /\ output k1 = true) as [Hk1 Ho1].
  { split; [|subst k1; by case_if]. apply (kcp_wf_ext k); try done; try (subst k1; by case_if).
    apply (clk_wf_ext k); try (subst k1; by case_if). apply Hk. }
  clearbody k1.
  set (ks := if _ || _ then _ else _).
  assert (kcp_wf ks.1 /\ output ks.1 = true) as [Hks Hos].
  { split; [|subst ks; by case_if]. apply (kcp_wf_ext k1); try done; try (subst ks; by case_if).
    apply (clk_wf_ext k1); try (subst ks; by case_if). apply Hk1. }
  destruct ks as [k2 slap]. cbn [fst] in Hks, Hos.
  case_if; [|eauto]. apply flush_wf; [|by case_if].
  apply (kcp_wf_ext k2); try done; try (by case_if).
  apply (clk_wf_ext k2); try (by case_if). apply Hks.
Qed.
