(* ===== verification/KcpTheorems.v ===== *)
(** * Theorems about the KCP core

    Safety of every call of src/util/ikcp.c on arbitrary input, and the output of
    a flush. *)

From stdpp Require Import sorting sets.
From S2P Require Import Prelude Codec KcpState KcpAck KcpRecv KcpSend KcpInput KcpFlush.
From S2P Require Import KcpWire KcpFrames KcpTransfer KcpSystem KcpWf KcpWfSnd KcpFlushSpec KcpSafety.

(** ** Safety *)

(** What a caller owes: message lengths fit [int], and fewer than 2^31
    acknowledgements are pending. *)
Definition call_ok (inbox : list (list byte)) (o : op) (k : ikcpcb) : bool :=
  match o with
  | Op_send msg => zlen msg <? 2147483648
  | Op_input i =>
      match inbox !! i with
      | Some p => ackcount k + zlen p <? 2147483648
      | None => true
      end
  | _ => true
  end.

Lemma send_safe m k msg :
  (forall z, mem_ok m z = true) -> kcp_wf k -> zlen msg < 2147483648 ->
  exists k' r, ikcp_send m k (Some msg) (zlen msg) = Ok (k', r) /\ kcp_wf k' /\ cfg_part k' = cfg_part k.
Proof.
  intros Hm Hk Hmsg. destruct (kw_cfg _ Hk) as [Hmtu Hmss _ _ _ _]. unfold IKCP_OVERHEAD in Hmss.
  assert (exists k' r, ikcp_send m k (Some msg) (zlen msg) = Ok (k', r) /\ cfg_part k' = cfg_part k /\
    rcv_part k' = rcv_part k /\ ack_part k' = ack_part k /\ rx_rto k' = rx_rto k /\ cwnd k' = cwnd k)
    as (k' & r & Heq & Hc & Hr & Ha & Ht & Hcw).
  { unfold ikcp_send. assert ((mss k >? 0) = true) as -> by (apply Z.gtb_lt; lia).
    cbn [c_assert mbind run_bind]. case_if; [eauto 10|]. case_if; [eauto 10|].
    set (c := if _ =? 0 then _ else _).
    destruct (send_loop_spec m (Z.to_nat c) msg (zlen msg) k) as (segs & -> & _ & _);
      [done|subst c; case_if; lia|lia|done|rewrite (sl_nque _ (proj1 (kw_snd _ Hk))); apply u32_u32|].
    do 2 eexists. split; [reflexivity|]. done. }
  exists k', r. split; [done|]. split; [|done].
  destruct Hk as [H1 H2 (acks & H3 & H4) H5 H6]. constructor.
  - eapply rcv_wf_ext; eauto using cfg_part_wnd.
  - eapply send_wf; [done| | | |exact H2|exact Heq]; unfold IKCP_OVERHEAD; lia.
  - exists acks. eauto using ack_rep_ext.
  - by eapply cfg_wf_ext.
  - by eapply clk_wf_ext.
Qed.

Lemma recv_safe k copy len :
  kcp_wf k -> exists k' out r, ikcp_recv k copy len = Ok (k', out, r) /\ kcp_wf k' /\
    cfg_part k' = cfg_part k.
Proof.
  intros Hk. destruct (ikcp_recv_total k copy len) as (k' & out & r & Heq); [apply Hk|].
  exists k', out, r. split; [done|]. pose proof (recv_frame _ _ _ _ _ _ Heq) as [Hs Hc].
  split; [|done]. pose proof (recv_wf _ _ _ _ _ _ (kw_rcv _ Hk) Heq) as Hr.
  destruct (recv_clk _ _ _ _ _ _ Heq) as (Ha & Hu & Hw & Ht & Hcw).
  destruct Hk as [H1 H2 (acks & H3 & H4) H5 H6]. constructor.
  - done.
  - by eapply snd_wf_ext.
  - exists acks. eauto using ack_rep_ext.
  - by eapply cfg_wf_ext.
  - by eapply clk_wf_ext.
Qed.

Lemma cfg_part_output k k' : cfg_part k' = cfg_part k -> output k' = output k.
Proof. unfold cfg_part. by intros [= ]. Qed.

Lemma exec_safe m inbox o e :
  (forall z, mem_ok m z = true) -> kcp_wf (ep_kcp e) -> output (ep_kcp e) = true ->
  call_ok inbox o (ep_kcp e) = true ->
  exists e', exec m inbox o e = Ok e' /\ kcp_wf (ep_kcp e') /\ output (ep_kcp e') = true.
Proof.
  intros Hm Hk Ho Hok. destruct e as [k sent got out]. cbn [ep_kcp] in *.
  destruct o; cbn [exec call_ok] in *.
  - eexists. split; [reflexivity|]. split; [by apply output_wf|done].
  - rewrite Hok. cbn [c_require mbind run_bind]. zbool.
    destruct (send_safe m k msg Hm Hk Hok) as (k' & r & -> & Hk' & Hc). cbn [mbind run_bind].
    eexists. split; [reflexivity|]. split; [done|]. cbn. by rewrite (cfg_part_output _ _ Hc).
  - destruct (recv_safe k true (i32 len) Hk) as (k' & msg & r & -> & Hk' & Hc). cbn [mbind run_bind].
    eexists. split; [reflexivity|]. split; [done|]. cbn. by rewrite (cfg_part_output _ _ Hc).
  - destruct (inbox !! i) as [p|]; [|by eexists]. zbool.
    destruct (input_wf m k p Hm Hk Hok) as (k' & r & Heq & Hk' & _). rewrite Heq. cbn [mbind run_bind].
    eexists. split; [reflexivity|]. split; [done|]. cbn.
    by rewrite (cfg_part_output _ _ (input_cfg _ _ _ _ _ _ Heq)).
  - destruct (update_wf m k (u32 now) Hk Ho) as (k' & o & -> & Hk' & Ho'). cbn [mbind run_bind]. by eexists.
  - destruct (flush_wf m k Hk Ho) as (k' & o & -> & Hk' & Ho'). cbn [mbind run_bind]. by eexists.
  - eexists. split; [reflexivity|]. split; [by apply setmtu_wf|]. cbn. unfold ikcp_setmtu.
    by repeat case_if.
  - eexists. split; [reflexivity|]. split; [by apply interval_wf|done].
  - eexists. split; [reflexivity|]. split; [by apply nodelay_wf|]. cbn [ep_kcp].
    unfold ikcp_nodelay. cbn [fst]. frame_cases.
  - eexists. split; [reflexivity|]. split; [by apply wndsize_wf|]. cbn [ep_kcp].
    unfold ikcp_wndsize. cbn [fst]. frame_cases.
Qed.

(** A sequence of calls, each with the datagrams available to it. *)
Fixpoint calls (m : mem) (cs : list (list (list byte) * op)) (e : endpoint) : run endpoint :=
  match cs with
  | [] => Ok e
  | (inbox, o) :: cs =>
      if call_ok inbox o (ep_kcp e) then e ← exec m inbox o e; calls m cs e else Undef
  end.

Lemma calls_wf m cs e e' :
  (forall z, mem_ok m z = true) -> kcp_wf (ep_kcp e) -> output (ep_kcp e) = true ->
  calls m cs e = Ok e' -> kcp_wf (ep_kcp e').
Proof.
  intros Hm. revert e. induction cs as [|[inbox o] cs IH]; intros e Hk Ho H; cbn [calls] in H.
  - by injection H as <-.
  - case_if_in H; [|done]. destruct (exec_safe m inbox o e Hm Hk Ho) as (e1 & He & Hk1 & Ho1); [done|].
    rewrite He in H. by apply (IH e1).
Qed.

(** The endpoint after [cs], unchanged if they go wrong. *)
Definition after_calls (m : mem) (cs : list (list (list byte) * op)) (e : endpoint) : endpoint :=
  match calls m cs e with Ok e' => e' | _ => e end.

Lemma after_calls_wf m cs e :
  (forall z, mem_ok m z = true) -> kcp_wf (ep_kcp e) -> output (ep_kcp e) = true ->
  kcp_wf (ep_kcp (after_calls m cs e)).
Proof.
  intros Hm Hk Ho. unfold after_calls. destruct (calls m cs e) eqn:E; [|done..]. by eapply calls_wf.
Qed.


(** Garbage of the length of a header, with the right conversation id. *)
Definition demo_garbage : list byte := ikcp_encode32u [] 7 ++ replicate 40 Byte.xff.
Definition demo_open : ikcpcb := demo_kcp <| output := true |>.

Lemma demo_open_wf : kcp_wf demo_open.
Proof. apply output_wf, (create_wf demo_mem 7 0 demo_kcp). vm_compute. reflexivity. Qed.


(** ** What a flush outputs *)

Lemma command_segs_len m k acks : Forall (fun s => seg_len s = 0) (command_segs m k acks).
Proof.
  unfold command_segs. repeat apply Forall_app_2.
  - apply Forall_fmap. apply list.Forall_forall. done.
  - case_if; [constructor|]. constructor; [|constructor]. by destruct (list.last acks).
  - case_if; [constructor|]. constructor; [|constructor]. by destruct (list.last acks).
Qed.

Lemma due_key resent rtomin wnd k t t' :
  due resent rtomin wnd k t = Some t' -> snd_key t' = snd_key t.
Proof.
  intros H. pose proof (decide_due resent rtomin wnd t (mkF k [] [] 0 false)) as Hd. cbn [f_kcp] in Hd.
  destruct (flush_decide _ _ _ _) as [[t1 s1]|]; [|congruence].
  destruct Hd as (Hd & _ & _ & _ & <-). rewrite H in Hd. by injection Hd as ->.
Qed.

(** Filling the window keeps a property of the segments' lengths. *)
Lemma after_move_len (P : Z -> Prop) k :
  kcp_wf k -> Forall (fun s => P (seg_len s)) (snd_queue k ++ snd_buf k) ->
  Forall (fun s => P (seg_len s)) (snd_buf (after_move k)).
Proof.
  intros Hk [Hq Hb]%Forall_app. pose proof (after_commands_wf k Hk) as Hc.
  destruct (after_commands_frame k) as (Hsp & _). apply snd_part_eq in Hsp as (_ & Hq' & Hb').
  destruct (flush_move_spec (flush_cwnd (after_commands k)) (u32 (ikcp_wnd_unused k)) (snd_queue k)
    (after_commands k) (flush_cwnd_range _ Hc) Hq' (kw_snd _ Hc)) as (pre & H1 & H2 & _).
  fold (after_move k) in H1, H2. rewrite H2, Hb'. apply Forall_app. split; [done|].
  rewrite H1 in Hq. apply Forall_app in Hq as [Hq _].
  apply Forall_lookup. intros i s Hs. rewrite list_lookup_imap in Hs.
  apply fmap_Some in Hs as (t & Ht & ->). rewrite Forall_lookup in Hq. exact (Hq _ _ Ht).
Qed.

Lemma flush_segs_fit m k acks :
  kcp_wf k -> Forall (fun s => seg_len s <= mss k) (snd_queue k ++ snd_buf k) ->
  Forall (fun s => IKCP_OVERHEAD + seg_len s <= mtu k) (flush_segs m k acks).
Proof.
  intros Hk Hfit. pose proof (cw_mss _ (kw_cfg _ Hk)) as Hmss. pose proof (cw_mtu _ (kw_cfg _ Hk)).
  unfold IKCP_OVERHEAD in *. apply Forall_app. split.
  - eapply Forall_impl; [|apply command_segs_len]. intros s ->. lia.
  - pose proof (after_move_len (fun l => l <= mss k) k Hk Hfit) as Hb.
    apply list.Forall_forall. intros s Hs. apply list_elem_of_omap in Hs as (t & Ht & Hd).
    apply due_key in Hd. unfold snd_key in Hd. injection Hd as _ -> _.
    rewrite list.Forall_forall in Hb. specialize (Hb t Ht). lia.
Qed.

Lemma flush_end_frame k ks buf r w c l :
  same_but_xmit (after_move k) ks ->
  ackcount (flush_ssthresh (ks <| snd_buf := buf |>) r w c l) = 0 /\
  probe (flush_ssthresh (ks <| snd_buf := buf |>) r w c l) = 0.
Proof.
  intros Hx. set (k3 := ks <| snd_buf := buf |>).
  assert (probe (flush_ssthresh k3 r w c l) = probe k3) as -> by (unfold flush_ssthresh; frame_cases).
  destruct (flush_ssthresh_frame k3 r w c l) as (_ & _ & Ha & _).
  apply ack_part_count in Ha as ->. subst k3.
  change (ackcount (ks <| snd_buf := buf |>)) with (ackcount ks).
  change (probe (ks <| snd_buf := buf |>)) with (probe ks).
  unfold same_but_xmit in Hx. rewrite Hx.
  set (x := xmit ks). set (y := state ks). clearbody x y. clear Hx.
  change (ackcount ((after_move k) <| xmit := x |> <| state := y |>)) with (ackcount (after_move k)).
  change (probe ((after_move k) <| xmit := x |> <| state := y |>)) with (probe (after_move k)).
  destruct (flush_move_frame (flush_cwnd (after_commands k)) (u32 (ikcp_wnd_unused k)) (snd_queue k)
    (after_commands k)) as (_ & Hm & _ & Hc). fold (after_move k) in Hm, Hc.
  apply ack_part_count in Hm as ->. apply clk_part_probe in Hc as ->.
  split; [|done]. by destruct (after_commands_frame k) as (_ & _ & _ & _ & _ & _ & _ & _ & -> & _).
Qed.


(** Two pending acknowledgements, an answer to a window probe and an 80-byte
    message, at the smallest MTU. *)
Definition demo_peer_out : list (list byte) :=
  match calls demo_mem [([], Op_nodelay 1 10 2 1); ([], Op_send (demo_msg 5)); ([], Op_send (demo_msg 6));
                        ([], Op_update 100)] (fresh demo_open) with
  | Ok e => ep_out e ++
      [ikcp_encode_seg [] (mkSeg 7 IKCP_CMD_WASK 0 32 0 0 0 0 0 0 0 0 [])]
  | _ => []
  end.
Definition demo_busy_calls : list (list (list byte) * op) :=
  [([], Op_setmtu 50); ([], Op_nodelay 1 10 2 1); ([], Op_update 99);
   (demo_peer_out, Op_input 0); (demo_peer_out, Op_input 1); ([], Op_send (demo_msg 80))].
Definition demo_busy : ikcpcb := ep_kcp (after_calls demo_mem demo_busy_calls (fresh demo_open)).

Lemma demo_busy_wf : kcp_wf demo_busy.
Proof. unfold demo_busy. apply after_calls_wf; [done|exact demo_open_wf|reflexivity]. Qed.

