(* ===== verification/KcpSession.v ===== *)
(** * The interface between KCP and its users

    What the server and the client libraries use of a control block, as a class
    of operations ([KcpSession]) with the guarantees their safety relies on
    ([KcpSafe]).  The implementation by src/util/ikcp.c is the instance at the
    end. *)

From S2P Require Import Prelude Codec KcpState KcpAck KcpRecv KcpSend KcpInput KcpFlush.
From S2P Require Import KcpFrames KcpTransfer KcpSystem KcpWf KcpWfSnd KcpFlushSpec KcpSafety KcpTheorems.

(** ** The operations *)

(** [ks_create conv interval]: a control block with the output callback
    installed and configured by ikcp_nodelay(kcp, 1, interval, 1, 1); [None] when
    there is no memory.  [ks_update] returns the datagrams passed to the
    callback.  [ks_backlog] counts the segments held for the application; it is
    no operation of the code, but bounds its receive loops. *)
Class KcpSession (K : Type) := {
  ks_create : Z -> Z -> option K;
  ks_conv : K -> Z;
  ks_send : K -> list byte -> run (K * Z);
  ks_recv : K -> Z -> run (K * list byte * Z);
  ks_input : K -> list byte -> run (K * Z);
  ks_update : K -> Z -> run (K * list (list byte));
  ks_backlog : K -> nat
}.

(** ** The guarantees *)

(** [ks_ok] is the invariant of a control block, [ks_pending] the number of
    acknowledgements not yet sent, which an input of [n] bytes increases by at
    most [n].  A receive that returns a message uses up some of the backlog; the
    message fits into the buffer. *)
Class KcpSafe (K : Type) `{KcpSession K} := {
  ks_ok : K -> Prop;
  ks_pending : K -> Z;
  ks_create_ok c i : exists k, ks_create c i = Some k /\ ks_ok k /\ ks_conv k = c /\ ks_pending k = 0;
  ks_send_ok k b : ks_ok k -> zlen b < 2147483648 ->
    exists k' r, ks_send k b = Ok (k', r) /\ ks_ok k' /\ ks_conv k' = ks_conv k /\
      ks_pending k' = ks_pending k;
  ks_recv_ok k n : ks_ok k -> 0 <= n ->
    exists k' out r, ks_recv k n = Ok (k', out, r) /\ ks_ok k' /\ ks_conv k' = ks_conv k /\
      ks_pending k' = ks_pending k /\ (r < 0 -> k' = k) /\
      (0 <= r -> (ks_backlog k' < ks_backlog k)%nat) /\ r <= n;
  ks_input_ok k d : ks_ok k -> ks_pending k + zlen d < 2147483648 ->
    exists k' r, ks_input k d = Ok (k', r) /\ ks_ok k' /\ ks_conv k' = ks_conv k /\
      ks_pending k' <= ks_pending k + zlen d;
  ks_update_ok k now : ks_ok k ->
    exists k' out, ks_update k now = Ok (k', out) /\ ks_ok k' /\ ks_conv k' = ks_conv k /\
      ks_pending k' <= ks_pending k
}.

(** ** The implementation *)

Section Ikcp.
Context (m : mem).

Definition open_kcp (c i : Z) : option ikcpcb :=
  match ikcp_create m c 0 with
  | Some k => Some (ikcp_nodelay (k <| output := true |>) 1 i 1 1).1
  | None => None
  end.

Definition backlog (k : ikcpcb) : nat := (length (rcv_queue k) + length (rcv_buf k))%nat.

#[export] Instance ikcp_session : KcpSession ikcpcb := {
  ks_create := open_kcp;
  ks_conv := conv;
  ks_send := fun k b => ikcp_send m k (Some b) (zlen b);
  ks_recv := fun k n => ikcp_recv k true n;
  ks_input := fun k d => ikcp_input m k (Some d) (zlen d);
  ks_update := fun k now => ikcp_update m k (u32 now);
  ks_backlog := backlog
}.

(** ikcp_flush and ikcp_update keep the conversation id and only clear
    acknowledgements. *)
Lemma flush_conv k k' out :
  kcp_wf k -> ikcp_flush m k = Ok (k', out) -> cfg_part k' = cfg_part k /\ ackcount k' <= ackcount k.
Proof.
  intros Hk H. unfold ikcp_flush in H. case_if_in H; [injection H as <- _; split; [done|lia]|].
  apply run_bind_Ok in H as ([[[k1 seg] ptr] o1] & Hc & H).
  assert (cfg_part k1 = cfg_part k /\ ackcount k1 = 0) as [H1 H2].
  { unfold flush_commands in Hc.
    apply run_bind_Ok in Hc as ([[? ?] ?] & _ & Hc). apply run_bind_Ok in Hc as ([[? ?] ?] & _ & Hc).
    apply run_bind_Ok in Hc as ([[? ?] ?] & _ & Hc). apply Ok_inj in Hc.
    pose proof (flush_probe_frame (k <| ackcount := 0 |>)) as (_ & _ & Ha & Hcf & _).
    apply ack_part_count in Ha. change (cfg_part (k <| ackcount := 0 |>)) with (cfg_part k) in Hcf.
    change (ackcount (k <| ackcount := 0 |>)) with 0 in Ha.
    set (kp := flush_probe _) in *. clearbody kp.
    assert (k1 = kp <| probe := 0 |>) as -> by congruence. done. }
  destruct (flush_move_frame (flush_cwnd k1) (seg_wnd seg) (snd_queue k1) k1) as (_ & Ha & Hcf & _).
  set (k2 := flush_move _ _ _ _) in *. clearbody k2. apply ack_part_count in Ha.
  apply run_bind_Ok in H as ([buf s] & Hd & H). apply flush_data_keys in Hd as [_ Hx].
  cbn [f_kcp] in Hx. apply run_bind_Ok in H as (o2 & _ & H). apply Ok_inj in H.
  set (ks := f_kcp s) in *. clearbody ks.
  apply same_but_xmit_frame in Hx as (_ & _ & Hxa & Hxc & _). apply ack_part_count in Hxa.
  match type of H with (_, _) = (flush_ssthresh ?x ?a ?b ?c ?d, _) =>
    destruct (flush_ssthresh_frame x a b c d) as (_ & _ & E3 & E4 & _);
    change (cfg_part x) with (cfg_part ks) in E4; apply ack_part_count in E3;
    change (ackcount x) with (ackcount ks) in E3;
    set (kz := flush_ssthresh x a b c d) in * end.
  clearbody kz. injection H as -> _.
  split; [congruence|]. destruct (kw_ack _ Hk) as (acks & [Hac _] & _). lia.
Qed.

Lemma update_conv k now k' out :
  kcp_wf k -> ikcp_update m k now = Ok (k', out) -> cfg_part k' = cfg_part k /\ ackcount k' <= ackcount k.
Proof.
  intros Hk H. unfold ikcp_update in H. cbv zeta in H.
  set (k1 := if updated _ =? 0 then _ else _) in H.
  assert (kcp_wf k1 /\ cfg_part k1 = cfg_part k /\ ackcount k1 = ackcount k) as (Hk1 & Hc1 & Ha1).
  { split; [|subst k1; by case_if]. apply (kcp_wf_ext k); try done; try (subst k1; by case_if).
    apply (clk_wf_ext k); try (subst k1; by case_if). apply Hk. }
  clearbody k1.
  set (ks := if _ || _ then _ else _) in H.
  assert (kcp_wf ks.1 /\ cfg_part ks.1 = cfg_part k1 /\ ackcount ks.1 = ackcount k1) as (Hks & Hc2 & Ha2).
  { split; [|subst ks; by case_if]. apply (kcp_wf_ext k1); try done; try (subst ks; by case_if).
    apply (clk_wf_ext k1); try (subst ks; by case_if). apply Hk1. }
  destruct ks as [k2 slap]. cbn [fst] in *.
  case_if_in H; [|injection H as <- _; split; [congruence|lia]].
  apply flush_conv in H as [Hc3 Ha3].
  - rewrite <- Hc1, <- Hc2, Hc3, <- Ha1, <- Ha2. split; [by case_if|]. revert Ha3. by case_if.
  - apply (kcp_wf_ext k2); try done; try (by case_if).
    apply (clk_wf_ext k2); try (by case_if). apply Hks.
Qed.

Lemma move_loop_backlog buf k : rcv_buf k = buf -> backlog (move_loop buf k) = backlog k.
Proof.
  revert k. induction buf as [|s buf IH]; intros k Hb; cbn [move_loop]; [done|]. case_if; [|done].
  rewrite IH by done. unfold backlog. cbn. rewrite Hb, length_app. cbn. lia.
Qed.

Lemma recv_merge_shorter copy ispeek s q out len n :
  (length (recv_merge copy ispeek (s :: q) out len n).1.2 < length (s :: q))%nat.
Proof.
  revert s out len n. induction q as [|s' q IH]; intros s out len n; cbn [recv_merge].
  - case_if; cbn; lia.
  - case_if; [cbn; lia|]. etrans; [apply IH|]. cbn. lia.
Qed.

Lemma recv_backlog k n k' out r :
  0 <= n -> ikcp_recv k true n = Ok (k', out, r) -> 0 <= r -> (backlog k' < backlog k)%nat.
Proof.
  intros Hn H Hr. unfold ikcp_recv in H. destruct (rcv_queue k) as [|s0 q0] eqn:Eq; [injection H as _ _ <-; lia|].
  case_if_in H; [injection H as _ _ <-; lia|]. case_if_in H; [injection H as _ _ <-; lia|].
  pose proof (recv_merge_shorter true (n <? 0) s0 q0 [] 0 (nrcv_que k)) as Hs.
  destruct (recv_merge _ _ _ _ _ _) as [[[o l] rest] n']. cbn [fst snd] in Hs.
  apply run_bind_Ok in H as (u & _ & H). injection H as <- _ _.
  rewrite (proj2 (Z.ltb_ge n 0)) by lia.
  match goal with |- context [move_avail ?x] =>
    pose proof (move_loop_backlog (rcv_buf x) x eq_refl) as Hm; fold (move_avail x) in Hm;
    assert (backlog x < backlog k)%nat as Hx by (unfold backlog; cbn -[length]; rewrite Eq; lia);
    set (k1 := move_avail x) in *; clearbody k1 end.
  rewrite <- Hm in Hx. by case_if.
Qed.

Lemma recv_fits k n k' out r : 0 <= n -> ikcp_recv k true n = Ok (k', out, r) -> r <= n.
Proof.
  intros Hn H. unfold ikcp_recv in H. destruct (rcv_queue k) as [|s0 q0]; [injection H as _ _ <-; lia|].
  rewrite (proj2 (Z.ltb_ge n 0)) in H by lia.
  case_if_in H; [injection H as _ _ <-; lia|]. rewrite Z.gtb_ltb in H.
  destruct (n <? ikcp_peeksize k) eqn:E; [injection H as _ _ <-; lia|]. zbool.
  destruct (recv_merge _ _ _ _ _ _) as [[[o l] rest] n'].
  apply run_bind_Ok in H as (u & Hu & H). unfold c_assert in Hu.
  destruct (l =? ikcp_peeksize k) eqn:El; [|done]. zbool. injection H as _ _ <-. lia.
Qed.

Context (Hm : forall z, mem_ok m z = true).

Lemma open_kcp_ok c i : exists k, open_kcp c i = Some k /\ (kcp_wf k /\ output k = true) /\
  conv k = c /\ ackcount k = 0.
Proof.
  unfold open_kcp. pose proof (create_wf m c 0) as Hwf. unfold ikcp_create in *. rewrite !Hm in *.
  cbn [negb] in *. specialize (Hwf _ eq_refl). eexists. split; [reflexivity|].
  set (k := {| conv := c |}) in *.
  assert (kcp_wf (k <| output := true |>)) as Hk.
  { destruct Hwf as [[] [[] ?] ? [] ?].
    by constructor; [constructor|split; [constructor|]|..|constructor|]. }
  split; [split; [by apply nodelay_wf|]|split].
  all: unfold ikcp_nodelay; cbn [fst]; frame_cases.
Qed.

#[export] Program Instance ikcp_safe : KcpSafe ikcpcb := {
  ks_ok := fun k => kcp_wf k /\ output k = true;
  ks_pending := ackcount
}.
Next Obligation. intros c i. apply open_kcp_ok. Qed.
Next Obligation.
  intros k b [Hk Ho] Hb. destruct (send_safe m k b Hm Hk Hb) as (k' & r & Heq & Hk' & Hc).
  exists k', r. cbn. split; [done|]. rewrite (cfg_part_output _ _ Hc), (cfg_part_conv _ _ Hc).
  split; [done|]. split; [done|]. by apply send_ackcount in Heq.
Qed.
Next Obligation.
  intros k n [Hk Ho] Hn. destruct (recv_safe k true n Hk) as (k' & out & r & Heq & Hk' & Hc).
  exists k', out, r. cbn. split; [done|]. rewrite (cfg_part_output _ _ Hc), (cfg_part_conv _ _ Hc).
  destruct (recv_clk _ _ _ _ _ _ Heq) as (Ha & _). apply ack_part_count in Ha.
  split; [done|]. split; [done|]. split; [done|]. split; [intros Hr; by eapply recv_negative|].
  split; [by apply (recv_backlog k n k' out r)|by eapply recv_fits].
Qed.
Next Obligation.
  intros k d [Hk Ho] Hd. destruct (input_wf m k d Hm Hk Hd) as (k' & r & Heq & Hk' & _ & Ha).
  exists k', r. cbn. pose proof (input_cfg _ _ _ _ _ _ Heq) as Hc.
  rewrite (cfg_part_output _ _ Hc), (cfg_part_conv _ _ Hc). split_and!; try done. lia.
Qed.
Next Obligation.
  intros k now [Hk Ho]. destruct (update_wf m k (u32 now) Hk Ho) as (k' & out & Heq & Hk' & Ho').
  exists k', out. cbn. apply update_conv in Heq as Hc; [|done]. destruct Hc as [Hc Ha].
  rewrite (cfg_part_conv _ _ Hc). done.
Qed.
End Ikcp.
