(* ===== verification/KcpDataThms.v ===== *)
(** * Theorems: messages, reordering, acknowledgements

    Fragmentation and reassembly, the reordering buffer and the processing of
    acknowledgements. *)

From stdpp Require Import sorting sets.
From S2P Require Import Prelude Codec KcpState KcpAck KcpRecv KcpSend KcpInput KcpFlush.
From S2P Require Import KcpWire KcpFrames KcpTransfer KcpTransferSteps KcpSystem KcpWf KcpWfSnd KcpFlushSpec KcpSafety.
From S2P Require Import KcpTheorems.

(** ** Sending *)

(** The number of fragments a message of [n] bytes needs. *)
Definition frag_count (n mss : Z) : Z := Z.max 1 ((n + mss - 1) / mss).

Lemma send_ok m k b :
  (forall z, mem_ok m z = true) -> kcp_wf k -> zlen b < 2147483648 ->
  frag_count (zlen b) (mss k) <= 255 ->
  exists segs,
    ikcp_send m k (Some b) (zlen b)
      = Ok (k <| snd_queue := snd_queue k ++ segs |>
              <| nsnd_que := u32 (nsnd_que k + zlen segs) |>, 0) /\
    frag_of <$> segs = fragments (Z.to_nat (frag_count (zlen b) (mss k))) (Z.to_nat (mss k)) b /\
    Forall (queued (mss k)) segs.
Proof.
  intros Hm Hk Hb Hc. destruct (kw_cfg _ Hk) as [Hmtu Hmss _ _ _ _]. unfold IKCP_OVERHEAD in Hmss.
  destruct (send_count_spec (zlen b) (mss k)) as (H1 & H2 & _); [lia..|]. fold (frag_count (zlen b) (mss k)) in H2.
  destruct (send_loop_spec m (Z.to_nat (frag_count (zlen b) (mss k))) b (zlen b) k) as (segs & Hs & Hf & Hq);
    [done|lia|lia|done|rewrite (sl_nque _ (proj1 (kw_snd _ Hk))); apply u32_u32|].
  exists segs. split; [|done]. unfold ikcp_send.
  rewrite (proj2 (Z.gtb_lt (mss k) 0)) by lia. cbn [c_assert mbind run_bind].
  rewrite (proj2 (Z.ltb_ge (zlen b) 0)) by lia. rewrite H2.
  assert ((frag_count (zlen b) (mss k) >? 255) = false) as -> by (rewrite Z.gtb_ltb; apply Z.ltb_ge; lia).
  rewrite (proj2 (Z.eqb_neq (frag_count (zlen b) (mss k)) 0)) by lia. exact Hs.
Qed.

Lemma frag_count_enough (b : list byte) mss : 0 < mss ->
  (length b <= Z.to_nat (frag_count (zlen b) mss) * Z.to_nat mss)%nat.
Proof.
  intros Hm. unfold frag_count.
  pose proof (Z.div_mod (zlen b + mss - 1) mss). pose proof (Z.mod_pos_bound (zlen b + mss - 1) mss).
  set (q := (zlen b + mss - 1) / mss) in *. clearbody q. nia.
Qed.

Lemma send_too_many m k b :
  kcp_wf k -> zlen b < 2147483648 -> 255 < frag_count (zlen b) (mss k) -> ikcp_send m k (Some b) (zlen b) = Ok (k, -2).
Proof.
  intros Hk Hb Hc. pose proof (kw_cfg _ Hk) as [Hmtu Hmss _ _ _ _]. unfold IKCP_OVERHEAD in Hmss.
  unfold ikcp_send. rewrite (proj2 (Z.gtb_lt (mss k) 0)) by lia. cbn [c_assert mbind run_bind].
  rewrite (proj2 (Z.ltb_ge (zlen b) 0)) by lia.
  destruct (send_count_spec (zlen b) (mss k)) as (_ & H2 & _); [lia..|].
  fold (frag_count (zlen b) (mss k)) in H2. rewrite H2.
  by rewrite (proj2 (Z.gtb_lt (frag_count (zlen b) (mss k)) 255)).
Qed.

(** C16: ikcp_send.  A negative length is refused with -1 and a message that
    needs more than 255 fragments with -2, both without effect; any other message
    is appended to the send queue as the minimal number of fragments of at most
    [mss] bytes, numbered downwards to 0, whose data concatenated is the
    message. *)
Theorem send_fragments m k b data len :
  (forall z, mem_ok m z = true) -> kcp_wf k -> zlen b < 2147483648 -> len < 0 ->
  ikcp_send m k data len = Ok (k, -1) /\
  if 255 <? frag_count (zlen b) (mss k) then ikcp_send m k (Some b) (zlen b) = Ok (k, -2)
  else exists segs,
    ikcp_send m k (Some b) (zlen b)
      = Ok (k <| snd_queue := snd_queue k ++ segs |> <| nsnd_que := u32 (nsnd_que k + zlen segs) |>, 0) /\
    zlen segs = frag_count (zlen b) (mss k) /\ Forall (queued (mss k)) segs /\
    frg_down (frag_of <$> segs) /\ frag_bytes (frag_of <$> segs) = b.
Proof.
  intros Hm Hk Hb Hlen. pose proof (kw_cfg _ Hk) as [Hmtu Hmss _ _ _ _]. unfold IKCP_OVERHEAD in Hmss.
  split.
  - unfold ikcp_send. rewrite (proj2 (Z.gtb_lt (mss k) 0)) by lia. cbn [c_assert mbind run_bind].
    by rewrite (proj2 (Z.ltb_lt len 0)).
  - case_if.
    + zbool. by apply send_too_many.
    + destruct (send_ok m k b Hm Hk Hb) as (segs & Hs & Hf & Hq); [lia|].
      exists segs. split; [done|]. split; [|split; [done|]].
      * apply (f_equal length) in Hf. rewrite length_fmap, length_fragments in Hf.
        unfold frag_count in *. lia.
      * rewrite Hf. split; [apply fragments_frg_down|]. apply fragments_bytes, frag_count_enough. lia.
Qed.

Lemma send_fragments_witness :
  ikcp_send demo_mem demo_busy None (-5) = Ok (demo_busy, -1) /\
  if 255 <? frag_count (zlen (demo_msg 60)) (mss demo_busy)
  then ikcp_send demo_mem demo_busy (Some (demo_msg 60)) (zlen (demo_msg 60)) = Ok (demo_busy, -2)
  else exists segs,
    ikcp_send demo_mem demo_busy (Some (demo_msg 60)) (zlen (demo_msg 60))
      = Ok (demo_busy <| snd_queue := snd_queue demo_busy ++ segs |>
              <| nsnd_que := u32 (nsnd_que demo_busy + zlen segs) |>, 0) /\
    zlen segs = frag_count (zlen (demo_msg 60)) (mss demo_busy) /\ Forall (queued (mss demo_busy)) segs /\
    frg_down (frag_of <$> segs) /\ frag_bytes (frag_of <$> segs) = demo_msg 60.
Proof.
  apply (send_fragments demo_mem demo_busy (demo_msg 60) None (-5)).
  - reflexivity.
  - exact demo_busy_wf.
  - vm_compute. reflexivity.
  - reflexivity.
Defined.

(** ** Receiving *)

(** A queue that starts with all fragments of a message. *)
Lemma peek_group k q rest :
  rcv_wf k -> rcv_queue k = q ++ rest -> q <> [] -> frg_down (frag_of <$> q) ->
  zlen (frag_bytes (frag_of <$> q)) < 2147483648 -> ikcp_peeksize k = zlen (frag_bytes (frag_of <$> q)).
Proof.
  intros Hk Hq Hne Hd Hmax. set (n := zlen (frag_bytes (frag_of <$> q))) in *.
  pose proof (rw_que_sized _ Hk) as Hsz. rewrite Hq in Hsz. apply Forall_app in Hsz as [Hsq _].
  unfold ikcp_peeksize. rewrite Hq. pose proof (peek_loop_group q rest 0 Hsq Hne Hd) as Hpl.
  rewrite Z.add_0_l, i32_small in Hpl by lia. fold n in Hpl. pose proof (rw_nque _ Hk) as Hnq.
  destruct q as [|s q]; [done|]. cbn [app] in *. cbn [peek_loop] in Hpl. rewrite Z.add_0_l in Hpl.
  case_if; [done|]. cbn [fmap list_fmap frg_down] in Hd. destruct Hd as [Hf _].
  rewrite length_fmap in Hf. pose proof (rw_qlen _ Hk). rewrite Hq in Hnq. cbn [length] in Hnq.
  rewrite length_app in Hnq. rewrite u32_small by lia. case_if; [lia|].
  cbn [peek_loop]. by rewrite Z.add_0_l, (proj2 (Z.eqb_neq _ _) Heqb).
Qed.

Lemma recv_group k q rest len :
  rcv_wf k -> rcv_queue k = q ++ rest -> q <> [] -> frg_down (frag_of <$> q) ->
  zlen (frag_bytes (frag_of <$> q)) < 2147483648 -> zlen (frag_bytes (frag_of <$> q)) <= len ->
  exists k1 k', ikcp_recv k true len
      = Ok (k', frag_bytes (frag_of <$> q), zlen (frag_bytes (frag_of <$> q))) /\
    rcv_queue k1 = rest /\ rcv_buf k1 = rcv_buf k /\ rcv_wf k1 /\ rcv_part k' = rcv_part (move_avail k1) /\
    rcv_wnd k' = rcv_wnd (move_avail k1).
Proof.
  intros Hk Hq Hne Hd Hmax Hlen. set (n := zlen (frag_bytes (frag_of <$> q))) in *.
  pose proof (rw_que_sized _ Hk) as Hsz. rewrite Hq in Hsz. pose proof Hsz as Hsz0.
  apply Forall_app in Hsz as [Hsq Hsr].
  pose proof (peek_group k q rest Hk Hq Hne Hd Hmax) as Hpk. fold n in Hpk.
  unfold ikcp_recv. destruct (rcv_queue k) as [|s0 q0] eqn:Eq; [by destruct q|].
  rewrite Hpk. rewrite (proj2 (Z.ltb_ge len 0)) by lia. rewrite (proj2 (Z.ltb_ge n 0)) by lia.
  assert ((n >? len) = false) as -> by (rewrite Z.gtb_ltb; apply Z.ltb_ge; lia).
  rewrite Hq, recv_merge_group by done. cbn [app]. rewrite Z.add_0_l. fold n.
  rewrite (i32_small n), Z.eqb_refl by lia. cbn [c_assert mbind run_bind].
  match goal with |- context [move_avail ?x] => exists x end.
  eexists. split; [reflexivity|]. split; [done|]. split; [done|]. split.
  - destruct Hk as [H1 H2 H3 H4 H5 H6 H7 H8]. rewrite Eq, Hq, Z_length_app in H3.
    constructor; cbn; auto; rewrite u32_small; lia.
  - by case_if.
Qed.

(** Ikcp_recv hands out a complete message.  If the receive queue starts
    with all fragments of a message and the buffer is large enough, the bytes
    written are exactly the message, the result is its length, its fragments
    leave the queue, and segments of the reordering buffer that are next in
    sequence take their place. *)
Theorem recv_message k q rest len :
  rcv_wf k -> rcv_queue k = q ++ rest -> q <> [] -> frg_down (frag_of <$> q) ->
  zlen (frag_bytes (frag_of <$> q)) < 2147483648 -> zlen (frag_bytes (frag_of <$> q)) <= len ->
  exists k', ikcp_recv k true len
      = Ok (k', frag_bytes (frag_of <$> q), zlen (frag_bytes (frag_of <$> q))) /\
    rcv_wf k' /\ rcv_queue k' ++ rcv_buf k' = rest ++ rcv_buf k /\ move_stops k'.
Proof.
  intros Hk Hq Hne Hd Hmax Hlen.
  destruct (recv_group k q rest len) as (k1 & k' & Hr & H1 & H2 & H3 & H4 & H5); [done..|].
  exists k'. split; [done|]. pose proof (recv_wf _ _ _ _ _ _ Hk Hr) as Hk'. split; [done|].
  destruct (move_avail_moves k1 H3) as (Hm & _ & Hst). rewrite H1, H2 in Hm.
  unfold rcv_part in H4. injection H4 as E1 E2 E3 E4 _. rewrite E2, E3. split; [done|].
  unfold move_stops in *. by rewrite E1, E3, E4, H5.
Qed.

(** C17: the error results of ikcp_recv.  -1 for an empty queue, -2 when the
    first message is incomplete, -3 when the buffer is smaller than the message;
    in all three cases the control block is unchanged.  Otherwise the result is
    the size that ikcp_peeksize announced, and the internal assertion holds. *)
Theorem recv_results k copy len :
  rcv_wf k ->
  let pk := ikcp_peeksize k in
  let room := if len <? 0 then i32 (- len) else len in
  exists k' out r, ikcp_recv k copy len = Ok (k', out, r) /\
    ((rcv_queue k = [] /\ r = -1 /\ k' = k) \/
     (rcv_queue k <> [] /\ pk < 0 /\ r = -2 /\ k' = k) \/
     (rcv_queue k <> [] /\ 0 <= pk /\ room < pk /\ r = -3 /\ k' = k) \/
     (rcv_queue k <> [] /\ 0 <= pk <= room /\ r = pk /\ rcv_wf k' /\
      (len < 0 -> rcv_queue k `prefix_of` rcv_queue k'))).
Proof.
  intros Hk. cbv zeta. destruct (ikcp_recv_total k copy len (rw_que_sized _ Hk)) as (k' & out & r & Heq).
  exists k', out, r. split; [done|]. pose proof (recv_wf _ _ _ _ _ _ Hk Heq) as Hk'.
  unfold ikcp_recv in Heq. destruct (rcv_queue k) as [|s0 q0] eqn:Eq;
    [injection Heq as <- _ <-; by left|right].
  set (pk := ikcp_peeksize k) in *. set (room := if len <? 0 then _ else len) in *.
  case_if_in Heq; [injection Heq as <- _ <-; by left|right].
  case_if_in Heq; [injection Heq as <- _ <-; by left|right].
  destruct (recv_merge _ _ _ _ _ _) as [[[o l] rest] n].
  apply run_bind_Ok in Heq as (u & Hu & Heq). unfold c_assert in Hu.
  destruct (l =? pk) eqn:El; [|done]. zbool. injection Heq as <- _ <-. split_and!; try done.
  intros Hneg. apply Z.ltb_lt in Hneg. rewrite Hneg. rewrite <- Eq.
  destruct (move_loop_spec (rcv_buf k) k) as (pre & _ & H2 & _);
    [done|apply u32_small, Hk|rewrite (rw_nque _ Hk); lia|pose proof (rw_wnd _ Hk); lia|].
  fold (move_avail k) in H2. exists pre. rewrite <- H2. by case_if.
Qed.

Lemma recv_results_witness :
  exists k' out r, ikcp_recv demo_busy true 3 = Ok (k', out, r) /\
    ((rcv_queue demo_busy = [] /\ r = -1 /\ k' = demo_busy) \/
     (rcv_queue demo_busy <> [] /\ ikcp_peeksize demo_busy < 0 /\ r = -2 /\ k' = demo_busy) \/
     (rcv_queue demo_busy <> [] /\ 0 <= ikcp_peeksize demo_busy /\ 3 < ikcp_peeksize demo_busy /\
      r = -3 /\ k' = demo_busy) \/
     (rcv_queue demo_busy <> [] /\ 0 <= ikcp_peeksize demo_busy <= 3 /\ r = ikcp_peeksize demo_busy /\
      rcv_wf k' /\ (3 < 0 -> rcv_queue demo_busy `prefix_of` rcv_queue k'))).
Proof. exact (recv_results demo_busy true 3 (kw_rcv _ demo_busy_wf)). Defined.

(** C18: fragmentation and reassembly are inverse.  If the segments that
    ikcp_send queues for a message are what the receiver has in order, ikcp_recv
    returns the message. *)
Theorem send_recv_roundtrip m k b k' k2 len :
  (forall z, mem_ok m z = true) -> kcp_wf k -> zlen b < 2147483648 ->
  ikcp_send m k (Some b) (zlen b) = Ok (k', 0) ->
  rcv_wf k2 -> rcv_queue k2 = drop (length (snd_queue k)) (snd_queue k') -> zlen b <= len ->
  exists k3, ikcp_recv k2 true len = Ok (k3, b, zlen b).
Proof.
  intros Hm Hk Hb Hs Hk2 Hq Hlen.
  pose proof (kw_cfg _ Hk) as [Hmtu Hmss _ _ _ _]. unfold IKCP_OVERHEAD in Hmss.
  destruct (Z.le_gt_cases (frag_count (zlen b) (mss k)) 255) as [Hc|Hc].
  - destruct (send_ok m k b Hm Hk Hb Hc) as (segs & Heq & Hf & _). rewrite Heq in Hs.
    injection Hs as <-. cbn [snd_queue update] in Hq. rewrite drop_app_length in Hq.
    assert (frag_bytes (frag_of <$> segs) = b) as Hby.
    { rewrite Hf. apply fragments_bytes, frag_count_enough. lia. }
    destruct (recv_group k2 segs [] len) as (_ & k3 & Hr & _); rewrite ?Hby; try done.
    + by rewrite app_nil_r.
    + intros ->. cbn in Hf. symmetry in Hf. apply (f_equal length) in Hf. rewrite length_fragments in Hf.
      unfold frag_count in Hf. cbn in Hf. lia.
    + rewrite Hf. apply fragments_frg_down.
    + rewrite Hby in Hr. eauto.
  - exfalso. unfold ikcp_send in Hs. apply run_bind_Ok in Hs as (u & _ & Hs).
    rewrite (proj2 (Z.ltb_ge (zlen b) 0)) in Hs by lia.
    destruct (send_count_spec (zlen b) (mss k)) as (_ & H2 & _); [lia..|].
    fold (frag_count (zlen b) (mss k)) in H2. rewrite H2 in Hs.
    rewrite (proj2 (Z.gtb_lt (frag_count (zlen b) (mss k)) 255)) in Hs by lia. done.
Qed.

Definition demo_sent : ikcpcb :=
  match ikcp_send demo_mem demo_busy (Some (demo_msg 60)) 60 with Ok (k, _) => k | _ => demo_busy end.
Definition demo_rcvd : ikcpcb :=
  demo_open <| rcv_queue := drop 4 (snd_queue demo_sent) |> <| nrcv_que := 3 |>.

Lemma send_recv_roundtrip_witness :
  exists k3, ikcp_recv demo_rcvd true 1000 = Ok (k3, demo_msg 60, 60).
Proof.
  apply (send_recv_roundtrip demo_mem demo_busy (demo_msg 60) demo_sent demo_rcvd 1000).
  - reflexivity.
  - exact demo_busy_wf.
  - vm_compute. reflexivity.
  - vm_compute. reflexivity.
  - constructor.
    + split; vm_compute; [discriminate|reflexivity].
    + split; vm_compute; [discriminate|reflexivity].
    + vm_compute. reflexivity.
    + vm_compute. reflexivity.
    + vm_compute. reflexivity.
    + apply (bool_decide_unpack _). vm_compute. reflexivity.
    + constructor.
    + apply sn_sorted_nil.
  - vm_compute. reflexivity.
  - vm_compute. discriminate.
Defined.

(** ** The reordering buffer *)


(** Segment 2 arrives while 0 is awaited. *)
Definition demo_seg (sn frg : Z) (data : list byte) : IKCPSEG :=
  mkSeg 7 IKCP_CMD_PUSH frg 32 0 sn 0 (zlen data) 0 0 0 0 data.


(** Progress.  When the next expected segment arrives and the queue is not
    full, the queue grows by it and by every buffered segment that continues the
    sequence, and the expected number advances accordingly. *)
Lemma parse_next k s :
  rcv_wf k -> seg_sized s -> seg_sn s = rcv_nxt k -> nrcv_que k < rcv_wnd k ->
  rcv_nxt k ∉ (seg_sn <$> rcv_buf k) ->
  let k' := ikcp_parse_data k s in
  exists more, rcv_queue k' = rcv_queue k ++ s :: more /\
    rcv_buf k = more ++ rcv_buf k' /\ rcv_nxt k' = u32 (rcv_nxt k + 1 + zlen more).
Proof.
  intros Hk Hs Hsn Hroom Hni. cbv zeta. pose proof (rw_nxt _ Hk) as Hn. pose proof (rw_wnd _ Hk) as Hw.
  assert (off (rcv_nxt k) (seg_sn s) = 0) as H0 by (rewrite Hsn; unfold off; by rewrite Z.sub_diag).
  assert (0 < rcv_wnd k) as Hw0 by (rewrite (rw_nque _ Hk) in Hroom; lia).
  assert (Hbuf : match insert_rev s (rev (rcv_buf k)) with Some l => rev l = s :: rcv_buf k | None => False end).
  { pose proof (insert_rev_sorted (rcv_nxt k) s (rcv_buf k) (rw_sorted _ Hk)) as Hi.
    ospecialize (Hi _); [split; lia|].
    destruct (insert_rev s (rev (rcv_buf k))) as [l|].
    - destruct Hi as ([Hso _] & Hp & _).
      assert (sn_sorted (rcv_nxt k) (s :: rcv_buf k)) as [Hs2 _].
      { apply (sn_sorted_insert _ [] s (rcv_buf k)); [apply Hk|split; lia|constructor|].
        apply list.Forall_forall. intros t Ht. unfold sn_before. rewrite H0.
        pose proof (off_range (rcv_nxt k) (seg_sn t)).
        destruct (Z.eq_dec (off (rcv_nxt k) (seg_sn t)) 0) as [Hz|]; [|lia].
        exfalso. apply Hni. apply list_elem_of_fmap. exists t. split; [|done].
        destruct (rw_sorted _ Hk) as [_ Hnear]. rewrite list.Forall_forall in Hnear.
        symmetry. apply off_0; [done..|]. by apply Hnear. }
      apply (StronglySorted_unique_strong (sn_before (rcv_nxt k))); [|done..].
      unfold sn_before. intros; lia.
    - destruct Hi as (t & Ht & Heq). apply Hni. rewrite <- Hsn, <- Heq. by apply list_elem_of_fmap_2. }
  unfold ikcp_parse_data.
  destruct (insert_rev s (rev (rcv_buf k))) as [l|]; [|done]. rewrite Hbuf.
  assert ((itimediff (seg_sn s) (u32 (rcv_nxt k + rcv_wnd k)) >=? 0)
    || (itimediff (seg_sn s) (rcv_nxt k) <? 0) = false) as ->.
  { rewrite Hsn. apply orb_false_iff. unfold itimediff. split;
      [rewrite Z.geb_leb; apply Z.leb_gt|apply Z.ltb_ge]; wrap_lia. }
  set (k1 := k <| rcv_buf := _ |> <| nrcv_buf := _ |>).
  unfold move_avail. change (rcv_buf k1) with (s :: rcv_buf k). cbn [move_loop].
  change (rcv_nxt k1) with (rcv_nxt k). change (nrcv_que k1) with (nrcv_que k).
  change (rcv_wnd k1) with (rcv_wnd k).
  rewrite Hsn, Z.eqb_refl, (proj2 (Z.ltb_lt _ _) Hroom). cbn [andb].
  match goal with |- context [move_loop (rcv_buf k) ?x] => set (k2 := x) end.
  destruct (move_loop_spec (rcv_buf k) k2) as (more & H1 & H2 & _ & H4 & _);
    [done|apply u32_u32|apply u32_range|change (rcv_wnd k2) with (rcv_wnd k); lia|].
  exists more. split_and!.
  - rewrite H2. change (rcv_queue k2) with (rcv_queue k ++ [s]). by rewrite <- app_assoc.
  - exact H1.
  - rewrite H4. change (rcv_nxt k2) with (u32 (rcv_nxt k + 1)). by rewrite u32_add_l.
Qed.

(** ** A message larger than the receive window *)

(** The first segment in the queue announces at least as many further fragments
    as the window has places. *)
Definition too_long (k : ikcpcb) : Prop :=
  nrcv_que k <= rcv_wnd k /\
  match rcv_queue k with [] => False | s :: _ => rcv_wnd k <= seg_frg s < 4294967295 end.

Lemma too_long_recv k copy len :
  rcv_wf k -> too_long k -> ikcp_recv k copy len = Ok (k, [], -2).
Proof.
  intros Hk [Hn Hq]. pose proof (rw_wnd _ Hk) as Hw. pose proof (rw_nque _ Hk) as Hnq.
  unfold ikcp_recv, ikcp_peeksize. destruct (rcv_queue k) as [|s q] eqn:Eq; [done|].
  rewrite u32_small by lia. cbn [length] in Hnq.
  rewrite (proj2 (Z.eqb_neq (seg_frg s) 0)) by lia.
  by rewrite (proj2 (Z.ltb_lt (nrcv_que k) (seg_frg s + 1))) by lia.
Qed.

Lemma too_long_parse_data k s :
  rcv_wf k -> seg_sized s -> 0 <= seg_sn s < 4294967296 -> too_long k -> too_long (ikcp_parse_data k s).
Proof.
  intros Hk Hs Hsn [Hn Hq].
  destruct (parse_data_cases k s Hk Hs Hsn) as [[-> _]|(_ & k1 & -> & Hk1 & Hq1 & Hn1 & Hw1 & _)]; [done|].
  destruct (move_loop_spec (rcv_buf k1) k1) as (pre & _ & H2 & _ & _ & _ & H6 & _);
    [done|apply u32_small, Hk1|rewrite (rw_nque _ Hk1); lia|pose proof (rw_wnd _ Hk1); lia|].
  destruct (move_loop_frame (rcv_buf k1) k1) as (_ & _ & Hc & _).
  fold (move_avail k1) in *. apply cfg_part_wnd in Hc. unfold too_long. rewrite Hc, H2, Hq1, Hw1.
  rewrite Hn1, Hw1 in H6. split; [lia|]. by destruct (rcv_queue k).
Qed.

(** C20: a message of more fragments than the receive window is never
    delivered.  ikcp_send accepts up to 255 fragments, but once the first
    fragment of a message with more fragments than [rcv_wnd] heads the queue,
    ikcp_recv answers -2 without effect, and no segment that arrives later
    changes that: the queue stays blocked for good. *)
Theorem long_message_blocks k copy len segs :
  rcv_wf k -> too_long k ->
  Forall (fun s => seg_sized s /\ 0 <= seg_sn s < 4294967296) segs ->
  let k' := foldl ikcp_parse_data k segs in
  ikcp_recv k' copy len = Ok (k', [], -2).
Proof.
  intros Hk Ht Hs. cbv zeta. revert k Hk Ht. induction Hs as [|s segs [Hs Hsn] Hss IH]; intros k Hk Ht.
  - by apply too_long_recv.
  - cbn [foldl]. apply IH; [by apply parse_data_wf|by apply too_long_parse_data].
Qed.

(** The first fragment of a message of 40, with the default window of 32. *)
Definition demo_long : ikcpcb := ikcp_parse_data demo_open (demo_seg 0 39 (demo_msg 4)).

Lemma long_message_blocks_witness :
  ikcp_recv (foldl ikcp_parse_data demo_long ((fun i => demo_seg (Z.of_nat i) (39 - Z.of_nat i) (demo_msg 4)) <$> seq 1 39))
    true 100000
  = Ok (foldl ikcp_parse_data demo_long ((fun i => demo_seg (Z.of_nat i) (39 - Z.of_nat i) (demo_msg 4)) <$> seq 1 39), [], -2).
Proof.
  apply (long_message_blocks demo_long true 100000
    ((fun i => demo_seg (Z.of_nat i) (39 - Z.of_nat i) (demo_msg 4)) <$> seq 1 39)).
  - apply parse_data_wf.
    + exact (kw_rcv _ demo_open_wf).
    + apply (bool_decide_unpack _). vm_compute. reflexivity.
    + split; vm_compute; [discriminate|reflexivity].
  - split; vm_compute; [discriminate|split; [discriminate|reflexivity]].
  - apply (bool_decide_unpack _). vm_compute. reflexivity.
Defined.

(** ** Acknowledgements *)

(** Cumulative acknowledgement.  For a number [una] not behind [snd_una],
    ikcp_parse_una, which stops at the first segment it keeps, removes exactly the
    segments before [una] and keeps the others in order; the counter follows. *)
Theorem parse_una_filters k una :
  snd_wf k -> off (snd_una k) una < 2147483648 ->
  snd_buf (ikcp_parse_una k una)
    = filter (fun s => off (snd_una k) una <= off (snd_una k) (seg_sn s)) (snd_buf k) /\
  nsnd_buf (ikcp_parse_una k una) = u32 (zlen (snd_buf (ikcp_parse_una k una))).
Proof.
  intros [Hk _] Huna. split; [|apply (parse_una_wf k una Hk)].
  unfold ikcp_parse_una.
  destruct (una_loop_spec una (snd_buf k) k eq_refl) as (pre & post & Hb & -> & Hpre & Hpost).
  cbn [snd_buf update]. destruct (sl_sorted _ Hk) as [Hs Hn]. rewrite Hb in Hs, Hn |- *.
  apply Forall_app in Hn as [Hn1 Hn2]. apply StronglySorted_app in Hs as (_ & _ & Hs).
  rewrite list.filter_app, filter_Forall_not, filter_Forall; [done| |].
  - apply list.Forall_forall. intros t Ht. destruct post as [|s post]; [by apply not_elem_of_nil in Ht|].
    apply StronglySorted_cons in Hs as [Hall _]. apply Forall_cons_1 in Hn2 as [Hs1 Hn2].
    rewrite (itimediff_off (snd_una k)) in Hpost by (done || apply Hs1).
    apply elem_of_cons in Ht as [->|Ht]; [lia|]. rewrite list.Forall_forall in Hall.
    specialize (Hall t Ht). unfold sn_before in Hall. lia.
  - apply list.Forall_forall. intros t Ht. rewrite list.Forall_forall in Hpre, Hn1.
    specialize (Hpre t Ht). specialize (Hn1 t Ht).
    rewrite (itimediff_off (snd_una k)) in Hpre by (done || apply Hn1). lia.
Qed.

(** Four segments in flight. *)
Definition demo_flight : ikcpcb :=
  ep_kcp (after_calls demo_mem (demo_busy_calls ++ [([], Op_flush)]) (fresh demo_open)).

Lemma demo_flight_wf : kcp_wf demo_flight.
Proof. unfold demo_flight. apply after_calls_wf; [done|exact demo_open_wf|reflexivity]. Qed.



(** The list of pending acknowledgements behaves like a list.  After
    ikcp_ack_push, whether the array had room or was reallocated, it holds the old
    entries followed by the new one, and ikcp_ack_get reads each of them back. *)
Theorem ack_push_get m k acks sn ts :
  (forall z, mem_ok m z = true) -> ack_rep acks k -> zlen acks < 2147483647 ->
  exists k', ikcp_ack_push m k sn ts = Ok k' /\ same_but_acks k k' /\
    ackcount k' = zlen acks + 1 /\
    (forall i a, (acks ++ [(sn, ts)]) !! i = Some a -> ikcp_ack_get k' (Z.of_nat i) = Ok a).
Proof.
  intros Hm Hrep Hn. destruct (ikcp_ack_push_spec m k acks sn ts Hm Hrep Hn) as (k' & Heq & Hrep' & Hs).
  exists k'. split_and!; [done..| |].
  - destruct Hrep' as [-> _]. rewrite Z_length_app. cbn. lia.
  - intros i [sn' ts'] Hi. by eapply ikcp_ack_get_spec.
Qed.
