(* ===== verification/KcpLink.v ===== *)
(** * Delivery without loss

    [KcpSystem] shows that nothing wrong is ever delivered; this file shows that
    messages do arrive.  Two control blocks of src/util/ikcp.c are connected by a
    link that passes on every datagram.  In one round the sender queues a message
    and flushes, the receiver takes in the datagrams, reads the message and
    flushes, and the sender takes in the acknowledgements: the message is read as
    it was sent, and the link is as ready for the next one as before. *)

From S2P Require Import Prelude Codec KcpState KcpAck KcpRecv KcpSend KcpInput KcpFlush.
From S2P Require Import KcpWire KcpFrames KcpTransfer KcpTransferSteps KcpSystem KcpWf KcpWfSnd KcpFlushSpec KcpSafety.
From S2P Require Import KcpTheorems KcpDataThms.

(** ** Segments on the wire *)

(** A segment of conversation [c] as a flush writes it. *)
Definition wire_seg (c : Z) (s : IKCPSEG) : Prop :=
  seg_conv s = c /\ is_cmd (seg_cmd s) = true /\ 0 <= seg_len s < 2147483648 /\
  seg_len s <= zlen (seg_data s) /\
  (seg_cmd s = IKCP_CMD_PUSH -> seg_len s = zlen (seg_data s) /\ 0 <= seg_frg s < 256).

(** The data segments. *)
Definition is_push (s : IKCPSEG) : bool := seg_cmd s =? IKCP_CMD_PUSH.
Definition pushes (segs : list IKCPSEG) : list IKCPSEG := List.filter is_push segs.

(** The data segments are numbered from [n] on. *)
Fixpoint in_line (n : Z) (segs : list IKCPSEG) : Prop :=
  match segs with
  | [] => True
  | s :: segs => if is_push s then seg_sn s = n /\ in_line (u32 (n + 1)) segs else in_line n segs
  end.

Lemma header_of_ok s : header_ok (header_of s).
Proof.
  pose proof (u32_range (seg_len s)). pose proof (u16_range (seg_wnd s)).
  pose proof (u8_range (seg_frg s)). pose proof (u32_range (seg_sn s)). done.
Qed.

Lemma is_cmd_u8 c : is_cmd c = true -> u8 c = c.
Proof.
  unfold is_cmd, IKCP_CMD_PUSH, IKCP_CMD_ACK, IKCP_CMD_WASK, IKCP_CMD_WINS.
  intros H. apply u8_small. repeat (apply orb_true_iff in H as [H|H]); zbool; lia.
Qed.

(** ** Taking in the segments of a flush *)

(** What a receiver with an empty reordering buffer has taken in. *)
Record absorbed (b : ikcpcb) (segs : list IKCPSEG) (b' : ikcpcb) : Prop := {
  ab_wf : kcp_wf b';
  ab_cfg : cfg_part b' = cfg_part b;
  ab_buf : rcv_buf b' = [];
  ab_que : frag_of <$> rcv_queue b' = (frag_of <$> rcv_queue b) ++ (frag_of <$> pushes segs);
  ab_nxt : rcv_nxt b' = u32 (rcv_nxt b + zlen (pushes segs));
  ab_ack : ackcount b' = ackcount b + zlen (pushes segs)
}.

Lemma absorbed_nil b : kcp_wf b -> rcv_buf b = [] -> absorbed b [] b.
Proof.
  intros Hb Hr. pose proof (rw_nxt _ (kw_rcv _ Hb)). constructor; try done; cbn; [by rewrite app_nil_r| |lia].
  rewrite Z.add_0_r. by rewrite u32_small.
Qed.

Lemma pushes_app s1 s2 : pushes (s1 ++ s2) = pushes s1 ++ pushes s2.
Proof. apply List.filter_app. Qed.

Lemma absorbed_trans b1 s1 b2 s2 b3 :
  absorbed b1 s1 b2 -> absorbed b2 s2 b3 -> absorbed b1 (s1 ++ s2) b3.
Proof.
  intros [] []. constructor; rewrite ?pushes_app; try done; try congruence.
  - rewrite ab_que1, ab_que0, fmap_app. by rewrite app_assoc.
  - rewrite ab_nxt1, ab_nxt0, u32_add_l, Z_length_app. f_equal. lia.
  - rewrite Z_length_app. lia.
Qed.

(** The steps common to all commands leave the receiving half alone. *)
Lemma input_una_frame k wnd una :
  let k' := ikcp_shrink_buf (ikcp_parse_una (k <| rmt_wnd := wnd |>) una) in
  rcv_part k' = rcv_part k /\ cfg_part k' = cfg_part k /\ ack_part k' = ack_part k.
Proof.
  cbv zeta. set (k0 := k <| rmt_wnd := wnd |>).
  destruct (shrink_buf_frame (ikcp_parse_una k0 una)) as (_ & -> & -> & -> & _).
  unfold ikcp_parse_una. by destruct (una_loop_spec una (snd_buf k0) k0 eq_refl) as (? & ? & _ & -> & _).
Qed.

Lemma input_ack_rcv k h : rcv_part (input_ack k h) = rcv_part k.
Proof.
  unfold input_ack. set (k1 := if (_ : bool) then _ else k).
  assert (rcv_part k1 = rcv_part k) as <-.
  { subst k1. case_if; [|done]. by destruct (update_ack_frame k (itimediff (current k) (h_ts h))) as (_ & ? & _). }
  destruct (shrink_buf_frame (ikcp_parse_ack k1 (h_sn h))) as (_ & -> & _). apply parse_ack_frame.
Qed.

Lemma rcv_part_eq k k' : rcv_part k' = rcv_part k ->
  rcv_nxt k' = rcv_nxt k /\ rcv_queue k' = rcv_queue k /\ rcv_buf k' = rcv_buf k /\ nrcv_que k' = nrcv_que k.
Proof. unfold rcv_part. by intros [= -> -> -> -> _]. Qed.

Lemma itimediff_zero z : itimediff z z = 0.
Proof. unfold itimediff. by rewrite Z.sub_diag. Qed.

(** Datagrams taken in one after the other. *)
Fixpoint inputs (m : mem) (b : ikcpcb) (out : list (list byte)) : run ikcpcb :=
  match out with
  | [] => Ok b
  | d :: out => '(b, _) ← ikcp_input m b (Some d) (zlen d); inputs m b out
  end.

Section Absorb.
Context (m : mem) (Hm : forall z, mem_ok m z = true).

(** The next data segment. *)
Lemma input_push_next k h data k' :
  kcp_wf k -> header_ok h -> rcv_buf k = [] -> h_sn h = rcv_nxt k -> nrcv_que k < rcv_wnd k ->
  h_len h <= zlen data -> ackcount k < 2147483647 -> input_push m k h data = Ok k' ->
  rcv_buf k' = [] /\
  frag_of <$> rcv_queue k' = (frag_of <$> rcv_queue k) ++ [(h_frg h, take (Z.to_nat (h_len h)) data)] /\
  rcv_nxt k' = u32 (rcv_nxt k + 1) /\ ackcount k' = ackcount k + 1.
Proof.
  intros Hk Hh Hbuf Hsn Hroom Hle Hac H. unfold input_push in H.
  pose proof (rw_wnd _ (kw_rcv _ Hk)) as Hw. pose proof (rw_nxt _ (kw_rcv _ Hk)) as Hn.
  pose proof (rw_nque _ (kw_rcv _ Hk)) as Hq.
  assert ((itimediff (h_sn h) (u32 (rcv_nxt k + rcv_wnd k)) <? 0) = true) as E1.
  { apply Z.ltb_lt. rewrite Hsn. unfold itimediff. wrap_lia. }
  rewrite E1 in H. apply run_bind_Ok in H as (k1 & Hp & H).
  assert (ackcount k1 = ackcount k + 1) as Hac1.
  { destruct (kw_ack _ Hk) as (acks & Hrep & _). pose proof Hrep as [Hc _].
    destruct (ikcp_ack_push_spec m k acks (h_sn h) (h_ts h) Hm Hrep) as (k2 & Hp2 & [Hc2 _] & _); [lia|].
    rewrite Hp in Hp2. injection Hp2 as <-. rewrite Z_length_app in Hc2. cbn in Hc2. lia. }
  apply ack_push_same, same_but_acks_frame in Hp as (_ & F2 & F3 & _).
  apply rcv_part_eq in F2 as F. destruct F as (G1 & G2 & G3 & G4).
  rewrite G1, Hsn, itimediff_zero in H. cbn in H.
  destruct (push_seg_sized m Hm h data Hh Hle) as (raw & Hraw & Hsz & Hssn). rewrite Hraw in H.
  rewrite bool_decide_eq_true_2 in H by done. cbn [c_require mbind run_bind] in H. injection H as <-.
  destruct (parse_next k1 (push_seg raw h data)) as (more & H1 & H2 & H3).
  - eapply rcv_wf_ext; [exact F2|by apply cfg_part_wnd|apply Hk].
  - done.
  - by rewrite Hssn, G1.
  - rewrite G4, (cfg_part_wnd _ _ F3). done.
  - rewrite G3, Hbuf. apply not_elem_of_nil.
  - rewrite G3, Hbuf in H2. symmetry in H2. apply app_eq_nil in H2 as [-> H2].
    destruct (parse_data_frame k1 (push_seg raw h data)) as (_ & Hap & _). apply ack_part_count in Hap.
    rewrite H1, H3, H2, Hap, G1, G2, fmap_app. cbn [length]. rewrite Z.add_0_r. split_and!; try done.
    do 2 f_equal. cbn. unfold frag_of. cbn. f_equal. f_equal.
    unfold ikcp_segment_new in Hraw. rewrite Hm in Hraw. injection Hraw as <-. cbn. case_if; [done|].
    replace (Z.to_nat (h_len h)) with 0%nat by (destruct Hh; lia). by rewrite resize_0, take_0.
Qed.

(** One segment. *)
Lemma input_seg_absorbed b s rest :
  kcp_wf b -> wire_seg (conv b) s -> in_line (rcv_nxt b) [s] -> rcv_buf b = [] ->
  nrcv_que b + zlen (pushes [s]) <= rcv_wnd b -> ackcount b < 2147483647 ->
  exists b', input_seg m b (header_of s) (take (Z.to_nat (seg_len s)) (seg_data s) ++ rest) = Ok b' /\
    absorbed b [s] b'.
Proof.
  intros Hb (Hc & Hcmd & Hl & Hle & Hp) Hline Hbuf Hroom Hac.
  set (data := take (Z.to_nat (seg_len s)) (seg_data s) ++ rest).
  assert (h_len (header_of s) = seg_len s) as Hhl by (cbn; apply u32_small; lia).
  assert (h_cmd (header_of s) = seg_cmd s) as Hhc by (cbn; by apply is_cmd_u8).
  assert (h_len (header_of s) <= zlen data) as Hd
    by (rewrite Hhl; unfold data; rewrite Z_length_app, length_take; lia).
  destruct (input_seg_wf m Hm b (header_of s) data Hb (header_of_ok s) Hd Hac) as (b' & Heq & Hb' & _ & Ha).
  exists b'. split; [done|]. pose proof (input_seg_cfg _ _ _ _ _ Heq) as Hcfg.
  unfold input_seg in Heq. cbv zeta in Heq. rewrite Hhc in Heq.
  destruct (input_una_frame b (h_wnd (header_of s)) (h_una (header_of s))) as (F1 & F2 & F3).
  destruct (input_una_wf b (h_wnd (header_of s)) (h_una (header_of s)) (proj1 (proj2 (header_of_ok s))) Hb)
    as (Hk1 & _ & _).
  set (k1 := ikcp_shrink_buf _) in *. clearbody k1.
  apply rcv_part_eq in F1 as G. destruct G as (G1 & G2 & G3 & G4).
  pose proof (rw_nxt _ (kw_rcv _ Hb)) as Hn.
  assert (Hsame : rcv_part b' = rcv_part k1 -> ackcount b' = ackcount b -> is_push s = false -> absorbed b [s] b').
  { intros Hr Hab Hnp. apply rcv_part_eq in Hr as (R1 & R2 & R3 & _).
    constructor; unfold pushes; cbn [List.filter]; rewrite ?Hnp; try done.
    - by rewrite R3, G3.
    - by rewrite R2, G2, app_nil_r.
    - rewrite R1, G1. cbn. by rewrite Z.add_0_r, u32_small.
    - cbn. lia. }
  assert (Hak : forall k, ack_part k = ack_part k1 -> ackcount k = ackcount b).
  { intros k Hk. apply ack_part_count in Hk. apply ack_part_count in F3. congruence. }
  unfold in_line in Hline. unfold is_push in *. 
  destruct (seg_cmd s =? IKCP_CMD_ACK) eqn:E1; zbool.
  { injection Heq as <-. apply Hsame; [apply input_ack_rcv|apply Hak, input_ack_frame|]. apply Z.eqb_neq. unfold IKCP_CMD_ACK, IKCP_CMD_PUSH in *. lia. }
  destruct (seg_cmd s =? IKCP_CMD_PUSH) eqn:E2; zbool.
  2: { destruct (seg_cmd s =? IKCP_CMD_WASK); injection Heq as <-; apply Hsame; try done; by apply Hak. }
  destruct Hline as [Hsn _]. destruct (Hp E2) as [Hlen Hf].
  unfold pushes in Hroom. cbn [List.filter] in Hroom. unfold is_push in Hroom. rewrite E2 in Hroom. cbn in Hroom.
  destruct (input_push_next k1 (header_of s) data b') as (H1 & H2 & H3 & H4); try done.
  - apply header_of_ok.
  - congruence.
  - cbn. rewrite G1, Hsn, u32_small by lia. done.
  - rewrite G4, (cfg_part_wnd _ _ F2). lia.
  - apply ack_part_count in F3. lia.
  - constructor; unfold pushes; cbn [List.filter]; unfold is_push; rewrite ?E2, ?Z.eqb_refl; try done.
    + rewrite H2, G2. f_equal. cbn. unfold frag_of. rewrite (u8_small (seg_frg s)), (u32_small (seg_len s)) by lia.
      unfold data. by rewrite Hlen, Nat2Z.id, firstn_all, take_app_length.
    + by rewrite H3, G1.
    + rewrite H4. by apply ack_part_count in F3 as ->.
Qed.

Lemma absorbed_nque b segs b' :
  kcp_wf b -> absorbed b segs b' -> nrcv_que b' = nrcv_que b + zlen (pushes segs) /\ rcv_wnd b' = rcv_wnd b.
Proof.
  intros Hb Ha. rewrite (rw_nque _ (kw_rcv _ Hb)), (rw_nque _ (kw_rcv _ (ab_wf _ _ _ Ha))).
  pose proof (f_equal length (ab_que _ _ _ Ha)) as Hl. rewrite length_app, !length_fmap in Hl.
  split; [lia|]. apply cfg_part_wnd, Ha.
Qed.

Lemma in_line_app n s1 s2 : 0 <= n < 4294967296 ->
  in_line n (s1 ++ s2) <-> in_line n s1 /\ in_line (u32 (n + zlen (pushes s1))) s2.
Proof.
  revert n. induction s1 as [|s s1 IH]; intros n Hn; cbn [app in_line].
  - cbn. rewrite Z.add_0_r, u32_small by done. tauto.
  - unfold pushes. cbn [List.filter]. fold (pushes s1). destruct (is_push s); [|by apply IH].
    rewrite IH by apply u32_range. rewrite u32_add_l. cbn [length].
    replace (n + 1 + zlen (pushes s1)) with (n + Z.of_nat (S (length (pushes s1)))) by lia. tauto.
Qed.

Definition ready_for (segs : list IKCPSEG) (b : ikcpcb) : Prop :=
  kcp_wf b /\ Forall (wire_seg (conv b)) segs /\ in_line (rcv_nxt b) segs /\ rcv_buf b = [] /\
  nrcv_que b + zlen (pushes segs) <= rcv_wnd b /\ ackcount b + zlen (pushes segs) < 2147483647.

Lemma ready_for_app s1 s2 b : ready_for (s1 ++ s2) b ->
  ready_for s1 b /\ forall b', absorbed b s1 b' -> ready_for s2 b'.
Proof.
  intros (Hb & Hw & Hl & Hbuf & Hr & Hac). apply Forall_app in Hw as [Hw1 Hw2].
  apply in_line_app in Hl as [Hl1 Hl2]; [|apply (kw_rcv _ Hb)].
  rewrite pushes_app, Z_length_app in *. split; [split_and!; try done; lia|].
  intros b' Ha. destruct (absorbed_nque _ _ _ Hb Ha) as [Hq Hwn]. pose proof (ab_ack _ _ _ Ha).
  split_and!; try apply Ha; try lia.
  - apply (ab_cfg _ _ _) in Ha. by rewrite (cfg_part_conv _ _ Ha).
  - by rewrite (ab_nxt _ _ _ Ha).
Qed.

(** What the steps preserve: [P rest k], with the segments [rest] still to come. *)
Section Inputs.
Context (P : list IKCPSEG -> ikcpcb -> Prop).
Hypothesis Pseg : forall s rest k, P (s :: rest) k -> wire_seg (conv k) s /\ 0 <= conv k < 4294967296 /\
  forall more, exists k', input_seg m k (header_of s) (take (Z.to_nat (seg_len s)) (seg_data s) ++ more) = Ok k' /\
    P rest k'.
Hypothesis Pmss : forall rest k, P rest k -> 0 < mss k.
Hypothesis Pcwnd : forall rest k una k', P rest k -> input_cwnd k una = Ok k' -> P rest k'.

Lemma input_loop_segs fuel k segs later :
  P (segs ++ later) k -> (length segs < fuel)%nat ->
  exists k', input_loop m fuel k (stream segs) (zlen (stream segs)) = Ok (k', None) /\ P later k'.
Proof.
  revert fuel k. induction segs as [|s segs IH]; intros fuel k HP Hf; (destruct fuel as [|fuel]; [lia|]).
  { by exists k. }
  cbn [input_loop]. destruct (Pseg s (segs ++ later) k HP) as ((Hc & Hcmd & Hlen & Hle & _) & Hcv & Hseg).
  destruct (Hseg (stream segs)) as (k1 & Heq & HP1).
  assert (stream (s :: segs) = ikcp_encode_seg [] s ++ take (Z.to_nat (seg_len s)) (seg_data s) ++ stream segs) as ->
    by (unfold stream, wire; rewrite fmap_cons; cbn [concat]; by rewrite <- app_assoc).
  destruct (decode_encode_seg s (take (Z.to_nat (seg_len s)) (seg_data s) ++ stream segs)) as (tail & -> & _ & Hd).
  rewrite !Z_length_app, length_encode_seg, length_take. unfold IKCP_OVERHEAD.
  rewrite (proj2 (Z.ltb_ge _ 24)) by lia. cbn [mbind run_bind].
  rewrite (u32_small (seg_conv s)) in * by lia. rewrite Hc, Z.eqb_refl in *. cbn [negb].
  rewrite Hd. cbn [mbind run_bind].
  assert (h_len (header_of s) = seg_len s) as Hhl by (cbn; apply u32_small; lia). rewrite Hhl.
  rewrite (proj2 (Z.ltb_ge _ (seg_len s))) by lia.
  assert (h_cmd (header_of s) = seg_cmd s) as -> by (cbn; by apply is_cmd_u8). rewrite Hcmd. cbn [negb].
  rewrite Heq. cbn [mbind run_bind]. rewrite drop_app_length' by (rewrite length_take; lia).
  replace (Z.of_nat 24 + _ - 24 - seg_len s) with (zlen (stream segs)) by lia.
  apply IH; [done|cbn in Hf; lia].
Qed.

Lemma length_stream segs : (24 * length segs <= length (stream segs))%nat.
Proof.
  induction segs as [|s segs IH]; [done|]. unfold stream in *. rewrite fmap_cons. cbn [concat length].
  unfold wire at 1. rewrite !length_app, length_encode_seg. lia.
Qed.

Lemma inputs_segs parts k :
  Forall (fun p => p <> []) parts -> P (concat parts) k ->
  exists k', inputs m k (stream <$> parts) = Ok k' /\ P [] k'.
Proof.
  intros Hne. revert k. induction Hne as [|p parts Hp Hne IH]; intros k HP; [by exists k|].
  rewrite fmap_cons. cbn [inputs]. cbn [concat] in HP.
  assert (exists k1, ikcp_input m k (Some (stream p)) (zlen (stream p)) = Ok (k1, 0) /\ P (concat parts) k1)
    as (k1 & -> & HP1); [|by apply IH].
  pose proof (length_stream p) as Hl. unfold ikcp_input.
  assert (0 < length p)%nat by (destruct p; [done|cbn; lia]).
  rewrite (proj2 (Z.ltb_ge _ 24)) by lia.
  destruct (input_loop_segs (S (length (stream p))) k p (concat parts) HP) as (k1 & -> & HP1); [lia|].
  cbn [mbind run_bind].
  destruct (input_cwnd_Ok k1 (snd_una k)) as (k2 & Hc); [by eapply Pmss|]. rewrite Hc. cbn [mbind run_bind].
  exists k2. split; [done|]. by eapply Pcwnd.
Qed.
End Inputs.

Lemma absorbed_cwnd b segs k una k' : absorbed b segs k -> input_cwnd k una = Ok k' -> absorbed b segs k'.
Proof.
  intros [] Hc. pose proof (input_cwnd_wf _ _ _ ab_wf0 Hc) as Hk'.
  apply input_cwnd_frame in Hc as (_ & Hr & Ha & Hcf & _). apply rcv_part_eq in Hr as (R1 & R2 & R3 & R4).
  apply ack_part_count in Ha. constructor; congruence.
Qed.

(** ** The sending half meanwhile *)

Lemma parse_una_all k una : snd_loose k -> snd_buf k = [] \/ una = snd_nxt k -> snd_buf (ikcp_parse_una k una) = [].
Proof.
  intros Hk Hor. unfold ikcp_parse_una.
  destruct (una_loop_spec una (snd_buf k) k eq_refl) as (pre & post & Hb & -> & _ & Hpost). cbn.
  destruct post as [|s post]; [done|]. exfalso. destruct Hor as [Hnil| ->]; [rewrite Hnil in Hb; by destruct pre|].
  pose proof (sl_below _ Hk) as Hbl. pose proof (sl_sorted _ Hk) as [_ Hnr]. rewrite Hb in Hbl, Hnr.
  apply Forall_app in Hbl as [_ [Hbl _]%Forall_cons_1]. apply Forall_app in Hnr as [_ [Hnr _]%Forall_cons_1].
  pose proof (sl_flight _ Hk). rewrite (itimediff_off (snd_una k)) in Hpost by (apply Hnr || lia). lia.
Qed.

(** What an input leaves of the sending half, once nothing is in flight. *)
Definition snd_rest (k : ikcpcb) := (snd_nxt k, snd_queue k, updated k, rmt_wnd k).

Lemma parse_una_rest k una : snd_rest (ikcp_shrink_buf (ikcp_parse_una k una)) = snd_rest k /\
  snd_buf (ikcp_shrink_buf (ikcp_parse_una k una)) = snd_buf (ikcp_parse_una k una).
Proof.
  unfold ikcp_parse_una. destruct (una_loop_spec una (snd_buf k) k eq_refl) as (pre & post & _ & -> & _).
  unfold ikcp_shrink_buf. by destruct post.
Qed.

Lemma input_ack_rest k h : snd_buf k = [] ->
  snd_rest (input_ack k h) = snd_rest k /\ snd_buf (input_ack k h) = [].
Proof.
  intros Hb. unfold input_ack. set (k1 := if (_ : bool) then _ else k).
  assert (snd_rest k1 = snd_rest k /\ snd_buf k1 = []) as [<- Hb1].
  { subst k1. case_if; [|done]. set (r := itimediff _ _). clearbody r.
    assert (snd_rest (ikcp_update_ack k r) = snd_rest k) as -> by (unfold ikcp_update_ack, snd_rest; frame_cases).
    destruct (update_ack_frame k r) as (Hs & _). apply snd_part_eq in Hs as (_ & _ & ->). done. }
  clearbody k1. unfold ikcp_parse_ack. rewrite Hb1. cbn [ack_loop].
  destruct (_ || _); unfold ikcp_shrink_buf; cbn; rewrite ?Hb1; done.
Qed.

Lemma input_push_rest k h data k' : input_push m k h data = Ok k' ->
  snd_rest k' = snd_rest k /\ snd_buf k' = snd_buf k.
Proof.
  unfold input_push. intros H. case_if_in H; [|by injection H as <-]. apply run_bind_Ok in H as (k1 & Hp & H).
  apply ack_push_same in Hp. unfold same_but_acks in Hp.
  assert (snd_rest k1 = snd_rest k /\ snd_buf k1 = snd_buf k) as [<- <-] by (by rewrite Hp).
  clear Hp. case_if_in H; [|by injection H as <-]. destruct (ikcp_segment_new m (h_len h)); [|done].
  apply run_bind_Ok in H as (u & _ & H). injection H as <-.
  match goal with |- context [ikcp_parse_data k1 ?s] => destruct (parse_data_frame k1 s) as (Hs & _ & _ & Hc) end.
  unfold snd_part in Hs. unfold clk_part in Hc. unfold snd_rest. split; congruence.
Qed.

Lemma input_seg_rest k s data k' :
  kcp_wf k -> snd_buf k = [] \/ u32 (seg_una s) = snd_nxt k -> input_seg m k (header_of s) data = Ok k' ->
  snd_rest k' = snd_rest (k <| rmt_wnd := u16 (seg_wnd s) |>) /\ snd_buf k' = [].
Proof.
  intros Hk Hor H. unfold input_seg in H. cbv zeta in H.
  change (h_una (header_of s)) with (u32 (seg_una s)) in H.
  change (h_wnd (header_of s)) with (u16 (seg_wnd s)) in H.
  set (k0 := k <| rmt_wnd := u16 (seg_wnd s) |>) in *.
  assert (snd_loose k0) as Hl.
  { pose proof (u16_range (seg_wnd s)). apply (snd_loose_ext k); [done..|apply Hk]. }
  destruct (parse_una_rest k0 (u32 (seg_una s))) as [Hr Hb].
  rewrite (parse_una_all k0 _ Hl Hor) in Hb. set (k1 := ikcp_shrink_buf _) in *. clearbody k1. rewrite <- Hr.
  repeat case_if_in H.
  - injection H as <-. by apply input_ack_rest.
  - apply input_push_rest in H as [-> ->]. done.
  - by injection H as <-.
  - by injection H as <-.
Qed.

Lemma input_cwnd_rest k una k' : input_cwnd k una = Ok k' -> snd_rest k' = snd_rest k /\ snd_buf k' = snd_buf k.
Proof.
  intros H. assert (updated k' = updated k) as Hu.
  { unfold input_cwnd in H. repeat (first [case_if_in H | progress inv_run]); cbn zeta in *; inv_run; frame_cases. }
  apply input_cwnd_frame in H as (Hs & _ & _ & _ & _ & Hr & _). unfold snd_part in Hs. unfold snd_rest.
  split; congruence.
Qed.

(** ** All datagrams of a flush are taken in *)

Lemma inputs_absorbed b parts w :
  ready_for (concat parts) b -> 0 <= conv b < 4294967296 -> Forall (fun p => p <> []) parts ->
  Forall (fun s => u16 (seg_wnd s) = w /\ (snd_buf b = [] \/ u32 (seg_una s) = snd_nxt b)) (concat parts) ->
  parts <> [] ->
  exists b', inputs m b (stream <$> parts) = Ok b' /\ absorbed b (concat parts) b' /\
    snd_rest b' = snd_rest (b <| rmt_wnd := w |>) /\ snd_buf b' = [].
Proof.
  intros Hr Hcv Hne Hsegs Hnil.
  set (P := fun rest k => ready_for rest k /\ exists past, concat parts = past ++ rest /\ absorbed b past k /\
    (if past is [] then k = b \/ snd_rest k = snd_rest b /\ snd_buf k = snd_buf b
     else snd_rest k = snd_rest (b <| rmt_wnd := w |>) /\ snd_buf k = [])).
  destruct (inputs_segs P) with (parts := parts) (k := b) as (b' & Heq & _ & past & Hp & Ha & Hs).
  - intros s rest k [Hk (past & Hp & Ha & Hs)]. change (s :: rest) with ([s] ++ rest) in Hk.
    apply ready_for_app in Hk as [(H1 & H2 & H3 & H4 & H5 & H6) Hnext]. apply Forall_cons_1 in H2 as [H2 _].
    split; [done|]. split; [by rewrite (cfg_part_conv _ _ (ab_cfg _ _ _ Ha))|]. intros more.
    destruct (input_seg_absorbed k s more) as (k' & Hk' & Ha'); [done..|lia|].
    exists k'. split; [done|]. split; [by apply Hnext|].
    exists (past ++ [s]). rewrite Hp, <- app_assoc. split; [done|]. split; [by eapply absorbed_trans|].
    rewrite Hp in Hsegs. apply Forall_app in Hsegs as [_ [[Hw Hu] _]%Forall_cons_1].
    assert (snd_rest (k <| rmt_wnd := w |>) = snd_rest (b <| rmt_wnd := w |>) /\
      (snd_buf k = [] \/ u32 (seg_una s) = snd_nxt k)) as [Hrest Hor].
    { unfold snd_rest in *. destruct past; [destruct Hs as [->|[Hs Hsb]]; [done|]|destruct Hs as [Hs Hsb]];
        injection Hs as E1 E2 E3 E4; cbn in *; rewrite E1, E2, E3; (split; [done|]); [|by left].
      destruct Hu; [left; congruence|by right]. }
    destruct (input_seg_rest k s _ k' H1 Hor Hk') as [E1 E2]. rewrite Hw, Hrest in E1. by destruct past.
  - intros rest k [Hk _]. apply kcp_wf_mss, Hk.
  - intros rest k una k' [Hk (past & Hp & Ha & Hs)] Hc. split.
    + rewrite Hp in Hr. apply ready_for_app in Hr as [_ Hr]. eauto using absorbed_cwnd.
    + exists past. split; [done|]. split; [by eapply absorbed_cwnd|].
      apply input_cwnd_rest in Hc as [E1 E2]. rewrite E1, E2. destruct past; [|done].
      right. by destruct Hs as [->|?].
  - done.
  - split; [done|]. exists []. split; [done|]. split; [apply absorbed_nil; apply Hr|by left].
  - exists b'. rewrite app_nil_r in Hp. rewrite Hp. split; [done|]. split; [done|].
    destruct past as [|s past]; [|done]. destruct parts as [|p parts]; [done|].
    apply Forall_cons_1 in Hne as [Hne _]. cbn in Hp. by destruct p.
Qed.
End Absorb.

(** ** What a flush puts on the link *)

Lemma cfg_part_output_eq k k' : cfg_part k' = cfg_part k -> output k' = output k /\ mtu k' = mtu k /\ mss k' = mss k /\
  snd_wnd k' = snd_wnd k /\ nocwnd k' = nocwnd k.
Proof. unfold cfg_part. intros H. split_and!; congruence. Qed.

(** The control block after a flush, up to retransmission data. *)
Lemma flush_parts m k acks :
  kcp_wf k -> output k = true -> updated k <> 0 -> ack_rep acks k -> mtu k < 1073741824 ->
  Forall (fun s => seg_len s <= mss k) (snd_queue k ++ snd_buf k) ->
  exists k' parts, ikcp_flush m k = Ok (k', stream <$> parts) /\
    concat parts = flush_segs m k acks /\ Forall (fun p => p <> []) parts /\ kcp_wf k' /\
    cfg_part k' = cfg_part k /\ rcv_part k' = rcv_part k /\ ackcount k' = 0 /\
    rmt_wnd k' = rmt_wnd k /\ updated k' = updated k /\
    snd_nxt k' = snd_nxt (after_move k) /\ snd_queue k' = snd_queue (after_move k) /\
    snd_buf k' = (fun t => default t (due_now k t)) <$> snd_buf (after_move k) /\
    Forall (fun p => zlen p <= mtu k) (stream <$> parts).
Proof.
  intros Hk Hout Hup Hrep Hmtu Hfit. pose proof (cw_mtu _ (kw_cfg _ Hk)) as Hm1.
  assert (zlen acks < 2147483648) as Hn.
  { destruct (kw_ack _ Hk) as (acks' & [Hc _] & Hn). destruct Hrep as [Hc' _]. lia. }
  destruct (flush_wf m k Hk Hout) as (k' & out & Heq & Hk' & _).
  destruct (flush_run m k acks) as (ks & c & l & ptr & o & Hx & [_ Hbd Hpk] & Hrun);
    [done|lia|done..|apply (kw_snd _ (after_move_wf k Hk))|].
  destruct (Hbd Hmtu (flush_segs_fit m k acks Hk Hfit)) as [Hp Hall]; [cbn; lia|constructor|].
  destruct (Hpk []) as (parts & rest & -> & -> & Hsegs & Hne); [by exists [], []|]. cbn [app] in Hsegs.
  rewrite i32_small in Hrun by lia. rewrite Heq in Hrun. apply Ok_inj, eq_sym in Hrun.
  pose proof (f_equal fst Hrun) as Ek. pose proof (f_equal snd Hrun) as Eo. cbn [fst snd] in Ek, Eo. clear Hrun.
  destruct (flush_end_frame k ks ((fun t => default t (due_now k t)) <$> snd_buf (after_move k))
    (flush_resent (after_move k)) (flush_cwnd (after_commands k)) c l Hx) as [Hac _]. rewrite <- Ek in Hac.
  match type of Ek with _ = flush_ssthresh ?x ?r ?w ?c ?l =>
    destruct (flush_ssthresh_frame x r w c l) as (F1 & F2 & _ & F4 & _ & F6 & _);
    destruct (flush_ssthresh_clock x r w c l) as (_ & F8 & _) end.
  rewrite <- Ek in F1, F2, F4, F6, F8. apply snd_part_eq in F1 as (S1 & S2 & S3).
  match type of Ek with _ = flush_ssthresh ?x _ _ _ _ =>
    change (snd_nxt x) with (snd_nxt ks) in S1; change (snd_queue x) with (snd_queue ks) in S2;
    change (snd_buf x) with ((fun t => default t (due_now k t)) <$> snd_buf (after_move k)) in S3;
    change (rcv_part x) with (rcv_part ks) in F2; change (cfg_part x) with (cfg_part ks) in F4;
    change (rmt_wnd x) with (rmt_wnd ks) in F6; change (updated x) with (updated ks) in F8 end. clear Ek.
  apply same_but_xmit_frame in Hx as (X1 & X2 & _ & X4 & _ & _ & X7 & _ & _ & X10).
  apply snd_part_eq in X1 as (T1 & T2 & T3).
  destruct (flush_move_frame (flush_cwnd (after_commands k)) (u32 (ikcp_wnd_unused k)) (snd_queue k)
    (after_commands k)) as (M1 & _ & M3 & M4). fold (after_move k) in M1, M3, M4.
  destruct (after_commands_frame k) as (_ & C2 & C3 & _ & C5 & _).
  assert (updated (after_commands k) = updated k) as Cu.
  { unfold after_commands. by destruct (flush_probe_frame (k <| ackcount := 0 |>)) as (_ & _ & _ & _ & _ & _ & _ & _ & ? & _). }
  assert (updated (after_move k) = updated (after_commands k) /\ rmt_wnd (after_move k) = rmt_wnd (after_commands k))
    as [Mu Mr] by (unfold clk_part in M4; split; congruence).
  exists k', (if zlen (stream rest) >? 0 then parts ++ [rest] else parts).
  split; [rewrite Heq, Eo; do 2 f_equal; case_if; [by rewrite fmap_app|done]|].
  assert (Forall (fun p => zlen p <= mtu k) (stream <$> (if zlen (stream rest) >? 0 then parts ++ [rest] else parts)))
    as Hmax.
  { assert (Forall (fun p => zlen p <= mtu k) (stream <$> parts)) by (eapply Forall_impl; [|exact Hall]; cbn; lia).
    case_if; [|done]. rewrite fmap_app. apply Forall_app. split; [done|]. by constructor. }
  split; [|split; [|split_and!; try done; try congruence]].
  - rewrite Hsegs. destruct (_ >? 0) eqn:E; zbool; [by rewrite concat_app; cbn; rewrite app_nil_r|].
    rewrite (stream_empty rest), app_nil_r by lia. done.
  - destruct (_ >? 0) eqn:E; zbool; [|done]. apply Forall_app. split; [done|]. constructor; [|constructor].
    by intros ->.
Qed.

(** The commands carry the cumulative acknowledgement and the window. *)
Definition answers (k : ikcpcb) (s : IKCPSEG) : Prop :=
  seg_una s = rcv_nxt k /\ seg_wnd s = u32 (ikcp_wnd_unused k).

Lemma command_segs_spec m k acks :
  let segs := command_segs m k acks in
  Forall (wire_seg (conv k)) segs /\ Forall (answers k) segs /\ pushes segs = [] /\
  (length acks <= length segs)%nat.
Proof.
  cbv zeta. unfold command_segs. set (seg := flush_seg (mem_seg m) k).
  assert (Hall : forall s c, (exists sn ts, s = seg <| seg_sn := sn |> <| seg_ts := ts |>) ->
    c = IKCP_CMD_WASK \/ c = IKCP_CMD_WINS ->
    wire_seg (conv k) (s <| seg_cmd := c |>) /\ answers k (s <| seg_cmd := c |>) /\ is_push (s <| seg_cmd := c |>) = false).
  { intros s c (sn & ts & ->) [->| ->]; (split; [|done]); (split_and!; [done..|cbn; lia|done]). }
  assert (Hack : forall a, wire_seg (conv k) (ack_seg seg a) /\ answers k (ack_seg seg a) /\ is_push (ack_seg seg a) = false).
  { intros a. split; [|done]. split_and!; [done..|cbn; lia|done]. }
  set (ls := match list.last acks with None => seg | Some a => ack_seg seg a end).
  assert (exists sn ts, ls = seg <| seg_sn := sn |> <| seg_ts := ts |>) as Hls.
  { subst ls. destruct (list.last acks) as [[sn ts]|]; [by exists sn, ts|by exists 0, 0]. }
  pose proof (Hall ls IKCP_CMD_WASK Hls (or_introl eq_refl)) as (W1 & W2 & W3).
  pose proof (Hall ls IKCP_CMD_WINS Hls (or_intror eq_refl)) as (V1 & V2 & V3).
  clearbody ls. clear Hall Hls.
  set (l1 := if Z.land _ IKCP_ASK_SEND =? 0 then [] else _).
  set (l2 := if Z.land _ IKCP_ASK_TELL =? 0 then [] else _).
  assert (pushes (ack_seg seg <$> acks) = []) as Hp.
  { induction acks as [|a acks IH]; [done|]. rewrite fmap_cons. unfold pushes. cbn [List.filter].
    rewrite (proj2 (proj2 (Hack a))). apply IH. }
  assert (Forall (wire_seg (conv k)) l1 /\ Forall (answers k) l1 /\ pushes l1 = []) as (A1 & A2 & A3).
  { subst l1. case_if; [done|]. unfold pushes. cbn [List.filter]. rewrite W3. auto. }
  assert (Forall (wire_seg (conv k)) l2 /\ Forall (answers k) l2 /\ pushes l2 = []) as (B1 & B2 & B3).
  { subst l2. case_if; [done|]. unfold pushes. cbn [List.filter]. rewrite V3. auto. }
  rewrite !Forall_app, !Forall_fmap, !pushes_app, Hp, A3, B3, !length_app, length_fmap.
  split_and!; try done; try lia; apply list.Forall_forall; intros a _; apply Hack.
Qed.

Lemma in_line_no_push n segs : pushes segs = [] -> in_line n segs.
Proof.
  induction segs as [|s segs IH]; [done|]. unfold pushes. cbn [List.filter in_line].
  destruct (is_push s); [done|]. apply IH.
Qed.

(** A segment that is sent for the first time. *)
Lemma due_fresh k i s :
  kcp_wf k -> queued (mss k) s -> mss k < 1073741824 ->
  exists s', due_now k (number (u32 (ikcp_wnd_unused k)) (after_commands k) i s) = Some s' /\
    wire_seg (conv k) s' /\ answers k s' /\ is_push s' = true /\ frag_of s' = frag_of s /\
    seg_sn s' = u32 (snd_nxt k + Z.of_nat i).
Proof.
  intros Hk (Hl & Hle & Hf) Hmss. destruct (after_commands_frame k) as (Hs & _ & Hc & _).
  apply snd_part_eq in Hs as (Hn & _). apply cfg_part_conv in Hc as Hcv.
  destruct (flush_move_frame (flush_cwnd (after_commands k)) (u32 (ikcp_wnd_unused k)) (snd_queue k)
    (after_commands k)) as (M1 & _). fold (after_move k) in M1. apply rcv_part_eq in M1 as (M1 & _).
  destruct (after_commands_frame k) as (_ & Hr & _). apply rcv_part_eq in Hr as (R1 & _).
  unfold due_now, due, flush_decide. eexists. split; [reflexivity|].
  split; [split_and!; try done; cbn; lia|]. split; [split; cbn; [congruence|done]|]. split; [done|].
  split; [done|]. rewrite <- Hn. reflexivity.
Qed.

Lemma data_segs_spec k q j :
  kcp_wf k -> Forall (queued (mss k)) q -> mss k < 1073741824 ->
  let segs := omap (due_now k) (imap (fun i => number (u32 (ikcp_wnd_unused k)) (after_commands k) (j + i)%nat) q) in
  Forall (wire_seg (conv k)) segs /\ Forall (answers k) segs /\ pushes segs = segs /\
  frag_of <$> segs = frag_of <$> q /\ in_line (u32 (snd_nxt k + Z.of_nat j)) segs.
Proof.
  intros Hk Hq Hmss. cbv zeta. revert j. induction Hq as [|s q Hs Hq IH]; intros j; [done|].
  rewrite imap_cons. cbn [omap list_omap]. rewrite Nat.add_0_r.
  destruct (due_fresh k j s Hk Hs Hmss) as (s' & -> & H1 & H2 & H3 & H4 & H5).
  specialize (IH (S j)).
  assert (imap ((fun i => number (u32 (ikcp_wnd_unused k)) (after_commands k) (j + i)%nat) ∘ S) q
    = imap (fun i => number (u32 (ikcp_wnd_unused k)) (after_commands k) (S j + i)%nat) q) as ->.
  { apply imap_ext. intros i t _. cbn. by rewrite Nat.add_succ_r. }
  destruct IH as (I1 & I2 & I3 & I4 & I5). set (segs := omap _ _) in *. clearbody segs.
  unfold pushes in *. cbn [List.filter in_line]. rewrite H3, I3, !fmap_cons, H4, I4, u32_add_l.
  replace (snd_nxt k + Z.of_nat j + 1) with (snd_nxt k + Z.of_nat (S j)) by lia. auto 10.
Qed.

Lemma after_commands_cwnd k : flush_cwnd (after_commands k) = flush_cwnd k.
Proof.
  destruct (after_commands_frame k) as (_ & _ & Hc & _ & Hr & _ & _ & _ & _ & _ & Hw).
  apply cfg_part_output_eq in Hc as (_ & _ & _ & Hs & Hn). unfold flush_cwnd. by rewrite Hs, Hn, Hr, Hw.
Qed.

(** Nothing in flight and a window large enough: the whole queue is sent. *)
Lemma after_move_idle k :
  kcp_wf k -> snd_buf k = [] -> zlen (snd_queue k) <= flush_cwnd k ->
  snd_queue (after_move k) = [] /\ snd_nxt (after_move k) = u32 (snd_nxt k + zlen (snd_queue k)) /\
  snd_buf (after_move k) = imap (number (u32 (ikcp_wnd_unused k)) (after_commands k)) (snd_queue k).
Proof.
  intros Hk Hb Hw. pose proof (after_commands_wf k Hk) as Hc. pose proof (flush_cwnd_range _ Hc) as Hr.
  rewrite after_commands_cwnd in Hr. destruct (after_commands_frame k) as (Hs & _ & _ & Hu & _).
  apply snd_part_eq in Hs as (S1 & S2 & S3).
  destruct (flush_move_spec (flush_cwnd k) (u32 (ikcp_wnd_unused k)) (snd_queue k) (after_commands k) Hr S2 (kw_snd _ Hc))
    as (pre & H1 & H2 & H3 & H4).
  unfold after_move. rewrite after_commands_cwnd. set (k1 := flush_move _ _ _ _) in *.
  assert (kcp_wf k1) as Hk1 by (pose proof (after_move_wf k Hk) as Ha; unfold after_move in Ha; by rewrite after_commands_cwnd in Ha).
  assert (snd_una (after_commands k) = snd_nxt k) as Huna.
  { rewrite Hu. destruct (kw_snd _ Hk) as [_ He]. unfold una_exact in He. by rewrite Hb in He. }
  rewrite Huna, S1 in *. unfold off in H3 at 2. rewrite Z.sub_diag in H3. change (u32 0) with 0 in H3. rewrite Z.add_0_l in H3.
  assert (zlen (snd_queue k) = zlen pre + zlen (snd_queue k1)) as Hlen by (rewrite H1 at 1; apply Z_length_app).
  assert (snd_queue k1 = []) as Hq1.
  { destruct H4 as [?|H4]; [done|]. rewrite H3 in H4. destruct (snd_queue k1); [done|]. cbn in Hlen. lia. }
  rewrite Hq1, app_nil_r in H1. subst pre. rewrite S3, Hb in H2. split; [done|]. split; [|done].
  pose proof (sl_nxt _ (proj1 (kw_snd _ Hk1))). pose proof (sl_nxt _ (proj1 (kw_snd _ Hk))).
  unfold off in H3. revert H3. wrap_lia.
Qed.

Lemma flush_idle m k acks :
  kcp_wf k -> output k = true -> updated k <> 0 -> ack_rep acks k -> mtu k < 1073741824 ->
  snd_buf k = [] -> Forall (queued (mss k)) (snd_queue k) -> zlen (snd_queue k) <= flush_cwnd k ->
  exists k' parts, ikcp_flush m k = Ok (k', stream <$> parts) /\ Forall (fun p => p <> []) parts /\
    (Forall (wire_seg (conv k)) (concat parts) /\ Forall (answers k) (concat parts) /\
     in_line (snd_nxt k) (concat parts) /\ frag_of <$> pushes (concat parts) = frag_of <$> snd_queue k /\
     zlen acks + zlen (snd_queue k) <= zlen (concat parts)) /\
    kcp_wf k' /\ cfg_part k' = cfg_part k /\ rcv_part k' = rcv_part k /\ ackcount k' = 0 /\
    rmt_wnd k' = rmt_wnd k /\ updated k' = updated k /\ snd_queue k' = [] /\
    snd_nxt k' = u32 (snd_nxt k + zlen (snd_queue k)) /\ (snd_queue k = [] -> snd_buf k' = []).
Proof.
  intros Hk Hout Hup Hrep Hmtu Hb Hq Hw. pose proof (cw_mss _ (kw_cfg _ Hk)) as Hmss. unfold IKCP_OVERHEAD in Hmss.
  destruct (after_move_idle k Hk Hb Hw) as (A1 & A2 & A3).
  destruct (flush_parts m k acks) as (k' & parts & Hf & Hsegs & Hne & Hk' & Hc & Hr & Hac & Hrw & Hu & N1 & N2 & N3 & _);
    [done..| |].
  { rewrite Hb, app_nil_r. revert Hq. apply Forall_impl. intros s (_ & ? & _). done. }
  exists k', parts. split; [done|]. split; [done|].
  split; [|split_and!; try done; try congruence; intros E; by rewrite N3, A3, E].
  rewrite Hsegs. unfold flush_segs. rewrite A3.
  destruct (command_segs_spec m k acks) as (C1 & C2 & C3 & C4).
  destruct (data_segs_spec k (snd_queue k) 0 Hk Hq ltac:(lia)) as (D1 & D2 & D3 & D4 & D5).
  cbn [Nat.add] in *.
  change (imap (fun i => number (u32 (ikcp_wnd_unused k)) (after_commands k) i) (snd_queue k))
    with (imap (number (u32 (ikcp_wnd_unused k)) (after_commands k)) (snd_queue k)) in *.
  set (data := omap _ _) in *. clearbody data. set (cmds := command_segs m k acks) in *. clearbody cmds.
  pose proof (sl_nxt _ (proj1 (kw_snd _ Hk))) as Hn.
  rewrite !Forall_app, in_line_app, pushes_app, C3, D3, Z_length_app by done. cbn [app length].
  rewrite Z.add_0_r in *. pose proof (f_equal length D4) as Hl. rewrite !length_fmap in Hl.
  split_and!; try done; try lia. by apply in_line_no_push.
Qed.

(** ** Reading *)

Lemma recv_kept k copy len k' out r :
  ikcp_recv k copy len = Ok (k', out, r) -> rcv_buf k = [] -> updated k' = updated k /\ rcv_nxt k' = rcv_nxt k.
Proof.
  unfold ikcp_recv. intros H Hb. destruct (rcv_queue k) as [|s0 q0]; [by injection H as <- _ _|].
  case_if_in H; [by injection H as <- _ _|]. case_if_in H; [by injection H as <- _ _|].
  destruct (recv_merge _ _ _ _ _ _) as [[[o l] rest] n].
  apply run_bind_Ok in H as (u & _ & H). injection H as <- _ _.
  match goal with |- context [move_avail ?x] => set (k1 := x) end.
  assert (move_avail k1 = k1) as -> by (unfold move_avail; subst k1; case_if; cbn; by rewrite Hb).
  subst k1. by repeat case_if.
Qed.

Lemma recv_all b len msg :
  kcp_wf b -> rcv_buf b = [] -> rcv_queue b <> [] -> frg_down (frag_of <$> rcv_queue b) ->
  frag_bytes (frag_of <$> rcv_queue b) = msg -> zlen msg < 2147483648 -> zlen msg <= len ->
  exists b', ikcp_recv b true len = Ok (b', msg, zlen msg) /\ kcp_wf b' /\ cfg_part b' = cfg_part b /\
    snd_part b' = snd_part b /\ ack_part b' = ack_part b /\ rmt_wnd b' = rmt_wnd b /\ updated b' = updated b /\
    rcv_queue b' = [] /\ rcv_buf b' = [] /\ rcv_nxt b' = rcv_nxt b.
Proof.
  intros Hb Hbuf Hne Hd <- Hmax Hlen.
  destruct (recv_group b (rcv_queue b) [] len) as (k1 & b' & Heq & H1 & H2 & _ & H4 & _);
    [apply Hb|by rewrite app_nil_r|done..|].
  exists b'. split; [done|]. destruct (recv_safe b true len Hb) as (b2 & o & r & Heq2 & Hw & Hc).
  rewrite Heq in Heq2. injection Heq2 as <- _ _. destruct (recv_frame _ _ _ _ _ _ Heq) as [Hs _].
  destruct (recv_clk _ _ _ _ _ _ Heq) as (Ha & _ & Hr & _). destruct (recv_kept _ _ _ _ _ _ Heq Hbuf) as [Hu Hn].
  apply rcv_part_eq in H4 as (_ & Hq & Hb' & _). unfold move_avail in Hq, Hb'. rewrite H2, Hbuf in Hq, Hb'.
  cbn [move_loop] in Hq, Hb'. rewrite H1 in Hq. rewrite H2, Hbuf in Hb'. done.
Qed.

(** ** A round *)

(** Nothing is in flight from [a] to [b]; at least [n] segments fit the windows, and
    [a] is not held back by congestion control (its option nc). *)
Record link (n : Z) (a b : ikcpcb) : Prop := {
  lk_a : kcp_wf a; lk_b : kcp_wf b;
  lk_open : output a = true /\ output b = true /\ updated a <> 0 /\ updated b <> 0;
  lk_conv : conv b = conv a /\ 0 <= conv a < 4294967296;
  lk_mtu : mtu a < 1073741824 /\ mtu b < 1073741824;
  lk_snd : snd_queue a = [] /\ snd_buf a = [] /\ snd_queue b = [] /\ snd_buf b = [];
  lk_rcv : rcv_queue a = [] /\ rcv_buf a = [] /\ rcv_queue b = [] /\ rcv_buf b = [];
  lk_nxt : rcv_nxt b = snd_nxt a;
  lk_acks : ackcount a = 0 /\ ackcount b = 0;
  lk_wnd : nocwnd a <> 0 /\ 0 < n <= snd_wnd a /\ n <= rmt_wnd a /\ n <= rcv_wnd b <= 65535
}.

(** One message: the calls of the two applications, and the datagrams of either
    side passed to the other; what ikcp_recv wrote and returned. *)
Definition send_round (m : mem) (len : Z) (a b : ikcpcb) (msg : list byte)
  : run (ikcpcb * ikcpcb * (list byte * Z)) :=
  '(a, _) ← ikcp_send m a (Some msg) (zlen msg);
  '(a, out) ← ikcp_flush m a;
  b ← inputs m b out;
  '(b, got, r) ← ikcp_recv b true len;
  '(b, out) ← ikcp_flush m b;
  a ← inputs m a out;
  Ok (a, b, (got, r)).

Fixpoint send_rounds (m : mem) (len : Z) (a b : ikcpcb) (msgs : list (list byte))
  : run (ikcpcb * ikcpcb * list (list byte * Z)) :=
  match msgs with
  | [] => Ok (a, b, [])
  | msg :: msgs =>
      '(a, b, got) ← send_round m len a b msg;
      '(a, b, rest) ← send_rounds m len a b msgs;
      Ok (a, b, got :: rest)
  end.

(** Between the two halves of a round: the message is read, its acknowledgements are
    pending. *)
Record midway (n : Z) (a b : ikcpcb) : Prop := {
  mw_a : kcp_wf a; mw_b : kcp_wf b;
  mw_open : output a = true /\ output b = true /\ updated a <> 0 /\ updated b <> 0;
  mw_conv : conv b = conv a /\ 0 <= conv a < 4294967296;
  mw_mtu : mtu a < 1073741824 /\ mtu b < 1073741824;
  mw_snd : snd_queue a = [] /\ snd_queue b = [] /\ snd_buf b = [];
  mw_rcv : rcv_queue a = [] /\ rcv_buf a = [] /\ rcv_queue b = [] /\ rcv_buf b = [];
  mw_nxt : rcv_nxt b = snd_nxt a;
  mw_acks : ackcount a = 0 /\ 0 < ackcount b;
  mw_wnd : nocwnd a <> 0 /\ 0 < n <= snd_wnd a /\ n <= rcv_wnd b <= 65535
}.

Lemma link_cwnd n a b : link n a b -> n <= flush_cwnd a.
Proof.
  intros []. destruct lk_wnd0 as (Hn & H1 & H2 & _). unfold flush_cwnd. rewrite (proj2 (Z.eqb_neq _ _) Hn).
  pose proof (imin_spec (snd_wnd a) (rmt_wnd a)). lia.
Qed.

Section Rounds.
Context (m : mem) (Hm : forall z, mem_ok m z = true) (n len : Z).

Definition fits (mss : Z) (msg : list byte) : Prop :=
  zlen msg <= len /\ zlen msg < 2147483648 /\ frag_count (zlen msg) mss <= Z.min n 255.

Lemma ack_rep_nil k : ackcount k = 0 -> kcp_wf k -> ack_rep [] k.
Proof.
  intros H0 Hk. destruct (kw_ack _ Hk) as (acks & Hrep & _). pose proof Hrep as [Hc _].
  rewrite H0 in Hc. destruct acks; [done|cbn in Hc; lia].
Qed.

(** The message is queued. *)
Lemma send_idle a msg :
  kcp_wf a -> snd_queue a = [] -> fits (mss a) msg ->
  exists a1 segs, ikcp_send m a (Some msg) (zlen msg) = Ok (a1, 0) /\ kcp_wf a1 /\ cfg_part a1 = cfg_part a /\
    frag_bytes (frag_of <$> segs) = msg /\ frg_down (frag_of <$> segs) /\ Forall (queued (mss a)) segs /\
    0 < zlen segs <= n /\
    snd_queue a1 = segs /\ snd_buf a1 = snd_buf a /\ snd_nxt a1 = snd_nxt a /\ ackcount a1 = ackcount a /\
    updated a1 = updated a /\ flush_cwnd a1 = flush_cwnd a /\ rcv_part a1 = rcv_part a.
Proof.
  intros Ha Hq0 (Hlen & Hmax & Hcount). pose proof (kcp_wf_mss _ Ha) as Hmss.
  destruct (send_ok m a msg Hm Ha Hmax) as (segs & Hsend & Hfr & Hq); [lia|]. rewrite Hq0 in Hsend. cbn [app] in Hsend.
  destruct (send_safe m a msg Hm Ha Hmax) as (a1 & r & Hs1 & Ha1 & Hc1). rewrite Hsend in Hs1. apply Ok_inj in Hs1.
  pose proof (f_equal fst Hs1) as E1. cbn [fst] in E1. clear Hs1. rewrite <- E1 in Hsend.
  assert (zlen segs = frag_count (zlen msg) (mss a)) as Hn.
  { pose proof (f_equal length Hfr) as Hl. rewrite length_fmap, length_fragments in Hl. unfold frag_count in *. lia. }
  exists a1, segs. split; [done|]. split; [done|]. split; [done|].
  split; [rewrite Hfr; apply fragments_bytes, frag_count_enough; lia|].
  split; [rewrite Hfr; apply fragments_frg_down|]. split; [done|].
  split; [rewrite Hn; unfold frag_count in *; lia|]. by rewrite E1.
Qed.

(** The message travels. *)
Lemma forward a b msg :
  link n a b -> fits (mss a) msg ->
  exists a1 a2 out b1 b2, ikcp_send m a (Some msg) (zlen msg) = Ok (a1, 0) /\ ikcp_flush m a1 = Ok (a2, out) /\
    inputs m b out = Ok b1 /\ ikcp_recv b1 true len = Ok (b2, msg, zlen msg) /\
    midway n a2 b2 /\ cfg_part a2 = cfg_part a.
Proof.
  intros Hl Hfit. pose proof (link_cwnd _ _ _ Hl) as Hcw.
  destruct Hl as [Ha Hb (Oa & Ob & Ua & Ub) (Cab & Ca) (Ma & Mb) (S1 & S2 & S3 & S4) (R1 & R2 & R3 & R4) Hnxt (A1 & A2) (Wn & Ws & Wr & Wb)].
  destruct (send_idle a msg Ha S1 Hfit) as (a1 & segs & Hsend & Ha1 & Hc1 & Hby & Hdn & Hq & Hpos & Q1 & Q2 & Q3 & Q4 & Q5 & Q6 & Q7).
  destruct Hfit as (Hlen & Hmax & _). rewrite S2 in Q2. rewrite A1 in Q4. rewrite <- Q5 in Ua.
  apply cfg_part_output_eq in Hc1 as Hc1'. destruct Hc1' as (C1 & C2 & C3 & C4 & C5).
  apply cfg_part_conv in Hc1 as Hcv1.
  destruct (flush_idle m a1 [] Ha1) as (a2 & parts & Hf & Hne & (P1 & P2 & P3 & P4 & P5) & Ha2 & F1 & F2 & F3 & F4 & F5 & F6 & F7 & _);
    [congruence|done|by apply ack_rep_nil|lia|done|by rewrite Q1, C3|rewrite Q1; lia|].
  rewrite Q1 in *. rewrite Q3 in *. rewrite Hcv1, <- Cab in P1. rewrite <- Hnxt in P3.
  pose proof (f_equal length P4) as HlP. rewrite !length_fmap in HlP.
  pose proof (rw_nque _ (kw_rcv _ Hb)) as Hnq. rewrite R3 in Hnq. cbn in Hnq.
  destruct (inputs_absorbed m Hm b parts (u16 (u32 (ikcp_wnd_unused a1)))) as (b1 & Hi & Hab & Hrest & Hsb).
  { split_and!; try done; lia. }
  { lia. }
  { done. }
  { revert P2. apply Forall_impl. intros s [_ ->]. split; [done|by left]. }
  { intros ->. cbn in P5. lia. }
  destruct Hab as [Hb1 Hcb Hbb Hqb Hnb Hackb]. rewrite R3 in Hqb. cbn in Hqb. rewrite P4 in Hqb.
  destruct (recv_all b1 len msg) as (b2 & Hr & Hb2 & G1 & G2 & G3 & _ & G5 & G6 & G7 & G8); try done.
  { intros E. rewrite E in Hqb. destruct segs; [cbn in Hpos; lia|done]. }
  { by rewrite Hqb. }
  { by rewrite Hqb. }
  exists a1, a2, (stream <$> parts), b1, b2. split; [done|]. split; [done|]. split; [done|]. split; [done|].
  split; [|congruence].
  assert (cfg_part a2 = cfg_part a) as Ka by congruence. assert (cfg_part b2 = cfg_part b) as Kb by congruence.
  apply cfg_part_output_eq in Ka as Ka'. destruct Ka' as (V1 & V2 & V3 & V4 & V5).
  apply cfg_part_output_eq in Kb as Kb'. destruct Kb' as (X1 & X2 & _).
  unfold snd_rest in Hrest. injection Hrest as E1 E2 E3 E4. cbn in E1, E2, E3.
  apply snd_part_eq in G2 as (_ & Y2 & Y3). apply ack_part_count in G3.
  assert (rcv_part a2 = rcv_part a) as Z1 by congruence. apply rcv_part_eq in Z1 as (_ & Z2 & Z3 & _).
  constructor; rewrite ?(cfg_part_conv _ _ Ka), ?(cfg_part_conv _ _ Kb), ?(cfg_part_wnd _ _ Kb).
  - done.
  - done.
  - split_and!; congruence.
  - done.
  - split; congruence.
  - split_and!; congruence.
  - split_and!; congruence.
  - rewrite G8, Hnb, F7, Hnxt. do 2 f_equal. lia.
  - split; [done|]. lia.
  - split_and!; try congruence; lia.
Qed.

(** The acknowledgements travel back. *)
Lemma backward a b :
  midway n a b ->
  exists b1 out a1, ikcp_flush m b = Ok (b1, out) /\ inputs m a out = Ok a1 /\ link n a1 b1 /\
    cfg_part a1 = cfg_part a.
Proof.
  intros [Ha Hb (Oa & Ob & Ua & Ub) (Cab & Ca) (Ma & Mb) (S1 & S3 & S4) (R1 & R2 & R3 & R4) Hnxt (A1 & A2) (Wn & Ws & Wb)].
  destruct (kw_ack _ Hb) as (acks & Hrep & _). pose proof Hrep as [Hcount _].
  destruct (flush_idle m b acks Hb) as (b1 & parts & Hf & Hne & (P1 & P2 & P3 & P4 & P5) & Hb1 & F1 & F2 & F3 & F4 & F5 & F6 & F7 & F8);
    [done..|by rewrite S3; constructor|rewrite S3; apply flush_cwnd_range, Hb|].
  rewrite S3 in P4, P5, F7. cbn in P5.
  assert (pushes (concat parts) = []) as Hnp by (by destruct (pushes (concat parts))).
  pose proof (rw_nque _ (kw_rcv _ Ha)) as Hnq. rewrite R1 in Hnq. cbn in Hnq.
  pose proof (rw_wnd _ (kw_rcv _ Ha)) as Hwa. pose proof (rw_nxt _ (kw_rcv _ Hb)) as Hnb.
  assert (u16 (u32 (ikcp_wnd_unused b)) = rcv_wnd b) as Hw.
  { unfold ikcp_wnd_unused. rewrite (rw_nque _ (kw_rcv _ Hb)), R3. cbn [length]. change (Z.of_nat 0) with 0.
    rewrite (proj2 (Z.ltb_lt 0 _)), Z.sub_0_r, i32_small, !u32_small, u16_small; rewrite ?u32_small; lia. }
  destruct (inputs_absorbed m Hm a parts (rcv_wnd b)) as (a1 & Hi & Hab & Hrest & Hsa).
  { split_and!; [done|by rewrite <- Cab|by apply in_line_no_push|done|rewrite Hnp; cbn; lia..]. }
  { done. }
  { done. }
  { revert P2. apply Forall_impl. intros s [-> ->]. split; [done|right]. rewrite u32_small; [done|lia]. }
  { intros ->. cbn in P5. lia. }
  exists b1, (stream <$> parts), a1. split; [done|]. split; [done|].
  destruct Hab as [Ha1 Hca Hba Hqa Hna Hacka]. split; [|done].
  apply cfg_part_output_eq in Hca as Hca'. destruct Hca' as (V1 & V2 & V3 & V4 & V5).
  apply cfg_part_output_eq in F1 as F1'. destruct F1' as (X1 & X2 & _).
  apply rcv_part_eq in F2 as (Y1 & Y2 & Y3 & _). unfold snd_rest in Hrest. injection Hrest as E1 E2 E3 E4.
  cbn in E1, E2, E3, E4. rewrite Hnp, R1 in Hqa. cbn in Hqa. rewrite Hnp in Hacka. cbn in Hacka.
  constructor; rewrite ?(cfg_part_conv _ _ Hca), ?(cfg_part_conv _ _ F1), ?(cfg_part_wnd _ _ F1).
  - done.
  - done.
  - split_and!; congruence.
  - done.
  - split; congruence.
  - split_and!; try congruence. by apply F8.
  - split_and!; try congruence. by destruct (rcv_queue a1).
  - congruence.
  - split; [lia|done].
  - split_and!; try congruence; lia.
Qed.

Lemma round_ok a b msg :
  link n a b -> fits (mss a) msg ->
  exists a' b', send_round m len a b msg = Ok (a', b', (msg, zlen msg)) /\ link n a' b' /\ mss a' = mss a.
Proof.
  intros Hl Hf. destruct (forward a b msg Hl Hf) as (a1 & a2 & out & b1 & b2 & H1 & H2 & H3 & H4 & Hmw & Hc1).
  destruct (backward a2 b2 Hmw) as (b3 & out2 & a3 & H5 & H6 & Hl' & Hc2).
  exists a3, b3. unfold send_round. rewrite H1. cbn [mbind run_bind]. rewrite H2. cbn [mbind run_bind].
  rewrite H3. cbn [mbind run_bind]. rewrite H4. cbn [mbind run_bind]. rewrite H5. cbn [mbind run_bind].
  rewrite H6. split; [done|]. split; [done|]. rewrite Hc1 in Hc2. by apply cfg_part_output_eq in Hc2 as (_ & _ & ? & _).
Qed.

End Rounds.

(** Two endpoints configured as the server and client libraries do it, after their
    first update. *)
Definition demo_end : ikcpcb :=
  ep_kcp (after_calls demo_mem [([], Op_nodelay 1 5 1 1); ([], Op_update 100)] (fresh demo_open)).

Lemma demo_end_wf : kcp_wf demo_end.
Proof. unfold demo_end. apply after_calls_wf; [done|exact demo_open_wf|reflexivity]. Qed.

Lemma demo_link : link 32 demo_end demo_end.
Proof. constructor; [exact demo_end_wf..|by vm_compute|by vm_compute|by vm_compute|by vm_compute|by vm_compute|by vm_compute|by vm_compute|by vm_compute]. Qed.

(** A message of three fragments, the empty one, and a short one. *)
Definition demo_msgs : list (list byte) := [demo_msg 3000; []; demo_msg 5].

