(* ===== verification/KcpTimerThms.v ===== *)
(** * Theorems: windows and timers

    The send window and congestion control, the update clock and the window probe
    timer. *)

From stdpp Require Import sorting sets.
From S2P Require Import Prelude Codec KcpState KcpAck KcpRecv KcpSend KcpInput KcpFlush.
From S2P Require Import KcpWire KcpFrames KcpTransfer KcpSystem KcpWf KcpWfSnd KcpFlushSpec KcpSafety.
From S2P Require Import KcpTheorems KcpDataThms.

(** ** The send window *)



(** ** Congestion control *)

(** The congestion window on input.  It changes only when [snd_una]
    advances and it is below the peer's window; then it grows by at most one
    segment and never beyond the peer's window, and by exactly one during slow
    start. *)
Theorem input_cwnd_growth k una :
  kcp_wf k -> cwnd k < 4294967295 ->
  exists k', input_cwnd k una = Ok k' /\
    cwnd k <= cwnd k' <= cwnd k + 1 /\ (cwnd k' = cwnd k \/ cwnd k' <= rmt_wnd k) /\
    (itimediff (snd_una k) una <= 0 \/ rmt_wnd k <= cwnd k -> k' = k) /\
    (0 < itimediff (snd_una k) una -> cwnd k < rmt_wnd k -> cwnd k < ssthresh k -> cwnd k' = cwnd k + 1).
Proof.
  intros Hk Hmax. destruct (kw_clk _ Hk) as [_ Hc0].
  pose proof (sl_rmt _ (proj1 (kw_snd _ Hk))) as Hr.
  pose proof (cw_mss _ (kw_cfg _ Hk)) as Hm. pose proof (cw_mtu _ (kw_cfg _ Hk)) as Hmtu.
  unfold IKCP_OVERHEAD in Hm. unfold input_cwnd.
  destruct (_ >? 0) eqn:E1; zbool; [|exists k; split_and!; auto; lia].
  destruct (cwnd k <? rmt_wnd k) eqn:E2; zbool; [|exists k; split_and!; auto; lia].
  assert (u32 (cwnd k + 1) = cwnd k + 1) as Hu by (apply u32_small; lia). cbv zeta.
  destruct (cwnd k <? ssthresh k) eqn:E3; zbool.
  - cbn [mbind run_bind]. eexists. split; [reflexivity|]. cbn. rewrite Hu.
    assert ((cwnd k + 1 >? rmt_wnd k) = false) as -> by (rewrite Z.gtb_ltb; apply Z.ltb_ge; lia).
    cbn. split_and!; lia.
  - set (k1 := if incr k <? mss k then _ else k).
    assert (cwnd k1 = cwnd k /\ rmt_wnd k1 = rmt_wnd k) as [Hc1 Hr1] by (subst k1; by case_if).
    assert ((incr k1 =? 0) = false) as ->.
    { apply Z.eqb_neq. subst k1. destruct (incr k <? mss k) eqn:E; zbool; cbn; lia. }
    cbn [mbind run_bind]. clearbody k1. eexists. split; [reflexivity|].
    set (i := u32 (incr k1 + _)). clearbody i.
    set (k2 := k1 <| incr := i |>).
    change (cwnd k2) with (cwnd k1). rewrite Hc1, Hu.
    destruct (u32 ((cwnd k + 1) * mss k) >=? incr k2) eqn:Eb; cbn; rewrite ?Hc1, ?Hu, ?Hr1.
    + assert ((cwnd k + 1 >? rmt_wnd k) = false) as -> by (rewrite Z.gtb_ltb; apply Z.ltb_ge; lia).
      cbn. split_and!; lia.
    + assert ((cwnd k >? rmt_wnd k) = false) as -> by (rewrite Z.gtb_ltb; apply Z.ltb_ge; lia).
      cbn. rewrite ?Hc1. split_and!; lia.
Qed.

(** C33: congestion avoidance is as fast as slow start.  Above the slow start
    threshold [incr] is meant to accumulate fractions of a segment until the
    window may grow; but the comparison of line 808 is the wrong way round: it
    holds as long as [incr] has not reached the next segment.  With [incr] at its
    regular value [cwnd * mss], the window grows by one at every acknowledgement. *)
Theorem congestion_avoidance_always_grows k una :
  kcp_wf k -> 0 < itimediff (snd_una k) una -> ssthresh k <= cwnd k < rmt_wnd k ->
  2 <= cwnd k -> incr k = cwnd k * mss k -> mss k <= 10000 ->
  exists k', input_cwnd k una = Ok k' /\ cwnd k' = cwnd k + 1.
Proof.
  intros Hk Hu [Hss Hr] Hc Hi Hmax.
  pose proof (sl_rmt _ (proj1 (kw_snd _ Hk))) as Hrm.
  pose proof (cw_mss _ (kw_cfg _ Hk)) as Hm. pose proof (cw_mtu _ (kw_cfg _ Hk)) as Hmtu.
  unfold IKCP_OVERHEAD in Hm. unfold input_cwnd.
  rewrite (proj2 (Z.gtb_lt _ _) Hu), (proj2 (Z.ltb_lt _ _) Hr), (proj2 (Z.ltb_ge _ _) Hss). cbv zeta.
  rewrite (proj2 (Z.ltb_ge (incr k) (mss k))) by nia.
  rewrite (proj2 (Z.eqb_neq (incr k) 0)) by nia. cbn [mbind run_bind].
  assert (0 <= mss k * mss k / incr k + mss k / 16 <= mss k) as Hinc.
  { assert (mss k * mss k / incr k <= mss k / 2).
    { rewrite Hi, Z.div_mul_cancel_r by lia. apply Z.div_le_compat_l; lia. }
    assert (0 <= mss k * mss k / incr k) by (apply Z.div_pos; nia).
    pose proof (Z.mul_div_le (mss k) 2). pose proof (Z.mul_div_le (mss k) 16).
    assert (0 <= mss k / 16) by (apply Z.div_pos; lia). lia. }
  rewrite (u32_small (mss k * mss k)) by nia. set (d := _ + mss k / 16) in *. clearbody d.
  cbn [cwnd incr update]. rewrite (u32_small (cwnd k + 1)) by lia. cbn.
  rewrite (u32_small ((cwnd k + 1) * mss k)), (u32_small (incr k + d)) by nia.
  assert (((cwnd k + 1) * mss k >=? incr k + d) = true) as -> by (rewrite Z.geb_leb; apply Z.leb_le; nia).
  eexists. split; [reflexivity|]. cbn.
  assert ((cwnd k + 1 >? rmt_wnd k) = false) as -> by (rewrite Z.gtb_ltb; apply Z.ltb_ge; lia). done.
Qed.

Lemma kcp_wf_cwnd k c i : 0 <= c -> kcp_wf k -> kcp_wf (k <| cwnd := c |> <| incr := i |>).
Proof.
  intros Hc Hk. apply (kcp_wf_ext k); try done. split; [apply (kw_clk _ Hk)|done].
Qed.

Definition demo_avoid : ikcpcb := demo_flight <| cwnd := 10 |> <| incr := 10 * mss demo_flight |>.

Lemma congestion_avoidance_always_grows_witness :
  exists k', input_cwnd demo_avoid 4294967295 = Ok k' /\ cwnd k' = cwnd demo_avoid + 1.
Proof.
  apply (congestion_avoidance_always_grows demo_avoid 4294967295).
  - apply kcp_wf_cwnd; [discriminate|exact demo_flight_wf].
  - vm_compute. reflexivity.
  - split; vm_compute; [discriminate|reflexivity].
  - vm_compute. discriminate.
  - vm_compute. reflexivity.
  - vm_compute. discriminate.
Defined.

(** ** The update clock *)

(** A flush leaves the clock alone. *)
Lemma flush_clock m k k' out :
  ikcp_flush m k = Ok (k', out) ->
  clock k' = clock k.
Proof.
  intros H. unfold ikcp_flush in H. case_if_in H; [by injection H as <- _|].
  apply run_bind_Ok in H as ([[[k1 seg] ptr] o1] & Hc & H).
  assert (clock k1 = clock k) as <-.
  { unfold flush_commands in Hc.
    apply run_bind_Ok in Hc as ([[? ?] ?] & _ & Hc). apply run_bind_Ok in Hc as ([[? ?] ?] & _ & Hc).
    apply run_bind_Ok in Hc as ([[? ?] ?] & _ & Hc). apply Ok_inj in Hc.
    pose proof (flush_probe_ts (k <| ackcount := 0 |>)) as Ht.
    pose proof (flush_probe_frame (k <| ackcount := 0 |>)) as (_ & _ & _ & Hcf & _ & _ & _ & Hcu & Hup & _).
    apply cfg_part_interval in Hcf. set (kp := flush_probe _) in *. clearbody kp.
    assert (k1 = kp <| probe := 0 |>) as -> by congruence.
    unfold clock. cbn in *. congruence. }
  destruct (flush_move_frame (flush_cwnd k1) (seg_wnd seg) (snd_queue k1) k1) as (_ & _ & Hcf & Hck).
  set (k2 := flush_move _ _ _ _) in *. clearbody k2. rewrite <- (clk_part_clock _ _ Hck Hcf). clear Hck Hcf.
  apply run_bind_Ok in H as ([buf s] & Hd & H). apply flush_data_keys in Hd as [_ Hx].
  cbn [f_kcp] in Hx. apply run_bind_Ok in H as (o2 & _ & H). apply Ok_inj in H.
  set (ks := f_kcp s) in *. clearbody ks.
  assert (clock ks = clock k2) as <- by (unfold same_but_xmit in Hx; by rewrite Hx).
  match type of H with (_, _) = (flush_ssthresh ?x ?a ?b ?c ?d, _) =>
    destruct (flush_ssthresh_clock x a b c d) as (E1 & E2 & E3);
    destruct (flush_ssthresh_frame x a b c d) as (_ & _ & _ & E4 & _);
    apply cfg_part_interval in E4; set (kz := flush_ssthresh x a b c d) in * end.
  clearbody kz. injection H as -> _. unfold clock. by rewrite E1, E2, E3, E4.
Qed.

(** The flush clock of ikcp_update.  Called at time [now], it flushes
    exactly when the next flush time [ts_flush] is reached, or is more than ten
    seconds away in either direction, or on the first call; otherwise it outputs
    nothing.  In either case the next flush time then lies in the future, at most
    one interval ahead if it flushed and at most ten seconds otherwise. *)
Theorem update_clock m k now :
  kcp_wf k -> output k = true -> 0 <= now < 4294967296 ->
  let slap := itimediff now (ts_flush k) in
  let flushes := (updated k =? 0) || (slap >=? 0) || (slap <? -10000) in
  exists k' out, ikcp_update m k now = Ok (k', out) /\ kcp_wf k' /\
    current k' = now /\ updated k' <> 0 /\
    (flushes = false -> out = [] /\ k' = k <| current := now |>) /\
    0 < itimediff (ts_flush k') now <= (if flushes then interval k else 10000).
Proof.
  intros Hk Ho Hnow. cbv zeta. destruct (update_wf m k now Hk Ho) as (k' & out & Heq & Hk' & _).
  exists k', out. split; [done|]. split; [done|].
  pose proof (cw_interval _ (kw_cfg _ Hk)) as Hi. unfold ikcp_update in Heq. cbv zeta in Heq.
  set (k1 := if updated _ =? 0 then _ else _) in Heq.
  assert (current k1 = now /\ updated k1 <> 0 /\ interval k1 = interval k /\
    (if updated k =? 0 then ts_flush k1 = now else k1 = k <| current := now |>)) as (Hc1 & Hu1 & Hi1 & Ht1).
  { subst k1. cbn. destruct (updated k =? 0) eqn:E; zbool; done. }
  clearbody k1. rewrite Hc1 in Heq.
  set (ks := if _ || _ then _ else _) in Heq.
  set (flushes := (updated k =? 0) || (itimediff now (ts_flush k) >=? 0) || (itimediff now (ts_flush k) <? -10000)).
  assert (current ks.1 = now /\ updated ks.1 <> 0 /\ interval ks.1 = interval k /\
    (flushes = false -> ks.1 = k <| current := now |>) /\
    flushes = (ks.2 >=? 0) /\ ks.2 = itimediff now (ts_flush ks.1) /\ -10000 <= ks.2 < 10000)
    as (Hc2 & Hu2 & Hi2 & Hk2 & Hf & Hs2 & Hr2).
  { assert (itimediff now now = 0) as H0 by (rewrite itimediff_small; lia).
    subst ks flushes. destruct (updated k =? 0) eqn:E.
    - rewrite Ht1, H0. cbn. by rewrite Ht1, H0.
    - subst k1. cbn [ts_flush update orb].
      set (sl := itimediff now (ts_flush k)). destruct ((sl >=? 10000) || (sl <? -10000)) eqn:Es; cbn.
      + rewrite H0. split_and!; try done. intros Hff. zbool. apply orb_true_iff in Es as [|]; zbool; lia.
        apply orb_true_iff in Es as [|]; zbool; apply orb_true_iff; [left; rewrite Z.geb_leb; apply Z.leb_le; lia|right; by apply Z.ltb_lt].
      + zbool. assert ((sl <? -10000) = false) as -> by (apply Z.ltb_ge; lia). rewrite orb_false_r.
        split_and!; try done; lia. }
  destruct ks as [k2 slap]. cbn [fst snd] in *. clearbody flushes. subst flushes.
  destruct (slap >=? 0) eqn:Esl; zbool.
  - apply flush_clock in Heq. unfold clock in Heq. injection Heq as Hc3 Hu3 Ht3 _. rewrite Hc3, Hu3, Ht3.
    assert (0 <= itimediff now (ts_flush k2) < 10000) as Hsr by lia. clear Hs2.
    destruct (_ >=? 0) eqn:En; zbool; cbn in *; rewrite ?Hc2, ?Hi2 in *; (split; [done|]; split; [done|]; split; [done|]).
    + rewrite itimediff_add; lia.
    + unfold itimediff in *. wrap_lia.
  - injection Heq as <- <-. rewrite (Hk2 eq_refl). cbn. split; [done|]. 
    rewrite (Hk2 eq_refl) in Hu2, Hs2. cbn in Hu2, Hs2. split; [done|]. split; [done|].
    unfold itimediff in *. wrap_lia.
Qed.

(** ** ikcp_check *)

Lemma check_loop_spec now buf tm :
  0 < tm ->
  match check_loop now buf tm with
  | None => exists s, s ∈ buf /\ itimediff (seg_resendts s) now <= 0
  | Some t => 0 < t <= tm /\ Forall (fun s => t <= itimediff (seg_resendts s) now) buf
  end.
Proof.
  revert tm. induction buf as [|s buf IH]; intros tm Htm; cbn [check_loop]; [split; [lia|constructor]|].
  case_if.
  - exists s. split; [apply list_elem_of_here|done].
  - specialize (IH (if itimediff (seg_resendts s) now <? tm then itimediff (seg_resendts s) now else tm)).
    ospecialize (IH _); [case_if; lia|].
    destruct (check_loop _ _ _) as [t|].
    + destruct IH as [Ht Hall]. split; [case_if_in Ht; lia|]. constructor; [case_if_in Ht; lia|done].
    + destruct IH as (u & Hu & ?). exists u. split; [by apply list_elem_of_further|done].
Qed.

(** C34: ikcp_check does not oversleep.  The time it returns is [now] plus a
    delay of at most one interval; the delay is 0 if a flush or a retransmission
    is due, and otherwise it is positive and reaches neither beyond the next flush
    nor beyond the retransmission time of any segment in flight. *)
Theorem check_never_late k now :
  kcp_wf k -> 0 <= now < 4294967296 -> updated k <> 0 ->
  let late := itimediff now (ts_flush k) in
  exists d, ikcp_check k now = u32 (now + d) /\ 0 <= d <= interval k /\
    (d = 0 <-> (0 <= late \/ late < -10000 \/
                exists s, s ∈ snd_buf k /\ itimediff (seg_resendts s) now <= 0)) /\
    (0 < d -> d <= itimediff (ts_flush k) now /\
              Forall (fun s => d <= itimediff (seg_resendts s) now) (snd_buf k)).
Proof.
  intros Hk Hnow Hup. cbv zeta. pose proof (cw_interval _ (kw_cfg _ Hk)) as Hi.
  assert (u32 (now + 0) = now) as Hn0 by (rewrite Z.add_0_r; by apply u32_small).
  unfold ikcp_check. rewrite (proj2 (Z.eqb_neq _ _) Hup).
  set (late := itimediff now (ts_flush k)) in *.
  destruct ((late >=? 10000) || (late <? -10000)) eqn:E1.
  { assert (itimediff now now = 0) as -> by (rewrite itimediff_small; lia).
    exists 0. cbn. rewrite Hn0. split; [done|]. split; [lia|]. split; [split; [intros _|lia]|lia].
    apply orb_true_iff in E1 as [|]; zbool; lia. }
  zbool. fold late. destruct (late >=? 0) eqn:E2; zbool.
  { exists 0. rewrite Hn0. split; [done|]. split; [lia|]. split; [split; lia|lia]. }
  assert (itimediff (ts_flush k) now = - late) as Hfl.
  { subst late. unfold itimediff in *. wrap_lia. }
  rewrite Hfl. pose proof (check_loop_spec now (snd_buf k) 2147483647 ltac:(lia)) as Hcl.
  destruct (check_loop now (snd_buf k) 2147483647) as [t|].
  - destruct Hcl as [Ht Hall]. set (mn := if t <? - late then t else - late).
    assert (0 < mn <= t /\ mn <= - late) as Hmn by (subst mn; case_if; lia).
    rewrite (u32_small mn) by lia. clearbody mn.
    exists (if mn >=? interval k then interval k else mn).
    set (d := if mn >=? interval k then interval k else mn).
    assert (0 < d <= mn /\ d <= interval k) as Hd by (subst d; case_if; lia). clearbody d.
    split; [done|]. split; [lia|]. split.
    + split; [lia|]. intros [Hx|[Hx|(s & Hs & Hx)]]; [lia|lia|].
      rewrite list.Forall_forall in Hall. specialize (Hall s Hs). lia.
    + intros _. split; [lia|]. eapply Forall_impl; [|exact Hall]. cbn. intros; lia.
  - exists 0. rewrite Hn0. split; [done|]. split; [lia|]. split; [split; auto|lia].
Qed.

Lemma check_never_late_witness :
  let late := itimediff 101 (ts_flush demo_flight) in
  exists d, ikcp_check demo_flight 101 = u32 (101 + d) /\ 0 <= d <= interval demo_flight /\
    (d = 0 <-> (0 <= late \/ late < -10000 \/
                exists s, s ∈ snd_buf demo_flight /\ itimediff (seg_resendts s) 101 <= 0)) /\
    (0 < d -> d <= itimediff (ts_flush demo_flight) 101 /\
              Forall (fun s => d <= itimediff (seg_resendts s) 101) (snd_buf demo_flight)).
Proof.
  apply (check_never_late demo_flight 101).
  - exact demo_flight_wf.
  - split; [discriminate|reflexivity].
  - vm_compute. discriminate.
Defined.

(** ** The window probe timer *)

(** Probing a closed window.  While the peer's window is open the probe
    timer is off.  When it is closed, the first flush arms the timer with 7
    seconds; each expiry requests one probe and multiplies the delay by 1.5 up to
    120 seconds; before expiry nothing changes. *)
Theorem probe_backoff k :
  probe_wait k = 0 \/ IKCP_PROBE_INIT <= probe_wait k <= IKCP_PROBE_LIMIT ->
  let k' := flush_probe k in
  if rmt_wnd k =? 0 then
    IKCP_PROBE_INIT <= probe_wait k' <= IKCP_PROBE_LIMIT /\
    if probe_wait k =? 0 then
      probe_wait k' = IKCP_PROBE_INIT /\ ts_probe k' = u32 (current k + IKCP_PROBE_INIT) /\ probe k' = probe k
    else if itimediff (current k) (ts_probe k) >=? 0 then
      probe_wait k' = Z.min IKCP_PROBE_LIMIT (probe_wait k + probe_wait k / 2) /\
      ts_probe k' = u32 (current k + probe_wait k') /\ Z.land (probe k') IKCP_ASK_SEND <> 0
    else k' = k
  else probe_wait k' = 0 /\ ts_probe k' = 0 /\ probe k' = probe k.
Proof.
  intros Hw. cbv zeta. unfold flush_probe. destruct (rmt_wnd k =? 0); [|done].
  unfold IKCP_PROBE_INIT, IKCP_PROBE_LIMIT in *.
  destruct (probe_wait k =? 0) eqn:E0; zbool; [cbn; split; [lia|done]|].
  destruct (itimediff _ _ >=? 0); [|split; [lia|done]].
  assert (7000 <= probe_wait k <= 120000) as Hr by lia.
  rewrite (proj2 (Z.ltb_ge (probe_wait k) 7000)) by lia. cbn.
  assert (probe_wait k / 2 <= 60000 /\ 0 <= probe_wait k / 2) as Hh
    by (split; [apply Z.div_le_upper_bound|apply Z.div_pos]; lia).
  rewrite u32_small by lia. set (w := probe_wait k + probe_wait k / 2) in *.
  destruct (w >? 120000) eqn:E; zbool; cbn; (split; [lia|]); (split; [lia|]); (split; [done|]).
  all: unfold IKCP_ASK_SEND; intros H0; apply (f_equal (fun z => Z.testbit z 0)) in H0;
    rewrite Z.land_spec, Z.lor_spec in H0; by rewrite orb_true_r in H0.
Qed.

Definition demo_closed : ikcpcb :=
  demo_flight <| rmt_wnd := 0 |> <| probe_wait := 7000 |> <| ts_probe := 90 |>.
