(* ===== verification/KcpHeld.v ===== *)
(** * Nothing is discarded before it has arrived

    [KcpSystem] shows that nothing wrong is handed out.  This file shows the other
    half of reliability, on which every later delivery rests: as long as a fragment
    has not arrived, the sender of src/util/ikcp.c still has it.  The two control
    blocks are related in either direction by [dir], which every call of the
    applications and every datagram of the network, however old, preserves. *)

From stdpp Require Import relations sorting.
From S2P Require Import Prelude Codec KcpState KcpAck KcpRecv KcpSend KcpInput KcpFlush.
From S2P Require Import KcpWire KcpFrames KcpTransfer KcpTransferSteps KcpSystem KcpWf KcpWfSnd KcpFlushSpec KcpSafety.
From S2P Require Import KcpTheorems KcpDataThms KcpLink KcpTimerThms.

(** ** What has arrived *)

(** The receiver has fragment [i], in sequence or behind a gap. *)
Definition has (k : ikcpcb) (i : Z) : Prop := i < rcv_nxt k \/ i ∈ (seg_sn <$> rcv_buf k).

(** A step of a receiver whose peer has numbered [N] fragments. *)
Record arrives (N : Z) (k k' : ikcpcb) : Prop := {
  ar_nxt : rcv_nxt k <= rcv_nxt k' <= N;
  ar_buf : Forall (fun s => seg_sn s < N) (rcv_buf k');
  ar_has : forall i, has k i -> has k' i
}.

(** The numbers stay below 2^31, where the comparison of ikcp.c is that of integers. *)
Abbreviation half := 2147483648.

Lemma has_rcv k k' i : rcv_part k' = rcv_part k -> has k i -> has k' i.
Proof. intros H. apply rcv_part_eq in H as (H1 & _ & H3 & _). unfold has. by rewrite H1, H3. Qed.

Lemma arrives_rcv N k k' :
  rcv_part k' = rcv_part k -> rcv_nxt k <= N -> Forall (fun s => seg_sn s < N) (rcv_buf k) -> arrives N k k'.
Proof.
  intros H Hn Hb. pose proof H as H'. apply rcv_part_eq in H' as (H1 & _ & H3 & _).
  constructor; [lia|by rewrite H3|]. intros i. by apply has_rcv.
Qed.

Lemma arrives_trans N k1 k2 k3 : arrives N k1 k2 -> arrives N k2 k3 -> arrives N k1 k3.
Proof. intros [] []. constructor; [lia|done|auto]. Qed.

(** Segments numbered one after the other, all below [N]. *)
Lemma in_turn (pre : list IKCPSEG) n N :
  0 <= n <= N -> N < half -> (forall i s, pre !! i = Some s -> seg_sn s = u32 (n + Z.of_nat i)) ->
  Forall (fun s => seg_sn s < N) pre -> n + zlen pre <= N.
Proof.
  intros Hn HN. revert n Hn. induction pre as [|s pre IH]; intros n Hn Hi Hb; [cbn; lia|].
  apply Forall_cons_1 in Hb as [Hs Hb]. pose proof (Hi 0%nat s eq_refl) as H0.
  rewrite u32_small in H0 by lia. cbn [length].
  specialize (IH (n + 1)). ospecialize (IH _ _ Hb); [lia| |lia].
  intros i t Ht. rewrite (Hi (S i) t Ht). f_equal. lia.
Qed.

Lemma move_arrives N k :
  rcv_wf k -> rcv_nxt k <= N -> N < half -> Forall (fun s => seg_sn s < N) (rcv_buf k) -> arrives N k (move_avail k).
Proof.
  intros Hk Hn HN Hb. pose proof (rw_nxt _ Hk) as H0. unfold move_avail.
  destruct (move_loop_spec (rcv_buf k) k) as (pre & H1 & _ & H3 & H4 & _);
    [done|by apply u32_small|rewrite (rw_nque _ Hk); lia|pose proof (rw_wnd _ Hk); lia|].
  set (k' := move_loop _ k) in *. clearbody k'. rewrite H1 in Hb. apply Forall_app in Hb as [Hpre Hb].
  pose proof (in_turn pre (rcv_nxt k) N ltac:(lia) HN H3 Hpre) as Hle.
  rewrite u32_small in H4 by lia. constructor; [lia|done|].
  intros i [Hi|Hi]; [left; lia|]. rewrite H1, fmap_app, elem_of_app in Hi. destruct Hi as [Hi|Hi]; [|by right].
  left. apply list_elem_of_fmap in Hi as (s & -> & Hs). apply list_elem_of_lookup in Hs as [j Hj].
  pose proof (lookup_lt_Some _ _ _ Hj). rewrite (H3 j s Hj), u32_small by lia. lia.
Qed.

(** A data segment is stored if the window has room for it. *)
Lemma parse_arrives N k s :
  rcv_wf k -> seg_sized s -> rcv_nxt k <= N -> N < half -> Forall (fun s => seg_sn s < N) (rcv_buf k) ->
  0 <= seg_sn s < N ->
  arrives N k (ikcp_parse_data k s) /\
  (seg_sn s < rcv_nxt k + rcv_wnd k -> has (ikcp_parse_data k s) (seg_sn s)).
Proof.
  intros Hk Hs Hn HN Hb Hsn. pose proof (rw_nxt _ Hk) as H0.
  destruct (parse_data_cases k s Hk Hs) as [[-> Hout]|(Hin & k1 & -> & Hk1 & _ & _ & _ & Hn1 & Hc)]; [lia| |].
  - split; [by apply arrives_rcv|]. intros Hlt. left. unfold off in Hout. revert Hout. wrap_lia.
  - assert (Forall (fun s => seg_sn s < N) (rcv_buf k1) /\ (forall i, has k i -> has k1 i) /\ has k1 (seg_sn s))
      as (Hb1 & Hh & Hs1).
    { destruct Hc as [[Hp _]|[-> Hi]]; [|split_and!; [done..|by right]].
      split; [rewrite Hp; by constructor; [lia|]|]. unfold has. rewrite Hn1. split.
      - intros i [Hi|Hi]; [by left|right]. rewrite Hp, fmap_cons. by apply list_elem_of_further.
      - right. rewrite Hp, fmap_cons. apply list_elem_of_here. }
    pose proof (move_arrives N k1 Hk1) as Ha. rewrite Hn1 in Ha. destruct (Ha Hn HN Hb1) as [A1 A2 A3].
    split; [|auto]. constructor; [lia|done|auto].
Qed.

(** ** What the sender still has *)

(** A segment of [snd_buf], up to the data of its retransmission. *)
Definition seg_key (s : IKCPSEG) := (seg_conv s, seg_cmd s, seg_frg s, snd_key s).

(** Segments are given up by the sender [k] only when the receiver [b] has them. *)
Record releases (b k k' : ikcpcb) : Prop := {
  rl_nxt : snd_nxt k' = snd_nxt k;
  rl_queue : snd_queue k' = snd_queue k;
  rl_una : snd_una k <= snd_una k' <= snd_nxt k;
  rl_buf : Forall (fun s' => exists s, s ∈ snd_buf k /\ seg_key s' = seg_key s) (snd_buf k');
  rl_held : forall i, i ∈ (seg_sn <$> snd_buf k) -> has b i \/ i ∈ (seg_sn <$> snd_buf k')
}.

Definition in_seq (k : ikcpcb) : Prop := snd_una k <= snd_nxt k < half.

Lemma in_flight_range k s : snd_loose k -> in_seq k -> s ∈ snd_buf k -> snd_una k <= seg_sn s < snd_nxt k.
Proof.
  intros Hk [Hs Hn] Hin. pose proof (sl_una _ Hk). pose proof (sl_below _ Hk) as Hb. rewrite list.Forall_forall in Hb.
  specialize (Hb s Hin). destruct (sl_sorted _ Hk) as [_ Hnear]. rewrite list.Forall_forall in Hnear.
  destruct (Hnear s Hin) as [Hr _]. unfold off in Hb. revert Hb. wrap_lia.
Qed.

(** [snd_una] follows the buffer. *)
Lemma releases_intro b k k' :
  snd_wf k -> snd_wf k' -> in_seq k -> snd_nxt k' = snd_nxt k -> snd_queue k' = snd_queue k ->
  Forall (fun s' => exists s, s ∈ snd_buf k /\ seg_key s' = seg_key s) (snd_buf k') ->
  (forall i, i ∈ (seg_sn <$> snd_buf k) -> has b i \/ i ∈ (seg_sn <$> snd_buf k')) -> releases b k k'.
Proof.
  intros [Hk _] [_ Hx] Hs Hn Hq Hb Hh. constructor; try done. destruct Hs as [Hs Hmax]. unfold una_exact in Hx.
  destruct (snd_buf k') as [|s' l]; [lia|]. apply Forall_cons_1 in Hb as [(s & Hin & Hkey) _].
  destruct (in_flight_range k s Hk (conj Hs Hmax) Hin). unfold seg_key, snd_key in Hkey. injection Hkey as _ _ _ E _ _. lia.
Qed.

Lemma releases_refl b k k' :
  snd_part k' = snd_part k -> snd_una k' = snd_una k -> in_seq k -> releases b k k'.
Proof.
  intros Hs Hu [H1 H2]. apply snd_part_eq in Hs as (E1 & E2 & E3). constructor; rewrite ?E3; try done; [lia| |auto].
  apply list.Forall_forall. eauto.
Qed.

Lemma key_sn s s' : seg_key s' = seg_key s -> seg_sn s' = seg_sn s.
Proof. unfold seg_key, snd_key. congruence. Qed.

Lemma releases_trans b b' k1 k2 k3 :
  (forall i, has b i -> has b' i) -> releases b k1 k2 -> releases b' k2 k3 -> releases b' k1 k3.
Proof.
  intros Hb [A1 A2 A3 A4 A5] [B1 B2 B3 B4 B5]. constructor; try congruence; [lia| |].
  - eapply Forall_impl; [|exact B4]. intros s (t & Ht & E). rewrite list.Forall_forall in A4.
    destruct (A4 t Ht) as (u & Hu & E'). exists u. split; [done|congruence].
  - intros i Hi. destruct (A5 i Hi) as [?|Hi2]; auto.
Qed.

(** Acknowledging everything before [una]. *)
Lemma una_releases b k wnd una :
  kcp_wf k -> in_seq k -> 0 <= wnd < 65536 -> 0 <= una <= rcv_nxt b -> una <= snd_nxt k ->
  let k' := ikcp_shrink_buf (ikcp_parse_una (k <| rmt_wnd := wnd |>) una) in
  releases b k k' /\ una <= snd_una k'.
Proof.
  intros Hk Hseq Hw Huna Hle. cbv zeta. destruct (input_una_wf k wnd una Hw Hk) as (Hk' & _ & _).
  set (k0 := k <| rmt_wnd := wnd |>) in *. assert (snd_buf k0 = snd_buf k) as E0 by done.
  set (k' := ikcp_shrink_buf _) in *. pose proof (kw_snd _ Hk') as Hs'. pose proof (kw_snd _ Hk) as [Hl _].
  destruct (una_loop_spec una (snd_buf k) k0 E0) as (pre & post & Hb & Heq & Hpre & Hpost).
  assert (snd_nxt k' = snd_nxt k /\ snd_queue k' = snd_queue k /\ snd_buf k' = post) as (E1 & E2 & E3).
  { destruct (shrink_buf_frame (ikcp_parse_una k0 una)) as (Hf & _). fold k' in Hf.
    apply snd_part_eq in Hf as (-> & -> & ->). unfold ikcp_parse_una. by rewrite E0, Heq. }
  assert (Hdiff : forall s, s ∈ snd_buf k -> itimediff una (seg_sn s) = una - seg_sn s).
  { intros s Hs. pose proof (in_flight_range k s Hl Hseq Hs). pose proof (sl_una _ Hl). destruct Hseq.
    apply itimediff_small. lia. }
  split.
  - apply releases_intro; [apply Hk|done..| |].
    + rewrite E3. apply list.Forall_forall. intros s Hs. exists s. split; [|done]. rewrite Hb. apply elem_of_app. by right.
    + intros i Hi. rewrite E3. rewrite Hb, fmap_app, elem_of_app in Hi. destruct Hi as [Hi|]; [left; left|by right].
      apply list_elem_of_fmap in Hi as (s & -> & Hs). rewrite list.Forall_forall in Hpre. specialize (Hpre s Hs).
      rewrite Hdiff in Hpre by (rewrite Hb; apply elem_of_app; by left). lia.
  - destruct Hs' as [_ Hx]. unfold una_exact in Hx. rewrite E3 in Hx. destruct post as [|s post]; [lia|].
    rewrite Hdiff in Hpost by (rewrite Hb; apply elem_of_app; right; apply list_elem_of_here). lia.
Qed.

Lemma bump_key s : seg_key (bump s) = seg_key s.
Proof. done. Qed.

(** Acknowledging one segment. *)
Lemma ack_releases b k h : kcp_wf k -> in_seq k -> has b (h_sn h) -> releases b k (input_ack k h).
Proof.
  intros Hk Hseq Hb. pose proof (input_ack_wf k h Hk) as Hk'.
  unfold input_ack in *. set (k1 := if (_ : bool) then _ else k) in *.
  assert (snd_part k1 = snd_part k) as Hs1%snd_part_eq.
  { subst k1. case_if; [|done]. by destruct (update_ack_frame k (itimediff (current k) (h_ts h))) as (? & _). }
  clearbody k1. destruct Hs1 as (E1 & E2 & E3).
  destruct (shrink_buf_frame (ikcp_parse_ack k1 (h_sn h))) as (Hsp & _). apply snd_part_eq in Hsp as (F1 & F2 & F3).
  assert (snd_nxt (ikcp_parse_ack k1 (h_sn h)) = snd_nxt k /\ snd_queue (ikcp_parse_ack k1 (h_sn h)) = snd_queue k /\
    Forall (fun s' => exists s, s ∈ snd_buf k /\ seg_key s' = seg_key s) (snd_buf (ikcp_parse_ack k1 (h_sn h))) /\
    forall i, i ∈ (seg_sn <$> snd_buf k) -> has b i \/ i ∈ (seg_sn <$> snd_buf (ikcp_parse_ack k1 (h_sn h))))
    as (G1 & G2 & G3 & G4).
  2: { apply releases_intro; [apply Hk|apply Hk'|done|congruence|congruence|by rewrite F3|by rewrite F3]. }
  unfold ikcp_parse_ack. case_if.
  { rewrite E3. split_and!; [done..| |auto]. apply list.Forall_forall. eauto. }
  destruct (ack_loop (h_sn h) (snd_buf k1)) as [buf found] eqn:E. apply ack_loop_spec in E. rewrite E3 in E.
  assert (Hbump : forall l, (seg_sn <$> (bump <$> l)) = seg_sn <$> l) by (intros l; by rewrite <- list_fmap_compose).
  destruct found; cbn [snd_nxt snd_queue snd_buf update].
  - destruct E as (pre & s & post & Hbuf & -> & Hsn & _). rewrite Hbuf. split_and!; [done..| |].
    + apply Forall_app. split; [apply Forall_fmap|]; apply list.Forall_forall; intros t Ht; exists t;
        (split; [|done]); rewrite elem_of_app; [by left|right; by apply list_elem_of_further].
    + intros i. rewrite !fmap_app, fmap_cons, Hbump, !elem_of_app, elem_of_cons, Hsn.
      intros [?|[->|?]]; auto.
  - destruct E as [-> _]. split_and!; [done..| |].
    + apply Forall_fmap, list.Forall_forall. intros t Ht. by exists t.
    + intros i. rewrite Hbump. auto.
Qed.

(** ** Moving on *)

(** Where the queue has room, nothing that could move is left behind. *)
Lemma stops_gap k : rcv_wf k -> move_stops k -> nrcv_que k < rcv_wnd k -> rcv_nxt k ∉ (seg_sn <$> rcv_buf k).
Proof.
  intros Hk Hst Hroom Hin. unfold move_stops in Hst. destruct (rw_sorted _ Hk) as [Hs Hn].
  destruct (rcv_buf k) as [|s l]; [by apply not_elem_of_nil in Hin|].
  destruct Hst as [Hne|]; [|lia]. rewrite fmap_cons, elem_of_cons in Hin. destruct Hin as [Hin|Hin]; [done|].
  apply list_elem_of_fmap in Hin as (t & Ht & Hin). apply StronglySorted_cons in Hs as [Hall _].
  rewrite list.Forall_forall in Hall. specialize (Hall t Hin). unfold sn_before in Hall. rewrite <- Ht in Hall.
  unfold off in Hall at 2. rewrite Z.sub_diag in Hall. pose proof (off_range (rcv_nxt k) (seg_sn s)).
  change (u32 0) with 0 in Hall. lia.
Qed.

(** The next number, once it is in the buffer, moves to the queue. *)
Lemma move_first N k :
  rcv_wf k -> rcv_nxt k <= N -> N < half -> Forall (fun s => seg_sn s < N) (rcv_buf k) ->
  rcv_nxt k ∈ (seg_sn <$> rcv_buf k) -> nrcv_que k < rcv_wnd k -> rcv_nxt k < rcv_nxt (move_avail k).
Proof.
  intros Hk Hn HN Hb Hin Hroom. pose proof (rw_nxt _ Hk) as H0. pose proof (move_avail_wf k Hk) as Hk'. unfold move_avail in *.
  destruct (move_loop_spec (rcv_buf k) k) as (pre & H1 & _ & H3 & H4 & H5 & _ & _ & _ & H9);
    [done|by apply u32_small|rewrite (rw_nque _ Hk); lia|pose proof (rw_wnd _ Hk); lia|].
  destruct (move_loop_frame (rcv_buf k) k) as (_ & _ & Hc & _). apply cfg_part_wnd in Hc.
  set (k' := move_loop _ k) in *. clearbody k'. rewrite H1 in Hb. apply Forall_app in Hb as [Hpre _].
  pose proof (in_turn pre (rcv_nxt k) N ltac:(lia) HN H3 Hpre) as Hle. rewrite u32_small in H4 by lia.
  destruct pre as [|s pre]; [|cbn [length] in *; lia]. cbn in *. exfalso.
  apply (stops_gap k' Hk' H9); [lia|]. rewrite H4, Z.add_0_r. by rewrite <- H1.
Qed.

Lemma parse_stops k s :
  rcv_wf k -> seg_sized s -> 0 <= seg_sn s < 4294967296 -> move_stops k -> move_stops (ikcp_parse_data k s).
Proof.
  intros Hk Hs Hsn Hst. destruct (parse_data_cases k s Hk Hs Hsn) as [[-> _]|(_ & k1 & -> & Hk1 & _)]; [done|].
  by apply move_avail_moves.
Qed.

Lemma parse_first N k s :
  rcv_wf k -> seg_sized s -> rcv_nxt k <= N -> N < half -> Forall (fun s => seg_sn s < N) (rcv_buf k) ->
  seg_sn s = rcv_nxt k -> rcv_nxt k < N -> nrcv_que k < rcv_wnd k -> rcv_nxt k < rcv_nxt (ikcp_parse_data k s).
Proof.
  intros Hk Hs Hn HN Hb Hsn Hlt Hroom. pose proof (rw_nxt _ Hk) as H0. pose proof (rw_nque _ Hk) as Hq.
  destruct (parse_data_cases k s Hk Hs) as [[_ Hout]|(_ & k1 & -> & Hk1 & _ & Hq1 & Hw1 & Hn1 & Hc)]; [lia| |].
  - exfalso. apply Hout. rewrite Hsn. unfold off. rewrite Z.sub_diag. change (u32 0) with 0. lia.
  - rewrite <- Hn1. apply (move_first N); [done|lia|done| | |lia].
    + destruct Hc as [[-> _]|[-> _]]; [|done]. constructor; [lia|done].
    + rewrite Hn1, <- Hsn. destruct Hc as [[Hp _]|[-> Hi]]; [|done]. rewrite Hp, fmap_cons. apply list_elem_of_here.
Qed.

(** ** The relation of two endpoints *)

(** What is said of the segments [k] writes. *)
Record said (k : ikcpcb) (s : IKCPSEG) : Prop := {
  sa_wire : wire_seg (conv k) s;
  sa_una : 0 <= seg_una s <= rcv_nxt k;
  sa_push : seg_cmd s = IKCP_CMD_PUSH -> 0 <= seg_sn s < snd_nxt k;
  sa_ack : seg_cmd s = IKCP_CMD_ACK -> 0 <= seg_sn s < half /\ has k (seg_sn s)
}.

Lemma said_mono k k' s :
  conv k' = conv k -> rcv_nxt k <= rcv_nxt k' -> snd_nxt k <= snd_nxt k' -> (forall i, has k i -> has k' i) ->
  said k s -> said k' s.
Proof.
  intros Hc Hr Hs Hh [A1 A2 A3 A4]. constructor; [by rewrite Hc|lia|..].
  - intros E. specialize (A3 E). lia.
  - intros E. destruct (A4 E). auto.
Qed.

(** The acknowledgements pending are true. *)
Definition acks_had (k : ikcpcb) : Prop :=
  exists acks, ack_rep acks k /\ Forall (fun p => 0 <= p.1 < half /\ has k p.1) acks.

(** What [k] relies on to take in what [y] writes. *)
Record meets (y k : ikcpcb) : Prop := {
  mt_wf : kcp_wf k;
  mt_seq : in_seq k;
  mt_stops : move_stops k;
  mt_acks : acks_had k;
  mt_conv : conv y = conv k /\ 0 <= conv k < 4294967296;
  mt_una : rcv_nxt y <= snd_nxt k;
  mt_nxt : rcv_nxt k <= snd_nxt y < half;
  mt_buf : Forall (fun s => seg_sn s < snd_nxt y) (rcv_buf k)
}.

Definition idle_part (k : ikcpcb) := (updated k, current k, probe_wait k, ts_probe k).

(** What [k] has taken in of the segments [past]. *)
Record took (y k : ikcpcb) (past : list IKCPSEG) (k' : ikcpcb) : Prop := {
  tk_meets : meets y k';
  tk_out : releases y k k';
  tk_in : arrives (snd_nxt y) k k';
  tk_cfg : cfg_part k' = cfg_part k;
  tk_idle : idle_part k' = idle_part k;
  tk_cwnd : 1 <= cwnd k -> 1 <= cwnd k';
  tk_count : ackcount k <= ackcount k' <= ackcount k + zlen (pushes past);
  tk_una : Forall (fun s => seg_una s <= snd_una k') past;
  tk_wnd : rmt_wnd k' = match list.last past with None => rmt_wnd k | Some s => u16 (seg_wnd s) end;
  tk_probe : (Z.land (probe k) IKCP_ASK_TELL <> 0 \/ exists s, s ∈ past /\ seg_cmd s = IKCP_CMD_WASK) ->
    Z.land (probe k') IKCP_ASK_TELL <> 0;
  tk_first : match pushes past with
    | [] => rcv_part k' = rcv_part k
    | s :: _ => nrcv_que k < rcv_wnd k -> seg_sn s <= rcv_nxt k -> rcv_nxt k + rcv_wnd k < seg_sn s + half ->
        seg_sn s < rcv_nxt k' /\ ackcount k < ackcount k'
    end
}.

Lemma length_pushes segs : zlen (pushes segs) <= zlen segs.
Proof. unfold pushes. pose proof (List.filter_length_le is_push segs). lia. Qed.

Lemma took_nil y k : meets y k -> took y k [] k.
Proof.
  intros Hk. constructor; try done.
  - apply releases_refl; [done..|apply Hk].
  - apply arrives_rcv; [done|apply Hk|apply Hk].
  - cbn. lia.
  - intros [?|(s & Hs & _)]; [done|]. by apply not_elem_of_nil in Hs.
Qed.

Lemma took_trans y k1 p1 k2 p2 k3 : took y k1 p1 k2 -> took y k2 p2 k3 -> took y k1 (p1 ++ p2) k3.
Proof.
  intros [A1 A2 A3 A4 A5 A5' A6 A7 A8 A9 A10] [B1 B2 B3 B4 B5 B5' B6 B7 B8 B9 B10].
  constructor; try done; try congruence.
  - by eapply releases_trans.
  - by eapply arrives_trans.
  - auto.
  - rewrite pushes_app, Z_length_app. lia.
  - apply Forall_app. split; [|done]. eapply Forall_impl; [|exact A7]. pose proof (rl_una _ _ _ B2). cbn. intros; lia.
  - rewrite B8, last_app. by destruct (list.last p2).
  - intros [?|(s & [Hs|Hs]%elem_of_app & Hc)]; apply B9; [left; auto|left; apply A9; eauto|eauto].
  - rewrite pushes_app. pose proof (ar_nxt _ _ _ B3). destruct (pushes p1) as [|s l]; cbn [app].
    + pose proof A10 as Hr. apply rcv_part_eq in Hr as (R1 & R2 & R3 & R4).
      pose proof (cfg_part_wnd _ _ A4) as Hw. destruct (pushes p2); [congruence|]. rewrite R1, R4, Hw in B10.
      intros H1 H2 H3. destruct (B10 H1 H2 H3). lia.
    + intros H1 H2 H3. destruct (A10 H1 H2 H3). lia.
Qed.

(** ** One segment *)

Lemma acks_had_ext k k' : ack_part k' = ack_part k -> (forall i, has k i -> has k' i) -> acks_had k -> acks_had k'.
Proof.
  intros Ha Hh (acks & Hr & Hf). exists acks. split; [by eapply ack_rep_ext|].
  eapply Forall_impl; [|exact Hf]. intros p [? ?]. auto.
Qed.

Lemma move_stops_ext k k' : rcv_part k' = rcv_part k -> cfg_part k' = cfg_part k -> move_stops k -> move_stops k'.
Proof.
  intros Hr Hc. apply rcv_part_eq in Hr as (R1 & _ & R3 & R4). apply cfg_part_wnd in Hc.
  unfold move_stops. by rewrite R1, R3, R4, Hc.
Qed.

(** Steps that only give up segments. *)
Lemma meets_releases y k k' :
  kcp_wf k' -> releases y k k' -> rcv_part k' = rcv_part k -> ack_part k' = ack_part k -> cfg_part k' = cfg_part k ->
  meets y k -> meets y k'.
Proof.
  intros Hk' Hrl Hr Ha Hc [A1 A2 A3 A4 A5 A6 A7 A8]. pose proof Hr as Hr'. apply rcv_part_eq in Hr' as (R1 & _ & R3 & _).
  pose proof (rl_nxt _ _ _ Hrl) as E. pose proof (rl_una _ _ _ Hrl). destruct A2.
  constructor; rewrite ?E, ?R1, ?R3, ?(cfg_part_conv _ _ Hc); try done.
  - unfold in_seq. rewrite E. lia.
  - by eapply move_stops_ext.
  - apply (acks_had_ext k); [done| |done]. intros i. by apply has_rcv.
Qed.

(** The part common to all commands. *)
Record began (y k : ikcpcb) (s : IKCPSEG) (k1 : ikcpcb) : Prop := {
  bg_meets : meets y k1;
  bg_out : releases y k k1;
  bg_rcv : rcv_part k1 = rcv_part k;
  bg_ack : ackcount k1 = ackcount k;
  bg_cfg : cfg_part k1 = cfg_part k;
  bg_idle : idle_part k1 = idle_part k /\ cwnd k1 = cwnd k;
  bg_una : seg_una s <= snd_una k1;
  bg_wnd : rmt_wnd k1 = u16 (seg_wnd s);
  bg_probe : probe k1 = probe k
}.

Lemma input_una_idle k wnd una :
  let k' := ikcp_shrink_buf (ikcp_parse_una (k <| rmt_wnd := wnd |>) una) in
  (idle_part k' = idle_part k /\ cwnd k' = cwnd k) /\ probe k' = probe k /\ rmt_wnd k' = wnd.
Proof.
  cbv zeta. set (k0 := k <| rmt_wnd := wnd |>). unfold ikcp_parse_una.
  destruct (una_loop_spec una (snd_buf k0) k0 eq_refl) as (pre & post & _ & -> & _).
  unfold ikcp_shrink_buf. by destruct post.
Qed.

Lemma seg_una_began y k s :
  meets y k -> said y s ->
  began y k s (ikcp_shrink_buf (ikcp_parse_una (k <| rmt_wnd := u16 (seg_wnd s) |>) (u32 (seg_una s)))).
Proof.
  intros Hk Hs. pose proof (mt_una _ _ Hk). pose proof (mt_seq _ _ Hk) as [? ?]. pose proof (sa_una _ _ Hs) as Hu.
  pose proof (u16_range (seg_wnd s)) as Hw. rewrite (u32_small (seg_una s)) by lia.
  destruct (input_una_wf k (u16 (seg_wnd s)) (seg_una s) Hw (mt_wf _ _ Hk)) as (Hk1 & Ha & _).
  destruct (una_releases y k (u16 (seg_wnd s)) (seg_una s)) as [Hrl Hle]; [apply Hk|apply Hk|done..|lia|].
  destruct (input_una_frame k (u16 (seg_wnd s)) (seg_una s)) as (F1 & F2 & _).
  destruct (input_una_idle k (u16 (seg_wnd s)) (seg_una s)) as (I1 & I2 & I3).
  set (k1 := ikcp_shrink_buf _) in *. clearbody k1. constructor; try done.
  - by apply (meets_releases y k).
  - by apply ack_part_count.
Qed.

Lemma began_took y k s k1 k' :
  began y k s k1 -> meets y k' -> releases y k1 k' -> arrives (snd_nxt y) k1 k' ->
  cfg_part k' = cfg_part k1 -> idle_part k' = idle_part k1 /\ cwnd k' = cwnd k1 -> rmt_wnd k' = rmt_wnd k1 ->
  ackcount k1 <= ackcount k' <= ackcount k1 + (if is_push s then 1 else 0) ->
  (Z.land (probe k1) IKCP_ASK_TELL <> 0 \/ seg_cmd s = IKCP_CMD_WASK -> Z.land (probe k') IKCP_ASK_TELL <> 0) ->
  (if is_push s then
     nrcv_que k1 < rcv_wnd k1 -> seg_sn s <= rcv_nxt k1 -> rcv_nxt k1 + rcv_wnd k1 < seg_sn s + half ->
     seg_sn s < rcv_nxt k' /\ ackcount k1 < ackcount k'
   else rcv_part k' = rcv_part k1) ->
  took y k [s] k'.
Proof.
  intros [B1 B2 B3 B4 B5 [B6 B6'] B7 B8 B9] Hk' Hrl Har Hc [Hi Hi'] Hw Hac Hp Hf. pose proof (rl_una _ _ _ Hrl).
  pose proof B3 as R. apply rcv_part_eq in R as (R1 & _ & R3 & R4). pose proof (cfg_part_wnd _ _ B5) as Hwd.
  constructor; try congruence.
  - by eapply releases_trans.
  - eapply arrives_trans; [|exact Har]. apply arrives_rcv; [done|rewrite <- R1; apply B1|rewrite <- R3; apply B1].
  - unfold pushes. cbn [List.filter]. destruct (is_push s); cbn [length]; lia.
  - constructor; [lia|constructor].
  - cbn. congruence.
  - intros Hor. apply Hp. rewrite B9. destruct Hor as [?|(t & Ht & Hc')]; [by left|].
    apply list_elem_of_singleton in Ht as ->. by right.
  - unfold pushes. cbn [List.filter]. destruct (is_push s); [|congruence].
    rewrite R1, R4, Hwd, B4 in Hf. exact Hf.
Qed.

Lemma input_ack_idle k h :
  (idle_part (input_ack k h) = idle_part k /\ cwnd (input_ack k h) = cwnd k) /\ probe (input_ack k h) = probe k /\ rmt_wnd (input_ack k h) = rmt_wnd k /\
  cfg_part (input_ack k h) = cfg_part k /\ ack_part (input_ack k h) = ack_part k.
Proof.
  unfold input_ack. set (k1 := if (_ : bool) then _ else k).
  assert (idle_part k1 = idle_part k /\ cwnd k1 = cwnd k /\ probe k1 = probe k /\ rmt_wnd k1 = rmt_wnd k /\
    cfg_part k1 = cfg_part k /\ ack_part k1 = ack_part k) as (<- & <- & <- & <- & <- & <-).
  { subst k1. case_if; [|done]. unfold ikcp_update_ack. split_and!; frame_cases. }
  clearbody k1. unfold ikcp_parse_ack, ikcp_shrink_buf. case_if; [by destruct (snd_buf k1)|].
  destruct (ack_loop (h_sn h) (snd_buf k1)) as [b f]. destruct f; by destruct b.
Qed.

Lemma ack_took y k s k1 :
  said y s -> seg_cmd s = IKCP_CMD_ACK -> began y k s k1 -> took y k [s] (input_ack k1 (header_of s)).
Proof.
  intros Hs Hc Hb. pose proof (bg_meets _ _ _ _ Hb) as Hk1. destruct (sa_ack _ _ Hs Hc) as [Hr Hh].
  destruct (input_ack_idle k1 (header_of s)) as (I1 & I2 & I3 & I4 & I5). pose proof (input_ack_rcv k1 (header_of s)) as I6.
  pose proof (input_ack_wf k1 (header_of s) (mt_wf _ _ Hk1)) as Hw.
  assert (releases y k1 (input_ack k1 (header_of s))) as Hrl.
  { apply ack_releases; [apply Hk1|apply Hk1|]. cbn. by rewrite u32_small by lia. }
  apply (began_took y k s k1); try done.
  - by apply (meets_releases y k1).
  - by apply arrives_rcv; [|apply Hk1|apply Hk1].
  - apply ack_part_count in I5. unfold is_push. rewrite Hc. cbn. lia.
  - rewrite I2. intros [?|E]; [done|]. rewrite Hc in E. done.
  - unfold is_push. by rewrite Hc.
Qed.

Lemma probe_took y k s k1 :
  seg_cmd s = IKCP_CMD_WASK -> began y k s k1 -> took y k [s] (k1 <| probe := Z.lor (probe k1) IKCP_ASK_TELL |>).
Proof.
  intros Hc Hb. pose proof (bg_meets _ _ _ _ Hb) as Hk1. set (k' := k1 <| probe := _ |>).
  assert (kcp_wf k') as Hw by (apply (kcp_wf_ext k1); try done; apply Hk1).
  assert (releases y k1 k') as Hrl by (apply releases_refl; [done..|apply Hk1]).
  apply (began_took y k s k1); try done.
  - by apply (meets_releases y k1).
  - by apply arrives_rcv; [|apply Hk1|apply Hk1].
  - change (ackcount k') with (ackcount k1). unfold is_push. rewrite Hc. cbn. lia.
  - intros _ H0. change (probe k') with (Z.lor (probe k1) IKCP_ASK_TELL) in H0.
    apply (f_equal (fun z => Z.testbit z 1)) in H0. rewrite Z.land_spec, Z.lor_spec in H0.
    change (Z.testbit IKCP_ASK_TELL 1) with true in H0. rewrite Z.bits_0, orb_true_r in H0. done.
  - unfold is_push. by rewrite Hc.
Qed.

Lemma tell_took y k s k1 :
  seg_cmd s = IKCP_CMD_WINS -> began y k s k1 -> took y k [s] k1.
Proof.
  intros Hc Hb. pose proof (bg_meets _ _ _ _ Hb) as Hk1. apply (began_took y k s k1); try done.
  - by apply releases_refl; [..|apply Hk1].
  - by apply arrives_rcv; [|apply Hk1|apply Hk1].
  - unfold is_push. rewrite Hc. cbn. lia.
  - intros [?|E]; [done|]. by rewrite Hc in E.
  - unfold is_push. by rewrite Hc.
Qed.

Section Segments.
Context (m : mem) (Hm : forall z, mem_ok m z = true).

Lemma arrives_acks N k k1 k' acks sn ts :
  ack_rep acks k -> Forall (fun p => 0 <= p.1 < half /\ has k p.1) acks ->
  ack_rep (acks ++ [(sn, ts)]) k1 -> rcv_part k1 = rcv_part k -> ack_part k' = ack_part k1 -> arrives N k1 k' ->
  0 <= sn < half -> has k' sn -> acks_had k'.
Proof.
  intros _ Hf Hr1 Hrc Ha Har Hsn Hh. exists (acks ++ [(sn, ts)]). split; [by eapply ack_rep_ext|].
  apply Forall_app. split; [|by constructor]. eapply Forall_impl; [|exact Hf]. intros p [? Hp]. split; [done|].
  apply (ar_has _ _ _ Har). by eapply has_rcv.
Qed.

(** A data segment: it is acknowledged only if it is there. *)
Lemma push_arrives y k h data k' :
  meets y k -> header_ok h -> h_len h <= zlen data -> 0 <= h_sn h < snd_nxt y -> ackcount k < 2147483647 ->
  input_push m k h data = Ok k' ->
  arrives (snd_nxt y) k k' /\ acks_had k' /\ move_stops k' /\
  (nrcv_que k < rcv_wnd k -> h_sn h <= rcv_nxt k -> rcv_nxt k + rcv_wnd k < h_sn h + half ->
   h_sn h < rcv_nxt k' /\ ackcount k < ackcount k').
Proof.
  intros Hk Hh Hle Hsn Hac H. unfold input_push in H. pose proof (kw_rcv _ (mt_wf _ _ Hk)) as Hrw.
  pose proof (mt_nxt _ _ Hk) as [Hn HN]. pose proof (rw_nxt _ Hrw) as H0. pose proof (rw_wnd _ Hrw) as Hw.
  destruct (mt_acks _ _ Hk) as (acks & Hrep & Hf). pose proof Hrep as [Hcount _]. case_if_in H.
  2: { injection H as <-. split; [by apply arrives_rcv; [..|apply Hk]|]. split; [apply Hk|]. split; [apply Hk|].
    pose proof (rw_nque _ Hrw). intros H1 H2 H3. exfalso. unfold itimediff in Heqb. revert Heqb. wrap_lia. }
  destruct (ikcp_ack_push_spec m k acks (h_sn h) (h_ts h) Hm Hrep) as (k1 & Hp & Hrep1 & Hsame); [lia|].
  rewrite Hp in H. cbn [mbind run_bind] in H. apply same_but_acks_frame in Hsame as (_ & F2 & F3 & _).
  pose proof F2 as R. apply rcv_part_eq in R as (R1 & _ & R3 & R4). pose proof (cfg_part_wnd _ _ F3) as Hwd.
  pose proof (rcv_wf_ext k k1 F2 Hwd Hrw) as Hrw1. pose proof Hrep1 as [Hcount1 _]. rewrite Z_length_app in Hcount1. cbn in Hcount1.
  assert (Forall (fun s => seg_sn s < snd_nxt y) (rcv_buf k1)) as Hb1 by (rewrite R3; apply Hk).
  assert (move_stops k1) as Hst1 by (apply (move_stops_ext k); [done..|apply Hk]).
  assert (arrives (snd_nxt y) k k1) as Har1 by (by apply arrives_rcv; [..|apply Hk]).
  assert (h_sn h < rcv_nxt k + rcv_wnd k) as Hin by (unfold itimediff in Heqb; revert Heqb; wrap_lia).
  rewrite R1, itimediff_small in H by lia. case_if_in H.
  - destruct (push_seg_sized m Hm h data Hh Hle) as (raw & Hraw & Hsz & Hssn). rewrite Hraw in H.
    rewrite bool_decide_eq_true_2 in H by done. cbn [c_require mbind run_bind] in H. injection H as <-.
    set (sg := push_seg raw h data) in *. clearbody sg.
    destruct (parse_arrives (snd_nxt y) k1 sg) as [Har Hhas]; [done|done|lia|done|done|lia|].
    rewrite R1, Hwd, Hssn in Hhas. destruct (parse_data_frame k1 sg) as (_ & Hap & _).
    split; [by eapply arrives_trans|]. split; [by eapply (arrives_acks (snd_nxt y) k k1); eauto; lia|].
    split; [by apply parse_stops; [..|lia|]|]. intros H1 H2 H3. apply ack_part_count in Hap. split; [|lia].
    pose proof (parse_first (snd_nxt y) k1 sg) as Hpf. rewrite Hssn, R1, R4, Hwd in Hpf.
    assert (h_sn h = rcv_nxt k) as E by lia. rewrite E. apply Hpf; try done; lia.
  - injection H as <-. split; [done|]. split; [|split; [done|intros _ _ _; lia]].
    eapply (arrives_acks (snd_nxt y) k k1); eauto; [apply arrives_rcv; [done|lia|done]|lia|left; lia].
Qed.

Lemma push_took y k s k1 rest :
  said y s -> seg_cmd s = IKCP_CMD_PUSH -> began y k s k1 -> ackcount k < 2147483647 ->
  exists k', input_push m k1 (header_of s) (take (Z.to_nat (seg_len s)) (seg_data s) ++ rest) = Ok k' /\ took y k [s] k'.
Proof.
  intros Hs Hc Hb Hac. pose proof (bg_meets _ _ _ _ Hb) as Hk1. pose proof (sa_push _ _ Hs Hc) as Hsn.
  destruct (sa_wire _ _ Hs) as (_ & _ & Hl & Hle & Hp). destruct (Hp Hc) as [Hlen _].
  pose proof (mt_nxt _ _ Hk1) as [_ HN]. pose proof (bg_ack _ _ _ _ Hb) as Hak.
  set (data := take _ _ ++ rest).
  assert (h_len (header_of s) <= zlen data) as Hd
    by (cbn; rewrite u32_small by lia; unfold data; rewrite Z_length_app, length_take; lia).
  destruct (input_push_wf m Hm k1 (header_of s) data (mt_wf _ _ Hk1) (header_of_ok s) Hd) as (k' & Heq & Hk' & _ & Hcnt); [lia|].
  exists k'. split; [done|]. assert (h_sn (header_of s) = seg_sn s) as Esn by (cbn; apply u32_small; lia).
  destruct (push_arrives y k1 (header_of s) data k' Hk1 (header_of_ok s) Hd) as (Har & Has & Hst & Hfirst); [lia|lia|done|].
  rewrite Esn in Hfirst.
  assert (snd_part k' = snd_part k1 /\ cfg_part k' = cfg_part k1 /\ clk_part k' = clk_part k1) as (E1 & E2 & E3).
  { unfold input_push in Heq. case_if_in Heq; [|by apply Ok_inj in Heq as ->]. apply run_bind_Ok in Heq as (k2 & Ha & Heq).
    apply ack_push_same, same_but_acks_frame in Ha as (<- & _ & <- & <-). case_if_in Heq; [|by apply Ok_inj in Heq as ->].
    destruct (ikcp_segment_new m _); [|done]. apply run_bind_Ok in Heq as (u & _ & Heq). apply Ok_inj in Heq as ->.
    match goal with |- context [ikcp_parse_data k2 ?x] => by destruct (parse_data_frame k2 x) as (? & _ & ? & ?) end. }
  assert (snd_una k' = snd_una k1 /\ (idle_part k' = idle_part k1 /\ cwnd k' = cwnd k1) /\ rmt_wnd k' = rmt_wnd k1 /\ probe k' = probe k1)
    as (I1 & I2 & I3 & I4) by (unfold clk_part in E3; unfold idle_part; split_and!; congruence).
  pose proof (releases_refl y k1 k' E1 I1 (mt_seq _ _ Hk1)) as Hrl. pose proof (rl_nxt _ _ _ Hrl) as Hnx.
  apply (began_took y k s k1); try done.
  - destruct Hk1. constructor; rewrite ?Hnx, ?(cfg_part_conv _ _ E2); try done; [|split; [apply Har|done]|apply Har].
    unfold in_seq. by rewrite Hnx, I1.
  - unfold is_push. rewrite Hc. cbn. lia.
  - rewrite I4. intros [?|E]; [done|]. by rewrite Hc in E.
  - unfold is_push. by rewrite Hc.
Qed.

(** Every command. *)
Lemma seg_took y k s rest :
  meets y k -> said y s -> ackcount k < 2147483647 ->
  exists k', input_seg m k (header_of s) (take (Z.to_nat (seg_len s)) (seg_data s) ++ rest) = Ok k' /\ took y k [s] k'.
Proof.
  intros Hk Hs Hac. pose proof (seg_una_began y k s Hk Hs) as Hb. destruct (sa_wire _ _ Hs) as (_ & Hcmd & _).
  unfold input_seg. cbv zeta.
  change (h_una (header_of s)) with (u32 (seg_una s)). change (h_wnd (header_of s)) with (u16 (seg_wnd s)).
  assert (h_cmd (header_of s) = seg_cmd s) as -> by (cbn; by apply is_cmd_u8).
  set (k1 := ikcp_shrink_buf _) in *. clearbody k1. unfold is_cmd in Hcmd.
  destruct (seg_cmd s =? IKCP_CMD_ACK) eqn:E1; zbool.
  { eexists. split; [reflexivity|]. by apply ack_took. }
  destruct (seg_cmd s =? IKCP_CMD_PUSH) eqn:E2; zbool; [by apply push_took|].
  destruct (seg_cmd s =? IKCP_CMD_WASK) eqn:E3; zbool.
  { eexists. split; [reflexivity|]. by apply probe_took. }
  exists k1. split; [done|]. apply tell_took; [|done]. repeat (apply orb_true_iff in Hcmd as [Hcmd|Hcmd]); by zbool.
Qed.

(** ** Datagrams *)

Lemma input_cwnd_idle k una k' :
  0 <= rmt_wnd k < 65536 -> input_cwnd k una = Ok k' ->
  idle_part k' = idle_part k /\ probe k' = probe k /\ (1 <= cwnd k -> 1 <= cwnd k').
Proof.
  intros Hr H. unfold input_cwnd in H. case_if_in H; [|by injection H as <-]. case_if_in H; [|by injection H as <-].
  cbv zeta in H. apply run_bind_Ok in H as (k1 & Hk1 & H). injection H as <-.
  assert (idle_part k1 = idle_part k /\ probe k1 = probe k /\ (1 <= cwnd k -> 1 <= cwnd k1) /\ rmt_wnd k1 = rmt_wnd k)
    as (<- & <- & Hc & Hw).
  { case_if_in Hk1.
    - injection Hk1 as <-. split_and!; try done. cbn. intros. rewrite u32_small; lia.
    - case_if_in Hk1; [done|]. injection Hk1 as <-.
      destruct (incr k <? mss k); cbn; case_if; cbn; split_and!; try done; intros; rewrite ?u32_small; lia. }
  case_if; cbn; [|done]. split_and!; try done. lia.
Qed.

Lemma cwnd_took y k past k1 una k2 : took y k past k1 -> input_cwnd k1 una = Ok k2 -> took y k past k2.
Proof.
  intros [A1 A2 A3 A4 A5 A6 A7 A8 A9 A10 A11] H. pose proof (input_cwnd_wf _ _ _ (mt_wf _ _ A1) H) as Hw.
  destruct (input_cwnd_idle _ _ _ (sl_rmt _ (proj1 (kw_snd _ (mt_wf _ _ A1)))) H) as (I1 & I2 & I3).
  apply input_cwnd_frame in H as (F1 & F2 & F3 & F4 & F5 & F6 & _). pose proof F3 as Hac. apply ack_part_count in Hac.
  pose proof (releases_refl y k1 k2 F1 F5 (mt_seq _ _ A1)) as Hrl. pose proof F2 as R. apply rcv_part_eq in R as (R1 & _).
  constructor; try congruence; auto.
  - by apply (meets_releases y k1).
  - by eapply releases_trans.
  - eapply arrives_trans; [exact A3|]. by apply arrives_rcv; [|apply A1|apply A1].
  - by rewrite F5.
  - rewrite I2. auto.
  - destruct (pushes past); [congruence|]. by rewrite R1, Hac.
Qed.

Lemma inputs_took y k parts :
  meets y k -> Forall (said y) (concat parts) -> Forall (fun p => p <> []) parts ->
  ackcount k + zlen (concat parts) < 2147483647 ->
  exists k', inputs m k (stream <$> parts) = Ok k' /\ took y k (concat parts) k'.
Proof.
  intros Hk Hs Hne Hac.
  set (P := fun rest k' => exists past, concat parts = past ++ rest /\ took y k past k').
  destruct (inputs_segs m P) with (parts := parts) (k := k) as (k' & Heq & past & Hp & Ht); [..|done| |].
  - intros s rest k1 (past & Hp & Ht). pose proof (tk_meets _ _ _ _ Ht) as Hk1. destruct (mt_conv _ _ Hk1) as [Hc Hcv].
    rewrite Hp in Hs, Hac. apply Forall_app in Hs as [_ [Hs _]%Forall_cons_1]. rewrite <- Hc. split; [apply Hs|].
    split; [lia|]. intros more. pose proof (tk_count _ _ _ _ Ht). pose proof (length_pushes past). rewrite Z_length_app in Hac. cbn [length] in Hac.
    destruct (seg_took y k1 s more Hk1 Hs) as (k2 & Heq & Ht2); [lia|]. exists k2. split; [done|].
    exists (past ++ [s]). rewrite Hp, <- app_assoc. split; [done|]. by eapply took_trans.
  - intros rest k1 (past & _ & Ht). apply kcp_wf_mss, Ht.
  - intros rest k1 una k2 (past & Hp & Ht) Hc. exists past. split; [done|]. by eapply cwnd_took.
  - exists []. split; [done|]. by apply took_nil.
  - exists k'. rewrite app_nil_r in Hp. by rewrite Hp.
Qed.
End Segments.
