(* ===== verification/KcpDuplex.v ===== *)
(** * Nothing is discarded before it has arrived

    The relation [duplex] of two control blocks of src/util/ikcp.c: what either side
    has numbered is at the receiver or still in the sender's [snd_buf].  Every call
    of the applications and every datagram of the network, however old, preserves it.
    At the end stands what this means for an application: when ikcp_waitsnd is zero
    and the peer has nothing to read, the peer has read everything. *)

From stdpp Require Import relations sorting.
From S2P Require Import Prelude Codec KcpState KcpAck KcpRecv KcpSend KcpInput KcpFlush.
From S2P Require Import KcpWire KcpFrames KcpTransfer KcpTransferSteps KcpSystem KcpWf KcpWfSnd KcpFlushSpec KcpSafety.
From S2P Require Import KcpTheorems KcpDataThms KcpLink KcpTimerThms KcpHeld.

(** ** The relation *)

(** A control block in use, its numbers below 2^31. *)
Record tame (k : ikcpcb) : Prop := {
  tm_wf : kcp_wf k;
  tm_output : output k = true;
  tm_mtu : mtu k < 1073741824;
  tm_conv : 0 <= conv k < 4294967296;
  tm_una : snd_una k <= snd_nxt k;
  tm_max : snd_nxt k + zlen (snd_queue k) < half;
  tm_queued : Forall (queued (mss k)) (snd_queue k ++ snd_buf k);
  tm_push : Forall (fun s => seg_conv s = conv k /\ seg_cmd s = IKCP_CMD_PUSH) (snd_buf k);
  tm_stops : move_stops k
}.

(** From sender [a] to receiver [b]. *)
Record dir (a b : ikcpcb) : Prop := {
  dr_nxt : rcv_nxt b <= snd_nxt a;
  dr_buf : Forall (fun s => seg_sn s < snd_nxt a) (rcv_buf b);
  dr_acks : acks_had b;
  dr_held : forall i, 0 <= i < snd_nxt a -> has b i \/ i ∈ (seg_sn <$> snd_buf a)
}.

Record duplex (a b : ikcpcb) : Prop := {
  dx_a : tame a; dx_b : tame b;
  dx_conv : conv b = conv a;
  dx_out : dir a b; dx_in : dir b a
}.

Lemma duplex_sym a b : duplex a b -> duplex b a.
Proof. intros []. by constructor. Qed.

Lemma tame_seq k : tame k -> in_seq k.
Proof. intros []. split; lia. Qed.

Lemma duplex_meets k y : duplex k y -> meets y k.
Proof.
  intros [H1 H2 H3 H4 H5]. pose proof (tame_seq _ H1). pose proof (tame_seq _ H2) as [_ Hm].
  constructor; try done; try apply H1; try apply H4; try apply H5; (split; [|done || apply H1]); [done|apply H5].
Qed.

Lemma queued_key mss s s' : seg_key s' = seg_key s -> queued mss s -> queued mss s'.
Proof. unfold seg_key, snd_key, queued. intros [= _ _ -> _ -> ->]. done. Qed.

(** A step of [k]: the relation stays, and nothing is taken back. *)
Record advances (y k k' : ikcpcb) : Prop := {
  ad_duplex : duplex k' y;
  ad_cfg : conv k' = conv k /\ mss k' = mss k /\ rcv_wnd k' = rcv_wnd k;
  ad_rcv : rcv_nxt k <= rcv_nxt k';
  ad_snd : snd_nxt k <= snd_nxt k';
  ad_has : forall i, has k i -> has k' i;
  ad_mtu : mtu k' = mtu k
}.

Lemma advances_refl y k : duplex k y -> advances y k k.
Proof. by constructor. Qed.

Lemma advances_trans y k1 k2 k3 : advances y k1 k2 -> advances y k2 k3 -> advances y k1 k3.
Proof. intros [? (? & ? & ?)] [? (? & ? & ?)]. constructor; [done|split_and!; congruence|lia|lia|auto|congruence]. Qed.

(** The relation after a step of [k] that changes its sending and its receiving half
    in the permitted ways. *)
Lemma duplex_step k y k' :
  duplex k y -> tame k' -> cfg_part k' = cfg_part k ->
  snd_nxt k <= snd_nxt k' -> arrives (snd_nxt y) k k' -> acks_had k' ->
  (forall i, 0 <= i < snd_nxt k' -> has y i \/ i ∈ (seg_sn <$> snd_buf k')) ->
  advances y k k'.
Proof.
  intros [H1 H2 H3 [A1 A2 A3 A4] [B1 B2 B3 B4]] Hk' Hc Hn [C1 C2 C3] Ha Hh.
  pose proof (cfg_part_output_eq _ _ Hc) as (_ & Hmt & Hms & _).
  constructor; [|auto using cfg_part_conv, cfg_part_wnd|lia|done|done|done]. constructor; try done.
  - by rewrite (cfg_part_conv _ _ Hc).
  - constructor; [lia| |done|done]. eapply Forall_impl; [|exact A2]. cbn. lia.
  - constructor; [lia|done|done|]. intros i Hi. destruct (B4 i Hi); auto.
Qed.

Lemma releases_duplex k y k' :
  duplex k y -> kcp_wf k' -> cfg_part k' = cfg_part k -> move_stops k' ->
  releases y k k' -> arrives (snd_nxt y) k k' -> acks_had k' -> advances y k k'.
Proof.
  intros Hd Hk' Hc Hst [R1 R2 R3 R4 R5] Ha Hac. pose proof (dx_a _ _ Hd) as [T1 T2 T3 T4 T5 T6 T7 T8 T9].
  destruct (cfg_part_output_eq _ _ Hc) as (C1 & C2 & C3 & _). pose proof (cfg_part_conv _ _ Hc) as C4.
  apply (duplex_step k); try done; [|lia|].
  2: { rewrite R1. intros i Hi. destruct (dr_held _ _ (dx_out _ _ Hd) i Hi) as [?|Hi']; auto. }
  apply Forall_app in T7 as [Tq Tb]. constructor; rewrite ?C1, ?C2, ?C3, ?C4, ?R1, ?R2; try done; [lia| |].
  - apply Forall_app. split; [done|]. eapply Forall_impl; [|exact R4]. intros s (t & Ht & E).
    apply (queued_key _ t); [done|]. rewrite list.Forall_forall in Tb. auto.
  - eapply Forall_impl; [|exact R4]. intros s (t & Ht & E). rewrite list.Forall_forall in T8.
    destruct (T8 t Ht). unfold seg_key, snd_key in E. split; congruence.
Qed.

(** Steps that change none of it. *)
Lemma same_duplex k y k' :
  duplex k y -> kcp_wf k' -> output k' = true -> mtu k' = mtu k -> mss k' = mss k -> conv k' = conv k ->
  rcv_wnd k' = rcv_wnd k -> snd_una k' = snd_una k ->
  snd_part k' = snd_part k -> rcv_part k' = rcv_part k -> ack_part k' = ack_part k -> advances y k k'.
Proof.
  intros [[T1 T2 T3 T4 T5 T6 T7 T8 T9] H2 H3 [A1 A2 A3 A4] [B1 B2 B3 B4]] Hk' Ho Hmt Hms Hcv Hw Hu Hs Hr Ha.
  apply snd_part_eq in Hs as (S1 & S2 & S3). pose proof Hr as Hr'. apply rcv_part_eq in Hr' as (R1 & _ & R3 & R4).
  assert (forall i, has k i -> has k' i) as Hh by (intros i; by apply has_rcv).
  constructor; [|done|lia|lia|done|done]. constructor; try done; try congruence.
  - constructor; rewrite ?Hmt, ?Hms, ?Hcv, ?Hu, ?S1, ?S2, ?S3; try done. unfold move_stops. by rewrite R1, R3, R4, Hw.
  - constructor; rewrite ?S1, ?S3; done.
  - constructor; [by rewrite R1|by rewrite R3|by apply (acks_had_ext k)|]. intros i Hi. destruct (B4 i Hi); auto.
Qed.

Lemma took_duplex y k past k' : duplex k y -> took y k past k' -> advances y k k'.
Proof. intros Hd [[] ]. by apply (releases_duplex k). Qed.

(** ** The applications' calls *)

Lemma acks_had_nil k : ackcount k = 0 -> kcp_wf k -> acks_had k.
Proof. intros H Hk. exists []. split; [by apply ack_rep_nil|constructor]. Qed.

Section Calls.
Context (m : mem) (Hm : forall z, mem_ok m z = true).

Lemma send_cases k b k' r :
  kcp_wf k -> zlen b < 2147483648 -> ikcp_send m k (Some b) (zlen b) = Ok (k', r) ->
  k' = k \/ exists segs, Forall (queued (mss k)) segs /\
    k' = k <| snd_queue := snd_queue k ++ segs |> <| nsnd_que := u32 (nsnd_que k + zlen segs) |>.
Proof.
  intros Hk Hb H. destruct (Z.le_gt_cases (frag_count (zlen b) (mss k)) 255) as [Hc|Hc].
  - destruct (send_ok m k b Hm Hk Hb Hc) as (segs & Heq & _ & Hq). right. exists segs. split; [done|].
    rewrite Heq in H. by apply Ok_inj in H as [= -> _].
  - left. rewrite send_too_many in H by (done || lia). by apply Ok_inj in H as [= -> _].
Qed.

Lemma send_duplex k y b k' r :
  duplex k y -> zlen b < 2147483648 -> ikcp_send m k (Some b) (zlen b) = Ok (k', r) ->
  snd_nxt k' + zlen (snd_queue k') < half -> advances y k k'.
Proof.
  intros Hd Hb H Hmax. pose proof (dx_a _ _ Hd) as Hk. destruct (send_safe m k b Hm (tm_wf _ Hk) Hb) as (k2 & r2 & E & Hw & Hc).
  rewrite H in E. apply Ok_inj in E as [= -> ->].
  destruct (send_cases k b k' r (tm_wf _ Hk) Hb H) as [->|(segs & Hq & Ek)]; [by apply advances_refl|].
  destruct (cfg_part_output_eq _ _ Hc) as (C1 & C2 & C3 & _). pose proof (cfg_part_conv _ _ Hc) as C4.
  assert (snd_nxt k' = snd_nxt k /\ snd_queue k' = snd_queue k ++ segs /\ snd_buf k' = snd_buf k /\
    snd_una k' = snd_una k /\ rcv_part k' = rcv_part k /\ ack_part k' = ack_part k) as (E1 & E2 & E3 & E4 & E5 & E6)
    by (by rewrite Ek). clear Ek.
  apply (duplex_step k); try done; [|lia|by apply arrives_rcv; [|apply Hd..]| |].
  - destruct Hk as [T1 T2 T3 T4 T5 T6 T7 T8 T9].
    constructor; rewrite ?C1, ?C2, ?C3, ?C4, ?E1, ?E3, ?E4; try done; [by rewrite E1 in Hmax| |by apply (move_stops_ext k)].
    rewrite E2. apply Forall_app in T7 as [? ?]. by rewrite !Forall_app.
  - apply (acks_had_ext k); [done| |apply Hd]. intros i. by apply has_rcv.
  - rewrite E1, E3. apply Hd.
Qed.

Lemma recv_duplex k y len k' out r : duplex k y -> ikcp_recv k true len = Ok (k', out, r) -> advances y k k'.
Proof.
  intros Hd H. pose proof (dx_a _ _ Hd) as Hk. pose proof (kw_rcv _ (tm_wf _ Hk)) as Hr.
  destruct (recv_safe k true len (tm_wf _ Hk)) as (k2 & o2 & r2 & E & Hw & _).
  rewrite H in E. apply Ok_inj in E as [= -> _ _]. destruct (recv_frame _ _ _ _ _ _ H) as [Hs Hc].
  destruct (recv_clk _ _ _ _ _ _ H) as (Ha & Hu & _). pose proof (cfg_part_wnd _ _ Hc) as Hwd.
  destruct (recv_shape _ _ _ _ _ _ Hr H) as [->|(k1 & Hk1 & F1 & F2 & F3 & F4 & F5)]; [by apply advances_refl|].
  pose proof (tm_max _ (dx_b _ _ Hd)) as HN. destruct (dx_in _ _ Hd) as [B1 B2 B3 _].
  assert (arrives (snd_nxt y) k k') as Har.
  { pose proof (move_arrives (snd_nxt y) k1 Hk1) as Hmv. rewrite F1, F2 in Hmv.
    destruct Hmv as [M1 M2 M3]; [done|lia|done|]. pose proof F4 as F4'. apply rcv_part_eq in F4' as (R1 & _ & R3 & _).
    constructor; [by rewrite R1, <- F1|by rewrite R3|]. intros i Hi. apply (has_rcv (move_avail k1)); [done|].
    apply M3. unfold has. by rewrite F1, F2. }
  assert (move_stops k') as Hst.
  { pose proof (move_avail_moves k1 Hk1) as (_ & _ & Hst). apply rcv_part_eq in F4 as (R1 & _ & R3 & R4).
    unfold move_stops in *. by rewrite R1, R3, R4, F5. }
  apply (releases_duplex k); try done.
  - by apply releases_refl; [..|apply tame_seq].
  - apply (acks_had_ext k); [done| |done]. apply Har.
Qed.
End Calls.

(** ** What a flush puts on the network *)

(** A datagram of [k]: whole segments, all true, no longer than its MTU. *)
Definition datagram (k : ikcpcb) (p : list byte) : Prop :=
  exists segs, p = stream segs /\ segs <> [] /\ zlen p <= mtu k /\ Forall (said k) segs.

Lemma datagram_mono y k k' p : advances y k k' -> datagram k p -> datagram k' p.
Proof.
  intros [_ (H1 & _) H2 H3 H4 H5] (segs & -> & Hne & Hl & Hs). exists segs. rewrite H5. split_and!; try done.
  eapply Forall_impl; [|exact Hs]. intros s. by apply said_mono.
Qed.

(** The numbering, without wrapping. *)
Lemma after_move_spec k :
  tame k ->
  let w := u32 (ikcp_wnd_unused k) in
  exists pre, snd_queue k = pre ++ snd_queue (after_move k) /\
    snd_buf (after_move k) = snd_buf k ++ imap (number w (after_commands k)) pre /\
    snd_nxt (after_move k) = snd_nxt k + zlen pre /\ snd_una (after_move k) = snd_una k /\
    (snd_queue (after_move k) = [] \/ flush_cwnd (after_commands k) <= snd_nxt k + zlen pre - snd_una k).
Proof.
  intros [Hk _ _ _ Hu Hmax _ _ _]. cbv zeta. destruct (after_commands_frame k) as (F1 & _ & _ & F4 & _).
  apply snd_part_eq in F1 as (F1 & F2 & F3). pose proof (after_commands_wf k Hk) as Hc.
  destruct (flush_move_spec (flush_cwnd (after_commands k)) (u32 (ikcp_wnd_unused k)) (snd_queue k) (after_commands k))
    as (pre & P1 & P2 & P3 & P4); [by apply flush_cwnd_range|done|apply Hc|].
  fold (after_move k) in P1, P2, P3, P4. rewrite F3 in P2. rewrite F4, F1 in P3. rewrite F4 in P4.
  exists pre. split; [done|]. split; [done|].
  destruct (flush_move_frame (flush_cwnd (after_commands k)) (u32 (ikcp_wnd_unused k)) (snd_queue k) (after_commands k))
    as (_ & _ & _ & Hx). fold (after_move k) in Hx. apply clk_part_una in Hx.
  rewrite F4 in Hx. rewrite P3 in P4. pose proof (sl_una _ (proj1 (kw_snd _ Hk))). rewrite P1, Z_length_app in Hmax.
  pose proof (sl_nxt _ (proj1 (kw_snd _ (after_move_wf k Hk)))).
  unfold off in *. rewrite (u32_small (snd_nxt k - snd_una k)) in * by lia.
  split; [|split; [done|]]; [|destruct P4; [by left|right; lia]]. revert P3. wrap_lia.
Qed.

Lemma due_stamp k t t' : due_now k t = Some t' -> seg_key t' = seg_key t /\ answers k t'.
Proof.
  unfold due_now, due. destruct (flush_decide _ _ _ _) as [[t1 s1]|] eqn:E; [|done]. intros [= <-].
  apply flush_decide_frame in E as (_ & _ & _ & E1 & E2 & E3 & E4 & E5 & E6).
  unfold seg_key, snd_key, answers. cbn. split; [congruence|]. split; [|done].
  destruct (flush_move_frame (flush_cwnd (after_commands k)) (u32 (ikcp_wnd_unused k)) (snd_queue k) (after_commands k))
    as (Hr & _). apply rcv_part_eq in Hr as (Hr & _). fold (after_move k) in Hr. rewrite Hr.
  destruct (after_commands_frame k) as (_ & Hr2 & _). by apply rcv_part_eq in Hr2 as (Hr2 & _).
Qed.

Lemma due_default_key k t : seg_key (default t (due_now k t)) = seg_key t.
Proof. destruct (due_now k t) eqn:E; [|done]. by apply due_stamp in E as [? _]. Qed.

(** The acknowledgements written are those pending. *)
Lemma command_acks m k acks s :
  s ∈ command_segs m k acks -> seg_cmd s = IKCP_CMD_ACK -> exists p, p ∈ acks /\ seg_sn s = p.1.
Proof.
  unfold command_segs. rewrite !elem_of_app. intros [Hs|[Hs|Hs]] Hc.
  - apply list_elem_of_fmap in Hs as (p & -> & Hp). eauto.
  - case_if_in Hs; [by apply not_elem_of_nil in Hs|]. apply list_elem_of_singleton in Hs as ->. done.
  - case_if_in Hs; [by apply not_elem_of_nil in Hs|]. apply list_elem_of_singleton in Hs as ->. done.
Qed.

Lemma flushed_tame k k' :
  tame k -> kcp_wf k' -> cfg_part k' = cfg_part k -> rcv_part k' = rcv_part k ->
  snd_nxt k' = snd_nxt (after_move k) -> snd_queue k' = snd_queue (after_move k) ->
  snd_buf k' = (fun t => default t (due_now k t)) <$> snd_buf (after_move k) ->
  tame k' /\ snd_nxt k <= snd_nxt k' /\
  (forall i, 0 <= i < snd_nxt k' -> (0 <= i < snd_nxt k) \/ i ∈ (seg_sn <$> snd_buf k')) /\
  (forall i, i ∈ (seg_sn <$> snd_buf k) -> i ∈ (seg_sn <$> snd_buf k')).
Proof.
  intros Hk Hw Hc Hr Hn Hq Hb. destruct (after_move_spec k Hk) as (pre & P1 & P2 & P3 & P4 & _).
  set (w := u32 (ikcp_wnd_unused k)) in *. clearbody w.
  destruct (after_commands_frame k) as (F1 & _ & F3 & _). apply snd_part_eq in F1 as (F1 & _).
  destruct (cfg_part_output_eq _ _ Hc) as (C1 & C2 & C3 & _). pose proof (cfg_part_conv _ _ Hc) as C4.
  destruct Hk as [T1 T2 T3 T4 T5 T6 T7 T8 T9]. pose proof (sl_nxt _ (proj1 (kw_snd _ T1))) as Hn0.
  rewrite P1, Z_length_app in T6.
  assert (forall P : IKCPSEG -> Prop, (forall s s', seg_key s' = seg_key s -> P s -> P s') ->
    Forall P (snd_buf k) -> (forall i s, pre !! i = Some s -> P (number w (after_commands k) i s)) -> Forall P (snd_buf k'))
    as Hall.
  { intros P Hp H1 H2. rewrite Hb, P2. apply Forall_fmap. rewrite Forall_app. split.
    - eapply Forall_impl; [|exact H1]. intros s. apply Hp. apply due_default_key.
    - apply Forall_lookup. intros i s. rewrite list_lookup_imap. intros (t & Ht & ->)%fmap_Some.
      eapply Hp; [apply due_default_key|]. by apply H2. }
  assert (seg_sn <$> snd_buf k' = (seg_sn <$> snd_buf k) ++ imap (fun i _ => snd_nxt k + Z.of_nat i) pre) as Hsn.
  { rewrite Hb, P2, <- list_fmap_compose, fmap_app. f_equal.
    - apply list_fmap_ext. intros _ t _. apply key_sn, due_default_key.
    - rewrite fmap_imap. apply imap_ext. intros i s Hi. apply lookup_lt_Some in Hi.
      etrans; [apply key_sn, due_default_key|].
      change (u32 (snd_nxt (after_commands k) + Z.of_nat i) = snd_nxt k + Z.of_nat i). rewrite F1, u32_small by lia. done. }
  rewrite P3 in Hn. split; [|split; [lia|split]].
  - apply Forall_app in T7 as [Tq Tb]. rewrite P1 in Tq. apply Forall_app in Tq as [Tp Tq].
    constructor; rewrite ?C1, ?C2, ?C3, ?C4; try done.
    + destruct (kw_snd _ Hw) as [Hl Hx]. unfold una_exact in Hx. rewrite Hx.
      destruct (snd_buf k') as [|s l] eqn:E; [lia|].
      assert (seg_sn s ∈ seg_sn <$> s :: l) as Hin by (rewrite fmap_cons; apply list_elem_of_here).
      rewrite Hsn, elem_of_app in Hin. destruct Hin as [Hin|Hin].
      * apply list_elem_of_fmap in Hin as (t & -> & Ht).
        pose proof (in_flight_range k t (proj1 (kw_snd _ T1)) ltac:(split; lia) Ht). lia.
      * apply elem_of_lookup_imap in Hin as (i & t & -> & Hi). apply lookup_lt_Some in Hi. lia.
    + rewrite Hn, Hq. lia.
    + rewrite Hq. apply Forall_app. split; [done|]. apply Hall; [apply queued_key|done|].
      intros i s Hi. rewrite Forall_lookup in Tp. exact (Tp i s Hi).
    + apply Hall; [|done|].
      * intros s s' E. unfold seg_key, snd_key in E. injection E as -> -> _ _ _ _. done.
      * intros i s _. cbn. split; [|done]. apply (cfg_part_conv _ _ F3).
    + by apply (move_stops_ext k).
  - intros i Hi. destruct (Z.lt_ge_cases i (snd_nxt k)) as [?|Hge]; [by left; lia|right].
    rewrite Hsn, elem_of_app. right. apply elem_of_lookup_imap. exists (Z.to_nat (i - snd_nxt k)).
    destruct (lookup_lt_is_Some_2 pre (Z.to_nat (i - snd_nxt k))) as [s Hs]; [lia|]. exists s. split; [lia|done].
  - intros i Hi. rewrite Hsn, elem_of_app. by left.
Qed.
(** Every segment a flush writes is true. *)
Lemma flush_said m k k' acks :
  tame k -> tame k' -> conv k' = conv k -> rcv_part k' = rcv_part k -> snd_nxt k <= snd_nxt k' ->
  snd_buf k' = (fun t => default t (due_now k t)) <$> snd_buf (after_move k) ->
  Forall (fun p => 0 <= p.1 < half /\ has k p.1) acks ->
  Forall (said k') (flush_segs m k acks).
Proof.
  intros Hk Hk' Hc Hr Hn Hb Ha. pose proof Hr as Hr'. apply rcv_part_eq in Hr' as (R1 & _).
  pose proof (rw_nxt _ (kw_rcv _ (tm_wf _ Hk))) as H0. apply Forall_app. split.
  - destruct (command_segs_spec m k acks) as (S1 & S2 & S3 & _). apply list.Forall_forall. intros s Hs.
    rewrite list.Forall_forall in S1, S2. destruct (S2 s Hs) as [Eu _].
    constructor; [rewrite Hc; by apply S1|lia| |].
    + intros E. exfalso. unfold pushes in S3. assert (s ∈ List.filter is_push (command_segs m k acks)) as Hin.
      { apply list_elem_of_In, List.filter_In. split; [by apply list_elem_of_In|]. unfold is_push. by rewrite E. }
      rewrite S3 in Hin. by apply not_elem_of_nil in Hin.
    + intros E. destruct (command_acks m k acks s Hs E) as (p & Hp & ->). rewrite list.Forall_forall in Ha.
      destruct (Ha p Hp). split; [done|]. by apply (has_rcv k).
  - apply list.Forall_forall. intros s (t & Ht & Hd)%list_elem_of_omap.
    assert (s ∈ snd_buf k') as Hs.
    { rewrite Hb. apply list_elem_of_fmap. exists t. by rewrite Hd. }
    apply due_stamp in Hd as [_ [Eu _]]. destruct Hk' as [T1 _ T3 _ T5 T6 T7 T8 _].
    apply Forall_app in T7 as [_ T7]. rewrite list.Forall_forall in T7, T8. destruct (T7 s Hs) as (E1 & E2 & E3).
    destruct (T8 s Hs) as [E4 E5]. pose proof (cw_mss _ (kw_cfg _ T1)) as Hms. unfold IKCP_OVERHEAD in Hms.
    pose proof (in_flight_range k' s (proj1 (kw_snd _ T1)) ltac:(split; lia) Hs).
    pose proof (sl_una _ (proj1 (kw_snd _ T1))).
    constructor; [|lia|intros _; lia|by rewrite E5].
    split_and!; [done|by rewrite E5|lia|lia|lia|intros _]. split; [done|lia].
Qed.

Section Flush.
Context (m : mem).

Lemma flush_duplex k y :
  duplex k y -> updated k <> 0 ->
  exists k' parts acks, ikcp_flush m k = Ok (k', stream <$> parts) /\ advances y k k' /\
    Forall (said k') (concat parts) /\ Forall (fun p => p <> []) parts /\
    Forall (fun p => zlen p <= mtu k) (stream <$> parts) /\
    ack_rep acks k /\ concat parts = flush_segs m k acks /\
    cfg_part k' = cfg_part k /\ rcv_part k' = rcv_part k /\ ackcount k' = 0 /\
    rmt_wnd k' = rmt_wnd k /\ updated k' = updated k /\
    snd_nxt k' = snd_nxt (after_move k) /\ snd_queue k' = snd_queue (after_move k) /\
    snd_buf k' = (fun t => default t (due_now k t)) <$> snd_buf (after_move k).
Proof.
  intros Hd Hu. pose proof (dx_a _ _ Hd) as Hk. destruct (dr_acks _ _ (dx_in _ _ Hd)) as (acks & Hrep & Ha).
  destruct (flush_parts m k acks (tm_wf _ Hk) (tm_output _ Hk) Hu Hrep (tm_mtu _ Hk))
    as (k' & parts & Hf & Hsegs & Hne & Hw & Hc & Hr & Hac & Hrw & Hup & N1 & N2 & N3 & Hmx).
  { eapply Forall_impl; [|apply (tm_queued _ Hk)]. intros s (_ & ? & _). done. }
  destruct (flushed_tame k k' Hk Hw Hc Hr N1 N2 N3) as (Hk' & Hn & Hheld & Hkept).
  exists k', parts, acks. split; [done|]. split.
  - apply (duplex_step k); try done.
    + apply arrives_rcv; [done|apply Hd..].
    + by apply acks_had_nil.
    + intros i Hi. destruct (Hheld i Hi) as [Hlt|]; [|by right].
      destruct (dr_held _ _ (dx_out _ _ Hd) i Hlt) as [|Hin]; [by left|right; auto].
  - split; [|done]. rewrite Hsegs. apply (flush_said m k); try done. by apply cfg_part_conv.
Qed.

Lemma flush_duplex_any k y k' out :
  duplex k y -> ikcp_flush m k = Ok (k', out) -> advances y k k' /\ Forall (datagram k') out.
Proof.
  intros Hd H. destruct (Z.eq_dec (updated k) 0) as [Hu|Hu].
  { unfold ikcp_flush in H. rewrite Hu in H. apply Ok_inj in H as [= -> ->]. split; [by apply advances_refl|constructor]. }
  destruct (flush_duplex k y Hd Hu) as (k2 & parts & acks & Hf & Had & Hs & Hne & Hmx & _).
  rewrite H in Hf. apply Ok_inj in Hf as [= <- <-]. split; [done|].
  apply Forall_fmap, list.Forall_forall. intros p Hp.
  exists p. rewrite Forall_fmap in Hmx. rewrite list.Forall_forall in Hne, Hmx. pose proof (Hmx p Hp) as Hl. cbn in Hl.
  split; [done|]. split; [auto|]. split; [by rewrite (ad_mtu _ _ _ Had)|].
  rewrite list.Forall_forall in Hs |- *. intros s Hin. apply Hs. apply list_elem_of_In, in_concat. exists p.
  split; by apply list_elem_of_In.
Qed.
End Flush.

(** ** The clock *)

(** ikcp_update sets the clock and then flushes or not. *)
Lemma update_shape m k now :
  exists k1 (flushes : bool), ikcp_update m k now = (if flushes then ikcp_flush m k1 else Ok (k1, [])) /\
    (exists u t, k1 = k <| current := now |> <| updated := u |> <| ts_flush := t |>) /\
    current k1 = now /\ updated k1 <> 0.
Proof.
  unfold ikcp_update. cbv zeta. set (k0 := if updated _ =? 0 then _ else _).
  assert ((exists u t, k0 = k <| current := now |> <| updated := u |> <| ts_flush := t |>) /\ updated k0 <> 0) as [H0 Hu0].
  { subst k0. cbn. destruct (updated k =? 0) eqn:E; zbool; split; try done.
    - by exists 1, now.
    - exists (updated k), (ts_flush k). by destruct k. }
  clearbody k0. set (ks := if _ || _ then _ else _).
  assert ((exists u t, ks.1 = k <| current := now |> <| updated := u |> <| ts_flush := t |>) /\ updated ks.1 <> 0)
    as [H1 Hu1].
  { subst ks. case_if; [|done]. cbn. split; [|done]. destruct H0 as (u & t & ->). by exists u, now. }
  destruct ks as [k1 slap]. cbn [fst] in *. clear H0 Hu0 k0. destruct H1 as (u & t & ->).
  assert (u <> 0) as Hu by exact Hu1. destruct (slap >=? 0).
  2: { by exists (k <| current := now |> <| updated := u |> <| ts_flush := t |>), false; split; [|split; [by exists u, t|]]. }
  case_if; eexists _, true; (split; [reflexivity|]); (split; [by eexists u, _|done]).
Qed.

Lemma clock_duplex k y k1 now u t :
  duplex k y -> k1 = k <| current := now |> <| updated := u |> <| ts_flush := t |> -> advances y k k1.
Proof.
  intros Hd ->. pose proof (tm_wf _ (dx_a _ _ Hd)) as Hk.
  apply same_duplex; try done; [|by apply Hd]. apply (kcp_wf_ext k); try done. apply (clk_wf_ext k); try done. apply Hk.
Qed.

Section Exec.
Context (m : mem) (Hm : forall z, mem_ok m z = true).

Lemma update_duplex k y now k' out :
  duplex k y -> ikcp_update m k now = Ok (k', out) -> advances y k k' /\ Forall (datagram k') out.
Proof.
  intros Hd H. destruct (update_shape m k now) as (k1 & fl & Heq & (u & t & E) & _). rewrite Heq in H.
  pose proof (clock_duplex k y k1 now u t Hd E) as Ha. destruct fl.
  - destruct (flush_duplex_any m k1 y k' out (ad_duplex _ _ _ Ha) H) as [Hb Ho]. split; [|done].
    by eapply advances_trans.
  - apply Ok_inj in H as [= -> ->]. split; [done|constructor].
Qed.

Lemma input_duplex k y p k' r :
  duplex k y -> datagram y p -> ackcount k < 536870912 -> ikcp_input m k (Some p) (zlen p) = Ok (k', r) -> advances y k k'.
Proof.
  intros Hd (segs & -> & Hne & Hl & Hs) Hac H. pose proof (tm_mtu _ (dx_b _ _ Hd)).
  assert (24 * zlen segs < 1073741824) as Hn by (pose proof (length_stream segs); lia).
  destruct (inputs_took m Hm y k [segs] (duplex_meets _ _ Hd)) as (k2 & Hi & Ht).
  { cbn. by rewrite app_nil_r. }
  { by constructor. }
  { cbn. rewrite app_nil_r. lia. }
  cbn [fmap list_fmap inputs] in Hi. rewrite H in Hi. cbn in Hi. apply Ok_inj in Hi as ->. by eapply took_duplex.
Qed.

(** ** Two endpoints *)

(** The calls of a connection in use: MTU and windows were set before. *)
Definition steady (o : op) : bool :=
  match o with Op_setmtu _ | Op_wndsize _ _ => false | _ => true end.

(** Fewer than 2^31 fragments were queued, and fewer than 2^29 acknowledgements
    are waiting for a flush. *)
Definition modest (e : endpoint) : bool :=
  (snd_nxt (ep_kcp e) + zlen (snd_queue (ep_kcp e)) <? half) && (ackcount (ep_kcp e) <? 536870912).

Record side_ok (a b : endpoint) : Prop := {
  so_duplex : duplex (ep_kcp a) (ep_kcp b);
  so_out_a : Forall (datagram (ep_kcp a)) (ep_out a);
  so_out_b : Forall (datagram (ep_kcp b)) (ep_out b);
  so_modest : ackcount (ep_kcp a) < 536870912 /\ ackcount (ep_kcp b) < 536870912
}.

Lemma side_ok_sym a b : side_ok a b -> side_ok b a.
Proof. intros [? ? ? []]. constructor; try done. by apply duplex_sym. Qed.

Lemma exec_duplex a b o a' :
  side_ok a b -> steady o = true -> exec m (ep_out b) o a = Ok a' -> modest a' = true ->
  advances (ep_kcp b) (ep_kcp a) (ep_kcp a') /\
  exists new, ep_out a' = ep_out a ++ new /\ Forall (datagram (ep_kcp a')) new.
Proof.
  intros [Hd _ Hob [Hma _]] Ho H Hmod. destruct a as [k sent got out]. cbn [ep_kcp ep_out] in *.
  unfold modest in Hmod. apply andb_true_iff in Hmod as [Hmod _]. zbool.
  assert (forall k', advances (ep_kcp b) k k' -> advances (ep_kcp b) k k' /\
    exists new, out = out ++ new /\ Forall (datagram k') new) as Hno.
  { intros k' Ha. split; [done|]. exists []. by rewrite app_nil_r. }
  pose proof (tm_wf _ (dx_a _ _ Hd)) as Hw.
  destruct o; try done; cbn [exec] in H; clear Ho.
  - apply Ok_inj in H as ->. apply Hno. apply same_duplex; try done. by apply output_wf.
  - apply run_bind_Ok in H as (u & Hl & H). apply run_bind_Ok in H as ([k' r] & Hs & H). apply Ok_inj in H as ->.
    cbn [ep_kcp] in *. apply Hno. unfold c_require in Hl. case_if_in Hl; [|done]. zbool.
    by apply (send_duplex m Hm _ _ msg k' r).
  - apply run_bind_Ok in H as ([[k' msg] r] & Hr & H). apply Ok_inj in H as ->. apply Hno. by eapply recv_duplex.
  - destruct (ep_out b !! i) as [p|] eqn:Ep; [|apply Ok_inj in H as ->; by apply Hno, advances_refl].
    apply run_bind_Ok in H as ([k' r] & Hi & H). apply Ok_inj in H as ->. apply Hno.
    rewrite Forall_lookup in Hob. eapply input_duplex; [done|exact (Hob _ _ Ep)|done|exact Hi].
  - apply run_bind_Ok in H as ([k' o] & Hu & H). apply Ok_inj in H as ->.
    destruct (update_duplex _ _ _ _ _ Hd Hu). eauto.
  - apply run_bind_Ok in H as ([k' o] & Hu & H). apply Ok_inj in H as ->.
    destruct (flush_duplex_any _ _ _ _ _ Hd Hu). eauto.
  - apply Ok_inj in H as ->. apply Hno. apply same_duplex; try done; [by apply interval_wf|apply Hd].
  - apply Ok_inj in H as ->. apply Hno.
    pose proof (nodelay_wf k (i32 nodelay') (i32 interval') (i32 resend) (i32 nc) Hw).
    pose proof (tm_output _ (dx_a _ _ Hd)).
    apply same_duplex; try done; unfold ikcp_nodelay; cbn [fst ep_kcp]; by frame_cases.
Qed.

Inductive steady_step (s : endpoint * endpoint) : endpoint * endpoint -> Prop :=
| steady_act side o s' :
    steady o = true -> sys_exec m side o s = Ok s' -> modest s'.1 = true -> modest s'.2 = true -> steady_step s s'.

Lemma exec_side_ok a b o a' :
  side_ok a b -> steady o = true -> exec m (ep_out b) o a = Ok a' -> modest a' = true -> side_ok a' b.
Proof.
  intros Hs Ho H Hmod. destruct (exec_duplex a b o a' Hs Ho H Hmod) as [Ha (new & Hout & Hnew)].
  destruct Hs as [Hd Hoa Hob [_ Hmb]]. constructor; [apply Ha| |done|].
  - rewrite Hout. apply Forall_app. split; [|done]. eapply Forall_impl; [|exact Hoa]. intros p. by apply (datagram_mono _ _ _ _ Ha).
  - split; [|done]. unfold modest in Hmod. apply andb_true_iff in Hmod as [_ ?]. by zbool.
Qed.

(** The fragments of the messages accepted, under the numbers they get. *)
Definition sent_log (a : endpoint) : list (list frag) := group (mss (ep_kcp a)) <$> ep_sent a.
Definition side_log (a b : endpoint) : Prop := side_inv (sent_log a) (sent_log b) (ep_sent b) a.

Lemma exec_side_log a b o a' :
  side_ok a b -> side_log a b -> side_log b a ->
  steady o = true -> exec m (ep_out b) o a = Ok a' -> modest a' = true -> side_log a' b /\ side_log b a'.
Proof.
  intros Hs Ha Hb Ho H Hmod. destruct (exec_duplex a b o a' Hs Ho H Hmod) as [[_ (_ & Hms & _) _ _ _ _] _].
  assert (numbered a' = true) as Hn.
  { unfold modest in Hmod. apply andb_true_iff in Hmod as [? _]. unfold numbered. zbool. apply Z.ltb_lt. lia. }
  unfold side_log in *. set (lb := sent_log b) in *. unfold sent_log in *. rewrite Hms.
  destruct o; try done.
  2: { destruct (exec_send_inv m Hm _ lb a b msg a' Ha Hb H Hn) as (new & H1 & H2 & E). rewrite <- fmap_app, <- E in H1, H2. done. }
  2: { destruct (exec_recv_inv m _ lb a b len a' Ha Hb H) as [H1 E]. by rewrite E. }
  all: edestruct (exec_other_inv m (group (mss (ep_kcp a)) <$> ep_sent a) lb a b) as [H1 E]; [exact Ha|exact Hb| |exact H|]; [done|];
    by rewrite E.
Qed.

Record linked (a b : endpoint) : Prop := {
  ln_ok : side_ok a b;
  ln_log : side_log a b;
  ln_peer : side_log b a
}.

Lemma linked_sym a b : linked a b -> linked b a.
Proof. intros []. constructor; try done. by apply side_ok_sym. Qed.

Lemma exec_linked a b o a' :
  linked a b -> steady o = true -> exec m (ep_out b) o a = Ok a' -> modest a' = true -> linked a' b.
Proof.
  intros [H1 H2 H3] Ho H Hmod. destruct (exec_side_log a b o a' H1 H2 H3 Ho H Hmod).
  constructor; try done. by eapply exec_side_ok.
Qed.

Lemma steady_linked s s' : rtc steady_step s s' -> linked s.1 s.2 -> linked s'.1 s'.2.
Proof.
  induction 1 as [|s s1 s2 [side o s' Ho H M1 M2] _ IH]; [done|]. intros Hs. apply IH. clear IH.
  destruct s as [a b]. unfold sys_exec in H. destruct side; apply run_bind_Ok in H as (e & He & H);
    apply Ok_inj in H as ->; cbn [fst snd] in *; [by eapply exec_linked|].
  apply linked_sym. eapply exec_linked; [by apply linked_sym|done..].
Qed.
End Exec.

(** ** Two fresh control blocks *)

(** A control block of conversation [c], configured but not used. *)
Record unused (c : Z) (k : ikcpcb) : Prop := {
  un_wf : kcp_wf k;
  un_output : output k = true;
  un_conv : conv k = c /\ 0 <= c < 4294967296;
  un_mtu : mtu k < 1073741824;
  un_snd : snd_una k = 0 /\ snd_nxt k = 0 /\ snd_queue k = [] /\ snd_buf k = [];
  un_rcv : rcv_nxt k = 0 /\ rcv_queue k = [] /\ rcv_buf k = [];
  un_acks : ackcount k = 0
}.

Lemma unused_tame c k : unused c k -> tame k.
Proof.
  intros [H1 H2 [H3 H4] H5 (H6 & H7 & H8 & H9) (R1 & R2 & R3) H10].
  constructor; rewrite ?H3, ?H6, ?H7, ?H8, ?H9; try done. unfold move_stops. by rewrite R3.
Qed.

Lemma unused_log c k : unused c k -> side_inv [] [] [] (fresh k).
Proof.
  intros [H1 H2 _ _ (H6 & H7 & H8 & H9) (R1 & R2 & R3) _]. pose proof (cw_mss _ (kw_cfg _ H1)) as Hms.
  pose proof (cw_mtu _ (kw_cfg _ H1)). unfold IKCP_OVERHEAD in Hms.
  constructor; cbn; auto; [split; cbn; [lia|constructor]|]. split.
  - constructor; rewrite ?H7, ?H8, ?H9; cbn; auto; [lia|]. rewrite (sl_nque _ (proj1 (kw_snd _ H1))). apply u32_u32.
  - constructor; rewrite ?R1, ?R2, ?R3; cbn; auto; [lia|]. by rewrite (rw_nque _ (kw_rcv _ H1)), R2.
  - split; [lia|apply H1].
Qed.

Lemma unused_dir c a b : unused c a -> unused c b -> dir a b.
Proof.
  intros [_ _ _ _ (_ & A1 & _ & A2) _ _] [B1 _ _ _ _ (B2 & _ & B3) B4].
  constructor; rewrite ?A1, ?A2, ?B2, ?B3; try done; [by apply acks_had_nil|lia].
Qed.

Lemma unused_linked c a b : unused c a -> unused c b -> linked (fresh a) (fresh b).
Proof.
  intros Ha Hb. pose proof (un_acks _ _ Ha). pose proof (un_acks _ _ Hb). constructor.
  - constructor; cbn; [|constructor|constructor|lia].
    constructor; [by eapply unused_tame|by eapply unused_tame| |by eapply unused_dir|by eapply unused_dir].
    by rewrite (proj1 (un_conv _ _ Ha)), (proj1 (un_conv _ _ Hb)).
  - by apply (unused_log c).
  - by apply (unused_log c).
Qed.

(** Where fragment [i] of the messages [a] accepted is: handed out, or on its way
    with its data, in one of the four lists. *)
Definition kept (a b : endpoint) (i : nat) (f : frag) : Prop :=
  (i < handed (sent_log a) (length (ep_got b)))%nat \/
  (exists s, rcv_queue (ep_kcp b) !! (i - handed (sent_log a) (length (ep_got b)))%nat = Some s /\ frag_of s = f) \/
  (exists s, (s ∈ rcv_buf (ep_kcp b) \/ s ∈ snd_buf (ep_kcp a)) /\ seg_sn s = Z.of_nat i /\ frag_of s = f) \/
  (exists s, snd_queue (ep_kcp a) !! (i - Z.to_nat (snd_nxt (ep_kcp a)))%nat = Some s /\ frag_of s = f).

Definition accounted (a b : endpoint) : Prop :=
  forall i f, concat (sent_log a) !! i = Some f -> kept a b i f.

Lemma carries_at log s i f : carries log s -> seg_sn s = Z.of_nat i -> log !! i = Some f -> frag_of s = f.
Proof. intros (_ & H & _) E Hf. rewrite E, Nat2Z.id, Hf in H. by injection H as ->. Qed.

Lemma linked_accounted a b : linked a b -> accounted a b.
Proof.
  intros [[Hd _ _ _] [_ _ _ _ [Hs _ _] _] [_ _ _ _ [_ Hr _] _]] i f Hf. unfold kept.
  set (d := handed (sent_log a) (length (ep_got b))) in *. set (log := concat (sent_log a)) in *. clearbody d log.
  destruct (Nat.lt_ge_cases i d) as [|Hi]; [by left|right].
  destruct (Z.lt_ge_cases (Z.of_nat i) (rcv_nxt (ep_kcp b))) as [Hlt|Hge].
  { left. assert ((frag_of <$> rcv_queue (ep_kcp b)) !! (i - d)%nat = Some f) as Hq.
    { rewrite (ri_queue _ _ _ Hr), lookup_take_Some, lookup_drop. split; [|lia].
      rewrite <- Hf. f_equal. lia. }
    rewrite list_lookup_fmap in Hq. apply fmap_Some in Hq as (s & Hs' & ->). by exists s. }
  right. destruct (Z.lt_ge_cases (Z.of_nat i) (snd_nxt (ep_kcp a))) as [Hlt|Hge'].
  - left. destruct (dr_held _ _ (dx_out _ _ Hd) (Z.of_nat i)) as [[|Hb]|Hb]; [lia|lia|..];
      apply list_elem_of_fmap in Hb as (s & E & Hin); exists s.
    + split; [by left|]. split; [done|]. pose proof (ri_buf _ _ _ Hr) as Hc. rewrite list.Forall_forall in Hc.
      by apply (carries_at log s i); [apply Hc| |].
    + split; [by right|]. split; [done|]. pose proof (si_buf _ _ Hs) as Hc. rewrite list.Forall_forall in Hc.
      by apply (carries_at log s i); [apply Hc| |].
  - right. pose proof (si_queue _ _ Hs) as Hq. pose proof (si_nxt _ _ Hs).
    assert ((frag_of <$> snd_queue (ep_kcp a)) !! (i - Z.to_nat (snd_nxt (ep_kcp a)))%nat = Some f) as Hl.
    { rewrite Hq, lookup_drop, <- Hf. f_equal. lia. }
    rewrite list_lookup_fmap in Hl. apply fmap_Some in Hl as (s & Hs' & ->). by exists s.
Qed.

(** C5: nothing is discarded before it has arrived.  Start two configured, unused
    control blocks of one conversation and let the applications send, receive,
    update and flush, and the network deliver any datagram either side ever output,
    in any interleaving, any number of times or never.  At every moment, each
    fragment of each message accepted by one side is accounted for, with its data:
    it was handed out by the other, or is in its [rcv_queue] or [rcv_buf], or is
    still in the sender's [snd_buf] or [snd_queue].  No acknowledgement, true but
    old, repeated or cumulative, makes the sender drop a segment that has not
    arrived.  (The numbers stay below 2^31: beyond, an old acknowledgement would
    compare as new.) *)
Theorem nothing_discarded m c ka kb s :
  (forall z, mem_ok m z = true) -> unused c ka -> unused c kb ->
  rtc (steady_step m) (fresh ka, fresh kb) s -> accounted s.1 s.2 /\ accounted s.2 s.1.
Proof.
  intros Hm Ha Hb Hs. pose proof (steady_linked m Hm _ _ Hs (unused_linked c _ _ Ha Hb)) as Hl.
  split; apply linked_accounted; [done|by apply linked_sym].
Qed.

(** A schedule, executed. *)
Fixpoint steady_run (m : mem) (trace : list (bool * op)) (s : endpoint * endpoint) : run (endpoint * endpoint) :=
  match trace with
  | [] => Ok s
  | (side, o) :: trace =>
      s ← sys_exec m side o s;
      if steady o && modest s.1 && modest s.2 then steady_run m trace s else Undef
  end.

Lemma steady_run_steps m trace s s' : steady_run m trace s = Ok s' -> rtc (steady_step m) s s'.
Proof.
  revert s. induction trace as [|[side o] trace IH]; intros s H; cbn [steady_run] in H.
  - apply Ok_inj in H as ->. reflexivity.
  - apply run_bind_Ok in H as (s1 & H1 & H). destruct (steady o && modest s1.1 && modest s1.2) eqn:E; [|done].
    apply andb_true_iff in E as [[? ?]%andb_true_iff ?]. eapply rtc_l; [by econstructor|by apply IH].
Qed.

Lemma demo_unused : unused 7 demo_open.
Proof. constructor; [exact demo_open_wf|by vm_compute..]. Qed.

(** Two messages of two fragments each, the first datagram lost; the second one is
    acknowledged, and its acknowledgement delivered twice. *)
Definition demo_lossy_trace : list (bool * op) :=
  [(true, Op_nodelay 1 10 2 1); (true, Op_send (demo_msg 2000)); (true, Op_send (demo_msg 1500)); (true, Op_update 100);
   (false, Op_update 100); (false, Op_input 1); (false, Op_input 3); (false, Op_flush);
   (true, Op_input 0); (true, Op_input 0); (false, Op_recv 4096)].
Definition demo_lossy : endpoint * endpoint :=
  match steady_run demo_mem demo_lossy_trace (fresh demo_open, fresh demo_open) with
  | Ok s => s
  | _ => (fresh demo_open, fresh demo_open)
  end.

Lemma nothing_discarded_witness :
  length (ep_sent demo_lossy.1) = 2%nat /\ seg_sn <$> snd_buf (ep_kcp demo_lossy.1) = [0; 2] /\
  seg_sn <$> rcv_buf (ep_kcp demo_lossy.2) = [1; 3] /\
  accounted demo_lossy.1 demo_lossy.2 /\ accounted demo_lossy.2 demo_lossy.1.
Proof.
  split; [vm_compute; reflexivity|]. split; [vm_compute; reflexivity|]. split; [vm_compute; reflexivity|].
  apply (nothing_discarded demo_mem 7 demo_open demo_open demo_lossy); [done|exact demo_unused..|].
  apply (steady_run_steps demo_mem demo_lossy_trace). vm_compute. reflexivity.
Defined.

(** ** What an application can conclude *)

(** Numbers in flight are distinct: there are at most as many segments. *)
Lemma flight_length k : tame k -> zlen (snd_buf k) <= snd_nxt k - snd_una k.
Proof.
  intros Hk. destruct (kw_snd _ (tm_wf _ Hk)) as [Hl _]. pose proof (tm_una _ Hk).
  assert (length (seg_sn <$> snd_buf k) <= length (seqZ (snd_una k) (snd_nxt k - snd_una k)))%nat as Hle.
  { apply submseteq_length, NoDup_submseteq; [by apply (sn_sorted_NoDup (snd_una k)), Hl|].
    intros i (s & -> & Hs)%list_elem_of_fmap. apply elem_of_seqZ.
    pose proof (in_flight_range k s Hl (tame_seq _ Hk) Hs). lia. }
  rewrite length_fmap, length_seqZ in Hle. lia.
Qed.

Lemma waitsnd_zero k : tame k -> ikcp_waitsnd k = 0 -> snd_buf k = [] /\ snd_queue k = [].
Proof.
  intros Hk H. pose proof (flight_length k Hk) as Hb. pose proof (tm_max _ Hk) as Hq.
  destruct (kw_snd _ (tm_wf _ Hk)) as [Hl _]. pose proof (sl_una _ Hl). pose proof (sl_nxt _ Hl).
  pose proof (sl_flight _ Hl) as Hf. pose proof (tm_una _ Hk). unfold off in Hf. rewrite u32_small in Hf by lia.
  unfold ikcp_waitsnd in H. rewrite (sl_nbuf _ Hl), (sl_nque _ Hl), !u32_small in H by (rewrite ?u32_small; lia).
  assert (zlen (snd_buf k) + zlen (snd_queue k) = 0) as Hz by (unfold i32 in H; revert H; wrap_lia).
  split; [destruct (snd_buf k)|destruct (snd_queue k)]; try done; cbn [length] in Hz; lia.
Qed.

(** Every message fits the receive window of the peer. *)
Definition readable (a b : endpoint) : Prop :=
  Forall (fun msg => frag_count (zlen msg) (mss (ep_kcp a)) <= rcv_wnd (ep_kcp b)) (ep_sent a).

Lemma group_length (msg : list byte) mss :
  0 < mss < 1073741824 -> zlen msg < 2147483648 -> zlen (group mss msg) = frag_count (zlen msg) mss.
Proof.
  intros Hm Hl. unfold group. rewrite length_fragments.
  destruct (send_count_spec (zlen msg) mss) as (H1 & H2 & _); [lia..|]. rewrite H2 in *. unfold frag_count. lia.
Qed.

(** Nothing to read: everything was read, or the next fragment is missing. *)
Lemma unread_cases a b :
  duplex (ep_kcp a) (ep_kcp b) -> side_log a b -> side_log b a -> readable a b -> ikcp_peeksize (ep_kcp b) < 0 ->
  ep_got b = ep_sent a \/
  nrcv_que (ep_kcp b) < rcv_wnd (ep_kcp b) /\
  rcv_nxt (ep_kcp b) < snd_nxt (ep_kcp a) + zlen (snd_queue (ep_kcp a)).
Proof.
  intros Hd [Hg _ _ _ [Hs _ _] _] [_ _ Hgot Hcnt [_ Hr _] _] Hfit Hpk.
  rewrite <- (log_length _ _ Hs). set (j := length (ep_got b)) in *. set (kb := ep_kcp b) in *.
  pose proof (tm_wf _ (dx_b _ _ Hd)) as Hwb. fold kb in Hwb.
  destruct (ep_sent a !! j) as [msg|] eqn:Hmsg.
  2: { left. apply lookup_ge_None in Hmsg. rewrite Hgot. by apply take_ge. }
  right. unfold readable in Hfit. rewrite Forall_lookup in Hfit. specialize (Hfit _ _ Hmsg). fold kb in Hfit.
  set (g := group (mss (ep_kcp a)) msg) in *.
  assert (sent_log a !! j = Some g) as Hj by (unfold sent_log; by rewrite list_lookup_fmap, Hmsg).
  pose proof (Forall2_lookup_lr _ _ _ _ _ _ Hg Hmsg Hj) as (Hne & _ & Hdn & Hby & Hml).
  pose proof (tm_wf _ (dx_a _ _ Hd)) as Hwa. pose proof (cw_mss _ (kw_cfg _ Hwa)) as Hms. unfold IKCP_OVERHEAD in Hms.
  pose proof (tm_mtu _ (dx_a _ _ Hd)). pose proof (cw_mtu _ (kw_cfg _ Hwa)).
  pose proof (group_length msg (mss (ep_kcp a)) ltac:(lia) Hml) as Hgl. fold g in Hgl. rewrite <- Hgl in Hfit. clear Hgl.
  pose proof (handed_S _ _ _ Hj) as HS.
  assert (handed (sent_log a) (S j) <= length (concat (sent_log a)))%nat as Hle.
  { unfold handed. rewrite <- (take_drop (S j) (sent_log a)) at 2. rewrite concat_app, length_app. lia. }
  pose proof (ri_nxt _ _ _ Hr) as Hn. pose proof (ri_queue _ _ _ Hr) as Hq. rewrite drop_handed in Hq.
  erewrite drop_S in Hq by exact Hj. cbn [concat] in Hq.
  pose proof (f_equal length Hq) as Hlq. rewrite length_fmap, length_take, length_app in Hlq.
  pose proof (f_equal length (drop_handed (sent_log a) (S j))) as Hdl. rewrite length_drop in Hdl.
  destruct (Nat.le_gt_cases (length g) (length (rcv_queue kb))) as [Hge|Hlt].
  - exfalso. pose proof (peek_group kb (take (length g) (rcv_queue kb)) (drop (length g) (rcv_queue kb))) as Hpg.
    assert (frag_of <$> take (length g) (rcv_queue kb) = g) as Eg.
    { rewrite fmap_take, Hq, take_take, Nat.min_l by lia. apply take_app_length. }
    rewrite Eg, Hby in Hpg. rewrite Hpg in Hpk; [lia|apply Hwb|by rewrite take_drop| |done|done].
    intros E. rewrite E in Eg. by subst g.
  - rewrite (ri_nque _ _ _ Hr). split; [lia|]. lia.
Qed.

(** Nothing waits on one side and nothing can be read on the other. *)
Lemma linked_all_read a b :
  linked a b -> readable a b -> ikcp_waitsnd (ep_kcp a) = 0 -> ikcp_peeksize (ep_kcp b) < 0 -> ep_got b = ep_sent a.
Proof.
  intros Hl Hfit Hw Hpk. pose proof (so_duplex _ _ (ln_ok _ _ Hl)) as Hd.
  destruct (unread_cases _ _ Hd (ln_log _ _ Hl) (ln_peer _ _ Hl) Hfit Hpk) as [|[Hroom Hlt]]; [done|exfalso].
  destruct (waitsnd_zero _ (dx_a _ _ Hd) Hw) as [Eb Eq].
  rewrite Eq in Hlt. cbn in Hlt. pose proof (tm_wf _ (dx_b _ _ Hd)) as Hwb. pose proof (rw_nxt _ (kw_rcv _ Hwb)).
  destruct (dr_held _ _ (dx_out _ _ Hd) (rcv_nxt (ep_kcp b))) as [[|Hin]|Hin]; [lia|lia| |].
  - by apply (stops_gap (ep_kcp b)) in Hin; [|apply Hwb|apply Hd|].
  - rewrite Eb in Hin. by apply not_elem_of_nil in Hin.
Qed.

(** C6: an application can tell that everything was read.  As above; if every message
    fits the receive window of the peer, then whenever ikcp_waitsnd is zero on one
    side and ikcp_peeksize finds no message on the other, the other has handed out
    exactly the messages accepted. *)
Theorem waitsnd_zero_read m c ka kb s :
  (forall z, mem_ok m z = true) -> unused c ka -> unused c kb ->
  rtc (steady_step m) (fresh ka, fresh kb) s -> readable s.1 s.2 ->
  ikcp_waitsnd (ep_kcp s.1) = 0 -> ikcp_peeksize (ep_kcp s.2) < 0 -> ep_got s.2 = ep_sent s.1.
Proof.
  intros Hm Ha Hb Hs Hfit Hw Hpk. apply linked_all_read; [|done..].
  exact (steady_linked m Hm _ _ Hs (unused_linked c _ _ Ha Hb)).
Qed.

(** The lost datagrams are sent again after the time-out, and everything is read. *)
Definition demo_repaired_trace : list (bool * op) :=
  demo_lossy_trace ++
  [(true, Op_update 1000); (false, Op_input 4); (false, Op_input 5); (false, Op_recv 4096); (false, Op_recv 4096);
   (false, Op_update 1000); (true, Op_input 1)].
Definition demo_repaired : endpoint * endpoint :=
  match steady_run demo_mem demo_repaired_trace (fresh demo_open, fresh demo_open) with
  | Ok s => s
  | _ => (fresh demo_open, fresh demo_open)
  end.

Lemma waitsnd_zero_read_witness :
  length (ep_sent demo_repaired.1) = 2%nat /\ ep_got demo_repaired.2 = ep_sent demo_repaired.1.
Proof.
  split; [vm_compute; reflexivity|].
  apply (waitsnd_zero_read demo_mem 7 demo_open demo_open demo_repaired); [done|exact demo_unused..| | | |].
  - apply (steady_run_steps demo_mem demo_repaired_trace). vm_compute. reflexivity.
  - unfold readable. assert (ep_sent demo_repaired.1 = [demo_msg 2000; demo_msg 1500]) as -> by (vm_compute; reflexivity).
    apply Forall_cons; [vm_compute; discriminate|]. apply Forall_cons; [vm_compute; discriminate|apply Forall_nil_2].
  - vm_compute. reflexivity.
  - vm_compute. reflexivity.
Defined.
