(* ===== verification/KcpResume.v ===== *)
(** * Delivery resumes

    [KcpDuplex] shows that whatever the network did, the sender still has what the
    receiver lacks.  Here: as soon as the network passes datagrams on again, the
    retransmissions, window probes and acknowledgements of src/util/ikcp.c deliver
    all of it, in a number of round trips linear in the number of fragments. *)

From stdpp Require Import relations sorting.
From S2P Require Import Prelude Codec KcpState KcpAck KcpRecv KcpSend KcpInput KcpFlush.
From S2P Require Import KcpWire KcpFrames KcpTransfer KcpTransferSteps KcpSystem KcpWf KcpWfSnd KcpFlushSpec KcpSafety.
From S2P Require Import KcpTheorems KcpSession KcpDataThms KcpLink KcpTimerThms KcpHeld KcpDuplex.

(** ** What a flush emits *)

(** The first data segment is the oldest one not acknowledged. *)
Definition leads (k : ikcpcb) (segs : list IKCPSEG) : Prop :=
  exists s l, pushes segs = s :: l /\ seg_sn s = snd_una k.

(** The oldest segment is due, or nothing is in flight and the windows are open. *)
Definition goes (k : ikcpcb) : Prop :=
  match snd_buf k with
  | s :: _ => 0 <= itimediff (current k) (seg_resendts s)
  | [] => snd_queue k <> [] /\ 1 <= flush_cwnd k
  end.

(** The next window probe is ahead. *)
Definition waiting (k : ikcpcb) : Prop := probe_wait k <> 0 /\ itimediff (current k) (ts_probe k) < 0.

Lemma waiting_idle k k' : idle_part k' = idle_part k -> waiting k -> waiting k'.
Proof. unfold idle_part, waiting. intros [= _ -> -> ->]. done. Qed.

(** [n] flushes of [k] in a row write [segs]. *)
Record emits (n : Z) (y k : ikcpcb) (segs : list IKCPSEG) (k' : ikcpcb) : Prop := {
  em_adv : advances y k k';
  em_said : Forall (said k') segs;
  em_answers : Forall (answers k) segs;
  em_rcv : rcv_part k' = rcv_part k;
  em_cfg : cfg_part k' = cfg_part k;
  em_una : snd_una k' = snd_una k;
  em_total : snd_nxt k' + zlen (snd_queue k') = snd_nxt k + zlen (snd_queue k);
  em_rmt : rmt_wnd k' = rmt_wnd k;
  em_cwnd : 1 <= cwnd k';
  em_ackcount : ackcount k' = 0;
  em_acks : ackcount k <> 0 \/ Z.land (probe k) IKCP_ASK_TELL <> 0 -> segs <> [];
  em_wait : rmt_wnd k = 0 -> probe_wait k = 0 \/ waiting k -> waiting k';
  em_ask : rmt_wnd k = 0 -> probe_wait k <> 0 -> 0 <= itimediff (current k) (ts_probe k) ->
    exists s, s ∈ segs /\ seg_cmd s = IKCP_CMD_WASK;
  em_first : goes k -> leads k segs;
  em_empty : snd_buf k = [] -> (pushes segs = [] /\ snd_buf k' = []) \/ leads k segs;
  em_count : zlen (pushes segs) <= 65535 * n /\ zlen segs <= ackcount k + 65537 * n
}.

Lemma leads_app k s1 s2 : leads k s1 -> leads k (s1 ++ s2).
Proof. intros (s & l & H & E). exists s, (l ++ pushes s2). by rewrite pushes_app, H. Qed.

Lemma emits_trans n1 n2 y k1 s1 k2 s2 k3 :
  emits n1 y k1 s1 k2 -> emits n2 y k2 s2 k3 -> emits (n1 + n2) y k1 (s1 ++ s2) k3.
Proof.
  intros [A1 A2 A3 A4 A5 A6 A7 A8 A9 A10 A11 A12 A13 A14 A15 [A16 A17]]
    [B1 B2 B3 B4 B5 B6 B7 B8 B9 B10 B11 B12 B13 B14 B15 [B16 B17]].
  assert (forall s, answers k2 s -> answers k1 s) as Han.
  { pose proof A4 as R. apply rcv_part_eq in R as (R1 & _ & _ & R4). pose proof (cfg_part_wnd _ _ A5) as Hw.
    intros s. unfold answers, ikcp_wnd_unused. by rewrite R1, R4, Hw. }
  constructor; try congruence.
  - by eapply advances_trans.
  - apply Forall_app. split; [|done]. eapply Forall_impl; [|exact A2]. destruct B1 as [_ (? & _) ? ? ?].
    intros s. by apply said_mono.
  - apply Forall_app. split; [done|]. eapply Forall_impl; [|exact B3]. auto.
  - intros H. specialize (A11 H). by destruct s1.
  - intros H Hw. apply B12; [congruence|]. right. auto.
  - intros H1 H2 H3. destruct (A13 H1 H2 H3) as (s & Hs & ?). exists s. rewrite elem_of_app. auto.
  - intros H. by apply leads_app, A14.
  - intros H. destruct (A15 H) as [[Hp Hb]|]; [|right; by apply leads_app].
    destruct (B15 Hb) as [[Hp2 ?]|(s & l & Hp2 & E)]; [left|right].
    + by rewrite pushes_app, Hp, Hp2.
    + exists s, l. rewrite pushes_app, Hp, Hp2. split; [done|congruence].
  - rewrite pushes_app, !Z_length_app. lia.
Qed.

Lemma emits_le n n' y k segs k' : n <= n' -> emits n y k segs k' -> emits n' y k segs k'.
Proof. intros Hn []. constructor; try done. lia. Qed.

(** The window counters after a flush. *)
Lemma flush_end m k k' out :
  kcp_wf k -> output k = true -> updated k <> 0 -> ikcp_flush m k = Ok (k', out) ->
  1 <= cwnd k' /\ idle_part k' = idle_part (flush_probe (k <| ackcount := 0 |>)).
Proof.
  intros Hk Hout Hu H. pose proof (after_move_wf k Hk) as Hmv. destruct (kw_ack _ Hk) as (acks & Hrep & Hn).
  destruct (flush_run m k acks) as (ks & c & l & ptr & o & Hx & _ & Heq);
    [done|pose proof (cw_mtu _ (kw_cfg _ Hk)); lia|done..|apply (kw_snd _ Hmv)|].
  rewrite H in Heq. apply Ok_inj in Heq. pose proof (f_equal fst Heq) as Ek. cbn [fst] in Ek. clear Heq.
  match type of Ek with flush_ssthresh ?x ?a ?b ?c ?d = _ => set (k3 := x) in Ek;
    pose proof (flush_ssthresh_cwnd k3 a b c d) as Hcw;
    assert (idle_part (flush_ssthresh k3 a b c d) = idle_part k3) as Hpw by (unfold flush_ssthresh; frame_cases) end.
  rewrite Ek in Hcw, Hpw. split.
  - apply Hcw. subst k3. cbn. apply same_but_xmit_frame in Hx as (_ & _ & _ & _ & _ & _ & _ & _ & -> & _). apply Hmv.
  - rewrite Hpw. subst k3. change (idle_part ks = idle_part (after_commands k)). unfold same_but_xmit in Hx. rewrite Hx.
    change (idle_part (after_move k) = idle_part (after_commands k)).
    destruct (flush_move_frame (flush_cwnd (after_commands k)) (u32 (ikcp_wnd_unused k)) (snd_queue k)
      (after_commands k)) as (_ & _ & _ & Hc). fold (after_move k) in Hc. unfold clk_part in Hc. unfold idle_part. congruence.
Qed.

(** ** The data segments *)

Lemma after_move_current k : current (after_move k) = current k.
Proof.
  destruct (flush_move_frame (flush_cwnd (after_commands k)) (u32 (ikcp_wnd_unused k)) (snd_queue k)
    (after_commands k)) as (_ & _ & _ & Hc). fold (after_move k) in Hc.
  destruct (after_commands_frame k) as (_ & _ & _ & _ & _ & _ & _ & _ & _ & <- & _). unfold clk_part in Hc. congruence.
Qed.

(** What is sent for the first time or has timed out is due. *)
Lemma due_oldest k s :
  seg_xmit s = 0 \/ 0 <= itimediff (current k) (seg_resendts s) -> exists s', due_now k s = Some s'.
Proof.
  intros H. unfold due_now, due, flush_decide. cbv zeta. cbn [f_kcp]. rewrite after_move_current.
  destruct (seg_xmit s =? 0) eqn:E; [eauto|]. zbool. destruct H as [|H]; [done|].
  rewrite (proj2 (Z.geb_le _ 0) H). eauto.
Qed.

Lemma pushes_all segs : Forall (fun s => seg_cmd s = IKCP_CMD_PUSH) segs -> pushes segs = segs.
Proof.
  induction 1 as [|s segs Hs _ IH]; [done|]. unfold pushes in *. cbn [List.filter]. unfold is_push at 1.
  by rewrite Hs, IH.
Qed.

Lemma flush_pushes m k acks :
  tame k -> pushes (flush_segs m k acks) = omap (due_now k) (snd_buf (after_move k)).
Proof.
  intros Hk. unfold flush_segs. destruct (command_segs_spec m k acks) as (_ & _ & Hp & _). rewrite pushes_app, Hp. cbn [app].
  apply pushes_all, list.Forall_forall. intros s (t & Ht & Hd)%list_elem_of_omap. apply due_stamp in Hd as [Hd _].
  unfold seg_key in Hd. injection Hd as _ -> _ _ _ _. destruct (after_move_spec k Hk) as (pre & _ & Hb & _).
  rewrite Hb, elem_of_app in Ht. destruct Ht as [Ht|Ht].
  - pose proof (tm_push _ Hk) as Hpu. rewrite list.Forall_forall in Hpu. by apply Hpu.
  - by apply elem_of_lookup_imap in Ht as (i & u & -> & _).
Qed.

(** The oldest segment stays in front. *)
Lemma after_move_head k s l :
  tame k -> snd_buf (after_move k) = s :: l ->
  seg_sn s = snd_una k /\ (snd_buf k = [] -> seg_xmit s = 0) /\ (snd_buf k <> [] -> head (snd_buf k) = Some s).
Proof.
  intros Hk Hb. destruct (kw_snd _ (after_move_wf k (tm_wf _ Hk))) as [_ Hx]. unfold una_exact in Hx.
  destruct (after_move_spec k Hk) as (pre & _ & Hb' & _ & Hu & _). rewrite Hb in Hx, Hb'. split; [congruence|].
  destruct (snd_buf k) as [|s0 l0]; split; try done.
  - intros _. destruct pre; [done|]. rewrite imap_cons in Hb'. injection Hb' as -> _. done.
  - intros _. by injection Hb' as <- _.
Qed.

Lemma due_leads m k acks s l :
  tame k -> snd_buf (after_move k) = s :: l -> seg_xmit s = 0 \/ 0 <= itimediff (current k) (seg_resendts s) ->
  leads k (flush_segs m k acks).
Proof.
  intros Hk Hb Hdue. destruct (due_oldest k s Hdue) as (s' & Hs'). destruct (after_move_head k s l Hk Hb) as (E & _).
  exists s', (omap (due_now k) l). rewrite flush_pushes, Hb by done. cbn [omap list_omap]. rewrite Hs'. split; [done|].
  apply due_stamp in Hs' as [Hkey _]. by rewrite (key_sn _ _ Hkey).
Qed.

Lemma flush_leads m k acks : tame k -> goes k -> leads k (flush_segs m k acks).
Proof.
  intros Hk Hg. destruct (after_move_spec k Hk) as (pre & Hq & Hb & _ & _ & Hw). unfold goes in Hg.
  destruct (snd_buf k) as [|s0 l0] eqn:Eb.
  - destruct Hg as [Hne Hcw]. rewrite after_commands_cwnd in Hw.
    destruct (kw_snd _ (tm_wf _ Hk)) as [_ Hx]. unfold una_exact in Hx. rewrite Eb in Hx.
    destruct pre as [|s pre]; [exfalso; cbn in Hq, Hw; destruct Hw as [Hw|Hw]; [congruence|lia]|].
    rewrite imap_cons in Hb. eapply due_leads; [done|exact Hb|by left].
  - eapply due_leads; [done|exact Hb|by right].
Qed.

(** When nothing was in flight, everything sent is new. *)
Lemma flush_empty m k acks k' :
  tame k -> snd_buf k' = (fun t => default t (due_now k t)) <$> snd_buf (after_move k) -> snd_buf k = [] ->
  (pushes (flush_segs m k acks) = [] /\ snd_buf k' = []) \/ leads k (flush_segs m k acks).
Proof.
  intros Hk Hb' He. destruct (snd_buf (after_move k)) as [|s l] eqn:Eb.
  - left. rewrite flush_pushes, Eb by done. by rewrite Hb'.
  - right. destruct (after_move_head k s l Hk Eb) as (_ & Hx & _). eapply due_leads; [done|exact Eb|left; auto].
Qed.

(** ** The window probes *)

Lemma flush_probe_tell k : Z.land (probe k) IKCP_ASK_TELL <> 0 -> Z.land (probe (flush_probe k)) IKCP_ASK_TELL <> 0.
Proof.
  intros H. assert (probe (flush_probe k) = probe k \/ probe (flush_probe k) = Z.lor (probe k) IKCP_ASK_SEND) as [->| ->];
    [|done|rewrite Z.land_lor_distr_l; by change (Z.land IKCP_ASK_SEND IKCP_ASK_TELL) with 0; rewrite Z.lor_0_r].
  unfold flush_probe. destruct (rmt_wnd k =? 0); [|by left]. destruct (probe_wait k =? 0); [by left|].
  destruct (_ >=? 0); [right|by left]. destruct (probe_wait k <? _); destruct (_ >? _); done.
Qed.

Lemma flush_probe_wait k :
  rmt_wnd k = 0 -> probe_wait k = 0 \/ waiting k -> waiting (flush_probe k).
Proof.
  intros Hr H. unfold flush_probe. rewrite Hr. cbn [Z.eqb]. destruct (probe_wait k =? 0) eqn:E; zbool.
  - split; [done|]. change (itimediff (current k) (u32 (current k + IKCP_PROBE_INIT)) < 0). rewrite itimediff_sub; unfold IKCP_PROBE_INIT; lia.
  - destruct H as [|[H1 H2]]; [done|]. case_if; [lia|done].
Qed.

Lemma flush_probe_ask k :
  rmt_wnd k = 0 -> probe_wait k <> 0 -> 0 <= itimediff (current k) (ts_probe k) ->
  Z.land (probe (flush_probe k)) IKCP_ASK_SEND <> 0.
Proof.
  intros Hr Hp Ht. unfold flush_probe. rewrite Hr, (proj2 (Z.eqb_neq _ _) Hp), (proj2 (Z.geb_le _ 0) Ht). cbn [Z.eqb].
  intros H0. cbn [probe update] in H0. apply (f_equal (fun z => Z.testbit z 0)) in H0.
  rewrite Z.land_spec, Z.lor_spec in H0. change (Z.testbit IKCP_ASK_SEND 0) with true in H0.
  by rewrite Z.bits_0, orb_true_r in H0.
Qed.

(** ** One flush *)

Lemma command_count m k acks : zlen acks <= zlen (command_segs m k acks) <= zlen acks + 2.
Proof.
  unfold command_segs. rewrite !length_app, length_fmap.
  repeat match goal with |- context [length (if ?b then _ else _)] => destruct b end; cbn [length]; lia.
Qed.

Lemma command_tell m k acks :
  zlen acks <> 0 \/ Z.land (probe k) IKCP_ASK_TELL <> 0 -> command_segs m k acks <> [].
Proof.
  intros [H|H] E.
  - pose proof (command_count m k acks). rewrite E in *. cbn in *. lia.
  - unfold command_segs in E. apply app_eq_nil in E as [_ [_ E]%app_eq_nil].
    rewrite (proj2 (Z.eqb_neq _ 0)) in E; [done|]. by apply (flush_probe_tell (k <| ackcount := 0 |>)).
Qed.

Lemma command_ask m k acks :
  rmt_wnd k = 0 -> probe_wait k <> 0 -> 0 <= itimediff (current k) (ts_probe k) ->
  exists s, s ∈ command_segs m k acks /\ seg_cmd s = IKCP_CMD_WASK.
Proof.
  intros H1 H2 H3. unfold command_segs. rewrite (proj2 (Z.eqb_neq (Z.land _ IKCP_ASK_SEND) 0));
    [|by apply (flush_probe_ask (k <| ackcount := 0 |>))].
  eexists. rewrite !elem_of_app. split; [right; left; apply list_elem_of_here|done].
Qed.

Section Round.
Context (m : mem) (Hm : forall z, mem_ok m z = true).

(** The oldest number does not move. *)
Lemma flush_una k k' :
  tame k -> kcp_wf k' -> snd_nxt k' = snd_nxt (after_move k) ->
  snd_buf k' = (fun t => default t (due_now k t)) <$> snd_buf (after_move k) -> snd_una k' = snd_una k.
Proof.
  intros Hk Hk' Hn Hb. destruct (after_move_spec k Hk) as (_ & _ & _ & _ & <- & _).
  destruct (kw_snd _ Hk') as [_ Hx]. destruct (kw_snd _ (after_move_wf k (tm_wf _ Hk))) as [_ Hy].
  unfold una_exact in *. rewrite Hx, Hy, Hb. destruct (snd_buf (after_move k)) as [|s l]; [done|].
  rewrite fmap_cons. apply key_sn, due_default_key.
Qed.

Lemma flush_emits k y :
  duplex k y -> updated k <> 0 ->
  exists k' parts, ikcp_flush m k = Ok (k', stream <$> parts) /\ Forall (fun p => p <> []) parts /\
    emits 1 y k (concat parts) k' /\ updated k' <> 0.
Proof.
  intros Hd Hu. pose proof (dx_a _ _ Hd) as Hk.
  destruct (flush_duplex m k y Hd Hu) as
    (k' & parts & acks & Hf & Had & Hs & Hne & _ & Hrep & Hsegs & Hc & Hr & Hac & Hrw & Hup & N1 & N2 & N3).
  exists k', parts. split; [done|]. split; [done|]. split; [|by rewrite Hup].
  pose proof (dx_a _ _ (ad_duplex _ _ _ Had)) as Hk'. pose proof Hrep as [Hcount _].
  destruct (flush_end m k k' _ (tm_wf _ Hk) (tm_output _ Hk) Hu Hf) as [Hcw Hidle].
  pose proof (flush_una k k' Hk (tm_wf _ Hk') N1 N3) as Huna. rewrite Hsegs in *.
  assert (zlen (omap (due_now k) (snd_buf (after_move k))) <= 65535) as Hdata.
  { pose proof (flight_length k' Hk') as Hfl. rewrite N3, length_fmap in Hfl.
    pose proof (sl_flight _ (proj1 (kw_snd _ (tm_wf _ Hk')))) as Hoff. pose proof (tame_seq _ Hk') as [Hq1 Hq2].
    pose proof (sl_una _ (proj1 (kw_snd _ (tm_wf _ Hk')))). unfold off in Hoff. rewrite u32_small in Hoff by lia.
    assert (length (omap (due_now k) (snd_buf (after_move k))) <= length (snd_buf (after_move k)))%nat; [|lia].
    clear. induction (snd_buf (after_move k)) as [|s l IH]; cbn [omap list_omap length]; [lia|].
    destruct (due_now k s); cbn [length]; lia. }
  constructor; try done.
  - apply Forall_app. split; [by destruct (command_segs_spec m k acks) as (_ & ? & _)|].
    apply list.Forall_forall. intros s (t & _ & Hdue)%list_elem_of_omap. by apply due_stamp in Hdue as [_ ?].
  - destruct (after_move_spec k Hk) as (pre & P1 & _ & P3 & _). rewrite N1, N2, P3, P1, Z_length_app. lia.
  - intros H E. apply app_eq_nil in E as [E _]. apply (command_tell m k acks); [|done]. by rewrite <- Hcount.
  - intros H Hw. apply (waiting_idle _ _ Hidle). by apply flush_probe_wait.
  - intros H1 H2 H3. destruct (command_ask m k acks H1 H2 H3) as (s & ? & ?). exists s.
    unfold flush_segs. rewrite elem_of_app. auto.
  - by apply flush_leads.
  - by apply flush_empty.
  - rewrite flush_pushes by done. unfold flush_segs. rewrite length_app. pose proof (command_count m k acks). lia.
Qed.

(** ikcp_update and ikcp_flush. *)
Lemma beat_emits k y now :
  duplex k y ->
  exists kc k1 k' o1 o2 parts, ikcp_update m k now = Ok (k1, o1) /\ ikcp_flush m k1 = Ok (k', o2) /\
    (exists u t, kc = k <| current := now |> <| updated := u |> <| ts_flush := t |>) /\
    o1 ++ o2 = stream <$> parts /\ Forall (fun p => p <> []) parts /\ emits 2 y kc (concat parts) k'.
Proof.
  intros Hd. destruct (update_shape m k now) as (kc & fl & Heq & (u & t & E) & _ & Hu).
  pose proof (ad_duplex _ _ _ (clock_duplex k y kc now u t Hd E)) as Hdc.
  destruct (flush_emits kc y Hdc Hu) as (k2 & p1 & Hf1 & Hne1 & He1 & Hu2). exists kc. destruct fl.
  - destruct (flush_emits k2 y (ad_duplex _ _ _ (em_adv _ _ _ _ _ He1)) Hu2) as (k3 & p2 & Hf2 & Hne2 & He2 & _).
    exists k2, k3, (stream <$> p1), (stream <$> p2), (p1 ++ p2). rewrite Heq, fmap_app, concat_app.
    split_and!; try done; [by exists u, t|by apply Forall_app|]. by apply (emits_trans 1 1 y kc _ k2).
  - exists kc, k2, [], (stream <$> p1), p1. rewrite Heq. split_and!; try done; [by exists u, t|].
    by apply (emits_le 1).
Qed.

(** ** Calls in a row *)

Fixpoint acts (inbox : list (list byte)) (ops : list op) (e : endpoint) : run endpoint :=
  match ops with
  | [] => Ok e
  | o :: ops => e ← exec m inbox o e; acts inbox ops e
  end.

(** Side [a] updates at time [now] and flushes, and [b] takes in what it output. *)
Definition transmit (now : Z) (a b : endpoint) : run (endpoint * endpoint) :=
  a1 ← acts (ep_out b) [Op_update now; Op_flush] a;
  b1 ← acts (ep_out a1) (Op_input <$> seq (length (ep_out a)) (length (ep_out a1) - length (ep_out a))) b;
  Ok (a1, b1).

Definition quiet (o : op) : Prop := match o with Op_send _ | Op_recv _ => False | _ => True end.

Lemma acts_quiet ga gb a b ops a' :
  side_inv ga gb (ep_sent b) a -> side_inv gb ga (ep_sent a) b -> Forall quiet ops ->
  acts (ep_out b) ops a = Ok a' -> side_inv ga gb (ep_sent b) a' /\ ep_sent a' = ep_sent a.
Proof.
  intros Ha Hb Hq. revert a Ha Hb. induction Hq as [|o ops Ho Hq IH]; intros a Ha Hb H; cbn [acts] in H.
  - by apply Ok_inj in H as ->.
  - apply run_bind_Ok in H as (a1 & H1 & H). destruct (exec_other_inv m ga gb a b o a1 Ha Hb Ho H1) as [Ha1 E].
    rewrite <- E in Hb |- *. by apply IH.
Qed.

Lemma acts_inputs inbox n ds e k' :
  drop n inbox = ds -> inputs m (ep_kcp e) ds = Ok k' ->
  acts inbox (Op_input <$> seq n (length ds)) e = Ok (mkEnd k' (ep_sent e) (ep_got e) (ep_out e)).
Proof.
  revert n e. induction ds as [|d ds IH]; intros n e Hd H.
  - cbn in *. apply Ok_inj in H as ->. by destruct e.
  - destruct e as [k s g o]. cbn [length seq fmap list_fmap acts exec ep_kcp ep_sent ep_got ep_out inputs] in *.
    assert (inbox !! n = Some d) as -> by (by rewrite <- (Nat.add_0_r n), <- lookup_drop, Hd).
    apply run_bind_Ok in H as ([k1 r] & Hi & H). rewrite Hi. cbn [mbind run_bind].
    apply (IH (S n) (mkEnd k1 s g o)); [|done]. rewrite <- Nat.add_1_r, <- drop_drop, Hd. done.
Qed.

Lemma transmit_spec a b now :
  duplex (ep_kcp a) (ep_kcp b) -> ackcount (ep_kcp a) + ackcount (ep_kcp b) < 2147352573 ->
  side_log a b -> side_log b a ->
  exists a' b' kc segs, transmit now a b = Ok (a', b') /\
    (exists u t, kc = (ep_kcp a) <| current := u32 now |> <| updated := u |> <| ts_flush := t |>) /\
    emits 2 (ep_kcp b) kc segs (ep_kcp a') /\ took (ep_kcp a') (ep_kcp b) segs (ep_kcp b') /\
    ep_sent a' = ep_sent a /\ ep_sent b' = ep_sent b /\ side_log a' b' /\ side_log b' a'.
Proof.
  intros Hd Hac Hla Hlb. unfold transmit.
  destruct (beat_emits (ep_kcp a) (ep_kcp b) (u32 now) Hd)
    as (kc & k1 & k' & o1 & o2 & parts & Hu & Hf & (u & t & Ekc) & Ho & Hne & He).
  destruct a as [ka sa ga oa]. cbn [ep_kcp] in *. set (a' := mkEnd k' sa ga (oa ++ o1 ++ o2)).
  assert (acts (ep_out b) [Op_update now; Op_flush] (mkEnd ka sa ga oa) = Ok a') as Ha.
  { cbn [acts exec]. rewrite Hu. cbn [mbind run_bind exec]. rewrite Hf. cbn [mbind run_bind]. by rewrite <- app_assoc. }
  rewrite Ha. cbn [mbind run_bind]. change (ep_out a') with (oa ++ o1 ++ o2). cbn [ep_out].
  pose proof (duplex_meets _ _ (duplex_sym _ _ (ad_duplex _ _ _ (em_adv _ _ _ _ _ He)))) as Hmt.
  assert (ackcount kc = ackcount ka) as Eac by (by rewrite Ekc).
  pose proof (em_count _ _ _ _ _ He) as [_ Hcnt]. rewrite Eac in Hcnt.
  destruct (inputs_took m Hm k' (ep_kcp b) parts Hmt (em_said _ _ _ _ _ He) Hne) as (kb & Hin & Htk); [lia|].
  set (b' := mkEnd kb (ep_sent b) (ep_got b) (ep_out b)).
  assert (acts (oa ++ o1 ++ o2) (Op_input <$> seq (length oa) (length (oa ++ o1 ++ o2) - length oa)) b = Ok b') as Hb.
  { rewrite length_app, Nat.add_comm, Nat.add_sub. apply acts_inputs; [by rewrite drop_app_length|]. by rewrite Ho. }
  rewrite Hb. cbn [mbind run_bind]. exists a', b', kc, (concat parts). split; [done|]. split; [by exists u, t|].
  split; [done|]. split; [done|]. split; [done|]. split; [done|].
  assert (mss k' = mss ka) as Hms1.
  { destruct (cfg_part_output_eq _ _ (em_cfg _ _ _ _ _ He)) as (_ & _ & -> & _). by rewrite Ekc. }
  destruct (cfg_part_output_eq _ _ (tk_cfg _ _ _ _ Htk)) as (_ & _ & Hms2 & _).
  unfold side_log, sent_log in *. cbn [ep_kcp ep_sent a' b'] in *. rewrite Hms1, Hms2.
  assert (Forall quiet [Op_update now; Op_flush]) as Q1 by (by repeat constructor).
  assert (forall l, Forall quiet (Op_input <$> l)) as Q2 by (intros l; by apply Forall_fmap, list.Forall_forall).
  destruct (acts_quiet _ _ (mkEnd ka sa ga oa) b _ a' Hla Hlb Q1 Ha) as [Hla' _].
  by destruct (acts_quiet _ _ b a' _ b' Hlb Hla' (Q2 _) Hb) as [Hlb' _].
Qed.

(** ** Reading *)

(** What ikcp_peeksize announces is a message of the peer. *)
Lemma peek_message a b :
  side_log a b -> side_log b a -> 0 <= ikcp_peeksize (ep_kcp b) ->
  exists q rest msg, rcv_queue (ep_kcp b) = q ++ rest /\ q <> [] /\ frg_down (frag_of <$> q) /\
    frag_bytes (frag_of <$> q) = msg /\ msg ∈ ep_sent a /\ zlen msg < 2147483648.
Proof.
  intros [Hg _ _ _ _ _] [_ _ _ _ [_ Hr _] _] Hpk. set (j := length (ep_got b)) in *.
  assert (rcv_queue (ep_kcp b) <> []) as Hne by (intros E; unfold ikcp_peeksize in Hpk; by rewrite E in Hpk).
  destruct (sent_log a !! j) as [g|] eqn:Hj.
  - destruct (queue_starts_with_group _ _ _ _ _ Hg Hj Hr Hne Hpk) as (q & rest & Hq & Eg).
    destruct (Forall2_lookup_r _ _ _ _ _ Hg Hj) as (msg & Hmsg & Hgne & _ & Hdn & Hby & Hl).
    exists q, rest, msg. rewrite Eg. split_and!; try done; [|by eapply list_elem_of_lookup_2].
    intros ->. by subst g.
  - exfalso. apply Hne. pose proof (ri_queue _ _ _ Hr) as Hq. rewrite drop_handed in Hq.
    apply lookup_ge_None in Hj. rewrite drop_ge in Hq by done. cbn in Hq. rewrite take_nil in Hq.
    by apply fmap_nil_inv in Hq.
Qed.

Definition read_all (len : Z) (inbox : list (list byte)) (e : endpoint) : run endpoint :=
  acts inbox (repeat (Op_recv len) (backlog (ep_kcp e))) e.

(** What a reader keeps. *)
Record reads (a b b' : endpoint) : Prop := {
  rd_adv : advances (ep_kcp a) (ep_kcp b) (ep_kcp b');
  rd_log : side_log b' a /\ side_log a b';
  rd_sent : ep_sent b' = ep_sent b;
  rd_cfg : rcv_wnd (ep_kcp b') = rcv_wnd (ep_kcp b) /\ ackcount (ep_kcp b') = ackcount (ep_kcp b)
}.

Lemma read_one len a b :
  duplex (ep_kcp b) (ep_kcp a) -> side_log a b -> side_log b a ->
  0 <= len < 2147483648 -> Forall (fun msg => zlen msg <= len) (ep_sent a) ->
  exists b', (forall inbox, exec m inbox (Op_recv len) b = Ok b') /\ reads a b b' /\
    if ikcp_peeksize (ep_kcp b) <? 0 then b' = b else (backlog (ep_kcp b') < backlog (ep_kcp b))%nat.
Proof.
  intros Hd Hla Hlb Hlen Hfit. pose proof (tm_wf _ (dx_a _ _ Hd)) as Hw.
  destruct (recv_safe (ep_kcp b) true len Hw) as (k' & msg & r & Hr & _ & Hc).
  set (b' := mkEnd k' (ep_sent b) (if (r <? 0) || (len <? 0) then ep_got b else ep_got b ++ [msg]) (ep_out b)).
  assert (forall inbox, exec m inbox (Op_recv len) b = Ok b') as Hex.
  { intros inbox. subst b'. destruct b as [k s g o]. cbn [exec ep_kcp ep_sent ep_got ep_out] in *.
    rewrite i32_small by lia. by rewrite Hr. }
  exists b'. split; [done|]. split.
  - destruct (exec_recv_inv m (sent_log b) (sent_log a) b a len b' Hlb Hla (Hex _)) as [Hlb' _].
    pose proof (recv_duplex _ _ _ _ _ _ Hd Hr) as Had. destruct (ad_cfg _ _ _ Had) as (_ & Hms & Hwd).
    destruct (recv_clk _ _ _ _ _ _ Hr) as (Ha%ack_part_count & _).
    constructor; try done. unfold side_log, sent_log in *. cbn [ep_kcp ep_sent b'] in *. by rewrite Hms.
  - destruct (ikcp_peeksize (ep_kcp b) <? 0) eqn:Epk; zbool.
    + unfold ikcp_recv in Hr. destruct b as [k s g o]. cbn [ep_kcp ep_got] in *. subst b'.
      destruct (rcv_queue k); [by apply Ok_inj in Hr as [= -> _ ->]|].
      rewrite (proj2 (Z.ltb_lt (ikcp_peeksize k) 0)) in Hr by done. by apply Ok_inj in Hr as [= -> _ ->].
    + destruct (peek_message a b Hla Hlb Epk) as (q & rest & msg' & Hq & Hne & Hdn & Hby & Hin & Hml).
      rewrite list.Forall_forall in Hfit. specialize (Hfit _ Hin).
      destruct (recv_group (ep_kcp b) q rest len) as (k1 & k2 & Heq & _); [apply Hw|done..|by rewrite Hby|by rewrite Hby|].
      rewrite Hr in Heq. apply Ok_inj in Heq as [= _ _ <-]. eapply recv_backlog; [|exact Hr|]; lia.
Qed.

Lemma reads_refl a b : duplex (ep_kcp b) (ep_kcp a) -> side_log a b -> side_log b a -> reads a b b.
Proof. intros. constructor; [by apply advances_refl|done..]. Qed.

Lemma reads_trans a b1 b2 b3 : reads a b1 b2 -> reads a b2 b3 -> reads a b1 b3.
Proof.
  intros [A1 A2 A3 [A4 A5]] [B1 B2 B3 [B4 B5]]. constructor; [by eapply advances_trans|done|congruence|split; congruence].
Qed.

Lemma read_all_spec len a b :
  duplex (ep_kcp b) (ep_kcp a) -> side_log a b -> side_log b a ->
  0 <= len < 2147483648 -> Forall (fun msg => zlen msg <= len) (ep_sent a) ->
  exists b', (forall inbox, read_all len inbox b = Ok b') /\ reads a b b' /\ ikcp_peeksize (ep_kcp b') < 0.
Proof.
  intros Hd Hla Hlb Hlen Hfit. unfold read_all.
  assert (forall n b, (backlog (ep_kcp b) <= n)%nat \/ ikcp_peeksize (ep_kcp b) < 0 ->
    duplex (ep_kcp b) (ep_kcp a) -> side_log a b -> side_log b a ->
    exists b', (forall inbox, acts inbox (repeat (Op_recv len) n) b = Ok b') /\ reads a b b' /\
      ikcp_peeksize (ep_kcp b') < 0) as Hall; [|by apply Hall; [left|..]].
  clear b Hd Hla Hlb. induction n as [|n IH]; intros b Hn Hd Hla Hlb.
  - exists b. split; [done|]. split; [by apply reads_refl|]. destruct Hn as [Hn|]; [|done].
    unfold backlog in Hn. unfold ikcp_peeksize. destruct (rcv_queue (ep_kcp b)); [lia|]. cbn [length] in Hn. lia.
  - destruct (read_one len a b Hd Hla Hlb Hlen Hfit) as (b1 & Hex & Hrd & Hcase). cbn [repeat acts].
    assert ((backlog (ep_kcp b1) <= n)%nat \/ ikcp_peeksize (ep_kcp b1) < 0) as Hn1.
    { destruct (ikcp_peeksize (ep_kcp b) <? 0) eqn:Epk; zbool; [subst b1; by right|]. left. destruct Hn; lia. }
    destruct (IH b1 Hn1) as (b2 & Hacts & Hrd2 & Hpk); [apply Hrd|apply Hrd|apply Hrd|].
    exists b2. split; [|split; [by eapply reads_trans|done]]. intros inbox. rewrite Hex. cbn [mbind run_bind]. apply Hacts.
Qed.
End Round.

(** ** Progress *)

(** The time of the call: when the oldest segment times out, or the next window probe
    is due, but never in the past. *)
Definition until (k : ikcpcb) (ts : Z) : Z := if itimediff (current k) ts >=? 0 then current k else ts.
Definition next_time (k : ikcpcb) : Z :=
  match snd_buf k with
  | s :: _ => until k (seg_resendts s)
  | [] => if (rmt_wnd k =? 0) && negb (probe_wait k =? 0) then until k (ts_probe k) else current k
  end.

Lemma until_due k ts : 0 <= itimediff (u32 (until k ts)) ts.
Proof.
  assert (forall z, itimediff (u32 z) ts = itimediff z ts) as E by (intros z; unfold itimediff; by rewrite u32_sub_l).
  rewrite E. unfold until. case_if; [lia|]. by rewrite itimediff_zero.
Qed.

(** Round trips needed before the window is open again. *)
Definition rank (k : ikcpcb) : Z :=
  match snd_buf k with
  | _ :: _ => 0
  | [] => if rmt_wnd k =? 0 then if probe_wait k =? 0 then 3 else 2
          else if (nocwnd k =? 0) && (cwnd k <? 1) then 1 else 0
  end.

Definition left_over (k : ikcpcb) : Z := snd_nxt k + zlen (snd_queue k) - snd_una k.
Definition measure (k : ikcpcb) : Z := 4 * left_over k + rank k.

Lemma rank_range k : 0 <= rank k <= 3.
Proof. unfold rank. destruct (snd_buf k); [repeat case_if; lia|lia]. Qed.

Lemma rank_waiting k : probe_wait k <> 0 -> rank k <= 2.
Proof. intros H. unfold rank. rewrite (proj2 (Z.eqb_neq _ _) H). destruct (snd_buf k); [repeat case_if; lia|lia]. Qed.

Lemma rank_open k : rmt_wnd k <> 0 -> rank k <= 1.
Proof. intros H. unfold rank. rewrite (proj2 (Z.eqb_neq _ _) H). destruct (snd_buf k); [repeat case_if; lia|lia]. Qed.

Lemma rank_zero k : rmt_wnd k <> 0 -> 1 <= cwnd k -> rank k = 0.
Proof.
  intros H Hc. unfold rank. rewrite (proj2 (Z.eqb_neq _ _) H), (proj2 (Z.ltb_ge _ 1) Hc), andb_false_r. by destruct (snd_buf k).
Qed.

(** With room in its queue the receiver is not behind the sender's oldest number. *)
Lemma una_le_next a b : duplex a b -> nrcv_que b < rcv_wnd b -> snd_una a <= rcv_nxt b.
Proof.
  intros Hd Hroom. pose proof (dx_a _ _ Hd) as Ha. pose proof (tm_wf _ (dx_b _ _ Hd)) as Hwb.
  pose proof (rw_nxt _ (kw_rcv _ Hwb)). pose proof (tm_una _ Ha).
  destruct (Z.le_gt_cases (snd_una a) (rcv_nxt b)) as [|Hlt]; [done|exfalso].
  destruct (dr_held _ _ (dx_out _ _ Hd) (rcv_nxt b)) as [[|Hin]|Hin]; [lia|lia| |].
  - by apply (stops_gap b) in Hin; [|apply Hwb|apply Hd|].
  - apply list_elem_of_fmap in Hin as (s & E & Hs).
    pose proof (in_flight_range a s (proj1 (kw_snd _ (tm_wf _ Ha))) (tame_seq _ Ha) Hs). lia.
Qed.

Lemma unused_room k : kcp_wf k -> nrcv_que k < rcv_wnd k <= 65535 -> u16 (u32 (ikcp_wnd_unused k)) <> 0.
Proof.
  intros Hk H. pose proof (rw_nque _ (kw_rcv _ Hk)). unfold ikcp_wnd_unused. rewrite (proj2 (Z.ltb_lt _ _)) by lia.
  rewrite i32_small, !u32_small, u16_small; rewrite ?u32_small; lia.
Qed.

(** The bound is needed: the header field has 16 bits, and a window of 65536
    segments, which ikcp_wndsize accepts, is announced as closed when it is empty. *)
Theorem wide_window_looks_closed k :
  rcv_wnd k = 65536 -> nrcv_que k = 0 -> h_wnd (header_of (flush_seg (mkSeg 0 0 0 0 0 0 0 0 0 0 0 0 []) k)) = 0.
Proof. intros Hw Hq. cbn. unfold ikcp_wnd_unused. by rewrite Hw, Hq. Qed.

(** The clock of a control block. *)
Definition clocked (now : Z) (k kc : ikcpcb) : Prop :=
  exists u t, kc = k <| current := now |> <| updated := u |> <| ts_flush := t |>.

(** *** One exchange: [a] sends [segs], [b] answers with [segs2] *)
Section Exchange.
Context (ka kb kc ka' kb' kc2 kb'' ka'' : ikcpcb) (segs segs2 : list IKCPSEG) (now2 : Z).
Context (Hd : duplex ka kb) (Hc : clocked (u32 (next_time ka)) ka kc) (Hc2 : clocked now2 kb' kc2).
Context (He : emits 2 kb kc segs ka') (Ht : took ka' kb segs kb').
Context (He2 : emits 2 ka' kc2 segs2 kb'') (Ht2 : took kb'' ka' segs2 ka'').
Context (Hroom : nrcv_que kb < rcv_wnd kb <= 65535) (Hleft : rcv_nxt kb < snd_nxt ka + zlen (snd_queue ka)).
Context (Hwnd : 1 <= snd_wnd ka).

Lemma exchange_left : left_over ka'' = left_over ka - (snd_una ka'' - snd_una ka) /\ snd_una ka <= snd_una ka''.
Proof.
  destruct Hc as (u & t & E). pose proof (rl_una _ _ _ (tk_out _ _ _ _ Ht2)) as Hu. pose proof (em_una _ _ _ _ _ He) as Hu'.
  pose proof (em_total _ _ _ _ _ He) as Htot. unfold left_over. rewrite (rl_nxt _ _ _ (tk_out _ _ _ _ Ht2)), (rl_queue _ _ _ (tk_out _ _ _ _ Ht2)), Htot.
  assert (snd_una kc = snd_una ka /\ snd_nxt kc = snd_nxt ka /\ snd_queue kc = snd_queue ka) as (E1 & -> & ->) by (by rewrite E).
  lia.
Qed.

(** The oldest segment was sent: it is acknowledged. *)
Lemma exchange_leads : leads kc segs -> snd_una ka < snd_una ka''.
Proof.
  intros (s & l & Hp & Es). destruct Hc as (u & t & E). destruct Hc2 as (u2 & t2 & E2).
  assert (snd_una kc = snd_una ka) as Eu by (by rewrite E). rewrite Eu in Es.
  pose proof (tk_first _ _ _ _ Ht) as Hf. rewrite Hp, Es in Hf. pose proof (una_le_next _ _ Hd (proj1 Hroom)) as Hle.
  pose proof (sl_flight _ (proj1 (kw_snd _ (tm_wf _ (dx_a _ _ Hd))))) as Hoff. pose proof (tame_seq _ (dx_a _ _ Hd)) as [Hq1 Hq2].
  pose proof (sl_una _ (proj1 (kw_snd _ (tm_wf _ (dx_a _ _ Hd))))). unfold off in Hoff. rewrite u32_small in Hoff by lia.
  pose proof (dr_nxt _ _ (dx_out _ _ Hd)). destruct Hf as [Hnx Hac]; [lia..|].
  destruct (kw_ack _ (tm_wf _ (dx_b _ _ Hd))) as (acks & [Hcnt _] & _).
  assert (segs2 <> []) as Hne by (apply (em_acks _ _ _ _ _ He2); left; rewrite E2; change (ackcount kb' <> 0); lia).
  destruct segs2 as [|s2 l2]; [done|]. pose proof (em_answers _ _ _ _ _ He2) as Han. apply Forall_cons_1 in Han as [[Ha _] _].
  pose proof (tk_una _ _ _ _ Ht2) as Hun. apply Forall_cons_1 in Hun as [Hun _]. rewrite Ha, E2 in Hun.
  change (rcv_nxt kb' <= snd_una ka'') in Hun. lia.
Qed.

(** Open windows. *)
Lemma open_goes :
  snd_buf ka = [] -> rmt_wnd ka <> 0 -> (nocwnd ka =? 0) && (cwnd ka <? 1) = false -> goes kc.
Proof.
  intros Hb Hr Hw. destruct Hc as (u & t & E). pose proof (una_le_next _ _ Hd (proj1 Hroom)) as Hle.
  destruct (kw_snd _ (tm_wf _ (dx_a _ _ Hd))) as [Hl Hx]. unfold una_exact in Hx. rewrite Hb in Hx.
  pose proof (sl_rmt _ Hl). rewrite E. unfold goes.
  change (match snd_buf ka with
    | s :: _ => 0 <= itimediff (u32 (next_time ka)) (seg_resendts s)
    | [] => snd_queue ka <> [] /\ 1 <= flush_cwnd ka end).
  rewrite Hb. split; [intros Hq; rewrite Hq in Hleft; cbn in Hleft; lia|].
  unfold flush_cwnd. pose proof (imin_spec (snd_wnd ka) (rmt_wnd ka)).
  pose proof (imin_spec (cwnd ka) (imin (snd_wnd ka) (rmt_wnd ka))).
  destruct (nocwnd ka =? 0); [|lia]. cbn [andb] in Hw. zbool. lia.
Qed.

(** A segment in flight is due at the time chosen. *)
Lemma flight_goes : snd_buf ka <> [] -> goes kc.
Proof.
  intros Hb. destruct Hc as (u & t & E). rewrite E. unfold goes.
  change (match snd_buf ka with
    | s :: _ => 0 <= itimediff (u32 (next_time ka)) (seg_resendts s)
    | [] => snd_queue ka <> [] /\ 1 <= flush_cwnd ka end).
  unfold next_time. destruct (snd_buf ka) as [|s l]; [done|]. apply until_due.
Qed.

(** Nothing was sent: the window opens by one step. *)
Lemma exchange_opens : pushes segs = [] -> snd_buf ka = [] -> ~ goes kc -> rank ka'' < rank ka.
Proof.
  intros Hp Hb Hng. destruct Hc as (u & t & E). destruct Hc2 as (u2 & t2 & E2).
  pose proof (tk_first _ _ _ _ Ht) as Hf. rewrite Hp in Hf. apply rcv_part_eq in Hf as (F1 & _ & _ & F4).
  pose proof (cfg_part_wnd _ _ (tk_cfg _ _ _ _ Ht)) as Fw.
  assert (u16 (u32 (ikcp_wnd_unused kc2)) <> 0) as Hwn.
  { rewrite E2. change (u16 (u32 (ikcp_wnd_unused kb')) <> 0). apply unused_room; [apply (tk_meets _ _ _ _ Ht)|]. by rewrite F4, Fw. }
  assert (rmt_wnd ka' = rmt_wnd ka /\ probe_wait kc = probe_wait ka /\ rmt_wnd kc = rmt_wnd ka) as (R1 & R2 & R3)
    by (rewrite (em_rmt _ _ _ _ _ He); by rewrite E).
  assert (segs2 = [] /\ rmt_wnd ka'' = rmt_wnd ka \/ rmt_wnd ka'' <> 0) as Hrw.
  { pose proof (tk_wnd _ _ _ _ Ht2) as Hw. destruct (list.last segs2) as [s2|] eqn:El.
    - right. rewrite Hw. pose proof (em_answers _ _ _ _ _ He2) as Han. rewrite list.Forall_forall in Han.
      destruct (Han s2) as [_ ->]; [|done]. apply last_Some in El as (l & ->). apply elem_of_app. right. apply list_elem_of_here.
    - left. apply last_None in El. split; [done|congruence]. }
  pose proof (tk_idle _ _ _ _ Ht2) as Hid. pose proof (tk_cwnd _ _ _ _ Ht2 (em_cwnd _ _ _ _ _ He)) as Hcw.
  unfold rank at 2. rewrite Hb. destruct (rmt_wnd ka =? 0) eqn:Er; zbool.
  - destruct (probe_wait ka =? 0) eqn:Ep; zbool.
    + destruct (em_wait _ _ _ _ _ He) as [Hw _]; [congruence|left; congruence|].
      pose proof (rank_waiting ka''). assert (probe_wait ka'' = probe_wait ka') as Epw by (unfold idle_part in Hid; congruence).
      rewrite Epw in *. specialize (H Hw). lia.
    + destruct (em_ask _ _ _ _ _ He) as (s & Hs & Hask); [congruence|congruence| |].
      { rewrite E. change (0 <= itimediff (u32 (next_time ka)) (ts_probe ka)). unfold next_time. rewrite Hb, Er.
        rewrite (proj2 (Z.eqb_neq _ _) Ep). apply until_due. }
      assert (segs2 <> []) as Hne.
      { apply (em_acks _ _ _ _ _ He2). right. rewrite E2. change (Z.land (probe kb') IKCP_ASK_TELL <> 0).
        apply (tk_probe _ _ _ _ Ht). right. eauto. }
      destruct Hrw as [[? _]|Hrw]; [done|]. pose proof (rank_open _ Hrw). lia.
  - assert (rmt_wnd ka'' <> 0) as Ho by (destruct Hrw as [[_ ->]|]; done). rewrite (rank_zero _ Ho Hcw).
    destruct ((nocwnd ka =? 0) && (cwnd ka <? 1)) eqn:Ew; [lia|]. exfalso. apply Hng. by apply open_goes.
Qed.

Lemma exchange_progress : measure ka'' < measure ka.
Proof.
  destruct exchange_left as [Hl Hu]. unfold measure. pose proof (rank_range ka''). pose proof (rank_range ka).
  assert (leads kc segs -> 4 * left_over ka'' + rank ka'' < 4 * left_over ka + rank ka) as Hlead.
  { intros H1. apply exchange_leads in H1. lia. }
  destruct (decide (snd_buf ka = [])) as [Hb|Hb]; [|by apply Hlead, (em_first _ _ _ _ _ He), flight_goes].
  assert (snd_buf kc = []) as Hbc by (destruct Hc as (u & t & ->); done).
  destruct (em_empty _ _ _ _ _ He Hbc) as [[Hp _]|H1]; [|auto].
  assert (rank ka'' < rank ka); [|lia]. apply exchange_opens; [done..|].
  intros Hg. apply (em_first _ _ _ _ _ He) in Hg as (s & l & Hs & _). congruence.
Qed.
End Exchange.

(** ** Rounds *)

Section Rounds.
Context (m : mem) (Hm : forall z, mem_ok m z = true) (len : Z).

(** Both sides update and flush once, and everything arrives. *)
Definition exchange (a b : endpoint) : run (endpoint * endpoint) :=
  '(a, b) ← transmit m (next_time (ep_kcp a)) a b;
  '(b, a) ← transmit m (next_time (ep_kcp b)) b a;
  Ok (a, b).

(** [n] round trips; the receiver reads what there is before each and after the
    last. *)
Fixpoint rounds (n : nat) (a b : endpoint) : run (endpoint * endpoint) :=
  b ← read_all m len (ep_out a) b;
  match n with
  | O => Ok (a, b)
  | S n => '(a, b) ← exchange a b; rounds n a b
  end.

(** What the rounds rely on and keep. *)
Record able (a b : endpoint) : Prop := {
  ab_duplex : duplex (ep_kcp a) (ep_kcp b);
  ab_acks : ackcount (ep_kcp a) < 536870912 /\ ackcount (ep_kcp b) < 536870912;
  ab_log : side_log a b /\ side_log b a;
  ab_fits : readable a b /\ Forall (fun msg => zlen msg <= len) (ep_sent a);
  ab_wnd : 1 <= snd_wnd (ep_kcp a) /\ rcv_wnd (ep_kcp b) <= 65535
}.

Lemma exchange_able a b :
  able a b -> ikcp_peeksize (ep_kcp b) < 0 -> ep_got b <> ep_sent a ->
  exists a' b', exchange a b = Ok (a', b') /\ able a' b' /\ ep_sent a' = ep_sent a /\
    measure (ep_kcp a') < measure (ep_kcp a).
Proof.
  intros [Hd [Ha1 Ha2] [Hl1 Hl2] [Hr Hlen] [Hw1 Hw2]] Hpk Hne.
  destruct (unread_cases a b Hd Hl1 Hl2 Hr Hpk) as [|[Hroom Hleft]]; [done|]. unfold exchange.
  destruct (transmit_spec m Hm a b (next_time (ep_kcp a)) Hd) as (a1 & b1 & kc & segs & Htr & Hc & He & Ht & S1 & S2 & L1 & L2);
    [lia|done..|]. rewrite Htr. cbn [mbind run_bind].
  pose proof (ad_duplex _ _ _ (em_adv _ _ _ _ _ He)) as Hd1. apply duplex_sym in Hd1.
  pose proof (ad_duplex _ _ _ (took_duplex _ _ _ _ Hd1 Ht)) as Hd2.
  pose proof (em_ackcount _ _ _ _ _ He) as Ac1. pose proof (tk_count _ _ _ _ Ht) as Ac2. pose proof (em_count _ _ _ _ _ He) as [Cn1 _].
  destruct (transmit_spec m Hm b1 a1 (next_time (ep_kcp b1)) Hd2) as (b2 & a2 & kc2 & segs2 & Htr2 & Hc2 & He2 & Ht2 & S3 & S4 & L3 & L4);
    [lia|done..|]. rewrite Htr2. cbn [mbind run_bind]. exists a2, b2. split; [done|].
  pose proof (ad_duplex _ _ _ (em_adv _ _ _ _ _ He2)) as Hd3. apply duplex_sym in Hd3.
  pose proof (ad_duplex _ _ _ (took_duplex _ _ _ _ Hd3 Ht2)) as Hd4.
  pose proof (em_ackcount _ _ _ _ _ He2) as Ac3. pose proof (tk_count _ _ _ _ Ht2) as Ac4. pose proof (em_count _ _ _ _ _ He2) as [Cn2 _].
  assert (cfg_part kc = cfg_part (ep_kcp a)) as K1 by (destruct Hc as (u & t & ->); done).
  assert (cfg_part kc2 = cfg_part (ep_kcp b1)) as K2 by (destruct Hc2 as (u & t & ->); done).
  assert (cfg_part (ep_kcp a2) = cfg_part (ep_kcp a)) as Ca
    by (rewrite (tk_cfg _ _ _ _ Ht2), (em_cfg _ _ _ _ _ He); done).
  assert (cfg_part (ep_kcp b2) = cfg_part (ep_kcp b)) as Cb
    by (rewrite (em_cfg _ _ _ _ _ He2), K2, (tk_cfg _ _ _ _ Ht); done).
  destruct (cfg_part_output_eq _ _ Ca) as (_ & _ & Cms & Csw & _). pose proof (cfg_part_wnd _ _ Cb) as Crw.
  split; [|split; [congruence|]].
  - constructor; [done|lia|done| |by rewrite Csw, Crw]. unfold readable in *. by rewrite Cms, Crw, S4, S1.
  - by eapply (exchange_progress (ep_kcp a) (ep_kcp b) kc (ep_kcp a1) (ep_kcp b1) kc2 (ep_kcp b2) (ep_kcp a2)); eauto.
Qed.

Lemma measure_nonneg k : tame k -> 0 <= measure k.
Proof. intros Hk. pose proof (rank_range k). pose proof (tm_una _ Hk). unfold measure, left_over. lia. Qed.

Lemma rounds_deliver a b :
  able a b -> 0 <= len < 2147483648 ->
  exists n a' b', Z.of_nat n <= measure (ep_kcp a) /\ rounds n a b = Ok (a', b') /\
    ep_sent a' = ep_sent a /\ ep_got b' = ep_sent a.
Proof.
  intros Hab Hlen. remember (Z.to_nat (measure (ep_kcp a))) as N eqn:EN. revert a b Hab EN.
  induction (lt_wf N) as [N _ IH]. intros a b [Hd [Ha1 Ha2] [Hl1 Hl2] [Hr Hfit] [Hw1 Hw2]] EN.
  pose proof (measure_nonneg _ (dx_a _ _ Hd)) as Hpos.
  destruct (read_all_spec m len a b (duplex_sym _ _ Hd) Hl1 Hl2 Hlen Hfit) as (b1 & Hrd & [R1 [R2 R3] R4 [R5 R6]] & Hpk).
  assert (able a b1) as Hab1.
  { constructor; [by apply duplex_sym, R1|by rewrite R6|done| |by rewrite R5]. unfold readable in *. by rewrite R5. }
  destruct (decide (ep_got b1 = ep_sent a)) as [Hgot|Hgot].
  - exists 0%nat, a, b1. cbn [rounds]. rewrite Hrd. cbn [mbind run_bind]. split_and!; try done; lia.
  - destruct (exchange_able a b1 Hab1 Hpk Hgot) as (a2 & b2 & Hex & Hab2 & Hs & Hmeas).
    pose proof (measure_nonneg _ (dx_a _ _ (ab_duplex _ _ Hab2))).
    destruct (IH (Z.to_nat (measure (ep_kcp a2))) ltac:(lia) a2 b2 Hab2 eq_refl) as (n & a' & b' & Hn & Hrun & Hs' & Hgot').
    exists (S n), a', b'. cbn [rounds]. rewrite Hrd. cbn [mbind run_bind]. rewrite Hex. cbn [mbind run_bind].
    split_and!; try congruence. lia.
Qed.
End Rounds.

(** C4: delivery resumes.  Whatever the network has lost, repeated and reordered so
    far, and whatever the two applications did, from then on let it pass the datagrams
    on: both sides call ikcp_update, at the time the sender's oldest segment or its
    next window probe is due, and ikcp_flush, each datagram is given to ikcp_input of
    the other side, and the receiver reads what there is.  After a number of such
    round trips that is at most four times the number of fragments not yet
    acknowledged, plus three, the receiver has handed out every message the sender
    accepted.  Lost data and lost acknowledgements, a window that was announced as
    closed, a congestion window of zero and acknowledgements out of order all recover.
    (A message must fit the receive window of the peer, which is announced in 16
    bits.) *)
Theorem delivery_resumes m c ka kb s len :
  (forall z, mem_ok m z = true) -> unused c ka -> unused c kb ->
  rtc (steady_step m) (fresh ka, fresh kb) s ->
  readable s.1 s.2 -> Forall (fun msg => zlen msg <= len) (ep_sent s.1) -> 0 <= len < 2147483648 ->
  1 <= snd_wnd (ep_kcp s.1) -> rcv_wnd (ep_kcp s.2) <= 65535 ->
  exists n a b, Z.of_nat n <= 4 * left_over (ep_kcp s.1) + 3 /\ rounds m len n s.1 s.2 = Ok (a, b) /\
    ep_sent a = ep_sent s.1 /\ ep_got b = ep_sent s.1.
Proof.
  intros Hm Ha Hb Hs Hr Hfit Hlen Hw1 Hw2. pose proof (steady_linked m Hm _ _ Hs (unused_linked c _ _ Ha Hb)) as [H1 H2 H3].
  destruct (rounds_deliver m Hm len s.1 s.2) as (n & a & b & Hn & Hrun); [|done|].
  { constructor; try done; apply H1. }
  exists n, a, b. split; [|done]. pose proof (rank_range (ep_kcp s.1)). unfold measure in Hn. lia.
Qed.

(** From the state in which the first and the third datagram were lost. *)
Lemma delivery_resumes_witness :
  left_over (ep_kcp demo_lossy.1) = 4 /\
  exists n a b, Z.of_nat n <= 4 * left_over (ep_kcp demo_lossy.1) + 3 /\
    rounds demo_mem 4096 n demo_lossy.1 demo_lossy.2 = Ok (a, b) /\
    ep_sent a = ep_sent demo_lossy.1 /\ ep_got b = ep_sent demo_lossy.1.
Proof.
  split; [vm_compute; reflexivity|].
  assert (ep_sent demo_lossy.1 = [demo_msg 2000; demo_msg 1500]) as E by (vm_compute; reflexivity).
  apply (delivery_resumes demo_mem 7 demo_open demo_open demo_lossy 4096); [done|exact demo_unused..| | | | | |].
  - apply (steady_run_steps demo_mem demo_lossy_trace). vm_compute. reflexivity.
  - unfold readable. rewrite E. apply Forall_cons; [vm_compute; discriminate|].
    apply Forall_cons; [vm_compute; discriminate|apply Forall_nil_2].
  - rewrite E. apply Forall_cons; [vm_compute; discriminate|]. apply Forall_cons; [vm_compute; discriminate|apply Forall_nil_2].
  - lia.
  - vm_compute. discriminate.
  - vm_compute. discriminate.
Defined.
