(* ===== verification/KcpWireThms.v ===== *)
(** * Theorems: the wire format and packet input

    Round trips of the segment header, the equivalence of the two byte-order
    implementations, the rejection of malformed packets, the acknowledgement of
    every pushed segment, and the limits of the scratch buffer. *)

From stdpp Require Import sorting sets.
From S2P Require Import Prelude Codec KcpState KcpAck KcpRecv KcpSend KcpInput KcpFlush.
From S2P Require Import KcpWire KcpFrames KcpTransfer KcpSystem KcpWf KcpWfSnd KcpFlushSpec KcpSafety.
From S2P Require Import KcpTheorems KcpDataThms.

(** ** The header *)

(** A segment survives the wire.  The header reads of ikcp_input, applied
    to what ikcp_encode_seg wrote followed by any bytes, return every field of the
    segment that fits its width on the wire and leave exactly those bytes. *)
Theorem segment_wire_roundtrip s rest :
  0 <= seg_conv s < 4294967296 -> 0 <= seg_cmd s < 256 -> 0 <= seg_frg s < 256 ->
  0 <= seg_wnd s < 65536 -> 0 <= seg_ts s < 4294967296 -> 0 <= seg_sn s < 4294967296 ->
  0 <= seg_una s < 4294967296 -> 0 <= seg_len s < 4294967296 ->
  ('(c, data) ← ikcp_decode32u (ikcp_encode_seg [] s ++ rest); decode_tail c data)
  = Ok (mkHeader (seg_conv s) (seg_cmd s) (seg_frg s) (seg_wnd s) (seg_ts s) (seg_sn s)
          (seg_una s) (seg_len s), rest) /\
  zlen (ikcp_encode_seg [] s) = IKCP_OVERHEAD /\
  ikcp_get_conv (Some (ikcp_encode_seg [] s ++ rest)) (zlen (ikcp_encode_seg [] s ++ rest)) = Ok (Some (seg_conv s)).
Proof.
  intros H1 H2 H3 H4 H5 H6 H7 H8.
  destruct (decode_encode_seg s rest) as (tail & Hd & _ & Ht). rewrite Hd. cbn [mbind run_bind].
  rewrite Ht. unfold header_of.
  rewrite !u32_small, !u8_small, u16_small by done. rewrite length_encode_seg.
  split; [done|]. split; [done|].
  unfold ikcp_get_conv. rewrite Z_length_app, length_encode_seg. unfold IKCP_OVERHEAD.
  rewrite (proj2 (Z.ltb_ge _ _)) by lia. rewrite Hd. cbn [mbind run_bind]. by rewrite u32_small.
Qed.

(** Byte order.  The shift-based code compiled when IWORDS_BIG_ENDIAN is
    defined writes and reads the same bytes as the plain copies used on
    little-endian machines, so the wire format does not depend on the host. *)
Theorem byte_order_independent p w :
  ikcp_encode16u_big p w = ikcp_encode16u p w /\ ikcp_decode16u_big p = ikcp_decode16u p /\
  ikcp_encode32u_big p w = ikcp_encode32u p w /\ ikcp_decode32u_big p = ikcp_decode32u p.
Proof.
  split; [apply ikcp_encode16u_big_eq|]. split; [apply ikcp_decode16u_big_eq|].
  split; [apply ikcp_encode32u_big_eq|apply ikcp_decode32u_big_eq].
Qed.

(** ** Malformed packets *)

(** The result of ikcp_input for a packet whose first segment is refused. *)
Definition refusal (k : ikcpcb) (data : list byte) : option Z :=
  if zlen data <? IKCP_OVERHEAD then Some 0
  else match '(c, data) ← ikcp_decode32u data; decode_tail c data with
       | Ok (h, rest) =>
           if negb (h_conv h =? conv k) then Some (-1)
           else if zlen rest <? h_len h then Some (-2)
           else if negb (is_cmd (h_cmd h)) then Some (-3)
           else None
       | _ => None
       end.

(** Ikcp_input refuses malformed packets without effect.  A packet shorter
    than a header is ignored; a foreign conversation id gives -1, a length field
    larger than the rest of the packet -2, an unknown command -3; if this
    concerns the first segment, the control block is unchanged. *)
Theorem input_refuses m k data r :
  refusal k data = Some r -> ikcp_input m k (Some data) (zlen data) = Ok (k, r).
Proof.
  unfold refusal, IKCP_OVERHEAD. intros H. unfold ikcp_input. case_if_in H; [by injection H as <-|].
  destruct (decode_header_total data) as (c & tail & h & rest & Hd1 & Hd2 & Hlen & _); [lia|].
  rewrite Hd1 in H. cbn [mbind run_bind] in H. rewrite Hd2 in H.
  assert (h_conv h = c) as Hc.
  { unfold decode_tail in Hd2. repeat (apply run_bind_Ok in Hd2 as ([? ?] & _ & Hd2)).
    by injection Hd2 as <- _. }
  rewrite Hc in H. cbn [input_loop]. unfold IKCP_OVERHEAD. rewrite (proj2 (Z.ltb_ge _ _)) by lia.
  rewrite Hd1. cbn [mbind run_bind].
  case_if_in H; [by injection H as <-|].
  rewrite Hd2. cbn [mbind run_bind]. replace (zlen data - 24) with (zlen rest) by lia.
  case_if_in H; [by injection H as <-|].
  case_if_in H; [by injection H as <-|]. done.
Qed.

(** ** Every pushed segment is acknowledged *)

(** Acknowledgement of PUSH.  Unless it lies beyond the receive window,
    every pushed segment (a duplicate or one already delivered included) appends
    its number and time stamp to the list of pending acknowledgements, which the
    next flush sends; a segment beyond the window is neither acknowledged nor
    stored. *)
Theorem push_acknowledged m k h data acks :
  (forall z, mem_ok m z = true) -> kcp_wf k -> header_ok h -> h_len h <= zlen data ->
  ack_rep acks k -> zlen acks < 2147483647 ->
  exists k', input_push m k h data = Ok k' /\
    if itimediff (h_sn h) (u32 (rcv_nxt k + rcv_wnd k)) <? 0
    then ack_rep (acks ++ [(h_sn h, h_ts h)]) k' /\
      (itimediff (h_sn h) (rcv_nxt k) < 0 -> rcv_part k' = rcv_part k)
    else k' = k.
Proof.
  intros Hm Hk Hh Hle Hrep Hn. unfold input_push. case_if; [|by exists k].
  destruct (ikcp_ack_push_spec m k acks (h_sn h) (h_ts h) Hm Hrep) as (k1 & -> & Hrep1 & Hsame); [lia|].
  cbn [mbind run_bind]. apply same_but_acks_frame in Hsame as (_ & F2 & _ & _).
  assert (rcv_nxt k1 = rcv_nxt k) as Hnx by (unfold rcv_part in F2; by injection F2).
  rewrite Hnx. destruct (_ >=? 0) eqn:E; zbool.
  - destruct (push_seg_sized m Hm h data Hh Hle) as (raw & -> & _ & _).
    rewrite bool_decide_eq_true_2 by done. cbn [c_require mbind run_bind].
    eexists. split; [reflexivity|].
    destruct (parse_data_frame k1 (push_seg raw h data)) as (_ & G2 & _ & _).
    split; [by eapply ack_rep_ext|lia].
  - exists k1. split; [done|]. split; [done|]. intros _. done.
Qed.

(** ** The retransmission time-out *)

(** The estimator of ikcp_update_ack keeps the retransmission time-out
    between the configured minimum (30 or 100 ms) and 60 seconds for every sample,
    even one forged by the peer, and the first sample sets the smoothed round
    trip time. *)
Theorem rto_bounded k rtt :
  kcp_wf k ->
  rx_minrto k <= rx_rto (ikcp_update_ack k rtt) <= IKCP_RTO_MAX /\
  (rx_srtt k = 0 -> rx_srtt (ikcp_update_ack k rtt) = rtt /\
                    rx_rttval (ikcp_update_ack k rtt) = Z.quot rtt 2).
Proof.
  intros Hk. pose proof (cw_minrto _ (kw_cfg _ Hk)). split.
  - apply ikcp_update_ack_bounds. unfold IKCP_RTO_MAX. lia.
  - intros H0. unfold ikcp_update_ack. rewrite H0. done.
Qed.

(** ** Shrinking the MTU *)

(** C35: lowering the MTU below the size of queued segments overruns the
    scratch buffer.  ikcp_setmtu allocates a buffer of 3 * (mtu + 24) bytes but
    leaves the segments already queued as they are: a well-formed control block
    exists whose next flush writes a datagram longer than the new buffer. *)
Theorem setmtu_overrun :
  exists k k1 k2 out p, kcp_wf k /\ ikcp_setmtu demo_mem k 50 = (k1, 0) /\ kcp_wf k1 /\
    ikcp_flush demo_mem k1 = Ok (k2, out) /\ p ∈ out /\ buffer k1 < zlen p.
Proof.
  set (k := ep_kcp (after_calls demo_mem
    [([], Op_nodelay 1 10 2 1); ([], Op_update 100); ([], Op_send (demo_msg 1000))] (fresh demo_open))).
  set (k1 := (ikcp_setmtu demo_mem k 50).1).
  set (res := match ikcp_flush demo_mem k1 with Ok r => r | _ => (k1, []) end).
  exists k, k1, res.1, res.2, (nth 0 res.2 []).
  assert (kcp_wf k) as Hk by (apply after_calls_wf; [done|exact demo_open_wf|reflexivity]).
  split; [done|]. split; [vm_compute; reflexivity|].
  split; [apply (setmtu_wf demo_mem k 50 Hk)|]. split; [vm_compute; reflexivity|].
  split; [|vm_compute; reflexivity].
  apply (list_elem_of_lookup_2 _ 0). vm_compute. reflexivity.
Qed.
