(* ===== verification/ConnectPacket.v ===== *)
(** * Connection set-up packets

    Models src/util/connect_packet.cpp: the text packets that open and close a
    conversation outside KCP, with the printf conversion %u and the atol they are
    built on. *)

From Stdlib Require Strings.String.
Import Strings.String.StringSyntax.
#[local] Delimit Scope string_scope with string.
From S2P Require Import Prelude Codec.

(** ** Decimal numbers *)

(** The character of a digit, and the digit of a character. *)
Definition digit (d : Z) : byte := byte_of (48 + d).
Definition is_digit (b : byte) : bool := (48 <=? byte_val b) && (byte_val b <=? 57).
(** isspace of the C locale. *)
Definition is_space (b : byte) : bool :=
  (byte_val b =? 32) || ((9 <=? byte_val b) && (byte_val b <=? 13)).

(** The conversion %u; [fuel] digits. *)
Fixpoint print_dec (fuel : nat) (n : Z) : list byte :=
  match fuel with
  | O => []
  | S fuel => if n <? 10 then [digit n] else print_dec fuel (n / 10) ++ [digit (n mod 10)]
  end.

(** An unsigned 32-bit number has at most ten digits. *)
Definition print_u32 (n : Z) : list byte := print_dec 10 n.

(** atol reads a buffer up to the first byte that does not belong to the number;
    reading beyond the buffer is undefined, and so is a value outside [long]. *)
Fixpoint atol_digits (acc : Z) (s : list byte) : run Z :=
  match s with
  | [] => Undef
  | b :: s => if is_digit b then atol_digits (acc * 10 + (byte_val b - 48)) s else Ok acc
  end.

Fixpoint atol_skip (s : list byte) : run (list byte) :=
  match s with
  | [] => Undef
  | b :: s' => if is_space b then atol_skip s' else Ok s
  end.

Definition atol (s : list byte) : run Z :=
  s ← atol_skip s;
  v ← (match s with
       | b :: s' =>
           if byte_val b =? 45 then v ← atol_digits 0 s'; Ok (- v)
           else if byte_val b =? 43 then atol_digits 0 s'
           else atol_digits 0 s
       | [] => Undef
       end);
  c_require ((-9223372036854775808 <=? v) && (v <? 9223372036854775808)) ≫= fun _ => Ok v.

(** ** The packets *)

Definition ASIO_KCP_CONNECT_PACKET : list byte := cstr "asio_kcp_connect_package get_conv"%string.
Definition ASIO_KCP_SEND_BACK_CONV_PACKET : list byte :=
  cstr "asio_kcp_connect_back_package get_conv:"%string.
Definition ASIO_KCP_DISCONNECT_PACKET : list byte := cstr "asio_kcp_disconnect_package"%string.

(** sizeof of a string literal counts the NUL. *)
Definition sizeof_lit (s : list byte) : Z := zlen s + 1.

(** memcmp of the first bytes with a literal. *)
Definition starts_with (data lit : list byte) : bool := bool_decide (take (length lit) data = lit).

(** snprintf of "%s %u" into a buffer of 256 bytes, and the std::string made of
    its [n] bytes. *)
Definition snprintf_su (s : list byte) (u : Z) : list byte :=
  let out := s ++ [Byte.x20] ++ print_u32 u in
  let buf := take 255 out ++ [Byte.x00] in
  take (length out) buf.

Definition making_connect_packet : list byte := ASIO_KCP_CONNECT_PACKET ++ [Byte.x00].

Definition is_connect_packet (data : list byte) (len : Z) : bool :=
  (len =? sizeof_lit ASIO_KCP_CONNECT_PACKET) && starts_with data ASIO_KCP_CONNECT_PACKET.

Definition is_send_back_conv_packet (data : list byte) (len : Z) : bool :=
  (len >? sizeof_lit ASIO_KCP_SEND_BACK_CONV_PACKET)
  && starts_with data ASIO_KCP_SEND_BACK_CONV_PACKET.

Definition making_send_back_conv_packet (conv : Z) : list byte :=
  snprintf_su ASIO_KCP_SEND_BACK_CONV_PACKET conv.

(** [data] is the buffer from the packet's first byte to its end. *)
Definition grab_conv_from_send_back_conv_packet (data : list byte) : run Z :=
  v ← atol (drop (Z.to_nat (sizeof_lit ASIO_KCP_SEND_BACK_CONV_PACKET)) data); Ok (u32 v).

Definition making_disconnect_packet (conv : Z) : list byte :=
  snprintf_su ASIO_KCP_DISCONNECT_PACKET conv.

Definition is_disconnect_packet (data : list byte) (len : Z) : bool :=
  (len >? sizeof_lit ASIO_KCP_DISCONNECT_PACKET) && starts_with data ASIO_KCP_DISCONNECT_PACKET.

Definition grab_conv_from_disconnect_packet (data : list byte) : run Z :=
  v ← atol (drop (Z.to_nat (sizeof_lit ASIO_KCP_DISCONNECT_PACKET)) data); Ok (u32 v).

(** ** Printing and reading numbers *)

Lemma digit_val d : 0 <= d < 10 -> byte_val (digit d) = 48 + d.
Proof. intros H. unfold digit. rewrite byte_val_of. apply u8_small. lia. Qed.

Lemma is_digit_digit d : 0 <= d < 10 -> is_digit (digit d) = true.
Proof.
  intros H. unfold is_digit. rewrite digit_val by done.
  apply andb_true_iff. split; apply Z.leb_le; lia.
Qed.

Lemma print_dec_length fuel n : 0 <= n < 10 ^ Z.of_nat fuel ->
  (length (print_dec fuel n) <= fuel)%nat /\ (0 < fuel -> 0 < length (print_dec fuel n))%nat.
Proof.
  revert n. induction fuel as [|fuel IH]; intros n Hn; cbn [print_dec]; [cbn; lia|].
  case_if; [cbn; lia|]. rewrite length_app. cbn [length].
  rewrite Nat2Z.inj_succ, Z.pow_succ_r in Hn by lia.
  destruct (IH (n / 10)) as [? _]; [|lia].
  split; [apply Z.div_pos; lia|apply Z.div_lt_upper_bound; lia].
Qed.

Lemma atol_digits_print fuel n acc t :
  0 <= n < 10 ^ Z.of_nat fuel -> (0 < fuel)%nat ->
  atol_digits acc (print_dec fuel n ++ t)
  = atol_digits (acc * 10 ^ zlen (print_dec fuel n) + n) t.
Proof.
  revert n acc t. induction fuel as [|fuel IH]; intros n acc t Hn Hf; [lia|]. cbn [print_dec].
  rewrite Nat2Z.inj_succ, Z.pow_succ_r in Hn by lia. case_if.
  - cbn [app atol_digits length]. rewrite is_digit_digit, digit_val by lia.
    f_equal. change (10 ^ Z.of_nat 1) with 10. lia.
  - assert (0 < fuel)%nat by (destruct fuel; [change (10 ^ Z.of_nat 0) with 1 in Hn; lia|lia]).
    rewrite <- app_assoc, IH; [|split; [apply Z.div_pos; lia|apply Z.div_lt_upper_bound; lia]|done].
    cbn [app atol_digits]. pose proof (Z.mod_pos_bound n 10 ltac:(lia)).
    rewrite is_digit_digit, digit_val by lia. f_equal.
    rewrite length_app. cbn [length]. rewrite Nat2Z.inj_add, Z.pow_add_r by lia.
    change (10 ^ Z.of_nat 1) with 10. pose proof (Z.div_mod n 10 ltac:(lia)). lia.
Qed.

Lemma print_dec_head fuel n t : 0 <= n < 10 ^ Z.of_nat fuel -> (0 < fuel)%nat ->
  exists d l, print_dec fuel n ++ t = digit d :: l /\ 0 <= d < 10.
Proof.
  revert n t. induction fuel as [|fuel IH]; intros n t Hn Hf; [lia|]. cbn [print_dec].
  rewrite Nat2Z.inj_succ, Z.pow_succ_r in Hn by lia. case_if.
  - exists n, t. split; [done|lia].
  - assert (0 < fuel)%nat by (destruct fuel; [change (10 ^ Z.of_nat 0) with 1 in Hn; lia|lia]).
    rewrite <- app_assoc. apply IH; [|done].
    split; [apply Z.div_pos; lia|apply Z.div_lt_upper_bound; lia].
Qed.

Lemma digit_plain d : 0 <= d < 10 -> is_space (digit d) = false /\ byte_val (digit d) <> 45 /\ byte_val (digit d) <> 43.
Proof.
  intros H. unfold is_space. rewrite digit_val by done. split; [|lia]. apply orb_false_iff.
  split; [apply Z.eqb_neq; lia|]. apply andb_false_iff. right. apply Z.leb_gt. lia.
Qed.

Lemma atol_print_dec fuel n b t :
  0 <= n < 10 ^ Z.of_nat fuel -> (0 < fuel)%nat -> n < 9223372036854775808 -> is_digit b = false ->
  atol (print_dec fuel n ++ b :: t) = Ok n.
Proof.
  intros Hr Hf Hn Hb. unfold atol.
  destruct (print_dec_head fuel n (b :: t) Hr) as (d & l & Hd & Hdr); [lia|].
  destruct (digit_plain d Hdr) as (Hsp & H45 & H43). rewrite Hd. cbn [atol_skip]. rewrite Hsp.
  cbn [mbind run_bind]. rewrite (proj2 (Z.eqb_neq _ 45)), (proj2 (Z.eqb_neq _ 43)) by done.
  rewrite <- Hd, atol_digits_print by (done || lia). cbn [atol_digits]. rewrite Hb, Z.mul_0_l, Z.add_0_l.
  cbn [mbind run_bind]. assert ((-9223372036854775808 <=? n) && (n <? 9223372036854775808) = true) as ->.
  { apply andb_true_iff. split; [apply Z.leb_le|apply Z.ltb_lt]; lia. }
  done.
Qed.

Lemma atol_print n b t : 0 <= n < 4294967296 -> is_digit b = false ->
  atol (print_u32 n ++ b :: t) = Ok n.
Proof. intros Hn Hb. apply atol_print_dec; [change (10 ^ Z.of_nat 10) with 10000000000; lia|lia|lia|done]. Qed.

(** ** The packets are read back *)

Lemma snprintf_su_eq s u : 0 <= u < 4294967296 -> (length s <= 200)%nat ->
  snprintf_su s u = s ++ [Byte.x20] ++ print_u32 u /\ zlen s + 1 < zlen (snprintf_su s u).
Proof.
  intros Hu Hs. unfold snprintf_su, print_u32.
  destruct (print_dec_length 10 u) as [Hp Hp0]; [change (10 ^ Z.of_nat 10) with 10000000000; lia|].
  assert (length (s ++ [Byte.x20] ++ print_dec 10 u) = (length s + 1 + length (print_dec 10 u))%nat) as Hl
    by (rewrite !length_app; cbn; lia).
  rewrite (take_ge (s ++ _) 255) by (rewrite Hl; lia). rewrite take_app_length.
  split; [done|]. rewrite Hl. lia.
Qed.

Lemma starts_with_app s t : starts_with (s ++ t) s = true.
Proof. unfold starts_with. rewrite take_app_length. by rewrite bool_decide_eq_true_2. Qed.

Lemma grab_spec s u b t : 0 <= u < 4294967296 -> (length s <= 200)%nat -> is_digit b = false ->
  (v ← atol (drop (Z.to_nat (sizeof_lit s)) (snprintf_su s u ++ b :: t)); Ok (u32 v)) = Ok u.
Proof.
  intros Hu Hs Hb. destruct (snprintf_su_eq s u Hu Hs) as [-> _].
  unfold sizeof_lit. replace (Z.to_nat (zlen s + 1)) with (length s + 1)%nat by lia.
  rewrite (app_assoc s [Byte.x20]), <- app_assoc. rewrite drop_app_length' by (rewrite length_app; cbn; lia).
  rewrite atol_print by done. cbn [mbind run_bind]. by rewrite u32_small.
Qed.

(** C37: the handshake packets round trip.  Each packet is recognised by its own
    test at its own length and by neither of the other two, and the conversation
    id read from a send-back or disconnect packet, followed in the buffer by any
    byte that is not a digit (such as the NUL), is the one it was made with. *)
Theorem connect_packets_roundtrip conv b t :
  0 <= conv < 4294967296 -> is_digit b = false ->
  let c := making_connect_packet in
  let s := making_send_back_conv_packet conv in
  let d := making_disconnect_packet conv in
  is_connect_packet c (zlen c) = true /\ is_send_back_conv_packet s (zlen s) = true /\
  is_disconnect_packet d (zlen d) = true /\
  is_send_back_conv_packet c (zlen c) = false /\ is_disconnect_packet c (zlen c) = false /\
  is_connect_packet s (zlen s) = false /\ is_disconnect_packet s (zlen s) = false /\
  is_connect_packet d (zlen d) = false /\ is_send_back_conv_packet d (zlen d) = false /\
  grab_conv_from_send_back_conv_packet (s ++ b :: t) = Ok conv /\
  grab_conv_from_disconnect_packet (d ++ b :: t) = Ok conv.
Proof.
  intros Hc Hb. cbv zeta.
  destruct (snprintf_su_eq ASIO_KCP_SEND_BACK_CONV_PACKET conv Hc) as [Hs Hsl]; [cbn; lia|].
  destruct (snprintf_su_eq ASIO_KCP_DISCONNECT_PACKET conv Hc) as [Hd Hdl]; [cbn; lia|].
  fold (making_send_back_conv_packet conv) in Hs, Hsl. fold (making_disconnect_packet conv) in Hd, Hdl.
  split; [reflexivity|]. split.
  { unfold is_send_back_conv_packet, sizeof_lit. apply andb_true_iff. split; [by apply Z.gtb_lt|].
    rewrite Hs. apply starts_with_app. }
  split.
  { unfold is_disconnect_packet, sizeof_lit. apply andb_true_iff. split; [by apply Z.gtb_lt|].
    rewrite Hd. apply starts_with_app. }
  split; [reflexivity|]. split; [reflexivity|].
  split; [rewrite Hs; apply andb_false_intro2; reflexivity|].
  split; [rewrite Hs; apply andb_false_intro2; reflexivity|].
  split; [rewrite Hd; apply andb_false_intro2; reflexivity|].
  split; [rewrite Hd; apply andb_false_intro2; reflexivity|].
  split; apply grab_spec; done || (cbn; lia).
Qed.

Lemma connect_packets_roundtrip_witness :
  let c := making_connect_packet in
  let s := making_send_back_conv_packet 1001 in
  let d := making_disconnect_packet 1001 in
  is_connect_packet c (zlen c) = true /\ is_send_back_conv_packet s (zlen s) = true /\
  is_disconnect_packet d (zlen d) = true /\
  is_send_back_conv_packet c (zlen c) = false /\ is_disconnect_packet c (zlen c) = false /\
  is_connect_packet s (zlen s) = false /\ is_disconnect_packet s (zlen s) = false /\
  is_connect_packet d (zlen d) = false /\ is_send_back_conv_packet d (zlen d) = false /\
  grab_conv_from_send_back_conv_packet (s ++ [Byte.x00]) = Ok 1001 /\
  grab_conv_from_disconnect_packet (d ++ [Byte.x00]) = Ok 1001.
Proof.
  apply (connect_packets_roundtrip 1001 Byte.x00 []).
  - split; [discriminate|reflexivity].
  - reflexivity.
Defined.
