(* ===== verification/SessionLink.v ===== *)
(** * One endpoint of a session

    The calls the server and the client libraries make on a control block (ikcp_send,
    ikcp_recv, ikcp_input and ikcp_update of src/util/ikcp.c), as steps of one of two
    [linked] endpoints, with the messages and the datagrams they add; and what tells
    the datagrams of a conversation from everything else that may reach its port. *)

From Stdlib Require Strings.String.
Import Strings.String.StringSyntax.
#[local] Delimit Scope string_scope with string.
From S2P Require Import Prelude Codec KcpState KcpAck KcpRecv KcpSend KcpInput KcpFlush.
From S2P Require Import KcpWire KcpFrames KcpTransfer KcpTransferSteps KcpSystem KcpWf KcpWfSnd KcpFlushSpec KcpSafety.
From S2P Require Import KcpTheorems KcpSession KcpDataThms KcpLink KcpTimerThms KcpHeld KcpDuplex ConnectPacket.

(** ** The calls *)

(** What no call changes. *)
Definition keeps (k k' : ikcpcb) : Prop :=
  conv k' = conv k /\ mss k' = mss k /\ mtu k' = mtu k /\ rcv_wnd k' = rcv_wnd k.

Lemma keeps_trans k1 k2 k3 : keeps k1 k2 -> keeps k2 k3 -> keeps k1 k3.
Proof. intros (? & ? & ? & ?) (? & ? & ? & ?). split_and!; congruence. Qed.

Lemma keeps_cfg k k' : cfg_part k' = cfg_part k -> keeps k k'.
Proof. intros H. destruct (cfg_part_output_eq _ _ H) as (_ & ? & ? & _). split_and!; auto using cfg_part_conv, cfg_part_wnd. Qed.

(** ikcp_send accepts messages of at most 255 fragments. *)
Definition accepted (mss : Z) (msg : list byte) : bool := frag_count (zlen msg) mss <=? 255.

(** Acknowledgements waiting: far below the range of [int]. *)
Definition calm (k : ikcpcb) : bool := ackcount k <? 268435456.

Section Calls.
Context (m : mem) (Hm : forall z, mem_ok m z = true).
Implicit Types (a b : endpoint) (k : ikcpcb).

Lemma duplex_modest k y e :
  duplex k y -> ep_kcp e = k -> ackcount k < 536870912 -> modest e = true.
Proof.
  intros Hd He Ha. unfold modest. rewrite He. apply andb_true_iff.
  split; apply Z.ltb_lt; [apply (tm_max _ (dx_a _ _ Hd))|done].
Qed.

Lemma turn_send a b msg k' r :
  linked a b -> zlen msg < 2147483648 -> calm (ep_kcp a) = true ->
  (accepted (mss (ep_kcp a)) msg = true -> zlen (concat (sent_log a)) + frag_count (zlen msg) (mss (ep_kcp a)) < half) ->
  ikcp_send m (ep_kcp a) (Some msg) (zlen msg) = Ok (k', r) ->
  linked (mkEnd k' (ep_sent a ++ (if accepted (mss (ep_kcp a)) msg then [msg] else [])) (ep_got a) (ep_out a)) b /\
  keeps (ep_kcp a) k' /\ ackcount k' = ackcount (ep_kcp a).
Proof.
  intros Hl Hb Hc Hmax H. pose proof (so_duplex _ _ (ln_ok _ _ Hl)) as Hd. pose proof (tm_wf _ (dx_a _ _ Hd)) as Hk.
  pose proof (log_length _ _ (ei_snd _ _ _ _ (sd_end _ _ _ _ (ln_log _ _ Hl)))) as Hlog.
  destruct a as [k sent got out]. cbn [ep_kcp ep_sent ep_got ep_out] in *.
  pose proof (send_ackcount _ _ _ _ _ _ H) as Ha. pose proof (kcp_wf_mss _ Hk).
  assert (keeps k k' /\ r = (if accepted (mss k) msg then 0 else -2) /\
    snd_nxt k' + zlen (snd_queue k') < half) as (Hkp & -> & Hn).
  { unfold accepted in *. destruct (frag_count (zlen msg) (mss k) <=? 255) eqn:E; zbool.
    - destruct (send_ok m k msg Hm Hk Hb E) as (segs & Heq & Hf & _). rewrite Heq in H.
      apply Ok_inj in H as [= -> ->]. split; [done|]. split; [done|]. cbn. rewrite Z_length_app.
      apply (f_equal length) in Hf. rewrite length_fmap, length_fragments in Hf.
      assert (0 <= frag_count (zlen msg) (mss k)) by (unfold frag_count; lia). specialize (Hmax eq_refl). lia.
    - rewrite send_too_many in H by (done || lia). apply Ok_inj in H as [= -> ->].
      split; [done|]. split; [done|]. apply (tm_max _ (dx_a _ _ Hd)). }
  split; [|done]. unfold calm in Hc. zbool.
  eapply (exec_linked m Hm _ b (Op_send msg)); [exact Hl|done| |].
  - cbn [exec]. rewrite (proj2 (Z.ltb_lt _ _) Hb). cbn [c_require mbind run_bind]. rewrite H. cbn [mbind run_bind].
    destruct (accepted (mss k) msg); cbn [Z.ltb Z.compare]; by rewrite ?app_nil_r.
  - unfold modest. cbn [ep_kcp]. apply andb_true_iff. split; apply Z.ltb_lt; lia.
Qed.

Lemma turn_recv a b n k' out r :
  linked a b -> ackcount (ep_kcp a) < 536870912 -> 0 <= n < 2147483648 ->
  ikcp_recv (ep_kcp a) true n = Ok (k', out, r) ->
  linked (mkEnd k' (ep_sent a) (ep_got a ++ (if r <? 0 then [] else [out])) (ep_out a)) b /\
  keeps (ep_kcp a) k' /\ ackcount k' = ackcount (ep_kcp a) /\ (0 <= r -> r = zlen out).
Proof.
  intros Hl Hc Hn H. pose proof (so_duplex _ _ (ln_ok _ _ Hl)) as Hd.
  pose proof (ln_peer _ _ Hl) as Hp. pose proof (ln_log _ _ Hl) as Ho.
  destruct a as [k sent got outs]. cbn [ep_kcp ep_sent ep_got ep_out] in *.
  destruct (recv_clk _ _ _ _ _ _ H) as (Ha & _). apply ack_part_count in Ha.
  destruct (recv_frame _ _ _ _ _ _ H) as [_ Hcf]. split; [|split; [by apply keeps_cfg|split; [done|]]].
  - pose proof (ad_duplex _ _ _ (recv_duplex _ _ _ _ _ _ Hd H)) as Hd'.
    eapply (exec_linked m Hm _ b (Op_recv n)); [exact Hl|done| |].
    + cbn [exec]. rewrite i32_small by lia. rewrite H. cbn [mbind run_bind].
      rewrite (proj2 (Z.ltb_ge n 0)) by lia. rewrite orb_false_r. by destruct (r <? 0); rewrite ?app_nil_r.
    + apply (duplex_modest k' (ep_kcp b)); [done|done|lia].
  - destruct Ho as [_ _ _ _ [_ Hr Hcfg] _].
    destruct (recv_spec (sent_log b) (ep_sent b) (length got) k n k' out r) as [[_ ?]|(msg & _ & -> & -> & _)];
      [apply Hp|apply Hp|done|done|done|lia|done].
Qed.

Lemma turn_input a b p k' r :
  linked a b -> ackcount (ep_kcp a) + zlen p < 536870912 -> p ∈ ep_out b ->
  ikcp_input m (ep_kcp a) (Some p) (zlen p) = Ok (k', r) ->
  linked (mkEnd k' (ep_sent a) (ep_got a) (ep_out a)) b /\
  keeps (ep_kcp a) k' /\ ackcount k' <= ackcount (ep_kcp a) + zlen p.
Proof.
  intros Hl Hc Hp H. pose proof (so_duplex _ _ (ln_ok _ _ Hl)) as Hd. pose proof (tm_wf _ (dx_a _ _ Hd)) as Hk.
  pose proof (so_out_b _ _ (ln_ok _ _ Hl)) as Hob. rewrite list.Forall_forall in Hob. specialize (Hob _ Hp).
  destruct a as [k sent got outs]. cbn [ep_kcp ep_sent ep_got ep_out] in *.
  destruct (input_wf m k p Hm Hk) as (k2 & r2 & E & _ & _ & Ha); [lia|].
  rewrite H in E. apply Ok_inj in E as [= -> ->].
  split; [|split; [eapply keeps_cfg, input_cfg; exact H|lia]].
  pose proof (ad_duplex _ _ _ (input_duplex m Hm k (ep_kcp b) p k' r Hd Hob ltac:(lia) H)) as Hd'.
  apply list_elem_of_lookup in Hp as [i Hi].
  eapply (exec_linked m Hm _ b (Op_input i)); [exact Hl|done| |].
  - cbn [exec]. rewrite Hi, H. done.
  - apply (duplex_modest k' (ep_kcp b)); [done|done|lia].
Qed.

Lemma turn_update a b now k' out :
  linked a b -> ackcount (ep_kcp a) < 536870912 -> ikcp_update m (ep_kcp a) (u32 now) = Ok (k', out) ->
  linked (mkEnd k' (ep_sent a) (ep_got a) (ep_out a ++ out)) b /\
  keeps (ep_kcp a) k' /\ ackcount k' <= ackcount (ep_kcp a).
Proof.
  intros Hl Hc H. pose proof (so_duplex _ _ (ln_ok _ _ Hl)) as Hd. pose proof (tm_wf _ (dx_a _ _ Hd)) as Hk.
  destruct a as [k sent got outs]. cbn [ep_kcp ep_sent ep_got ep_out] in *.
  destruct (update_conv m k (u32 now) k' out Hk H) as [Hcf Ha].
  split; [|split; [by apply keeps_cfg|done]].
  destruct (update_duplex m k (ep_kcp b) (u32 now) k' out Hd H) as [Hd' _].
  eapply (exec_linked m Hm _ b (Op_update now)); [exact Hl|done| |].
  - cbn [exec]. by rewrite H.
  - apply (duplex_modest k' (ep_kcp b)); [apply Hd'|done|lia].
Qed.
End Calls.

(** ** Whose datagram it is *)

Lemma decode32u_bytes b0 b1 b2 b3 l : ikcp_decode32u (b0 :: b1 :: b2 :: b3 :: l) = Ok (load_le [b0; b1; b2; b3], l).
Proof. reflexivity. Qed.

(** The datagram starts like a segment of conversation [cv]. *)
Definition speaks (cv : Z) (d : list byte) : bool :=
  (24 <=? zlen d) &&
  match ikcp_decode32u d with
  | Ok (c, b :: _) => (c =? cv) && is_cmd (byte_val b)
  | _ => false
  end.

(** Everything else is ignored by ikcp_input. *)
Lemma input_foreign m k d k' r :
  speaks (conv k) d = false -> ikcp_input m k (Some d) (zlen d) = Ok (k', r) -> k' = k.
Proof.
  unfold speaks, ikcp_input. intros Hs H. destruct (zlen d <? 24) eqn:E; [by apply Ok_inj in H as [= -> _]|]. zbool.
  rewrite (proj2 (Z.leb_le 24 _)) in Hs by lia. cbn [andb] in Hs.
  apply run_bind_Ok in H as ([k1 ret] & Hi & H). cbn [input_loop] in Hi. unfold IKCP_OVERHEAD in Hi.
  rewrite (proj2 (Z.ltb_ge _ _) E) in Hi.
  destruct (decode_header_total d) as (c & tail & h & rest & Hc & Ht & _); [lia|]. rewrite Hc in Hi, Hs.
  cbn [mbind run_bind] in Hi.
  destruct (c =? conv k) eqn:Ec; cbn [negb] in Hi; [|apply Ok_inj in Hi as [= -> ->]; by apply Ok_inj in H as [= -> _]].
  rewrite Ht in Hi. cbn [mbind run_bind] in Hi. case_if_in Hi; [apply Ok_inj in Hi as [= -> ->]; by apply Ok_inj in H as [= -> _]|].
  assert (is_cmd (h_cmd h) = false) as Hcmd.
  { unfold decode_tail in Ht. apply run_bind_Ok in Ht as ([cmd t1] & H1 & Ht). destruct tail as [|b tail]; [done|].
    rewrite <- (byte_of_val b), ikcp_decode8u_cons, u8_small in H1 by apply byte_val_range. apply Ok_inj in H1 as [= -> ->].
    do 6 apply run_bind_Ok in Ht as ([? ?] & _ & Ht). apply Ok_inj in Ht as [= -> _]. exact Hs. }
  rewrite Hcmd in Hi. cbn [negb] in Hi. apply Ok_inj in Hi as [= -> ->]. by apply Ok_inj in H as [= -> _].
Qed.

Lemma stream_speaks cv s segs : 0 <= cv < 4294967296 -> wire_seg cv s -> speaks cv (stream (s :: segs)) = true.
Proof.
  intros Hc (Hcv & Hcmd & _). unfold speaks. apply andb_true_iff. split.
  - apply Z.leb_le. pose proof (length_stream (s :: segs)). cbn [length] in *. lia.
  - unfold stream. rewrite fmap_cons. cbn [concat]. unfold wire, ikcp_encode_seg, ikcp_encode32u, ikcp_encode16u, ikcp_encode8u.
    rewrite <- !app_assoc. cbn [app]. rewrite ikcp_decode32u_app. cbn [app]. rewrite Hcv, u32_small, Z.eqb_refl by done.
    rewrite byte_val_of, u8_u8, is_cmd_u8 by done. exact Hcmd.
Qed.

(** The datagrams of an endpoint. *)
Lemma datagram_speaks k p : 0 <= conv k < 4294967296 -> datagram k p -> speaks (conv k) p = true.
Proof.
  intros Hc (segs & -> & Hne & _ & Hs). destruct segs as [|s segs]; [done|].
  apply Forall_cons_1 in Hs as [Hs _]. by apply stream_speaks; [|apply Hs].
Qed.

(** The text packets begin with these characters; the fifth is no command. *)
Lemma text_silent cv d lit : starts_with d (cstr "asio_"%string ++ lit) = true -> speaks cv d = false.
Proof.
  unfold starts_with. intros H%bool_decide_eq_true. rewrite <- (take_drop (length (cstr "asio_"%string ++ lit)) d), H.
  unfold speaks. apply andb_false_iff. right. cbn [cstr app].
  cbn -[ikcp_decode32u]. rewrite decode32u_bytes. apply andb_false_r.
Qed.

Lemma speaks_no_text cv d : speaks cv d = true ->
  is_connect_packet d (zlen d) = false /\ is_disconnect_packet d (zlen d) = false /\
  is_send_back_conv_packet d (zlen d) = false.
Proof.
  intros H.
  assert (forall lit, starts_with d (cstr "asio_"%string ++ lit) = false) as Hn.
  { intros lit. destruct (starts_with d _) eqn:E; [|done]. by rewrite (text_silent cv d lit E) in H. }
  unfold is_connect_packet, is_disconnect_packet, is_send_back_conv_packet. split_and!; apply andb_false_intro2.
  - apply (Hn (cstr "kcp_connect_package get_conv"%string)).
  - apply (Hn (cstr "kcp_disconnect_package"%string)).
  - apply (Hn (cstr "kcp_connect_back_package get_conv:"%string)).
Qed.

Lemma connect_silent cv : speaks cv making_connect_packet = false.
Proof. by apply (text_silent cv _ (cstr "kcp_connect_package get_conv"%string)). Qed.

(** A longer buffer than a datagram needs does not change whose it is. *)
Lemma speaks_take cv n d : (24 <= n)%nat -> speaks cv (take n d) = speaks cv d.
Proof.
  intros Hn. unfold speaks. f_equal.
  - rewrite length_take. destruct (24 <=? zlen d) eqn:E; zbool; [apply Z.leb_le|apply Z.leb_gt]; lia.
  - destruct n as [|[|[|[|[|n]]]]]; [lia..|]. destruct d as [|? [|? [|? [|? [|? d]]]]]; [done..|].
    cbn [take]. by rewrite !decode32u_bytes.
Qed.

(** ** A control block as the libraries open it *)

Definition session_mss : Z := IKCP_MTU_DEF - IKCP_OVERHEAD.

Lemma open_unused m c i k :
  open_kcp m c i = Some k -> 0 <= c < 4294967296 -> unused c k /\ mss k = session_mss /\ mtu k = IKCP_MTU_DEF /\ rcv_wnd k = IKCP_WND_RCV.
Proof.
  unfold open_kcp. intros H Hc. destruct (ikcp_create m c 0) as [k0|] eqn:E; [|done]. apply (inj Some) in H. subst k.
  pose proof (create_wf m c 0 k0 E) as Hwf. unfold ikcp_create in E.
  repeat case_if_in E; try done. apply (inj Some) in E. subst k0.
  match goal with |- context [ikcp_nodelay ?x 1 i 1 1] => set (k1 := x) end.
  assert (kcp_wf k1) as Hk1 by (by apply output_wf).
  pose proof (nodelay_wf k1 1 i 1 1 Hk1) as Hk.
  destruct (nodelay_frame k1 1 i 1 1) as (Hs & Hr & Hms & Hwd & Hmt & _). cbv zeta in *.
  split; [|by rewrite Hms, Hmt, Hwd].
  apply snd_part_eq in Hs as (S1 & S2 & S3). apply rcv_part_eq in Hr as (R1 & R2 & R3 & R4).
  assert (conv (ikcp_nodelay k1 1 i 1 1).1 = c /\ snd_una (ikcp_nodelay k1 1 i 1 1).1 = 0 /\
    ackcount (ikcp_nodelay k1 1 i 1 1).1 = 0 /\ output (ikcp_nodelay k1 1 i 1 1).1 = true) as (E1 & E2 & E3 & E4).
  { unfold ikcp_nodelay. cbn [fst]. split_and!; frame_cases. }
  constructor; rewrite ?S1, ?S2, ?S3, ?R1, ?R2, ?R3, ?R4; try done. by rewrite Hmt.
Qed.
