(* ===== verification/StdString.v ===== *)
(** * std::string

    The members of std::string and the conversions of <string> and <cstdlib> that
    the programs of the repository use on text, with the lemmas that relate
    searching, cutting and reading numbers to the way texts are put together. *)

From S2P Require Import Prelude Codec ConnectPacket.

(** ** Searching and cutting *)

(** [s] begins with [needle]. *)
Definition begins (needle s : list byte) : bool := bool_decide (take (length needle) s = needle).

(** find(needle): the first position, [None] for npos. *)
Fixpoint find (needle s : list byte) : option nat :=
  if begins needle s then Some 0%nat
  else match s with [] => None | _ :: s => S <$> find needle s end.

(** find(needle, pos). *)
Definition find_from (needle s : list byte) (pos : nat) : option nat :=
  if (pos <=? length s)%nat then Nat.add pos <$> find needle (drop pos s) else None.

(** substr(pos, count) throws std::out_of_range beyond the end. *)
Definition substr (s : list byte) (pos : nat) (count : option nat) : run (list byte) :=
  if (pos <=? length s)%nat then
    Ok (match count with Some n => take n (drop pos s) | None => drop pos s end)
  else Abort.

(** resize(n, c). *)
Definition str_resize (s : list byte) (n : nat) (c : byte) : list byte := resize n c s.

(** ** Numbers *)

(** The digits a string begins with: their value, and how many there are. *)
Fixpoint lead_digits (acc : Z) (s : list byte) : Z * nat :=
  match s with
  | b :: s => if is_digit b then let '(v, n) := lead_digits (acc * 10 + (byte_val b - 48)) s in (v, S n) else (acc, 0%nat)
  | [] => (acc, 0%nat)
  end.

Fixpoint skip_spaces (s : list byte) : list byte :=
  match s with b :: s' => if is_space b then skip_spaces s' else s | [] => [] end.

(** std::stoi throws without digits and when the value does not fit. *)
Definition stoi (s : list byte) : run Z :=
  let s := skip_spaces s in
  let '(neg, s) :=
    match s with
    | b :: s' => if byte_val b =? 45 then (true, s') else if byte_val b =? 43 then (false, s') else (false, s)
    | [] => (false, [])
    end in
  let '(v, n) := lead_digits 0 s in
  let v := if neg : bool then - v else v in
  if (n =? 0)%nat then Abort
  else if (-2147483648 <=? v) && (v <? 2147483648) then Ok v else Abort.

(** std::atoll of the characters of a string and their terminating NUL. *)
Definition atoll (s : list byte) : run Z := atol (s ++ [Byte.x00]).

(** std::to_string and << of an unsigned number. *)
Definition to_string (n : Z) : list byte := print_dec 20 n.

(** ** Searching in composed texts *)

Lemma begins_app s t : begins s (s ++ t) = true.
Proof. unfold begins. rewrite take_app_length. by rewrite bool_decide_eq_true_2. Qed.

Lemma begins_other c needle a s : a <> c -> begins (c :: needle) (a :: s) = false.
Proof. intros Hne. unfold begins. apply bool_decide_eq_false_2. cbn. intros [= ->]. done. Qed.

(** A needle is found behind a text without its first character. *)
Lemma find_behind c needle a t :
  c ∉ a -> find (c :: needle) (a ++ (c :: needle) ++ t) = Some (length a).
Proof.
  induction a as [|x a IH]; intros Hc.
  - pose proof (begins_app (c :: needle) t) as Hb. cbn [app] in *. cbn [find]. by rewrite Hb.
  - apply not_elem_of_cons in Hc as [Hx Hc]. cbn [app find]. rewrite begins_other by congruence.
    cbn [app] in IH. by rewrite IH.
Qed.

Lemma find_absent c needle s : c ∉ s -> find (c :: needle) s = None.
Proof.
  induction s as [|x s IH]; intros Hc; [done|]. apply not_elem_of_cons in Hc as [Hx Hc].
  cbn [find]. rewrite begins_other by congruence. by rewrite IH.
Qed.

Lemma find_here needle t : find needle (needle ++ t) = Some 0%nat.
Proof.
  pose proof (begins_app needle t) as Hb. destruct needle as [|c n]; [by destruct t|]. cbn [app find] in *. by rewrite Hb.
Qed.

(** Searching from a position that ends a known part. *)
Lemma find_from_app needle p s n : n = length p ->
  find_from needle (p ++ s) n = Nat.add n <$> find needle s.
Proof.
  intros ->. unfold find_from. rewrite (proj2 (Nat.leb_le _ _)) by (rewrite length_app; lia).
  by rewrite drop_app_length.
Qed.

Lemma substr_middle p a t n k : n = length p -> k = length a ->
  substr (p ++ a ++ t) n (Some k) = Ok a.
Proof.
  intros -> ->. unfold substr. rewrite (proj2 (Nat.leb_le _ _)) by (rewrite length_app; lia).
  by rewrite drop_app_length, take_app_length.
Qed.

Lemma substr_end p a n : n = length p -> substr (p ++ a) n None = Ok a.
Proof.
  intros ->. unfold substr. rewrite (proj2 (Nat.leb_le _ _)) by (rewrite length_app; lia).
  by rewrite drop_app_length.
Qed.

(** ** Numbers printed and read *)

Lemma print_dec_digits fuel n : 0 <= n -> Forall (fun b => is_digit b = true) (print_dec fuel n).
Proof.
  revert n. induction fuel as [|fuel IH]; intros n Hn; cbn [print_dec]; [done|]. case_if.
  - constructor; [|done]. apply is_digit_digit. lia.
  - apply Forall_app. split; [apply IH, Z.div_pos; lia|]. constructor; [|done].
    apply is_digit_digit, Z.mod_pos_bound. lia.
Qed.

Lemma not_digit_notin b l : Forall (fun b => is_digit b = true) l -> is_digit b = false -> b ∉ l.
Proof. intros Hl Hb Hin. rewrite list.Forall_forall in Hl. specialize (Hl b Hin). congruence. Qed.

(** What follows a number ends it. *)
Definition ends_number (t : list byte) : Prop := match t with b :: _ => is_digit b = false | [] => True end.

Definition dec_value (acc : Z) (l : list byte) : Z := foldl (fun a b => a * 10 + (byte_val b - 48)) acc l.

Lemma lead_digits_app l acc t : Forall (fun b => is_digit b = true) l -> ends_number t ->
  lead_digits acc (l ++ t) = (dec_value acc l, length l).
Proof.
  revert acc. induction l as [|b l IH]; intros acc Hl Ht.
  - destruct t as [|b t]; [done|]. cbn in *. by rewrite Ht.
  - apply Forall_cons_1 in Hl as [Hb Hl]. cbn [app lead_digits]. rewrite Hb, IH by done. done.
Qed.

Lemma dec_value_print fuel n acc : 0 <= n < 10 ^ Z.of_nat fuel -> (0 < fuel)%nat ->
  dec_value acc (print_dec fuel n) = acc * 10 ^ zlen (print_dec fuel n) + n.
Proof.
  revert n acc. induction fuel as [|fuel IH]; intros n acc Hn Hf; [lia|]. cbn [print_dec].
  rewrite Nat2Z.inj_succ, Z.pow_succ_r in Hn by lia. case_if.
  - unfold dec_value. cbn [foldl length]. rewrite digit_val by lia. change (10 ^ Z.of_nat 1) with 10. lia.
  - assert (0 < fuel)%nat by (destruct fuel; [change (10 ^ Z.of_nat 0) with 1 in Hn; lia|lia]).
    unfold dec_value in *. rewrite foldl_app, IH; [|split; [apply Z.div_pos; lia|apply Z.div_lt_upper_bound; lia]|done].
    cbn [foldl]. pose proof (Z.mod_pos_bound n 10 ltac:(lia)). rewrite digit_val by lia.
    rewrite length_app. cbn [length]. rewrite Nat2Z.inj_add, Z.pow_add_r by lia.
    change (10 ^ Z.of_nat 1) with 10. pose proof (Z.div_mod n 10 ltac:(lia)). lia.
Qed.

(** stoi reads back the number that was printed; one that does not fit an [int]
    makes it throw. *)
Lemma stoi_print fuel n t :
  0 <= n < 10 ^ Z.of_nat fuel -> (0 < fuel)%nat -> ends_number t ->
  stoi (print_dec fuel n ++ t) = if n <? 2147483648 then Ok n else Abort.
Proof.
  intros Hn Hf Ht. unfold stoi. destruct (print_dec_head fuel n t Hn Hf) as (d & l & Hd & Hdr).
  destruct (digit_plain d Hdr) as (Hsp & H45 & H43).
  assert (skip_spaces (print_dec fuel n ++ t) = print_dec fuel n ++ t) as ->.
  { rewrite Hd. cbn. by rewrite Hsp. }
  rewrite Hd, (proj2 (Z.eqb_neq _ 45)), (proj2 (Z.eqb_neq _ 43)) by done. rewrite <- Hd.
  rewrite lead_digits_app by (done || apply print_dec_digits; lia).
  rewrite dec_value_print, Z.mul_0_l, Z.add_0_l by done.
  destruct (print_dec_length fuel n Hn) as [_ Hpos]. rewrite (proj2 (Nat.eqb_neq _ _)) by (specialize (Hpos Hf); lia).
  rewrite (proj2 (Z.leb_le (-2147483648) n)) by lia. done.
Qed.

Lemma atoll_print fuel n t :
  0 <= n < 10 ^ Z.of_nat fuel -> (0 < fuel)%nat -> n < 9223372036854775808 -> ends_number t ->
  atoll (print_dec fuel n ++ t) = Ok n.
Proof.
  intros Hn Hf Hlt Ht. unfold atoll. rewrite <- app_assoc. destruct t as [|b t]; cbn [app] in *.
  - by apply atol_print_dec.
  - by apply atol_print_dec.
Qed.
