(* ===== verification/Clock.v ===== *)
(** * Clocks, timers and sleeping

    Models src/client_lib/kcp_client_util.cpp (the millisecond clock and
    millisecond_sleep), the same clock of src/server_lib/connection_manager.cpp and
    of the example client, and src/essential/utility/timer.hpp.  What gettimeofday,
    std::chrono and nanosleep answer are arguments. *)

From S2P Require Import Prelude.

(** ** The millisecond clock *)

(** struct timeval; both members are [long]. *)
Record timeval := mkTimeval { t_sec : Z; t_usec : Z }.

(** [now] is what gettimeofday stores; a null pointer is not written through. *)
Definition itimeofday (now : timeval) (sec usec : bool) : option Z * option Z :=
  (if sec then Some (t_sec now) else None, if usec then Some (t_usec now) else None).

Definition iclock64 (now : timeval) : Z :=
  match itimeofday now true true with
  | (Some s, Some u) => u64 (u64 s * 1000 + u64 (Z.quot u 1000))
  | _ => 0
  end.

Definition iclock (now : timeval) : Z := u32 (Z.land (iclock64 now) 4294967295).

(** What the kernel answers: a normalised time, before the year 292 million. *)
Definition time_ok (t : timeval) : Prop := 0 <= t_sec t < 9223372036854775 /\ 0 <= t_usec t < 1000000.

(** The milliseconds since the epoch. *)
Definition millis (t : timeval) : Z := (t_sec t * 1000000 + t_usec t) / 1000.

Lemma iclock64_millis t : time_ok t -> iclock64 t = millis t.
Proof.
  intros [Hs Hu]. unfold iclock64, itimeofday, millis. rewrite Z.quot_div_nonneg by lia.
  assert (0 <= t_usec t / 1000 < 1000) by (split; [apply Z.div_pos; lia|apply Z.div_lt_upper_bound; lia]).
  rewrite (u64_small (t_sec t)), (u64_small (t_usec t / 1000)), u64_small by lia.
  replace (t_sec t * 1000000) with (t_sec t * 1000 * 1000) by lia. by rewrite Z.div_add_l.
Qed.

Lemma iclock_millis t : time_ok t -> iclock t = u32 (millis t).
Proof.
  intros Ht. unfold iclock. rewrite iclock64_millis by done.
  change 4294967295 with (Z.ones 32). rewrite Z.land_ones by lia. change (2 ^ 32) with 4294967296.
  apply u32_u32.
Qed.

(** The 64-bit clock never goes back while time does not, and differences of the
    32-bit clock are right across its wrap-around every 49.7 days, as long as the
    two readings are closer than that. *)
Theorem clock_differences t t' :
  time_ok t -> time_ok t' -> millis t <= millis t' ->
  iclock64 t <= iclock64 t' /\
  (millis t' - millis t < 4294967296 -> u32 (iclock t' - iclock t) = iclock64 t' - iclock64 t).
Proof.
  intros Ht Ht' Hle. rewrite !iclock64_millis, !iclock_millis by done. split; [done|].
  intros Hlt. rewrite u32_sub_l, u32_sub_r. apply u32_small. lia.
Qed.

(** ** Sleeping *)

Record timespec := mkTimespec { tv_sec : Z; tv_nsec : Z }.
Definition nanos (t : timespec) : Z := tv_sec t * 1000000000 + tv_nsec t.

(** How a call of nanosleep ends: after the time asked for, on a signal with the
    time that was left, or at once with another error. *)
Inductive nap := Slept | Interrupted (time_left : timespec) | Refused (errno : Z).

(** The result, and the structure for the remaining time; it is written only when
    a signal interrupts the call. *)
Definition nanosleep (time_left0 : timespec) (a : nap) : Z * timespec :=
  match a with
  | Slept => (0, time_left0)
  | Interrupted time_left => (-1, time_left)
  | Refused _ => (-1, time_left0)
  end.

(** The calls made: the time each was asked to sleep, and the time left.  A round
    takes one answer of the kernel. *)
Fixpoint sleep_loop (sleepTime : timespec) (answers : list nap) : run (list (timespec * timespec)) :=
  if tv_sec sleepTime + tv_nsec sleepTime >? 0 then
    match answers with
    | [] => Undef
    | a :: answers =>
        let '(_, time_left) := nanosleep (mkTimespec 0 0) a in
        calls ← sleep_loop time_left answers; Ok ((sleepTime, time_left) :: calls)
    end
  else Ok [].

Definition millisecond_sleep (n_millisecond : Z) (answers : list nap) : run (list (timespec * timespec)) :=
  sleep_loop (mkTimespec (n_millisecond / 1000) (n_millisecond mod 1000 * 1000 * 1000)) answers.

(** The time spent asleep. *)
Definition asleep (calls : list (timespec * timespec)) : Z :=
  foldr (fun c acc => nanos c.1 - nanos c.2 + acc) 0 calls.

Definition normal (t : timespec) : Prop := 0 <= tv_sec t /\ 0 <= tv_nsec t < 1000000000.

(** What POSIX says of an interrupted call: the time left is a time, and not more
    than was asked for. *)
Fixpoint honest (t : timespec) (answers : list nap) : Prop :=
  match answers with
  | [] => False
  | Slept :: _ => True
  | Interrupted time_left :: answers => normal time_left /\ nanos time_left <= nanos t /\ honest time_left answers
  | Refused _ :: _ => False
  end.

Lemma sleep_loop_total t answers :
  normal t -> honest t answers -> exists calls, sleep_loop t answers = Ok calls /\ asleep calls = nanos t.
Proof.
  revert t. induction answers as [|a answers IH]; intros t [Hs Hn] Hh; [done|]. cbn [sleep_loop]. case_if.
  - destruct a as [|lf|e]; cbn [nanosleep]; [| |done].
    + destruct answers; cbn [sleep_loop]; eexists (_ :: []); (split; [done|]); cbn; unfold nanos; cbn; lia.
    + destruct Hh as (Hl & Hle & Hh). destruct (IH lf Hl Hh) as (calls & -> & Hc).
      eexists. split; [done|]. cbn. fold (asleep calls). lia.
  - exists []. split; [done|]. unfold nanos. cbn. lia.
Qed.

(** Millisecond_sleep sleeps for the time it is asked to.  However often signals
    interrupt it, the calls of nanosleep it makes add up to exactly [n] milliseconds
    asleep, and it returns as soon as one of them is not interrupted. *)
Theorem sleep_is_exact n answers :
  0 <= n -> honest (mkTimespec (n / 1000) (n mod 1000 * 1000 * 1000)) answers ->
  exists calls, millisecond_sleep n answers = Ok calls /\ asleep calls = n * 1000000.
Proof.
  intros Hn Hh. pose proof (Z.mod_pos_bound n 1000 ltac:(lia)).
  destruct (sleep_loop_total (mkTimespec (n / 1000) (n mod 1000 * 1000 * 1000)) answers) as (calls & Hc & Ha); [|done|].
  { split; cbn; [apply Z.div_pos; lia|lia]. }
  exists calls. split; [done|]. rewrite Ha. unfold nanos. cbn. pose proof (Z.div_mod n 1000 ltac:(lia)). lia.
Qed.

(** When nanosleep refuses the call, the function gives up silently. *)
Lemma sleep_refused n e answers :
  0 < n -> exists calls, millisecond_sleep n (Refused e :: answers) = Ok calls /\ length calls = 1%nat.
Proof.
  intros Hn. unfold millisecond_sleep. cbn [sleep_loop tv_sec tv_nsec nanosleep].
  pose proof (Z.div_mod n 1000 ltac:(lia)). pose proof (Z.mod_pos_bound n 1000 ltac:(lia)).
  pose proof (Z.div_pos n 1000 ltac:(lia) ltac:(lia)). rewrite (proj2 (Z.gtb_lt _ 0)) by lia.
  eexists [_]. split; [by destruct answers|done].
Qed.

(** ** Essential::Timer

    Time points and durations are nanoseconds; duration_cast truncates. *)

Definition new_timer (now : Z) : Z := now.
Definition timer_reset (m_begin now : Z) : Z := now.
Definition elapsed_nano (m_begin now : Z) : Z := now - m_begin.
Definition elapsed_micro (m_begin now : Z) : Z := Z.quot (now - m_begin) 1000.
Definition elapsed (m_begin now : Z) : Z := Z.quot (now - m_begin) 1000000.
Definition elapsed_seconds (m_begin now : Z) : Z := Z.quot (now - m_begin) 1000000000.
Definition elapsed_minutes (m_begin now : Z) : Z := Z.quot (now - m_begin) 60000000000.
Definition elapsed_hours (m_begin now : Z) : Z := Z.quot (now - m_begin) 3600000000000.

(** The six readings of one moment agree: each coarser unit is the finer one
    divided by the number of its parts. *)
Lemma elapsed_units b now :
  elapsed_micro b now = Z.quot (elapsed_nano b now) 1000 /\
  elapsed b now = Z.quot (elapsed_micro b now) 1000 /\
  elapsed_seconds b now = Z.quot (elapsed b now) 1000 /\
  elapsed_minutes b now = Z.quot (elapsed_seconds b now) 60 /\
  elapsed_hours b now = Z.quot (elapsed_minutes b now) 60.
Proof.
  unfold elapsed_micro, elapsed_nano, elapsed, elapsed_seconds, elapsed_minutes, elapsed_hours.
  rewrite !Z.quot_quot by lia. done.
Qed.
