(* ===== verification/TestStr.v ===== *)
(** * Test messages of the example client

    Models src/client_with_asio/test_util.cpp and the message functions of
    src/client_with_asio/client_with_asio.cpp: messages of a wanted length that
    carry the time they were made, and reading that time back. *)

From Stdlib Require Strings.String.
Import Strings.String.StringSyntax.
#[local] Delimit Scope string_scope with string.
From S2P Require Import Prelude Codec ConnectPacket StdString Clock.

(** ** test_str *)

(** char((i % 10) + 0x30). *)
Definition pos_char (i : Z) : byte := byte_of (i mod 10 + 48).

(** for (i = str.size() + 1; i <= n; ++i) str.push_back(char((i % 10) + 0x30)). *)
Definition fill (str : list byte) (n : Z) : list byte :=
  str ++ ((fun i => pos_char (Z.of_nat i)) <$> seq (S (length str)) (Z.to_nat n - length str)).

(** One round of the loop: "(", the new length, "_", digits, ")". *)
Definition ten (str : list byte) : list byte :=
  let new_len := zlen str + 10 in
  let str := str ++ cstr "("%string ++ to_string new_len ++ cstr "_"%string in
  fill str (new_len - 1) ++ cstr ")"%string.

(** [room] is the length of the longest string that can be allocated: beyond it
    std::bad_alloc or std::length_error is thrown.  A round adds at least ten
    characters. *)
Fixpoint tens (fuel : nat) (room : Z) (str : list byte) (str_len : Z) : run (list byte) :=
  match fuel with
  | O => Undef
  | S fuel =>
      if zlen str + 10 <=? str_len then
        let str := ten str in
        if zlen str >? room then Abort else tens fuel room str str_len
      else Ok str
  end.

Definition test_str (room : Z) (str_prefix : list byte) (str_len : Z) : run (list byte) :=
  let str := str_prefix ++ cstr ":"%string in
  if zlen str >=? str_len then Ok (str_resize str (Z.to_nat str_len) Byte.x00)
  else if str_len <? 20 then Ok (fill str str_len)
  else
    let str := str_resize str 10 Byte.x3d in
    str ← tens (S (Z.to_nat (str_len / 10))) room str str_len;
    if zlen str <? str_len then if str_len >? room then Abort else Ok (fill str str_len) else Ok str.

(** ** Messages with a time *)

Definition CLOCK_START_STR : list byte := cstr "!ha"%string.
Definition CLOCK_INTERVAL_STR : list byte := cstr "_ha"%string.

Definition make_test_str (room : Z) (test_str_size : Z) (now : timeval) : run (list byte) :=
  let msg_str := CLOCK_START_STR ++ to_string (iclock64 now) in
  rest ← test_str room CLOCK_INTERVAL_STR (u64 (test_str_size - zlen msg_str));
  Ok (msg_str ++ rest).

Definition get_time_from_msg (msg : list byte) : run Z :=
  match find CLOCK_INTERVAL_STR msg with
  | None => Ok 0
  | Some pos => time_str ← substr msg 3 (Some pos); v ← atoll time_str; Ok (u64 v)
  end.

Definition search_time_from_kcp_str (kcp_str : list byte) : run Z :=
  match find CLOCK_INTERVAL_STR kcp_str with
  | None => Ok 0
  | Some _ =>
      match find CLOCK_START_STR kcp_str with
      | None => Ok 0
      | Some start_iter => v ← atoll (drop (start_iter + 3) kcp_str); Ok (u64 v)
      end
  end.

(** ** Lengths *)

Lemma length_fill str n : zlen str <= n -> zlen (fill str n) = n.
Proof. intros H. unfold fill. rewrite length_app, length_fmap, length_seq. lia. Qed.

Lemma fill_begins str n : exists t, fill str n = str ++ t.
Proof. unfold fill. eauto. Qed.

(** The digits do not depend on the fuel. *)
Lemma print_dec_fuel f f' n : 0 <= n < 10 ^ Z.of_nat f -> (0 < f <= f')%nat -> print_dec f' n = print_dec f n.
Proof.
  revert f' n. induction f as [|f IH]; intros f' n Hn Hf; [lia|]. destruct f' as [|f']; [lia|]. cbn [print_dec].
  rewrite Nat2Z.inj_succ, Z.pow_succ_r in Hn by lia. case_if; [done|].
  assert (0 < f)%nat by (destruct f; [change (10 ^ Z.of_nat 0) with 1 in Hn; lia|lia]).
  rewrite (IH f'); [done| |lia]. split; [apply Z.div_pos; lia|apply Z.div_lt_upper_bound; lia].
Qed.

(** The label of a block fits as long as the length has seven digits. *)
Lemma length_ten str : zlen str + 10 < 10000000 -> zlen (ten str) = zlen str + 10.
Proof.
  intros H. unfold ten. rewrite Z_length_app. change (zlen (cstr ")"%string)) with 1.
  rewrite length_fill; [lia|]. rewrite !Z_length_app. unfold to_string.
  rewrite (print_dec_fuel 7) by (change (10 ^ Z.of_nat 7) with 10000000; lia).
  destruct (print_dec_length 7 (zlen str + 10)) as [Hl _]; [change (10 ^ Z.of_nat 7) with 10000000; lia|].
  change (zlen (cstr "("%string)) with 1. change (zlen (cstr "_"%string)) with 1. lia.
Qed.

Lemma ten_begins str : exists t, ten str = str ++ t.
Proof.
  unfold ten. destruct (fill_begins (str ++ cstr "("%string ++ to_string (zlen str + 10) ++ cstr "_"%string) (zlen str + 10 - 1)) as [t ->].
  rewrite <- !app_assoc. eauto.
Qed.

Lemma ten_grows str : zlen str + 10 <= zlen (ten str).
Proof.
  unfold ten. rewrite Z_length_app. change (zlen (cstr ")"%string)) with 1.
  unfold fill. rewrite length_app, length_fmap, length_seq. lia.
Qed.

Lemma tens_length fuel room str n :
  n <= room -> n < 10000000 -> zlen str <= n -> n - zlen str < 10 * Z.of_nat fuel ->
  exists t, tens fuel room str n = Ok (str ++ t) /\ n - 10 < zlen (str ++ t) <= n.
Proof.
  intros Hr Hn. revert str. induction fuel as [|fuel IH]; intros str Hs Hf; [lia|]. cbn [tens]. case_if.
  - pose proof (length_ten str ltac:(lia)) as Hl. rewrite Z.gtb_ltb, (proj2 (Z.ltb_ge room _)) by lia.
    destruct (IH (ten str)) as (t & -> & Ht); [lia..|]. destruct (ten_begins str) as [u Hu]. rewrite Hu in *.
    exists (u ++ t). by rewrite app_assoc.
  - exists []. rewrite app_nil_r. split; [done|lia].
Qed.

(** A length that cannot be allocated: the loop goes on until memory is out. *)
Lemma tens_abort fuel room str n :
  room + 10 <= n -> zlen str <= room -> room - zlen str < 10 * Z.of_nat fuel -> tens fuel room str n = Abort.
Proof.
  intros Hn. revert str. induction fuel as [|fuel IH]; intros str Hs Hf; [lia|]. cbn [tens].
  rewrite (proj2 (Z.leb_le _ n)) by lia. pose proof (ten_grows str). case_if; [done|]. apply IH; lia.
Qed.

Lemma resize_begins (p q : list byte) n c : (length p <= n)%nat -> exists t, resize n c (p ++ q) = p ++ t.
Proof.
  intros H. exists (resize (n - length p) c q). rewrite resize_app_ge by done. done.
Qed.

(** test_str returns a string of exactly the length asked for, up to ten million
    characters, and it begins with the prefix when the prefix has at most nine. *)
Lemma test_str_exact room p n :
  0 <= n <= room -> n < 10000000 ->
  exists s, test_str room p n = Ok s /\ zlen s = n /\ (zlen p <= 9 -> zlen p <= n -> exists t, s = p ++ t).
Proof.
  intros Hn Hlt. unfold test_str. rewrite Z_length_app. change (zlen (cstr ":"%string)) with 1.
  rewrite Z.geb_leb. case_if.
  - eexists. split; [done|]. unfold str_resize. split; [rewrite length_resize; lia|].
    intros _ Hp. apply resize_begins. lia.
  - case_if.
    + eexists. split; [done|]. split; [apply length_fill; rewrite Z_length_app; change (zlen (cstr ":"%string)) with 1; lia|].
      intros _ _. destruct (fill_begins (p ++ cstr ":"%string) n) as [t ->]. rewrite <- app_assoc. eauto.
    + set (s0 := str_resize (p ++ cstr ":"%string) 10 Byte.x3d).
      assert (zlen s0 = 10) as H0 by (subst s0; unfold str_resize; rewrite length_resize; lia).
      assert (zlen p <= 9 -> exists t, s0 = p ++ t) as Hb by (intros Hp; apply resize_begins; lia).
      destruct (tens_length (S (Z.to_nat (n / 10))) room s0 n) as (t & -> & Ht); [lia..|Z.to_euclidean_division_equations; lia|].
      cbn [mbind run_bind]. case_if.
      * rewrite Z.gtb_ltb, (proj2 (Z.ltb_ge room n)) by lia. eexists. split; [done|]. split; [by apply length_fill; lia|].
        intros Hp _. destruct (fill_begins (s0 ++ t) n) as [u ->], (Hb Hp) as [v ->]. rewrite <- !app_assoc. eauto.
      * eexists. split; [done|]. split; [lia|]. intros Hp _. destruct (Hb Hp) as [v ->]. rewrite <- app_assoc. eauto.
Qed.

(** ** The time in a message *)

Lemma to_string_plain n b : 0 <= n -> is_digit b = false -> b ∉ to_string n.
Proof. intros Hn Hb. apply not_digit_notin; [|done]. by apply print_dec_digits. Qed.

Lemma to_string_bound n : 0 <= n < 9223372036854775808 -> n < 10 ^ Z.of_nat 20.
Proof. change (10 ^ Z.of_nat 20) with 100000000000000000000. lia. Qed.

(** The time a test message was made is read back from it.  For every message
    size from the time stamp and its delimiter up to ten million bytes the message
    has that size; get_time_from_msg returns the clock it was made with, and so does
    search_time_from_kcp_str on a datagram that carries the message behind a header
    without the two marker characters. *)
Theorem time_stamp_roundtrip room size now header :
  time_ok now -> zlen (CLOCK_START_STR ++ to_string (iclock64 now)) + 3 <= size <= room -> size < 10000000 ->
  Byte.x21 ∉ header -> Byte.x5f ∉ header ->
  exists msg, make_test_str room size now = Ok msg /\ zlen msg = size /\
    get_time_from_msg msg = Ok (iclock64 now) /\ search_time_from_kcp_str (header ++ msg) = Ok (iclock64 now).
Proof.
  intros Ht Hs Hlt Hh1 Hh2.
  assert (0 <= iclock64 now < 9223372036854775808) as Hc.
  { rewrite iclock64_millis by done. destruct Ht as [H1 H2]. unfold millis.
    split; [apply Z.div_pos; lia|apply Z.div_lt_upper_bound; lia]. }
  pose proof (to_string_bound _ Hc) as Hb. unfold make_test_str.
  set (stamp := CLOCK_START_STR ++ to_string (iclock64 now)) in *.
  rewrite u64_small by lia.
  destruct (test_str_exact room CLOCK_INTERVAL_STR (size - zlen stamp)) as (s & -> & Hl & Hbeg); [lia..|].
  destruct Hbeg as [t ->]; [done|change (zlen CLOCK_INTERVAL_STR) with 3; lia|]. cbn [mbind run_bind].
  assert (Byte.x5f ∉ stamp) as Hno.
  { subst stamp. rewrite elem_of_app. intros [H|H].
    { revert H. apply (bool_decide_unpack (Byte.x5f ∉ CLOCK_START_STR)). vm_compute. exact I. }
    revert H. apply to_string_plain; [lia|done]. }
  eexists. split; [done|]. split; [rewrite Z_length_app; lia|]. split.
  - unfold get_time_from_msg. change CLOCK_INTERVAL_STR with (Byte.x5f :: tail CLOCK_INTERVAL_STR).
    rewrite find_behind by done. subst stamp. rewrite <- !app_assoc. unfold substr.
    rewrite (proj2 (Nat.leb_le 3 _)) by (rewrite length_app; cbn; lia).
    change (drop 3 (CLOCK_START_STR ++ ?l)) with l. cbn [mbind run_bind].
    rewrite take_app_ge by (rewrite length_app; lia). unfold to_string. rewrite atoll_print; [|lia..|].
    + cbn [mbind run_bind]. by rewrite u64_small by lia.
    + rewrite length_app. by replace (_ - _)%nat with 3%nat by (unfold to_string; cbn; lia).
  - unfold search_time_from_kcp_str. rewrite !app_assoc, <- (app_assoc _ _ t).
    change CLOCK_INTERVAL_STR with (Byte.x5f :: tail CLOCK_INTERVAL_STR).
    rewrite find_behind by (rewrite elem_of_app; tauto).
    subst stamp. rewrite <- !app_assoc. change CLOCK_START_STR with (Byte.x21 :: tail CLOCK_START_STR).
    rewrite find_behind by done. rewrite (app_assoc header), drop_app_length' by (rewrite length_app; done).
    unfold to_string. rewrite atoll_print; [|lia..|done]. cbn [mbind run_bind]. by rewrite u64_small by lia.
Qed.

Definition demo_now : timeval := mkTimeval 1700000000 123456.

(** A message size below the length of the time stamp makes the subtraction wrap
    around: test_str is asked for almost 2^64 characters and the program ends with an
    exception when memory is out. *)
Theorem small_message_aborts room size now :
  time_ok now -> 10 <= room < 9223372036854775808 ->
  0 <= size < zlen (CLOCK_START_STR ++ to_string (iclock64 now)) ->
  make_test_str room size now = Abort.
Proof.
  intros Ht Hr Hs. unfold make_test_str.
  set (stamp := CLOCK_START_STR ++ to_string (iclock64 now)) in *.
  assert (zlen stamp <= 23) as Hl.
  { subst stamp. rewrite Z_length_app. change (zlen CLOCK_START_STR) with 3. unfold to_string.
    destruct (print_dec_length 20 (iclock64 now)) as [H _]; [|lia].
    rewrite iclock64_millis by done. destruct Ht as [H1 H2]. unfold millis. change (10 ^ Z.of_nat 20) with 100000000000000000000.
    split; [apply Z.div_pos; lia|apply Z.div_lt_upper_bound; lia]. }
  replace (u64 (size - zlen stamp)) with (18446744073709551616 + (size - zlen stamp)) by wrap_lia.
  unfold test_str. rewrite Z.geb_leb, (proj2 (Z.leb_gt _ _)) by (change (zlen (CLOCK_INTERVAL_STR ++ cstr ":"%string)) with 4; lia).
  rewrite (proj2 (Z.ltb_ge _ 20)) by lia. rewrite tens_abort; [done|lia|..].
  - unfold str_resize. rewrite length_resize. lia.
  - unfold str_resize. rewrite length_resize. Z.to_euclidean_division_equations. lia.
Qed.
