(* ===== verification/Server.v ===== *)
(** * The server library

    Models src/server_lib: connection.cpp, connection_container.cpp and
    connection_manager.cpp, over the interface [KcpSession].  What a handler does to the outside (datagrams sent,
    events reported to the application) is returned as a list of effects in the
    order of the calls.  The application's event callback is code outside; the
    calls it makes back into the server are further steps. *)

From stdpp Require Import gmap.
From Stdlib Require Strings.String.
Import Strings.String.StringSyntax.
#[local] Delimit Scope string_scope with string.
From S2P Require Import Prelude Codec KcpState KcpInput ConnectPacket KcpSession.

(** ** kcp_typedef.hpp *)

Inductive eEventType := eConnect | eDisconnect | eRcvMsg | eLagNotify | eCountOfEventType.

#[export] Instance eEventType_eq_dec : EqDecision eEventType.
Proof. solve_decision. Defined.

Definition eventTypeStr (e : eEventType) : list byte :=
  match e with
  | eConnect => cstr "eConnect"%string
  | eDisconnect => cstr "eDisconnect"%string
  | eRcvMsg => cstr "eRcvMsg"%string
  | eLagNotify => cstr "eLagNotify"%string
  | _ => cstr "unknown"%string
  end.

Definition ASIO_KCP_CONNECTION_TIMEOUT_TIME : Z := 10 * 1000.

(** boost::asio::ip::udp::endpoint, an IPv4 address and a port. *)
Record udp_endpoint := mkUdp { udp_addr : Z; udp_port : Z }.

#[export] Instance udp_endpoint_eq_dec : EqDecision udp_endpoint.
Proof. solve_decision. Defined.

Definition endpoint_to_i (ep : udp_endpoint) : Z :=
  u64 (u64 (Z.shiftl (udp_addr ep) 32) + udp_port ep).

(** What the server does to the outside. *)
Inductive effect :=
| Udp_send (to : udp_endpoint) (data : list byte)
| Event (conv : Z) (event_type : eEventType) (msg : list byte).

Section Server.
Context {K : Type} `{KcpSession K}.

(** ** connection.cpp

    [mgr] is what the weak pointer to the manager locks to: the manager's
    clock, or [None] when the manager is gone. *)

Record connection := mkConn {
  conn_conv : Z;
  conn_kcp : K;
  conn_remote : udp_endpoint;
  conn_last : Z
}.

Definition conn_cur_clock (mgr : option Z) : Z := default 0 mgr.

Definition send_udp_package (mgr : option Z) (remote : udp_endpoint) (buf : list byte) : list effect :=
  match mgr with Some _ => [Udp_send remote buf] | None => [] end.

(** The destructor: the control block is released. *)
Definition conn_clean (mgr : option Z) (c : connection) : list effect :=
  send_udp_package mgr (conn_remote c) (making_disconnect_packet (conn_conv c)).

(** A null control block would be dereferenced by init_kcp. *)
Definition conn_create (conv : Z) (remote : udp_endpoint) : run connection :=
  match ks_create conv 5 with
  | Some k => Ok (mkConn conv k remote 0)
  | None => Undef
  end.

Definition conn_send_kcp_msg (c : connection) (msg : list byte) : run connection :=
  '(k, _) ← ks_send (conn_kcp c) msg;
  Ok (mkConn (conn_conv c) k (conn_remote c) (conn_last c)).

Definition kcp_buf_size : Z := 1024 * 1000.

Definition conn_input (mgr : option Z) (c : connection) (data : list byte) (remote : udp_endpoint)
  : run (connection * option (list byte)) :=
  '(k, _) ← ks_input (conn_kcp c) data;
  '(k, kcp_buf, kcp_recvd_bytes) ← ks_recv k kcp_buf_size;
  Ok (mkConn (conn_conv c) k remote (conn_cur_clock mgr),
      if kcp_recvd_bytes <=? 0 then None
      else match mgr with Some _ => Some (take (Z.to_nat kcp_recvd_bytes) kcp_buf) | None => None end).

Definition conn_update_kcp (mgr : option Z) (c : connection) (clock : Z) : run (connection * list effect) :=
  '(k, out) ← ks_update (conn_kcp c) clock;
  Ok (mkConn (conn_conv c) k (conn_remote c) (conn_last c),
      concat (send_udp_package mgr (conn_remote c) <$> out)).

Definition conn_is_timeout (mgr : option Z) (c : connection) : bool :=
  if conn_last c =? 0 then false
  else u32 (conn_cur_clock mgr - conn_last c) >? ASIO_KCP_CONNECTION_TIMEOUT_TIME.

(** ** connection_manager: state and events *)

Record manager := mkManager {
  mg_stopped : bool;
  mg_callback : bool;     (* event_callback_ is set *)
  mg_clock : Z;
  mg_conns : gmap Z connection;
  mg_cur_conv : Z;        (* static_cur_conv of get_new_conv *)
  mg_receiving : bool;    (* a receive is pending *)
  mg_timer : bool         (* the timer is running *)
}.

(** Calling an empty std::function throws. *)
Definition call_event_callback_func (callback : bool) (conv : Z) (event_type : eEventType) (msg : list byte)
  : run (list effect) :=
  if callback then Ok [Event conv event_type msg] else Abort.

Definition conn_do_timeout (mgr : option Z) (callback : bool) (c : connection) : run (list effect) :=
  match mgr with
  | Some _ => call_event_callback_func callback (conn_conv c) eDisconnect (cstr "timeout"%string)
  | None => Ok []
  end.

(** ** connection_container.cpp *)

Definition find_by_conv (conns : gmap Z connection) (conv : Z) : option connection := conns !! conv.

(** The loop of update_all_kcp over the entries in the order [l] of the hash
    map; the entries that remain. *)
Fixpoint update_loop (mgr : option Z) (callback : bool) (clock : Z) (l : list (Z * connection))
  : run (list (Z * connection) * list effect) :=
  match l with
  | [] => Ok ([], [])
  | (key, c) :: l =>
      '(c, eff1) ← conn_update_kcp mgr c clock;
      if conn_is_timeout mgr c then
        eff2 ← conn_do_timeout mgr callback c;
        '(l, eff) ← update_loop mgr callback clock l;
        Ok (l, eff1 ++ eff2 ++ conn_clean mgr c ++ eff)
      else
        '(l, eff) ← update_loop mgr callback clock l;
        Ok ((key, c) :: l, eff1 ++ eff)
  end.

Definition update_all_kcp (mgr : option Z) (callback : bool) (clock : Z) (order : list (Z * connection))
  : run (gmap Z connection * list effect) :=
  '(l, eff) ← update_loop mgr callback clock order;
  Ok (list_to_map l, eff).

Definition add_new_connection (mgr : option Z) (conns : gmap Z connection) (conv : Z) (remote : udp_endpoint)
  : run (gmap Z connection * list effect) :=
  c ← conn_create conv remote;
  Ok (<[conv := c]> conns, match conns !! conv with Some old => conn_clean mgr old | None => [] end).

Definition remove_connection (mgr : option Z) (conns : gmap Z connection) (conv : Z)
  : gmap Z connection * list effect :=
  (delete conv conns, match conns !! conv with Some old => conn_clean mgr old | None => [] end).

Definition get_new_conv (static_cur_conv : Z) : Z := u32 (static_cur_conv + 1).

(** ** connection_manager.cpp *)

#[local] Hint Extern 1 (Update (R := manager) ?p) =>
  derive_update (fun s => mkManager (mg_stopped s) (mg_callback s) (mg_clock s) (mg_conns s)
    (mg_cur_conv s) (mg_receiving s) (mg_timer s)) p : typeclass_instances.

Definition hook_udp_async_receive (s : manager) : manager :=
  if mg_stopped s then s else s <| mg_receiving := true |>.

Definition hook_kcp_timer (s : manager) : manager :=
  if mg_stopped s then s else s <| mg_timer := true |>.

(** The constructor; [cur_conv] is the process-wide counter. *)
Definition new_manager (cur_conv : Z) : manager :=
  hook_kcp_timer (hook_udp_async_receive (mkManager false false 0 ∅ cur_conv false false)).

Definition stop_all (s : manager) (order : list (Z * connection)) : manager * list effect :=
  (s <| mg_stopped := true |> <| mg_conns := ∅ |> <| mg_receiving := false |>,
   concat ((fun kc => conn_clean (Some (mg_clock s)) kc.2) <$> order)).

Definition set_callback (s : manager) : manager := s <| mg_callback := true |>.

Definition force_disconnect (s : manager) (conv : Z) : run (manager * list effect) :=
  match find_by_conv (mg_conns s) conv with
  | None => Ok (s, [])
  | Some _ =>
      eff1 ← call_event_callback_func (mg_callback s) conv eDisconnect (cstr "server force disconnect"%string);
      let '(conns, eff2) := remove_connection (Some (mg_clock s)) (mg_conns s) conv in
      Ok (s <| mg_conns := conns |>, eff1 ++ eff2)
  end.

Definition handle_connect_packet (s : manager) (remote : udp_endpoint) : run (manager * list effect) :=
  let conv := get_new_conv (mg_cur_conv s) in
  let s := s <| mg_cur_conv := conv |> in
  let send_back_msg := making_send_back_conv_packet conv in
  '(conns, eff) ← add_new_connection (Some (mg_clock s)) (mg_conns s) conv remote;
  Ok (s <| mg_conns := conns |>, Udp_send remote send_back_msg :: eff).

(** A failed assert_check throws Essential::AssertException, which nothing
    catches. *)
Definition handle_kcp_packet (s : manager) (data : list byte) (remote : udp_endpoint)
  : run (manager * list effect) :=
  ret ← ikcp_get_conv (Some data) (zlen data);
  match ret with
  | None => Abort
  | Some conv =>
      match find_by_conv (mg_conns s) conv with
      | None => Ok (s, [])
      | Some c =>
          '(c, package) ← conn_input (Some (mg_clock s)) c data remote;
          eff ← (match package with
                 | Some p => call_event_callback_func (mg_callback s) (conn_conv c) eRcvMsg p
                 | None => Ok []
                 end);
          Ok (s <| mg_conns := <[conv := c]> (mg_conns s) |>, eff)
      end
  end.

(** [error] is the completion's error code; the pending receive is consumed. *)
Definition handle_udp_receive_from (s : manager) (error : bool) (data : list byte) (remote : udp_endpoint)
  : run (manager * list effect) :=
  let s := s <| mg_receiving := false |> in
  '(s, eff) ←
    (if negb error && (0 <? zlen data) then
       if is_connect_packet data (zlen data) then handle_connect_packet s remote
       else handle_kcp_packet s data remote
     else Ok (s, []));
  Ok (hook_udp_async_receive s, eff).

(** [now] is iclock(); [order] the order in which the hash map is visited. *)
Definition handle_kcp_time (s : manager) (now : Z) (order : list (Z * connection))
  : run (manager * list effect) :=
  let s := hook_kcp_timer (s <| mg_timer := false |>) in
  let s := s <| mg_clock := u32 now |> in
  '(conns, eff) ← update_all_kcp (Some (mg_clock s)) (mg_callback s) (mg_clock s) order;
  Ok (s <| mg_conns := conns |>, eff).

Definition send_msg (s : manager) (conv : Z) (msg : list byte) : run (manager * Z) :=
  match find_by_conv (mg_conns s) conv with
  | None => Ok (s, -1)
  | Some c => c ← conn_send_kcp_msg c msg; Ok (s <| mg_conns := <[conv := c]> (mg_conns s) |>, 0)
  end.
End Server.
