(* ===== verification/ServerThms.v ===== *)
(** * Theorems about the server library

    Proved against the interface [KcpSafe] only.  The invariant [mgr_ok]: every
    connection is filed under its conversation id, uses a control block for that
    id, and all ids were handed out by get_new_conv. *)

From stdpp Require Import gmap.
From Stdlib Require Strings.String.
Import Strings.String.StringSyntax.
#[local] Delimit Scope string_scope with string.
From S2P Require Import Prelude Codec KcpState KcpInput KcpFlush KcpWire KcpSystem ConnectPacket KcpSession Server.

Section ServerThms.
Context {K : Type} `{KS : KcpSession K} `{SF : !KcpSafe K}.
Implicit Types (c : connection (K := K)) (s : manager (K := K)).

Definition conn_ok (key : Z) (c : connection (K := K)) : Prop :=
  conn_conv c = key /\ ks_conv (conn_kcp c) = key /\ ks_ok (conn_kcp c).

Record mgr_ok (s : manager (K := K)) : Prop := {
  mo_conns : map_Forall conn_ok (mg_conns s);
  mo_range : forall key, is_Some (mg_conns s !! key) -> 1000 < key <= mg_cur_conv s;
  mo_cur : 1000 <= mg_cur_conv s < 4294967296;
  mo_callback : mg_callback s = true
}.

(** Room for the acknowledgements of [n] more bytes in every connection. *)
Definition acks_room (s : manager (K := K)) (n : Z) : Prop :=
  map_Forall (fun _ c => ks_pending (conn_kcp c) + n < 2147483648) (mg_conns s).

(** ** Connections *)

Lemma conn_input_ok mgr key c data remote :
  conn_ok key c -> ks_pending (conn_kcp c) + zlen data < 2147483648 ->
  exists c' p, conn_input mgr c data remote = Ok (c', p) /\ conn_ok key c' /\
    conn_remote c' = remote /\ conn_last c' = conn_cur_clock mgr /\
    ks_pending (conn_kcp c') <= ks_pending (conn_kcp c) + zlen data.
Proof.
  intros (H1 & H2 & H3) Hr. unfold conn_input.
  destruct (ks_input_ok (conn_kcp c) data H3 Hr) as (k1 & r1 & -> & Hk1 & Hc1 & Hp1). cbn [mbind run_bind].
  destruct (ks_recv_ok k1 kcp_buf_size Hk1) as (k2 & out & r2 & -> & Hk2 & Hc2 & Hp2 & _); [done|].
  cbn [mbind run_bind]. do 2 eexists. split; [reflexivity|]. cbn. unfold conn_ok. cbn.
  split_and!; try done; congruence || lia.
Qed.

Lemma conn_update_ok mgr key c clock :
  conn_ok key c -> exists c' eff, conn_update_kcp mgr c clock = Ok (c', eff) /\ conn_ok key c' /\
    conn_remote c' = conn_remote c /\ conn_last c' = conn_last c /\
    Forall (fun e => exists d, e = Udp_send (conn_remote c) d) eff.
Proof.
  intros (H1 & H2 & H3). unfold conn_update_kcp.
  destruct (ks_update_ok (conn_kcp c) clock H3) as (k' & out & -> & Hk' & Hc' & _). cbn [mbind run_bind].
  do 2 eexists. split; [reflexivity|]. cbn. split; [split_and!; cbn; congruence|]. split; [done|].
  split; [done|]. induction out as [|d out IH]; [constructor|]. rewrite fmap_cons. cbn [concat].
  apply Forall_app. split; [|done]. unfold send_udp_package. destruct mgr; [|constructor].
  constructor; [eauto|constructor].
Qed.

(** ** Datagrams *)

Lemma get_conv_total data : 24 <= zlen data ->
  exists cv : Z, ikcp_get_conv (Some data) (zlen data) = Ok (Some cv).
Proof.
  intros Hl. unfold ikcp_get_conv, IKCP_OVERHEAD. rewrite (proj2 (Z.ltb_ge _ _) Hl).
  destruct (decode_header_total data) as (c & tail & h & rest & -> & _); [lia|]. eauto.
Qed.

Lemma handle_kcp_ok s data remote :
  mgr_ok s -> 24 <= zlen data -> acks_room s (zlen data) ->
  exists s' eff, handle_kcp_packet s data remote = Ok (s', eff) /\ mgr_ok s' /\
    mg_stopped s' = mg_stopped s /\ mg_timer s' = mg_timer s.
Proof.
  intros Hs Hl Hroom. unfold handle_kcp_packet.
  destruct (get_conv_total data Hl) as (cv & ->). cbn [mbind run_bind]. unfold find_by_conv.
  destruct (mg_conns s !! cv) as [c|] eqn:Ec; [|by eauto 6].
  destruct (conn_input_ok (Some (mg_clock s)) cv c data remote) as (c' & p & -> & Hc' & _);
    [by apply (mo_conns _ Hs)|by apply (Hroom cv)|]. cbn [mbind run_bind].
  assert (exists eff, (match p with
    | Some p => call_event_callback_func (mg_callback s) (conn_conv c') eRcvMsg p
    | None => Ok [] end) = Ok eff) as [eff ->].
  { destruct p; [|eauto]. unfold call_event_callback_func. rewrite (mo_callback _ Hs). eauto. }
  cbn [mbind run_bind]. do 2 eexists. split; [reflexivity|]. split; [|done].
  destruct Hs as [H1 H2 H3 H4]. constructor; cbn; auto.
  - by apply map_Forall_insert_2.
  - intros key Hk. apply H2. destruct (decide (key = cv)) as [->|Hne]; [by rewrite Ec|].
    by rewrite lookup_insert_ne in Hk.
Qed.

Lemma handle_connect_ok s remote :
  mgr_ok s -> mg_cur_conv s < 4294967295 ->
  exists s' eff, handle_connect_packet s remote = Ok (s', eff) /\ mgr_ok s' /\
    mg_stopped s' = mg_stopped s /\ mg_timer s' = mg_timer s.
Proof.
  intros [H1 H2 H3 H4] Hmax. unfold handle_connect_packet, get_new_conv.
  rewrite u32_small by lia. unfold add_new_connection, conn_create.
  destruct (ks_create_ok (mg_cur_conv s + 1) 5) as (k & -> & Hk & Hkc & _). cbn [mbind run_bind].
  do 2 eexists. split; [reflexivity|]. split; [|done]. constructor; cbn.
  - apply map_Forall_insert_2; [|done]. done.
  - intros key Hk'. destruct (decide (key = mg_cur_conv s + 1)) as [->|Hne]; [lia|].
    rewrite lookup_insert_ne in Hk' by done. specialize (H2 key Hk'). lia.
  - lia.
  - done.
Qed.


(** C39: a datagram of 1 to 23 bytes stops the server.  It is no connect
    packet, ikcp_get_conv rejects it, and the assert_check of handle_kcp_packet
    throws Essential::AssertException, which is not a std::exception and is
    caught nowhere: any host can end the process with one short datagram. *)
Theorem short_datagram_aborts s data remote :
  1 <= zlen data < 24 -> handle_udp_receive_from s false data remote = Abort.
Proof.
  intros Hl. unfold handle_udp_receive_from. cbn [negb andb].
  rewrite (proj2 (Z.ltb_lt 0 (zlen data))) by lia.
  assert (is_connect_packet data (zlen data) = false) as ->.
  { unfold is_connect_packet. apply andb_false_intro1. apply Z.eqb_neq. unfold sizeof_lit. cbn. lia. }
  unfold handle_kcp_packet, ikcp_get_conv, IKCP_OVERHEAD.
  by rewrite (proj2 (Z.ltb_lt (zlen data) 24)) by lia.
Qed.

(** A connect packet creates a connection under an id greater than 1000 that no
    connection has or had, for the sender's endpoint, leaves the other connections
    alone, and is answered with one packet. *)
Lemma connect_answer s remote :
  mgr_ok s -> mg_cur_conv s < 4294967295 ->
  let cv := mg_cur_conv s + 1 in
  exists s' k, handle_udp_receive_from s false making_connect_packet remote
                 = Ok (s', [Udp_send remote (making_send_back_conv_packet cv)]) /\
    1000 < cv /\ mg_conns s !! cv = None /\
    mg_conns s' = <[cv := mkConn cv k remote 0]> (mg_conns s) /\
    ks_conv k = cv /\ mgr_ok s'.
Proof.
  intros Hs Hmax cv. pose proof Hs as [H1 H2 H3 H4]. unfold handle_udp_receive_from.
  change (negb false && (0 <? zlen making_connect_packet)) with true.
  change (is_connect_packet making_connect_packet (zlen making_connect_packet)) with true. cbv iota.
  unfold handle_connect_packet, get_new_conv.
  match goal with |- context [u32 (?x + 1)] => change (u32 (x + 1)) with (u32 cv) end.
  rewrite (u32_small cv) by (subst cv; lia). unfold add_new_connection, conn_create.
  destruct (ks_create_ok cv 5) as (k & -> & Hk & Hkc & _). cbn [mbind run_bind mg_conns].
  assert (mg_conns s !! cv = None) as Hnone.
  { destruct (mg_conns s !! cv) eqn:E; [|done]. specialize (H2 cv ltac:(by rewrite E; eexists)). subst cv. lia. }
  cbn -[making_send_back_conv_packet]. rewrite Hnone.
  eexists _, k. split; [reflexivity|]. split; [subst cv; lia|]. split; [done|].
  unfold hook_udp_async_receive. split; [by destruct (mg_stopped _)|]. split; [done|].
  assert (forall key, is_Some (<[cv := mkConn cv k remote 0]> (mg_conns s) !! key) ->
    1000 < key <= cv) as Hrange.
  { intros key Hk'. destruct (decide (key = cv)) as [->|Hne]; [subst cv; lia|].
    rewrite lookup_insert_ne in Hk' by done. specialize (H2 key Hk'). subst cv. lia. }
  destruct (mg_stopped _); constructor; cbn; try done; try (subst cv; lia);
    by apply map_Forall_insert_2.
Qed.

(** A datagram for a connection. *)
Lemma handle_kcp_input s data remote cv rest c :
  mgr_ok s -> 24 <= zlen data -> acks_room s (zlen data) -> ikcp_decode32u data = Ok (cv, rest) ->
  mg_conns s !! cv = Some c ->
  exists s' k1 r1 k2 buf n, ks_input (conn_kcp c) data = Ok (k1, r1) /\
    ks_recv k1 kcp_buf_size = Ok (k2, buf, n) /\
    handle_kcp_packet s data remote = Ok (s', if n <=? 0 then [] else [Event cv eRcvMsg (take (Z.to_nat n) buf)]) /\
    mg_conns s' = <[cv := mkConn cv k2 remote (mg_clock s)]> (mg_conns s) /\ mg_cur_conv s' = mg_cur_conv s /\
    mg_stopped s' = mg_stopped s /\ n <= kcp_buf_size /\ ks_ok k2.
Proof.
  intros Hs Hl Hroom Hcv Ec. unfold handle_kcp_packet, ikcp_get_conv, IKCP_OVERHEAD.
  rewrite (proj2 (Z.ltb_ge _ _) Hl), Hcv. cbn [mbind run_bind]. unfold find_by_conv. rewrite Ec.
  destruct (mo_conns _ Hs cv c Ec) as (Hc1 & Hc2 & Hc3). specialize (Hroom cv c Ec).
  unfold conn_input.
  destruct (ks_input_ok (conn_kcp c) data Hc3 Hroom) as (k1 & r1 & Hin & Hk1 & _).
  destruct (ks_recv_ok k1 kcp_buf_size Hk1) as (k2 & buf & n & Hrecv & Hk2 & _ & _ & _ & _ & Hn); [done|].
  rewrite Hin. cbn [mbind run_bind]. rewrite Hrecv. cbn [mbind run_bind].
  eexists _, k1, r1, k2, buf, n. split; [done|]. split; [done|].
  split; [destruct (n <=? 0); cbn; [reflexivity|]; unfold call_event_callback_func;
          by rewrite (mo_callback _ Hs), Hc1|].
  cbn. by rewrite Hc1.
Qed.

(** C13: datagrams are routed by conversation id.  A KCP datagram whose first
    four bytes name no connection changes nothing.  Otherwise exactly that
    connection is given the data: its endpoint becomes the sender's (a client
    may change address), the arrival is recorded, and what one ikcp_recv
    returns is reported as at most one eRcvMsg of that conversation. *)
Theorem kcp_packet_routed s data remote cv rest :
  mgr_ok s -> 24 <= zlen data -> acks_room s (zlen data) -> ikcp_decode32u data = Ok (cv, rest) ->
  match mg_conns s !! cv with
  | None => handle_kcp_packet s data remote = Ok (s, [])
  | Some c => exists s' c' k1 r1 buf n,
      ks_input (conn_kcp c) data = Ok (k1, r1) /\
      ks_recv k1 kcp_buf_size = Ok (conn_kcp c', buf, n) /\
      handle_kcp_packet s data remote
        = Ok (s', if n <=? 0 then [] else [Event cv eRcvMsg (take (Z.to_nat n) buf)]) /\
      mg_conns s' = <[cv := c']> (mg_conns s) /\ mg_cur_conv s' = mg_cur_conv s /\
      conn_conv c' = cv /\ conn_remote c' = remote /\ conn_last c' = mg_clock s
  end.
Proof.
  intros Hs Hl Hroom Hcv. destruct (mg_conns s !! cv) as [c|] eqn:Ec.
  - destruct (handle_kcp_input s data remote cv rest c Hs Hl Hroom Hcv Ec)
      as (s' & k1 & r1 & k2 & buf & n & Hi & Hr & Hh & Hc & Hcur & _).
    by exists s', (mkConn cv k2 remote (mg_clock s)), k1, r1, buf, n.
  - unfold handle_kcp_packet, ikcp_get_conv, IKCP_OVERHEAD.
    rewrite (proj2 (Z.ltb_ge _ _) Hl), Hcv. cbn [mbind run_bind]. unfold find_by_conv. by rewrite Ec.
Qed.

(** ** The timer *)

Lemma is_timeout_spec t c :
  conn_is_timeout (Some t) c = true <-> conn_last c <> 0 /\ 10000 < u32 (t - conn_last c).
Proof.
  unfold conn_is_timeout, ASIO_KCP_CONNECTION_TIMEOUT_TIME, conn_cur_clock. cbn [default].
  destruct (conn_last c =? 0) eqn:E; zbool.
  - split; [done|]. tauto.
  - rewrite Z.gtb_lt. tauto.
Qed.

Lemma is_timeout_ext t c c' :
  conn_last c' = conn_last c -> conn_is_timeout (Some t) c' = conn_is_timeout (Some t) c.
Proof. unfold conn_is_timeout. by intros ->. Qed.

(** What one tick at time [t] does to the entry [kc]: [l'] and [eff] are the
    entries that remain and the effects. *)
Definition ticked (t : Z) (l' : list (Z * connection (K := K))) (eff : list effect)
    (kc : Z * connection (K := K)) : Prop :=
  if conn_is_timeout (Some t) kc.2 then
    (kc.1 ∉ l'.*1) /\ Event kc.1 eDisconnect (cstr "timeout"%string) ∈ eff /\
    Udp_send (conn_remote kc.2) (making_disconnect_packet kc.1) ∈ eff
  else
    (exists c', (kc.1, c') ∈ l' /\ conn_remote c' = conn_remote kc.2 /\ conn_last c' = conn_last kc.2) /\
    forall ty msg, Event kc.1 ty msg ∉ eff.

Lemma ticked_cons t l' eff kc e x :
  e.1 <> kc.1 -> (forall ty msg, Event kc.1 ty msg ∉ x) ->
  ticked t l' eff kc -> ticked t (e :: l') (x ++ eff) kc /\ ticked t l' (x ++ eff) kc.
Proof.
  intros He Hx. unfold ticked. destruct (conn_is_timeout _ _).
  - intros (H1 & H2 & H3). rewrite fmap_cons, not_elem_of_cons, !elem_of_app.
    split_and!; auto.
  - intros [(c' & H1 & H2) H3].
    assert (forall ty msg, Event kc.1 ty msg ∉ x ++ eff) as Hn by
      (intros ty msg [?|?]%elem_of_app; [by eapply Hx|by eapply H3]).
    split; (split; [|done]); exists c'; [|done]. split; [by right|done].
Qed.

Lemma update_loop_ok t clock (l : list (Z * connection)) :
  Forall (fun kc => conn_ok kc.1 kc.2) l -> NoDup l.*1 ->
  exists l' eff, update_loop (Some t) true clock l = Ok (l', eff) /\
    Forall (fun kc => conn_ok kc.1 kc.2) l' /\ NoDup l'.*1 /\ (forall key, key ∈ l'.*1 -> key ∈ l.*1) /\
    Forall (ticked t l' eff) l /\
    (forall key ty msg, Event key ty msg ∈ eff -> key ∈ l.*1).
Proof.
  induction l as [|[key c] l IH]; intros Hok Hnd; cbn [update_loop].
  { exists [], []. split_and!; try done; try constructor; set_solver. }
  apply Forall_cons_1 in Hok as [Hc Hok]. rewrite fmap_cons in Hnd. apply list.NoDup_cons in Hnd as [Hk Hnd].
  cbn [fst snd] in *.
  destruct (conn_update_ok (Some t) key c clock Hc) as (c' & eff1 & -> & Hc' & Hr & Hla & He1).
  cbn [mbind run_bind]. destruct (IH Hok Hnd) as (l' & eff & -> & Hok' & Hnd' & Hsub & Ht & Hev).
  rewrite list.Forall_forall in Ht. rewrite list.Forall_forall in He1.
  assert (forall ky ty msg, Event ky ty msg ∉ eff1) as Hn1
    by (intros ky ty msg Hin; apply He1 in Hin as [d Hd]; done).
  assert (forall kc, kc ∈ l -> kc.1 <> key) as Hne
    by (intros kc Hin E; apply Hk; rewrite <- E; by apply list_elem_of_fmap_2).
  rewrite (is_timeout_ext t c c' Hla).
  destruct (conn_is_timeout (Some t) c) eqn:Eto; cbn [mbind run_bind conn_do_timeout call_event_callback_func].
  - do 2 eexists. split; [reflexivity|]. split; [done|]. split; [done|]. split; [set_solver|].
    destruct Hc' as (Hcv & _). rewrite Hcv. split.
    + apply list.Forall_forall. intros kc [->|Hin]%elem_of_cons.
      * unfold ticked. cbn [fst snd]. rewrite Eto. split; [set_solver|].
        unfold conn_clean, send_udp_package. rewrite Hcv, Hr.
        split; apply elem_of_app; right; [by left|]. right. by left.
      * specialize (Ht kc Hin). specialize (Hne kc Hin).
        rewrite (app_assoc eff1), (app_assoc (eff1 ++ _)).
        apply (ticked_cons t l' eff kc (key, c) _); [done| |done].
        intros ty msg. unfold conn_clean, send_udp_package. rewrite !not_elem_of_app.
        split_and!; [apply Hn1|intros [[= <-]|]%elem_of_cons; set_solver|set_solver].
    + intros ky ty msg. unfold conn_clean, send_udp_package. rewrite !elem_of_app.
      intros [?|[[[= -> _ _]|?]%elem_of_cons|[?|?]]]; [by apply Hn1 in H|by left|set_solver|set_solver|].
      right. by eapply Hev.
  - do 2 eexists. split; [reflexivity|]. split; [by constructor|].
    split; [rewrite fmap_cons; constructor; [set_solver|done]|]. split; [set_solver|]. split.
    + apply list.Forall_forall. intros kc [->|Hin]%elem_of_cons.
      * unfold ticked. cbn [fst snd]. rewrite Eto. split; [exists c'; split; [left|done]|].
        intros ty msg. rewrite not_elem_of_app. split; [apply Hn1|]. intros Hin. by apply Hev in Hin.
      * apply (ticked_cons t l' eff kc (key, c') eff1); [by apply not_eq_sym, Hne|apply Hn1|by apply Ht].
    + intros ky ty msg [?|?]%elem_of_app; [by apply Hn1 in H|]. right. by eapply Hev.
Qed.

(** C40: the timer.  In whatever order the hash map is visited, a tick runs
    without failing and re-arms the timer unless the server was stopped.  A
    connection is dropped exactly when a packet has ever arrived and the last
    one is more than 10 s old; then eDisconnect is reported for it and a
    disconnect packet goes to its endpoint.  Every other connection stays, with
    its endpoint and arrival time, and nothing is reported for it. *)
Theorem timer_tick s now order :
  mgr_ok s -> order ≡ₚ map_to_list (mg_conns s) ->
  exists s' eff, handle_kcp_time s now order = Ok (s', eff) /\ mgr_ok s' /\
    mg_clock s' = u32 now /\ mg_timer s' = negb (mg_stopped s) /\
    dom (mg_conns s') ⊆ dom (mg_conns s) /\
    forall key c, mg_conns s !! key = Some c ->
      if bool_decide (conn_last c <> 0 /\ 10000 < u32 (u32 now - conn_last c)) then
        mg_conns s' !! key = None /\ Event key eDisconnect (cstr "timeout"%string) ∈ eff /\
        Udp_send (conn_remote c) (making_disconnect_packet key) ∈ eff
      else
        (exists c', mg_conns s' !! key = Some c' /\ conn_remote c' = conn_remote c /\
           conn_last c' = conn_last c) /\ forall ty msg, Event key ty msg ∉ eff.
Proof.
  intros Hs Hord. pose proof Hs as [H1 H2 H3 H4].
  destruct (update_loop_ok (u32 now) (u32 now) order) as (l' & eff & Hl & Hok & Hnd & Hsub & Ht & _).
  { apply list.Forall_forall. intros [key c] Hin. rewrite Hord in Hin. apply elem_of_map_to_list in Hin.
    by apply H1. }
  { rewrite Hord. apply NoDup_fst_map_to_list. }
  exists (mkManager (mg_stopped s) true (u32 now) (list_to_map l') (mg_cur_conv s) (mg_receiving s)
    (negb (mg_stopped s))), eff.
  assert (forall key, key ∈ l'.*1 -> is_Some (mg_conns s !! key)) as Hdom.
  { intros key Hin. apply Hsub in Hin. rewrite Hord in Hin. apply list_elem_of_fmap in Hin as ([key' c] & -> & Hin).
    apply elem_of_map_to_list in Hin. by exists c. }
  split; [|split; [|split; [done|split; [done|split]]]]; cbn [mg_conns].
  - unfold handle_kcp_time, update_all_kcp, hook_kcp_timer. cbn [mg_stopped].
    destruct s as [st cb ck cs cc rv tm]. cbn in *. subst cb.
    by destruct st; cbn; rewrite Hl.
  - constructor; cbn; try done.
    + intros key c Hin. apply elem_of_list_to_map_2 in Hin. rewrite list.Forall_forall in Hok.
      by apply (Hok (key, c)).
    + intros key [c Hin]. apply elem_of_list_to_map_2 in Hin. apply H2, Hdom.
      by apply (list_elem_of_fmap_2 fst) in Hin.
  - intros key [c Hin]%elem_of_dom. apply elem_of_list_to_map_2 in Hin. apply elem_of_dom, Hdom.
    by apply (list_elem_of_fmap_2 fst) in Hin.
  - intros key c Hc. rewrite list.Forall_forall in Ht.
    specialize (Ht (key, c)). unfold ticked in Ht. cbn [fst snd] in Ht.
    specialize (Ht ltac:(rewrite Hord; by apply elem_of_map_to_list)).
    pose proof (is_timeout_spec (u32 now) c) as Hto.
    case_bool_decide as Hb; rewrite <- Hto in Hb; [rewrite Hb in Ht|apply not_true_is_false in Hb; rewrite Hb in Ht].
    + destruct Ht as [Hn Ht]. split; [|done]. by apply not_elem_of_list_to_map_1.
    + destruct Ht as [(c' & Hin & Hc') Hn]. split; [|done]. exists c'. split; [|done].
      by apply elem_of_list_to_map_1.
Qed.

(** Disconnecting by force.  A known connection is removed, the
    application is told, and its endpoint gets a disconnect packet with its id;
    the other connections stay, and sending to it then fails with -1.  An
    unknown id changes nothing. *)
Theorem force_disconnect_drops s cv msg :
  mgr_ok s ->
  exists s' eff, force_disconnect s cv = Ok (s', eff) /\ mgr_ok s' /\
    mg_conns s' = delete cv (mg_conns s) /\
    eff = match mg_conns s !! cv with
          | Some c => [Event cv eDisconnect (cstr "server force disconnect"%string);
                       Udp_send (conn_remote c) (making_disconnect_packet cv)]
          | None => []
          end /\
    send_msg s' cv msg = Ok (s', -1).
Proof.
  intros Hs. pose proof Hs as [H1 H2 H3 H4]. unfold force_disconnect, find_by_conv.
  destruct (mg_conns s !! cv) as [c|] eqn:Ec.
  - unfold call_event_callback_func. rewrite H4. cbn [mbind run_bind remove_connection]. rewrite Ec.
    destruct (H1 cv c Ec) as (Hcv & _). unfold conn_clean, send_udp_package. rewrite Hcv.
    do 2 eexists. split; [reflexivity|]. split; [|split; [done|split; [done|]]].
    + constructor; cbn; try done.
      * intros key c' [_ Hin]%lookup_delete_Some. by apply H1.
      * intros key [c' [_ Hin]%lookup_delete_Some]. apply H2. by exists c'.
    + unfold send_msg, find_by_conv. cbn. by rewrite lookup_delete_eq.
  - do 2 eexists. split; [reflexivity|]. split; [done|]. split; [by rewrite delete_id|]. split; [done|].
    unfold send_msg, find_by_conv. by rewrite Ec.
Qed.
End ServerThms.

(** ** The theorems at a concrete server *)

(** A freshly started server satisfies the invariant. *)
Lemma started_ok {K} `{KcpSession K} `{!KcpSafe K} cur :
  1000 <= cur < 4294967296 -> mgr_ok (set_callback (new_manager (K := K) cur)).
Proof. intros Hc. constructor; cbn; try done. intros key [? Hk]. by rewrite lookup_empty in Hk. Qed.

(** A server on the KCP of ikcp.c, started, with one client at 127.0.0.1:5000
    under the id 1001. *)
Definition demo_session : KcpSession ikcpcb := ikcp_session demo_mem.
#[local] Existing Instance demo_session.
Definition demo_kcp_safe : KcpSafe ikcpcb := ikcp_safe demo_mem (fun _ => eq_refl).
#[local] Existing Instance demo_kcp_safe.

Definition demo_client : udp_endpoint := mkUdp 2130706433 5000.
Definition demo_started : manager (K := ikcpcb) := set_callback (new_manager 1000).
Definition demo_up : manager (K := ikcpcb) :=
  match handle_connect_packet demo_started demo_client with Ok (s, _) => s | _ => demo_started end.
Definition demo_push : list byte :=
  ikcp_encode_seg [] (mkSeg 1001 IKCP_CMD_PUSH 0 32 0 0 0 3 0 0 0 0 []) ++ cstr "abc"%string.

Lemma demo_up_ok : mgr_ok demo_up.
Proof.
  unfold demo_up. destruct (handle_connect_ok demo_started demo_client) as (s' & eff & -> & H & _); [|done|done].
  by apply started_ok.
Qed.


Lemma short_datagram_aborts_witness :
  handle_udp_receive_from demo_up false (cstr "hello"%string) demo_client = Abort.
Proof. apply (short_datagram_aborts demo_up (cstr "hello"%string) demo_client). vm_compute. split; [discriminate|reflexivity]. Defined.

Lemma kcp_packet_routed_witness :
  match mg_conns demo_up !! 1001 with
  | None => handle_kcp_packet demo_up demo_push demo_client = Ok (demo_up, [])
  | Some c => exists s' c' k1 r1 buf n,
      ks_input (conn_kcp c) demo_push = Ok (k1, r1) /\
      ks_recv k1 kcp_buf_size = Ok (conn_kcp c', buf, n) /\
      handle_kcp_packet demo_up demo_push demo_client
        = Ok (s', if n <=? 0 then [] else [Event 1001 eRcvMsg (take (Z.to_nat n) buf)]) /\
      mg_conns s' = <[1001 := c']> (mg_conns demo_up) /\ mg_cur_conv s' = mg_cur_conv demo_up /\
      conn_conv c' = 1001 /\ conn_remote c' = demo_client /\ conn_last c' = mg_clock demo_up
  end.
Proof.
  apply (kcp_packet_routed demo_up demo_push demo_client 1001 (drop 4 demo_push)).
  - exact demo_up_ok.
  - vm_compute. discriminate.
  - apply (bool_decide_unpack _). vm_compute. reflexivity.
  - vm_compute. reflexivity.
Defined.

(** The same server 3 ms after its start, when the client's first message
    arrives. *)
Definition demo_heard : manager (K := ikcpcb) :=
  let s := mkManager false true 3 (mg_conns demo_up) 1001 true true in
  match handle_kcp_packet s demo_push demo_client with Ok (s, _) => s | _ => demo_up end.

Lemma demo_heard_ok : mgr_ok demo_heard.
Proof.
  unfold demo_heard. cbv zeta.
  destruct (handle_kcp_ok (mkManager false true 3 (mg_conns demo_up) 1001 true true) demo_push demo_client)
    as (s' & eff & -> & H & _); [|vm_compute; discriminate| |done].
  - destruct demo_up_ok as [H1 H2 H3 H4]. by constructor.
  - apply (bool_decide_unpack _). vm_compute. reflexivity.
Qed.

Lemma timer_tick_witness :
  exists s' eff, handle_kcp_time demo_heard 12000 (map_to_list (mg_conns demo_heard)) = Ok (s', eff) /\ mgr_ok s' /\
    mg_clock s' = u32 12000 /\ mg_timer s' = negb (mg_stopped demo_heard) /\
    dom (mg_conns s') ⊆ dom (mg_conns demo_heard) /\
    forall key c, mg_conns demo_heard !! key = Some c ->
      if bool_decide (conn_last c <> 0 /\ 10000 < u32 (u32 12000 - conn_last c)) then
        mg_conns s' !! key = None /\ Event key eDisconnect (cstr "timeout"%string) ∈ eff /\
        Udp_send (conn_remote c) (making_disconnect_packet key) ∈ eff
      else
        (exists c', mg_conns s' !! key = Some c' /\ conn_remote c' = conn_remote c /\
           conn_last c' = conn_last c) /\ forall ty msg, Event key ty msg ∉ eff.
Proof.
  apply (timer_tick demo_heard 12000 (map_to_list (mg_conns demo_heard))); [exact demo_heard_ok|reflexivity].
Defined.
