(* ===== verification/ServerEvents.v ===== *)
(** * What the application sees of the server

    The server as a transition system: receive completions, timer ticks and the
    calls of the application, in any order ([server_step], [server_run]).  The
    theorem bounds what events the application can be given, whatever the
    datagrams are and however KCP behaves. *)

From stdpp Require Import gmap.
From Stdlib Require Strings.String.
Import Strings.String.StringSyntax.
#[local] Delimit Scope string_scope with string.
From S2P Require Import Prelude Codec KcpState KcpInput KcpSystem ConnectPacket KcpSession Server ServerThms.

Section ServerEvents.
Context {K : Type} `{KS : KcpSession K}.
Implicit Types (s : manager (K := K)).

(** ** Steps *)

Inductive server_step (s : manager (K := K)) : list effect -> manager (K := K) -> Prop :=
| step_datagram error data remote s' eff :
    mg_receiving s = true -> mg_cur_conv s < 4294967295 ->
    handle_udp_receive_from s error data remote = Ok (s', eff) -> server_step s eff s'
| step_time now order s' eff :
    mg_timer s = true -> order ≡ₚ map_to_list (mg_conns s) ->
    handle_kcp_time s now order = Ok (s', eff) -> server_step s eff s'
| step_send cv msg s' r :
    send_msg s cv msg = Ok (s', r) -> server_step s [] s'
| step_force cv s' eff :
    force_disconnect s cv = Ok (s', eff) -> server_step s eff s'
| step_stop order :
    order ≡ₚ map_to_list (mg_conns s) ->
    server_step s (stop_all s order).2 (stop_all s order).1.

Inductive server_run : manager (K := K) -> list effect -> manager (K := K) -> Prop :=
| run_done s : server_run s [] s
| run_step s eff s1 effs s2 :
    server_step s eff s1 -> server_run s1 effs s2 -> server_run s (eff ++ effs) s2.

(** ** Keys and events *)

(** Every connection is filed under its id, and its id was handed out. *)
Record keys_ok (s : manager (K := K)) : Prop := {
  ko_conv : map_Forall (fun key c => conn_conv c = key) (mg_conns s);
  ko_range : forall key, is_Some (mg_conns s !! key) -> key <= mg_cur_conv s;
  ko_cur : 1000 <= mg_cur_conv s < 4294967296
}.

Definition event_conv (e : effect) : option Z :=
  match e with Event cv _ _ => Some cv | Udp_send _ _ => None end.

(** The events of one step: of distinct live connections; a connection that is
    reported as disconnected is gone; new connections get new ids. *)
Record step_ok (s : manager (K := K)) (eff : list effect) (s' : manager (K := K)) : Prop := {
  so_keys : keys_ok s';
  so_cur : mg_cur_conv s <= mg_cur_conv s';
  so_new : forall key, is_Some (mg_conns s' !! key) -> is_Some (mg_conns s !! key) \/ mg_cur_conv s < key;
  so_nodup : NoDup (omap event_conv eff);
  so_live : forall cv ty msg, Event cv ty msg ∈ eff -> is_Some (mg_conns s !! cv) /\
    (ty = eRcvMsg \/ ty = eDisconnect /\ mg_conns s' !! cv = None)
}.

Lemma elem_of_events (eff : list effect) cv : cv ∈ omap event_conv eff <-> exists ty msg, Event cv ty msg ∈ eff.
Proof.
  rewrite list_elem_of_omap. split.
  - intros ([|cv' ty msg] & Hin & [= ->]). by exists ty, msg.
  - intros (ty & msg & Hin). by exists (Event cv ty msg).
Qed.

Lemma no_events (eff : list effect) :
  (forall cv ty msg, Event cv ty msg ∉ eff) -> omap event_conv eff = [].
Proof.
  intros H. destruct (omap event_conv eff) as [|cv l] eqn:E; [done|exfalso].
  assert (cv ∈ omap event_conv eff) as Hin by (rewrite E; left).
  apply elem_of_events in Hin as (ty & msg & Hin). by eapply H.
Qed.

(** A step without events that only changes the contents of connections. *)
Lemma update_conn_ok s s' cv c c' eff :
  keys_ok s -> mg_conns s !! cv = Some c -> conn_conv c' = cv ->
  mg_conns s' = <[cv := c']> (mg_conns s) -> mg_cur_conv s' = mg_cur_conv s ->
  eff = [] \/ (exists p, eff = [Event cv eRcvMsg p]) -> step_ok s eff s'.
Proof.
  intros [H1 H2 H3] Hc Hcv Hs' Hcur Heff.
  assert (forall key, is_Some (mg_conns s' !! key) -> is_Some (mg_conns s !! key)) as Hdom.
  { intros key. rewrite Hs'. destruct (decide (key = cv)) as [->|Hne]; [rewrite Hc; eauto|].
    by rewrite lookup_insert_ne. }
  constructor; [constructor| | | |].
  - rewrite Hs'. by apply map_Forall_insert_2.
  - rewrite Hcur. auto.
  - by rewrite Hcur.
  - lia.
  - auto.
  - destruct Heff as [->|[p ->]]; cbn; [constructor|]. apply list.NoDup_singleton.
  - destruct Heff as [->|[p ->]]; [set_solver|]. intros cv' ty msg [= -> -> ->]%list_elem_of_singleton.
    rewrite Hc. eauto.
Qed.

Lemma same_conns_ok s s' :
  keys_ok s -> mg_conns s' = mg_conns s -> mg_cur_conv s' = mg_cur_conv s -> step_ok s [] s'.
Proof.
  intros [H1 H2 H3] Hc Hcur. constructor; [constructor; by rewrite ?Hc, ?Hcur|lia|rewrite Hc; auto|constructor|].
  set_solver.
Qed.

Lemma hook_receive_ok s eff s' : step_ok s eff s' -> step_ok s eff (hook_udp_async_receive s').
Proof.
  unfold hook_udp_async_receive. case_match; [done|]. intros [[] ? ? ? ?]. by constructor.
Qed.

Lemma kcp_packet_step s data remote s' eff :
  keys_ok s -> handle_kcp_packet s data remote = Ok (s', eff) -> step_ok s eff s'.
Proof.
  intros Hs H. unfold handle_kcp_packet, find_by_conv in H. apply run_bind_Ok in H as ([cv|] & _ & H); [|done].
  destruct (mg_conns s !! cv) as [c|] eqn:Ec; [|injection H as <- <-; by apply same_conns_ok].
  apply run_bind_Ok in H as ([c' p] & Hin & H). unfold conn_input in Hin.
  apply run_bind_Ok in Hin as ([k1 r1] & _ & Hin). apply run_bind_Ok in Hin as ([[k2 buf] n] & _ & Hin).
  injection Hin as <- <-. apply run_bind_Ok in H as (eff1 & He & H). injection H as <- <-.
  pose proof (ko_conv _ Hs cv c Ec) as Hcv. cbn in Hcv.
  eapply (update_conn_ok s _ cv c); [done|done| |reflexivity|reflexivity|]; [done|].
  destruct (n <=? 0); [injection He as <-; by left|]. unfold call_event_callback_func in He.
  destruct (mg_callback s); [|done]. injection He as <-. right. cbn [conn_conv]. rewrite Hcv. eauto.
Qed.

Lemma connect_packet_step s remote s' eff :
  keys_ok s -> mg_cur_conv s < 4294967295 ->
  handle_connect_packet s remote = Ok (s', eff) -> step_ok s eff s'.
Proof.
  intros [H1 H2 H3] Hmax H. unfold handle_connect_packet, get_new_conv in H.
  rewrite u32_small in H by lia. unfold add_new_connection in H.
  apply run_bind_Ok in H as ([conns eff1] & H & Heq). injection Heq as <- <-.
  apply run_bind_Ok in H as (c & Hc & H). injection H as <- <-.
  unfold conn_create in Hc. destruct (ks_create _ _) as [k|]; [|done]. injection Hc as <-.
  set (cv := mg_cur_conv s + 1) in *.
  assert (mg_conns s !! cv = None) as Hnone.
  { destruct (mg_conns s !! cv) eqn:E; [|done]. specialize (H2 cv ltac:(rewrite E; eexists; done)). subst cv. lia. }
  cbn -[cv making_send_back_conv_packet]. rewrite Hnone. constructor.
  - constructor; cbn.
    + by apply map_Forall_insert_2.
    + intros key Hk. destruct (decide (key = cv)) as [->|Hne]; [done|].
      rewrite lookup_insert_ne in Hk by done. specialize (H2 key Hk). subst cv. lia.
    + subst cv. lia.
  - cbn. subst cv. lia.
  - cbn. intros key Hk. destruct (decide (key = cv)) as [->|Hne]; [right; subst cv; lia|].
    rewrite lookup_insert_ne in Hk by done. by left.
  - constructor.
  - set_solver.
Qed.

Lemma udp_only mgr remote (out : list (list byte)) :
  omap event_conv (concat (send_udp_package mgr remote <$> out)) = [].
Proof. induction out as [|d out IH]; [done|]. rewrite fmap_cons. cbn [concat]. rewrite omap_app, IH. by destruct mgr. Qed.

(** The loop of a tick reports at most one event per connection, eDisconnect,
    for those that it removes. *)
Lemma update_loop_events mgr cb clock (l : list (Z * connection (K := K))) l' eff :
  update_loop mgr cb clock l = Ok (l', eff) ->
  Forall (fun kc => conn_conv kc.2 = kc.1) l -> NoDup l.*1 ->
  Forall (fun kc => conn_conv kc.2 = kc.1) l' /\ (forall key, key ∈ l'.*1 -> key ∈ l.*1) /\
  NoDup l'.*1 /\ NoDup (omap event_conv eff) /\
  forall cv ty msg, Event cv ty msg ∈ eff -> ty = eDisconnect /\ cv ∈ l.*1 /\ (cv ∉ l'.*1).
Proof.
  revert l' eff. induction l as [|[key c] l IH]; intros l' eff H Hkc Hnd; cbn [update_loop] in H.
  { injection H as <- <-. split_and!; try done; try constructor; set_solver. }
  apply Forall_cons_1 in Hkc as [Hc Hkc]. rewrite fmap_cons in Hnd. apply list.NoDup_cons in Hnd as [Hk Hnd].
  cbn [fst snd] in *. apply run_bind_Ok in H as ([c1 eff1] & Hu & H). unfold conn_update_kcp in Hu.
  apply run_bind_Ok in Hu as ([k out] & _ & Hu). injection Hu as <- <-.
  pose proof (udp_only mgr (conn_remote c) out) as Hudp.
  assert (forall cv ty msg, Event cv ty msg ∉ concat (send_udp_package mgr (conn_remote c) <$> out)) as Hn.
  { intros cv ty msg Hin. assert (cv ∈ omap event_conv (concat (send_udp_package mgr (conn_remote c) <$> out)))
      as Hx by (apply elem_of_events; eauto). rewrite Hudp in Hx. set_solver. }
  set (eu := concat _) in *. clearbody eu. set (c1 := mkConn _ _ _ _) in *.
  destruct (conn_is_timeout mgr c1).
  - apply run_bind_Ok in H as (eff2 & He2 & H). apply run_bind_Ok in H as ([l2 eff3] & Hl & H).
    injection H as <- <-. destruct (IH _ _ Hl Hkc Hnd) as (I1 & I2 & I3 & I4 & I5).
    assert (omap event_conv eff2 = [] \/ omap event_conv eff2 = [key]) as Hone.
    { unfold conn_do_timeout, call_event_callback_func in He2. destruct mgr; [|injection He2 as <-; by left].
      destruct cb; [|done]. injection He2 as <-. right. cbn. by rewrite Hc. }
    assert (omap event_conv (conn_clean mgr c1) = []) as Hcl by (by destruct mgr).
    split; [done|]. split; [set_solver|]. split; [done|].
    rewrite !omap_app, Hudp, Hcl. cbn [app]. split.
    + destruct Hone as [->| ->]; [done|]. constructor; [|done].
      intros (ty & msg & Hin)%elem_of_events. apply I5 in Hin as (_ & Hin & _). done.
    + intros cv ty msg. rewrite !elem_of_app. intros [Hin|[Hin|[Hin|Hin]]].
      * by apply Hn in Hin.
      * unfold conn_do_timeout, call_event_callback_func in He2. destruct mgr; [|injection He2 as <-; set_solver].
        destruct cb; [|done]. injection He2 as <-. apply list_elem_of_singleton in Hin.
        injection Hin as -> -> ->. subst c1. cbn. rewrite Hc. split; [done|]. split; [by left|]. set_solver.
      * destruct mgr; set_solver.
      * apply I5 in Hin as (? & ? & ?). split; [done|]. split; [by right|done].
  - apply run_bind_Ok in H as ([l2 eff3] & Hl & H). injection H as <- <-.
    destruct (IH _ _ Hl Hkc Hnd) as (I1 & I2 & I3 & I4 & I5).
    split; [by constructor|]. split; [set_solver|]. split; [rewrite fmap_cons; constructor; [set_solver|done]|].
    rewrite omap_app, Hudp. split; [done|].
    intros cv ty msg [Hin|Hin]%elem_of_app; [by apply Hn in Hin|].
    apply I5 in Hin as (? & ? & ?). split; [done|]. split; [by right|]. rewrite fmap_cons, not_elem_of_cons.
    cbn. split; [|done]. intros ->. done.
Qed.

Lemma timer_step s now order s' eff :
  keys_ok s -> order ≡ₚ map_to_list (mg_conns s) ->
  handle_kcp_time s now order = Ok (s', eff) -> step_ok s eff s'.
Proof.
  intros [H1 H2 H3] Hord H. unfold handle_kcp_time in H. cbv zeta in H.
  apply run_bind_Ok in H as ([conns eff'] & H & Heq). unfold update_all_kcp in H.
  apply run_bind_Ok in H as ([l' eff''] & Hl & H). injection H as <- <-.
  assert (mg_conns s' = list_to_map l' /\ mg_cur_conv s' = mg_cur_conv s /\ eff'' = eff) as (Hcs & Hcur & ->).
  { unfold hook_kcp_timer in Heq. destruct (mg_stopped _); injection Heq as <- <-; done. }
  apply update_loop_events in Hl as (I1 & I2 & I3 & I4 & I5).
  - assert (forall key, key ∈ l'.*1 -> is_Some (mg_conns s !! key)) as Hdom.
    { intros key Hin. apply I2 in Hin. rewrite Hord in Hin.
      apply list_elem_of_fmap in Hin as ([key' c] & -> & Hin). apply elem_of_map_to_list in Hin. by exists c. }
    assert (forall key, is_Some (mg_conns s' !! key) -> key ∈ l'.*1) as Hin'.
    { intros key [c Hin]. rewrite Hcs in Hin. apply elem_of_list_to_map_2 in Hin.
      by apply (list_elem_of_fmap_2 fst) in Hin. }
    constructor; [constructor|lia|auto|done|].
    + intros key c Hin. rewrite Hcs in Hin. apply elem_of_list_to_map_2 in Hin.
      rewrite list.Forall_forall in I1. by apply (I1 (key, c)).
    + rewrite Hcur. auto.
    + by rewrite Hcur.
    + intros cv ty msg Hin. apply I5 in Hin as (-> & Hin & Hout). split.
      * rewrite Hord in Hin. apply list_elem_of_fmap in Hin as ([key' c] & -> & Hin).
        apply elem_of_map_to_list in Hin. by exists c.
      * right. split; [done|]. destruct (mg_conns s' !! cv) eqn:E; [|done]. destruct Hout. apply Hin'. by rewrite E.
  - apply list.Forall_forall. intros [key c] Hin. rewrite Hord in Hin. apply elem_of_map_to_list in Hin.
    by apply H1.
  - rewrite Hord. apply NoDup_fst_map_to_list.
Qed.

Lemma force_step s cv s' eff :
  keys_ok s -> force_disconnect s cv = Ok (s', eff) -> step_ok s eff s'.
Proof.
  intros Hs H. pose proof Hs as [H1 H2 H3]. unfold force_disconnect, find_by_conv in H.
  destruct (mg_conns s !! cv) as [c|] eqn:Ec; [|injection H as <- <-; by apply same_conns_ok].
  unfold call_event_callback_func, remove_connection in H. destruct (mg_callback s); [|done].
  rewrite Ec in H. cbn [mbind run_bind] in H. injection H as <- <-.
  assert (forall key, is_Some (delete cv (mg_conns s) !! key) -> is_Some (mg_conns s !! key)) as Hdom
    by (intros key [x [_ Hx]%lookup_delete_Some]; by exists x).
  constructor; [constructor|..]; cbn; auto; try lia.
  - by apply map_Forall_delete.
  - apply list.NoDup_singleton.
  - intros cv' ty msg [[= -> -> ->]|Hin]%elem_of_cons; [|set_solver].
    rewrite Ec. split; [by eexists|]. right. split; [done|]. apply lookup_delete_eq.
Qed.

Lemma stop_step s order : keys_ok s -> step_ok s (stop_all s order).2 (stop_all s order).1.
Proof.
  intros [H1 H2 H3]. cbn.
  assert (forall cv ty msg, Event cv ty msg ∉ concat ((fun kc => conn_clean (Some (mg_clock s)) kc.2) <$> order)) as Hn.
  { intros cv ty msg. induction order as [|kc order IH]; [set_solver|]. rewrite fmap_cons. cbn [concat].
    rewrite not_elem_of_app. split; [|done]. unfold conn_clean, send_udp_package. set_solver. }
  constructor; [constructor|..]; cbn; try done; try lia.
  - intros key [? Hk]. by rewrite lookup_empty in Hk.
  - intros key [? Hk]. by rewrite lookup_empty in Hk.
  - rewrite no_events; [constructor|done].
  - intros cv ty msg Hin. by apply Hn in Hin.
Qed.

Lemma server_step_ok s eff s' : keys_ok s -> server_step s eff s' -> step_ok s eff s'.
Proof.
  intros Hs [error data remote s1 eff1 _ Hmax H|now order s1 eff1 _ Hord H|cv msg s1 r H|cv s1 eff1 H|order _].
  - unfold handle_udp_receive_from in H. cbv zeta in H.
    apply run_bind_Ok in H as ([s2 eff2] & H & Heq). injection Heq as <- <-. apply hook_receive_ok.
    match type of H with context [handle_connect_packet ?x _] => set (s0 := x) in H end.
    assert (step_ok s0 eff2 s2) as Hok.
    { assert (keys_ok s0) by (destruct Hs; by constructor). case_if_in H.
      - case_if_in H; [by eapply connect_packet_step|by eapply kcp_packet_step].
      - injection H as <- <-. by apply same_conns_ok. }
    destruct Hok. by constructor.
  - by eapply timer_step.
  - unfold send_msg, find_by_conv in H. destruct (mg_conns s !! cv) as [c|] eqn:Ec.
    + apply run_bind_Ok in H as (c' & Hc & H). injection H as <- _. unfold conn_send_kcp_msg in Hc.
      apply run_bind_Ok in Hc as ([k r'] & _ & Hc). injection Hc as <-.
      eapply (update_conn_ok s _ cv c); [done|done| |reflexivity|reflexivity|by left].
      exact (ko_conv _ Hs cv c Ec).
    + injection H as <- _. by apply same_conns_ok.
  - by eapply force_step.
  - by apply stop_step.
Qed.

(** An id that was handed out and is not live stays silent. *)
Lemma dead_silent s effs s' cv :
  server_run s effs s' -> keys_ok s -> mg_conns s !! cv = None -> cv <= mg_cur_conv s ->
  forall ty msg, Event cv ty msg ∉ effs.
Proof.
  induction 1 as [s|s eff s1 effs s2 Hstep Hrun IH]; intros Hs Hnone Hcur ty msg; [set_solver|].
  destruct (server_step_ok _ _ _ Hs Hstep) as [Hs1 Hc1 Hnew _ Hlive].
  rewrite not_elem_of_app. split.
  - intros Hin. apply Hlive in Hin as [[c Hc] _]. congruence.
  - apply IH; [done| |lia]. destruct (mg_conns s1 !! cv) eqn:E; [|done].
    destruct (Hnew cv ltac:(rewrite E; by eexists)) as [[? ?]|?]; [congruence|lia].
Qed.

(** C14: the life of a conversation, as the application sees it.  In every run
    of the server, with arbitrary datagrams, ticks and calls in any order and
    whatever KCP does, only eRcvMsg and eDisconnect are ever reported (never
    eConnect); an event is only reported for an id already handed out, or
    handed out in this run; and after eDisconnect of a conversation nothing is
    reported for it any more: ids are not reused, as long as the counter does
    not wrap. *)
Theorem disconnect_is_final s effs s' :
  keys_ok s -> server_run s effs s' ->
  (forall cv ty msg, Event cv ty msg ∈ effs -> (ty = eRcvMsg \/ ty = eDisconnect) /\ cv <= mg_cur_conv s') /\
  (forall pre cv msg post, effs = pre ++ Event cv eDisconnect msg :: post ->
     forall ty msg', Event cv ty msg' ∉ post).
Proof.
  intros Hs Hrun. induction Hrun as [s|s eff s1 effs s2 Hstep Hrun IH].
  { split; [set_solver|]. intros [|? ?] ? ? ?; done. }
  destruct (server_step_ok _ _ _ Hs Hstep) as [Hs1 Hc1 Hnew Hnd Hlive].
  destruct (IH Hs1) as [IH1 IH2].
  assert (mg_cur_conv s1 <= mg_cur_conv s2) as Hmono.
  { clear - Hs1 Hrun. induction Hrun as [|s eff s1 effs s2 Hstep Hrun IH]; [lia|].
    destruct (server_step_ok _ _ _ Hs1 Hstep) as [Hs' ? _ _ _]. specialize (IH Hs'). lia. }
  split.
  - intros cv ty msg [Hin|Hin]%elem_of_app; [|by eapply IH1]. apply Hlive in Hin as [Hl Hty].
    split; [tauto|]. apply (ko_range _ Hs) in Hl. lia.
  - intros pre cv msg post Heq ty msg' Hin.
    assert (forall ty m, Event cv ty m ∈ eff -> cv <= mg_cur_conv s1) as Hle.
    { intros ty' m Hx. apply Hlive in Hx as [Hl _]. apply (ko_range _ Hs) in Hl. lia. }
    apply app_eq_app in Heq as (mid & [[-> Heq]|[-> Heq]]).
    + destruct mid as [|e mid]; cbn in Heq.
      * apply (IH2 [] cv msg post (eq_sym Heq) ty msg' Hin).
      * injection Heq as <- ->. destruct (Hlive cv eDisconnect msg) as [_ [?|[_ Hgone]]]; [set_solver|done|].
        apply elem_of_app in Hin as [Hin|Hin].
        -- rewrite omap_app in Hnd. cbn in Hnd. apply list.NoDup_app in Hnd as (_ & _ & Hnd).
           apply list.NoDup_cons in Hnd as [Hnd _]. apply Hnd, elem_of_events. eauto.
        -- eapply dead_silent; [exact Hrun|done|exact Hgone| |exact Hin]. apply (Hle eDisconnect msg). set_solver.
    + apply (IH2 mid cv msg post Heq ty msg' Hin).
Qed.
End ServerEvents.

(** The server of the previous file: a message arrives, the application
    disconnects the client, a tick passes. *)
#[local] Existing Instance demo_session.

Definition demo_tick (r : run (manager (K := ikcpcb) * list effect)) : manager (K := ikcpcb) * list effect :=
  match r with Ok x => x | _ => (demo_up, []) end.
Definition demo_s1 := demo_tick (handle_udp_receive_from demo_up false demo_push demo_client).
Definition demo_s2 := demo_tick (force_disconnect demo_s1.1 1001).
Definition demo_s3 := demo_tick (handle_kcp_time demo_s2.1 20 (map_to_list (mg_conns demo_s2.1))).
Definition demo_effs : list effect := demo_s1.2 ++ demo_s2.2 ++ demo_s3.2 ++ [].

Lemma disconnect_is_final_witness :
  omap event_conv demo_effs = [1001; 1001] /\
  (forall cv ty msg, Event cv ty msg ∈ demo_effs ->
     (ty = eRcvMsg \/ ty = eDisconnect) /\ cv <= mg_cur_conv demo_s3.1) /\
  (forall pre cv msg post, demo_effs = pre ++ Event cv eDisconnect msg :: post ->
     forall ty msg', Event cv ty msg' ∉ post).
Proof.
  split; [vm_compute; reflexivity|]. apply (disconnect_is_final demo_up demo_effs demo_s3.1).
  - constructor.
    + apply (bool_decide_unpack _). vm_compute. reflexivity.
    + intros key Hk. destruct (mo_range _ demo_up_ok key Hk) as [_ Hle]. exact Hle.
    + destruct (mo_cur _ demo_up_ok) as [H1 H2]. split; [exact H1|exact H2].
  - unfold demo_effs.
    apply (run_step demo_up demo_s1.2 demo_s1.1);
      [apply (step_datagram demo_up false demo_push demo_client); vm_compute; reflexivity|].
    apply (run_step demo_s1.1 demo_s2.2 demo_s2.1); [apply (step_force demo_s1.1 1001); vm_compute; reflexivity|].
    apply (run_step demo_s2.1 demo_s3.2 demo_s3.1).
    + apply (step_time demo_s2.1 20 (map_to_list (mg_conns demo_s2.1)));
        [vm_compute; reflexivity|reflexivity|vm_compute; reflexivity].
    + apply run_done.
Defined.
