(* ===== verification/Client.v ===== *)
(** * The client library

    Models src/client_lib: kcp_client.cpp (the connection state machine, the
    sending queue and the receive loop) and threadsafe_queue_mutex.hpp, over the
    interface [KcpSession].  The answers of the
    operating system (the clock, socket calls, received datagrams) are arguments;
    what the client does to the outside is returned as a list of effects in the
    order of the calls.  A send that fails is only logged by the code and is an
    effect like any other. *)

From Stdlib Require Strings.String.
Import Strings.String.StringSyntax.
#[local] Delimit Scope string_scope with string.
From S2P Require Import Prelude Codec KcpState ConnectPacket KcpSession.

(** ** kcp_client.hpp *)

Definition MAX_MSG_SIZE : Z := 1024 * 10.
Definition KCP_UPDATE_INTERVAL : Z := 5.
Definition KCP_RESEND_CONNECT_MSG_INTERVAL : Z := 500.
Definition KCP_CONNECT_TIMEOUT_TIME : Z := 5000.
Definition KCP_ERR_ALREADY_CONNECTED : Z := -2001.
Definition KCP_ERR_ADDRESS_INVALID : Z := -2002.
Definition KCP_ERR_CREATE_SOCKET_FAIL : Z := -2003.
Definition KCP_ERR_SET_NON_BLOCK_FAIL : Z := -2004.
Definition KCP_ERR_CONNECT_FUNC_FAIL : Z := -2010.
Definition KCP_ERR_KCP_CONNECT_TIMEOUT : Z := -2011.
Definition KCP_CONNECT_TIMEOUT_MSG : list byte := cstr "connect timeout"%string.

Module ClientEvent.
Inductive eEventType := eNotSet | eConnect | eConnectFailed | eDisconnect | eRcvMsg | eCountOfEventType.

#[export] Instance eEventType_eq_dec : EqDecision eEventType.
Proof. solve_decision. Defined.
End ClientEvent.
Export (hints) ClientEvent.

(** What the client does to the outside: a datagram sent to the server, and an
    event passed to the callback. *)
Inductive client_effect :=
| Sent (data : list byte)
| Notify (conv : Z) (event_type : ClientEvent.eEventType) (msg : list byte).

(** ** threadsafe_queue_mutex.hpp

    Every method runs under the mutex; the queue front is the list's head. *)
Module Queue.
Section Queue.
Context {T : Type}.

Definition size (q : list T) : Z := zlen q.
Definition push (q : list T) (new_value : T) : list T := q ++ [new_value].
Definition try_pop (q : list T) : list T * option T :=
  match q with [] => ([], None) | v :: q => (q, Some v) end.
Definition grab_all (q : list T) : list T * list T := ([], q).
Definition empty (q : list T) : bool := match q with [] => true | _ => false end.
End Queue.
End Queue.

(** ** The operating system *)

(** The results of the calls of init_udp_connect. *)
Record os_connect := mkOs {
  os_inet_pton : Z;
  os_socket : Z;
  os_getfl : Z;
  os_setfl : Z;
  os_connect_ret : Z
}.

(** What recv finds: a datagram, or a failure with this errno. *)
Inductive recv_result := Received (d : list byte) | Recv_failed (errno : Z).

Definition EAGAIN : Z := 11.

Section Client.
Context {K : Type} `{KcpSession K}.

Record kcp_client := mkClient {
  in_connect_stage : bool;
  connect_start_time : Z;
  last_send_connect_msg_time : Z;
  connect_succeed : bool;
  pevent_func : bool;                  (* the callback is set *)
  send_msg_queue : list (list byte);
  udp_port_bind : Z;
  server_ip : list byte;
  server_port : Z;
  udp_socket : Z;
  p_kcp : option K
}.

#[local] Hint Extern 1 (Update (R := kcp_client) ?p) =>
  derive_update (fun s => mkClient (in_connect_stage s) (connect_start_time s)
    (last_send_connect_msg_time s) (connect_succeed s) (pevent_func s) (send_msg_queue s)
    (udp_port_bind s) (server_ip s) (server_port s) (udp_socket s) (p_kcp s)) p : typeclass_instances.

Definition new_client : kcp_client := mkClient false 0 0 false false [] 0 [] 0 (-1) None.

Definition set_event_callback (s : kcp_client) : kcp_client := s <| pevent_func := true |>.

(** Calling a null function pointer is undefined. *)
Definition notify (s : kcp_client) (conv : Z) (ev : ClientEvent.eEventType) (msg : list byte)
  : run (list client_effect) :=
  if pevent_func s then Ok [Notify conv ev msg] else Undef.

Definition client_init_kcp (s : kcp_client) (conv : Z) : run kcp_client :=
  match ks_create conv 2 with
  | Some k => Ok (s <| p_kcp := Some k |>)
  | None => Undef
  end.

(** ** Connecting *)

Definition init_udp_connect (s : kcp_client) (os : os_connect) : kcp_client * Z :=
  if os_inet_pton os <=? 0 then (s, KCP_ERR_ADDRESS_INVALID)
  else
    let s := s <| udp_socket := os_socket os |> in
    if os_socket os <? 0 then (s, KCP_ERR_CREATE_SOCKET_FAIL)
    else if os_getfl os =? -1 then (s, KCP_ERR_SET_NON_BLOCK_FAIL)
    else if os_setfl os =? -1 then (s, KCP_ERR_SET_NON_BLOCK_FAIL)
    else if os_connect_ret os <? 0 then (s, KCP_ERR_CONNECT_FUNC_FAIL)
    else (s, 0).

Definition connect_async (s : kcp_client) (bind : Z) (ip : list byte) (port : Z)
    (os : os_connect) (now : Z) : kcp_client * Z :=
  if negb (udp_socket s =? -1) then (s, KCP_ERR_ALREADY_CONNECTED)
  else
    let s := s <| udp_port_bind := bind |> <| server_ip := ip |> <| server_port := port |> in
    let '(s, ret) := init_udp_connect s os in
    if ret <? 0 then (s, ret)
    else (s <| in_connect_stage := true |> <| connect_start_time := now |>, 0).

Definition need_send_connect_packet (s : kcp_client) (cur_clock : Z) : bool :=
  u64 (cur_clock - last_send_connect_msg_time s) >? KCP_RESEND_CONNECT_MSG_INTERVAL.

Definition connect_timeout (s : kcp_client) (cur_clock : Z) : bool :=
  u64 (cur_clock - connect_start_time s) >? KCP_CONNECT_TIMEOUT_TIME.

Definition do_send_connect_packet (s : kcp_client) (cur_clock : Z) : kcp_client * list client_effect :=
  (s <| last_send_connect_msg_time := cur_clock |>, [Sent making_connect_packet]).

(** The buffer of 1400 bytes is zero where the datagram does not reach; the
    number is read from it without regard to the length received. *)
Definition try_recv_connect_back_packet (s : kcp_client) (r : recv_result)
  : run (kcp_client * list client_effect) :=
  match r with
  | Recv_failed _ => Ok (s, [])
  | Received d =>
      let d := take 1400 d in
      let recv_buf := d ++ replicate (1400 - length d) Byte.x00 in
      if (zlen d >? 0) && is_send_back_conv_packet recv_buf (zlen d) then
        conv ← grab_conv_from_send_back_conv_packet recv_buf;
        s ← client_init_kcp s conv;
        let s := s <| in_connect_stage := false |> <| connect_succeed := true |> in
        eff ← notify s (match p_kcp s with Some k => ks_conv k | None => 0 end)
                ClientEvent.eConnect (cstr "connect succeed"%string);
        Ok (s, eff)
      else Ok (s, [])
  end.

Definition do_asio_kcp_connect (s : kcp_client) (cur_clock : Z) (r : recv_result)
  : run (kcp_client * list client_effect) :=
  if connect_timeout s cur_clock then
    eff ← notify s 0 ClientEvent.eConnectFailed KCP_CONNECT_TIMEOUT_MSG;
    Ok (s <| in_connect_stage := false |>, eff)
  else
    let '(s, eff1) := if need_send_connect_packet s cur_clock then do_send_connect_packet s cur_clock
                      else (s, []) in
    '(s, eff2) ← try_recv_connect_back_packet s r;
    Ok (s, eff1 ++ eff2).

(** ** Sending *)

Definition client_send_msg (s : kcp_client) (msg : list byte) : kcp_client :=
  s <| send_msg_queue := Queue.push (send_msg_queue s) msg |>.

Fixpoint send_loop (k : K) (msgs : list (list byte)) : run K :=
  match msgs with
  | [] => Ok k
  | msg :: msgs => '(k, _) ← ks_send k msg; send_loop k msgs
  end.

Definition do_send_msg_in_queue (s : kcp_client) (k : K) : run (kcp_client * K) :=
  let '(q, msgs) := Queue.grab_all (send_msg_queue s) in
  k ← send_loop k msgs;
  Ok (s <| send_msg_queue := q |> <| p_kcp := Some k |>, k).

(** ** Receiving *)

Definition recv_udp_package_from_kcp (k : K) : run (K * list byte) :=
  '(k, kcp_buf, kcp_recvd_bytes) ← ks_recv k MAX_MSG_SIZE;
  Ok (k, if kcp_recvd_bytes <? 0 then [] else take (Z.to_nat kcp_recvd_bytes) kcp_buf).

(** The loop that passes the messages received to the callback. *)
Fixpoint recv_loop (fuel : nat) (pevent : bool) (k : K) : run (K * list client_effect) :=
  match fuel with
  | O => Undef
  | S fuel =>
      '(k, msg) ← recv_udp_package_from_kcp k;
      if zlen msg >? 0 then
        '(k', eff) ← recv_loop fuel pevent k;
        Ok (k', (if pevent then [Notify (ks_conv k) ClientEvent.eRcvMsg msg] else []) ++ eff)
      else Ok (k, [])
  end.

Definition handle_udp_packet (s : kcp_client) (k : K) (udp_packet : list byte)
  : run (kcp_client * K * list client_effect) :=
  if is_disconnect_packet udp_packet (zlen udp_packet) then
    Ok (s, k, if pevent_func s then [Notify (ks_conv k) ClientEvent.eDisconnect udp_packet] else [])
  else
    '(k, _) ← ks_input k udp_packet;
    '(k, eff) ← recv_loop (S (ks_backlog k)) (pevent_func s) k;
    Ok (s <| p_kcp := Some k |>, k, eff).

(** The text of the error is taken from the stream before it is written. *)
Definition do_recv_udp_packet_in_loop (s : kcp_client) (k : K) (r : recv_result)
  : run (kcp_client * K * list client_effect) :=
  match r with
  | Recv_failed err =>
      if err =? EAGAIN then Ok (s, k, [])
      else eff ← notify s (ks_conv k) ClientEvent.eDisconnect []; Ok (s, k, eff)
  | Received d =>
      let d := take (Z.to_nat (MAX_MSG_SIZE * 2)) d in
      if zlen d =? 0 then Ok (s, k, []) else handle_udp_packet s k d
  end.

(** [now] is iclock64() and [r] what recv finds. *)
Definition client_update (s : kcp_client) (now : Z) (r : recv_result)
  : run (kcp_client * list client_effect) :=
  if in_connect_stage s then do_asio_kcp_connect s now r
  else if connect_succeed s then
    match p_kcp s with
    | None => Undef
    | Some k =>
        '(s, k) ← do_send_msg_in_queue s k;
        '(s, k, eff) ← do_recv_udp_packet_in_loop s k r;
        '(k, out) ← ks_update k now;
        Ok (s <| p_kcp := Some k |>, eff ++ (Sent <$> out))
    end
  else Ok (s, []).
End Client.
