(* ===== verification/ClientWrap.v ===== *)
(** * The client facade and its work thread

    Models src/client_lib/kcp_client_wrap.cpp: the facade that drives a kcp_client
    either in the caller's thread (the blocking connect) or in a work thread, and
    the flags by which stop() ends that thread. *)

From Stdlib Require Strings.String.
Import Strings.String.StringSyntax.
#[local] Delimit Scope string_scope with string.
From S2P Require Import Prelude Codec KcpState ConnectPacket KcpSession Client.

Section ClientWrap.
Context {K : Type} `{KcpSession K}.

Record kcp_client_wrap := mkWrap {
  w_client : kcp_client (K := K);
  connect_result : Z;            (* 0 connected, 1 waiting, < 0 the error *)
  w_pevent_func : bool;          (* the application set a callback *)
  workthread_want_stop : bool;
  workthread_stopped : bool;
  workthread_start : bool;
  kcp_last_update_clock : Z
}.

#[local] Hint Extern 1 (Update (R := kcp_client_wrap) ?p) =>
  derive_update (fun w => mkWrap (w_client w) (connect_result w) (w_pevent_func w)
    (workthread_want_stop w) (workthread_stopped w) (workthread_start w)
    (kcp_last_update_clock w)) p : typeclass_instances.

(** The constructor sets the facade's own callback in the client. *)
Definition new_wrap : kcp_client_wrap :=
  mkWrap (set_event_callback new_client) 1 false false false false 0.

Definition wrap_set_event_callback (w : kcp_client_wrap) : kcp_client_wrap := w <| w_pevent_func := true |>.

(** What the callback of the application is given. *)
Definition handle_client_event_callback (w : kcp_client_wrap) (conv : Z)
    (event_type : ClientEvent.eEventType) (msg : list byte) : kcp_client_wrap * list client_effect :=
  let pass := if w_pevent_func w then [Notify conv event_type msg] else [] in
  match event_type with
  | ClientEvent.eConnect => (w <| connect_result := 0 |>, pass)
  | ClientEvent.eConnectFailed => (w <| connect_result := KCP_ERR_KCP_CONNECT_TIMEOUT |>, pass)
  | ClientEvent.eRcvMsg | ClientEvent.eDisconnect => (w, pass)
  | _ => (w, [])
  end.

(** The client's effects, its events handled by the facade. *)
Fixpoint deliver (w : kcp_client_wrap) (eff : list client_effect) : kcp_client_wrap * list client_effect :=
  match eff with
  | [] => (w, [])
  | Sent d :: eff => let '(w, out) := deliver w eff in (w, Sent d :: out)
  | Notify conv ev msg :: eff =>
      let '(w, out1) := handle_client_event_callback w conv ev msg in
      let '(w, out2) := deliver w eff in
      (w, out1 ++ out2)
  end.

(** kcp_client_.update(). *)
Definition wrap_update (w : kcp_client_wrap) (now : Z) (r : recv_result)
  : run (kcp_client_wrap * list client_effect) :=
  '(c, eff) ← client_update (w_client w) now r;
  Ok (deliver (w <| w_client := c |>) eff).

(** The loop, one iteration for each entry of [env], the clock and what recv
    finds then; [None] when it is still waiting after the last. *)
Fixpoint do_asio_kcp_connect_loop (w : kcp_client_wrap) (env : list (Z * recv_result))
  : run (kcp_client_wrap * list client_effect * option Z) :=
  if negb (connect_result w =? 1) then Ok (w, [], Some (connect_result w))
  else
    match env with
    | [] => Ok (w, [], None)
    | (now, r) :: env =>
        '(w, eff1) ← wrap_update w now r;
        '(w, eff2, ret) ← do_asio_kcp_connect_loop w env;
        Ok (w, eff1 ++ eff2, ret)
    end.

(** ** The work thread *)

(** What the thread does first. *)
Definition workthread_begin (w : kcp_client_wrap) (now : Z) : kcp_client_wrap :=
  w <| workthread_start := true |> <| kcp_last_update_clock := u64 (now - KCP_UPDATE_INTERVAL) |>.

(** One iteration of its loop; the flag says that the thread has ended. *)
Definition workthread_iter (w : kcp_client_wrap) (cur_clock : Z) (r : recv_result)
  : run (kcp_client_wrap * list client_effect * bool) :=
  if workthread_want_stop w then
    Ok (w <| workthread_start := false |> <| workthread_stopped := true |>, [], true)
  else if (u64 (cur_clock - kcp_last_update_clock w) >=? KCP_UPDATE_INTERVAL)
          || (cur_clock <? kcp_last_update_clock w) then
    '(w, eff) ← wrap_update (w <| kcp_last_update_clock := cur_clock |>) cur_clock r;
    Ok (w, eff, false)
  else Ok (w, [], false).

(** [ret] is the result of pthread_create, [now] the clock the thread reads when
    it begins; the caller waits until it has begun. *)
Definition start_workthread (w : kcp_client_wrap) (ret now : Z) : run (kcp_client_wrap * bool) :=
  if workthread_start w then Abort
  else if negb (ret =? 0) then Ok (w, false)
  else Ok (workthread_begin w now, true).

(** ** The public methods *)

Definition wrap_connect (w : kcp_client_wrap) (bind : Z) (ip : list byte) (port : Z)
    (os : os_connect) (now : Z) (env : list (Z * recv_result)) (ret_create begin : Z)
  : run (kcp_client_wrap * list client_effect * option Z) :=
  let '(c, ret) := connect_async (w_client w) bind ip port os now in
  let w := w <| w_client := c |> in
  if ret <? 0 then Ok (w, [], Some ret)
  else
    '(w, eff, ret) ← do_asio_kcp_connect_loop w env;
    match ret with
    | Some 0 => '(w, _) ← start_workthread w ret_create begin; Ok (w, eff, ret)
    | _ => Ok (w, eff, ret)
    end.

Definition wrap_connect_async (w : kcp_client_wrap) (bind : Z) (ip : list byte) (port : Z)
    (os : os_connect) (now ret_create begin : Z) : run (kcp_client_wrap * Z) :=
  let '(c, ret) := connect_async (w_client w) bind ip port os now in
  let w := w <| w_client := c |> in
  if ret <? 0 then Ok (w, ret)
  else '(w, _) ← start_workthread w ret_create begin; Ok (w, 0).

Definition wrap_send_msg (w : kcp_client_wrap) (msg : list byte) : kcp_client_wrap :=
  w <| w_client := client_send_msg (w_client w) msg |>.

(** stop() up to the wait; the wait is over when the flag is set. *)
Definition stop_request (w : kcp_client_wrap) : kcp_client_wrap :=
  if workthread_start w then w <| workthread_want_stop := true |> else w.
Definition stop_waits (w : kcp_client_wrap) : bool := negb (workthread_stopped w).
End ClientWrap.
