(* ===== verification/ClientThms.v ===== *)
(** * Theorems about the client library

    Proved against the interface [KcpSafe]: the connect handshake between client
    and server, the safety of a connected client, the blocking connect and the end
    of the work thread. *)

From stdpp Require Import gmap.
From Stdlib Require Strings.String.
Import Strings.String.StringSyntax.
#[local] Delimit Scope string_scope with string.
From S2P Require Import Prelude Codec KcpState KcpInput KcpFlush KcpSystem ConnectPacket KcpSession.
From S2P Require Import Server ServerThms Client ClientWrap.

(** Where the work thread and the application's thread are: not started, in the
    loop, ended; outside stop(), waiting in it. *)
Inductive worker_pc := W_none | W_running | W_exited.
Inductive main_pc := M_free | M_stopping.

#[export] Instance worker_pc_eq_dec : EqDecision worker_pc.
Proof. solve_decision. Defined.

Section ClientThms.
Context {K : Type} `{KS : KcpSession K} `{SF : !KcpSafe K}.
Implicit Types (s : kcp_client (K := K)) (w : kcp_client_wrap (K := K)).

(** ** Reading the server's answer *)

Lemma u32_digits cv : 0 <= cv < 4294967296 -> (length (print_u32 cv) <= 10)%nat.
Proof. intros Hc. apply print_dec_length. change (10 ^ Z.of_nat 10) with 10000000000. lia. Qed.

Lemma send_back_shape cv : 0 <= cv < 4294967296 ->
  making_send_back_conv_packet cv = ASIO_KCP_SEND_BACK_CONV_PACKET ++ [Byte.x20] ++ print_u32 cv /\
  sizeof_lit ASIO_KCP_SEND_BACK_CONV_PACKET < zlen (making_send_back_conv_packet cv) /\
  (length (making_send_back_conv_packet cv) <= 60)%nat.
Proof.
  intros Hc. destruct (snprintf_su_eq ASIO_KCP_SEND_BACK_CONV_PACKET cv Hc) as [Hs Hl]; [cbn; lia|].
  fold (making_send_back_conv_packet cv) in Hs, Hl. split; [done|]. split; [exact Hl|].
  rewrite Hs, !length_app. pose proof (u32_digits cv Hc). cbn [length].
  change (length ASIO_KCP_SEND_BACK_CONV_PACKET) with 39%nat. lia.
Qed.

(** The client accepts the server's answer and opens a control block for the id
    in it. *)
Lemma try_recv_send_back s cv :
  0 <= cv < 4294967296 -> pevent_func s = true ->
  exists k, try_recv_connect_back_packet s (Received (making_send_back_conv_packet cv))
    = Ok (mkClient false (connect_start_time s) (last_send_connect_msg_time s) true true (send_msg_queue s)
            (udp_port_bind s) (server_ip s) (server_port s) (udp_socket s) (Some k),
          [Notify cv ClientEvent.eConnect (cstr "connect succeed"%string)]) /\
    ks_ok k /\ ks_conv k = cv /\ ks_pending k = 0.
Proof.
  intros Hc Hev. destruct (send_back_shape cv Hc) as (Hs & Hl & Hlen).
  unfold try_recv_connect_back_packet. rewrite take_ge by lia.
  set (p := making_send_back_conv_packet cv) in *.
  assert ((zlen p >? 0) && is_send_back_conv_packet (p ++ replicate (1400 - length p) Byte.x00) (zlen p) = true) as ->.
  { apply andb_true_iff. split; [apply Z.gtb_lt; unfold sizeof_lit in Hl; lia|].
    unfold is_send_back_conv_packet. apply andb_true_iff. split; [by apply Z.gtb_lt|].
    rewrite Hs, <- app_assoc. apply starts_with_app. }
  replace (1400 - length p)%nat with (S (1399 - length p)) by lia. cbn [replicate].
  unfold grab_conv_from_send_back_conv_packet, p, making_send_back_conv_packet.
  rewrite grab_spec by (done || (cbn; lia)). cbn [mbind run_bind].
  destruct (ks_create_ok cv 2) as (k & Hk & Hok & Hkc & Hp). unfold client_init_kcp. rewrite Hk.
  exists k. split; [|done]. destruct s. cbn in *. subst. done.
Qed.

(** ** The handshake *)

(** C10: client and server establish a session.  A client that is trying to
    connect and has not sent for 500 ms sends a connect packet; the server answers
    it with one packet; when the client reads the answer before the time-out, it
    reports eConnect, and both sides hold a control block for the same, new
    conversation id, the server's under the client's endpoint.  The server's other
    connections are untouched. *)
Theorem session_established s t1 t2 (srv : manager (K := K)) ep :
  mgr_ok srv -> mg_cur_conv srv < 4294967295 ->
  in_connect_stage s = true -> pevent_func s = true ->
  500 < u64 (t1 - last_send_connect_msg_time s) -> u64 (t1 - connect_start_time s) <= 5000 ->
  u64 (t2 - t1) <= 500 -> u64 (t2 - connect_start_time s) <= 5000 ->
  exists s1 srv' reply s2 k conn cv,
    client_update s t1 (Recv_failed EAGAIN) = Ok (s1, [Sent making_connect_packet]) /\
    handle_udp_receive_from srv false making_connect_packet ep = Ok (srv', [Udp_send ep reply]) /\
    client_update s1 t2 (Received reply)
      = Ok (s2, [Notify cv ClientEvent.eConnect (cstr "connect succeed"%string)]) /\
    in_connect_stage s2 = false /\ connect_succeed s2 = true /\
    p_kcp s2 = Some k /\ ks_ok k /\ ks_conv k = cv /\
    mg_conns srv' = <[cv := conn]> (mg_conns srv) /\ mg_conns srv !! cv = None /\ mgr_ok srv' /\
    conn_remote conn = ep /\ ks_conv (conn_kcp conn) = cv.
Proof.
  intros Hsrv Hmax Hst Hev Hsend Hstart Hgap Hstart2.
  destruct (connect_answer srv ep Hsrv Hmax) as (srv' & k' & Hh & Hnew & Hnone & Hc & Hkc & Hok').
  set (cv := mg_cur_conv srv + 1) in *. pose proof (mo_cur _ Hsrv) as Hcur.
  set (s1 := mkClient true (connect_start_time s) t1 (connect_succeed s) true (send_msg_queue s)
               (udp_port_bind s) (server_ip s) (server_port s) (udp_socket s) (p_kcp s)).
  destruct (try_recv_send_back s1 cv) as (k & Htry & Hok & Hkcv & _); [subst cv; lia|done|].
  eexists s1, srv', (making_send_back_conv_packet cv), _, k, (mkConn cv k' ep 0), cv.
  split; [|split; [exact Hh|split]].
  - unfold client_update, do_asio_kcp_connect, connect_timeout, need_send_connect_packet. rewrite Hst.
    unfold KCP_CONNECT_TIMEOUT_TIME, KCP_RESEND_CONNECT_MSG_INTERVAL. rewrite !Z.gtb_ltb.
    rewrite (proj2 (Z.ltb_ge _ _) Hstart), (proj2 (Z.ltb_lt _ _) Hsend).
    subst s1. destruct s. cbn in *. subst. reflexivity.
  - unfold client_update, do_asio_kcp_connect, connect_timeout, need_send_connect_packet.
    change (in_connect_stage s1) with true. change (connect_start_time s1) with (connect_start_time s).
    change (last_send_connect_msg_time s1) with t1.
    unfold KCP_CONNECT_TIMEOUT_TIME, KCP_RESEND_CONNECT_MSG_INTERVAL. rewrite !Z.gtb_ltb.
    rewrite (proj2 (Z.ltb_ge _ _) Hstart2), (proj2 (Z.ltb_ge _ _) Hgap), Htry. reflexivity.
  - done.
Qed.

(** ** A connected client *)

Lemma client_send_loop_ok (msgs : list (list byte)) (k : K) :
  ks_ok k -> Forall (fun m => zlen m < 2147483648) msgs ->
  exists k', send_loop k msgs = Ok k' /\ ks_ok k' /\ ks_conv k' = ks_conv k /\ ks_pending k' = ks_pending k.
Proof.
  intros Hk Hm. revert k Hk. induction Hm as [|m msgs Hm Hms IH]; intros k Hk; cbn [send_loop]; [by eauto|].
  destruct (ks_send_ok k m Hk Hm) as (k1 & r & -> & Hk1 & Hc1 & Hp1). cbn [mbind run_bind].
  destruct (IH k1 Hk1) as (k2 & -> & Hk2 & Hc2 & Hp2). exists k2. split_and!; [done..|congruence|congruence].
Qed.

(** The receive loop returns: every message it reports uses up some of the
    backlog. *)
Lemma recv_loop_ok fuel pevent (k : K) :
  ks_ok k -> (ks_backlog k < fuel)%nat ->
  exists k' eff, recv_loop fuel pevent k = Ok (k', eff) /\ ks_ok k' /\ ks_conv k' = ks_conv k /\
    ks_pending k' = ks_pending k /\
    Forall (fun e => exists msg, e = Notify (ks_conv k) ClientEvent.eRcvMsg msg /\ msg <> []) eff.
Proof.
  revert k. induction fuel as [|fuel IH]; intros k Hk Hf; [lia|]. cbn [recv_loop].
  unfold recv_udp_package_from_kcp.
  destruct (ks_recv_ok k MAX_MSG_SIZE Hk) as (k1 & out & r & -> & Hk1 & Hc1 & Hp1 & _ & Hb & _); [done|].
  cbn [mbind run_bind]. case_if.
  - destruct (r <? 0) eqn:Er; [cbn in *; lia|]. zbool.
    destruct (IH k1 Hk1) as (k2 & eff & -> & Hk2 & Hc2 & Hp2 & Heff); [specialize (Hb Er); lia|].
    cbn [mbind run_bind]. do 2 eexists. split; [reflexivity|]. split; [done|]. split; [congruence|].
    split; [congruence|]. rewrite Hc1 in Heff |- *. apply Forall_app. split; [|done].
    destruct pevent; [|constructor]. constructor; [|constructor]. eexists. split; [done|].
    intros E. rewrite E in *. cbn in *. lia.
  - do 2 eexists. split; [reflexivity|]. split_and!; [done..|constructor].
Qed.

(** What the client may report when recv finds [r]. *)
Definition client_event_ok (conv : Z) (r : recv_result) (e : client_effect) : Prop :=
  match e with
  | Sent _ => True
  | Notify c ev msg => c = conv /\
      (ev = ClientEvent.eRcvMsg /\ msg <> [] \/
       ev = ClientEvent.eDisconnect /\
         match r with
         | Received d => msg = take (Z.to_nat (MAX_MSG_SIZE * 2)) d /\ is_disconnect_packet msg (zlen msg) = true
         | Recv_failed err => err <> EAGAIN
         end)
  end.

Lemma client_recv_ok s (k : K) r :
  pevent_func s = true -> ks_ok k -> ks_pending k + 20480 < 2147483648 ->
  exists s' k' eff, do_recv_udp_packet_in_loop s k r = Ok (s', k', eff) /\
    ks_ok k' /\ ks_conv k' = ks_conv k /\ ks_pending k' <= ks_pending k + 20480 /\
    send_msg_queue s' = send_msg_queue s /\ in_connect_stage s' = in_connect_stage s /\
    connect_succeed s' = connect_succeed s /\ pevent_func s' = true /\
    Forall (client_event_ok (ks_conv k) r) eff.
Proof.
  intros Hev Hk Hroom. unfold do_recv_udp_packet_in_loop. destruct r as [d|err].
  - set (d' := take _ d). assert (zlen d' <= 20480) as Hd.
    { subst d'. rewrite length_take. change (Z.to_nat (MAX_MSG_SIZE * 2)) with (Z.to_nat 20480). lia. }
    case_if; [do 3 eexists; split; [reflexivity|]; split_and!; [done..|lia| | | | |]; done|].
    unfold handle_udp_packet. rewrite Hev. destruct (is_disconnect_packet d' (zlen d')) eqn:Ed.
    + do 3 eexists. split; [reflexivity|]. split_and!; [done..|lia| | | | |]; try done.
      constructor; [|constructor]. split; [done|]. right. done.
    + destruct (ks_input_ok k d' Hk) as (k1 & r1 & -> & Hk1 & Hc1 & Hp1); [lia|]. cbn [mbind run_bind].
      destruct (recv_loop_ok (S (ks_backlog k1)) true k1 Hk1) as (k2 & eff & -> & Hk2 & Hc2 & Hp2 & Heff); [lia|].
      cbn [mbind run_bind]. do 3 eexists. split; [reflexivity|]. cbn.
      split_and!; try done; try congruence; [lia|]. revert Heff. apply Forall_impl.
      intros e (msg & -> & Hm). rewrite Hc1. split; [done|]. by left.
  - case_if; [do 3 eexists; split; [reflexivity|]; split_and!; [done..|lia| | | | |]; done|].
    unfold notify. rewrite Hev. cbn [mbind run_bind]. do 3 eexists. split; [reflexivity|].
    split_and!; [done..|lia| | | | |]; try done. constructor; [|constructor]. split; [done|]. right. done.
Qed.


(** ** The blocking connect *)

(** What recv finds contains a readable number if it looks like the server's
    answer. *)
Definition answer_ok (r : recv_result) : Prop :=
  match r with
  | Recv_failed _ => True
  | Received d =>
      let d := take 1400 d in
      let buf := d ++ replicate (1400 - length d) Byte.x00 in
      is_send_back_conv_packet buf (zlen d) = true ->
      exists cv, grab_conv_from_send_back_conv_packet buf = Ok cv
  end.

Definition connecting (start : Z) w : Prop :=
  connect_result w = 1 /\ in_connect_stage (w_client w) = true /\ pevent_func (w_client w) = true /\
  connect_start_time (w_client w) = start /\ workthread_start w = false.

Definition connected w : Prop :=
  connect_result w = 0 /\ in_connect_stage (w_client w) = false /\ connect_succeed (w_client w) = true /\
  exists k, p_kcp (w_client w) = Some k /\ ks_ok k.

Definition gave_up w : Prop :=
  connect_result w = KCP_ERR_KCP_CONNECT_TIMEOUT /\ in_connect_stage (w_client w) = false.

Lemma connecting_step start w now r :
  connecting start w -> answer_ok r ->
  exists w' eff, wrap_update w now r = Ok (w', eff) /\ workthread_start w' = false /\
    (connecting start w' /\ u64 (now - start) <= 5000 \/ connected w' \/ gave_up w').
Proof.
  intros (Hr & Hst & Hev & Hstart & Hth) Ha. destruct w as [c cr pe ws wp wt lc]. cbn in *. subst cr wt.
  destruct c as [st t0 tl cs pf q ub ip po so pk]. cbn in *. subst st pf t0.
  unfold wrap_update, client_update, do_asio_kcp_connect, connect_timeout, notify. cbn.
  unfold KCP_CONNECT_TIMEOUT_TIME. rewrite Z.gtb_ltb. destruct (5000 <? _) eqn:El; zbool.
  { cbn. do 2 eexists. split; [reflexivity|]. split; [done|]. by right; right. }
  match goal with |- context [need_send_connect_packet ?x now] => set (c0 := x) end.
  set (cs1 := if need_send_connect_packet _ _ then _ else _).
  assert (exists t l, cs1 = (mkClient true start t cs true q ub ip po so pk, l) /\
    Forall (fun e => exists d, e = Sent d) l) as (t & l & -> & Hl).
  { subst cs1. destruct (need_send_connect_packet c0 now); do 2 eexists; (split; [reflexivity|]).
    - constructor; [eauto|constructor].
    - constructor. }
  clear c0.
  assert (forall w0 l2, deliver w0 (l ++ l2) = ((deliver w0 l2).1, l ++ (deliver w0 l2).2)) as Hdel.
  { intros w0 l2. clear - Hl. induction Hl as [|e l [d ->] Hl IH]; cbn; [by destruct (deliver w0 l2)|].
    by rewrite IH. }
  unfold try_recv_connect_back_packet. destruct r as [d|e]; cbn [mbind run_bind].
  - cbn in Ha. set (d' := take 1400 d) in *. set (buf := d' ++ _) in *.
    destruct (zlen d' >? 0) eqn:Ed; cbn [andb].
    + destruct (is_send_back_conv_packet buf (zlen d')) eqn:Es.
      * destruct (Ha eq_refl) as [cv ->]. cbn [mbind run_bind]. unfold client_init_kcp.
        destruct (ks_create_ok cv 2) as (k & -> & Hk & _). cbn -[app]. rewrite Hdel. cbn -[app].
        do 2 eexists. split; [reflexivity|]. split; [done|]. right. left. split_and!; try done. eauto.
      * cbn -[app]. rewrite Hdel. do 2 eexists. split; [reflexivity|]. split; [done|]. by left.
    + cbn -[app]. rewrite Hdel. do 2 eexists. split; [reflexivity|]. split; [done|]. by left.
  - cbn -[app]. rewrite Hdel. do 2 eexists. split; [reflexivity|]. split; [done|]. by left.
Qed.

Lemma connect_loop_returns start (env : list (Z * recv_result)) w :
  connecting start w -> Forall (fun e => answer_ok e.2) env ->
  Exists (fun e => 5000 < u64 (e.1 - start)) env ->
  exists w' eff, do_asio_kcp_connect_loop w env = Ok (w', eff, Some (connect_result w')) /\
    workthread_start w' = false /\ (connected w' \/ gave_up w').
Proof.
  intros Hw Hans Hlate. revert w Hw. induction env as [|[now r] env IH]; intros w Hw;
    [by apply Exists_nil in Hlate|].
  apply Forall_cons_1 in Hans as [Ha Hans]. cbn [do_asio_kcp_connect_loop fst snd] in *.
  rewrite (proj1 Hw). cbn [negb]. change (1 =? 1) with true. cbn [negb].
  destruct (connecting_step start w now r Hw Ha) as (w1 & eff1 & -> & Hth & Hcase). cbn [mbind run_bind].
  destruct Hcase as [[Hc Hle]|Hdone].
  - apply Exists_cons in Hlate as [Hl|Hl]; [cbn in Hl; lia|].
    destruct (IH Hans Hl w1 Hc) as (w2 & eff2 & -> & H2 & H3). cbn [mbind run_bind]. eauto 6.
  - assert (connect_result w1 <> 1) as Hne by (destruct Hdone as [[-> _]|[-> _]]; done).
    assert (do_asio_kcp_connect_loop w1 env = Ok (w1, [], Some (connect_result w1))) as ->.
    { destruct env as [|[? ?] ?]; cbn [do_asio_kcp_connect_loop];
        by rewrite (proj2 (Z.eqb_neq _ _) Hne). }
    cbn [mbind run_bind]. eauto 6.
Qed.

Ltac os_error b :=
  destruct b; [cbn; do 3 eexists; split; [reflexivity|]; right; split; [set_solver|done]|].


(** ** The work thread *)

(** The worker and the application's thread, interleaved. *)
Record threads := mkThreads {
  th_wrap : kcp_client_wrap (K := K);
  th_worker : worker_pc;
  th_main : main_pc
}.

(** One step of either thread; a step of the worker is one iteration of its loop,
    with its effects. *)
Inductive thread_step : threads -> list client_effect -> threads -> Prop :=
| ts_start w now w' :
    start_workthread w 0 now = Ok (w', true) ->
    thread_step (mkThreads w W_none M_free) [] (mkThreads w' W_running M_free)
| ts_work w m now r w' eff fin :
    workthread_iter w now r = Ok (w', eff, fin) ->
    thread_step (mkThreads w W_running m) eff (mkThreads w' (if fin : bool then W_exited else W_running) m)
| ts_send w p msg :
    thread_step (mkThreads w p M_free) [] (mkThreads (wrap_send_msg w msg) p M_free)
| ts_stop w p :
    thread_step (mkThreads w p M_free) []
      (mkThreads (stop_request w) p (if workthread_start w then M_stopping else M_free))
| ts_stopped w p :
    stop_waits w = false -> thread_step (mkThreads w p M_stopping) [] (mkThreads w p M_free).

Inductive reachable : threads -> Prop :=
| reach_new w : workthread_start w = false -> workthread_stopped w = false -> workthread_want_stop w = false ->
    reachable (mkThreads w W_none M_free)
| reach_step t eff t' : reachable t -> thread_step t eff t' -> reachable t'.

(** The flags tell where the worker is. *)
Definition flags_ok (t : threads) : Prop :=
  workthread_start (th_wrap t) = bool_decide (th_worker t = W_running) /\
  workthread_stopped (th_wrap t) = bool_decide (th_worker t = W_exited) /\
  (th_worker t = W_none -> workthread_want_stop (th_wrap t) = false) /\
  (th_main t = M_stopping -> workthread_want_stop (th_wrap t) = true).

Definition flags w := (workthread_start w, workthread_stopped w, workthread_want_stop w).

Lemma deliver_flags (eff : list client_effect) w w' out : deliver w eff = (w', out) -> flags w' = flags w.
Proof.
  revert w w' out. induction eff as [|[d|cv ev msg] eff IH]; intros w w' out; cbn [deliver].
  - by intros [= <- _].
  - destruct (deliver w eff) as [w1 o1] eqn:E. intros [= <- _]. by eapply IH.
  - destruct (handle_client_event_callback w cv ev msg) as [w1 o1] eqn:E1.
    destruct (deliver w1 eff) as [w2 o2] eqn:E2. intros [= <- _]. rewrite (IH _ _ _ E2).
    destruct ev; injection E1 as <- _; done.
Qed.

Lemma wrap_update_flags w now r w' eff : wrap_update w now r = Ok (w', eff) -> flags w' = flags w.
Proof.
  unfold wrap_update. intros H. apply run_bind_Ok in H as ([c l] & _ & H).
  apply Ok_inj in H. symmetry in H. by apply deliver_flags in H.
Qed.

Lemma workthread_iter_flags w now r w' eff fin :
  workthread_iter w now r = Ok (w', eff, fin) ->
  if fin : bool then workthread_want_stop w = true /\ eff = [] /\ flags w' = (false, true, true)
  else workthread_want_stop w = false /\ flags w' = flags w.
Proof.
  unfold workthread_iter. intros H. destruct (workthread_want_stop w) eqn:Ew.
  - injection H as <- <- <-. split_and!; try done. unfold flags. cbn. by rewrite Ew.
  - case_if_in H.
    + apply run_bind_Ok in H as ([w1 l] & Hu & H). injection H as <- _ <-. split; [done|].
      by apply wrap_update_flags in Hu.
    + by injection H as <- _ <-.
Qed.

Lemma thread_step_ok t eff t' : flags_ok t -> thread_step t eff t' -> flags_ok t'.
Proof.
  intros (H1 & H2 & H3 & H4) Hs.
  destruct Hs as [w now w' Hst|w m now r w' eff fin Hw|w p msg|w p|w p Hst]; cbn in *.
  - unfold start_workthread in Hst. rewrite H1 in Hst. injection Hst as <-. cbn.
    unfold flags_ok. cbn. by rewrite H2.
  - apply workthread_iter_flags in Hw. unfold flags in Hw. unfold flags_ok. cbn.
    destruct fin; cbn.
    + destruct Hw as (Hws & -> & [= -> -> ->]). done.
    + destruct Hw as (Hws & [= -> -> ->]). split_and!; done.
  - done.
  - unfold flags_ok, stop_request. cbn. destruct (workthread_start w) eqn:E; cbn; [|by rewrite E].
    split_and!; try done; by intros ->.
  - done.
Qed.

(** C24: stopping the work thread.  In every interleaving of the application's
    thread and the worker: while stop() waits, the worker has either ended, which
    is exactly when the wait is over (so the join returns at once and no update
    runs behind the application's back), or its next iteration ends it without
    another update; and a worker that has ended never does anything again. *)
Theorem stop_joins (t : threads) :
  reachable t ->
  (th_main t = M_stopping ->
     (stop_waits (th_wrap t) = false <-> th_worker t = W_exited) /\
     (stop_waits (th_wrap t) = true -> th_worker t = W_running /\
        forall now r, exists w', workthread_iter (th_wrap t) now r = Ok (w', [], true) /\ stop_waits w' = false)) /\
  (th_worker t = W_exited -> forall eff t', thread_step t eff t' -> eff = [] /\ th_worker t' = W_exited).
Proof.
  intros Hr. assert (flags_ok t) as (H1 & H2 & H3 & H4).
  { induction Hr as [w Ha Hb Hc|t eff t' Hr IH Hs]; [|by eapply thread_step_ok].
    unfold flags_ok. cbn. rewrite Ha, Hb, Hc. done. }
  split.
  - intros Hm. specialize (H4 Hm). unfold stop_waits. rewrite H2. split.
    + destruct (th_worker t); cbn; done.
    + intros Hw. destruct (th_worker t) eqn:Ew; [by rewrite H3 in H4|split; [done|]|done].
      intros now r. unfold workthread_iter. rewrite H4. eauto.
  - intros Hw eff t' Hs. destruct Hs; cbn in *; try done.
Qed.
End ClientThms.

(** ** The theorems at a concrete client *)

#[local] Existing Instance demo_session.
#[local] Existing Instance demo_kcp_safe.

Definition demo_os : os_connect := mkOs 1 3 2 0 0.
Definition demo_dialling : kcp_client (K := ikcpcb) :=
  (connect_async (set_event_callback new_client) 0 (cstr "127.0.0.1"%string) 12345 demo_os 10000).1.

Lemma session_established_witness :
  exists s1 srv' reply s2 k conn cv,
    client_update demo_dialling 10001 (Recv_failed EAGAIN) = Ok (s1, [Sent making_connect_packet]) /\
    handle_udp_receive_from demo_up false making_connect_packet demo_client = Ok (srv', [Udp_send demo_client reply]) /\
    client_update s1 10010 (Received reply)
      = Ok (s2, [Notify cv ClientEvent.eConnect (cstr "connect succeed"%string)]) /\
    in_connect_stage s2 = false /\ connect_succeed s2 = true /\
    p_kcp s2 = Some k /\ ks_ok k /\ ks_conv k = cv /\
    mg_conns srv' = <[cv := conn]> (mg_conns demo_up) /\ mg_conns demo_up !! cv = None /\ mgr_ok srv' /\
    conn_remote conn = demo_client /\ ks_conv (conn_kcp conn) = cv.
Proof.
  apply (session_established demo_dialling 10001 10010 demo_up demo_client).
  - exact demo_up_ok.
  - vm_compute. reflexivity.
  - vm_compute. reflexivity.
  - vm_compute. reflexivity.
  - vm_compute. reflexivity.
  - vm_compute. discriminate.
  - vm_compute. discriminate.
  - vm_compute. discriminate.
Defined.

(** A connected client with a message to send, when the server's message comes. *)
Definition demo_ck : ikcpcb := default demo_kcp (open_kcp demo_mem 1001 2).
Definition demo_online : kcp_client (K := ikcpcb) :=
  mkClient false 10000 10001 true true [cstr "hi"%string] 0 [] 12345 3 (Some demo_ck).

Lemma demo_ck_ok : ks_ok demo_ck.
Proof.
  unfold demo_ck. destruct (open_kcp_ok demo_mem (fun _ => eq_refl) 1001 2) as (k & -> & Hk & _). exact Hk.
Qed.


Definition demo_env : list (Z * recv_result) :=
  [(10000, Recv_failed EAGAIN); (10300, Received (making_send_back_conv_packet 1001)); (16000, Recv_failed EAGAIN)].


(** The application stops a worker that has been started. *)
Definition demo_stopping : threads (K := ikcpcb) :=
  mkThreads (stop_request (workthread_begin new_wrap 20000)) W_running M_stopping.

Lemma stop_joins_witness :
  (th_main demo_stopping = M_stopping ->
     (stop_waits (th_wrap demo_stopping) = false <-> th_worker demo_stopping = W_exited) /\
     (stop_waits (th_wrap demo_stopping) = true -> th_worker demo_stopping = W_running /\
        forall now r, exists w', workthread_iter (th_wrap demo_stopping) now r = Ok (w', [], true) /\
          stop_waits w' = false)) /\
  (th_worker demo_stopping = W_exited ->
     forall eff t', thread_step demo_stopping eff t' -> eff = [] /\ th_worker t' = W_exited).
Proof.
  apply (stop_joins demo_stopping).
  apply (reach_step (mkThreads (workthread_begin new_wrap 20000) W_running M_free) []).
  - apply (reach_step (mkThreads new_wrap W_none M_free) []).
    + apply reach_new; reflexivity.
    + apply (ts_start new_wrap 20000). reflexivity.
  - apply (ts_stop (workthread_begin new_wrap 20000)).
Defined.
