(* ===== verification/EndToEnd.v ===== *)
(** * Client and server together

    A client of src/client_lib and a server of src/server_lib, both over
    src/util/ikcp.c, with a network between them and applications on both sides, from
    the moment the client dials.  The network may deliver any datagram the client
    and the server's connection ever sent, in any order, any number of times or never, and anything
    else that is no segment of this conversation: the traffic of other clients, text
    packets, noise.  What an application hears is what the other one said. *)

From stdpp Require Import gmap relations.
From Stdlib Require Strings.String.
Import Strings.String.StringSyntax.
#[local] Delimit Scope string_scope with string.
From S2P Require Import Prelude Codec KcpState KcpAck KcpRecv KcpSend KcpInput KcpFlush.
From S2P Require Import KcpWire KcpFrames KcpTransfer KcpTransferSteps KcpSystem KcpWf KcpSafety KcpTheorems.
From S2P Require Import KcpSession KcpDataThms KcpLink KcpHeld KcpDuplex ConnectPacket SessionLink.
From S2P Require Import Server ServerThms Client ClientThms.

(** ** The system *)

Definition nonempty (msg : list byte) : bool := 0 <? zlen msg.

(** The messages the libraries carry: ikcp_send refuses those of more than 255
    fragments, whose result the libraries do not look at, and empty messages are not
    reported. *)
Definition deliverable (msg : list byte) : bool := nonempty msg && accepted session_mss msg.

(** The fragments needed for the messages accepted. *)
Definition fragments_total (msgs : list (list byte)) : Z :=
  foldr (fun msg n => (if accepted session_mss msg then frag_count (zlen msg) session_mss else 0) + n) 0 msgs.

(** The manager and the client; the datagrams the client sent, and those the server's
    connection passed to its output callback; what each application said and heard. *)
Record net := mkNet {
  nt_mgr : manager (K := ikcpcb);
  nt_cli : kcp_client (K := ikcpcb);
  nt_up : list (list byte);
  nt_down : list (list byte);
  nt_csaid : list (list byte);
  nt_ssaid : list (list byte);
  nt_cheard : list (list byte);
  nt_sheard : list (list byte)
}.

(** What a socket finds: a datagram of the peer, another one, or an error. *)
Inductive arrival := From_peer (i : nat) | Foreign (d : list byte) | Nothing (errno : Z).

Inductive action :=
| Client_says (msg : list byte)
| Client_updates (now : Z) (r : arrival)
| Server_receives (error : bool) (r : arrival) (remote : udp_endpoint)
| Server_ticks (now : Z) (keys : list Z)
| Server_says (conv : Z) (msg : list byte)
| Server_drops (conv : Z)
| Server_stops (keys : list Z).

(** The entries of the hash map in the order [keys]. *)
Definition visited {A} (conns : gmap Z A) (keys : list Z) : list (Z * A) :=
  omap (fun key => pair key <$> conns !! key) keys.

Definition sent_of (eff : list client_effect) : list (list byte) :=
  omap (fun e => match e with Sent d => Some d | _ => None end) eff.
Definition told_of (eff : list client_effect) : list (list byte) :=
  omap (fun e => match e with Notify _ ClientEvent.eRcvMsg msg => Some msg | _ => None end) eff.
Definition heard_of (cv : Z) (eff : list effect) : list (list byte) :=
  omap (fun e => match e with Event c eRcvMsg msg => if c =? cv then Some msg else None | _ => None end) eff.

Section Net.
Context (m : mem) (cv : Z).
#[local] Hint Extern 0 (KcpSession ikcpcb) => exact (ikcp_session m) : typeclass_instances.

(** [None]: the datagram does not exist, or is not foreign. *)
Definition arrives_at (inbox : list (list byte)) (r : arrival) : option recv_result :=
  match r with
  | From_peer i => Received <$> inbox !! i
  | Foreign d => if speaks cv d then None else Some (Received d)
  | Nothing errno => Some (Recv_failed errno)
  end.

(** What the connection passes to its output callback in a tick. *)
Definition conn_output (c : option (connection (K := ikcpcb))) (now : Z) : list (list byte) :=
  match c with
  | Some c => match ks_update (conn_kcp c) now with Ok (_, out) => out | _ => [] end
  | None => []
  end.

Definition net_exec (o : action) (s : net) : run net :=
  let '(mkNet mgr cli up down csaid ssaid cheard sheard) := s in
  match o with
  | Client_says msg =>
      c_require (zlen msg <? 2147483648) ≫= fun _ =>
      Ok (mkNet mgr (client_send_msg cli msg) up down (csaid ++ [msg]) ssaid cheard sheard)
  | Client_updates now r =>
      match arrives_at down r with
      | None => Ok s
      | Some r =>
          '(cli, eff) ← client_update cli now r;
          Ok (mkNet mgr cli (up ++ sent_of eff) down csaid ssaid (cheard ++ told_of eff) sheard)
      end
  | Server_receives error r remote =>
      let data := match arrives_at up r with Some (Received d) => d | _ => [] end in
      '(mgr, eff) ← handle_udp_receive_from mgr error data remote;
      Ok (mkNet mgr cli up down csaid ssaid cheard (sheard ++ heard_of cv eff))
  | Server_ticks now keys =>
      c_require (bool_decide (keys ≡ₚ (map_to_list (mg_conns mgr)).*1)) ≫= fun _ =>
      let out := conn_output (mg_conns mgr !! cv) (u32 now) in
      '(mgr, eff) ← handle_kcp_time mgr now (visited (mg_conns mgr) keys);
      Ok (mkNet mgr cli up (down ++ out) csaid ssaid cheard (sheard ++ heard_of cv eff))
  | Server_says conv msg =>
      c_require (zlen msg <? 2147483648) ≫= fun _ =>
      '(mgr, r) ← send_msg mgr conv msg;
      Ok (mkNet mgr cli up down csaid (ssaid ++ (if (conv =? cv) && (r =? 0) then [msg] else [])) cheard sheard)
  | Server_drops conv =>
      '(mgr, eff) ← force_disconnect mgr conv;
      Ok (mkNet mgr cli up down csaid ssaid cheard (sheard ++ heard_of cv eff))
  | Server_stops keys =>
      let '(mgr, eff) := stop_all mgr (visited (mg_conns mgr) keys) in
      Ok (mkNet mgr cli up down csaid ssaid cheard (sheard ++ heard_of cv eff))
  end.

(** The run is about conversation [cv]: the client, if connected, has this id.  Ids
    are not used up, fewer than 2^31 fragments are queued by either side, and fewer
    than 2^28 acknowledgements wait for a flush. *)
Definition within (s : net) : bool :=
  match p_kcp (nt_cli s) with Some k => (conv k =? cv) && calm k | None => true end &&
  match mg_conns (nt_mgr s) !! cv with Some c => calm (conn_kcp c) | None => true end &&
  (fragments_total (nt_csaid s) <? half) && (fragments_total (nt_ssaid s) <? half) &&
  (mg_cur_conv (nt_mgr s) <? 4294967295).

Definition net_step (s s' : net) : Prop := exists o, net_exec o s = Ok s' /\ within s' = true.

(** A schedule, executed. *)
Fixpoint net_run (trace : list action) (s : net) : run net :=
  match trace with
  | [] => Ok s
  | o :: trace => s ← net_exec o s; if within s then net_run trace s else Undef
  end.

Lemma net_run_steps trace s s' : net_run trace s = Ok s' -> rtc net_step s s'.
Proof.
  revert s. induction trace as [|o trace IH]; intros s H; cbn [net_run] in H.
  - apply Ok_inj in H as ->. reflexivity.
  - apply run_bind_Ok in H as (s1 & H1 & H). destruct (within s1) eqn:E; [|done].
    eapply rtc_l; [by exists o|by apply IH].
Qed.
End Net.

(** ** Lists of messages *)

Lemma filter_filter {A} (f g : A -> bool) (l : list A) :
  List.filter f (List.filter g l) = List.filter (fun x => f x && g x) l.
Proof. induction l as [|x l IH]; [done|]. cbn. destruct (g x) eqn:E; cbn; rewrite IH, ?andb_false_r, ?andb_true_r; done. Qed.

Lemma filter_prefix {A} (f : A -> bool) (l1 l2 : list A) :
  l1 `prefix_of` l2 -> List.filter f l1 `prefix_of` List.filter f l2.
Proof. intros [l ->]. rewrite List.filter_app. by eexists. Qed.

Lemma fragments_total_app l1 l2 : fragments_total (l1 ++ l2) = fragments_total l1 + fragments_total l2.
Proof. unfold fragments_total. induction l1 as [|x l1 IH]; cbn; [done|]. rewrite IH. lia. Qed.

Lemma fragments_total_pos l : 0 <= fragments_total l.
Proof.
  unfold fragments_total. induction l as [|x l IH]; cbn [foldr]; [done|].
  assert (0 <= frag_count (zlen x) session_mss) by (unfold frag_count; lia). case_if; lia.
Qed.

Lemma fragments_total_filter l : fragments_total (List.filter (accepted session_mss) l) = fragments_total l.
Proof.
  unfold fragments_total. induction l as [|x l IH]; cbn; [done|]. destruct (accepted session_mss x) eqn:E; cbn; rewrite ?E; lia.
Qed.

(** The numbers in use are the fragments of the messages accepted. *)
Lemma sent_log_total a b :
  linked a b -> mss (ep_kcp a) = session_mss -> Forall (fun msg => accepted session_mss msg = true) (ep_sent a) ->
  zlen (concat (sent_log a)) = fragments_total (ep_sent a).
Proof.
  intros Hl Hms Ha. pose proof (sd_groups _ _ _ _ (ln_log _ _ Hl)) as Hg. unfold sent_log in *. rewrite Hms in *.
  set (sent := ep_sent a) in *. clearbody sent. clear -Hg Ha. induction Ha as [|msg sent Hx Ha IH]; [done|].
  rewrite fmap_cons in *. apply Forall2_cons_1 in Hg as [(_ & _ & _ & _ & Hml) Hg]. cbn [concat]. rewrite Z_length_app, IH by done.
  unfold fragments_total. cbn [foldr]. rewrite Hx, group_length; done.
Qed.

(** ** The client's calls *)

Section ClientTurn.
Context (m : mem) (cv : Z) (Hm : forall z, mem_ok m z = true).
#[local] Hint Extern 0 (KcpSession ikcpcb) => exact (ikcp_session m) : typeclass_instances.
Implicit Types (a b : endpoint).

(** An endpoint of the session, and how it advances: what it accepted, handed out
    and put on the network. *)
Record in_session (a b : endpoint) : Prop := {
  is_linked : linked a b;
  is_conv : conv (ep_kcp a) = cv;
  is_mss : mss (ep_kcp a) = session_mss;
  is_mtu : mtu (ep_kcp a) = IKCP_MTU_DEF;
  is_wnd : rcv_wnd (ep_kcp a) = IKCP_WND_RCV;
  is_sent : Forall (fun msg => accepted session_mss msg = true) (ep_sent a)
}.

Definition advanced (a a' : endpoint) (sent got out : list (list byte)) : Prop :=
  ep_sent a' = ep_sent a ++ sent /\ ep_got a' = ep_got a ++ got /\ ep_out a' = ep_out a ++ out.

Lemma advanced_refl a k : advanced a (mkEnd k (ep_sent a) (ep_got a) (ep_out a)) [] [] [].
Proof. unfold advanced. cbn. by rewrite !app_nil_r. Qed.

Lemma advanced_trans a1 a2 a3 s1 g1 o1 s2 g2 o2 :
  advanced a1 a2 s1 g1 o1 -> advanced a2 a3 s2 g2 o2 -> advanced a1 a3 (s1 ++ s2) (g1 ++ g2) (o1 ++ o2).
Proof. intros (E1 & E2 & E3) (F1 & F2 & F3). unfold advanced. by rewrite F1, F2, F3, E1, E2, E3, !app_assoc. Qed.

Lemma in_session_keeps a b a' :
  in_session a b -> linked a' b -> keeps (ep_kcp a) (ep_kcp a') ->
  Forall (fun msg => accepted session_mss msg = true) (ep_sent a') -> in_session a' b.
Proof. intros [] Hl (? & ? & ? & ?) Hs. constructor; try done; congruence. Qed.

Lemma send_turn a b msg k' r :
  in_session a b -> calm (ep_kcp a) = true -> zlen msg < 2147483648 ->
  fragments_total (ep_sent a) + fragments_total [msg] < half ->
  ks_send (ep_kcp a) msg = Ok (k', r) ->
  exists a', in_session a' b /\ ep_kcp a' = k' /\ calm k' = true /\
    advanced a a' (List.filter (accepted session_mss) [msg]) [] [].
Proof.
  intros [Hl Hc Hms Hmt Hwd Hs] Hca Hml Ht H. pose proof (sent_log_total a b Hl Hms Hs) as Hlog.
  destruct (turn_send m Hm a b msg k' r Hl Hml Hca) as (Hl' & Hk & Hac); [|done|].
  { rewrite Hms, Hlog. unfold fragments_total in Ht at 2. cbn in Ht. intros E. rewrite E in Ht. lia. }
  rewrite Hms in Hl'. cbn [List.filter].
  exists (mkEnd k' (ep_sent a ++ (if accepted session_mss msg then [msg] else [])) (ep_got a) (ep_out a)).
  split; [|split; [done|split]].
  - apply (in_session_keeps a b); [done|done|done|]. cbn. apply Forall_app. split; [done|].
    destruct (accepted session_mss msg) eqn:E; [|constructor]. constructor; [done|constructor].
  - unfold calm in *. by rewrite Hac.
  - unfold advanced. cbn. by rewrite !app_nil_r.
Qed.

Lemma send_loop_turn (msgs : list (list byte)) a b k' :
  in_session a b -> calm (ep_kcp a) = true -> Forall (fun msg => zlen msg < 2147483648) msgs ->
  fragments_total (ep_sent a) + fragments_total msgs < half ->
  Client.send_loop (ep_kcp a) msgs = Ok k' ->
  exists a', in_session a' b /\ ep_kcp a' = k' /\ calm k' = true /\
    advanced a a' (List.filter (accepted session_mss) msgs) [] [].
Proof.
  intros Hi Hc Hml. revert a Hi Hc. induction Hml as [|msg msgs Hx Hml IH]; intros a Hi Hc Ht H; cbn [Client.send_loop] in H.
  - apply Ok_inj in H as ->. exists a. split_and!; try done. destruct a. apply advanced_refl.
  - apply run_bind_Ok in H as ([k1 r] & H1 & H).
    change (msg :: msgs) with ([msg] ++ msgs) in *. rewrite fragments_total_app in Ht.
    pose proof (fragments_total_pos msgs).
    destruct (send_turn a b msg k1 r Hi Hc Hx ltac:(lia) H1) as (a1 & Hi1 & <- & Hc1 & Ha1).
    destruct (IH a1 Hi1 Hc1) as (a' & Hi' & Hk' & Hc' & Ha'); [|done|].
    { destruct Ha1 as (-> & _). rewrite fragments_total_app, fragments_total_filter. lia. }
    exists a'. split_and!; try done. rewrite List.filter_app. apply (advanced_trans _ _ _ _ [] [] _ [] [] Ha1 Ha').
Qed.

Lemma recv_turn a b n k' out r :
  in_session a b -> ackcount (ep_kcp a) < 536870912 -> 0 <= n < 2147483648 ->
  ks_recv (ep_kcp a) n = Ok (k', out, r) ->
  exists a', in_session a' b /\ ep_kcp a' = k' /\ ackcount k' = ackcount (ep_kcp a) /\ conv k' = cv /\
    advanced a a' [] (if r <? 0 then [] else [out]) [] /\ (0 <= r -> r = zlen out).
Proof.
  intros Hi Hc Hn H. destruct (turn_recv m Hm a b n k' out r (is_linked _ _ Hi) Hc Hn H) as (Hl & Hk & Hac & Hr).
  exists (mkEnd k' (ep_sent a) (ep_got a ++ (if r <? 0 then [] else [out])) (ep_out a)).
  split; [apply (in_session_keeps a b); [done..|apply Hi]|]. split_and!; try done.
  - destruct Hk as [-> _]. apply Hi.
  - unfold advanced. cbn. by rewrite !app_nil_r.
Qed.

(** A datagram of the peer is taken in, any other is ignored. *)
Lemma input_turn a b d k' r :
  in_session a b -> in_session b a -> calm (ep_kcp a) = true -> d ∈ ep_out b \/ speaks cv d = false ->
  ks_input (ep_kcp a) d = Ok (k', r) ->
  exists a', in_session a' b /\ ep_kcp a' = k' /\ ackcount k' < 536870912 /\ conv k' = cv /\ advanced a a' [] [] [].
Proof.
  intros Hi Hb Hc Hd H. unfold calm in Hc. zbool. destruct Hd as [Hd|Hd].
  - pose proof (so_out_b _ _ (ln_ok _ _ (is_linked _ _ Hi))) as Ho. rewrite list.Forall_forall in Ho.
    destruct (Ho d Hd) as (_ & _ & _ & Hlen & _). rewrite (is_mtu _ _ Hb) in Hlen. unfold IKCP_MTU_DEF in Hlen.
    destruct (turn_input m Hm a b d k' r (is_linked _ _ Hi)) as (Hl & Hk & Hac); [lia|done|done|].
    exists (mkEnd k' (ep_sent a) (ep_got a) (ep_out a)).
    split; [apply (in_session_keeps a b); [done..|apply Hi]|]. split_and!; try done; [lia| |apply advanced_refl].
    destruct Hk as [-> _]. apply Hi.
  - rewrite <- (is_conv _ _ Hi) in Hd. apply (input_foreign m) in H; [|done]. subst k'.
    exists a. split_and!; try done; [lia|apply Hi|]. destruct a. apply advanced_refl.
Qed.

Lemma update_turn a b now k' out :
  in_session a b -> ackcount (ep_kcp a) < 536870912 -> ks_update (ep_kcp a) now = Ok (k', out) ->
  exists a', in_session a' b /\ ep_kcp a' = k' /\ conv k' = cv /\ advanced a a' [] [] out.
Proof.
  intros Hi Hc H. destruct (turn_update m Hm a b now k' out (is_linked _ _ Hi) Hc H) as (Hl & Hk & _).
  exists (mkEnd k' (ep_sent a) (ep_got a) (ep_out a ++ out)).
  split; [apply (in_session_keeps a b); [done..|apply Hi]|]. split_and!; try done.
  - destruct Hk as [-> _]. apply Hi.
  - unfold advanced. cbn. by rewrite !app_nil_r.
Qed.

Lemma told_of_app e1 e2 : told_of (e1 ++ e2) = told_of e1 ++ told_of e2.
Proof. apply omap_app. Qed.
Lemma sent_of_app e1 e2 : sent_of (e1 ++ e2) = sent_of e1 ++ sent_of e2.
Proof. apply omap_app. Qed.

Lemma sent_of_Sent out : sent_of (Sent <$> out) = out /\ told_of (Sent <$> out) = [].
Proof.
  unfold sent_of, told_of. induction out as [|d out [IH1 IH2]]; [done|]. rewrite fmap_cons. cbn [omap list_omap].
  by rewrite IH1, IH2.
Qed.

Lemma recv_loop_turn fuel a b k' eff :
  in_session a b -> ackcount (ep_kcp a) < 536870912 -> recv_loop fuel true (ep_kcp a) = Ok (k', eff) ->
  exists a' got, in_session a' b /\ ep_kcp a' = k' /\ ackcount k' = ackcount (ep_kcp a) /\
    advanced a a' [] got [] /\ List.filter nonempty got = told_of eff /\ sent_of eff = [].
Proof.
  revert a eff. induction fuel as [|fuel IH]; intros a eff Hi Hc H; [done|]. cbn [recv_loop] in H.
  apply run_bind_Ok in H as ([k1 msg] & H1 & H). unfold recv_udp_package_from_kcp in H1.
  apply run_bind_Ok in H1 as ([[k2 buf] r] & H1 & E). apply Ok_inj in E as [= -> ->].
  destruct (recv_turn a b MAX_MSG_SIZE k2 buf r Hi Hc) as (a1 & Hi1 & <- & Hac & _ & Ha & Hr); [by vm_compute|done|].
  destruct (r <? 0) eqn:Er; zbool; [|rewrite take_ge in H by (rewrite Hr by lia; lia)].
  - change (zlen [] >? 0) with false in H. apply Ok_inj in H as [= -> ->]. by exists a1, [].
  - rewrite Z.gtb_ltb in H. fold (nonempty buf) in H. destruct (nonempty buf) eqn:En.
    + apply run_bind_Ok in H as ([k3 eff'] & H & E). apply Ok_inj in E as [= -> ->].
      destruct (IH a1 eff' Hi1 ltac:(lia) H) as (a' & got & Hi' & Hk' & Hac' & Ha' & Hg & Hs).
      exists a', ([buf] ++ got). split_and!; try done; [lia|apply (advanced_trans _ _ _ [] _ [] [] _ [] Ha Ha')|].
      rewrite List.filter_app. cbn [List.filter]. rewrite En. cbn. by rewrite Hg.
    + apply Ok_inj in H as [= -> ->]. exists a1, [buf]. split_and!; try done. cbn. by rewrite En.
Qed.

(** One update of a connected client. *)
Definition online (s : kcp_client (K := ikcpcb)) (k : ikcpcb) : Prop :=
  in_connect_stage s = false /\ connect_succeed s = true /\ pevent_func s = true /\ p_kcp s = Some k.

Definition admissible (b : endpoint) (r : recv_result) : Prop :=
  match r with Received d => d ∈ ep_out b \/ speaks cv d = false | Recv_failed _ => True end.

Lemma recv_packet_turn s k1 eff s1 a b r :
  in_session a b -> in_session b a -> calm (ep_kcp a) = true -> online s (ep_kcp a) -> admissible b r ->
  do_recv_udp_packet_in_loop s (ep_kcp a) r = Ok (s1, k1, eff) ->
  exists a' got, in_session a' b /\ ep_kcp a' = k1 /\ ackcount k1 < 536870912 /\ online s1 k1 /\
    send_msg_queue s1 = send_msg_queue s /\
    advanced a a' [] got [] /\ List.filter nonempty got = told_of eff /\ sent_of eff = [].
Proof.
  intros Hi Hb Hc Ho Hd H. pose proof Ho as (O1 & O2 & O3 & O4). pose proof Hc as Hc2. unfold calm in Hc2.
  assert (forall e, told_of e = [] /\ sent_of e = [] -> (s1, k1, eff) = (s, ep_kcp a, e) ->
    exists a' got, in_session a' b /\ ep_kcp a' = k1 /\ ackcount k1 < 536870912 /\ online s1 k1 /\
      send_msg_queue s1 = send_msg_queue s /\
      advanced a a' [] got [] /\ List.filter nonempty got = told_of eff /\ sent_of eff = []) as Hno.
  { intros e [E1 E2] [= -> -> ->]. zbool. exists a, []. split_and!; try done; [lia|]. destruct a. apply advanced_refl. }
  unfold do_recv_udp_packet_in_loop in H. destruct r as [d|errno].
  2: { case_if_in H; [apply Ok_inj in H; by apply (Hno [])|]. apply run_bind_Ok in H as (e & He & H). apply Ok_inj in H.
       unfold notify in He. rewrite O3 in He. apply Ok_inj in He as ->. by apply (fun q => Hno _ q H). }
  set (d' := take _ d) in H. case_if_in H; [apply Ok_inj in H; by apply (Hno [])|].
  unfold handle_udp_packet in H. destruct (is_disconnect_packet d' (zlen d')).
  { rewrite O3 in H. apply Ok_inj in H. by apply (fun q => Hno _ q H). }
  apply run_bind_Ok in H as ([k2 r2] & Hin & H). apply run_bind_Ok in H as ([k3 e3] & Hl & H). apply Ok_inj in H as [= -> -> ->].
  assert (d' ∈ ep_out b \/ speaks cv d' = false) as Hd'.
  { destruct Hd as [Hd|Hd]; [left|right].
    - pose proof (so_out_b _ _ (ln_ok _ _ (is_linked _ _ Hi))) as Hob. rewrite list.Forall_forall in Hob.
      destruct (Hob d Hd) as (_ & _ & _ & Hlen & _). rewrite (is_mtu _ _ Hb) in Hlen. unfold IKCP_MTU_DEF in Hlen.
      subst d'. rewrite take_ge; [done|]. change (Z.to_nat (MAX_MSG_SIZE * 2)) with (Z.to_nat 20480). lia.
    - subst d'. rewrite speaks_take; [done|]. change (Z.to_nat (MAX_MSG_SIZE * 2)) with (Z.to_nat 20480). lia. }
  clear Hno. destruct (input_turn a b d' k2 r2 Hi Hb Hc Hd' Hin) as (a1 & Hi1 & <- & Hac & _ & Ha1). rewrite O3 in Hl.
  destruct (recv_loop_turn _ a1 b k3 e3 Hi1 Hac Hl) as (a' & got & Hi' & <- & Hac' & Ha' & Hg & Hs).
  exists a', got. split_and!; try done; [lia|]. apply (advanced_trans _ _ _ [] [] [] _ _ _ Ha1 Ha').
Qed.

Lemma client_turn s a b now r s' eff :
  in_session a b -> in_session b a -> calm (ep_kcp a) = true -> online s (ep_kcp a) -> admissible b r ->
  Forall (fun msg => zlen msg < 2147483648) (send_msg_queue s) ->
  fragments_total (ep_sent a) + fragments_total (send_msg_queue s) < half ->
  client_update s now r = Ok (s', eff) ->
  exists a' got, in_session a' b /\ online s' (ep_kcp a') /\ send_msg_queue s' = [] /\
    advanced a a' (List.filter (accepted session_mss) (send_msg_queue s)) got (sent_of eff) /\
    List.filter nonempty got = told_of eff.
Proof.
  intros Hi Hb Hc Ho Hd Hml Ht H. pose proof Ho as (O1 & O2 & O3 & O4).
  unfold client_update in H. rewrite O1, O2, O4 in H.
  apply run_bind_Ok in H as ([s1 k1] & Hq & H). unfold do_send_msg_in_queue in Hq. cbn [Queue.grab_all] in Hq.
  apply run_bind_Ok in Hq as (kq & Hq & E). apply Ok_inj in E as [= -> ->].
  destruct (send_loop_turn _ a b kq Hi Hc Hml Ht Hq) as (a1 & Hi1 & <- & Hc1 & Ha1).
  apply run_bind_Ok in H as ([[s2 k2] e2] & Hr & H).
  apply recv_packet_turn with (a := a1) (b := b) in Hr as (a2 & got & Hi2 & <- & Hac2 & Ho2 & Hq2 & Ha2 & Hg & Hs);
    [|done| |done|done|done].
  2: { destruct Hb as [? ? ? ? ? ?]. constructor; try done. apply linked_sym, Hi1. }
  apply run_bind_Ok in H as ([k3 out] & Hu & H).
  destruct (update_turn a2 b now k3 out Hi2 Hac2 Hu) as (a3 & Hi3 & <- & _ & Ha3).
  apply Ok_inj in H as [= -> ->]. exists a3, got. destruct (sent_of_Sent out) as [S1 S2].
  rewrite sent_of_app, told_of_app, S1, S2, Hs, app_nil_r. split_and!; try done.
  - destruct Ho2 as (? & ? & ? & ?). by split_and!.
  - pose proof (advanced_trans _ _ _ _ _ _ _ _ _ (advanced_trans _ _ _ _ _ _ _ _ _ Ha1 Ha2) Ha3) as Hall.
    by rewrite !app_nil_r in Hall.
Qed.

(** One update of a client that is dialling: it stays so, gives up, or opens a fresh
    control block. *)
Lemma dialling_turn s now r s' eff :
  in_connect_stage s = true -> pevent_func s = true -> p_kcp s = None -> connect_succeed s = false ->
  client_update s now r = Ok (s', eff) ->
  told_of eff = [] /\ Forall (fun d => d = making_connect_packet) (sent_of eff) /\
  send_msg_queue s' = send_msg_queue s /\ pevent_func s' = true /\
  (p_kcp s' = None /\ connect_succeed s' = false \/
   exists c k, open_kcp m c 2 = Some k /\ online s' k).
Proof.
  intros H1 H2 H3 H4 H. unfold client_update in H. rewrite H1 in H. unfold do_asio_kcp_connect in H.
  unfold notify in H. rewrite H2 in H. case_if_in H.
  { apply Ok_inj in H as [= -> ->]. split_and!; try done. by left. }
  set (p := if need_send_connect_packet s now then _ else _) in H.
  assert (exists t l, p = (mkClient (in_connect_stage s) (connect_start_time s) t (connect_succeed s) (pevent_func s)
    (send_msg_queue s) (udp_port_bind s) (server_ip s) (server_port s) (udp_socket s) (p_kcp s), l) /\
    told_of l = [] /\ Forall (fun d => d = making_connect_packet) (sent_of l)) as (t & l & -> & Hl1 & Hl2).
  { subst p. case_if; [by eexists now, _; split; [reflexivity|]; split; [|repeat constructor]|].
    exists (last_send_connect_msg_time s), []. destruct s. done. }
  apply run_bind_Ok in H as ([s1 e1] & Ht & H). apply Ok_inj in H as [= -> ->].
  rewrite told_of_app, sent_of_app, Hl1. cbn [app].
  unfold try_recv_connect_back_packet in Ht. destruct r as [d|errno].
  2: { apply Ok_inj in Ht as [= -> ->]. cbn. rewrite app_nil_r. split_and!; try done. by left. }
  case_if_in Ht.
  2: { apply Ok_inj in Ht as [= -> ->]. cbn. rewrite app_nil_r. split_and!; try done. by left. }
  apply run_bind_Ok in Ht as (c & _ & Ht). apply run_bind_Ok in Ht as (s2 & Hk & Ht).
  unfold client_init_kcp in Hk. destruct (ks_create c 2) as [k|] eqn:Ek; [|done]. apply Ok_inj in Hk as ->.
  apply run_bind_Ok in Ht as (e2 & He & Ht). apply Ok_inj in Ht as [= -> ->].
  unfold notify in He. cbn [pevent_func] in He. rewrite H2 in He. apply Ok_inj in He as ->.
  cbn. rewrite app_nil_r. split_and!; try done. right. exists c, k. split; [exact Ek|]. by split_and!.
Qed.
End ClientTurn.

(** ** The server's handlers *)

Lemma visited_all {A} (conns : gmap Z A) (l : list (Z * A)) :
  (forall key c, (key, c) ∈ l -> conns !! key = Some c) -> visited conns l.*1 = l.
Proof.
  unfold visited. induction l as [|[key c] l IH]; intros H; [done|]. rewrite fmap_cons. cbn [fst omap list_omap].
  rewrite (H key c) by apply list_elem_of_here. cbn [fmap option_fmap option_map]. f_equal. apply IH. intros. apply H. by right.
Qed.

Lemma visited_perm {A} (conns : gmap Z A) keys :
  keys ≡ₚ (map_to_list conns).*1 -> visited conns keys ≡ₚ map_to_list conns.
Proof.
  intros H. unfold visited. rewrite H. change (visited conns (map_to_list conns).*1 ≡ₚ map_to_list conns).
  rewrite visited_all; [done|]. intros key c. apply elem_of_map_to_list.
Qed.

Section ServerTurn.
Context (m : mem) (cv : Z) (Hm : forall z, mem_ok m z = true).
#[local] Hint Extern 0 (KcpSession ikcpcb) => exact (ikcp_session m) : typeclass_instances.
Implicit Types (a b : endpoint) (mgr : manager (K := ikcpcb)).

(** The server's end of the conversation: not yet created, held by the connection,
    or gone. *)
Record serving mgr b : Prop := {
  sv_keys : map_Forall (fun key c => conn_conv c = key) (mg_conns mgr);
  sv_cur : 0 <= mg_cur_conv mgr < 4294967296;
  sv_conn : mg_cur_conv mgr < cv /\ mg_conns mgr !! cv = None /\ open_kcp m cv 5 = Some (ep_kcp b) \/
            cv <= mg_cur_conv mgr /\ forall c, mg_conns mgr !! cv = Some c -> conn_kcp c = ep_kcp b
}.

Lemma heard_of_app e1 e2 : heard_of cv (e1 ++ e2) = heard_of cv e1 ++ heard_of cv e2.
Proof. apply omap_app. Qed.

Lemma heard_sent t remote (out : list (list byte)) : heard_of cv (concat (send_udp_package (Some t) remote <$> out)) = [].
Proof. induction out as [|d out IH]; [done|]. exact IH. Qed.

Lemma heard_clean t (c : connection (K := ikcpcb)) : heard_of cv (conn_clean (Some t) c) = [].
Proof. done. Qed.

Lemma conn_input_turn a b t (c : connection (K := ikcpcb)) data remote c' pkg :
  in_session cv b a -> in_session cv a b -> calm (ep_kcp b) = true -> data ∈ ep_out a \/ speaks cv data = false ->
  conn_kcp c = ep_kcp b -> conn_input (Some t) c data remote = Ok (c', pkg) ->
  exists b' got, in_session cv b' a /\ conn_kcp c' = ep_kcp b' /\ conn_conv c' = conn_conv c /\
    advanced b b' [] got [] /\ List.filter nonempty got = option_list pkg.
Proof.
  intros Hb Ha Hc Hd Hk H. unfold conn_input in H. rewrite Hk in H. apply run_bind_Ok in H as ([k1 r1] & Hi & H).
  destruct (input_turn m cv Hm b a data k1 r1 Hb Ha Hc Hd Hi) as (b1 & Hb1 & <- & Hac & _ & Ha1).
  apply run_bind_Ok in H as ([[k2 buf] r] & Hr & H). apply Ok_inj in H as [= -> ->].
  destruct (recv_turn m cv Hm b1 a kcp_buf_size k2 buf r Hb1 Hac) as (b2 & Hb2 & <- & _ & _ & Ha2 & Hlen); [by vm_compute|done|].
  exists b2, (if r <? 0 then [] else [buf]). split_and!; try done; [apply (advanced_trans _ _ _ [] [] [] _ _ _ Ha1 Ha2)|].
  destruct (r <? 0) eqn:E; zbool.
  - rewrite (proj2 (Z.leb_le r 0)) by lia. done.
  - specialize (Hlen E). subst r. cbn [List.filter]. unfold nonempty. rewrite Z.leb_antisym.
    destruct (0 <? zlen buf); cbn; [|done]. by rewrite take_ge by lia.
Qed.

(** The effect of a handler on the server's end. *)
Definition serves a b mgr' (eff : list effect) : Prop :=
  exists b' got, in_session cv b' a /\ serving mgr' b' /\ advanced b b' [] got [] /\
    List.filter nonempty got = heard_of cv eff.

Lemma serves_same a b mgr' eff : in_session cv b a -> serving mgr' b -> heard_of cv eff = [] -> serves a b mgr' eff.
Proof. intros Hb Hs He. exists b, []. split_and!; try done. destruct b. apply advanced_refl. Qed.

Lemma serving_conns mgr mgr' b :
  mg_conns mgr' = mg_conns mgr -> mg_cur_conv mgr' = mg_cur_conv mgr -> serving mgr b -> serving mgr' b.
Proof. intros E1 E2 []. constructor; by rewrite ?E1, ?E2. Qed.

Lemma connect_turn a b mgr remote mgr' eff :
  in_session cv b a -> serving mgr b -> mg_cur_conv mgr < 4294967295 ->
  handle_connect_packet mgr remote = Ok (mgr', eff) -> serves a b mgr' eff.
Proof.
  intros Hb [Hk Hc Hs] Hmax H. unfold handle_connect_packet, get_new_conv in H. rewrite u32_small in H by lia.
  set (n := mg_cur_conv mgr + 1) in *. assert (n = mg_cur_conv mgr + 1) as Hn by done. clearbody n. apply run_bind_Ok in H as ([conns e] & Ha & H). apply Ok_inj in H as [= -> ->].
  unfold add_new_connection, conn_create in Ha. cbn [mg_conns] in Ha.
  destruct (ks_create n 5) as [k|] eqn:Ek; [|done]. cbn [mbind run_bind] in Ha. apply Ok_inj in Ha as [= -> ->].
  apply serves_same; [done| |by destruct (mg_conns mgr !! n)].
  constructor; cbn; [by apply map_Forall_insert_2|lia|].
  destruct (decide (n = cv)) as [E|Hne].
  - right. split; [lia|]. rewrite E in Ek |- *. rewrite lookup_insert_eq. intros c [= <-]. cbn.
    destruct Hs as [(_ & _ & Ho)|[? _]]; [|lia].
    change (open_kcp m cv 5 = Some k) in Ek. congruence.
  - rewrite lookup_insert_ne by done. destruct Hs as [(? & ? & ?)|[? ?]]; [left|right]; split; try done; lia.
Qed.

Lemma kcp_packet_turn a b mgr data remote mgr' eff :
  in_session cv b a -> in_session cv a b -> serving mgr b ->
  (forall c, mg_conns mgr !! cv = Some c -> calm (conn_kcp c) = true) ->
  data ∈ ep_out a \/ speaks cv data = false ->
  handle_kcp_packet mgr data remote = Ok (mgr', eff) -> serves a b mgr' eff.
Proof.
  intros Hb Ha Hs Hcalm Hd H. pose proof Hs as [Hk Hc Hconn].
  unfold handle_kcp_packet in H. apply run_bind_Ok in H as ([n|] & Hn & H); [|done]. unfold find_by_conv in H.
  destruct (mg_conns mgr !! n) as [c|] eqn:Ec; [|by apply Ok_inj in H as [= -> ->]; apply serves_same].
  apply run_bind_Ok in H as ([c' pkg] & Hi & H). apply run_bind_Ok in H as (e & He & H). apply Ok_inj in H as [= -> ->].
  assert (conn_conv c' = conn_conv c) as Hcv.
  { unfold conn_input in Hi. apply run_bind_Ok in Hi as ([? ?] & _ & Hi). apply run_bind_Ok in Hi as ([[? ?] ?] & _ & Hi).
    by apply Ok_inj in Hi as [= -> _]. }
  rewrite Hcv, (Hk _ _ Ec) in He.
  assert (heard_of cv e = if n =? cv then option_list pkg else []) as Hh.
  { destruct pkg as [p|]; [|apply Ok_inj in He as ->; by case_if]. unfold call_event_callback_func in He.
    case_if_in He; [|done]. apply Ok_inj in He as ->. cbn. by destruct (n =? cv). }
  assert (map_Forall (fun key (c : connection (K := ikcpcb)) => conn_conv c = key) (<[n := c']> (mg_conns mgr))) as Hk'.
  { apply map_Forall_insert_2; [|done]. rewrite Hcv. by apply Hk. }
  destruct (decide (n = cv)) as [->|Hne].
  - destruct Hconn as [(_ & ? & _)|[Hle Hconn]]; [congruence|]. specialize (Hconn c Ec). specialize (Hcalm c Ec).
    rewrite Hconn in Hcalm.
    destruct (conn_input_turn a b _ c data remote c' pkg Hb Ha Hcalm Hd Hconn Hi) as (b' & got & Hb' & Hk2 & _ & Had & Hg).
    rewrite Z.eqb_refl in Hh. exists b', got. split_and!; try done; [|by rewrite Hh].
    constructor; cbn; [done|done|]. right. split; [done|]. rewrite lookup_insert_eq. by intros ? [= <-].
  - rewrite (proj2 (Z.eqb_neq n cv) Hne) in Hh. apply serves_same; [done| |done].
    constructor; cbn; [done|done|]. by rewrite lookup_insert_ne.
Qed.

Lemma receive_turn a b mgr error data remote mgr' eff :
  in_session cv b a -> in_session cv a b -> serving mgr b -> mg_cur_conv mgr < 4294967295 ->
  (forall c, mg_conns mgr !! cv = Some c -> calm (conn_kcp c) = true) ->
  data ∈ ep_out a \/ speaks cv data = false ->
  handle_udp_receive_from mgr error data remote = Ok (mgr', eff) -> serves a b mgr' eff.
Proof.
  intros Hb Ha Hs Hmax Hcalm Hd H. unfold handle_udp_receive_from in H.
  apply run_bind_Ok in H as ([mgr1 e1] & H & E). apply Ok_inj in E as [= -> ->].
  assert (serves a b mgr1 e1) as (b' & got & Hb' & Hs' & Had & Hg).
  { match type of H with context [handle_connect_packet ?x _] => set (mgr0 := x) in * end.
    assert (serving mgr0 b) as Hs0 by (by apply (serving_conns mgr)).
    case_if_in H; [case_if_in H|].
    - by apply (connect_turn a b mgr0 remote).
    - by apply (kcp_packet_turn a b mgr0 data remote).
    - apply Ok_inj in H as [= -> ->]. by apply serves_same. }
  exists b', got. split_and!; try done. unfold hook_udp_async_receive. case_if; [done|]. by apply (serving_conns mgr1).
Qed.

(** What the loop over the connections does to each entry. *)
Lemma update_loop_entries t cb clock (l l' : list (Z * connection (K := ikcpcb))) eff :
  update_loop (Some t) cb clock l = Ok (l', eff) ->
  heard_of cv eff = [] /\
  (forall key c', (key, c') ∈ l' -> exists c out, (key, c) ∈ l /\
     ks_update (conn_kcp c) clock = Ok (conn_kcp c', out) /\ conn_conv c' = conn_conv c) /\
  (forall key c, (key, c) ∈ l -> exists k' out, ks_update (conn_kcp c) clock = Ok (k', out)).
Proof.
  revert l' eff. induction l as [|[key c] l IH]; intros l' eff H; cbn [update_loop] in H.
  { apply Ok_inj in H as [= -> ->]. split_and!; [done|..]; by intros ? ? ?%not_elem_of_nil. }
  apply run_bind_Ok in H as ([c1 e1] & Hu & H). unfold conn_update_kcp in Hu.
  apply run_bind_Ok in Hu as ([k1 out] & Hu & E). apply Ok_inj in E as [= -> ->].
  assert (exists l1 e2 e3, update_loop (Some t) cb clock l = Ok (l1, e2) /\ heard_of cv e3 = [] /\
    heard_of cv eff = heard_of cv e3 ++ heard_of cv e2 /\
    (l' = l1 \/ l' = (key, mkConn (conn_conv c) k1 (conn_remote c) (conn_last c)) :: l1))
    as (l1 & e2 & e3 & Hl & Hh3 & Hh & Hl').
  { case_if_in H.
    - apply run_bind_Ok in H as (e2 & He & H). apply run_bind_Ok in H as ([l1 e] & Hl & H). apply Ok_inj in H as [= -> ->].
      cbn [conn_do_timeout] in He. unfold call_event_callback_func in He. destruct cb; [|done]. apply Ok_inj in He as ->.
      exists l1, e, []. split_and!; try done; [|by left]. by rewrite !heard_of_app, heard_sent.
    - apply run_bind_Ok in H as ([l1 e] & Hl & H). apply Ok_inj in H as [= -> ->].
      exists l1, e, []. split_and!; try done; [|by right]. by rewrite heard_of_app, heard_sent. }
  destruct (IH l1 e2 Hl) as (IH1 & IH2 & IH3). split; [by rewrite Hh, Hh3, IH1|]. split.
  - intros key' c' Hin. assert ((key', c') ∈ l1 \/ key' = key /\ c' = mkConn (conn_conv c) k1 (conn_remote c) (conn_last c))
      as [Hin'|[-> ->]].
    { destruct Hl' as [-> | ->]; [by left|]. apply elem_of_cons in Hin as [[= -> ->]|?]; auto. }
    + destruct (IH2 key' c' Hin') as (c0 & o & ? & ?). exists c0, o. split; [by right|done].
    + exists c, out. split; [apply list_elem_of_here|done].
  - intros key' c' [[= -> ->]|Hin]%elem_of_cons; [by eexists _, _|]. by apply (IH3 key').
Qed.

Lemma tick_turn a b mgr now keys mgr' eff :
  in_session cv b a -> serving mgr b ->
  (forall c, mg_conns mgr !! cv = Some c -> calm (conn_kcp c) = true) ->
  keys ≡ₚ (map_to_list (mg_conns mgr)).*1 ->
  handle_kcp_time mgr now (visited (mg_conns mgr) keys) = Ok (mgr', eff) ->
  exists b', in_session cv b' a /\ serving mgr' b' /\ heard_of cv eff = [] /\
    advanced b b' [] [] (conn_output m (mg_conns mgr !! cv) (u32 now)).
Proof.
  intros Hb [Hk Hc Hconn] Hcalm Hp H. apply visited_perm in Hp. set (order := visited _ _) in *. clearbody order.
  unfold handle_kcp_time, update_all_kcp in H. apply run_bind_Ok in H as ([conns e] & Hu & H). apply Ok_inj in H as [= -> ->].
  apply run_bind_Ok in Hu as ([l' e'] & Hu & E). apply Ok_inj in E as [= -> ->].
  match type of Hu with update_loop (Some ?t) ?cb ?ck _ = _ =>
    assert (ck = u32 now) as Eck by (unfold hook_kcp_timer; by case_if);
    destruct (update_loop_entries t cb ck order l' e' Hu) as (Hh & Hin & Hrun); rewrite Eck in * end.
  clear Hu. assert (forall key c, (key, c) ∈ order <-> mg_conns mgr !! key = Some c) as Hord.
  { intros key c. rewrite Hp. apply elem_of_map_to_list. }
  assert (forall key c', (list_to_map l' : gmap Z connection) !! key = Some c' -> exists c out, mg_conns mgr !! key = Some c /\
    ks_update (conn_kcp c) (u32 now) = Ok (conn_kcp c', out) /\ conn_conv c' = conn_conv c) as Hlook.
  { intros key c' Hl%elem_of_list_to_map_2. apply Hin in Hl as (c & out & ? & ?). exists c, out. by rewrite <- Hord. }
  assert (forall mgr1 b1, mg_conns mgr1 = list_to_map l' -> mg_cur_conv mgr1 = mg_cur_conv mgr ->
    (cv <= mg_cur_conv mgr -> forall c, mg_conns mgr1 !! cv = Some c -> conn_kcp c = ep_kcp b1) ->
    (mg_cur_conv mgr < cv -> b1 = b) -> serving mgr1 b1) as Hsv.
  { intros mgr1 b1 E1 E2 H1 H2. constructor; rewrite ?E2; [|done|].
    - intros key c'. rewrite E1. intros (c & _ & Hc' & _ & ->)%Hlook. by apply Hk.
    - destruct Hconn as [(Hlt & Hnone & Ho)|[Hle _]]; [left|right; by split; [|apply H1]].
      rewrite H2 by done. split_and!; try done. rewrite E1. destruct (list_to_map l' !! cv) eqn:El; [|done].
      apply Hlook in El as (? & ? & ? & _). congruence. }
  destruct (mg_conns mgr !! cv) as [c|] eqn:Ec.
  - destruct Hconn as [(_ & ? & _)|[Hle Hconn]]; [congruence|]. specialize (Hconn c eq_refl). specialize (Hcalm c eq_refl).
    destruct (Hrun cv c) as (k' & out & Hu); [by apply Hord|]. cbn [conn_output]. rewrite Hu.
    rewrite Hconn in Hu, Hcalm. unfold calm in Hcalm. zbool.
    destruct (update_turn m cv Hm b a (u32 now) k' out Hb ltac:(lia) Hu) as (b' & Hb' & Hk' & _ & Had).
    exists b'. split_and!; try done. apply Hsv; [done|by unfold hook_kcp_timer; case_if| |lia].
    intros _ c' Hl. apply Hlook in Hl as (c0 & o & Hc0 & Hu0 & _). rewrite Ec in Hc0. injection Hc0 as <-. congruence.
  - exists b. split_and!; try done; [|destruct b; apply advanced_refl].
    apply Hsv; [done|by unfold hook_kcp_timer; case_if| |done].
    intros _ c' Hl. apply Hlook in Hl as (c0 & o & Hc0 & _). congruence.
Qed.

Lemma say_turn a b mgr n msg mgr' r :
  in_session cv b a -> serving mgr b ->
  (forall c, mg_conns mgr !! cv = Some c -> calm (conn_kcp c) = true) ->
  zlen msg < 2147483648 ->
  fragments_total (ep_sent b) + fragments_total (if (n =? cv) && (r =? 0) then [msg] else []) < half ->
  send_msg mgr n msg = Ok (mgr', r) ->
  exists b', in_session cv b' a /\ serving mgr' b' /\
    advanced b b' (List.filter (accepted session_mss) (if (n =? cv) && (r =? 0) then [msg] else [])) [] [].
Proof.
  intros Hb Hs Hcalm Hml Ht H. pose proof Hs as [Hk Hc Hconn]. unfold send_msg, find_by_conv in H.
  destruct (mg_conns mgr !! n) as [c|] eqn:Ec.
  2: { apply Ok_inj in H as [= -> ->]. rewrite andb_false_r. exists b. split_and!; try done. destruct b. apply advanced_refl. }
  apply run_bind_Ok in H as (c' & Hs' & H). apply Ok_inj in H as [= -> ->]. rewrite andb_true_r in *.
  unfold conn_send_kcp_msg in Hs'. apply run_bind_Ok in Hs' as ([k' r] & Hsend & E). apply Ok_inj in E as ->.
  assert (map_Forall (fun key (c : connection (K := ikcpcb)) => conn_conv c = key)
    (<[n := mkConn (conn_conv c) k' (conn_remote c) (conn_last c)]> (mg_conns mgr))) as Hk'.
  { apply map_Forall_insert_2; [|done]. exact (Hk _ _ Ec). }
  destruct (n =? cv) eqn:En; zbool.
  - subst n. destruct Hconn as [(_ & ? & _)|[Hle Hconn]]; [congruence|]. specialize (Hconn c Ec). specialize (Hcalm c Ec).
    rewrite Hconn in Hcalm, Hsend.
    destruct (send_turn m cv Hm b a msg k' r Hb Hcalm Hml Ht Hsend) as (b' & Hb' & Hk2 & _ & Had).
    exists b'. split_and!; try done. constructor; cbn; [done|done|]. right. split; [done|].
    rewrite lookup_insert_eq. by intros ? [= <-].
  - exists b. split_and!; try done; [|destruct b; apply advanced_refl].
    constructor; cbn; [done|done|]. by rewrite lookup_insert_ne.
Qed.

Lemma drop_turn a b mgr n mgr' eff :
  in_session cv b a -> serving mgr b -> force_disconnect mgr n = Ok (mgr', eff) -> serves a b mgr' eff.
Proof.
  intros Hb Hs H. pose proof Hs as [Hk Hc Hconn]. unfold force_disconnect, find_by_conv in H.
  destruct (mg_conns mgr !! n) as [c|] eqn:Ec; [|by apply Ok_inj in H as [= -> ->]; apply serves_same].
  apply run_bind_Ok in H as (e & He & H). unfold call_event_callback_func in He. case_if_in He; [|done]. apply Ok_inj in He as ->.
  cbn [remove_connection] in H. rewrite Ec in H. apply Ok_inj in H as [= -> ->]. apply serves_same; [done| |done].
  constructor; cbn; [by apply map_Forall_delete|done|].
  destruct Hconn as [(? & ? & ?)|[? Hconn]]; [left|right].
  - split_and!; try done. by apply lookup_delete_None; right.
  - split; [done|]. intros c' [_ Hc']%lookup_delete_Some. by apply Hconn.
Qed.

Lemma stop_turn a b mgr (order : list (Z * connection (K := ikcpcb))) mgr' eff :
  in_session cv b a -> serving mgr b -> stop_all mgr order = (mgr', eff) -> serves a b mgr' eff.
Proof.
  intros Hb [Hk Hc Hconn] [= <- <-]. apply serves_same; [done| |].
  - constructor; cbn; [apply map_Forall_empty|done|]. destruct Hconn as [(? & ? & ?)|[? _]]; [by left|right].
    split; [done|]. intros c'. by rewrite lookup_empty.
  - induction order as [|kc order IH]; [done|]. rewrite fmap_cons. cbn [concat]. by rewrite heard_of_app, IH.
Qed.
End ServerTurn.

(** ** The whole system *)

Section Whole.
Context (m : mem) (cv : Z) (Hm : forall z, mem_ok m z = true).
#[local] Hint Extern 0 (KcpSession ikcpcb) => exact (ikcp_session m) : typeclass_instances.
Implicit Types (a b : endpoint) (s : net).

(** The client's end: not connected, or held by the client. *)
Definition calling (cli : kcp_client (K := ikcpcb)) a : Prop :=
  pevent_func cli = true /\ p_kcp cli = None /\ connect_succeed cli = false /\
    open_kcp m cv 2 = Some (ep_kcp a) /\ ep_sent a = [] \/
  online cli (ep_kcp a).

(** The state of the system and the two endpoints it stands for. *)
Record net_ok s a b : Prop := {
  no_a : in_session cv a b;
  no_b : in_session cv b a;
  no_cli : calling (nt_cli s) a;
  no_srv : serving m cv (nt_mgr s) b;
  no_within : within cv s = true;
  no_queue : Forall (fun msg => zlen msg < 2147483648) (send_msg_queue (nt_cli s));
  no_csaid : List.filter (accepted session_mss) (nt_csaid s)
             = ep_sent a ++ List.filter (accepted session_mss) (send_msg_queue (nt_cli s));
  no_ssaid : List.filter (accepted session_mss) (nt_ssaid s) = ep_sent b;
  no_cheard : nt_cheard s = List.filter nonempty (ep_got a);
  no_sheard : nt_sheard s = List.filter nonempty (ep_got b);
  no_up : Forall (fun d => d ∈ ep_out a \/ d = making_connect_packet) (nt_up s);
  no_down : nt_down s = ep_out b
}.

Lemma in_session_peer a b a' : in_session cv b a -> in_session cv a' b -> in_session cv b a'.
Proof. intros [_ H1 H2 H3 H4 H5] [Hl _ _ _ _ _]. constructor; try done. by apply linked_sym. Qed.

Lemma within_split s : within cv s = true ->
  (forall k, p_kcp (nt_cli s) = Some k -> conv k = cv /\ calm k = true) /\
  (forall c, mg_conns (nt_mgr s) !! cv = Some c -> calm (conn_kcp c) = true) /\
  fragments_total (nt_csaid s) < half /\ fragments_total (nt_ssaid s) < half /\ mg_cur_conv (nt_mgr s) < 4294967295.
Proof.
  unfold within. intros [[[[H1 H2]%andb_true_iff H3]%andb_true_iff H4]%andb_true_iff H5]%andb_true_iff. zbool.
  split_and!; try done.
  - intros k E. rewrite E in H1. apply andb_true_iff in H1 as [? ?]. by zbool.
  - intros c E. by rewrite E in H2.
Qed.

Lemma csaid_total s a b : net_ok s a b ->
  fragments_total (ep_sent a) + fragments_total (send_msg_queue (nt_cli s)) = fragments_total (nt_csaid s).
Proof.
  intros H. rewrite <- (fragments_total_filter (nt_csaid s)), (no_csaid _ _ _ H), fragments_total_app.
  by rewrite fragments_total_filter.
Qed.

(** The client's update. *)
Lemma net_client_update s a b now r cli' eff :
  net_ok s a b -> admissible cv b r -> client_update (nt_cli s) now r = Ok (cli', eff) ->
  let s' := mkNet (nt_mgr s) cli' (nt_up s ++ sent_of eff) (nt_down s) (nt_csaid s) (nt_ssaid s)
    (nt_cheard s ++ told_of eff) (nt_sheard s) in
  within cv s' = true -> exists a', net_ok s' a' b.
Proof.
  intros Hs Hr H s' Hw. destruct (within_split _ (no_within _ _ _ Hs)) as (Hk & _ & Ht & _).
  pose proof (csaid_total _ _ _ Hs) as Htot. destruct (within_split _ Hw) as (Hk' & _). destruct Hs as [Ha Hb Hc Hsv _ Hq Hcs Hss Hch Hsh Hup Hdn].
  destruct Hc as [(C1 & C2 & C3 & C4 & C5)|Ho].
  - assert (told_of eff = [] /\ Forall (fun d => d = making_connect_packet) (sent_of eff) /\
      send_msg_queue cli' = send_msg_queue (nt_cli s) /\ calling cli' a) as (E1 & E2 & E3 & E4).
    { destruct (in_connect_stage (nt_cli s)) eqn:Est.
      - destruct (dialling_turn m _ _ _ _ _ Est C1 C2 C3 H) as (E1 & E2 & E3 & E4 & E5). split_and!; try done.
        destruct E5 as [[F1 F2]|(c & k & Hopen & Hon)]; [by left|right].
        destruct (open_kcp_ok m Hm c 2) as (k2 & Hk2 & _ & Hcv & _). rewrite Hopen in Hk2. injection Hk2 as <-.
        destruct (Hk' k) as [Hcv' _]; [apply Hon|]. rewrite <- Hcv, Hcv', C4 in Hopen. by injection Hopen as ->.
      - unfold client_update in H. rewrite Est, C3 in H. apply Ok_inj in H as [= -> ->]. split_and!; try done. by left. }
    exists a. constructor; cbn; rewrite ?E3, ?E1, ?app_nil_r; try done.
    apply Forall_app. split; [done|]. eapply Forall_impl; [|exact E2]. by right.
  - destruct (Hk (ep_kcp a)) as [_ Hcalm]; [apply Ho|].
    destruct (client_turn m cv Hm _ a b now r cli' eff Ha Hb Hcalm Ho Hr Hq ltac:(lia) H) as (a' & got & Ha' & Ho' & Hq' & (D1 & D2 & D3) & Hg).
    exists a'. constructor; cbn; rewrite ?Hq', ?D1, ?D2, ?app_nil_r; try done.
    + by apply (in_session_peer a b).
    + by right.
    + by rewrite Hch, List.filter_app, Hg.
    + rewrite D3. apply Forall_app. split.
      * eapply Forall_impl; [|exact Hup]. intros d [?|?]; [left; apply elem_of_app; by left|by right].
      * apply list.Forall_forall. intros d Hd. left. apply elem_of_app. by right.
Qed.

(** A handler of the server. *)
Lemma net_server_step s a b mgr' eff :
  net_ok s a b -> serves m cv a b mgr' eff ->
  let s' := mkNet mgr' (nt_cli s) (nt_up s) (nt_down s) (nt_csaid s) (nt_ssaid s) (nt_cheard s)
    (nt_sheard s ++ heard_of cv eff) in
  within cv s' = true -> exists b', net_ok s' a b'.
Proof.
  intros [Ha Hb Hc Hsv _ Hq Hcs Hss Hch Hsh Hup Hdn] (b' & got & Hb' & Hsv' & (D1 & D2 & D3) & Hg) s' Hw.
  rewrite app_nil_r in D1, D3. exists b'. constructor; cbn; rewrite ?D1, ?D2, ?D3; try done.
  - by apply (in_session_peer b a).
  - by rewrite Hsh, List.filter_app, Hg.
Qed.

Lemma arrives_admissible (b : endpoint) r x : arrives_at cv (ep_out b) r = Some x -> admissible cv b x.
Proof.
  destruct r as [i|d|errno]; cbn; intros H.
  - apply fmap_Some in H as (d & Hd & ->). left. by apply list_elem_of_lookup_2 in Hd.
  - destruct (speaks cv d) eqn:E; [done|]. injection H as <-. by right.
  - by injection H as <-.
Qed.

(** What reaches the server is the client's or foreign. *)
Lemma arrives_up s a b r :
  net_ok s a b ->
  let data := match arrives_at cv (nt_up s) r with Some (Received d) => d | _ => [] end in
  data ∈ ep_out a \/ speaks cv data = false.
Proof.
  intros Hs. destruct r as [i|d|errno]; cbn; [|by destruct (speaks cv d) eqn:E; right|by right].
  destruct (nt_up s !! i) as [d|] eqn:E; cbn; [|by right].
  pose proof (no_up _ _ _ Hs) as Hup. rewrite Forall_lookup in Hup. destruct (Hup i d E) as [? | ->]; [by left|].
  right. apply connect_silent.
Qed.

(** The application of the client, the tick of the server, and its application. *)
Lemma net_client_says s a b msg :
  net_ok s a b -> zlen msg < 2147483648 ->
  let s' := mkNet (nt_mgr s) (client_send_msg (nt_cli s) msg) (nt_up s) (nt_down s) (nt_csaid s ++ [msg]) (nt_ssaid s)
    (nt_cheard s) (nt_sheard s) in
  within cv s' = true -> net_ok s' a b.
Proof.
  intros [Ha Hb Hc Hsv _ Hq Hcs Hss Hch Hsh Hup Hdn] Hl s' Hw. constructor; cbn; unfold Queue.push; try done.
  - apply Forall_app. split; [done|]. by constructor.
  - by rewrite !List.filter_app, Hcs, <- app_assoc.
Qed.

Lemma net_tick s a b now keys mgr' eff :
  net_ok s a b -> keys ≡ₚ (map_to_list (mg_conns (nt_mgr s))).*1 ->
  handle_kcp_time (nt_mgr s) now (visited (mg_conns (nt_mgr s)) keys) = Ok (mgr', eff) ->
  let s' := mkNet mgr' (nt_cli s) (nt_up s) (nt_down s ++ conn_output m (mg_conns (nt_mgr s) !! cv) (u32 now))
    (nt_csaid s) (nt_ssaid s) (nt_cheard s) (nt_sheard s ++ heard_of cv eff) in
  within cv s' = true -> exists b', net_ok s' a b'.
Proof.
  intros Hs Hp H s' Hw. destruct (within_split _ (no_within _ _ _ Hs)) as (_ & Hcalm & _).
  destruct Hs as [Ha Hb Hc Hsv _ Hq Hcs Hss Hch Hsh Hup Hdn].
  destruct (tick_turn m cv Hm a b _ now keys mgr' eff Hb Hsv Hcalm Hp H) as (b' & Hb' & Hsv' & Hh & (D1 & D2 & D3)).
  rewrite app_nil_r in D1, D2. exists b'. constructor; cbn; rewrite ?D1, ?D2, ?Hh, ?app_nil_r; try done.
  - by apply (in_session_peer b a).
  - by rewrite D3, Hdn.
Qed.

Lemma net_server_says s a b n msg mgr' r :
  net_ok s a b -> zlen msg < 2147483648 -> send_msg (nt_mgr s) n msg = Ok (mgr', r) ->
  let s' := mkNet mgr' (nt_cli s) (nt_up s) (nt_down s) (nt_csaid s)
    (nt_ssaid s ++ (if (n =? cv) && (r =? 0) then [msg] else [])) (nt_cheard s) (nt_sheard s) in
  within cv s' = true -> exists b', net_ok s' a b'.
Proof.
  intros Hs Hl H s' Hw. destruct (within_split _ (no_within _ _ _ Hs)) as (_ & Hcalm & _).
  destruct (within_split _ Hw) as (_ & _ & _ & Hts & _). cbn [nt_ssaid s'] in Hts.
  destruct Hs as [Ha Hb Hc Hsv _ Hq Hcs Hss Hch Hsh Hup Hdn].
  destruct (say_turn m cv Hm a b _ n msg mgr' r Hb Hsv Hcalm Hl) as (b' & Hb' & Hsv' & (D1 & D2 & D3)); [|done|].
  { by rewrite <- Hss, fragments_total_filter, <- fragments_total_app. }
  rewrite app_nil_r in D2, D3. exists b'. constructor; cbn; rewrite ?D1, ?D2, ?D3; try done.
  - by apply (in_session_peer b a).
  - by rewrite List.filter_app, Hss.
Qed.

Lemma net_step_ok s s' a b : net_ok s a b -> net_step m cv s s' -> exists a' b', net_ok s' a' b'.
Proof.
  intros Hs (o & H & Hw). destruct (within_split _ (no_within _ _ _ Hs)) as (_ & Hcalm & _ & _ & Hcur).
  pose proof (arrives_up s a b) as Hup. pose proof (no_down _ _ _ Hs) as Hdn.
  destruct s as [mgr cli up down csaid ssaid cheard sheard]. cbn [nt_mgr nt_up nt_down] in *.
  destruct o; cbn [net_exec] in H.
  - apply run_bind_Ok in H as (u & Hu & H). apply Ok_inj in H as ->. unfold c_require in Hu. case_if_in Hu; [|done]. zbool.
    exists a, b. by apply (net_client_says _ a b msg Hs).
  - destruct (arrives_at cv down r) as [x|] eqn:Ex; [|apply Ok_inj in H as ->; by exists a, b].
    apply run_bind_Ok in H as ([cli' eff] & Hc & H). apply Ok_inj in H as ->. rewrite Hdn in Ex.
    destruct (net_client_update _ a b now x cli' eff Hs) as (a' & Ha'); [by apply (arrives_admissible b r)|done|done|]. by exists a', b.
  - apply run_bind_Ok in H as ([mgr' eff] & Hr & H). apply Ok_inj in H as ->. exists a. apply (net_server_step _ a b mgr' eff Hs); [|exact Hw].
    eapply receive_turn; try apply Hs; try done. exact (Hup r Hs).
  - apply run_bind_Ok in H as (u & Hu & H). unfold c_require in Hu. case_if_in Hu; [|done].
    apply run_bind_Ok in H as ([mgr' eff] & Hr & H). apply Ok_inj in H as ->. exists a. by apply (net_tick _ a b now keys mgr' eff Hs).
  - apply run_bind_Ok in H as (u & Hu & H). unfold c_require in Hu. case_if_in Hu; [|done]. zbool.
    apply run_bind_Ok in H as ([mgr' r] & Hr & H). apply Ok_inj in H as ->. exists a. by apply (net_server_says _ a b conv msg mgr' r Hs).
  - apply run_bind_Ok in H as ([mgr' eff] & Hr & H). apply Ok_inj in H as ->. exists a. apply (net_server_step _ a b mgr' eff Hs); [|exact Hw].
    eapply drop_turn; try apply Hs; exact Hr.
  - destruct (stop_all mgr _) as [mgr' eff] eqn:Hr. apply Ok_inj in H as ->. exists a. apply (net_server_step _ a b mgr' eff Hs); [|exact Hw].
    eapply stop_turn; try apply Hs; exact Hr.
Qed.

(** The client has just dialled, and the server has not handed out the id. *)
Definition dialled (mgr : manager (K := ikcpcb)) (cli : kcp_client (K := ikcpcb)) : net := mkNet mgr cli [] [] [] [] [] [].

Lemma dialled_ok cur bind ip port os now cli :
  0 <= cur < cv -> cv < 4294967296 ->
  connect_async (set_event_callback new_client) bind ip port os now = (cli, 0) ->
  exists a b, net_ok (dialled (set_callback (new_manager cur)) cli) a b.
Proof.
  intros Hcur Hcv H.
  assert (pevent_func cli = true /\ p_kcp cli = None /\ connect_succeed cli = false /\ send_msg_queue cli = []) as (C1 & C2 & C3 & C4).
  { unfold connect_async in H. cbn in H. destruct (init_udp_connect _ os) as [c ret] eqn:E.
    unfold init_udp_connect in E. repeat case_if_in E; injection E as <- <-; try done; cbn in H; injection H as <-; by split_and!. }
  destruct (open_kcp_ok m Hm cv 2) as (ka & Hka & _). destruct (open_kcp_ok m Hm cv 5) as (kb & Hkb & _).
  destruct (open_unused m cv 2 ka Hka) as (Ua & Ma & Ta & Wa); [lia|]. destruct (open_unused m cv 5 kb Hkb) as (Ub & Mb & Tb & Wb); [lia|].
  pose proof (un_conv _ _ Ua) as [Ca _]. pose proof (un_conv _ _ Ub) as [Cb _].
  exists (fresh ka), (fresh kb). constructor; cbn; rewrite ?C2, ?C4; try done.
  - constructor; cbn; try done. by apply (unused_linked cv).
  - constructor; cbn; try done. by apply (unused_linked cv).
  - left. by split_and!.
  - constructor; cbn; [done|lia|]. left. by split_and!; [lia|rewrite lookup_empty|].
  - unfold within. cbn. rewrite C2, lookup_empty. cbn. apply Z.ltb_lt. lia.
Qed.
End Whole.

Lemma reached_ok m cv cur bind ip port os now cli s :
  (forall z, mem_ok m z = true) -> 0 <= cur < cv -> cv < 4294967296 ->
  connect_async (set_event_callback new_client) bind ip port os now = (cli, 0) ->
  rtc (net_step m cv) (dialled (set_callback (new_manager cur)) cli) s -> exists a b, net_ok m cv s a b.
Proof.
  intros Hm Hcur Hcv Hdial Hs.
  destruct (dialled_ok m cv Hm cur bind ip port os now cli Hcur Hcv Hdial) as (a0 & b0 & H0).
  clear -Hs H0 Hm. revert a0 b0 H0. induction Hs as [s|s1 s2 s3 H12 _ IH]; intros a0 b0 H0; [by exists a0, b0|].
  destruct (net_step_ok m cv Hm _ _ _ _ H0 H12) as (a1 & b1 & H1). by apply (IH a1 b1).
Qed.

Lemma deliverable_filter l :
  List.filter deliverable l = List.filter nonempty (List.filter (accepted session_mss) l).
Proof. by rewrite filter_filter. Qed.

(** The message fits the receive windows, which the libraries leave at their default. *)
Definition fits_window (msg : list byte) : Prop := frag_count (zlen msg) session_mss <= IKCP_WND_RCV.

Lemma fits_accepted l : Forall fits_window l -> List.filter (accepted session_mss) l = l.
Proof.
  induction 1 as [|msg l Hx _ IH]; [done|]. cbn [List.filter]. unfold accepted, fits_window, IKCP_WND_RCV in *.
  rewrite (proj2 (Z.leb_le _ 255)) by lia. by f_equal.
Qed.

Lemma session_all_read cv a b :
  in_session cv a b -> in_session cv b a -> Forall fits_window (ep_sent a) ->
  ikcp_waitsnd (ep_kcp a) = 0 -> ikcp_peeksize (ep_kcp b) < 0 -> ep_got b = ep_sent a.
Proof.
  intros Ha Hb Hf. apply linked_all_read; [apply Ha|]. unfold readable. by rewrite (is_mss _ _ _ Ha), (is_wnd _ _ _ Hb).
Qed.

(** C2: what is heard is what was said.  A client dials a server that may have other
    clients; the application of the client sends, the server's sends to any
    conversation, disconnects or stops, both sides poll their clocks and sockets in
    any interleaving, and the network delivers datagrams of this conversation in any
    order, repeatedly or never, and any foreign ones.  At every moment the messages
    the server's application was given for the conversation are, in order, an initial
    part of those the client's application passed to send_msg, leaving out the empty
    ones and those of more than 255 fragments, which the libraries drop silently; and
    so are the messages the client's application was given of those the server's
    application sent to the conversation while it existed. *)
Theorem said_and_heard m cv cur bind ip port os now cli s :
  (forall z, mem_ok m z = true) -> 0 <= cur < cv -> cv < 4294967296 ->
  connect_async (set_event_callback new_client) bind ip port os now = (cli, 0) ->
  rtc (net_step m cv) (dialled (set_callback (new_manager cur)) cli) s ->
  nt_sheard s `prefix_of` List.filter deliverable (nt_csaid s) /\
  nt_cheard s `prefix_of` List.filter deliverable (nt_ssaid s).
Proof.
  intros Hm Hcur Hcv Hdial Hs. destruct (reached_ok m cv cur bind ip port os now cli s Hm Hcur Hcv Hdial Hs) as (a & b & Hok).
  pose proof (is_linked _ _ _ (no_a _ _ _ _ _ Hok)) as Hl.
  destruct (ln_log _ _ Hl) as [_ _ Ga _ _ _]. destruct (ln_peer _ _ Hl) as [_ _ Gb _ _ _].
  rewrite !deliverable_filter, (no_sheard _ _ _ _ _ Hok), (no_cheard _ _ _ _ _ Hok), (no_csaid _ _ _ _ _ Hok), (no_ssaid _ _ _ _ _ Hok).
  split; apply filter_prefix; [|rewrite Ga; apply prefix_take].
  rewrite Gb. etrans; [apply prefix_take|]. by eexists.
Qed.

(** A session: the client dials; its first connect packet is lost, the second
    answered; both applications speak, some datagrams are lost or arrive twice, and a
    foreign one intrudes. *)
Definition demo_words (w : nat) : list byte :=
  nth w [cstr "hello"%string; []; cstr "how are you"%string; cstr "welcome"%string] [].

Definition demo_talk : list action :=
  [Client_says (demo_words 0); Client_updates 10001 (Nothing EAGAIN); Client_updates 10600 (Nothing EAGAIN);
   Server_receives false (From_peer 1) demo_client;
   Client_updates 10610 (Foreign (making_send_back_conv_packet 1001));
   Server_says 1001 (demo_words 3); Client_says (demo_words 1); Server_ticks 20000 [1001];
   Client_updates 10620 (From_peer 0); Client_says (demo_words 2);
   Server_receives false (Foreign making_connect_packet) (mkUdp 1 2);
   Server_receives false (From_peer 2) demo_client; Server_receives false (From_peer 2) demo_client;
   Client_updates 10640 (From_peer 0); Server_ticks 20010 [1002; 1001];
   Server_receives false (From_peer 3) demo_client; Server_receives false (From_peer 4) demo_client;
   Client_updates 10660 (From_peer 1); Server_ticks 20020 [1001; 1002]; Client_updates 10680 (From_peer 2);
   Server_receives false (From_peer 4) demo_client; Server_ticks 20040 [1001; 1002]].
Definition demo_talked : net :=
  match net_run demo_mem 1001 demo_talk (dialled (set_callback (new_manager 1000)) demo_dialling) with
  | Ok s => s
  | _ => dialled (set_callback (new_manager 1000)) demo_dialling
  end.

Lemma demo_talk_steps :
  rtc (net_step demo_mem 1001) (dialled (set_callback (new_manager 1000)) demo_dialling) demo_talked.
Proof. apply (net_run_steps demo_mem 1001 demo_talk). vm_compute. reflexivity. Qed.

Lemma said_and_heard_witness :
  nt_sheard demo_talked = [demo_words 0; demo_words 2] /\ nt_cheard demo_talked = [demo_words 3] /\
  nt_sheard demo_talked `prefix_of` List.filter deliverable (nt_csaid demo_talked) /\
  nt_cheard demo_talked `prefix_of` List.filter deliverable (nt_ssaid demo_talked).
Proof.
  split; [vm_compute; reflexivity|]. split; [vm_compute; reflexivity|].
  apply (said_and_heard demo_mem 1001 1000 0 (cstr "127.0.0.1"%string) 12345 demo_os 10000 demo_dialling demo_talked).
  - reflexivity.
  - lia.
  - lia.
  - vm_compute. reflexivity.
  - exact demo_talk_steps.
Defined.

(** C3: and everything is heard in the end.  In the same system: whenever the
    client's queue is empty, ikcp_waitsnd of its control block is zero and
    ikcp_peeksize finds nothing at the server's connection, the server's application
    has been given every non-empty message that the client's application ever passed
    to send_msg, provided none of them needs more than the 32 fragments of the
    receive window; and likewise in the other direction. *)
Theorem all_heard m cv cur bind ip port os now cli s k c :
  (forall z, mem_ok m z = true) -> 0 <= cur < cv -> cv < 4294967296 ->
  connect_async (set_event_callback new_client) bind ip port os now = (cli, 0) ->
  rtc (net_step m cv) (dialled (set_callback (new_manager cur)) cli) s ->
  p_kcp (nt_cli s) = Some k -> mg_conns (nt_mgr s) !! cv = Some c ->
  (Forall fits_window (nt_csaid s) -> send_msg_queue (nt_cli s) = [] ->
     ikcp_waitsnd k = 0 -> ikcp_peeksize (conn_kcp c) < 0 ->
     nt_sheard s = List.filter nonempty (nt_csaid s)) /\
  (Forall fits_window (nt_ssaid s) -> ikcp_waitsnd (conn_kcp c) = 0 -> ikcp_peeksize k < 0 ->
     nt_cheard s = List.filter nonempty (nt_ssaid s)).
Proof.
  intros Hm Hcur Hcv Hdial Hs Hk Hc.
  destruct (reached_ok m cv cur bind ip port os now cli s Hm Hcur Hcv Hdial Hs) as (a & b & [Ha Hb Hcl Hsv _ _ Hcs Hss Hch Hsh _ _]).
  assert (k = ep_kcp a) as ->.
  { destruct Hcl as [(_ & E & _)|(_ & _ & _ & E)]; congruence. }
  assert (conn_kcp c = ep_kcp b) as ->.
  { destruct (sv_conn _ _ _ _ Hsv) as [(_ & E & _)|[_ E]]; [congruence|auto]. }
  split.
  - intros Hf Hq Hw Hp. rewrite Hq, (fits_accepted _ Hf) in Hcs. cbn in Hcs. rewrite app_nil_r in Hcs.
    rewrite Hsh, Hcs. f_equal. apply (session_all_read cv); [done|done|by rewrite <- Hcs|done|done].
  - intros Hf Hw Hp. rewrite (fits_accepted _ Hf) in Hss.
    rewrite Hch, Hss. f_equal. apply (session_all_read cv); [done|done|by rewrite <- Hss|done|done].
Qed.

Definition demo_caller : ikcpcb := default demo_ck (p_kcp (nt_cli demo_talked)).
Definition demo_callee : connection (K := ikcpcb) :=
  default (mkConn 0 demo_ck demo_client 0) (mg_conns (nt_mgr demo_talked) !! 1001).

Lemma all_heard_witness :
  nt_sheard demo_talked = List.filter nonempty (nt_csaid demo_talked) /\
  nt_cheard demo_talked = List.filter nonempty (nt_ssaid demo_talked).
Proof.
  destruct (all_heard demo_mem 1001 1000 0 (cstr "127.0.0.1"%string) 12345 demo_os 10000 demo_dialling demo_talked
    demo_caller demo_callee) as [H1 H2].
  1, 4, 6, 7: vm_compute; reflexivity.
  1, 2: lia.
  1: exact demo_talk_steps.
  split; [apply H1|apply H2].
  1, 5: apply (bool_decide_unpack (Forall (fun msg => frag_count (zlen msg) session_mss <= IKCP_WND_RCV) _)).
  all: vm_compute; reflexivity.
Defined.
