(* ===== verification/StrUtil.v ===== *)
(** * String utilities

    Models src/essential/_src/utility/strutil.cpp: file names, numbers in bases 2
    to 16, the C-style escaping of binary strings, the hexadecimal dump, and the
    trimming and lower-casing routines.  A std::string is the list of its bytes;
    char is signed, as on the platforms of the Makefiles.  A failed assert or
    assert_check is [Abort], signed overflow [Undef]. *)

From Stdlib Require Strings.String.
Import Strings.String.StringSyntax.
#[local] Delimit Scope string_scope with string.
From S2P Require Import Prelude Codec.

(** The value of a char. *)
Definition char_val (b : byte) : Z := if byte_val b <? 128 then byte_val b else byte_val b - 256.

(** [long] arithmetic. *)
Definition c_long (z : Z) : run Z :=
  c_require ((-9223372036854775808 <=? z) && (z <? 9223372036854775808)) ≫= fun _ => Ok z.

(** ** File names *)

(** std::string::rfind; [None] is npos. *)
Fixpoint rfind (c : byte) (s : list byte) : option nat :=
  match s with
  | [] => None
  | b :: s =>
      match rfind c s with
      | Some i => Some (S i)
      | None => if decide (b = c) then Some O else None
      end
  end.

Definition GetFileSuffix (fileName : list byte) : run (list byte) :=
  match rfind Byte.x2e fileName with
  | None => Ok []
  | Some dotIndex =>
      if Z.of_nat dotIndex =? zlen fileName - 1 then Ok []
      else
        let suffixBeginPos := Z.of_nat dotIndex + 1 in
        c_assert (suffixBeginPos <? zlen fileName) ≫= fun _ =>
        let suffixLen := zlen fileName - suffixBeginPos in
        c_assert (suffixLen >? 0) ≫= fun _ =>
        c_assert (suffixLen <? zlen fileName - 1) ≫= fun _ =>
        Ok (take (Z.to_nat suffixLen) (drop (Z.to_nat suffixBeginPos) fileName))
  end.

Definition GetFileWithoutSuffix (fileName : list byte) : list byte :=
  match rfind Byte.x2e fileName with
  | None => []
  | Some dotIndex => if Z.of_nat dotIndex =? zlen fileName - 1 then [] else take dotIndex fileName
  end.

Definition GetFillPath_ByFullPathName (fullPathName : list byte) : run (list byte) :=
  c_assert (zlen fullPathName >? 0) ≫= fun _ =>
  match rfind Byte.x5c fullPathName with
  | None => Abort
  | Some pos => Ok (take (pos + 1) fullPathName)
  end.

(** The name is read as a C string: up to its first NUL. *)
Fixpoint c_string (s : list byte) : list byte :=
  match s with
  | [] => []
  | b :: s => if decide (b = Byte.x00) then [] else b :: c_string s
  end.

Definition GetFileNameWithoutPath (fullPathName : list byte) : run (list byte) :=
  c_assert (zlen fullPathName >? 0) ≫= fun _ =>
  match rfind Byte.x5c fullPathName with
  | None => Abort
  | Some pos => Ok (c_string (drop (pos + 1) fullPathName))
  end.

(** ** Numbers *)

(** [n] more multiplications of [m] by [d]. *)
Fixpoint pow_loop (d : Z) (n : nat) (m : Z) : run Z :=
  match n with
  | O => Ok m
  | S n => m ← c_long (m * d); pow_loop d n m
  end.
Definition pow_i (d : Z) (n : nat) : run Z := pow_loop d n 1.

Definition right_chars : list byte := cstr "00112233445566778899aAbBcCdDeEfF"%string.

(** The loop of isRightData over the pairs that are left. *)
Fixpoint right_loop (c : byte) (n : nat) (ch : list byte) : bool :=
  match n, ch with
  | S n, lo :: hi :: ch =>
      if decide (c = lo) then true else if decide (c = hi) then true else right_loop c n ch
  | _, _ => false
  end.

Definition isRightData (c : byte) (jz : Z) : bool :=
  if (jz <? 2) || (jz >? 16) then false else right_loop c (Z.to_nat jz) right_chars.

Definition ToHexDigit (c : byte) : run Z :=
  c_assert (isRightData c 16) ≫= fun _ =>
  Ok (let v := byte_val c in
      if (48 <=? v) && (v <=? 57) then v - 48
      else match v with
           | 97 | 65 => 10 | 98 | 66 => 11 | 99 | 67 => 12
           | 100 | 68 => 13 | 101 | 69 => 14 | 102 | 70 => 15
           | _ => 0
           end).

(** The loop of StrToData over the characters that are left; their number is the
    power of the base still to come, plus one. *)
Fixpoint data_loop (jz : Z) (s : list byte) (IntValue : Z) : run Z :=
  match s with
  | [] => Ok IntValue
  | c :: s =>
      if isRightData c jz then
        bitValue ← ToHexDigit c;
        p ← pow_i jz (length s);
        v ← c_long (bitValue * p);
        v ← c_long (v + IntValue);
        data_loop jz s v
      else Ok (-1)
  end.
Definition StrToData (strData : list byte) (jz : Z) : run Z := data_loop jz strData 0.

(** ** C-style strings *)

Definition shiftMap : list (list byte) := (
  [cstr "\(00)"; cstr "\(01)"; cstr "\(02)"; cstr "\(03)"; cstr "\(04)"; cstr "\(05)"; cstr "\(06)"; cstr "\(07)";
   cstr "\(08)"; cstr "\t"; cstr "\n"; cstr "\(0B)"; cstr "\(0C)"; cstr "\r"; cstr "\(0E)"; cstr "\(0F)";
   cstr "\(10)"; cstr "\(11)"; cstr "\(12)"; cstr "\(13)"; cstr "\(14)"; cstr "\(15)"; cstr "\(16)"; cstr "\(17)";
   cstr "\(18)"; cstr "\(19)"; cstr "\(1A)"; cstr "\(1B)"; cstr "\(1C)"; cstr "\(1D)"; cstr "\(1E)"; cstr "\(1F)";
   cstr " "; cstr "!"; [Byte.x22]; cstr "#"; cstr "$"; cstr "%"; cstr "&"; cstr "'";
   cstr "("; cstr ")"; cstr "*"; cstr "+"; cstr ","; cstr "-"; cstr "."; cstr "/";
   cstr "0"; cstr "1"; cstr "2"; cstr "3"; cstr "4"; cstr "5"; cstr "6"; cstr "7";
   cstr "8"; cstr "9"; cstr ":"; cstr ";"; cstr "<"; cstr "="; cstr ">"; cstr "?";
   cstr "@"; cstr "A"; cstr "B"; cstr "C"; cstr "D"; cstr "E"; cstr "F"; cstr "G";
   cstr "H"; cstr "I"; cstr "J"; cstr "K"; cstr "L"; cstr "M"; cstr "N"; cstr "O";
   cstr "P"; cstr "Q"; cstr "R"; cstr "S"; cstr "T"; cstr "U"; cstr "V"; cstr "W";
   cstr "X"; cstr "Y"; cstr "Z"; cstr "["; cstr "\\"; cstr "]"; cstr "^"; cstr "_";
   cstr "`"; cstr "a"; cstr "b"; cstr "c"; cstr "d"; cstr "e"; cstr "f"; cstr "g";
   cstr "h"; cstr "i"; cstr "j"; cstr "k"; cstr "l"; cstr "m"; cstr "n"; cstr "o";
   cstr "p"; cstr "q"; cstr "r"; cstr "s"; cstr "t"; cstr "u"; cstr "v"; cstr "w";
   cstr "x"; cstr "y"; cstr "z"; cstr "{"; cstr "|"; cstr "}"; cstr "~"; cstr "\(7F)"])%string.

Definition ConvertToCStyleStr (str : list byte) : list byte :=
  concat ((fun c =>
    if (char_val c >=? 0) && (char_val c <=? 127)
    then default [] (shiftMap !! Z.to_nat (char_val c)) else [c]) <$> str).

(** strchr also finds the terminating NUL. *)
Definition IsHexNumber (c : byte) : bool :=
  bool_decide (c ∈ cstr "0123456789abcdefABCDEF"%string ++ [Byte.x00]).

(** The character [i] places after the cursor; a std::string ends with a NUL. *)
Definition char_at (pSrc : list byte) (i : nat) : byte := default Byte.x00 (pSrc !! i).

(** The processed character and how far the cursor moves. *)
Definition ProcShiftCharByNum (pSrc : list byte) (srcStrLen : Z) : run (byte * Z) :=
  let isAllowdFormat :=
    if srcStrLen <? 5 then false
    else if bool_decide (char_at pSrc 0 <> Byte.x5c) || bool_decide (char_at pSrc 1 <> Byte.x28)
            || bool_decide (char_at pSrc 4 <> Byte.x29) then false
    else if negb (IsHexNumber (char_at pSrc 2)) || negb (IsHexNumber (char_at pSrc 3)) then false
    else true in
  if negb isAllowdFormat then Abort
  else
    hexNum ← StrToData [char_at pSrc 2; char_at pSrc 3] 16;
    Ok (byte_of hexNum, 5).

Definition ProcShiftCharByChar (pSrc : list byte) (srcStrLen : Z) : run (byte * Z) :=
  if srcStrLen <? 2 then Abort
  else if decide (char_at pSrc 1 = Byte.x72) then Ok (Byte.x0d, 2)
  else if decide (char_at pSrc 1 = Byte.x6e) then Ok (Byte.x0a, 2)
  else if decide (char_at pSrc 1 = Byte.x74) then Ok (Byte.x09, 2)
  else if decide (char_at pSrc 1 = Byte.x5c) then Ok (Byte.x5c, 2)
  else Abort.

Definition ProcShiftChar (pSrc : list byte) (srcStrLen : Z) : run (byte * Z) :=
  if bool_decide (char_at pSrc 1 ∈ [Byte.x72; Byte.x6e; Byte.x74; Byte.x5c])
  then ProcShiftCharByChar pSrc srcStrLen
  else if decide (char_at pSrc 1 = Byte.x28) then ProcShiftCharByNum pSrc srcStrLen
  else Abort.

(** The loop, on the string from the cursor on; every iteration moves the cursor. *)
Fixpoint from_loop (fuel : nat) (s : list byte) : run (list byte) :=
  match fuel, s with
  | _, [] => Ok []
  | O, _ => Undef
  | S fuel, c :: s' =>
      if decide (c <> Byte.x5c) then
        rst ← from_loop fuel s'; Ok (c :: rst)
      else
        '(shiftChar, n) ← ProcShiftChar s (zlen s);
        rst ← from_loop fuel (drop (Z.to_nat n) s);
        Ok (shiftChar :: rst)
  end.
Definition ConvertFromCStyleStr (s : list byte) : run (list byte) := from_loop (length s) s.

(** ** Hexadecimal dump *)

Definition hex_upper (d : Z) : byte := byte_of (if d <? 10 then 48 + d else 55 + d).
(** snprintf of %02X. *)
Definition hex_byte (b : byte) : list byte := [hex_upper (byte_val b / 16); hex_upper (byte_val b mod 16)].

Fixpoint hex_part (i : Z) (line : list byte) : list byte :=
  match line with
  | [] => []
  | b :: line =>
      hex_byte b ++ [Byte.x20] ++ (if (i =? 7) || (i =? 15) || (i =? 23) then [Byte.x20] else [])
      ++ hex_part (i + 1) line
  end.

Definition hexdump_oneline (prefix line : list byte) (width : Z) : list byte :=
  prefix ++ hex_part 0 line
  ++ concat (replicate (Z.to_nat (width - zlen line)) (cstr "   "%string))
  ++ (if zlen line <=? 8 then cstr "   "%string
      else if zlen line <=? 16 then cstr "  "%string
      else if zlen line <=? 24 then cstr " "%string else [])
  ++ cstr ": "%string
  ++ ((fun b => if char_val b <? 32 then Byte.x2e else b) <$> line)
  ++ [Byte.x0a].

(** The loop cuts [width] bytes at a time; with width 0 it never ends. *)
Fixpoint dump_loop (fuel : nat) (str : list byte) (width : nat) (prefix : list byte) : run (list byte) :=
  if (width <? length str)%nat then
    match fuel with
    | O => Undef
    | S fuel =>
        rest ← dump_loop fuel (drop width str) width prefix;
        Ok (hexdump_oneline prefix (take width str) (Z.of_nat width) ++ rest)
    end
  else Ok (if (0 <? length str)%nat then hexdump_oneline prefix str (Z.of_nat width) else []).
Definition ToHexDumpText (str : list byte) (width : nat) (prefix : list byte) : run (list byte) :=
  dump_loop (length str) str width prefix.

(** ** Case and spaces *)

(** tolower of the C locale. *)
Definition tolower (c : Z) : Z := if (65 <=? c) && (c <=? 90) then c + 32 else c.

Fixpoint compare_loop (lhs rhs : list byte) : Z :=
  match lhs, rhs with
  | a :: lhs, b :: rhs =>
      let v := tolower (char_val a) - tolower (char_val b) in
      if negb (v =? 0) then v else compare_loop lhs rhs
  | _, _ => 0
  end.
Definition CompairNoCase (lhs rhs : list byte) : Z :=
  let v := compare_loop lhs rhs in
  if negb (v =? 0) then v else i32 (u64 (zlen lhs - zlen rhs)).

Definition ToLower (str : list byte) : list byte := (fun b => byte_of (tolower (char_val b))) <$> str.

(** The first loop of CutSpace; the second is the same from the other end.
    [sp] says what is cut. *)
Fixpoint cut_front {A} (sp : A -> bool) (s : list A) : list A :=
  match s with
  | [] => []
  | c :: s' => if sp c then cut_front sp s' else s
  end.
Definition cut_both {A} (sp : A -> bool) (s : list A) : list A := rev (cut_front sp (rev (cut_front sp s))).
Definition CutSpace_w (ret : list Z) : list Z := cut_both (fun c => c =? 32) ret.
Definition CutSpace (ret : list byte) : list byte :=
  cut_both (fun c => bool_decide (c = Byte.x20) || bool_decide (c = Byte.x09)) ret.

Definition CutAllSpace (srcStr : list byte) : list byte :=
  base.filter (fun c => c <> Byte.x20) srcStr.

(** ** The C-style escaping *)

(** What one character is escaped to. *)
Definition shift (c : byte) : list byte :=
  if (char_val c >=? 0) && (char_val c <=? 127)
  then default [] (shiftMap !! Z.to_nat (char_val c)) else [c].

Lemma to_cstyle_cons c s : ConvertToCStyleStr (c :: s) = shift c ++ ConvertToCStyleStr s.
Proof. done. Qed.

Lemma proc_num h l t hexNum :
  IsHexNumber h = true -> IsHexNumber l = true -> StrToData [h; l] 16 = Ok hexNum ->
  ProcShiftChar (Byte.x5c :: Byte.x28 :: h :: l :: Byte.x29 :: t)
    (zlen (Byte.x5c :: Byte.x28 :: h :: l :: Byte.x29 :: t)) = Ok (byte_of hexNum, 5).
Proof.
  intros Hh Hl Hd. unfold ProcShiftChar, ProcShiftCharByNum. set (p := _ :: _ :: h :: _).
  change (char_at p 2) with h. change (char_at p 3) with l.
  rewrite (proj2 (Z.ltb_ge (zlen p) 5)) by (subst p; cbn [length]; lia). rewrite Hh, Hl, Hd. reflexivity.
Qed.

Lemma proc_char e t b :
  ProcShiftCharByChar [Byte.x5c; e] 2 = Ok (b, 2) ->
  e ∈ [Byte.x72; Byte.x6e; Byte.x74; Byte.x5c] ->
  ProcShiftChar (Byte.x5c :: e :: t) (zlen (Byte.x5c :: e :: t)) = Ok (b, 2).
Proof.
  intros Hb He. unfold ProcShiftChar. change (char_at (Byte.x5c :: e :: t) 1) with e.
  rewrite bool_decide_eq_true_2 by done. unfold ProcShiftCharByChar in *.
  rewrite (proj2 (Z.ltb_ge _ _)) by (cbn [length]; lia). exact Hb.
Qed.

Lemma from_loop_escape fuel l b n :
  ProcShiftChar (Byte.x5c :: l) (zlen (Byte.x5c :: l)) = Ok (b, n) ->
  from_loop (S fuel) (Byte.x5c :: l)
  = (rst ← from_loop fuel (drop (Z.to_nat n) (Byte.x5c :: l)); Ok (b :: rst)).
Proof. intros H. cbn [from_loop]. rewrite H. reflexivity. Qed.

(** One iteration of the loop reads back one escaped character. *)
Lemma from_loop_shift fuel c t :
  from_loop (S fuel) (shift c ++ t) = (rst ← from_loop fuel t; Ok (c :: rst)).
Proof.
  destruct c; first
    [ reflexivity
    | match goal with |- context [shift ?c] => let s := eval vm_compute in (shift c) in change (shift c) with s end;
      cbn [app]; erewrite from_loop_escape;
      [|first [eapply proc_num; vm_compute; reflexivity
              |eapply proc_char; [vm_compute; reflexivity|apply (bool_decide_unpack _); exact I]]];
      reflexivity ].
Qed.

Lemma shift_nonempty c : exists b l, shift c = b :: l.
Proof. destruct c; do 2 eexists; vm_compute; reflexivity. Qed.

Lemma from_loop_to_cstyle s fuel :
  (length (ConvertToCStyleStr s) <= fuel)%nat -> from_loop fuel (ConvertToCStyleStr s) = Ok s.
Proof.
  revert fuel. induction s as [|c s IH]; intros fuel Hf; [by destruct fuel|].
  rewrite to_cstyle_cons in *. destruct (shift_nonempty c) as (b & l & Hs).
  rewrite length_app, Hs in Hf. cbn [length] in Hf. destruct fuel as [|fuel]; [lia|].
  rewrite from_loop_shift, IH by lia. reflexivity.
Qed.

Lemma shift_printable c : Forall (fun b => 32 <= byte_val b /\ byte_val b <> 127) (shift c).
Proof.
  destruct c; apply (bool_decide_unpack _); vm_compute; exact I.
Qed.


(** ** File names *)

Lemma rfind_none c s : c ∉ s -> rfind c s = None.
Proof.
  induction s as [|b s IH]; intros Hc; [done|]. cbn [rfind]. apply not_elem_of_cons in Hc as [Hb Hc].
  rewrite IH by done. by rewrite decide_False.
Qed.

Lemma rfind_last c a b : c ∉ b -> rfind c (a ++ c :: b) = Some (length a).
Proof.
  intros Hb. induction a as [|x a IH]; cbn [app rfind length].
  - rewrite rfind_none by done. by rewrite decide_True.
  - by rewrite IH.
Qed.

(** The suffix of a name is what follows its last dot. *)
Lemma file_suffix a b : Byte.x2e ∉ b -> a <> [] ->
  GetFileSuffix (a ++ Byte.x2e :: b) = Ok b /\
  GetFileWithoutSuffix (a ++ Byte.x2e :: b) = match b with [] => [] | _ => a end.
Proof.
  intros Hb Ha. unfold GetFileSuffix, GetFileWithoutSuffix. rewrite rfind_last by done.
  rewrite Z_length_app. cbn [length]. destruct b as [|x b].
  - rewrite (proj2 (Z.eqb_eq _ _)) by (cbn [length]; lia). done.
  - rewrite (proj2 (Z.eqb_neq _ _)) by (cbn [length]; lia).
    destruct a as [|y a]; [done|]. cbn [length].
    rewrite (proj2 (Z.ltb_lt _ _)) by lia. cbn [c_assert mbind run_bind].
    rewrite Z.gtb_ltb, (proj2 (Z.ltb_lt _ _)) by lia. cbn [c_assert mbind run_bind].
    rewrite (proj2 (Z.ltb_lt _ _)) by lia. cbn [c_assert mbind run_bind]. split.
    + rewrite (app_assoc _ [Byte.x2e] (x :: b)), drop_app_length' by (rewrite length_app; cbn; lia).
      rewrite take_ge by (cbn; lia). done.
    + by rewrite (take_app_length (y :: a)).
Qed.

(** A name that begins with its only dot fails an assertion, although it has a
    suffix. *)
Lemma file_suffix_dotfile b : Byte.x2e ∉ b -> b <> [] -> GetFileSuffix (Byte.x2e :: b) = Abort.
Proof.
  intros Hb Hne. unfold GetFileSuffix. rewrite (rfind_last Byte.x2e [] b Hb : rfind Byte.x2e (Byte.x2e :: b) = _). cbn [length].
  destruct b as [|x b]; [done|]. cbn [length].
  rewrite (proj2 (Z.eqb_neq _ _)) by lia. rewrite (proj2 (Z.ltb_lt (Z.of_nat 0 + 1) _)) by lia. cbn [c_assert mbind run_bind].
  rewrite Z.gtb_ltb, (proj2 (Z.ltb_lt 0 _)) by lia. cbn [c_assert mbind run_bind].
  by rewrite (proj2 (Z.ltb_ge _ _)) by lia.
Qed.

(** ** The dump *)

(** The lines of a dump: pieces of [width] bytes, the last one shorter. *)
Fixpoint pieces (fuel : nat) (width : nat) (s : list byte) : list (list byte) :=
  match fuel, s with
  | _, [] => []
  | O, _ => []
  | S fuel, _ => take width s :: pieces fuel width (drop width s)
  end.

(** With a positive width the dump ends, and shows every byte once, in order. *)
Lemma dump_pieces fuel fuel' width s prefix :
  (0 < width)%nat -> (length s <= fuel)%nat -> (length s <= fuel')%nat ->
  dump_loop fuel s width prefix
  = Ok (concat ((fun l => hexdump_oneline prefix l (Z.of_nat width)) <$> pieces fuel' width s)) /\
  concat (pieces fuel' width s) = s.
Proof.
  intros Hw. revert fuel' s. induction fuel as [|fuel IH]; intros fuel' s Hf Hf'.
  { destruct s; [|cbn in Hf; lia]. by destruct fuel'. }
  destruct s as [|x s]; [by destruct fuel'|]. destruct fuel' as [|fuel']; [cbn in Hf'; lia|].
  cbn [dump_loop pieces]. case_if.
  - apply Nat.ltb_lt in Heqb. rewrite fmap_cons. cbn [concat].
    destruct (IH fuel' (drop width (x :: s))) as [-> Hc]; [rewrite length_drop; cbn in *; lia..|].
    cbn [mbind run_bind]. split; [done|]. by rewrite Hc, take_drop.
  - apply Nat.ltb_ge in Heqb. rewrite take_ge, drop_ge by done.
    assert (forall n, pieces n width [] = []) as -> by (by intros []). cbn. by rewrite !app_nil_r.
Qed.

(** With width 0 it does not. *)
Lemma dump_width_0 fuel s prefix : s <> [] -> dump_loop fuel s 0 prefix = Undef.
Proof. intros Hs. destruct s as [|x s]; [done|]. induction fuel as [|fuel IH]; [done|]. cbn in *. by rewrite IH. Qed.
