(* ===== verification/Diagnostics.v ===== *)
(** * Diagnostics: failed checks and the log of KCP

    Models src/essential/check_function.h and src/essential/_src/check_function.cpp
    (the text of a failed check and the exception that carries it) and ikcp_log and
    ikcp_canlog of src/util/ikcp.c.  All of them print into buffers of fixed size. *)

From Stdlib Require Strings.String.
Import Strings.String.StringSyntax.
#[local] Delimit Scope string_scope with string.
From S2P Require Import Prelude Codec ConnectPacket StrUtil.

(** What snprintf leaves in a buffer of [size] bytes, as a C string. *)
Definition snprintf (size : nat) (text : list byte) : list byte := take (size - 1) text.

(** The conversion %d. *)
Definition print_int (z : Z) : list byte := if z <? 0 then cstr "-"%string ++ print_dec 10 (- z) else print_dec 10 z.

Definition CRLF : list byte := [Byte.x0d; Byte.x0a].

(** The name of the program is not filled in. *)
Definition make_check_message (expression fileName : list byte) (line : Z) (message : list byte) : list byte :=
  snprintf 4096
    (CRLF ++ cstr "ASSERT: ------------------------------------"%string ++ CRLF ++ CRLF
     ++ cstr "Moudle Name: "%string ++ CRLF
     ++ cstr "File:        "%string ++ fileName ++ CRLF
     ++ cstr "Line:        ["%string ++ print_int line ++ cstr "]"%string ++ CRLF
     ++ CRLF
     ++ cstr "Expression:  "%string ++ expression ++ CRLF
     ++ cstr "Message:     "%string ++ message ++ CRLF
     ++ cstr "--------------------------------------------- ASSERT END"%string ++ CRLF ++ CRLF).

(** strncpy: [n] bytes, padded with NUL. *)
Definition strncpy (n : nat) (src : list byte) : list byte := resize n Byte.x00 (take n src).

(** The exception's array of 1024 characters; it has no accessor. *)
Record AssertException := mkAssertException { m_What : list byte }.

Definition new_AssertException (_What : list byte) : AssertException :=
  mkAssertException (<[1023%nat := Byte.x00]> (strncpy 1024 _What)).

(** The text printed, which is also returned. *)
Definition assert_check_printf_msg := make_check_message.

(** [inl] is an exception thrown. *)
Definition do_assert (expression fileName : list byte) (line : Z) (message : list byte)
  : AssertException + unit :=
  inl (new_AssertException (assert_check_printf_msg expression fileName line message)).

Definition assert_check (condition : bool) (expression fileName : list byte) (line : Z) (message : list byte)
  : AssertException + unit :=
  if negb condition then do_assert expression fileName line message else inr tt.

(** The template, for any exception type by its constructor. *)
Definition excption_check {E} (exception_type : list byte -> E) (condition : bool) (expression fileName : list byte)
    (line : Z) (message : list byte) : E + unit :=
  if negb condition then inl (exception_type (assert_check_printf_msg expression fileName line message)) else inr tt.

(** Both checks throw exactly when the condition fails, the same exception. *)
Lemma assert_check_excption_check condition expression fileName line message :
  assert_check condition expression fileName line message
  = excption_check new_AssertException condition expression fileName line message.
Proof. by destruct condition. Qed.

Lemma c_string_app s t : Byte.x00 ∉ s -> c_string (s ++ Byte.x00 :: t) = s.
Proof.
  induction s as [|b s IH]; intros Hn; [done|]. apply not_elem_of_cons in Hn as [Hb Hn]. cbn [app c_string].
  rewrite IH by done. by case_match; subst.
Qed.

(** The exception always holds a terminated string: the first 1023 characters of
    its text. *)
Lemma assert_exception_text text : Byte.x00 ∉ text ->
  length (m_What (new_AssertException text)) = 1024%nat /\
  c_string (m_What (new_AssertException text)) = take 1023 text.
Proof.
  intros Hn. unfold new_AssertException, strncpy, m_What. split; [by rewrite length_insert, length_resize|].
  destruct (decide (length text <= 1023)%nat) as [Hle|Hgt].
  - rewrite (take_ge text 1024), (take_ge text 1023) by lia. rewrite resize_ge by lia.
    rewrite insert_app_r_alt by lia.
    replace (1024 - length text)%nat with (S (1023 - length text)) by lia. cbn [replicate].
    destruct (1023 - length text)%nat as [|k]; cbn; by apply c_string_app.
  - rewrite (resize_all_alt (take 1024 text)) by (rewrite length_take; lia).
    assert (exists b t, drop 1023 (take 1024 text) = b :: t) as (b & t & Hd).
    { destruct (drop 1023 (take 1024 text)) eqn:E; [|eauto]. apply (f_equal length) in E.
      rewrite length_drop, length_take in E. change (length (@nil byte)) with 0%nat in E. lia. }
    rewrite <- (take_drop 1023 (take 1024 text)), Hd, take_take, Nat.min_l by lia.
    rewrite insert_app_r_alt, length_take, Nat.min_l, Nat.sub_diag by (rewrite ?length_take; lia). cbn.
    apply c_string_app. intros Hin. apply Hn. eapply elem_of_take in Hin. destruct Hin as (i & Hi & _).
    by eapply list_elem_of_lookup_2.
Qed.

(** ** ikcp_log *)

Definition IKCP_LOG_OUTPUT : Z := 1.
Definition IKCP_LOG_INPUT : Z := 2.
Definition IKCP_LOG_SEND : Z := 4.
Definition IKCP_LOG_RECV : Z := 8.
Definition IKCP_LOG_IN_DATA : Z := 16.
Definition IKCP_LOG_IN_ACK : Z := 32.
Definition IKCP_LOG_IN_PROBE : Z := 64.
Definition IKCP_LOG_IN_WINS : Z := 128.
Definition IKCP_LOG_OUT_DATA : Z := 256.
Definition IKCP_LOG_OUT_ACK : Z := 512.
Definition IKCP_LOG_OUT_PROBE : Z := 1024.
Definition IKCP_LOG_OUT_WINS : Z := 2048.

(** [logmask] and whether [writelog] is set are the members of the control block. *)
Definition ikcp_canlog (logmask : Z) (writelog : bool) (mask : Z) : bool :=
  negb ((Z.land mask logmask =? 0) || negb writelog).

(** What is passed to the log callback; [text] is the formatted message. *)
Definition ikcp_log (logmask : Z) (writelog : bool) (mask : Z) (text : list byte) : option (list byte) :=
  if (Z.land mask logmask =? 0) || negb writelog then None else Some (snprintf 1024 text).

(** The test that guards the calls is the one the function makes. *)
Lemma canlog_log logmask writelog mask text :
  ikcp_canlog logmask writelog mask = true <-> is_Some (ikcp_log logmask writelog mask text).
Proof.
  unfold ikcp_canlog, ikcp_log. destruct (_ || _); cbn; [|by eauto].
  split; [done|by intros [? ?]].
Qed.
