(* ===== verification/BinaryStream.v ===== *)
(** * Binary buffers and streams

    Models src/essential/binary_stream: the buffer _binary_buf (a std::string),
    the buffer of fixed size _appointed_buf, and the streams _binary_ostream and
    _binary_istream over either, with _assert_check as the check function: a failed
    check throws and is [Abort].  A [char*] argument is the list of bytes at it;
    the native byte order is little endian. *)

From Stdlib Require Strings.String.
Import Strings.String.StringSyntax.
#[local] Delimit Scope string_scope with string.
From S2P Require Import Prelude Codec StrUtil.

(** [int] arithmetic. *)
Definition c_int (z : Z) : run Z :=
  c_require ((-2147483648 <=? z) && (z <? 2147483648)) ≫= fun _ => Ok z.

(** The first [count] bytes at a pointer. *)
Definition at_ptr (ptr : list byte) (count : Z) : run (list byte) :=
  c_require (count <=? zlen ptr) ≫= fun _ => Ok (take (Z.to_nat count) ptr).

(** ** _binary_buf

    A position behind the end makes std::string throw; a count is cut at the
    end. *)

Record binary_buf := mkBuf { m_Str : list byte }.

#[export] Instance binary_buf_eq_dec : EqDecision binary_buf.
Proof. solve_decision. Defined.

(** std::string::compare: bytes as unsigned numbers, then the length. *)
Fixpoint str_lt (a b : list byte) : bool :=
  match a, b with
  | [], _ :: _ => true
  | x :: a, y :: b => (byte_val x <? byte_val y) || (bool_decide (x = y) && str_lt a b)
  | _, [] => false
  end.
Definition buf_eq (a b : binary_buf) : bool := bool_decide (m_Str a = m_Str b).
Definition buf_ne (a b : binary_buf) : bool := negb (bool_decide (m_Str a = m_Str b)).
Definition buf_gt (a b : binary_buf) : bool := str_lt (m_Str b) (m_Str a).
Definition buf_lt (a b : binary_buf) : bool := str_lt (m_Str a) (m_Str b).
Definition buf_le (a b : binary_buf) : bool := negb (str_lt (m_Str b) (m_Str a)).
Definition buf_ge (a b : binary_buf) : bool := negb (str_lt (m_Str a) (m_Str b)).

(** The constructors, the assignment and the views. *)
Definition new_buf : binary_buf := mkBuf [].
Definition buf_of_ptr (ptr : list byte) (count : Z) : run binary_buf := s ← at_ptr ptr count; Ok (mkBuf s).
Definition buf_copy (b : binary_buf) : binary_buf := mkBuf (m_Str b).
Definition buf_of_cstr (p : list byte) : binary_buf := mkBuf (c_string p).
Definition buf_of_str (str : list byte) : binary_buf := mkBuf str.
Definition buf_assign (this b : binary_buf) : binary_buf := mkBuf (m_Str b).
Definition to_std_string (b : binary_buf) : list byte := m_Str b.
Definition buf_c_str (b : binary_buf) : list byte := m_Str b ++ [Byte.x00].

Definition buf_size (b : binary_buf) : Z := zlen (m_Str b).
Definition buf_resize (b : binary_buf) (n : Z) : binary_buf :=
  mkBuf (take (Z.to_nat n) (m_Str b) ++ replicate (Z.to_nat n - length (m_Str b)) Byte.x00).

(** The character behind the last is the terminating NUL. *)
Definition buf_index (b : binary_buf) (off : Z) : run byte :=
  c_require (off <=? buf_size b) ≫= fun _ => Ok (default Byte.x00 (m_Str b !! Z.to_nat off)).

Definition buf_set (ptr : list byte) (count : Z) : run binary_buf := s ← at_ptr ptr count; Ok (mkBuf s).
Definition buf_set_str (s : list byte) : binary_buf := mkBuf s.
Definition buf_clear (b : binary_buf) : binary_buf := mkBuf [].

Definition buf_append (b r : binary_buf) : binary_buf := mkBuf (m_Str b ++ m_Str r).
Definition buf_add_char (b : binary_buf) (ch : byte) : binary_buf := mkBuf (m_Str b ++ replicate 1 ch).
Definition buf_append_range (b r : binary_buf) (roff count : Z) : run binary_buf :=
  c_assert (roff <=? buf_size r) ≫= fun _ =>
  Ok (mkBuf (m_Str b ++ take (Z.to_nat count) (drop (Z.to_nat roff) (m_Str r)))).
Definition buf_append_ptr (b : binary_buf) (ptr : list byte) (count : Z) : run binary_buf :=
  s ← at_ptr ptr count; Ok (mkBuf (m_Str b ++ s)).
Definition buf_append_fill (b : binary_buf) (count : Z) (ch : byte) : binary_buf :=
  mkBuf (m_Str b ++ replicate (Z.to_nat count) ch).
Definition buf_append_cstr (b : binary_buf) (ptr : list byte) : binary_buf := mkBuf (m_Str b ++ c_string ptr).

(** operator+= of a buffer and of a C string. *)
Definition buf_add (b r : binary_buf) : binary_buf := mkBuf (m_Str b ++ m_Str r).
Definition buf_add_cstr (b : binary_buf) (ptr : list byte) : binary_buf := mkBuf (m_Str b ++ c_string ptr).

Definition buf_replace_n (b : binary_buf) (off n0 : Z) (ptr : list byte) (count : Z) : run binary_buf :=
  c_assert (off <=? buf_size b) ≫= fun _ =>
  s ← at_ptr ptr count;
  Ok (mkBuf (take (Z.to_nat off) (m_Str b) ++ s ++ drop (Z.to_nat off + Z.to_nat n0) (m_Str b))).
Definition buf_replace (b : binary_buf) (off : Z) (ptr : list byte) (count : Z) : run binary_buf :=
  buf_replace_n b off count ptr count.

Definition insert_at (off : Z) (s : list byte) (b : binary_buf) : run binary_buf :=
  c_assert (off <=? buf_size b) ≫= fun _ =>
  Ok (mkBuf (take (Z.to_nat off) (m_Str b) ++ s ++ drop (Z.to_nat off) (m_Str b))).
Definition buf_insert (b : binary_buf) (off : Z) (r : binary_buf) : run binary_buf := insert_at off (m_Str r) b.
Definition buf_insert_range (b : binary_buf) (off : Z) (r : binary_buf) (roff count : Z) : run binary_buf :=
  c_assert ((off <=? buf_size b) && (roff <=? buf_size r)) ≫= fun _ =>
  insert_at off (take (Z.to_nat count) (drop (Z.to_nat roff) (m_Str r))) b.
Definition buf_insert_ptr (b : binary_buf) (off : Z) (ptr : list byte) (count : Z) : run binary_buf :=
  s ← at_ptr ptr count; insert_at off s b.
Definition buf_insert_cstr (b : binary_buf) (off : Z) (ptr : list byte) : run binary_buf :=
  insert_at off (c_string ptr) b.
Definition buf_insert_fill (b : binary_buf) (off count : Z) (ch : byte) : run binary_buf :=
  insert_at off (replicate (Z.to_nat count) ch) b.
Definition buf_erase (b : binary_buf) (off count : Z) : run binary_buf :=
  c_assert (off <=? buf_size b) ≫= fun _ =>
  Ok (mkBuf (take (Z.to_nat off) (m_Str b) ++ drop (Z.to_nat off + Z.to_nat count) (m_Str b))).

Definition to_cstyle_str (b : binary_buf) : list byte := ConvertToCStyleStr (m_Str b).

(** to_hex_dump_str; operator<< writes the escaped text, operator>> reads up to the next newline. *)
Definition to_hex_dump_str (b : binary_buf) : run (list byte) := ToHexDumpText (m_Str b) 32 (cstr "!- "%string).
Definition buf_print (b : binary_buf) : list byte := ConvertToCStyleStr (m_Str b).

Fixpoint getline (inp : list byte) : list byte * list byte :=
  match inp with
  | [] => ([], [])
  | c :: inp => if decide (c = Byte.x0a) then ([], inp) else let '(l, r) := getline inp in (c :: l, r)
  end.
Definition buf_parse (inp : list byte) : run (binary_buf * list byte) :=
  let '(cStyleStr, rest) := getline inp in
  s ← ConvertFromCStyleStr cStyleStr; Ok (mkBuf s, rest).

(** The loop of LoadFromFile: [file] is what is still to be read. *)
Fixpoint load_loop (fuel : nat) (file : list byte) (b : binary_buf) : run binary_buf :=
  let readBuf := take (Z.to_nat (1024 * 10)) file in
  if zlen readBuf =? 0 then Ok b
  else match fuel with
       | O => Undef
       | S fuel => b ← buf_append_ptr b readBuf (zlen readBuf); load_loop fuel (drop (Z.to_nat (1024 * 10)) file) b
       end.
(** [file] is [None] when the file cannot be opened. *)
Definition LoadFromFile (b : binary_buf) (file : option (list byte)) : run (binary_buf * bool) :=
  let b := buf_clear b in
  match file with
  | None => Ok (b, false)
  | Some file => b ← load_loop (length file) file b; Ok (b, true)
  end.

Definition LoadFromString_FrontIsSize (pStr : list byte) : run (binary_buf * Z) :=
  '(sz, rest) ← fetch 8 pStr;
  let nSize := load_le sz in
  s ← at_ptr rest nSize; Ok (mkBuf s, u64 (nSize + 8)).

(** ** _appointed_buf: memory of fixed size *)

Record appointed_buf := mkAppointed { m_Ptr : list byte }.

(** The memory at [ptr]; assert bounds its size. *)
Definition new_appointed (ptr : list byte) (bufSize : Z) : run appointed_buf :=
  c_assert (bufSize <=? 2147483647) ≫= fun _ => s ← at_ptr ptr bufSize; Ok (mkAppointed s).
Definition ap_size (b : appointed_buf) : Z := zlen (m_Ptr b).
Definition ap_c_str (b : appointed_buf) : list byte := m_Ptr b.

Definition ap_index (b : appointed_buf) (off : Z) : run byte :=
  c_assert (off <? zlen (m_Ptr b)) ≫= fun _ => Ok (default Byte.x00 (m_Ptr b !! Z.to_nat off)).
Definition ap_resize (b : appointed_buf) (n : Z) : run appointed_buf := Abort.
Definition ap_replace (b : appointed_buf) (off : Z) (ptr : list byte) (count : Z) : run appointed_buf :=
  c_assert (off <? zlen (m_Ptr b)) ≫= fun _ =>
  c_assert (count >=? 0) ≫= fun _ =>
  c_assert (count <=? zlen (m_Ptr b)) ≫= fun _ =>
  c_assert (off + count <=? zlen (m_Ptr b)) ≫= fun _ =>
  s ← at_ptr ptr count;
  Ok (mkAppointed (take (Z.to_nat off) (m_Ptr b) ++ s ++ drop (Z.to_nat off + Z.to_nat count) (m_Ptr b))).
Definition ap_clear (b : appointed_buf) : appointed_buf := mkAppointed (replicate (length (m_Ptr b)) Byte.x00).
Definition ap_assign (b r : appointed_buf) : run appointed_buf :=
  c_assert (zlen (m_Ptr b) >=? zlen (m_Ptr r)) ≫= fun _ =>
  Ok (mkAppointed (m_Ptr r ++ replicate (length (m_Ptr b) - length (m_Ptr r)) Byte.x00)).

(** ** What the streams need of a buffer *)

Class StreamBuf (B : Type) := {
  sb_bytes : B -> list byte;
  sb_resize : B -> Z -> run B;
  sb_replace : B -> Z -> list byte -> Z -> run B
}.

#[export] Instance binary_buf_stream : StreamBuf binary_buf := {
  sb_bytes := m_Str;
  sb_resize := fun b n => Ok (buf_resize b n);
  sb_replace := buf_replace
}.
#[export] Instance appointed_buf_stream : StreamBuf appointed_buf := {
  sb_bytes := m_Ptr;
  sb_resize := ap_resize;
  sb_replace := ap_replace
}.

Section Streams.
Context {B : Type} `{StreamBuf B}.

(** ** _binary_ostream *)

Record ostream := mkOut { o_buf : B; m_WritePos : Z }.

Definition GetWritePos (o : ostream) : Z := m_WritePos o.
Definition BufLen (o : ostream) : Z := i32 (zlen (sb_bytes (o_buf o))).
Definition out_EndPos (o : ostream) : Z := BufLen o.
Definition new_ostream (b : B) : ostream := mkOut b (i32 (zlen (sb_bytes b))).

Definition SetWritePos (o : ostream) (writePos : Z) : run ostream :=
  c_assert ((writePos >=? 0) && (writePos <=? BufLen o)) ≫= fun _ => Ok (mkOut (o_buf o) writePos).
Definition MoveWritePos (o : ostream) (offset : Z) : run ostream :=
  newPos ← c_int (m_WritePos o + offset); SetWritePos o newPos.

(** The new size is converted from int to size_t. *)
Definition ResizeBuf (o : ostream) (newSize : Z) : run ostream :=
  b ← sb_resize (o_buf o) (u64 newSize); Ok (mkOut b (m_WritePos o)).

Definition Pack (o : ostream) (pBuf : list byte) (size : Z) : run ostream :=
  c_assert (size >=? 0) ≫= fun _ =>
  BufNeedLen ← c_int (m_WritePos o + size);
  o ← (if BufNeedLen >? BufLen o then ResizeBuf o BufNeedLen else Ok o);
  b ← sb_replace (o_buf o) (u64 (m_WritePos o)) pBuf (u64 size);
  let o := mkOut b (m_WritePos o) in
  newPos ← c_int (m_WritePos o + size);
  SetWritePos o newPos.

(** Pack<int>. *)
Definition Pack_int (o : ostream) (v : Z) : run ostream := Pack o (store_le 4 v) 4.

Definition PackString (o : ostream) (str : list byte) : run ostream :=
  o ← Pack_int o (i32 (zlen str)); Pack o (str ++ [Byte.x00]) (i32 (zlen str)).

(** ** _binary_istream: the buffer is only read *)

Definition EndPos (b : B) : Z := i32 (zlen (sb_bytes b)).

Definition LeftBytes (b : B) (pos : Z) : Z := u64 (EndPos b - pos).

Definition SetReadPos (b : B) (readPos : Z) : run Z :=
  c_assert ((readPos >=? 0) && (readPos <=? EndPos b)) ≫= fun _ => Ok readPos.
Definition MoveReadPos (b : B) (pos offset : Z) : run Z :=
  newPos ← c_int (pos + offset); SetReadPos b newPos.

(** The bytes of the destination buffer afterwards. *)
Definition Read (b : B) (bufSizeInBytes readPos sizeToRead : Z) : run (list byte) :=
  c_assert (bufSizeInBytes >=? 0) ≫= fun _ =>
  c_assert ((readPos >=? 0) && (readPos <=? EndPos b)) ≫= fun _ =>
  (if sizeToRead >=? 0 then e ← c_int (readPos + sizeToRead); c_assert (e <=? EndPos b) else Abort) ≫= fun _ =>
  c_assert (sizeToRead <=? bufSizeInBytes) ≫= fun _ =>
  s ← at_ptr (drop (Z.to_nat readPos) (sb_bytes b)) sizeToRead;
  Ok (s ++ replicate (Z.to_nat (bufSizeInBytes - sizeToRead)) Byte.x00).

Definition Unpack_buf (b : B) (pos bufSizeInBytes sizeToCpy : Z) : run (list byte * Z) :=
  s ← Read b bufSizeInBytes pos sizeToCpy;
  pos ← MoveReadPos b pos sizeToCpy; Ok (s, pos).

(** Unpack<char> and Unpack<int>. *)
Definition Unpack_char (b : B) (pos : Z) : run (byte * Z) :=
  '(s, pos) ← Unpack_buf b pos 1 1;
  match s with [c] => Ok (c, pos) | _ => Undef end.
Definition Read_int (b : B) (pos : Z) : run Z := s ← Read b 4 pos 4; Ok (i32 (load_le s)).
Definition Unpack_int (b : B) (pos : Z) : run (Z * Z) :=
  '(s, pos) ← Unpack_buf b pos 4 4; Ok (i32 (load_le s), pos).

(** Unpack(int): the result is a C string.  From 1024 bytes on the last byte of
    the buffer is never written. *)
Definition Unpack_size (b : B) (pos sizeToUnpack : Z) : run (list byte * Z) :=
  if sizeToUnpack <? 1024 then
    '(s, pos) ← Unpack_buf b pos sizeToUnpack sizeToUnpack;
    Ok (c_string s, pos)
  else
    '(s, pos) ← Unpack_buf b pos sizeToUnpack sizeToUnpack;
    c_require (bool_decide (Byte.x00 ∈ s)) ≫= fun _ => Ok (c_string s, pos).

Fixpoint unpack_chars (n : nat) (b : B) (pos : Z) : run (list byte * Z) :=
  match n with
  | O => Ok ([], pos)
  | S n =>
      '(c, pos) ← Unpack_char b pos;
      '(s, pos) ← unpack_chars n b pos; Ok (c :: s, pos)
  end.

Definition UnpackString (b : B) (pos : Z) : run (list byte * Z) :=
  dstStrLen ← Read_int b pos;
  let bufLeftLen := i32 (u64 (EndPos b - pos - 4)) in
  c_assert ((dstStrLen >=? 0) && (dstStrLen <=? bufLeftLen)) ≫= fun _ =>
  '(dstStrLen, pos) ← Unpack_int b pos;
  unpack_chars (Z.to_nat dstStrLen) b pos.
End Streams.

(** ** Reading and writing in range *)

Lemma c_int_ok z : -2147483648 <= z < 2147483648 -> c_int z = Ok z.
Proof.
  intros Hz. unfold c_int. by rewrite (proj2 (Z.leb_le _ _)), (proj2 (Z.ltb_lt _ _)) by lia.
Qed.

Lemma at_ptr_app (s t : list byte) : at_ptr (s ++ t) (zlen s) = Ok s.
Proof.
  unfold at_ptr. rewrite Z_length_app, (proj2 (Z.leb_le _ _)) by lia. cbn.
  by rewrite Nat2Z.id, take_app_length.
Qed.

Section BinaryBuf.
Implicit Types (s t : list byte).

Lemma pack_append s t :
  zlen s + zlen t < 2147483648 ->
  Pack (mkOut (mkBuf s) (zlen s)) (t ++ [Byte.x00]) (zlen t)
  = Ok (mkOut (mkBuf (s ++ t)) (zlen (s ++ t))).
Proof.
  intros Hl. unfold Pack, BufLen. cbn [o_buf m_WritePos sb_bytes binary_buf_stream m_Str].
  rewrite Z.geb_leb, (proj2 (Z.leb_le 0 _)) by lia. cbn [c_assert mbind run_bind].
  rewrite c_int_ok by lia. cbn [mbind run_bind]. rewrite i32_small by lia.
  assert (exists b, (if zlen s + zlen t >? zlen s then ResizeBuf (mkOut (mkBuf s) (zlen s)) (zlen s + zlen t)
                     else Ok (mkOut (mkBuf s) (zlen s))) = Ok (mkOut b (zlen s)) /\
    m_Str b = s ++ replicate (length t) Byte.x00) as (b & -> & Hb).
  { unfold ResizeBuf. rewrite u64_small by lia. rewrite Z.gtb_ltb. destruct (_ <? _) eqn:E; zbool; eexists; (split; [reflexivity|]); cbn.
    - rewrite take_ge by lia. f_equal. f_equal. lia.
    - destruct t; [by rewrite app_nil_r|cbn in E; lia]. }
  cbn [mbind run_bind sb_replace binary_buf_stream o_buf m_WritePos]. rewrite !u64_small by lia.
  unfold buf_replace, buf_replace_n, buf_size. rewrite Hb.
  rewrite (proj2 (Z.leb_le (zlen s) _)) by (rewrite Z_length_app; lia). cbn [c_assert mbind run_bind].
  rewrite at_ptr_app. cbn [mbind run_bind]. rewrite !Nat2Z.id, take_app_length.
  rewrite (drop_ge (s ++ _)) by (rewrite length_app, length_replicate; lia). rewrite app_nil_r.
  cbn [mbind run_bind m_WritePos]. rewrite c_int_ok by lia. cbn [mbind run_bind]. unfold SetWritePos, BufLen.
  cbn [o_buf sb_bytes binary_buf_stream m_Str]. rewrite i32_small by (rewrite Z_length_app; lia).
  rewrite Z_length_app, Z.geb_leb, (proj2 (Z.leb_le 0 _)), (proj2 (Z.leb_le _ (_ + _))) by lia. done.
Qed.

Lemma read_app {B} `{StreamBuf B} (b : B) s t u n :
  sb_bytes b = s ++ t ++ u -> zlen (s ++ t ++ u) < 2147483648 -> n = zlen t ->
  Read b n (zlen s) n = Ok t.
Proof.
  intros Hb Hl ->. rewrite !Z_length_app in Hl. unfold Read, EndPos. rewrite Hb, !Z_length_app.
  rewrite i32_small by lia. rewrite !Z.geb_leb, (proj2 (Z.leb_le 0 (zlen t))) by lia.
  cbn [c_assert mbind run_bind].
  rewrite (proj2 (Z.leb_le 0 (zlen s))), (proj2 (Z.leb_le (zlen s) _)) by lia. cbn [andb c_assert mbind run_bind].
  rewrite c_int_ok by lia. cbn [mbind run_bind]. rewrite (proj2 (Z.leb_le (_ + _) _)) by lia.
  cbn [c_assert mbind run_bind]. rewrite Z.leb_refl. cbn [c_assert mbind run_bind].
  rewrite Nat2Z.id, drop_app_length, at_ptr_app. cbn [mbind run_bind].
  rewrite Z.sub_diag. cbn. by rewrite app_nil_r.
Qed.

Lemma unpack_app {B} `{StreamBuf B} (b : B) s t u n :
  sb_bytes b = s ++ t ++ u -> zlen (s ++ t ++ u) < 2147483648 -> n = zlen t ->
  Unpack_buf b (zlen s) n n = Ok (t, zlen (s ++ t)).
Proof.
  intros Hb Hl ->. unfold Unpack_buf. rewrite (read_app b s t u _ Hb Hl eq_refl). cbn [mbind run_bind].
  unfold MoveReadPos, SetReadPos, EndPos. rewrite Hb. rewrite !Z_length_app in *.
  rewrite c_int_ok by lia. cbn [mbind run_bind]. rewrite i32_small by lia.
  by rewrite Z.geb_leb, (proj2 (Z.leb_le 0 _)), (proj2 (Z.leb_le _ _)) by lia.
Qed.

Lemma unpack_chars_app {B} `{StreamBuf B} (b : B) s t u :
  sb_bytes b = s ++ t ++ u -> zlen (s ++ t ++ u) < 2147483648 ->
  unpack_chars (length t) b (zlen s) = Ok (t, zlen (s ++ t)).
Proof.
  revert s. induction t as [|c t IH]; intros s Hb Hl; cbn [length unpack_chars]; [by rewrite app_nil_r|].
  unfold Unpack_char. change ((c :: t) ++ u) with ([c] ++ (t ++ u)) in Hb, Hl.
  rewrite (unpack_app b s [c] (t ++ u) 1 Hb Hl eq_refl). cbn [mbind run_bind].
  rewrite (IH (s ++ [c])) by (rewrite <- !app_assoc; done). cbn [mbind run_bind].
  by rewrite <- app_assoc.
Qed.
End BinaryBuf.

(** ** Strings packed and unpacked *)

(** PackString of one string after another, and UnpackString as often. *)
Fixpoint pack_all (o : ostream (B := binary_buf)) (msgs : list (list byte)) : run ostream :=
  match msgs with
  | [] => Ok o
  | m :: msgs => o ← PackString o m; pack_all o msgs
  end.
Fixpoint unpack_all {B} `{StreamBuf B} (n : nat) (b : B) (pos : Z) : run (list (list byte) * Z) :=
  match n with
  | O => Ok ([], pos)
  | S n => '(m, pos) ← UnpackString b pos; '(l, pos) ← unpack_all n b pos; Ok (m :: l, pos)
  end.

(** A string as it is packed. *)
Definition packed (m : list byte) : list byte := store_le 4 (zlen m) ++ m.

Lemma pack_exact (s t : list byte) :
  zlen s + zlen t < 2147483648 ->
  Pack (mkOut (mkBuf s) (zlen s)) t (zlen t) = Pack (mkOut (mkBuf s) (zlen s)) (t ++ [Byte.x00]) (zlen t).
Proof.
  intros Hl. unfold Pack. cbn [o_buf m_WritePos sb_replace binary_buf_stream].
  assert (forall b off, buf_replace b off t (zlen t) = buf_replace b off (t ++ [Byte.x00]) (zlen t)) as Heq.
  { intros b off. unfold buf_replace, buf_replace_n. rewrite at_ptr_app.
    pose proof (at_ptr_app t []) as Ha. rewrite app_nil_r in Ha. by rewrite Ha. }
  destruct (c_assert _) as [[]| |]; [|done..]. cbn [mbind run_bind].
  destruct (c_int _) as [z| |]; [|done..]. cbn [mbind run_bind].
  destruct (if z >? _ then _ else _) as [b| |]; [|done..]. cbn [mbind run_bind]. rewrite (u64_small (zlen t)) by lia. by rewrite Heq.
Qed.

Lemma pack_string s m :
  zlen s + zlen m + 4 < 2147483648 ->
  PackString (mkOut (mkBuf s) (zlen s)) m = Ok (mkOut (mkBuf (s ++ packed m)) (zlen (s ++ packed m))).
Proof.
  intros Hl. unfold PackString, Pack_int. rewrite i32_small by lia.
  replace 4 with (zlen (store_le 4 (zlen m))) at 2 by (by rewrite length_store_le).
  pose proof (length_store_le 4 (zlen m)) as H4.
  rewrite pack_exact, pack_append by (rewrite H4; lia). cbn [mbind run_bind].
  rewrite pack_append by (rewrite Z_length_app, H4; lia). unfold packed. by rewrite <- !app_assoc.
Qed.

Lemma pack_all_packed (msgs : list (list byte)) s :
  zlen (s ++ concat (packed <$> msgs)) < 2147483648 ->
  pack_all (mkOut (mkBuf s) (zlen s)) msgs
  = Ok (mkOut (mkBuf (s ++ concat (packed <$> msgs))) (zlen (s ++ concat (packed <$> msgs)))).
Proof.
  revert s. induction msgs as [|m msgs IH]; intros s Hl; cbn [pack_all]; [cbn; by rewrite app_nil_r|].
  rewrite fmap_cons in *. cbn [concat] in *. rewrite app_assoc in *.
  rewrite pack_string.
  - cbn [mbind run_bind]. by rewrite IH.
  - rewrite !Z_length_app in Hl. unfold packed in Hl. rewrite Z_length_app, length_store_le in Hl. lia.
Qed.

Lemma unpack_string {B} `{StreamBuf B} (b : B) (s m u : list byte) :
  sb_bytes b = s ++ packed m ++ u -> zlen (s ++ packed m ++ u) < 2147483648 ->
  UnpackString b (zlen s) = Ok (m, zlen (s ++ packed m)).
Proof.
  intros Hb Hl. unfold packed in *. rewrite <- (app_assoc _ m u) in Hb, Hl.
  pose proof (length_store_le 4 (zlen m)) as H4. rewrite !Z_length_app, H4 in Hl.
  assert (i32 (load_le (store_le 4 (zlen m))) = zlen m) as Hi.
  { rewrite load_store_le. change (256 ^ Z.of_nat 4) with 4294967296. rewrite Z.mod_small, i32_small; lia. }
  assert (zlen (s ++ store_le 4 (zlen m) ++ m ++ u) < 2147483648) as Hl' by (rewrite !Z_length_app, H4; lia).
  assert (4 = zlen (store_le 4 (zlen m))) as E4 by (by rewrite H4).
  unfold UnpackString, Read_int, Unpack_int.
  rewrite (read_app b s _ _ 4 Hb Hl' E4). cbn [mbind run_bind]. rewrite Hi.
  assert (i32 (u64 (EndPos b - zlen s - 4)) = zlen m + zlen u) as ->.
  { unfold EndPos. rewrite Hb, !Z_length_app, H4, (i32_small (zlen s + _)) by lia.
    unfold u64. rewrite Z.mod_small, i32_small by lia. lia. }
  rewrite Z.geb_leb, (proj2 (Z.leb_le 0 _)), (proj2 (Z.leb_le _ (_ + _))) by lia. cbn [andb c_assert mbind run_bind].
  rewrite (unpack_app b s _ _ 4 Hb Hl' E4). cbn [mbind run_bind]. rewrite Hi, Nat2Z.id.
  rewrite (unpack_chars_app b (s ++ store_le 4 (zlen m)) m u).
  - by rewrite <- app_assoc.
  - by rewrite <- app_assoc.
  - by rewrite <- app_assoc.
Qed.

Lemma unpack_all_packed {B} `{StreamBuf B} (b : B) (msgs : list (list byte)) s :
  sb_bytes b = s ++ concat (packed <$> msgs) -> zlen (sb_bytes b) < 2147483648 ->
  unpack_all (length msgs) b (zlen s) = Ok (msgs, zlen (sb_bytes b)).
Proof.
  revert s. induction msgs as [|m msgs IH]; intros s Hb Hl; cbn [length unpack_all].
  { rewrite Hb. cbn. by rewrite app_nil_r. }
  rewrite fmap_cons in Hb. cbn [concat] in Hb. rewrite (unpack_string b s m _ Hb) by (by rewrite <- Hb).
  cbn [mbind run_bind]. rewrite (IH (s ++ packed m)) by (rewrite <- ?app_assoc; done). done.
Qed.

(** C29: strings survive packing.  Any strings, NULs included, written one after
    another to a buffer by PackString are read back by UnpackString in the same
    order, from any kind of buffer holding those bytes, and the reader ends
    exactly at the end, as long as the total stays below 2 GiB; each string takes
    four bytes more than its length. *)
Theorem packed_strings_roundtrip {B} `{StreamBuf B} (msgs : list (list byte)) (b : B) :
  zlen (concat (packed <$> msgs)) < 2147483648 -> sb_bytes b = concat (packed <$> msgs) ->
  pack_all (new_ostream (mkBuf [])) msgs
    = Ok (mkOut (mkBuf (concat (packed <$> msgs))) (zlen (concat (packed <$> msgs)))) /\
  unpack_all (length msgs) b 0 = Ok (msgs, zlen (concat (packed <$> msgs))).
Proof.
  intros Hl Hb. split; [by apply (pack_all_packed msgs [])|].
  rewrite <- Hb. apply (unpack_all_packed b msgs []); [done|by rewrite Hb].
Qed.

Lemma packed_strings_roundtrip_witness :
  let msgs := [[Byte.x61; Byte.x00]; []; [Byte.x62]] in
  pack_all (new_ostream (mkBuf [])) msgs
    = Ok (mkOut (mkBuf (concat (packed <$> msgs))) (zlen (concat (packed <$> msgs)))) /\
  unpack_all (length msgs) (mkAppointed (concat (packed <$> msgs))) 0 = Ok (msgs, zlen (concat (packed <$> msgs))).
Proof.
  apply (packed_strings_roundtrip [[Byte.x61; Byte.x00]; []; [Byte.x62]]).
  - vm_compute. reflexivity.
  - reflexivity.
Defined.

(** ** Text form *)

(** A buffer written as text and followed by a newline is read back by
    operator>>, which leaves the rest of the input. *)
Lemma buf_text_roundtrip b rest : buf_parse (buf_print b ++ Byte.x0a :: rest) = Ok (b, rest).
Proof.
  assert (forall l : list byte, Byte.x0a ∉ l -> getline (l ++ Byte.x0a :: rest) = (l, rest)) as Hg.
  { intros l. induction l as [|c l IH]; intros Hn; cbn; [done|]. apply not_elem_of_cons in Hn as [Hc Hn].
    rewrite decide_False by congruence. by rewrite IH. }
  unfold buf_parse, buf_print. rewrite Hg.
  - unfold ConvertFromCStyleStr. rewrite from_loop_to_cstyle by done. by destruct b.
  - intros Hin. assert (Forall (fun c => 32 <= byte_val c) (ConvertToCStyleStr (m_Str b))) as Hf.
    { induction (m_Str b) as [|c s IH]; [constructor|]. rewrite to_cstyle_cons in *. apply Forall_app. split.
      - eapply list.Forall_impl; [apply shift_printable|]. cbn. tauto.
      - apply elem_of_app in Hin as [Hin|Hin]; [|by apply IH].
        pose proof (shift_printable c) as Hp. rewrite list.Forall_forall in Hp.
        specialize (Hp _ Hin) as [Hp _]. by vm_compute in Hp. }
    rewrite list.Forall_forall in Hf. specialize (Hf _ Hin). by vm_compute in Hf.
Qed.

(** ** Unpack(int) *)

(** The result stops at the first NUL, although the cursor moves on. *)
Lemma unpack_size_truncates :
  Unpack_size (mkBuf [Byte.x61; Byte.x00; Byte.x62]) 0 3 = Ok ([Byte.x61], 3).
Proof. vm_compute. reflexivity. Qed.

(** From 1024 bytes on, data without a NUL is read beyond what was written. *)
Lemma unpack_size_uninitialised {B} `{StreamBuf B} (b : B) n :
  zlen (sb_bytes b) = n -> 1024 <= n < 2147483648 -> Byte.x00 ∉ sb_bytes b -> Unpack_size b 0 n = Undef.
Proof.
  intros Hn Hr Hz. unfold Unpack_size. rewrite (proj2 (Z.ltb_ge n 1024)) by lia.
  rewrite (unpack_app b [] (sb_bytes b) [] n); [|by rewrite app_nil_r|rewrite app_nil_r; cbn; lia|done].
  cbn [mbind run_bind]. by rewrite bool_decide_eq_false_2.
Qed.

(** ** Malformed input *)

(** Whatever bytes a buffer holds, reading a string from it stays inside: the
    result is a string or a failed check, never an access out of bounds. *)
Lemma unpack_string_in_bounds {B} `{StreamBuf B} (b : B) pos :
  zlen (sb_bytes b) < 2147483644 -> 0 <= pos <= zlen (sb_bytes b) -> UnpackString b pos <> Undef.
Proof.
  intros Hl Hp. set (l := sb_bytes b) in *.
  assert (l = take (Z.to_nat pos) l ++ drop (Z.to_nat pos) l) as Hl0 by (by rewrite take_drop).
  set (s := take (Z.to_nat pos) l) in *. set (rest := drop (Z.to_nat pos) l) in *.
  assert (zlen s = pos) as Hs by (subst s; rewrite length_take; lia).
  destruct (decide (4 <= zlen rest)) as [H4|H4].
  - rewrite <- (take_drop 4 rest) in Hl0. set (t := take 4 rest) in *. set (u := drop 4 rest) in *.
    assert (4 = zlen t) as Ht by (subst t; rewrite length_take; lia).
    assert (zlen (s ++ t ++ u) < 2147483648) as Hll by (rewrite <- Hl0; lia).
    unfold UnpackString, Read_int, Unpack_int. rewrite <- Hs at 1.
    rewrite (read_app b s t u 4 Hl0 Hll Ht). cbn [mbind run_bind].
    assert (i32 (u64 (EndPos b - pos - 4)) = zlen u) as ->.
    { unfold EndPos. fold l. rewrite (i32_small (zlen l)) by lia. rewrite Hl0, !Z_length_app, <- Ht, Hs.
      rewrite Hl0, !Z_length_app in Hl. unfold u64. rewrite Z.mod_small, i32_small by lia. lia. }
    destruct ((_ >=? 0) && _) eqn:E; cbn [c_assert mbind run_bind]; [|done]. zbool.
    rewrite <- Hs at 1. rewrite (unpack_app b s t u 4 Hl0 Hll Ht). cbn [mbind run_bind].
    set (n := i32 (load_le t)) in *. rewrite <- (take_drop (Z.to_nat n) u) in Hl0, Hll.
    assert (length (take (Z.to_nat n) u) = Z.to_nat n) as Hn by (rewrite length_take; lia).
    rewrite <- Hn at 1. rewrite app_assoc in Hl0, Hll.
    rewrite (unpack_chars_app b (s ++ t) _ _ Hl0 Hll). done.
  - unfold UnpackString, Read_int, Read, EndPos. fold l. rewrite (i32_small (zlen l)) by lia.
    rewrite Z.geb_leb. change (0 <=? 4) with true. cbn [c_assert mbind run_bind].
    rewrite !Z.geb_leb, (proj2 (Z.leb_le 0 pos)), (proj2 (Z.leb_le pos _)) by lia.
    cbn [andb c_assert mbind run_bind]. rewrite c_int_ok by lia. cbn [mbind run_bind].
    rewrite (proj2 (Z.leb_gt (pos + 4) _)); [done|]. rewrite Hl0, Z_length_app. lia.
Qed.
