(* ===== verification/WideString.v ===== *)
(** * Wide strings in the streams

    Models PackWString and UnpackWString of src/essential/binary_stream
    (binary_ostream.h, binary_istream.h), which pack the memory of a std::wstring as a
    byte string.  A wchar_t has four bytes, least significant first, and is signed. *)

From S2P Require Import Prelude Codec StrUtil BinaryStream.

Definition sizeof_wchar_t : Z := 4.

(** The memory of a wide string, and the characters in memory. *)
Definition wchar_bytes (wstr : list Z) : list byte := concat (store_le 4 <$> wstr).
Fixpoint wchars_at (n : nat) (mem : list byte) : list Z :=
  match n with
  | O => []
  | S n => i32 (load_le (take 4 mem)) :: wchars_at n (drop 4 mem)
  end.

Section Wide.
Context {B : Type} `{StreamBuf B}.

Definition PackWString (o : ostream (B := B)) (wstr : list Z) : run ostream := PackString o (wchar_bytes wstr).

(** A rest shorter than a character is left out. *)
Definition UnpackWString (b : B) (pos : Z) : run (list Z * Z) :=
  '(dst, pos) ← UnpackString b pos;
  Ok (wchars_at (Z.to_nat (zlen dst / sizeof_wchar_t)) dst, pos).
End Wide.

Lemma length_wchar_bytes wstr : zlen (wchar_bytes wstr) = 4 * zlen wstr.
Proof.
  unfold wchar_bytes. induction wstr as [|w wstr IH]; [done|].
  rewrite fmap_cons. cbn [concat length]. rewrite Z_length_app, length_store_le, IH. lia.
Qed.

Lemma wchars_at_bytes wstr rest :
  Forall (fun w => -2147483648 <= w < 2147483648) wstr -> wchars_at (length wstr) (wchar_bytes wstr ++ rest) = wstr.
Proof.
  unfold wchar_bytes. induction 1 as [|w wstr Hw _ IH]; [done|].
  rewrite fmap_cons. cbn [concat length wchars_at]. rewrite <- app_assoc.
  rewrite take_app_length', drop_app_length' by (by rewrite length_store_le). f_equal; [|exact IH].
  rewrite load_store_le. change (256 ^ Z.of_nat 4) with 4294967296. unfold i32. wrap_lia.
Qed.

(** Wide strings survive packing: what PackWString appends to a buffer,
    UnpackWString reads back from the position where it was written, and the cursor
    ends behind it. *)
Theorem wide_string_roundtrip s wstr :
  Forall (fun w => -2147483648 <= w < 2147483648) wstr -> zlen s + 4 * zlen wstr + 4 < 2147483648 ->
  exists o, PackWString (mkOut (mkBuf s) (zlen s)) wstr = Ok o /\
    UnpackWString (o_buf o) (zlen s) = Ok (wstr, m_WritePos o).
Proof.
  intros Hw Hl. pose proof (length_wchar_bytes wstr) as Hlen.
  eexists. split; [apply pack_string; lia|]. cbn [o_buf m_WritePos]. unfold UnpackWString.
  rewrite (unpack_string _ s (wchar_bytes wstr) []); [|cbn; by rewrite app_nil_r|].
  - cbn [mbind run_bind]. rewrite Hlen. unfold sizeof_wchar_t. rewrite Z.mul_comm, Z.div_mul, Nat2Z.id by lia.
    rewrite <- (app_nil_r (wchar_bytes wstr)). by rewrite wchars_at_bytes.
  - unfold packed. rewrite app_nil_r, !Z_length_app, length_store_le. lia.
Qed.
