(* ===== verification/LogBuffer.v ===== *)
(** * The buffer behind the packet log

    Models src/docker/LogStream.h: FixedBuffer, memory of fixed size with a write
    cursor, and LogStream, which appends text to one of 16000 bytes.  The conversions
    of numbers are declared there but defined in muduo. *)

From Stdlib Require Strings.String.
Import Strings.String.StringSyntax.
#[local] Delimit Scope string_scope with string.
From S2P Require Import Prelude Codec StrUtil.

Definition kSmallBuffer : Z := 4000 * 4.
Definition kLargeBuffer : Z := 4000 * 1000.

(** The memory and the offset of [cur_] in it. *)
Record FixedBuffer := mkFixed { fb_data : list byte; cur_ : Z }.

(** [mem] is what the memory holds before. *)
Definition new_fixed (mem : list byte) : FixedBuffer := mkFixed mem 0.

Definition fb_avail (b : FixedBuffer) : Z := i32 (zlen (fb_data b) - cur_ b).
Definition fb_length (b : FixedBuffer) : Z := i32 (cur_ b).

(** memcpy of the first [len] bytes of [buf] to the cursor. *)
Definition copy_in (b : FixedBuffer) (buf : list byte) (len : Z) : run FixedBuffer :=
  c_require ((len <=? zlen buf) && (0 <=? cur_ b) && (cur_ b + len <=? zlen (fb_data b))) ≫= fun _ =>
  Ok (mkFixed (take (Z.to_nat (cur_ b)) (fb_data b) ++ take (Z.to_nat len) buf
               ++ drop (Z.to_nat (cur_ b + len)) (fb_data b)) (cur_ b + len)).

(** avail() is compared as a size_t; text that does not fit is dropped. *)
Definition fb_append (b : FixedBuffer) (buf : list byte) (len : Z) : run FixedBuffer :=
  if u64 (fb_avail b) >? len then copy_in b buf len else Ok b.

Definition fb_add (b : FixedBuffer) (len : Z) : FixedBuffer := mkFixed (fb_data b) (cur_ b + len).
Definition fb_reset (b : FixedBuffer) : FixedBuffer := mkFixed (fb_data b) 0.
Definition fb_bzero (b : FixedBuffer) : FixedBuffer := mkFixed (replicate (length (fb_data b)) Byte.x00) (cur_ b).
Definition fb_toString (b : FixedBuffer) : run (list byte) :=
  c_require ((0 <=? fb_length b) && (fb_length b <=? zlen (fb_data b))) ≫= fun _ =>
  Ok (take (Z.to_nat (fb_length b)) (fb_data b)).

(** ** LogStream *)

(** Each operator<< that the header defines. *)
Definition log_bool (s : FixedBuffer) (v : bool) : run FixedBuffer :=
  fb_append s (if v then cstr "1"%string else cstr "0"%string) 1.
Definition log_char (s : FixedBuffer) (v : byte) : run FixedBuffer := fb_append s [v] 1.
Definition log_cstr (s : FixedBuffer) (str : option (list byte)) : run FixedBuffer :=
  match str with
  | Some str => fb_append s (c_string str) (zlen (c_string str))
  | None => fb_append s (cstr "(null)"%string) 6
  end.
Definition log_string (s : FixedBuffer) (v : list byte) : run FixedBuffer := fb_append s v (zlen v).
Definition log_buffer (s : FixedBuffer) (v : FixedBuffer) : run FixedBuffer := t ← fb_toString v; log_string s t.

(** The operands, and the operator for each. *)
Inductive log_item :=
| Log_bool (v : bool)
| Log_char (v : byte)
| Log_cstr (str : option (list byte))
| Log_string (v : list byte)
| Log_buffer (v : FixedBuffer).

Definition log_put (s : FixedBuffer) (i : log_item) : run FixedBuffer :=
  match i with
  | Log_bool v => log_bool s v
  | Log_char v => log_char s v
  | Log_cstr str => log_cstr s str
  | Log_string v => log_string s v
  | Log_buffer v => log_buffer s v
  end.

(** append(data, len): the int is converted to size_t. *)
Definition log_append (s : FixedBuffer) (data : list byte) (len : Z) : run FixedBuffer := fb_append s data (u64 len).

Fixpoint log_puts (s : FixedBuffer) (items : list log_item) : run FixedBuffer :=
  match items with
  | [] => Ok s
  | i :: items => s ← log_put s i; log_puts s items
  end.

(** ** What is logged *)

(** The cursor is inside, before the last byte. *)
Definition fixed_ok (b : FixedBuffer) : Prop := 0 <= cur_ b < zlen (fb_data b) /\ zlen (fb_data b) < 2147483648.

Definition logged (b : FixedBuffer) : list byte := take (Z.to_nat (cur_ b)) (fb_data b).

(** A reference: [size] bytes of room, of which one is never used; a text that does
    not fit is dropped as a whole, and a shorter one may follow it. *)
Definition keep_text (size : Z) (done text : list byte) : list byte :=
  if zlen done + zlen text <? size then done ++ text else done.

Lemma logged_length b : fixed_ok b -> zlen (logged b) = cur_ b.
Proof. intros [? _]. unfold logged. rewrite length_take. lia. Qed.

Lemma append_spec b (text : list byte) :
  fixed_ok b -> zlen text < 2147483648 ->
  exists b', fb_append b text (zlen text) = Ok b' /\ fixed_ok b' /\ zlen (fb_data b') = zlen (fb_data b) /\
    logged b' = keep_text (zlen (fb_data b)) (logged b) text.
Proof.
  intros Hb Ht. pose proof (logged_length b Hb) as Hl. destruct Hb as [Hc Hs]. unfold fb_append, fb_avail, keep_text.
  rewrite i32_small, u64_small by lia. rewrite Z.gtb_ltb, Hl.
  destruct (zlen text <? zlen (fb_data b) - cur_ b) eqn:E; zbool.
  2: { rewrite (proj2 (Z.ltb_ge (cur_ b + zlen text) _)) by lia. by exists b. }
  rewrite (proj2 (Z.ltb_lt (cur_ b + zlen text) _)) by lia. unfold copy_in.
  rewrite Z.leb_refl, (proj2 (Z.leb_le 0 _)), (proj2 (Z.leb_le (_ + _) _)) by lia. cbn [andb c_require mbind run_bind].
  rewrite (take_ge text) by lia. set (d := take _ _ ++ text ++ drop _ _).
  assert (zlen d = zlen (fb_data b)) as Hd.
  { subst d. rewrite !Z_length_app, length_take, length_drop. lia. }
  eexists. split; [reflexivity|]. split; [split; cbn; [|lia]; rewrite Hd; lia|]. split; [done|].
  unfold logged. cbn. subst d. rewrite app_assoc, take_app_length'; [done|].
  rewrite length_app, length_take. lia.
Qed.

(** The text of an operand. *)
Definition item_text (i : log_item) : list byte :=
  match i with
  | Log_bool v => if v then cstr "1"%string else cstr "0"%string
  | Log_char v => [v]
  | Log_cstr str => match str with Some str => c_string str | None => cstr "(null)"%string end
  | Log_string v => v
  | Log_buffer v => logged v
  end.

Definition item_ok (i : log_item) : Prop :=
  zlen (item_text i) < 2147483648 /\ match i with Log_buffer v => fixed_ok v | _ => True end.

Lemma toString_logged b : fixed_ok b -> fb_toString b = Ok (logged b).
Proof.
  intros [Hc Hs]. unfold fb_toString, fb_length, logged. rewrite i32_small by lia.
  by rewrite (proj2 (Z.leb_le 0 _)), (proj2 (Z.leb_le (cur_ b) _)) by lia.
Qed.

(** Whatever is logged, the buffer is never overrun, and holds each text whole or
    not at all, in order: what [keep_text] keeps. *)
Theorem log_keeps_whole_texts items b :
  fixed_ok b -> Forall item_ok items ->
  exists b', log_puts b items = Ok b' /\ fixed_ok b' /\ zlen (fb_data b') = zlen (fb_data b) /\
    fb_toString b' = Ok (foldl (keep_text (zlen (fb_data b))) (logged b) (item_text <$> items)).
Proof.
  intros Hb Hi. revert b Hb. induction Hi as [|i items [Hl Hv] _ IH]; intros b Hb; cbn [log_puts].
  - exists b. split_and!; try done. by apply toString_logged.
  - destruct (append_spec b (item_text i) Hb Hl) as (b1 & H1 & Hb1 & Hs1 & Ht1).
    assert (log_put b i = Ok b1) as ->.
    { destruct i as [[]|v|[str|]|v|v]; try exact H1. cbn [log_put]. unfold log_buffer. by rewrite (toString_logged v Hv). }
    cbn [mbind run_bind]. destruct (IH b1 Hb1) as (b' & H2 & Hb' & Hs' & Ht'). exists b'.
    rewrite fmap_cons. cbn [foldl]. rewrite Hs1, Ht1 in *. by split_and!.
Qed.

(** The cursor can be moved past the end by add(), after which append() takes the
    negative room for a huge one and writes out of bounds. *)
Lemma add_overruns b text :
  fixed_ok b -> 0 < zlen text < 2147483648 -> fb_append (fb_add b (zlen (fb_data b) + 1 - cur_ b)) text (zlen text) = Undef.
Proof.
  intros [Hc Hs] Ht. unfold fb_append, fb_avail, fb_add. cbn [fb_data cur_].
  replace (zlen (fb_data b) - (cur_ b + (zlen (fb_data b) + 1 - cur_ b))) with (-1) by lia.
  change (u64 (i32 (-1))) with 18446744073709551615. rewrite (proj2 (Z.gtb_lt _ _)) by lia. unfold copy_in. cbn [cur_ fb_data].
  rewrite (proj2 (Z.leb_gt (cur_ b + _ + _) _)) by lia. by rewrite andb_false_r.
Qed.
