(* ===== verification/ThreadQueue.v ===== *)
(** * The blocking queue

    Models src/essential/utility/threadsafe_queue.hpp: a queue under a mutex, with
    a condition variable on which consumers wait.  Each method body runs under the
    mutex, as one step, up to the point where it waits; a waiting consumer sleeps
    until it is notified (or wakes without reason), takes the mutex again and tests
    the predicate again.  [sleeping] counts the consumers that sleep, [notified]
    those that were notified and have not run yet. *)

From S2P Require Import Prelude.

Section ThreadQueue.
Context {T : Type}.

Record threadsafe_queue := mkTq { data_queue : list T; sleeping : nat; notified : nat }.

(** What a consumer does when it holds the mutex: pop the front, or take all. *)
Inductive take_mode := Take_front | Take_all.

Definition new_queue : threadsafe_queue := mkTq [] 0 0.

(** The copy constructor copies the elements only. *)
Definition copy_queue (other : threadsafe_queue) : threadsafe_queue := mkTq (data_queue other) 0 0.

Definition size (q : threadsafe_queue) : Z := zlen (data_queue q).
Definition empty (q : threadsafe_queue) : bool := match data_queue q with [] => true | _ => false end.

(** notify_one wakes one sleeping consumer, if there is one. *)
Definition notify_one (q : threadsafe_queue) : threadsafe_queue :=
  match sleeping q with
  | O => q
  | S n => mkTq (data_queue q) n (S (notified q))
  end.

Definition push (q : threadsafe_queue) (new_value : T) : threadsafe_queue :=
  notify_one (mkTq (data_queue q ++ [new_value]) (sleeping q) (notified q)).

Definition try_pop (q : threadsafe_queue) : threadsafe_queue * option T :=
  match data_queue q with
  | [] => (q, None)
  | v :: d => (mkTq d (sleeping q) (notified q), Some v)
  end.

Definition grab_all (q : threadsafe_queue) : threadsafe_queue * list T :=
  (mkTq [] (sleeping q) (notified q), data_queue q).

(** The test of the predicate with the mutex held: the elements taken, or [None]
    and the consumer sleeps. *)
Definition wait_test (mode : take_mode) (q : threadsafe_queue) : threadsafe_queue * option (list T) :=
  match data_queue q, mode with
  | [], _ => (mkTq [] (S (sleeping q)) (notified q), None)
  | v :: d, Take_front => (mkTq d (sleeping q) (notified q), Some [v])
  | d, Take_all => (mkTq [] (sleeping q) (notified q), Some d)
  end.

(** The calls of wait_and_pop and wait_and_grab_all, and what the consumer does
    when it wakes. *)
Definition wait_and_pop (q : threadsafe_queue) := wait_test Take_front q.
Definition wait_and_grab_all (q : threadsafe_queue) := wait_test Take_all q.
Definition wake (mode : take_mode) (q : threadsafe_queue) : threadsafe_queue * option (list T) :=
  wait_test mode (mkTq (data_queue q) (sleeping q) (pred (notified q))).
Definition wake_spurious (mode : take_mode) (q : threadsafe_queue) : threadsafe_queue * option (list T) :=
  wait_test mode (mkTq (data_queue q) (pred (sleeping q)) (notified q)).

(** ** Any number of threads *)

(** One step of some thread: the elements it pushes and those it takes. *)
Inductive queue_step (q : threadsafe_queue) : list T -> list T -> threadsafe_queue -> Prop :=
| qs_push v : queue_step q [v] [] (push q v)
| qs_try_pop : queue_step q [] (option_list (try_pop q).2) (try_pop q).1
| qs_grab : queue_step q [] (grab_all q).2 (grab_all q).1
| qs_wait_pop : queue_step q [] (default [] (wait_and_pop q).2) (wait_and_pop q).1
| qs_wait_grab : queue_step q [] (default [] (wait_and_grab_all q).2) (wait_and_grab_all q).1
| qs_wake mode : (0 < notified q)%nat ->
    queue_step q [] (default [] (wake mode q).2) (wake mode q).1
| qs_spurious mode : (0 < sleeping q)%nat ->
    queue_step q [] (default [] (wake_spurious mode q).2) (wake_spurious mode q).1.

Inductive queue_run : list T -> list T -> threadsafe_queue -> Prop :=
| qr_new : queue_run [] [] new_queue
| qr_step ins outs q i o q' :
    queue_run ins outs q -> queue_step q i o q' -> queue_run (ins ++ i) (outs ++ o) q'.

(** While a consumer sleeps, there are no more elements than notified consumers. *)
Definition woken (q : threadsafe_queue) : Prop :=
  (0 < sleeping q)%nat -> (length (data_queue q) <= notified q)%nat.

Lemma wait_test_spec mode q :
  let '(q', o) := wait_test mode q in
  data_queue q = default [] o ++ data_queue q' /\
  (length (data_queue q) <= S (notified q) \/ sleeping q = 0 -> data_queue q <> [] -> woken q')%nat /\
  (data_queue q = [] -> data_queue q' = []).
Proof.
  unfold wait_test, woken. destruct q as [[|v d] sl nt]; destruct mode; cbn; split_and!; try done;
    rewrite ?app_nil_r; done || lia.
Qed.

Lemma wait_step_woken mode q :
  (length (data_queue q) <= S (notified q) \/ sleeping q = 0)%nat -> woken (wait_test mode q).1.
Proof.
  intros H. pose proof (wait_test_spec mode q) as Hs. destruct (wait_test mode q) as [q' o].
  destruct Hs as (_ & H1 & H2). destruct (data_queue q) eqn:E; [|by apply H1].
  unfold woken. cbn. rewrite H2 by done. cbn. lia.
Qed.

Lemma queue_step_ok q i o q' :
  queue_step q i o q' -> woken q -> data_queue q ++ i = o ++ data_queue q' /\ woken q'.
Proof.
  intros Hs Hw. unfold woken in Hw.
  destruct Hs as [v| | | | |mode Hn|mode Hn]; rewrite ?app_nil_r.
  - unfold push, notify_one, woken. destruct q as [d sl nt]. cbn in *.
    destruct sl as [|sl]; cbn; (split; [done|]); [lia|]. rewrite length_app. cbn. lia.
  - unfold try_pop, woken. destruct q as [[|v d] sl nt]; cbn in *; (split; [done|]); lia.
  - unfold woken. cbn. split; [done|]. lia.
  - pose proof (wait_test_spec Take_front q) as Hs. split; [|apply wait_step_woken; lia].
    unfold wait_and_pop. destruct (wait_test _ q). apply Hs.
  - pose proof (wait_test_spec Take_all q) as Hs. split; [|apply wait_step_woken; lia].
    unfold wait_and_grab_all. destruct (wait_test _ q). apply Hs.
  - unfold wake. set (q1 := mkTq _ _ _). pose proof (wait_test_spec mode q1) as Hs.
    split; [|apply wait_step_woken; subst q1; cbn; lia].
    change (data_queue q) with (data_queue q1). destruct (wait_test _ q1). apply Hs.
  - unfold wake_spurious. set (q1 := mkTq _ _ _). pose proof (wait_test_spec mode q1) as Hs.
    split; [|apply wait_step_woken; subst q1; cbn; lia].
    change (data_queue q) with (data_queue q1). destruct (wait_test _ q1). apply Hs.
Qed.

(** C31: the queue is first-in first-out and loses no wake-up.  With any number of
    producers and consumers in any interleaving, spurious wake-ups included, the
    elements taken so far followed by those in the queue are exactly those pushed,
    in order; and whenever an element is in the queue while a consumer sleeps,
    another consumer has been notified and is about to run. *)
Theorem queue_fifo ins outs q :
  queue_run ins outs q ->
  ins = outs ++ data_queue q /\
  ((0 < sleeping q)%nat -> data_queue q <> [] -> (0 < notified q)%nat).
Proof.
  intros Hr. assert (ins = outs ++ data_queue q /\ woken q) as [H1 H2].
  { induction Hr as [|ins outs q i o q' Hr [IH1 IH2] Hs];
      [split; [done|]; unfold woken; cbn; lia|].
    apply queue_step_ok in Hs as [Hs1 Hs2]; [|done]. split; [|done].
    by rewrite IH1, <- !app_assoc, Hs1. }
  split; [done|]. intros Hsl Hne. specialize (H2 Hsl). destruct (data_queue q); [done|cbn in H2; lia].
Qed.
End ThreadQueue.

(** A consumer waits, two elements are pushed, the consumer wakes and pops. *)
Lemma queue_fifo_witness :
  let q := (wake Take_front (push (push (wait_and_pop (new_queue (T := Z))).1 1) 2)).1 in
  [1; 2] = [1] ++ data_queue q /\
  ((0 < sleeping q)%nat -> data_queue q <> [] -> (0 < notified q)%nat).
Proof.
  apply (queue_fifo [1; 2] [1]).
  apply (qr_step [1; 2] [] (push (push (wait_and_pop (new_queue (T := Z))).1 1) 2) [] [1]).
  - apply (qr_step [1] [] (push (wait_and_pop (new_queue (T := Z))).1 1) [2] []).
    + apply (qr_step [] [] (wait_and_pop (new_queue (T := Z))).1 [1] []).
      * apply (qr_step [] [] new_queue [] []); [apply qr_new|apply (qs_wait_pop new_queue)].
      * apply qs_push.
    + apply qs_push.
  - apply (qs_wake (push (push (wait_and_pop (new_queue (T := Z))).1 1) 2) Take_front). vm_compute. repeat constructor.
Defined.
