(* ===== verification/Multicast.v ===== *)
(** * Multicast

    Models src/server_lib/udp_multicast_manager.cpp (groups with a UDP multicast
    address, plain and reliable sending), src/server_lib/multicast_manager.cpp
    (groups of connections) and src/client_lib/kcp_multicast_client.cpp (joining
    groups, receiving, acknowledging).  The mutexes make every method one step.
    What goes to the outside is returned as a list of effects. *)

From stdpp Require Import gmap sorting.
From Stdlib Require Strings.String.
Import Strings.String.StringSyntax.
#[local] Delimit Scope string_scope with string.
From S2P Require Import Prelude Codec ConnectPacket Server Client.

(** ** boost::asio::deadline_timer

    [dt_wait_from_now] is expires_from_now followed by async_wait, [dt_expire] the
    passing of the expiry time; with the new timer each returns the number of
    handlers that become ready.  By its documentation, setting the expiry time and
    cancel() cancel the pending waits, and the handler of a cancelled wait is
    called (with an error code, which the code here does not look at). *)
Class DeadlineTimer (T : Type) := {
  dt_new : T;
  dt_pending : T -> nat;
  dt_wait_from_now : T -> T * nat;
  dt_cancel : T -> T * nat;
  dt_expire : T -> T * nat
}.

Class DeadlineTimerLaws (T : Type) `{DeadlineTimer T} := {
  dt_new_idle : dt_pending dt_new = 0%nat;
  dt_wait_spec t : (dt_wait_from_now t).2 = dt_pending t /\ dt_pending (dt_wait_from_now t).1 = 1%nat;
  dt_cancel_spec t : (dt_cancel t).2 = dt_pending t /\ dt_pending (dt_cancel t).1 = 0%nat;
  dt_expire_spec t : (dt_expire t).2 = dt_pending t /\ dt_pending (dt_expire t).1 = 0%nat
}.

(** A timer is the number of its pending waits. *)
#[export] Instance counting_timer : DeadlineTimer nat := {
  dt_new := 0%nat;
  dt_pending := fun t => t;
  dt_wait_from_now := fun t => (1%nat, t);
  dt_cancel := fun t => (0%nat, t);
  dt_expire := fun t => (0%nat, t)
}.
#[export] Instance counting_timer_laws : DeadlineTimerLaws nat.
Proof. by split. Qed.

(** A network-order 32-bit number. *)
Definition be32 (v : Z) : list byte := rev (store_le 4 v).
Definition of_be32 (l : list byte) : Z := load_le (rev l).

(** [SEQ:4 bytes][MSG]. *)
Definition seq_msg (seq : Z) (msg : list byte) : list byte := be32 seq ++ msg.

(** The order of a std::map. *)
Definition by_key {A} (a b : Z * A) : Prop := a.1 <= b.1.
#[export] Instance by_key_dec {A} : RelDecision (by_key (A := A)).
Proof. intros a b. unfold by_key. apply _. Defined.
Definition in_order {A} (m : gmap Z A) : list (Z * A) := merge_sort by_key (map_to_list m).

Module Udp.
Section Udp.
Context {T : Type} `{DeadlineTimer T}.

Definition MULTICAST_PREFIX : list byte := cstr "239.255."%string.
Definition MULTICAST_PORT_MIN : Z := 30000.
Definition MULTICAST_PORT_MAX : Z := 40000.

Record MulticastGroup := mkGroup {
  endpoint : udp_endpoint;
  next_seq : Z;
  sent_msgs : gmap Z (list byte);
  retransmit_timer : T
}.

(** [ready] holds the group ids of the retransmission handlers that wait to be
    run. *)
Record UdpMulticastManager := mkUdpManager {
  groups : gmap Z MulticastGroup;
  next_group_id : Z;
  ready : list Z
}.

Definition new_udp_manager : UdpMulticastManager := mkUdpManager ∅ 1 [].

(** The drawn numbers are arguments. *)
Definition generate_multicast_address (x y port : Z) : list byte * Z :=
  (MULTICAST_PREFIX ++ print_u32 x ++ cstr "."%string ++ print_u32 y, u16 port).

(** [addr_of] is address::from_string, [None] when it throws; [opened] says that
    the socket calls succeed. *)
Definition init_group_socket (addr_of : list byte -> option Z) (opened : bool)
    (multicast_addr : list byte) (port : Z) : option udp_endpoint :=
  a ← addr_of multicast_addr; if opened then Some (mkUdp a port) else None.

Definition create_group (addr_of : list byte -> option Z) (opened : bool) (rnd : Z * Z * Z)
    (s : UdpMulticastManager) (multicast_addr : list byte) (port : Z) : UdpMulticastManager * Z :=
  let group_id := next_group_id s in
  let s := mkUdpManager (groups s) (u32 (next_group_id s + 1)) (ready s) in
  let '(mc_addr, mc_port) :=
    if bool_decide (multicast_addr = []) || (port =? 0)
    then generate_multicast_address rnd.1.1 rnd.1.2 rnd.2 else (multicast_addr, port) in
  match init_group_socket addr_of opened mc_addr mc_port with
  | None => (s, 0)
  | Some ep =>
      (mkUdpManager (<[group_id := mkGroup ep 0 ∅ dt_new]> (groups s)) (next_group_id s) (ready s), group_id)
  end.

Definition delete_group (s : UdpMulticastManager) (group_id : Z) : UdpMulticastManager * bool :=
  match groups s !! group_id with
  | None => (s, false)
  | Some g =>
      let '(_, n) := dt_cancel (retransmit_timer g) in
      (mkUdpManager (delete group_id (groups s)) (next_group_id s) (ready s ++ replicate n group_id), true)
  end.

(** [sent] says that send_to does not throw. *)
Definition send_to_group (sent : bool) (s : UdpMulticastManager) (group_id : Z) (msg : list byte) : list effect :=
  match groups s !! group_id with
  | None => []
  | Some g => if sent then [Udp_send (endpoint g) msg] else []
  end.

(** expires_from_now and async_wait of a group's timer. *)
Definition arm (s : UdpMulticastManager) (group_id : Z) (g : MulticastGroup) : UdpMulticastManager :=
  let '(t, n) := dt_wait_from_now (retransmit_timer g) in
  mkUdpManager (<[group_id := mkGroup (endpoint g) (next_seq g) (sent_msgs g) t]> (groups s))
    (next_group_id s) (ready s ++ replicate n group_id).

Definition send_reliable_to_group (sent : bool) (s : UdpMulticastManager) (group_id : Z) (msg : list byte)
  : UdpMulticastManager * list effect :=
  match groups s !! group_id with
  | None => (s, [])
  | Some g =>
      let seq := next_seq g in
      let g := mkGroup (endpoint g) (u32 (seq + 1)) (<[seq := msg]> (sent_msgs g)) (retransmit_timer g) in
      let s := mkUdpManager (<[group_id := g]> (groups s)) (next_group_id s) (ready s) in
      if sent then (arm s group_id g, [Udp_send (endpoint g) (seq_msg seq msg)]) else (s, [])
  end.

(** What a retransmission sends: every message kept, in the order of their numbers;
    [sent] says for which numbers send_to does not throw. *)
Definition retransmission (sent : Z -> bool) (g : MulticastGroup) : list effect :=
  (fun kv => Udp_send (endpoint g) (seq_msg kv.1 kv.2)) <$>
    base.filter (fun kv => sent kv.1 = true) (in_order (sent_msgs g)).

Definition handle_retransmit (sent : Z -> bool) (s : UdpMulticastManager) (group_id : Z)
  : UdpMulticastManager * list effect :=
  match groups s !! group_id with
  | None => (s, [])
  | Some g =>
      if bool_decide (sent_msgs g = ∅) then (s, [])
      else (arm s group_id g, retransmission sent g)
  end.

Definition handle_ack (s : UdpMulticastManager) (group_id seq : Z) : UdpMulticastManager :=
  match groups s !! group_id with
  | None => s
  | Some g =>
      mkUdpManager (<[group_id := mkGroup (endpoint g) (next_seq g) (delete seq (sent_msgs g)) (retransmit_timer g)]>
        (groups s)) (next_group_id s) (ready s)
  end.

(** [to_string] is address::to_string. *)
Definition get_group_info (to_string : Z -> list byte) (s : UdpMulticastManager) (group_id : Z) : list byte :=
  match groups s !! group_id with
  | None => cstr "Group not found"%string
  | Some g =>
      cstr "Group ID: "%string ++ print_u32 group_id ++ [Byte.x0a]
      ++ cstr "Multicast Address: "%string ++ to_string (udp_addr (endpoint g)) ++ [Byte.x0a]
      ++ cstr "Port: "%string ++ print_u32 (udp_port (endpoint g)) ++ [Byte.x0a]
      ++ cstr "Pending Messages: "%string ++ print_dec 20 (Z.of_nat (size (sent_msgs g)))
  end.

(** The handlers of the cancelled waits become ready; the groups are gone. *)
Definition udp_stop (s : UdpMulticastManager) : UdpMulticastManager :=
  mkUdpManager ∅ (next_group_id s)
    (ready s ++ concat ((fun kg => replicate (dt_cancel (retransmit_timer kg.2)).2 kg.1)
       <$> in_order (groups s))).

(** io_service runs the first handler that is ready. *)
Definition run_ready (s : UdpMulticastManager) : UdpMulticastManager * list effect :=
  match ready s with
  | [] => (s, [])
  | id :: rest => handle_retransmit (fun _ => true) (mkUdpManager (groups s) (next_group_id s) rest) id
  end.
End Udp.
End Udp.

(** ** Groups of connections *)

Module Members.
Record MulticastManager := mkMembers { group_members : gmap Z (gset Z); members_next : Z }.

Definition new_members : MulticastManager := mkMembers ∅ 1.

Definition members_create_group (s : MulticastManager) : MulticastManager * Z :=
  (mkMembers (<[members_next s := ∅]> (group_members s)) (u32 (members_next s + 1)), members_next s).

Definition add_member_to_group (s : MulticastManager) (group_id conv : Z) : MulticastManager * bool :=
  match group_members s !! group_id with
  | None => (s, false)
  | Some m => (mkMembers (<[group_id := {[conv]} ∪ m]> (group_members s)) (members_next s), true)
  end.

Definition remove_member_from_group (s : MulticastManager) (group_id conv : Z) : MulticastManager * bool :=
  match group_members s !! group_id with
  | None => (s, false)
  | Some m =>
      (mkMembers (<[group_id := m ∖ {[conv]}]> (group_members s)) (members_next s), bool_decide (conv ∈ m))
  end.

Definition members_delete_group (s : MulticastManager) (group_id : Z) : MulticastManager * bool :=
  (mkMembers (delete group_id (group_members s)) (members_next s), bool_decide (is_Some (group_members s !! group_id))).

(** The calls of send_msg, connection by connection.  [conns] is what the weak pointer to
    the connection manager locks to: which ids it has a connection for. *)
Definition members_send_to_group (conns : option (Z -> bool)) (s : MulticastManager) (group_id : Z)
    (msg : list byte) : list (Z * list byte) :=
  match group_members s !! group_id with
  | None => []
  | Some members =>
      match conns with
      | None => []
      | Some has =>
          (fun conv => (conv, msg)) <$> base.filter (fun conv => has conv = true) (merge_sort Z.le (elements members))
      end
  end.
End Members.

(** ** The receiving client *)

Module McClient.
Record GroupInfo := mkInfo {
  multicast_addr : list byte;
  port : Z;
  socket_fd : Z;
  last_seq : Z
}.

Record kcp_multicast_client := mkMc {
  mc_groups : gmap Z GroupInfo;
  running : bool;
  thread_running : bool;
  msg_callback : bool
}.

(** Memberships dropped, sockets closed, messages passed to the callback,
    acknowledgements sent. *)
Inductive mc_effect :=
| Mc_drop_membership (fd : Z) (addr : list byte)
| Mc_close (fd : Z)
| Mc_deliver (group_id : Z) (msg : list byte)
| Mc_send (fd : Z) (addr : list byte) (port : Z) (data : list byte).

(** The results of the system calls of join_group. *)
Record os_join := mkJoin {
  j_socket : Z; j_reuse : Z; j_getfl : Z; j_setfl : Z; j_bind : Z; j_member : Z
}.

Definition new_mc : kcp_multicast_client := mkMc ∅ false false false.

Definition join_group (s : kcp_multicast_client) (addr : list byte) (p group_id : Z) (os : os_join)
  : kcp_multicast_client * list mc_effect * Z :=
  match mc_groups s !! group_id with
  | Some _ => (s, [], -1)
  | None =>
      let sock_fd := j_socket os in
      if sock_fd <? 0 then (s, [], -2)
      else if j_reuse os <? 0 then (s, [Mc_close sock_fd], -3)
      else if (j_getfl os <? 0) || (j_setfl os <? 0) then (s, [Mc_close sock_fd], -4)
      else if j_bind os <? 0 then (s, [Mc_close sock_fd], -5)
      else if j_member os <? 0 then (s, [Mc_close sock_fd], -6)
      else (mkMc (<[group_id := mkInfo addr p sock_fd 0]> (mc_groups s)) (running s) (thread_running s)
              (msg_callback s), [], 0)
  end.

Definition leave_group (s : kcp_multicast_client) (group_id : Z) : kcp_multicast_client * list mc_effect * Z :=
  match mc_groups s !! group_id with
  | None => (s, [], -1)
  | Some g =>
      (mkMc (delete group_id (mc_groups s)) (running s) (thread_running s) (msg_callback s),
       [Mc_drop_membership (socket_fd g) (multicast_addr g); Mc_close (socket_fd g)], 0)
  end.

(** [cb] says whether the std::function holds something. *)
Definition set_message_callback (s : kcp_multicast_client) (cb : bool) : kcp_multicast_client :=
  mkMc (mc_groups s) (running s) (thread_running s) cb.

(** [ret] is the result of pthread_create. *)
Definition mc_start (s : kcp_multicast_client) (ret : Z) : kcp_multicast_client * bool :=
  if running s then (s, false)
  else if negb (ret =? 0) then (mkMc (mc_groups s) false (thread_running s) (msg_callback s), false)
  else (mkMc (mc_groups s) true (thread_running s) (msg_callback s), true).

(** The flag says whether the receiving thread is joined; no group is joined or left
    while it is. *)
Definition mc_stop (s : kcp_multicast_client) : kcp_multicast_client * list mc_effect * bool :=
  if negb (running s) then (s, [], false)
  else (mkMc ∅ false (thread_running s) (msg_callback s),
        concat ((fun kg => [Mc_drop_membership (socket_fd kg.2) (multicast_addr kg.2); Mc_close (socket_fd kg.2)])
          <$> in_order (mc_groups s)), thread_running s).

Definition send_ack (s : kcp_multicast_client) (group_id seq : Z) : list mc_effect :=
  match mc_groups s !! group_id with
  | None => []
  | Some g => [Mc_send (socket_fd g) (multicast_addr g) (port g) (cstr "ACK:"%string ++ print_u32 seq)]
  end.

Definition handle_multicast_message (s : kcp_multicast_client) (group_id : Z) (msg : list byte) : list mc_effect :=
  if msg_callback s then [Mc_deliver group_id msg] else [].

Definition handle_reliable_message (s : kcp_multicast_client) (group_id : Z) (data : list byte) : list mc_effect :=
  handle_multicast_message s group_id data.

Definition MAX_BUFFER_SIZE : Z := 65536.

(** One readable socket of the receiving loop. *)
Definition receive_one (s : kcp_multicast_client) (group_id : Z) (r : recv_result) : list mc_effect :=
  match r with
  | Recv_failed _ => []
  | Received d =>
      let buffer := take (Z.to_nat MAX_BUFFER_SIZE) d in
      if (zlen buffer >=? 4) && starts_with buffer (cstr "ACK:"%string) then []
      else if zlen buffer >=? 4 then
        let seq := of_be32 (take 4 buffer) in
        handle_reliable_message s group_id (drop 4 buffer) ++ send_ack s group_id seq
      else handle_multicast_message s group_id buffer
  end.

(** What poll finds: an error, nothing, or for each group of the snapshot what
    recvfrom finds when its socket is readable. *)
Inductive poll_result := Poll_failed (errno : Z) | Poll_timeout | Poll_ready (l : list (Z * option recv_result)).

Definition EINTR : Z := 4.

Definition set_thread_running (s : kcp_multicast_client) (b : bool) : kcp_multicast_client :=
  mkMc (mc_groups s) (running s) b (msg_callback s).

(** What the receiving thread does first. *)
Definition receive_thread_begin (s : kcp_multicast_client) : kcp_multicast_client := set_thread_running s true.

(** One iteration of its loop; the flag says that it goes on. *)
Definition receive_thread_iter (s : kcp_multicast_client) (poll : poll_result)
  : kcp_multicast_client * list mc_effect * bool :=
  let stop := (set_thread_running s false, [], false) in
  if negb (running s) then stop
  else if bool_decide (mc_groups s = ∅) then (s, [], true)
  else match poll with
       | Poll_failed e => if e =? EINTR then (s, [], true) else stop
       | Poll_timeout => (s, [], true)
       | Poll_ready l =>
           (s, concat ((fun gr => match gr.2 with Some r => receive_one s gr.1 r | None => [] end) <$> l), true)
       end.
End McClient.

(** ** Retransmission *)

Section Storm.
Context {T : Type} `{DT : DeadlineTimer T} `{DL : !DeadlineTimerLaws T}.
Import Udp.

(** [n] ready handlers are run, one after the other. *)
Fixpoint run_handlers (n : nat) (s : UdpMulticastManager (T := T)) : UdpMulticastManager * list effect :=
  match n with
  | O => (s, [])
  | S n => let '(s, eff1) := run_ready s in let '(s, eff2) := run_handlers n s in (s, eff1 ++ eff2)
  end.

(** A handler of the group is ready while a wait of its timer is pending. *)
Definition storming (id : Z) (ep : udp_endpoint) (msgs : gmap Z (list byte)) (s : UdpMulticastManager (T := T)) : Prop :=
  ready s = [id] /\ exists g, groups s !! id = Some g /\ endpoint g = ep /\ sent_msgs g = msgs /\
    dt_pending (retransmit_timer g) = 1%nat.

Lemma arm_storming id g s :
  ready s = [] -> dt_pending (retransmit_timer g) = 1%nat ->
  storming id (endpoint g) (sent_msgs g) (arm s id g).
Proof.
  intros Hr Hp. unfold arm. destruct (dt_wait_spec (retransmit_timer g)) as [Hn Hp'].
  destruct (dt_wait_from_now (retransmit_timer g)) as [t n]. cbn in *. rewrite Hp in Hn. subst n.
  split; cbn; [by rewrite Hr|]. eexists. rewrite lookup_insert_eq. done.
Qed.

Lemma run_ready_storming id ep msgs s :
  storming id ep msgs s -> msgs <> ∅ ->
  storming id ep msgs (run_ready s).1 /\
  (run_ready s).2 = (fun kv => Udp_send ep (seq_msg kv.1 kv.2)) <$> in_order msgs.
Proof.
  intros (Hr & g & Hg & He & Hm & Hp) Hne. unfold run_ready, handle_retransmit. rewrite Hr. cbn [groups].
  rewrite Hg, bool_decide_eq_false_2 by (by rewrite Hm). cbn [fst snd]. split.
  - rewrite <- He, <- Hm. by apply arm_storming.
  - unfold retransmission. rewrite filter_Forall by (by apply Forall_true). by rewrite He, Hm.
Qed.

(** C28: the retransmission storm.  When a second reliable message is sent to a
    group while the retransmission timer of the first is still running, setting
    the timer again cancels the pending wait; its handler is called all the same,
    retransmits every message and sets the timer again, which cancels the wait
    just started.  So, without any time passing, however many handlers are run,
    each one sends all the messages once more and leaves another handler ready. *)
Theorem retransmit_storm (s : UdpMulticastManager (T := T)) id g msg n :
  groups s !! id = Some g -> dt_pending (retransmit_timer g) = 1%nat -> ready s = [] ->
  let s1 := (send_reliable_to_group true s id msg).1 in
  let msgs := <[next_seq g := msg]> (sent_msgs g) in
  exists s', run_handlers n s1
      = (s', concat (replicate n ((fun kv => Udp_send (endpoint g) (seq_msg kv.1 kv.2)) <$> in_order msgs))) /\
    ready s' = [id].
Proof.
  intros Hg Hp Hr s1 msgs. assert (storming id (endpoint g) msgs s1) as Hst.
  { subst s1. unfold send_reliable_to_group. rewrite Hg. cbn [fst].
    apply (arm_storming id (mkGroup (endpoint g) (u32 (next_seq g + 1)) msgs (retransmit_timer g))); done. }
  assert (msgs <> ∅) as Hne by (apply insert_non_empty).
  generalize s1 Hst. clear s1 Hst. induction n as [|n IH]; intros s1 Hst; [exists s1; by destruct Hst|].
  cbn [run_handlers replicate concat].
  destruct (run_ready_storming id (endpoint g) msgs s1 Hst Hne) as [Hst' He].
  destruct (run_ready s1) as [s2 eff]. cbn [fst snd] in *. destruct (IH s2 Hst') as (s' & -> & Hr').
  exists s'. by rewrite He.
Qed.
End Storm.

(** A group to which one message has just been sent. *)
Definition demo_group : Udp.UdpMulticastManager (T := nat) :=
  (Udp.send_reliable_to_group true
     (Udp.create_group (fun _ => Some 4026466305) true (0, 1, 30000) Udp.new_udp_manager
        (cstr "239.255.0.1"%string) 30001).1 1 (cstr "a"%string)).1.

Lemma retransmit_storm_witness :
  exists g, Udp.groups demo_group !! 1 = Some g /\
  let s1 := (Udp.send_reliable_to_group true demo_group 1 (cstr "b"%string)).1 in
  let msgs := <[Udp.next_seq g := cstr "b"%string]> (Udp.sent_msgs g) in
  exists s', run_handlers 1000 s1
      = (s', concat (replicate 1000 ((fun kv => Udp_send (Udp.endpoint g) (seq_msg kv.1 kv.2)) <$> in_order msgs))) /\
    Udp.ready s' = [1].
Proof.
  eexists. split; [vm_compute; reflexivity|].
  apply (retransmit_storm demo_group 1 _ (cstr "b"%string) 1000); vm_compute; reflexivity.
Defined.

(** ** Delivery *)

Section Delivery.
Context {T : Type} `{DT : DeadlineTimer T}.
Import McClient.

Lemma length_be32 v : length (be32 v) = 4%nat.
Proof. unfold be32. by rewrite length_rev, length_store_le. Qed.

Lemma of_be32_be32 v : 0 <= v < 4294967296 -> of_be32 (be32 v) = v.
Proof.
  intros Hv. unfold of_be32, be32. rewrite rev_involutive, load_store_le.
  change (256 ^ Z.of_nat 4) with 4294967296. by rewrite Z.mod_small.
Qed.

Lemma be32_of_be32 (l : list byte) : length l = 4%nat -> be32 (of_be32 l) = l.
Proof.
  intros Hl. unfold of_be32, be32. rewrite <- Hl, <- length_rev, store_load_le. apply rev_involutive.
Qed.

(** The number whose bytes spell "ACK:". *)
Definition ack_number : Z := of_be32 (cstr "ACK:"%string).

Lemma receive_numbered s id (hd msg : list byte) :
  length hd = 4%nat -> zlen msg <= 65532 -> msg_callback s = true ->
  receive_one s id (Received (hd ++ msg))
  = if decide (hd = cstr "ACK:"%string) then [] else Mc_deliver id msg :: send_ack s id (of_be32 hd).
Proof.
  intros Hh Hl Hcb. unfold receive_one.
  rewrite take_ge by (rewrite length_app, Hh; change (Z.to_nat MAX_BUFFER_SIZE) with (Z.to_nat 65536); lia).
  rewrite Z_length_app, Hh, Z.geb_leb, (proj2 (Z.leb_le 4 _)) by lia. cbn [andb].
  unfold starts_with. change (length (cstr "ACK:"%string)) with 4%nat.
  rewrite take_app_length', drop_app_length' by done. unfold handle_reliable_message, handle_multicast_message.
  rewrite Hcb. case_bool_decide as Hd; [by rewrite decide_True|by rewrite decide_False].
Qed.

(** C26: what a group member receives.  A message sent reliably, below the buffer
    size, is delivered as it was sent and acknowledged with its number, unless the
    number's bytes spell "ACK:", when it is taken for an acknowledgement and
    dropped.  A message sent with send_to_group carries no number, but the client
    cannot tell: from four bytes on its first four are taken for one and cut off
    (or, if they are "ACK:", the message is dropped); only shorter messages arrive
    unchanged. *)
Theorem multicast_delivery (u : Udp.UdpMulticastManager (T := T)) gid g (c : kcp_multicast_client) id info msg :
  Udp.groups u !! gid = Some g -> 0 <= Udp.next_seq g < 4294967296 ->
  mc_groups c !! id = Some info -> msg_callback c = true -> zlen msg <= 65532 ->
  let received eff := concat ((fun e => match e with Udp_send _ d => receive_one c id (Received d) | _ => [] end) <$> eff) in
  let ack n := Mc_send (socket_fd info) (multicast_addr info) (port info) (cstr "ACK:"%string ++ print_u32 n) in
  received (Udp.send_reliable_to_group true u gid msg).2
    = (if Udp.next_seq g =? ack_number then [] else [Mc_deliver id msg; ack (Udp.next_seq g)]) /\
  received (Udp.send_to_group true u gid msg)
    = if zlen msg <? 4 then [Mc_deliver id msg]
      else if starts_with msg (cstr "ACK:"%string) then []
      else [Mc_deliver id (drop 4 msg); ack (of_be32 (take 4 msg))].
Proof.
  intros Hg Hseq Hc Hcb Hl received ack. split.
  - unfold Udp.send_reliable_to_group. rewrite Hg. unfold received. cbn [snd fmap list_fmap concat].
    rewrite app_nil_r. unfold seq_msg. rewrite receive_numbered by (done || apply length_be32).
    unfold send_ack. rewrite Hc, of_be32_be32 by done. unfold ack_number.
    destruct (decide (be32 (Udp.next_seq g) = _)) as [Hd|Hd].
    + rewrite <- Hd, of_be32_be32, Z.eqb_refl by done. done.
    + rewrite (proj2 (Z.eqb_neq _ _)); [done|]. intros E. apply Hd. rewrite E. by apply be32_of_be32.
  - unfold Udp.send_to_group. rewrite Hg. unfold received. cbn [fmap list_fmap concat]. rewrite app_nil_r.
    destruct (zlen msg <? 4) eqn:E4; zbool.
    + unfold receive_one. rewrite take_ge by (change (Z.to_nat MAX_BUFFER_SIZE) with (Z.to_nat 65536); lia).
      rewrite Z.geb_leb, (proj2 (Z.leb_gt 4 _)) by lia. cbn [andb]. unfold handle_multicast_message. by rewrite Hcb.
    + rewrite <- (take_drop 4 msg) at 1. assert (length (take 4 msg) = 4%nat) as Ht by (rewrite length_take; lia).
      rewrite receive_numbered by (done || rewrite length_drop; lia). unfold starts_with, send_ack.
      change (length (cstr "ACK:"%string)) with 4%nat. rewrite Hc.
      case_bool_decide as Hd; [by rewrite decide_True|by rewrite decide_False].
Qed.
End Delivery.

Definition demo_member : McClient.kcp_multicast_client :=
  (McClient.join_group (McClient.set_message_callback McClient.new_mc true) (cstr "239.255.0.1"%string) 30001 1
     (McClient.mkJoin 5 0 2 0 0 0)).1.1.

Lemma multicast_delivery_witness :
  exists g info, Udp.groups demo_group !! 1 = Some g /\ McClient.mc_groups demo_member !! 1 = Some info /\
  let received eff := concat ((fun e => match e with Udp_send _ d => McClient.receive_one demo_member 1 (Received d)
                                        | _ => [] end) <$> eff) in
  let ack n := McClient.Mc_send (McClient.socket_fd info) (McClient.multicast_addr info) (McClient.port info)
                 (cstr "ACK:"%string ++ print_u32 n) in
  let msg := cstr "hello"%string in
  received (Udp.send_reliable_to_group true demo_group 1 msg).2
    = (if Udp.next_seq g =? ack_number then [] else [McClient.Mc_deliver 1 msg; ack (Udp.next_seq g)]) /\
  received (Udp.send_to_group true demo_group 1 msg)
    = if zlen msg <? 4 then [McClient.Mc_deliver 1 msg]
      else if starts_with msg (cstr "ACK:"%string) then []
      else [McClient.Mc_deliver 1 (drop 4 msg); ack (of_be32 (take 4 msg))].
Proof.
  eexists _, _. split; [vm_compute; reflexivity|]. split; [vm_compute; reflexivity|].
  apply (multicast_delivery demo_group 1 _ demo_member 1 _ (cstr "hello"%string)).
  - vm_compute. reflexivity.
  - vm_compute. split; [discriminate|reflexivity].
  - vm_compute. reflexivity.
  - vm_compute. reflexivity.
  - vm_compute. discriminate.
Defined.
