(* ===== verification/ServerFacade.v ===== *)
(** * The server facade and the echo server

    Models src/server_lib/server.cpp, which forwards to the connection manager and
    to the multicast manager, and the program src/server/server.cpp, whose event
    callback sends every message back to its sender.  connection::input calls the
    callback last, so the calls of the callback into the server are made after the
    handler's own work. *)

From stdpp Require Import gmap.
From Stdlib Require Strings.String.
From S2P Require Import Prelude Codec KcpState KcpInput ConnectPacket KcpSession Server ServerThms Client Multicast.

Section Facade.
Context {K : Type} `{KcpSession K} {T : Type} `{DeadlineTimer T}.

(** ** kcp_svr::server *)

Record kcp_server := mkServer {
  connection_manager_ptr : manager (K := K);
  multicast_manager_ptr : Udp.UdpMulticastManager (T := T)
}.

(** The constructor, once the socket is bound. *)
Definition new_server (cur_conv : Z) : kcp_server := mkServer (new_manager cur_conv) Udp.new_udp_manager.

(** [order] is the order in which the hash map of connections is visited. *)
Definition server_stop (s : kcp_server) (order : list (Z * connection)) : kcp_server * list effect :=
  let groups := Udp.udp_stop (multicast_manager_ptr s) in
  let '(conns, eff) := stop_all (connection_manager_ptr s) order in
  (mkServer conns groups, eff).

Definition server_set_callback (s : kcp_server) : kcp_server :=
  mkServer (set_callback (connection_manager_ptr s)) (multicast_manager_ptr s).

Definition server_force_disconnect (s : kcp_server) (conv : Z) : run (kcp_server * list effect) :=
  '(conns, eff) ← force_disconnect (connection_manager_ptr s) conv;
  Ok (mkServer conns (multicast_manager_ptr s), eff).

Definition server_send_msg (s : kcp_server) (conv : Z) (msg : list byte) : run (kcp_server * Z) :=
  '(conns, ret) ← send_msg (connection_manager_ptr s) conv msg;
  Ok (mkServer conns (multicast_manager_ptr s), ret).

Definition create_multicast_group (addr_of : list byte -> option Z) (opened : bool) (rnd : Z * Z * Z)
    (s : kcp_server) (multicast_addr : list byte) (port : Z) : kcp_server * Z :=
  let '(groups, id) := Udp.create_group addr_of opened rnd (multicast_manager_ptr s) multicast_addr port in
  (mkServer (connection_manager_ptr s) groups, id).

Definition delete_multicast_group (s : kcp_server) (group_id : Z) : kcp_server * bool :=
  let '(groups, found) := Udp.delete_group (multicast_manager_ptr s) group_id in
  (mkServer (connection_manager_ptr s) groups, found).

(** A null pointer and an empty message are ignored. *)
Definition send_msg_to_multicast_group (sent : bool) (s : kcp_server) (group_id : Z) (msg : option (list byte))
  : list effect :=
  match msg with
  | Some (c :: m) => Udp.send_to_group sent (multicast_manager_ptr s) group_id (c :: m)
  | _ => []
  end.

Definition send_reliable_msg_to_multicast_group (sent : bool) (s : kcp_server) (group_id : Z)
    (msg : option (list byte)) : kcp_server * list effect :=
  match msg with
  | Some (c :: m) =>
      let '(groups, eff) := Udp.send_reliable_to_group sent (multicast_manager_ptr s) group_id (c :: m) in
      (mkServer (connection_manager_ptr s) groups, eff)
  | _ => (s, [])
  end.

Definition get_multicast_group_info (to_string : Z -> list byte) (s : kcp_server) (group_id : Z) : list byte :=
  Udp.get_group_info to_string (multicast_manager_ptr s) group_id.

(** ** The echo server *)

Record echo_server := mkEcho { kcp_server_ : kcp_server; echo_stopped : bool; test_timer : bool }.

Definition hook_test_timer (s : echo_server) : echo_server :=
  if echo_stopped s then s else mkEcho (kcp_server_ s) (echo_stopped s) true.

Definition new_echo (cur_conv : Z) : echo_server :=
  hook_test_timer (mkEcho (server_set_callback (new_server cur_conv)) false false).

Definition handle_test_timer (s : echo_server) : echo_server :=
  hook_test_timer (mkEcho (kcp_server_ s) (echo_stopped s) false).

Definition handle_stop (s : echo_server) (order : list (Z * connection)) : echo_server * list effect :=
  let '(k, eff) := server_stop (kcp_server_ s) order in (mkEcho k true (test_timer s), eff).

(** The function's static variable is the argument [conv], 1000 at the first call;
    its new value is returned with the events. *)
Definition test_force_disconnect (s : echo_server) (conv : Z) : run (echo_server * Z * list effect) :=
  '(k, eff) ← server_force_disconnect (kcp_server_ s) conv;
  Ok (mkEcho k (echo_stopped s) (test_timer s), u32 (conv + 1), eff).

Definition event_callback (s : kcp_server) (conv : Z) (event_type : eEventType) (msg : list byte) : run kcp_server :=
  match event_type with
  | eRcvMsg => '(s, _) ← server_send_msg s conv msg; Ok s
  | _ => Ok s
  end.

(** The events of one handler, in order. *)
Fixpoint run_events (s : kcp_server) (effs : list effect) : run kcp_server :=
  match effs with
  | [] => Ok s
  | Event conv event_type msg :: effs => s ← event_callback s conv event_type msg; run_events s effs
  | Udp_send _ _ :: effs => run_events s effs
  end.

(** A datagram arrives. *)
Definition echo_receive (s : kcp_server) (error : bool) (data : list byte) (remote : udp_endpoint)
  : run (kcp_server * list effect) :=
  '(conns, eff) ← handle_udp_receive_from (connection_manager_ptr s) error data remote;
  s ← run_events (mkServer conns (multicast_manager_ptr s)) eff;
  Ok (s, eff).
End Facade.

(** ** Stopping *)

Section Quiet.
Context {K : Type} `{KcpSession K} {T : Type} `{DeadlineTimer T}.

Lemma run_handlers_no_groups n (u : Udp.UdpMulticastManager (T := T)) :
  Udp.groups u = ∅ -> (run_handlers n u).2 = [] /\ Udp.groups (run_handlers n u).1 = ∅.
Proof.
  revert u. induction n as [|n IH]; intros u Hu; [done|]. cbn [run_handlers].
  assert ((Udp.run_ready u).2 = [] /\ Udp.groups (Udp.run_ready u).1 = ∅) as [He Hg].
  { unfold Udp.run_ready, Udp.handle_retransmit. destruct (Udp.ready u) as [|id rest]; [done|].
    cbn [Udp.groups]. by rewrite Hu, lookup_empty. }
  destruct (Udp.run_ready u) as [u1 eff1]. cbn [fst snd] in *. specialize (IH u1 Hg).
  destruct (run_handlers n u1) as [u2 eff2]. cbn [fst snd] in *. destruct IH as [-> ->]. by rewrite He.
Qed.

(** Stopping the server says goodbye to every connection, and then is quiet: no
    connection and no group is left, no receive is pending, and the retransmission
    handlers that the cancelled timers still call send nothing. *)
Theorem stop_is_quiet (s : kcp_server (K := K) (T := T)) order n :
  let '(s', eff) := server_stop s order in
  eff = (fun kc => Udp_send (conn_remote kc.2) (making_disconnect_packet (conn_conv kc.2))) <$> order /\
  mg_conns (connection_manager_ptr s') = ∅ /\ mg_stopped (connection_manager_ptr s') = true /\
  mg_receiving (connection_manager_ptr s') = false /\
  (run_handlers n (multicast_manager_ptr s')).2 = [].
Proof.
  unfold server_stop, stop_all. split_and!; try done.
  - induction order as [|kc order IH]; [done|]. rewrite !fmap_cons. cbn [concat]. by rewrite IH.
  - by apply run_handlers_no_groups.
Qed.
End Quiet.

(** ** Echo *)

Section Echo.
Context {K : Type} `{KS : KcpSession K} `{SF : !KcpSafe K} {T : Type} `{DeadlineTimer T}.

Lemma send_msg_queues (m : manager (K := K)) cv c msg k r :
  mg_conns m !! cv = Some c -> ks_send (conn_kcp c) msg = Ok (k, r) ->
  exists m', send_msg m cv msg = Ok (m', 0) /\
    mg_conns m' = <[cv := mkConn (conn_conv c) k (conn_remote c) (conn_last c)]> (mg_conns m) /\
    mg_receiving m' = mg_receiving m.
Proof.
  intros Hc Hk. unfold send_msg, find_by_conv, conn_send_kcp_msg. rewrite Hc, Hk. cbn [mbind run_bind]. eauto.
Qed.

(** C15: the echo server answers.  A KCP datagram for a known connection is given to
    its control block; when that completes a message, the event is reported and the
    very message is queued for sending on the same connection, whose address is now
    the sender's; otherwise nothing is sent or reported.  No other connection and no
    multicast group changes, and the next receive is pending. *)
Theorem echo_replies (s : kcp_server (K := K) (T := T)) data remote cv rest c :
  let m := connection_manager_ptr s in
  mgr_ok m -> mg_stopped m = false -> 24 <= zlen data -> acks_room m (zlen data) ->
  is_connect_packet data (zlen data) = false -> ikcp_decode32u data = Ok (cv, rest) ->
  mg_conns m !! cv = Some c ->
  exists s' eff k1 r1 k2 buf n k3,
    ks_input (conn_kcp c) data = Ok (k1, r1) /\ ks_recv k1 kcp_buf_size = Ok (k2, buf, n) /\
    echo_receive s false data remote = Ok (s', eff) /\
    (if 0 <? n then
       eff = [Event cv eRcvMsg (take (Z.to_nat n) buf)] /\ exists r, ks_send k2 (take (Z.to_nat n) buf) = Ok (k3, r)
     else eff = [] /\ k3 = k2) /\
    mg_conns (connection_manager_ptr s') = <[cv := mkConn cv k3 remote (mg_clock m)]> (mg_conns m) /\
    mg_receiving (connection_manager_ptr s') = true /\ multicast_manager_ptr s' = multicast_manager_ptr s.
Proof.
  intros m Hs Hst Hl Hroom Hnc Hcv Ec. unfold echo_receive, handle_udp_receive_from. fold m.
  cbn [negb andb]. rewrite (proj2 (Z.ltb_lt 0 _)), Hnc by lia.
  match goal with |- context [handle_kcp_packet ?x] => set (m0 := x) end.
  destruct (handle_kcp_input m0 data remote cv rest c) as (m1 & k1 & r1 & k2 & buf & n & Hi & Hr & -> & Hc & _ & Hst1 & Hn & Hk2);
    try done; [by destruct Hs; constructor|].
  cbn [mbind run_bind]. unfold hook_udp_async_receive. rewrite Hst1. change (mg_stopped m0) with (mg_stopped m).
  rewrite Hst. destruct (n <=? 0) eqn:En; zbool.
  - cbn [run_events mbind run_bind]. eexists _, [], k1, r1, k2, buf, n, k2.
    rewrite (proj2 (Z.ltb_ge 0 n)) by lia. done.
  - destruct (ks_send_ok k2 (take (Z.to_nat n) buf) Hk2) as (k3 & r & Hsend & _).
    { rewrite length_take. unfold kcp_buf_size in Hn. lia. }
    match goal with |- context [mkServer ?x _] => set (m2 := x) end.
    destruct (send_msg_queues m2 cv (mkConn cv k2 remote (mg_clock m)) (take (Z.to_nat n) buf) k3 r)
      as (m3 & Hm3 & Hc3 & Hr3); [subst m2; cbn; by rewrite Hc, lookup_insert_eq|done|].
    cbn [run_events event_callback]. unfold server_send_msg. cbn [connection_manager_ptr].
    rewrite Hm3. cbn [mbind run_bind]. eexists _, _, k1, r1, k2, buf, n, k3.
    rewrite (proj2 (Z.ltb_lt 0 n)) by lia. split; [done|]. split; [done|]. split; [reflexivity|].
    split; [eauto|]. cbn. rewrite Hc3, Hr3. subst m2. cbn. by rewrite Hc, insert_insert_eq.
Qed.
End Echo.

(** The server of one client, with the client's first message. *)
#[local] Existing Instance demo_session.
#[local] Existing Instance demo_kcp_safe.
Definition demo_echo : kcp_server (T := nat) := mkServer demo_up Udp.new_udp_manager.

Lemma echo_replies_witness :
  exists c, mg_conns demo_up !! 1001 = Some c /\
    exists s' eff k1 r1 k2 buf n k3,
    ks_input (conn_kcp c) demo_push = Ok (k1, r1) /\ ks_recv k1 kcp_buf_size = Ok (k2, buf, n) /\
    echo_receive demo_echo false demo_push demo_client = Ok (s', eff) /\
    (if 0 <? n then
       eff = [Event 1001 eRcvMsg (take (Z.to_nat n) buf)] /\ exists r, ks_send k2 (take (Z.to_nat n) buf) = Ok (k3, r)
     else eff = [] /\ k3 = k2) /\
    mg_conns (connection_manager_ptr s')
      = <[1001 := mkConn 1001 k3 demo_client (mg_clock demo_up)]> (mg_conns demo_up) /\
    mg_receiving (connection_manager_ptr s') = true /\
    multicast_manager_ptr s' = multicast_manager_ptr demo_echo.
Proof.
  eexists. split; [vm_compute; reflexivity|].
  apply (echo_replies demo_echo demo_push demo_client 1001 (drop 4 demo_push)).
  - exact demo_up_ok.
  - vm_compute. reflexivity.
  - vm_compute. discriminate.
  - apply (bool_decide_unpack _). vm_compute. reflexivity.
  - vm_compute. reflexivity.
  - vm_compute. reflexivity.
  - vm_compute. reflexivity.
Defined.
