(* ===== verification/AsioClient.v ===== *)
(** * The example client on boost::asio

    Models the class client_with_asio of src/client_with_asio: a kcp_client driven
    by two deadline timers of an io_service, one that calls update() every 5
    milliseconds and one that sends a test message every second, and the statistics
    of print_recv_log.  io_service::run() calls one expired handler at a time and
    returns when no timer is armed. *)

From stdpp Require Import gmap.
From Stdlib Require Strings.String.
Import Strings.String.StringSyntax.
#[local] Delimit Scope string_scope with string.
From S2P Require Import Prelude Codec KcpState ConnectPacket KcpSession ServerThms Client StdString Clock TestStr.

Section AsioClient.
Context {K : Type} `{KcpSession K}.

Record client_with_asio := mkAsio {
  stopped : bool;
  ac_client : kcp_client (K := K);
  test_str_size : Z;
  client_timer : bool;                (* a wait on the timer is pending *)
  client_timer_send_msg : bool
}.

#[local] Hint Extern 1 (Update (R := client_with_asio) ?p) =>
  derive_update (fun s => mkAsio (stopped s) (ac_client s) (test_str_size s) (client_timer s)
    (client_timer_send_msg s)) p : typeclass_instances.

Definition hook_client_timer (s : client_with_asio) : client_with_asio :=
  if stopped s then s else s <| client_timer := true |>.

Definition hook_timer_send_msg (s : client_with_asio) : client_with_asio :=
  if stopped s then s else s <| client_timer_send_msg := true |>.

(** The constructor does not look at the result of connect_async. *)
Definition new_client_with_asio (udp_port_bind : Z) (server_ip : list byte) (server_port size : Z)
    (os : os_connect) (now : Z) : client_with_asio :=
  let s := mkAsio false (set_event_callback new_client) size false false in
  let s := hook_client_timer s in
  let '(c, _) := connect_async (ac_client s) udp_port_bind server_ip server_port os now in
  hook_timer_send_msg (s <| ac_client := c |>).

Definition stop_client (s : client_with_asio) : client_with_asio := s <| stopped := true |>.

Definition handle_event (s : client_with_asio) (event_type : ClientEvent.eEventType) : client_with_asio :=
  match event_type with
  | ClientEvent.eConnectFailed | ClientEvent.eDisconnect => s <| stopped := true |>
  | _ => s
  end.

(** The events that update() reports, in order. *)
Fixpoint handle_events (s : client_with_asio) (effs : list client_effect) : client_with_asio :=
  match effs with
  | [] => s
  | Notify _ event_type _ :: effs => handle_events (handle_event s event_type) effs
  | Sent _ :: effs => handle_events s effs
  end.

Definition handle_client_time (s : client_with_asio) (now : Z) (r : recv_result)
  : run (client_with_asio * list client_effect) :=
  let s := hook_client_timer s in
  '(c, eff) ← client_update (ac_client s) now r;
  Ok (handle_events (s <| ac_client := c |>) eff, eff).

Definition send_test_msg (room : Z) (s : client_with_asio) (now : timeval) : run client_with_asio :=
  msg ← make_test_str room (test_str_size s) now;
  Ok (s <| ac_client := client_send_msg (ac_client s) msg |>).

Definition handle_timer_send_msg (room : Z) (s : client_with_asio) (now : timeval) : run client_with_asio :=
  s ← send_test_msg room s now; Ok (hook_timer_send_msg s).

(** io_service::run: an expired timer's handler is called. *)
Inductive asio_step : client_with_asio -> list client_effect -> client_with_asio -> Prop :=
| step_update s now r s' eff :
    client_timer s = true -> handle_client_time (s <| client_timer := false |>) now r = Ok (s', eff) ->
    asio_step s eff s'
| step_send s room now s' :
    client_timer_send_msg s = true ->
    handle_timer_send_msg room (s <| client_timer_send_msg := false |>) now = Ok s' -> asio_step s [] s'.

Inductive asio_run : nat -> client_with_asio -> client_with_asio -> Prop :=
| asio_done s : asio_run 0 s s
| asio_next n s eff s' s'' : asio_step s eff s' -> asio_run n s' s'' -> asio_run (S n) s s''.

(** ** The life of the program *)

Lemma handle_events_timers s effs :
  client_timer (handle_events s effs) = client_timer s /\
  client_timer_send_msg (handle_events s effs) = client_timer_send_msg s /\
  (stopped s = true -> stopped (handle_events s effs) = true).
Proof.
  revert s. induction effs as [|[d|cv ev m] effs IH]; intros s; [done|apply IH|]. cbn [handle_events].
  destruct (IH (handle_event s ev)) as (-> & -> & Hst). split_and!; [by destruct ev..|].
  intros Hs. apply Hst. by destruct ev.
Qed.

(** What keeps the loop going. *)
Definition armed (s : client_with_asio) : Prop :=
  stopped s = true \/ (client_timer s = true /\ client_timer_send_msg s = true).

Lemma step_armed s eff s' : asio_step s eff s' -> armed s -> armed s'.
Proof.
  intros Hstep Ha. destruct Hstep as [s now r s' eff Ht Hh|s room now s' Ht Hh].
  - unfold handle_client_time, hook_client_timer in Hh. cbn in Hh.
    destruct (stopped s) eqn:E; cbn in Hh; (destruct (client_update _ now r) as [[c e]| |]; [|done..]);
      cbn [mbind run_bind] in Hh; injection Hh as <- <-;
      match goal with |- context [handle_events ?x e] => destruct (handle_events_timers x e) as (H1 & H2 & H3) end.
    + left. by apply H3.
    + right. rewrite H1, H2. cbn. split; [done|]. by destruct Ha as [|[_ ?]]; [congruence|].
  - unfold handle_timer_send_msg, send_test_msg in Hh. destruct (make_test_str _ _ now) as [m| |]; [|done..].
    cbn [mbind run_bind] in Hh. injection Hh as <-. unfold armed, hook_timer_send_msg. cbn.
    destruct (stopped s) eqn:E; cbn; [by left|]. right. split; [|done]. by destruct Ha as [|[? _]]; [congruence|].
Qed.

Lemma run_armed n s s' : asio_run n s s' -> armed s -> armed s'.
Proof. induction 1; intros Ha; [done|]. eauto using step_armed. Qed.

(** The number of handlers that are still to be called. *)
Definition waits (s : client_with_asio) : nat :=
  ((if client_timer s then 1 else 0) + (if client_timer_send_msg s then 1 else 0))%nat.

Lemma stopped_step s eff s' : asio_step s eff s' -> stopped s = true ->
  stopped s' = true /\ waits s = S (waits s').
Proof.
  intros Hstep Hs. unfold waits. destruct Hstep as [s now r s' eff Ht Hh|s room now s' Ht Hh].
  - unfold handle_client_time, hook_client_timer in Hh. cbn in Hh. rewrite Hs in Hh. cbn in Hh.
    destruct (client_update _ now r) as [[c e]| |]; [|done..]. cbn [mbind run_bind] in Hh. injection Hh as <- <-.
    match goal with |- context [handle_events ?x e] => destruct (handle_events_timers x e) as (-> & -> & H3) end.
    split; [by apply H3|]. cbn. by rewrite Ht.
  - unfold handle_timer_send_msg, send_test_msg, hook_timer_send_msg in Hh. destruct (make_test_str _ _ now) as [m| |]; [|done..].
    cbn in Hh. rewrite Hs in Hh. injection Hh as <-. split; [done|]. cbn. rewrite Ht. by destruct (client_timer s).
Qed.


(** A client that could not be connected (a bad address, no socket) does nothing for
    ever: nobody is told, and the test messages pile up. *)
Lemma failed_connect_idle s eff s' :
  in_connect_stage (ac_client s) = false -> connect_succeed (ac_client s) = false -> stopped s = false ->
  asio_step s eff s' ->
  eff = [] /\ stopped s' = false /\ in_connect_stage (ac_client s') = false /\
  connect_succeed (ac_client s') = false /\
  (length (send_msg_queue (ac_client s)) <= length (send_msg_queue (ac_client s')))%nat.
Proof.
  intros Hi Hc Hs Hstep. destruct Hstep as [s now r s' eff Ht Hh|s room now s' Ht Hh].
  - unfold handle_client_time, hook_client_timer in Hh. cbn in Hh. rewrite Hs in Hh. cbn in Hh.
    unfold client_update in Hh. rewrite Hi, Hc in Hh. injection Hh as <- <-. cbn. done.
  - unfold handle_timer_send_msg, send_test_msg, hook_timer_send_msg in Hh. destruct (make_test_str _ _ now) as [m| |]; [|done..].
    cbn in Hh. rewrite Hs in Hh. injection Hh as <-. cbn. unfold Queue.push. rewrite length_app. cbn. repeat split; try done. lia.
Qed.
End AsioClient.

#[local] Existing Instance demo_session.

(** The client whose connect attempt has timed out. *)
Definition demo_asio : client_with_asio (K := ikcpcb) :=
  new_client_with_asio 22222 (cstr "127.0.0.1"%string) 12345 500 (mkOs 1 3 0 0 0) 1000.


(** ** The statistics *)

(** An [int] sum must not overflow. *)
Definition c_int (z : Z) : run Z :=
  c_require ((-2147483648 <=? z) && (z <? 2147483648)) ≫= fun _ => Ok z.

(** for (int x : l) sum += x. *)
Fixpoint int_sum (sum : Z) (l : list Z) : run Z :=
  match l with [] => Ok sum | x :: l => s ← c_int (sum + i32 x); int_sum s l end.

(** *std::max_element; dereferencing the end of an empty vector is undefined. *)
Definition max_element (l : list Z) : run Z :=
  match l with [] => Undef | x :: l => Ok (foldl Z.max x l) end.

(** a / b of unsigned numbers. *)
Definition c_div (a b : Z) : run Z := c_require (negb (b =? 0)) ≫= fun _ => Ok (a / b).

(** The static variables, the vectors of the object and the counters of the program
    that print_recv_log reads. *)
Record recv_log := mkLog {
  good_recv_count : Z;
  last_refresh_time : Z;
  recved_bytes : Z;
  package_interval : list Z;
  package_interval10 : list Z;
  package_interval100 : list Z;
  package_send_counter : gmap Z Z;
  count_send_udp_packet : Z;
  count_send_kcp_packet : Z;
  count_send_udp_size : Z;
  count_send_kcp_size : Z
}.

#[export] Hint Extern 1 (Update (R := recv_log) ?p) =>
  derive_update (fun s => mkLog (good_recv_count s) (last_refresh_time s) (recved_bytes s) (package_interval s)
    (package_interval10 s) (package_interval100 s) (package_send_counter s) (count_send_udp_packet s)
    (count_send_kcp_packet s) (count_send_udp_size s) (count_send_kcp_size s)) p : typeclass_instances.

(** Nothing in the program changes the four counters. *)
Definition new_recv_log : recv_log := mkLog 0 0 0 [] [] [] ∅ 0 0 0 0.

(** What is printed, apart from line breaks and the time of day. *)
Inductive printed :=
| P_interval (interval send_count : Z)
| P_ten (max average : Z)
| P_rate (tenths_of_kb_per_s : Z)
| P_hundred (max average average_total : Z)
| P_ratio (packets bytes : Z).

Definition log_ten (s : recv_log) : run (recv_log * list printed) :=
  if good_recv_count s mod 10 =? 0 then
    sum ← int_sum 0 (package_interval10 s);
    m ← max_element (package_interval10 s);
    Ok (s <| package_interval10 := [] |>, [P_ten m (Z.quot sum 10)])
  else Ok (s, []).

Definition log_rate (s : recv_log) (cur_time : Z) : run (recv_log * list printed) :=
  if (u64 (cur_time - last_refresh_time s) >? 10 * 1000) && (good_recv_count s mod 100 =? 30)
     && negb (good_recv_count s =? 30) then
    rate ← c_div (u64 (recved_bytes s * 10)) (u64 (cur_time - last_refresh_time s));
    Ok (s <| last_refresh_time := cur_time |> <| recved_bytes := 0 |>, [P_rate rate])
  else Ok (s, []).

Definition log_hundred (s : recv_log) : run (recv_log * list printed) :=
  if (good_recv_count s mod 100 =? 0) && negb (good_recv_count s =? 0) then
    sum100 ← int_sum 0 (package_interval100 s);
    total ← int_sum 0 (package_interval s);
    average_total ← c_div (u64 total) (zlen (package_interval s));
    m ← max_element (package_interval100 s);
    Ok (s <| package_interval100 := [] |>, [P_hundred m (Z.quot sum100 100) (i32 average_total)])
  else Ok (s, []).

Definition log_ratio (s : recv_log) : run (list printed) :=
  if (good_recv_count s mod 100 =? 10) && negb (good_recv_count s =? 10) then
    p ← c_div (u64 (count_send_udp_packet s * 100)) (count_send_kcp_packet s);
    b ← c_div (u64 (count_send_udp_size s * 100)) (count_send_kcp_size s);
    Ok [P_ratio p b]
  else Ok [].

Definition print_recv_log (s : recv_log) (now : timeval) (msg : list byte) : run (recv_log * list printed) :=
  let s := s <| recved_bytes := u64 (recved_bytes s + zlen msg) |> in
  let cur_time := u64 (iclock64 now) in
  send_time ← get_time_from_msg msg;
  let interval := u64 (cur_time - send_time) in
  let s := s <| good_recv_count := u64 (good_recv_count s + 1) |>
             <| package_interval := package_interval s ++ [interval] |>
             <| package_interval10 := package_interval10 s ++ [interval] |>
             <| package_interval100 := package_interval100 s ++ [interval] |> in
  let sends := default 0 (package_send_counter s !! send_time) in
  let s := s <| package_send_counter := delete send_time (package_send_counter s) |> in
  '(s, p10) ← log_ten s;
  '(s, prate) ← log_rate s cur_time;
  '(s, p100) ← log_hundred s;
  pratio ← log_ratio s;
  Ok (s, P_interval interval sends :: p10 ++ prate ++ p100 ++ pratio).

Fixpoint print_recv_logs (s : recv_log) (msgs : list (timeval * list byte)) : run recv_log :=
  match msgs with
  | [] => Ok s
  | (now, msg) :: msgs => '(s, _) ← print_recv_log s now msg; print_recv_logs s msgs
  end.

(** The vectors of the last ten and the last hundred intervals hold what their
    names say, and the counters that would give the ratios are still zero. *)
Record log_ok (n : Z) (s : recv_log) : Prop := {
  lo_count : good_recv_count s = n;
  lo_all : zlen (package_interval s) = n;
  lo_ten : zlen (package_interval10 s) = n mod 10;
  lo_hundred : zlen (package_interval100 s) = n mod 100;
  lo_packets : count_send_kcp_packet s = 0
}.

Lemma log_ten_Ok s s' p : log_ten s = Ok (s', p) ->
  s' = if good_recv_count s mod 10 =? 0 then s <| package_interval10 := [] |> else s.
Proof. unfold log_ten. intros Hr. case_if_in Hr; inv_run; done. Qed.

Lemma log_rate_Ok s t s' p : log_rate s t = Ok (s', p) ->
  exists a b, s' = s <| last_refresh_time := a |> <| recved_bytes := b |>.
Proof.
  unfold log_rate. intros Hr. case_if_in Hr; inv_run; [eauto|].
  exists (last_refresh_time s), (recved_bytes s). by destruct s.
Qed.

Lemma log_hundred_Ok s s' p : log_hundred s = Ok (s', p) ->
  s' = if (good_recv_count s mod 100 =? 0) && negb (good_recv_count s =? 0)
       then s <| package_interval100 := [] |> else s.
Proof. unfold log_hundred. intros Hr. destruct (_ && _); inv_run; done. Qed.

Lemma log_ratio_Ok s p : log_ratio s = Ok p -> count_send_kcp_packet s = 0 ->
  (good_recv_count s mod 100 =? 10) && negb (good_recv_count s =? 10) = false.
Proof.
  unfold log_ratio. intros Hr Hz. destruct (_ && _); [|done]. unfold c_div in Hr. rewrite Hz in Hr. discriminate Hr.
Qed.

(** One call: the count goes up, full vectors are emptied, and the call whose number
    is ten more than a multiple of hundred does not return. *)
Lemma print_recv_log_step n s now msg s' p :
  0 <= n < 18446744073709551615 -> log_ok n s -> print_recv_log s now msg = Ok (s', p) ->
  log_ok (n + 1) s' /\ ~ ((n + 1) mod 100 = 10 /\ n + 1 <> 10).
Proof.
  intros Hn [Hc Ha H10 H100 Hp] Hrun. unfold print_recv_log in Hrun.
  apply run_bind_Ok in Hrun as (st & _ & Hrun). cbv zeta in Hrun.
  apply run_bind_Ok in Hrun as ([s1 p1] & H1%log_ten_Ok & Hrun).
  apply run_bind_Ok in Hrun as ([s2 p2] & H2%log_rate_Ok & Hrun).
  apply run_bind_Ok in Hrun as ([s3 p3] & H3%log_hundred_Ok & Hrun).
  apply run_bind_Ok in Hrun as (p4 & H4 & Hrun). injection Hrun as <- _.
  destruct H2 as (a & b & ->). cbn in H1. rewrite Hc, u64_small in H1 by lia.
  assert (good_recv_count s1 = n + 1 /\ zlen (package_interval s1) = n + 1 /\
    zlen (package_interval10 s1) = (n + 1) mod 10 /\ zlen (package_interval100 s1) = n mod 100 + 1 /\
    count_send_kcp_packet s1 = 0) as (E1 & E2 & E3 & E4 & E5).
  { subst s1. case_if; cbn; rewrite ?Z_length_app, ?Ha, ?H10, ?H100; cbn; (split_and!; [done..| |done|done]);
      Z.to_euclidean_division_equations; lia. }
  clear H1. cbn in H3. rewrite E1 in H3.
  assert (log_ok (n + 1) s3) as Hok.
  { subst s3. destruct (_ && _) eqn:E; constructor; cbn; try done.
    - apply andb_true_iff in E as [E _]. zbool. cbn. lia.
    - rewrite E4. apply andb_false_iff in E as [E|E]; zbool; Z.to_euclidean_division_equations; lia. }
  split; [done|]. intros [Hm Hne]. apply log_ratio_Ok in H4; [|by destruct Hok].
  rewrite (lo_count _ _ Hok), Hm, (proj2 (Z.eqb_neq _ 10) Hne) in H4. done.
Qed.

(** The statistics of the example client end in a division by zero: nothing counts
    the packets sent, and the line printed at the 110th message divides by that
    count.  Up to there the vectors hold the last ten, the last hundred and all
    intervals. *)
Theorem recv_log_divides_by_zero msgs s :
  print_recv_logs new_recv_log msgs = Ok s -> zlen msgs < 110 /\ log_ok (zlen msgs) s.
Proof.
  assert (forall n s0, 0 <= n < 110 -> log_ok n s0 -> print_recv_logs s0 msgs = Ok s ->
    n + zlen msgs < 110 /\ log_ok (n + zlen msgs) s) as Hgen.
  { induction msgs as [|[now msg] msgs IH]; intros n s0 Hn Hok Hrun.
    - injection Hrun as <-. cbn [length]. rewrite Z.add_0_r. split; [lia|done].
    - cbn [print_recv_logs] in Hrun. apply run_bind_Ok in Hrun as ([s1 p] & H1 & Hrun).
      destruct (print_recv_log_step n s0 now msg s1 p) as [Hok1 Hne]; [lia|done..|].
      cbn [length]. rewrite Nat2Z.inj_succ. replace (n + Z.succ (zlen msgs)) with (n + 1 + zlen msgs) by lia.
      apply (IH (n + 1) s1); [|done..]. split; [lia|]. destruct (decide (n + 1 = 110)) as [E|]; [|lia].
      destruct Hne. rewrite E. done. }
  intros Hrun. apply (Hgen 0 new_recv_log); [lia| |done]. by constructor.
Qed.
