(* ===== verification/McServerApp.v ===== *)
(** * The multicast server program

    Models src/udp_multicast_test_server/multicast_server.cpp: a server that opens
    one multicast group, means to tell every client about it, and sends to the group
    what clients send it behind the word "echo:".  boost's address functions are the
    arguments [addr_of] and [addr_text]. *)

From stdpp Require Import gmap.
From Stdlib Require Strings.String.
Import Strings.String.StringSyntax.
#[local] Delimit Scope string_scope with string.
From S2P Require Import Prelude Codec KcpState ConnectPacket KcpSession Server ServerThms ServerEvents Client Multicast.
From S2P Require Import ServerFacade StdString.

(** ** PerfStats *)

(** The two counters; the report thread reads them and then sets them to zero. *)
Record PerfStats := mkStats { total_msgs : Z; total_bytes : Z }.

Definition stats_reset (p : PerfStats) : PerfStats := mkStats 0 0.

Definition stats_count (p : PerfStats) (size : Z) : PerfStats :=
  mkStats (u64 (total_msgs p + 1)) (u64 (total_bytes p + size)).

(** report() is two steps to the other thread: the loads, and the stores. *)
Definition report_load (p : PerfStats) : Z * Z := (total_msgs p, total_bytes p).
Definition report_store (p : PerfStats) : PerfStats := mkStats 0 0.

(** ** Text *)

Definition MULTICAST_WORD : list byte := cstr "MULTICAST:"%string.
Definition ECHO_WORD : list byte := cstr "echo:"%string.
Definition ADDRESS_LABEL : list byte := cstr "Multicast Address: "%string.
Definition PORT_LABEL : list byte := cstr "Port: "%string.
Definition LF : list byte := [Byte.x0a].

(** substr(pos, end - pos) where [end] may be npos. *)
Definition substr_to (s : list byte) (pos : nat) (end_ : option nat) : run (list byte) :=
  substr s pos (match end_ with Some e => Some (e - pos)%nat | None => None end).

(** The address and port in the description of a group; [None] when a label is
    missing. *)
Definition parse_group_info (group_info : list byte) : run (option (list byte * Z)) :=
  match find ADDRESS_LABEL group_info, find PORT_LABEL group_info with
  | Some addr_pos, Some port_pos =>
      let addr_pos := (addr_pos + 19)%nat in
      addr ← substr_to group_info addr_pos (find_from LF group_info addr_pos);
      let port_pos := (port_pos + 6)%nat in
      port_str ← substr_to group_info port_pos (find_from LF group_info port_pos);
      port ← stoi port_str;
      Ok (Some (addr, u16 port))
  | _, _ => Ok None
  end.

(** What a new client is to be told. *)
Definition multicast_info (addr : list byte) (port group_id : Z) : list byte :=
  MULTICAST_WORD ++ addr ++ cstr ":"%string ++ to_string port ++ cstr ":"%string ++ to_string group_id.

(** ** The program *)

Section McServer.
Context {K : Type} `{KS : KcpSession K} {T : Type} `{DT : DeadlineTimer T}.

Record mc_server := mkMcServer {
  g_server : kcp_server (K := K) (T := T);
  g_perf_stats : PerfStats;
  g_client_info : gmap Z (list byte);
  g_multicast_group_id : Z;
  g_multicast_address : list byte;
  g_multicast_port : Z;
  g_reliable_multicast : bool
}.

#[local] Hint Extern 1 (Update (R := mc_server) ?p) =>
  derive_update (fun s => mkMcServer (g_server s) (g_perf_stats s) (g_client_info s) (g_multicast_group_id s)
    (g_multicast_address s) (g_multicast_port s) (g_reliable_multicast s)) p : typeclass_instances.

(** [msg] is [None] for a null pointer; [sent] says whether the socket takes a
    datagram to the group. *)
Definition mc_event_callback (sent : bool) (s : mc_server) (conv : Z) (event_type : eEventType)
    (msg : option (list byte)) : run (mc_server * list effect) :=
  match event_type with
  | eConnect =>
      let client_id := default (cstr "unknown"%string) msg in
      let s := s <| g_client_info := <[conv := client_id]> (g_client_info s) |> in
      if negb (g_multicast_group_id s =? 0) then
        '(srv, _) ← server_send_msg (g_server s) conv
                      (multicast_info (g_multicast_address s) (g_multicast_port s) (g_multicast_group_id s));
        Ok (s <| g_server := srv |>, [])
      else Ok (s, [])
  | eDisconnect => Ok (s <| g_client_info := delete conv (g_client_info s) |>, [])
  | eRcvMsg =>
      match msg with
      | None => Ok (s, [])
      | Some m =>
          let s := s <| g_perf_stats := stats_count (g_perf_stats s) (zlen m) |> in
          if negb (g_multicast_group_id s =? 0) && bool_decide (find ECHO_WORD m = Some 0%nat) then
            reply ← substr m 5 None;
            if g_reliable_multicast s then
              let '(srv, eff) := send_reliable_msg_to_multicast_group sent (g_server s) (g_multicast_group_id s) (Some reply) in
              Ok (s <| g_server := srv |>, eff)
            else
              Ok (s, send_msg_to_multicast_group sent (g_server s) (g_multicast_group_id s) (Some reply))
          else Ok (s, [])
      end
  | _ => Ok (s, [])
  end.

(** The events of one handler of the server, in order. *)
Fixpoint mc_events (sent : bool) (s : mc_server) (effs : list effect) : run (mc_server * list effect) :=
  match effs with
  | [] => Ok (s, [])
  | Event conv ty msg :: effs =>
      '(s, e1) ← mc_event_callback sent s conv ty (Some msg);
      '(s, e2) ← mc_events sent s effs; Ok (s, e1 ++ e2)
  | Udp_send _ _ :: effs => mc_events sent s effs
  end.

(** How main ends before io_service.run(), or the server it then runs.  An exception
    is caught and printed. *)
Inductive started := Exit (code : Z) | Serving (s : mc_server).

Definition mc_main (addr_of : list byte -> option Z) (addr_text : Z -> list byte) (opened : bool)
    (rnd : Z * Z * Z) (cur_conv : Z) (argv : list (list byte)) : run started :=
  if (length argv <? 3)%nat then Ok (Exit 1)
  else
    '(multicast_addr, multicast_port) ←
      (match argv with
       | _ :: _ :: _ :: a :: p :: _ => p ← stoi p; Ok (a, u16 p)
       | _ => Ok ([], 0)
       end);
    let reliable := match argv with
                    | _ :: _ :: _ :: _ :: _ :: r :: _ => bool_decide (r = cstr "1"%string)
                    | _ => false
                    end in
    let srv := server_set_callback (new_server cur_conv) in
    let '(srv, group_id) := create_multicast_group addr_of opened rnd srv multicast_addr multicast_port in
    if group_id =? 0 then Ok (Exit 1)
    else
      info ← parse_group_info (get_multicast_group_info addr_text srv group_id);
      let '(addr, port) := default ([], 0) info in
      Ok (Serving (mkMcServer srv (mkStats 0 0) ∅ group_id addr port reliable)).
End McServer.

(** ** The description of a group is read back *)

(** A text of an address: no line break, no colon and no P. *)
Definition plain_address (a : list byte) : Prop := Byte.x0a ∉ a /\ Byte.x3a ∉ a /\ Byte.x50 ∉ a.

(** A text up to the next line break. *)
Lemma line_at p a t n : n = length p -> Byte.x0a ∉ a ->
  substr_to (p ++ a ++ LF ++ t) n (find_from LF (p ++ a ++ LF ++ t) n) = Ok a.
Proof.
  intros -> Ha. unfold substr_to, LF. rewrite find_from_app by done.
  rewrite (find_behind Byte.x0a [] a t) by done. cbn [fmap option_fmap option_map].
  apply substr_middle; [done|lia].
Qed.

Lemma print_u32_no n b : 0 <= n -> is_digit b = false -> b ∉ print_u32 n.
Proof. intros Hn Hb. apply not_digit_notin; [by apply print_dec_digits|done]. Qed.

Lemma parse_group_info_spec id addr port rest :
  0 <= id -> 0 <= port < 65536 -> plain_address addr ->
  parse_group_info (cstr "Group ID: "%string ++ print_u32 id ++ LF ++ ADDRESS_LABEL ++ addr ++ LF
    ++ PORT_LABEL ++ print_u32 port ++ LF ++ rest) = Ok (Some (addr, port)).
Proof.
  intros Hid Hport (Hlf & _ & HP).
  set (pre := cstr "Group ID: "%string ++ print_u32 id ++ LF).
  assert (Byte.x4d ∉ pre /\ Byte.x50 ∉ pre) as [HpreM HpreP].
  { subst pre. rewrite !not_elem_of_app.
    repeat split; try (by apply print_u32_no); by apply (bool_decide_unpack _); vm_compute. }
  set (mid := pre ++ ADDRESS_LABEL ++ addr ++ LF).
  assert (Byte.x50 ∉ mid) as HmidP.
  { subst mid. rewrite !not_elem_of_app. repeat split; try done; by apply (bool_decide_unpack _); vm_compute. }
  match goal with |- parse_group_info ?x = _ =>
    assert (x = pre ++ ADDRESS_LABEL ++ (addr ++ LF ++ PORT_LABEL ++ print_u32 port ++ LF ++ rest)) as E1
      by (subst pre; by rewrite <- !app_assoc);
    assert (x = mid ++ PORT_LABEL ++ (print_u32 port ++ LF ++ rest)) as E2
      by (subst mid pre; by rewrite <- !app_assoc); set (text := x) in * end.
  unfold parse_group_info.
  assert (find ADDRESS_LABEL text = Some (length pre)) as ->
    by (rewrite E1; exact (find_behind Byte.x4d (tail ADDRESS_LABEL) pre _ HpreM)).
  assert (find PORT_LABEL text = Some (length mid)) as ->
    by (rewrite E2; exact (find_behind Byte.x50 (tail PORT_LABEL) mid _ HmidP)).
  rewrite E1 at 1 2. rewrite (app_assoc pre), line_at by (done || rewrite length_app; done).
  cbn [mbind run_bind]. rewrite E2. rewrite (app_assoc mid), line_at; [|by rewrite length_app|by apply print_u32_no; [lia|]].
  cbn [mbind run_bind]. rewrite <- (app_nil_r (print_u32 port)). unfold print_u32.
  rewrite stoi_print; [|change (10 ^ Z.of_nat 10) with 10000000000; lia|lia|done].
  rewrite (proj2 (Z.ltb_lt port 2147483648)) by lia. cbn [mbind run_bind]. by rewrite u16_small.
Qed.

Section McServerThms.
Context {K : Type} `{KS : KcpSession K} {T : Type} `{DT : DeadlineTimer T}.
Implicit Types (s : mc_server (K := K) (T := T)).

(** The group the program opened: it exists, and the program has its address and
    port as the group's own socket has them. *)
Lemma mc_main_group addr_of addr_text opened rnd cur_conv argv s :
  (forall a, plain_address (addr_text a)) -> 0 <= rnd.2 ->
  mc_main addr_of addr_text opened rnd cur_conv argv = Ok (Serving s) ->
  g_multicast_group_id s = 1 /\
  exists g, Udp.groups (multicast_manager_ptr (g_server s)) !! 1 = Some g /\
    g_multicast_address s = addr_text (udp_addr (Udp.endpoint g)) /\
    g_multicast_port s = udp_port (Udp.endpoint g) /\ 0 <= g_multicast_port s < 65536.
Proof.
  intros Hplain Hrnd. unfold mc_main. destruct (length argv <? 3)%nat; [done|]. intros Hrun.
  apply run_bind_Ok in Hrun as ([a p] & Hap & Hrun).
  assert (0 <= p < 65536) as Hp.
  { destruct argv as [|? [|? [|? [|? [|? ?]]]]]; inv_run; subst; first [apply u16_range|lia]. }
  unfold create_multicast_group, Udp.create_group in Hrun. cbn in Hrun.
  set (pick := if bool_decide (a = []) || (p =? 0) then Udp.generate_multicast_address rnd.1.1 rnd.1.2 rnd.2 else (a, p)) in Hrun.
  assert (0 <= pick.2 < 65536) as Hport by (subst pick; case_if; cbn; [apply u16_range|done]).
  destruct pick as [ma mp]. cbn in Hport. unfold Udp.init_group_socket in Hrun.
  destruct (addr_of ma) as [x|]; [|done]. cbn in Hrun. destruct opened; [|done].
  cbn in Hrun. unfold get_multicast_group_info, Udp.get_group_info in Hrun. cbn [multicast_manager_ptr Udp.groups] in Hrun.
  rewrite lookup_insert_eq in Hrun. cbn [Udp.endpoint udp_addr udp_port] in Hrun.
  change [Byte.x0a] with LF in Hrun.
  change (cstr "Multicast Address: "%string) with ADDRESS_LABEL in Hrun. change (cstr "Port: "%string) with PORT_LABEL in Hrun.
  rewrite parse_group_info_spec in Hrun by (done || apply Hplain). cbn in Hrun. injection Hrun as <-. cbn.
  split; [done|]. eexists. rewrite lookup_insert_eq. done.
Qed.

(** Of the callback's branches only the one of eConnect uses the connections. *)
Lemma mc_events_quiet sent s effs s' out :
  (forall cv ty msg, Event cv ty msg ∈ effs -> ty = eRcvMsg \/ ty = eDisconnect) ->
  mc_events sent s effs = Ok (s', out) ->
  connection_manager_ptr (g_server s') = connection_manager_ptr (g_server s).
Proof.
  revert s out. induction effs as [|[r d|cv ty msg] effs IH]; intros s out Hty Hrun; cbn [mc_events] in Hrun.
  - by injection Hrun as <- _.
  - eapply IH; [|exact Hrun]. intros cv ty m Hin. apply (Hty cv ty m). by right.
  - apply run_bind_Ok in Hrun as ([s1 e1] & H1 & Hrun). apply run_bind_Ok in Hrun as ([s2 e2] & H2 & Hrun).
    injection Hrun as <- _. etransitivity; [eapply IH; [|exact H2]; intros c t m Hin; apply (Hty c t m); by right|].
    destruct (Hty cv ty msg) as [->| ->]; [by left| |]; cbn in H1; [|by injection H1 as <- _].
    destruct (_ && _); [|by injection H1 as <- _]. apply run_bind_Ok in H1 as (reply & _ & H1).
    destruct (g_reliable_multicast s); [|by injection H1 as <- _].
    unfold send_reliable_msg_to_multicast_group in H1. destruct reply; [by injection H1 as <- _|].
    destruct (Udp.send_reliable_to_group _ _ _ _). by injection H1 as <- _.
Qed.

(** C38: the multicast server tells no client about its group.  Whatever the server
    library does in a step (any datagram, timer tick or call, in any state its keys
    are right in), the events it reports make the program's callback queue nothing on
    any connection: the connection manager is exactly as the step left it.  The
    invitation is written in the branch for eConnect, which is never reported. *)
Theorem group_never_announced sent s m eff m' s' out :
  keys_ok m -> server_step m eff m' ->
  connection_manager_ptr (g_server s) = m' -> mc_events sent s eff = Ok (s', out) ->
  connection_manager_ptr (g_server s') = m'.
Proof.
  intros Hk Hstep <- Hrun. eapply mc_events_quiet; [|exact Hrun]. intros cv ty msg Hin.
  destruct (so_live _ _ _ (server_step_ok _ _ _ Hk Hstep) cv ty msg Hin) as [_ [->|[-> _]]]; auto.
Qed.

(** What a client sends behind "echo:" is what the group gets. *)
Lemma echo_to_group s cv c body g :
  g_multicast_group_id s <> 0 -> g_reliable_multicast s = false ->
  Udp.groups (multicast_manager_ptr (g_server s)) !! g_multicast_group_id s = Some g ->
  exists s', mc_event_callback true s cv eRcvMsg (Some (ECHO_WORD ++ c :: body))
    = Ok (s', [Udp_send (Udp.endpoint g) (c :: body)]).
Proof.
  intros Hid Hrel Hg. unfold mc_event_callback. cbn [g_multicast_group_id update].
  rewrite (proj2 (Z.eqb_neq _ 0)) by done. rewrite find_here, bool_decide_eq_true_2 by done. cbn [negb andb].
  rewrite (substr_end ECHO_WORD (c :: body) 5) by done. cbn [mbind run_bind]. rewrite Hrel.
  eexists. unfold send_msg_to_multicast_group, Udp.send_to_group. cbn [g_server]. by rewrite Hg.
Qed.
End McServerThms.

(** ** The report thread

    Messages are counted by the thread of the io_service while the report thread
    loads and clears the counters. *)

Inductive stats_step := Count (size : Z) | Load | Store.

(** The counters, what the report thread last loaded, and all it has reported. *)
Record stats_state := mkStatsState { ss_stats : PerfStats; ss_loaded : option (Z * Z); ss_reported : Z * Z }.

Definition stats_exec (s : stats_state) (o : stats_step) : stats_state :=
  match o with
  | Count size => mkStatsState (stats_count (ss_stats s) size) (ss_loaded s) (ss_reported s)
  | Load =>
      let l := report_load (ss_stats s) in
      mkStatsState (ss_stats s) (Some l) (ss_reported s)
  | Store =>
      match ss_loaded s with
      | Some l => mkStatsState (report_store (ss_stats s)) None
                    (fst (ss_reported s) + fst l, snd (ss_reported s) + snd l)
      | None => s
      end
  end.

Definition counted (l : list stats_step) : Z :=
  foldr (fun o n => match o with Count _ => n + 1 | _ => n end) 0 l.

(** The messages counted between a load and the store that follows it; [since] is
    the number of those since the last load, when one is pending. *)
Fixpoint lost (since : option Z) (l : list stats_step) : Z :=
  match l with
  | [] => 0
  | Count _ :: l => lost (Z.add 1 <$> since) l
  | Load :: l => lost (Some 0) l
  | Store :: l => default 0 since + lost None l
  end.

Lemma counted_range l : 0 <= counted l <= zlen l.
Proof. unfold counted. induction l as [|[] l IH]; cbn [foldr length]; lia. Qed.

Lemma report_accounting_from l s since :
  0 <= total_msgs (ss_stats s) -> total_msgs (ss_stats s) + counted l < 18446744073709551616 ->
  fst <$> ss_loaded s = (fun k => total_msgs (ss_stats s) - k) <$> since ->
  let s' := foldl stats_exec s l in
  fst (ss_reported s') + total_msgs (ss_stats s') + lost since l
    = fst (ss_reported s) + total_msgs (ss_stats s) + counted l.
Proof.
  revert s since. induction l as [|o l IH]; intros s since Hn Hc Hld; [cbn; lia|].
  cbn [foldl lost]. change (counted (o :: l)) with (match o with Count _ => counted l + 1 | _ => counted l end) in *. pose proof (counted_range l). destruct o as [size| |]; cbv zeta in IH.
  - assert (u64 (total_msgs (ss_stats s) + 1) = total_msgs (ss_stats s) + 1) as Hu by (apply u64_small; lia).
    rewrite IH; cbn; rewrite ?Hu; [lia..|]. rewrite Hld. destruct since; cbn; [f_equal; lia|done].
  - rewrite IH; cbn; [lia..|]. f_equal. lia.
  - cbn [stats_exec]. destruct (ss_loaded s) as [[m b]|] eqn:E, since as [k|]; cbn in Hld; try done; cbn [default].
    + injection Hld as ->.
      match goal with |- context [foldl stats_exec ?x l] => specialize (IH x None) end. cbn in *.
      ospecialize (IH _ _ _); [lia|lia|done|lia].
    + specialize (IH s None). cbn in *. ospecialize (IH _ _ _); [lia|lia|by rewrite E|lia].
Qed.

(** The reports of the two threads together account for every message, except those
    that arrive between a report's load and its store: these are in no report. *)
Theorem report_accounting l :
  zlen l < 18446744073709551616 ->
  let s := foldl stats_exec (mkStatsState (mkStats 0 0) None (0, 0)) l in
  fst (ss_reported s) + total_msgs (ss_stats s) + lost None l = counted l.
Proof.
  intros Hl s. subst s. pose proof (counted_range l). apply (report_accounting_from l (mkStatsState (mkStats 0 0) None (0, 0)) None); cbn; lia || done.
Qed.

(** The program with a group, when the first message of its first client comes. *)
#[local] Existing Instance demo_session.

Definition demo_mc_server : mc_server (K := ikcpcb) (T := nat) :=
  mkMcServer (mkServer demo_s1.1 Udp.new_udp_manager) (mkStats 0 0) ∅ 1 (cstr "239.255.0.1"%string) 30000 false.

Lemma group_never_announced_witness :
  length demo_s1.2 = 1%nat /\
  exists s' out, mc_events true demo_mc_server demo_s1.2 = Ok (s', out) /\
    connection_manager_ptr (g_server s') = demo_s1.1.
Proof.
  split; [vm_compute; reflexivity|].
  assert (exists s' out, mc_events true demo_mc_server demo_s1.2 = Ok (s', out)) as (s' & out & Hrun)
    by (eexists _, _; vm_compute; reflexivity).
  exists s', out. split; [exact Hrun|].
  apply (group_never_announced true demo_mc_server demo_up demo_s1.2 demo_s1.1 s' out); [| |reflexivity|exact Hrun].
  - constructor.
    + apply (bool_decide_unpack _). vm_compute. reflexivity.
    + intros key Hk. destruct (mo_range _ demo_up_ok key Hk) as [_ Hle]. exact Hle.
    + destruct (mo_cur _ demo_up_ok) as [H1 H2]. split; [exact H1|exact H2].
  - apply (step_datagram demo_up false demo_push demo_client); vm_compute; reflexivity.
Defined.
