(* ===== verification/McClientApp.v ===== *)
(** * The multicast client programs

    Models src/udp_multicast_test_client/multicast_client.cpp and
    src/multicast_test_client/multicast_client.cpp: a client that connects, sends
    random messages behind "echo:" and, in the first program, joins the group the
    server names.  The random characters, the clock and the answers of the operating
    system are arguments. *)

From stdpp Require Import gmap.
From Stdlib Require Strings.String.
Import Strings.String.StringSyntax.
#[local] Delimit Scope string_scope with string.
From S2P Require Import Prelude Codec KcpState ConnectPacket KcpSession Server ServerThms Client Multicast ServerFacade StdString McServerApp.

(** ** PerfStats *)

Record client_stats := mkCStats {
  sent_msgs : Z; sent_bytes : Z; recv_msgs : Z; recv_bytes : Z;
  multicast_recv_msgs : Z; multicast_recv_bytes : Z
}.

#[export] Hint Extern 1 (Update (R := client_stats) ?p) =>
  derive_update (fun s => mkCStats (sent_msgs s) (sent_bytes s) (recv_msgs s) (recv_bytes s)
    (multicast_recv_msgs s) (multicast_recv_bytes s)) p : typeclass_instances.

Definition cstats_reset (p : client_stats) : client_stats := mkCStats 0 0 0 0 0 0.

(** report(): the counters printed, and the counters afterwards. *)
Definition cstats_report (p : client_stats) : client_stats * client_stats := (p, mkCStats 0 0 0 0 0 0).

Definition count_sent (p : client_stats) (size : Z) : client_stats :=
  p <| sent_msgs := u64 (sent_msgs p + 1) |> <| sent_bytes := u64 (sent_bytes p + size) |>.
Definition count_received (p : client_stats) (size : Z) : client_stats :=
  p <| recv_msgs := u64 (recv_msgs p + 1) |> <| recv_bytes := u64 (recv_bytes p + size) |>.

(** ** Messages *)

Definition alphanum : list byte :=
  cstr "0123456789ABCDEFGHIJKLMNOPQRSTUVWXYZabcdefghijklmnopqrstuvwxyz"%string.

(** [dis i] is the number drawn in round [i], from 0 to sizeof(alphanum) - 2. *)
Definition generate_random_message (dis : nat -> Z) (size : Z) : list byte :=
  ECHO_WORD ++ ((fun i => default Byte.x00 (alphanum !! Z.to_nat (dis i))) <$> seq 0 (Z.to_nat (size - 5))).

(** ** The programs *)

Section McClientApp.
Context {K : Type} `{KS : KcpSession K}.

Record mc_app := mkMcApp {
  g_perf : client_stats;
  g_connected : bool;
  g_running : bool;
  g_mc_addr : list byte;
  g_mc_port : Z;
  g_mc_group_id : Z;
  g_mc_client : option McClient.kcp_multicast_client
}.

#[local] Hint Extern 1 (Update (R := mc_app) ?p) =>
  derive_update (fun s => mkMcApp (g_perf s) (g_connected s) (g_running s) (g_mc_addr s) (g_mc_port s)
    (g_mc_group_id s) (g_mc_client s)) p : typeclass_instances.

Definition new_app : mc_app := mkMcApp (mkCStats 0 0 0 0 0 0) false true [] 0 0 None.

Definition multicast_message_callback (s : mc_app) (group_id : Z) (msg : list byte) : mc_app :=
  if group_id =? g_mc_group_id s then
    s <| g_perf := (g_perf s) <| multicast_recv_msgs := u64 (multicast_recv_msgs (g_perf s) + 1) |>
                    <| multicast_recv_bytes := u64 (multicast_recv_bytes (g_perf s) + zlen msg) |> |>
  else s.

(** The group named in a message: MULTICAST:addr:port:group_id. *)
Definition parse_invitation (msg : list byte) : run (option (list byte * Z * Z)) :=
  if bool_decide (find MULTICAST_WORD msg = Some 0%nat) then
    let pos1 := 10%nat in
    let pos2 := find_from (cstr ":"%string) msg pos1 in
    let pos3 := find_from (cstr ":"%string) msg (match pos2 with Some p => p + 1 | None => 0 end)%nat in
    match pos2, pos3 with
    | Some pos2, Some pos3 =>
        addr ← substr msg pos1 (Some (pos2 - pos1))%nat;
        port_str ← substr msg (pos2 + 1) (Some (pos3 - pos2 - 1))%nat;
        port ← stoi port_str;
        id_str ← substr msg (pos3 + 1) None;
        id ← stoi id_str;
        Ok (Some (addr, u16 port, u32 id))
    | _, _ => Ok None
    end
  else Ok None.

(** [join] are the results of the system calls of join_group, [thread] that of
    pthread_create. *)
Definition join_named (s : mc_app) (join : McClient.os_join) (thread : Z) (addr : list byte) (port id : Z) : mc_app :=
  let s := s <| g_mc_addr := addr |> <| g_mc_port := port |> <| g_mc_group_id := id |> in
  match g_mc_client s with
  | Some _ => s
  | None =>
      let c := McClient.set_message_callback McClient.new_mc true in
      let '(c, _, ret) := McClient.join_group c addr port id join in
      s <| g_mc_client := Some (if ret =? 0 then (McClient.mc_start c thread).1 else c) |>
  end.

Definition mc_client_event_callback (join : McClient.os_join) (thread : Z) (s : mc_app)
    (event_type : ClientEvent.eEventType) (msg : list byte) : run mc_app :=
  match event_type with
  | ClientEvent.eConnect => Ok (s <| g_connected := true |>)
  | ClientEvent.eDisconnect => Ok (s <| g_connected := false |> <| g_running := false |>)
  | ClientEvent.eRcvMsg =>
      let s := s <| g_perf := count_received (g_perf s) (zlen msg) |> in
      info ← parse_invitation msg;
      Ok (match info with Some (addr, port, id) => join_named s join thread addr port id | None => s end)
  | _ => Ok s
  end.

(** The second program counts what it receives. *)
Definition plain_client_event_callback (s : mc_app) (event_type : ClientEvent.eEventType) (msg : list byte)
  : run mc_app :=
  match event_type with
  | ClientEvent.eConnect => Ok (s <| g_connected := true |>)
  | ClientEvent.eDisconnect => Ok (s <| g_connected := false |> <| g_running := false |>)
  | ClientEvent.eRcvMsg => Ok (s <| g_perf := count_received (g_perf s) (zlen msg) |>)
  | _ => Ok s
  end.

(** ** main *)

Definition callback := mc_app -> ClientEvent.eEventType -> list byte -> run mc_app.

Fixpoint app_events (cb : callback) (s : mc_app) (effs : list client_effect) : run mc_app :=
  match effs with
  | [] => Ok s
  | Notify _ ty msg :: effs => s ← cb s ty msg; app_events cb s effs
  | Sent _ :: effs => app_events cb s effs
  end.

(** One round of the sending loop: [dis] are the random numbers, [now] the clock and
    [r] what recv finds. *)
Definition send_round (cb : callback) (msg_size : Z) (s : mc_app) (c : kcp_client (K := K))
    (dis : nat -> Z) (now : Z) (r : recv_result) : run (mc_app * kcp_client (K := K)) :=
  let msg := generate_random_message dis msg_size in
  let c := client_send_msg c msg in
  let s := s <| g_perf := count_sent (g_perf s) (zlen msg) |> in
  '(c, eff) ← client_update c now r;
  s ← app_events cb s eff;
  Ok (s, c).

(** The loop ends when the callback says so; [env] holds what each round meets. *)
Fixpoint main_loop (cb : callback) (msg_size : Z) (s : mc_app) (c : kcp_client (K := K))
    (env : list ((nat -> Z) * Z * recv_result)) : run mc_app :=
  if negb (g_running s) || negb (g_connected s) then
    Ok (match g_mc_client s with
        | Some m => s <| g_mc_client := Some (McClient.mc_stop m).1.1 |>
        | None => s
        end)
  else
    match env with
    | [] => Undef
    | (dis, now, r) :: env =>
        '(s, c) ← send_round cb msg_size s c dis now r; main_loop cb msg_size s c env
    end.

(** What the program does: it exits with a code, or runs its loop to the end and
    exits with 0.  Between connect_async and the wait no other thread exists, and the
    waiting thread is the only one that could call update(). *)
Inductive outcome := Exited (code : Z) | Finished (s : mc_app).

Definition int_arg (argv : list (list byte)) (i : nat) (dflt : Z) : run Z :=
  match argv !! i with Some a => stoi a | None => Ok dflt end.

Definition client_main (cb : callback) (argv : list (list byte)) (os : os_connect) (now : Z)
    (env : list ((nat -> Z) * Z * recv_result)) : run outcome :=
  if (length argv <? 4)%nat then Ok (Exited 1)
  else
    local_port ← int_arg argv 1 0;
    server_port ← int_arg argv 3 0;
    msg_size ← int_arg argv 4 1024;
    send_interval_ms ← int_arg argv 5 100;
    let s := new_app in
    let c := set_event_callback new_client in
    let '(c, ret) := connect_async c local_port (default [] (argv !! 2%nat)) server_port os now in
    if ret <? 0 then Ok (Exited 1)
    else if negb (g_connected s) then Ok (Exited 1)
    else
      let s := s <| g_perf := cstats_reset (g_perf s) |> in
      s ← main_loop cb msg_size s c env; Ok (Finished s).

Definition udp_client_main (join : McClient.os_join) (thread : Z) :=
  client_main (mc_client_event_callback join thread).
Definition plain_client_main := client_main plain_client_event_callback.
End McClientApp.

(** ** The invitation is read back *)

Lemma to_string_no n b : 0 <= n -> is_digit b = false -> b ∉ to_string n.
Proof. intros Hn Hb. apply not_digit_notin; [by apply print_dec_digits|done]. Qed.

Lemma stoi_to_string n : 0 <= n < 18446744073709551616 ->
  stoi (to_string n) = if n <? 2147483648 then Ok n else Abort.
Proof.
  intros Hn. rewrite <- (app_nil_r (to_string n)). apply stoi_print; [|lia|done].
  change (10 ^ Z.of_nat 20) with 100000000000000000000. lia.
Qed.

Lemma parse_invitation_info addr port id :
  plain_address addr -> 0 <= port < 65536 -> 0 <= id < 4294967296 ->
  parse_invitation (multicast_info addr port id)
    = if id <? 2147483648 then Ok (Some (addr, port, id)) else Abort.
Proof.
  intros (_ & Hcol & _) Hport Hid. unfold parse_invitation, multicast_info.
  rewrite find_here, bool_decide_eq_true_2 by done.
  set (tail3 := cstr ":"%string ++ to_string id). set (tail2 := cstr ":"%string ++ to_string port ++ tail3).
  change (cstr ":"%string ++ to_string port ++ cstr ":"%string ++ to_string id) with tail2.
  assert (find_from (cstr ":"%string) (MULTICAST_WORD ++ addr ++ tail2) 10 = Some (10 + length addr)%nat) as ->.
  { rewrite find_from_app by done. unfold tail2. change (cstr ":"%string) with ([Byte.x3a]).
    by rewrite (find_behind Byte.x3a [] addr) by done. }
  assert (MULTICAST_WORD ++ addr ++ tail2 = (MULTICAST_WORD ++ addr ++ cstr ":"%string) ++ to_string port ++ tail3) as E2
    by (unfold tail2; by rewrite <- !app_assoc).
  assert (length (MULTICAST_WORD ++ addr ++ cstr ":"%string) = (10 + length addr + 1)%nat) as L2
    by (rewrite !length_app; change (length MULTICAST_WORD) with 10%nat; change (length (cstr ":"%string)) with 1%nat; lia).
  assert (find_from (cstr ":"%string) (MULTICAST_WORD ++ addr ++ tail2) (10 + length addr + 1)
    = Some (10 + length addr + 1 + length (to_string port))%nat) as ->.
  { rewrite E2, find_from_app by done. unfold tail3. change (cstr ":"%string) with ([Byte.x3a]).
    by rewrite (find_behind Byte.x3a [] (to_string port)) by (apply to_string_no; [lia|done]). }
  rewrite (substr_middle MULTICAST_WORD addr tail2 10 (10 + length addr - 10)) by (done || lia). cbn [mbind run_bind].
  rewrite E2 at 1. rewrite (substr_middle _ (to_string port) tail3 (10 + length addr + 1)) by (lia || done). cbn [mbind run_bind].
  rewrite stoi_to_string, (proj2 (Z.ltb_lt port _)) by lia. cbn [mbind run_bind].
  assert (MULTICAST_WORD ++ addr ++ tail2
    = ((MULTICAST_WORD ++ addr ++ cstr ":"%string) ++ to_string port ++ cstr ":"%string) ++ to_string id) as ->
    by (unfold tail2, tail3; by rewrite <- !app_assoc).
  rewrite substr_end by (rewrite (length_app (MULTICAST_WORD ++ _)), L2, length_app; change (length (cstr ":"%string)) with 1%nat; lia).
  cbn [mbind run_bind]. rewrite stoi_to_string by lia. case_if; [|done]. cbn [mbind run_bind].
  rewrite u16_small, u32_small by lia. done.
Qed.

Definition join_succeeds (join : McClient.os_join) : Prop :=
  0 <= McClient.j_socket join /\ 0 <= McClient.j_reuse join /\ 0 <= McClient.j_getfl join /\
  0 <= McClient.j_setfl join /\ 0 <= McClient.j_bind join /\ 0 <= McClient.j_member join.

Lemma join_named_fresh (a : mc_app) join addr port id :
  g_mc_client a = None -> join_succeeds join ->
  exists c, g_mc_client (join_named a join 0 addr port id) = Some c /\ McClient.running c = true /\
    g_mc_group_id (join_named a join 0 addr port id) = id /\
    McClient.mc_groups c = {[id := McClient.mkInfo addr port (McClient.j_socket join) 0]}.
Proof.
  intros Ha (H1 & H2 & H3 & H4 & H5 & H6). unfold join_named. cbn [g_mc_client update]. rewrite Ha.
  unfold McClient.join_group. cbn [McClient.mc_groups McClient.set_message_callback McClient.new_mc]. rewrite lookup_empty.
  rewrite (proj2 (Z.ltb_ge (McClient.j_socket join) 0)), (proj2 (Z.ltb_ge (McClient.j_reuse join) 0)),
    (proj2 (Z.ltb_ge (McClient.j_getfl join) 0)), (proj2 (Z.ltb_ge (McClient.j_setfl join) 0)),
    (proj2 (Z.ltb_ge (McClient.j_bind join) 0)), (proj2 (Z.ltb_ge (McClient.j_member join) 0)) by done.
  cbn. eauto.
Qed.

Lemma join_named_again (a : mc_app) join thread addr port id c :
  g_mc_client a = Some c -> g_mc_client (join_named a join thread addr port id) = Some c.
Proof. intros Ha. unfold join_named. cbn [g_mc_client update]. by rewrite Ha. Qed.

Section McClientThms.
Context {K : Type} `{KS : KcpSession K} {T : Type} `{DT : DeadlineTimer T}.


Lemma main_exits cb argv os now env :
  client_main (K := K) cb argv os now env = Ok (Exited 1) \/ client_main (K := K) cb argv os now env = Abort.
Proof.
  unfold client_main. destruct (length argv <? 4)%nat; [by left|].
  assert (forall i d, (exists z, int_arg argv i d = Ok z) \/ int_arg argv i d = Abort) as Harg.
  { intros i d. unfold int_arg. destruct (argv !! i) as [x|]; [|eauto]. unfold stoi.
    repeat (case_match; eauto). }
  destruct (Harg 1%nat 0) as [[z1 ->]| ->]; cbn [mbind run_bind]; [|by right].
  destruct (Harg 3%nat 0) as [[z2 ->]| ->]; cbn [mbind run_bind]; [|by right].
  destruct (Harg 4%nat 1024) as [[z3 ->]| ->]; cbn [mbind run_bind]; [|by right].
  destruct (Harg 5%nat 100) as [[z4 ->]| ->]; cbn [mbind run_bind]; [|by right].
  left. match goal with |- context [connect_async ?a ?b ?c ?d ?e ?f] => destruct (connect_async a b c d e f) as [c' ret] end.
  by destruct (ret <? 0).
Qed.

(** The client programs cannot connect.  Whatever the arguments and whatever the
    network does, main of either program ends with exit code 1 or with the exception
    of a malformed number: it waits for the connect event before anything has called
    update(), from which alone that event can come. *)
Theorem client_never_connects join thread argv os now env :
  (udp_client_main (K := K) join thread argv os now env = Ok (Exited 1) \/
   udp_client_main (K := K) join thread argv os now env = Abort) /\
  (plain_client_main (K := K) argv os now env = Ok (Exited 1) \/
   plain_client_main (K := K) argv os now env = Abort).
Proof. split; apply main_exits. Qed.
End McClientThms.

#[local] Existing Instance demo_session.

Definition demo_addr_text (a : Z) : list byte := cstr "239.255.0.1"%string.

Lemma demo_addr_plain x : plain_address (demo_addr_text x).
Proof. unfold plain_address. split_and!; by apply (bool_decide_unpack _); vm_compute. Qed.

Definition demo_mc_args : list (list byte) :=
  (cstr "multicast_server"%string) :: (cstr "0.0.0.0"%string) :: (cstr "12345"%string) ::
  (cstr "239.255.0.1"%string) :: [cstr "30000"%string].

