(* ===== verification/McTestServer.v ===== *)
(** * The multicast test server

    Models src/multicast_test_server/multicast_server.cpp: a server that puts every
    client into one group and sends to the group what clients send it behind the word
    "echo:".  The functions on groups it calls are not declared by server.hpp; they are
    the class [GroupServer], with what the program needs of them in [GroupLaws].  The
    member lists of src/server_lib/multicast_manager.cpp are an instance. *)

From stdpp Require Import gmap sorting.
From Stdlib Require Strings.String.
Import Strings.String.StringSyntax.
#[local] Delimit Scope string_scope with string.
From S2P Require Import Prelude Codec KcpState ConnectPacket KcpSession Server ServerThms ServerEvents Client Multicast.
From S2P Require Import ServerFacade StdString McServerApp McClientApp.

(** ** The functions on groups *)

(** [gs_send] returns what is passed to which conversation. *)
Class GroupServer (S : Type) := {
  gs_create : S -> S * Z;
  gs_add : S -> Z -> Z -> S;
  gs_remove : S -> Z -> Z -> S;
  gs_send : S -> Z -> list byte -> S * list (Z * list byte)
}.

(** [gs_members] is [None] for an unknown group, [gs_online] the conversations that
    have a connection. *)
Class GroupLaws (S : Type) `{GroupServer S} := {
  gs_members : S -> Z -> option (gset Z);
  gs_online : S -> gset Z;
  gs_add_members s id conv : gs_members (gs_add s id conv) id = (fun m => {[conv]} ∪ m) <$> gs_members s id;
  gs_remove_members s id conv : gs_members (gs_remove s id conv) id = (fun m => m ∖ {[conv]}) <$> gs_members s id;
  gs_send_members s id msg : gs_members (gs_send s id msg).1 id = gs_members s id;
  gs_send_spec s id msg mem conv m : gs_members s id = Some mem ->
    (conv, m) ∈ (gs_send s id msg).2 <-> m = msg /\ conv ∈ mem /\ conv ∈ gs_online s
}.

(** ** The program *)

Section TestServer.
Context {S : Type} `{GroupServer S}.

Record test_server := mkTestServer {
  ts_server : S;
  ts_perf_stats : PerfStats;
  ts_client_info : gmap Z (list byte);
  ts_group_id : Z
}.

Definition test_event_callback (s : test_server) (conv : Z) (event_type : eEventType) (msg : option (list byte))
  : run (test_server * list (Z * list byte)) :=
  let '(mkTestServer srv perf info group) := s in
  match event_type with
  | eConnect =>
      let info := <[conv := default (cstr "unknown"%string) msg]> info in
      Ok (mkTestServer (if negb (group =? 0) then gs_add srv group conv else srv) perf info group, [])
  | eDisconnect =>
      let info := delete conv info in
      Ok (mkTestServer (if negb (group =? 0) then gs_remove srv group conv else srv) perf info group, [])
  | eRcvMsg =>
      match msg with
      | None => Ok (s, [])
      | Some m =>
          let perf := stats_count perf (zlen m) in
          if negb (group =? 0) && bool_decide (find ECHO_WORD m = Some 0%nat) then
            echo_msg ← substr m 5 None;
            let '(srv, out) := gs_send srv group echo_msg in
            Ok (mkTestServer srv perf info group, out)
          else Ok (mkTestServer srv perf info group, [])
      end
  | _ => Ok (s, [])
  end.

(** Events one after another, as pairs of conversation, type and text. *)
Fixpoint test_events (s : test_server) (evs : list (Z * eEventType * option (list byte)))
  : run (test_server * list (Z * list byte)) :=
  match evs with
  | [] => Ok (s, [])
  | (conv, ty, msg) :: evs =>
      '(s, o1) ← test_event_callback s conv ty msg;
      '(s, o2) ← test_events s evs; Ok (s, o1 ++ o2)
  end.

(** main up to io_service.run(): the exit code, or the server that runs.  [srv] is
    the server just created. *)
Definition test_main (argv : list (list byte)) (srv : S) : Z + test_server :=
  if negb (zlen argv =? 3) then inl 1
  else
    let '(srv, group) := gs_create srv in
    inr (mkTestServer srv (stats_reset (mkStats 0 0)) ∅ group).
End TestServer.
#[global] Arguments test_server : clear implicits.

(** ** The group holds the clients *)

Section Laws.
Context {S : Type} `{GL : GroupLaws S}.
Implicit Types (s : test_server S).

Definition group_is_clients s : Prop :=
  ts_group_id s <> 0 /\ gs_members (ts_server s) (ts_group_id s) = Some (dom (ts_client_info s)).

Lemma callback_keeps_group s conv ty msg s' out :
  group_is_clients s -> test_event_callback s conv ty msg = Ok (s', out) ->
  group_is_clients s' /\ ts_group_id s' = ts_group_id s.
Proof.
  destruct s as [srv perf info group]. intros [Hid Hm] Hrun. unfold group_is_clients in *. cbn in *.
  rewrite (proj2 (Z.eqb_neq group 0) Hid) in Hrun. destruct ty; cbn [negb andb] in Hrun.
  - apply Ok_inj in Hrun as [= -> ->]. cbn. split; [|done]. split; [done|].
    by rewrite gs_add_members, Hm, dom_insert_L.
  - apply Ok_inj in Hrun as [= -> ->]. cbn. split; [|done]. split; [done|].
    by rewrite gs_remove_members, Hm, dom_delete_L.
  - destruct msg as [m|]; [|by apply Ok_inj in Hrun as [= -> ->]]. case_if_in Hrun; [|by apply Ok_inj in Hrun as [= -> ->]].
    apply run_bind_Ok in Hrun as (echo & _ & Hrun). pose proof (gs_send_members srv group echo) as Hs.
    destruct (gs_send srv group echo) as [srv' o]. apply Ok_inj in Hrun as [= -> ->]. cbn in *. by rewrite Hs, Hm.
  - by apply Ok_inj in Hrun as [= -> ->].
  - by apply Ok_inj in Hrun as [= -> ->].
Qed.

(** Through any events the members of the group are the clients the program lists. *)
Theorem members_are_clients s evs s' out :
  group_is_clients s -> test_events s evs = Ok (s', out) -> group_is_clients s'.
Proof.
  revert s out. induction evs as [|[[conv ty] msg] evs IH]; intros s out Hs Hrun; cbn [test_events] in Hrun.
  - by apply Ok_inj in Hrun as [= -> _].
  - apply run_bind_Ok in Hrun as ([s1 o1] & H1 & Hrun). apply run_bind_Ok in Hrun as ([s2 o2] & H2 & Hrun).
    apply Ok_inj in Hrun as [= -> _]. eapply IH; [|exact H2]. by eapply callback_keeps_group.
Qed.

(** A message made by the test client, of at least the length of the prefix, reaches
    exactly the listed clients that are connected, without the prefix. *)
Theorem echo_reaches_clients s conv dis size :
  group_is_clients s ->
  let msg := generate_random_message dis size in
  exists s' out, test_event_callback s conv eRcvMsg (Some msg) = Ok (s', out) /\
    total_msgs (ts_perf_stats s') = u64 (total_msgs (ts_perf_stats s) + 1) /\
    forall c m, (c, m) ∈ out <-> m = drop 5 msg /\ is_Some (ts_client_info s !! c) /\ c ∈ gs_online (ts_server s).
Proof.
  destruct s as [srv perf info group]. intros [Hid Hm] msg. assert (exists body, msg = ECHO_WORD ++ body) as [body ->] by (by eexists).
  cbn -[ECHO_WORD app drop] in *. rewrite (proj2 (Z.eqb_neq group 0) Hid). rewrite find_here, bool_decide_eq_true_2 by done. cbn [negb andb].
  rewrite (substr_end ECHO_WORD body 5) by done. cbn [mbind run_bind].
  pose proof (fun c m => gs_send_spec srv group body _ c m Hm) as Hs.
  destruct (gs_send srv group body) as [srv' out]. cbn [snd] in Hs. eexists _, out. split; [reflexivity|]. split; [done|].
  intros c m. rewrite Hs, elem_of_dom. by rewrite (drop_app_length' ECHO_WORD body 5).
Qed.

(** The events the server library reports in a step. *)
Definition reported (eff : list effect) : list (Z * eEventType * option (list byte)) :=
  omap (fun e => match e with Event conv ty msg => Some (conv, ty, Some msg) | _ => None end) eff.

(** The server library never reports a client's arrival: whatever it does in a step,
    a program without clients still has none, and sends nothing to anybody. *)
Theorem no_client_is_added {K} `{KcpSession K} s (m m' : manager (K := K)) eff s' out :
  keys_ok m -> server_step m eff m' -> group_is_clients s -> ts_client_info s = ∅ ->
  test_events s (reported eff) = Ok (s', out) -> ts_client_info s' = ∅ /\ out = [].
Proof.
  intros Hk Hstep Hs Hi. pose proof (so_live _ _ _ (server_step_ok _ _ _ Hk Hstep)) as Hl.
  assert (forall cv ty msg, Event cv ty msg ∈ eff -> ty = eRcvMsg \/ ty = eDisconnect) as Hty.
  { intros cv ty msg Hin. destruct (Hl cv ty msg Hin) as [_ [->|[-> _]]]; auto. }
  clear Hl Hstep. revert s out Hs Hi. induction eff as [|[to d|cv ty msg] eff IH]; intros s out Hs Hi Hrun; cbn in Hrun.
  - by apply Ok_inj in Hrun as [= -> ->].
  - eapply IH; try done. intros c t x Hin. apply (Hty c t x). by right.
  - apply run_bind_Ok in Hrun as ([s1 o1] & H1 & Hrun). apply run_bind_Ok in Hrun as ([s2 o2] & H2 & Hrun).
    apply Ok_inj in Hrun as [= -> ->]. pose proof (callback_keeps_group _ _ _ _ _ _ Hs H1) as [Hs1 _].
    assert (ts_client_info s1 = ∅ /\ o1 = []) as [Hi1 ->].
    { destruct s as [srv perf info group]. destruct Hs as [Hid Hm]. cbn in *. subst info.
      rewrite (proj2 (Z.eqb_neq group 0) Hid) in H1.
      destruct (Hty cv ty msg) as [->| ->]; [by left| |]; cbn [negb andb] in H1.
      - case_if_in H1; [|by apply Ok_inj in H1 as [= -> ->]]. apply run_bind_Ok in H1 as (echo & _ & H1).
        pose proof (fun c x => gs_send_spec srv group echo _ c x Hm) as Hsp.
        destruct (gs_send srv group echo) as [srv' o]. apply Ok_inj in H1 as [= -> ->]. split; [done|].
        destruct o as [|[c x] o]; [done|]. destruct (proj1 (Hsp c x)) as (_ & Hin & _); [apply list_elem_of_here|].
        rewrite dom_empty_L in Hin. by apply not_elem_of_empty in Hin.
      - apply Ok_inj in H1 as [= -> ->]. cbn. by rewrite delete_empty. }
    apply (IH (fun c t x Hin => Hty c t x (list_elem_of_further _ _ _ Hin)) s1 o2); done.
Qed.
End Laws.

(** ** The member lists of the server library *)

(** The members with the conversations that have a connection. *)
Definition member_server : Type := Members.MulticastManager * gset Z.

#[export] Instance member_group_server : GroupServer member_server := {
  gs_create := fun s => let '(g, id) := Members.members_create_group s.1 in ((g, s.2), id);
  gs_add := fun s id conv => ((Members.add_member_to_group s.1 id conv).1, s.2);
  gs_remove := fun s id conv => ((Members.remove_member_from_group s.1 id conv).1, s.2);
  gs_send := fun s id msg => (s, Members.members_send_to_group (Some (fun c => bool_decide (c ∈ s.2))) s.1 id msg)
}.

#[export] Program Instance member_group_laws : GroupLaws member_server := {
  gs_members := fun s id => Members.group_members s.1 !! id;
  gs_online := snd
}.
Next Obligation.
  intros [g on] id conv. cbn. unfold Members.add_member_to_group.
  destruct (Members.group_members g !! id) eqn:E; cbn; [by rewrite lookup_insert_eq|by rewrite E].
Qed.
Next Obligation.
  intros [g on] id conv. cbn. unfold Members.remove_member_from_group.
  destruct (Members.group_members g !! id) eqn:E; cbn; [by rewrite lookup_insert_eq|by rewrite E].
Qed.
Next Obligation. done. Qed.
Next Obligation.
  intros [g on] id msg mem conv m. cbn. unfold Members.members_send_to_group. intros ->.
  rewrite list_elem_of_fmap. setoid_rewrite list_elem_of_filter. setoid_rewrite bool_decide_eq_true.
  setoid_rewrite merge_sort_Permutation. setoid_rewrite elem_of_elements. split.
  - intros (c & [= -> ->] & ? & ?). done.
  - intros (-> & ? & ?). by exists conv.
Qed.

(** The program's start: the group it creates is empty, like its list of clients. *)
Lemma test_main_group argv on s :
  test_main argv (Members.new_members, on) = inr s -> group_is_clients s /\ ts_client_info s = ∅.
Proof. unfold test_main. case_match; [done|]. cbn. intros [= <-]. split; [|done]. by split. Qed.
