(* ===== verification/UnitTests.v ===== *)
(** * The repository's unit tests, on the model

    Models src/asio_kcp_utest (connect packets, the thread-safe queue) and
    src/asio_kcp_client_utest (kcp_client_wrap against a running echo server): each
    test is a function that returns the values of its expectations.  The client tests
    run the facade's work thread against the echo server of src/server, a millisecond
    at a time, over a network that loses nothing. *)

From stdpp Require Import gmap.
From Stdlib Require Strings.String.
Import Strings.String.StringSyntax.
#[local] Delimit Scope string_scope with string.
From S2P Require Import Prelude Codec KcpState KcpSystem ConnectPacket KcpSession Server ServerThms Client ClientWrap ClientThms.
From S2P Require Import Multicast ServerFacade ThreadQueue.

#[local] Existing Instance demo_session.

(** ** connect_packet_test.cpp *)

(** The buffer of a std::string ends with a NUL. *)
Definition test_connect_packet : list bool :=
  let packet := making_connect_packet in [is_connect_packet packet (zlen packet)].

Definition test_send_back_conv : list bool :=
  let packet := making_send_back_conv_packet 232 in
  [is_send_back_conv_packet packet (zlen packet);
   match grab_conv_from_send_back_conv_packet (packet ++ [Byte.x00]) with Ok c => c =? 232 | _ => false end].

(** ** threadsafe_queue_test.cpp *)

Definition test_grab_all : list bool :=
  let queue := new_queue in
  let '(queue, l0) := ThreadQueue.grab_all queue in
  let queue := ThreadQueue.push queue (cstr "111111111111"%string) in
  let queue := ThreadQueue.push queue (cstr "22222222222222"%string) in
  let '(queue, l2) := ThreadQueue.grab_all queue in
  [zlen l0 =? 0; zlen l2 =? 2; ThreadQueue.size queue =? 0].

(** With nothing in the queue the consumer sleeps until the other thread pushes. *)
Definition test_wait_and_grab_all : list bool :=
  let queue := ThreadQueue.push new_queue (cstr "111111111111"%string) in
  let queue := ThreadQueue.push queue (cstr "22222222222222"%string) in
  let '(queue, l2) := wait_and_grab_all queue in
  let '(queue2, none) := wait_and_grab_all new_queue in
  let queue2 := ThreadQueue.push queue2 (cstr "111111111111"%string) in
  let '(queue2, l1) := wake Take_all queue2 in
  [match l2 with Some l => zlen l =? 2 | None => false end; ThreadQueue.size queue =? 0;
   match none with None => true | _ => false end;
   match l1 with Some l => zlen l =? 1 | None => false end; ThreadQueue.size queue2 =? 0].

(** ** A local network *)

(** The facade and the server process, if one listens; the datagrams on their way; the
    members of the test's class Client. *)
Record test_client := mkTestClient {
  last_conv_ : Z;
  last_event_type_ : ClientEvent.eEventType;
  last_msg_ : list byte
}.
Definition new_test_client : test_client := mkTestClient 0 ClientEvent.eNotSet [].
Definition do_client_event_callback (conv : Z) (event_type : ClientEvent.eEventType) (msg : list byte) : test_client :=
  mkTestClient conv event_type msg.

Record lan := mkLan {
  lan_net : kcp_client_wrap (K := ikcpcb);
  lan_server : option (kcp_server (K := ikcpcb) (T := nat));
  lan_up : list (list byte);
  lan_down : list (list byte);
  lan_client : test_client;
  lan_now : Z
}.

Fixpoint server_takes (srv : kcp_server (K := ikcpcb) (T := nat)) (up : list (list byte)) : run (kcp_server * list effect) :=
  match up with
  | [] => Ok (srv, [])
  | d :: up => '(srv, e1) ← echo_receive srv false d demo_client; '(srv, e2) ← server_takes srv up; Ok (srv, e1 ++ e2)
  end.

Definition server_tick (srv : kcp_server (K := ikcpcb) (T := nat)) (now : Z) : run (kcp_server * list effect) :=
  let mgr := connection_manager_ptr srv in
  '(mgr, eff) ← handle_kcp_time mgr now (map_to_list (mg_conns mgr));
  srv ← run_events (mkServer mgr (multicast_manager_ptr srv)) eff;
  Ok (srv, eff).

Definition datagrams (eff : list effect) : list (list byte) :=
  omap (fun e => match e with Udp_send _ d => Some d | _ => None end) eff.

(** The client's effects: what it sends, and the last event. *)
Fixpoint client_acts (eff : list client_effect) (up : list (list byte)) (c : test_client) : list (list byte) * test_client :=
  match eff with
  | [] => (up, c)
  | Sent d :: eff => client_acts eff (up ++ [d]) c
  | Notify conv ty msg :: eff => client_acts eff up (do_client_event_callback conv ty msg)
  end.

(** One millisecond: the server takes what has arrived and ticks every fifth, the
    work thread runs once. *)
Definition lan_step (l : lan) : run lan :=
  let '(mkLan net srv up down c now) := l in
  '(srv, down) ←
    (match srv with
     | None => Ok (None, down)
     | Some s =>
         '(s, e1) ← server_takes s up;
         '(s, e2) ← (if now mod 5 =? 0 then server_tick s now else Ok (s, []));
         Ok (Some s, down ++ datagrams e1 ++ datagrams e2)
     end);
  let due := (u64 (now - kcp_last_update_clock net) >=? KCP_UPDATE_INTERVAL) in
  let r := match down with d :: _ => if due then Received d else Recv_failed EAGAIN | [] => Recv_failed EAGAIN end in
  '(net, eff, _) ← workthread_iter net now r;
  let '(up, c) := client_acts eff [] c in
  Ok (mkLan net srv up (if due then tail down else down) c (now + 1)).

Fixpoint lan_run (ms : nat) (l : lan) : run lan :=
  match ms with O => Ok l | S ms => l ← lan_step l; lan_run ms l end.

(** The running server: it was started with the tests. *)
Definition test_server_process : kcp_server (K := ikcpcb) (T := nat) := server_set_callback (new_server 1000).

(** connect(): until the server's answer is there the loop finds nothing to read. *)
Definition lan_connect (cb : bool) (bind : Z) : run (lan * option Z) :=
  let net := if cb then wrap_set_event_callback new_wrap else new_wrap in
  '(srv, eff) ← echo_receive test_server_process false making_connect_packet demo_client;
  let env := (10000, Recv_failed EAGAIN) :: ((fun d => (10001, Received d)) <$> datagrams eff) in
  '(net, eff, ret) ← wrap_connect net bind (cstr "127.0.0.1"%string) 32323 demo_os 10000 env 0 10002;
  Ok (mkLan net (Some srv) [] [] (client_acts eff [] new_test_client).2 10002, ret).

Definition lan_connect_async (cb : bool) (srv : option kcp_server) : run (lan * Z) :=
  let net := if cb then wrap_set_event_callback new_wrap else new_wrap in
  '(net, ret) ← wrap_connect_async net 0 (cstr "127.0.0.1"%string) (if srv then 32323 else 11113) demo_os 10000 0 10000;
  Ok (mkLan net srv [] [] new_test_client 10000, ret).

Definition lan_send (msg : list byte) (l : lan) : lan :=
  mkLan (wrap_send_msg (lan_net l) msg) (lan_server l) (lan_up l) (lan_down l) (lan_client l) (lan_now l).

(** ** kcp_client_wrap_test.cpp *)

Definition digits : list byte := cstr "1234567890"%string.
Definition conv_of (l : lan) : Z := match p_kcp (w_client (lan_net l)) with Some k => conv k | None => 0 end.
Definition worker_runs (l : lan) : list bool := [negb (workthread_stopped (lan_net l)); workthread_start (lan_net l)].

Definition test_BindPort : run (list bool) :=
  '(l, ret) ← lan_connect false 31111; Ok [bool_decide (ret = Some 0); conv_of l >? 1000].
Definition test_NoBindPort : run (list bool) :=
  '(l, ret) ← lan_connect false 0; Ok [bool_decide (ret = Some 0); conv_of l >? 1000].

Definition test_SendRecv : run (list bool) :=
  '(l, ret) ← lan_connect true 0;
  l1 ← lan_run 10 l;
  l2 ← lan_run 510 (lan_send digits l1);
  Ok ([bool_decide (ret = Some 0)] ++ worker_runs l1 ++
      [last_conv_ (lan_client l2) =? conv_of l2; bool_decide (last_event_type_ (lan_client l2) = ClientEvent.eRcvMsg);
       bool_decide (last_msg_ (lan_client l2) = digits)]).

(** Nobody listens; the loop that waits for the event is over in the sixth second. *)
Definition test_ConnectAsync_Failed : run (list bool) :=
  '(l, ret) ← lan_connect_async true None;
  l1 ← lan_run 1000 l;
  l2 ← lan_run 5000 l1;
  Ok ([ret =? 0] ++ worker_runs l1 ++ [bool_decide (last_event_type_ (lan_client l2) = ClientEvent.eConnectFailed)]).

Definition test_ConnectAsyncWithCallback_Success : run (list bool) :=
  '(l, ret) ← lan_connect_async true (Some test_server_process);
  l1 ← lan_run 510 l;
  l2 ← lan_run 510 (lan_send digits l1);
  Ok ([ret =? 0] ++ worker_runs l1 ++
      [bool_decide (last_event_type_ (lan_client l1) = ClientEvent.eConnect); bool_decide (last_msg_ (lan_client l2) = digits)]).

Definition test_ConnectAsyncWithoutCallback_Failed : run (list bool) :=
  '(l, ret) ← lan_connect_async false None;
  l1 ← lan_run 6000 l;
  Ok ([ret =? 0; negb (connect_result (lan_net l1) =? 1)] ++ worker_runs l1 ++
      [connect_result (lan_net l1) =? KCP_ERR_KCP_CONNECT_TIMEOUT]).

Definition test_ConnectAsyncWithoutCallback_Succeed : run (list bool) :=
  '(l, ret) ← lan_connect_async false (Some test_server_process);
  l1 ← lan_run 510 l;
  Ok [ret =? 0; connect_result (lan_net l1) =? 0].

(** ** They pass *)

Definition passed (r : run (list bool)) : bool := match r with Ok l => forallb id l | _ => false end.

Lemma unit_tests_pass :
  forallb id (test_connect_packet ++ test_send_back_conv ++ test_grab_all ++ test_wait_and_grab_all) = true.
Proof. vm_compute. reflexivity. Qed.

Lemma connect_tests_pass : passed test_BindPort && passed test_NoBindPort && passed test_ConnectAsync_Failed
  && passed test_ConnectAsyncWithoutCallback_Failed && passed test_ConnectAsyncWithoutCallback_Succeed = true.
Proof. vm_compute. reflexivity. Qed.

Lemma echo_tests_pass : passed test_SendRecv && passed test_ConnectAsyncWithCallback_Success = true.
Proof. vm_compute. reflexivity. Qed.
